(* ===== verification/_CoqProject ===== *)
-Q . S2P
Prelude.v
CMem.v
LibString.v
Ports.v
I8259.v
Screen.v
Format.v
Process.v
FileSys.v
Paging.v
Idt.v
Rtc.v
KeyTable.v
Keyboard.v
Kernel.v
SysCalls.v
Exec.v
Isr.v
Pit.v
Lifecycle.v
Sched.v
Boot.v
UserLib.v
UserSys.v
Emulate.v
UserProg.v
Blink.v
Pond.v
UserErr.v
UserGrep.v
Fish.v
UserTalk.v
UserSig.v
UserKernel.v
Console.v
Video.v
UserRun.v
