(* ===== verification/Prelude.v ===== *)
(** * A verification library for the kernel of "Linux is Love"

    The program is a small operating system in C: a kernel that boots a PC,
    runs six processes in three terminals, and offers ten system calls over a
    read-only file system, a real-time clock and the terminals
    (src/student-distrib), with the programs that run on it (src/syscalls,
    src/fish).  The library models its C code file by file and proves what the
    parts promise each other.

    ** Reading the model

    - A C integer is a [Z]; where an operation can leave the range of its type
      the model wraps it with [u8], [u16], [u32], [s8], [s16] or [s32].
    - Memory is a finite map from linear addresses to bytes (CMem.v), total
      when read.  Structures the code reaches through pointers into raw memory
      (the file system image, strings, argument buffers, ELF files, multiboot
      information, the arguments of [printf]) are read through it; the kernel's
      own records (PCBs, terminals, descriptors, page tables) are Rocq records
      with the fields of the C structures.  A pointer to a static table is a
      value of an inductive type.
    - The devices are not part of the program.  Drivers are written over the
      class [Board] (Ports.v: [inb], [outb], [cli], [sti]); theorems about what
      reaches the hardware use [pc], a register-level board with a log.
    - What the linker decides is a parameter: [Layout] (page tables), [lit]
      (string literals of a user program), the addresses of stack arrays
      ([printf_frame], [exec_frame], [call_frame]), [beyond] (what follows the
      key table).  What the processor does to memory when CR3 changes is the
      class [Mmu].
    - A function that can go wrong gives an [option] or an [outcome]
      (Kernel.v): [Ret] with a result, [Wait_terminal]/[Wait_rtc] for a call
      that spins until an interrupt, [Enter] for [execute], [Resume] for [halt]
      in the parent, [Fault] for a store outside an object or a null call.
      Blocking calls are split where they wait.

    ** Files, in the order of dependency

    - Prelude.v: machine integers, list and monad lemmas, tactics.
      CMem.v: bytes, little-endian words, blocks, NUL-terminated strings
      ([cstr]), the frame predicate.
    - LibString.v, Format.v, Screen.v: lib.c.  Strings and the assembly
      [memset], [memcpy], [memmove] instruction by instruction; [itoa] and
      [printf]; the text screen and its refinement of an abstract terminal
      ([aterm], [a_putc]).
    - Ports.v, I8259.v, Rtc.v, Pit.v: i8259.c, devices/rtc.c, devices/pit.c.
    - Process.v, FileSys.v, Paging.v, Idt.v: process.c, fs.c, virtualmem.c,
      and x86_desc.h with idt_set.c and the default handlers of isr.c.
    - KeyTable.v, Keyboard.v: devices/keyboard.h and keyboard.c; the line
      discipline is a refinement of a line editor ([edit_key]).
    - Kernel.v: all the components' states side by side ([kernel]), with the
      [pcb] macro as [cur_pcb].  SysCalls.v, Exec.v: sys_calls.c and the
      dispatch of isr_asm.S ([handle_syscall]).  Isr.v: the exceptions.
    - Lifecycle.v: what [execute] and [halt] do together; the invariant of the
      tree of processes.  Sched.v: the processor as a step relation, with the
      process that runs, every system call, tick, interrupt and start of a
      shell a step; invariants over all interleavings that are orderly.
    - Boot.v: kernel.c, from the boot loader to the first shell.
    - UserLib.v: ece391support.c.  UserSys.v: the system calls as a program
      sees them, a class of operations ([UserSys]) with its laws ([UserSpec],
      and [UserInput] for the keyboard) over an abstract [view].  UserProg.v
      (cat, ls, testprint), UserErr.v (syserr), UserGrep.v (grep), UserTalk.v
      (hello, counter, shell, pingpong), UserSig.v (sigtest): the programs,
      verified against the laws.
    - Blink.v: blink.S and the allocator of fish.c, instruction by
      instruction, against records ([blink]); Pond.v: any sequence of its
      calls against a list of blinks ([pond]).  Fish.v: fish.c, over the laws
      and one more for a program that has mapped the screen ([UserVideo]).
    - UserKernel.v, Console.v, Video.v: the kernel, the kernel with somebody
      at the keyboard, and the kernel with a process that mapped the screen
      satisfy the laws; UserRun.v: what the programs therefore do on them.
    - Emulate.v: ece391emulate.c, over Linux and its library ([Host]).

    ** What is proved

    - Processes: a preempted process resumes with its registers and directory
      (Sched.preempted_process_resumes); PCBs, process table and terminals
      form a tree that every call preserves, and the processor's registers,
      TSS and directory are those of the process that runs
      (Lifecycle.process_tree_invariant, Sched.running_process_invariant);
      [execute] and [halt] are inverse for the parent; the scheduler is a
      round robin that runs every terminal.  These are theorems on the runs
      without three situations in which the code loses track: a base shell that
      halts behind a busy screen (it becomes the parent of its successor), and
      a program executed by a process, or a shell by the keyboard's handler,
      while the terminal shown is idle (the interrupted process's registers are
      saved nowhere).  The step relations have these steps; [shell_in_view] and
      [orderly] leave them out, and Sched.hidden_shell_parent and
      Sched.idle_execute_strands prove what they do.
    - Calls: the descriptor table stays well formed, [open]/[close], sequential
      [read]s, [vidmap], [execute]'s rejections; the whole interface as a
      refinement (UserKernel.kernel_refines_calls).
    - Programs on this kernel: what [cat], [ls], [grep], [hello], [counter],
      [shell], [pingpong], [sigtest] and the test program [syserr] print, and
      what [fish] has drawn on the mapped screen when it ends, and the calls
      [pingpong] makes in turn (a logging machine, [logged_sys]); the keyboard's
      interrupts and the wait for a line included where they read.
    - The list of blinks: the assembly refines lists for every sequence of
      commands that adds nothing at cell 0 (Pond.commands_refine_list), and a blink shows its two
      characters by its period (Pond.blink_period).
    - The emulation: the array for [execv] is bounded and holds the words of
      the command; [getargs] undoes [execute].
    - Components: block copies for every overlap, [itoa] and [printf], screens,
      file reads, isolation of process memory, interrupt masks, the clock's
      virtualisation, boot.

    ** Bounds and fuel

    Loops over memory that ends (strings) use [size m] or more as fuel, with a
    totality lemma; the scheduler's search makes three rounds, one per
    terminal; loops of the programs take [fuel] with a hypothesis that relates
    it to the data (a file of [n] bytes is read in [n / 1024 + 1] rounds) and
    the theorems state that the program comes back.  [pingpong] never ends and
    is cut after a number of rounds.  The walks over the list of blinks take
    one step more than there are structures; with a blink at cell 0, which the
    allocator takes for free, the list becomes a cycle and no fuel is enough
    (Blink.cell_zero_loops).

    ** Not modelled

    - boot.S, x86_desc.S and the entry stubs of isr_asm.S are assembly; their
      tables appear as the state [Boot] and [Idt] start from.
    - debug.h is macros that print; test.c is commented out.  What the inline
      assembly of lib.h and x86_desc.h does to the processor is the interface
      of Ports.v and the state of Boot.v.
    - Memory is indexed by linear addresses: that the page of terminal [t] and
      the video address are one frame is a theorem of Paging.v about the
      translation, and is written into memory only where it matters: around
      the keyboard's handler, which echoes into the terminal's own page
      (Console.v), and around the calls of a process that has mapped its page
      (Video.v), where the page and the screen are made equal whenever the
      kernel is entered and left.  Between two calls of a program nothing else
      changes what it sees.  A store of a program outside its 4 MB is modelled
      only where a program makes one ([Faults] of UserSig.v); that the
      processor then enters the handler of Isr.v is the processor's part.
    - Instruction-level concurrency inside a kernel function: the kernel's
      critical sections run with interrupts off, elsewhere steps are whole
      calls and handlers. *)
From Stdlib Require Import Ascii String.
From stdpp Require Export base numbers list gmap option relations.

#[export] Set Default Proof Using "Type".

(** [lia] sees through division and remainder by constants. *)
Ltac Zify.zify_post_hook ::= Z.to_euclidean_division_equations.

(** ** Notations of the development *)

Declare Scope kernel_scope.
Delimit Scope kernel_scope with K.
#[global] Open Scope Z_scope.

(** A string literal as the bytes of its characters. *)
Definition chars (s : string) : list Z := (λ c, Z.of_nat (nat_of_ascii c)) <$> list_ascii_of_string s.

(** ** Machine integers

    A C integer is a [Z]; an operation that can leave the range of its C type
    is followed by the wrap-around of that type. *)

Definition u8 (z : Z) : Z := z `mod` 256.
Definition u16 (z : Z) : Z := z `mod` 65536.
Definition u32 (z : Z) : Z := z `mod` 4294967296.
Definition s8 (z : Z) : Z := (z + 128) `mod` 256 - 128.
Definition s16 (z : Z) : Z := (z + 32768) `mod` 65536 - 32768.
Definition s32 (z : Z) : Z := (z + 2147483648) `mod` 4294967296 - 2147483648.

Notation "'word8' z" := (0 ≤ z < 256) (at level 10, only parsing) : kernel_scope.
Notation "'word16' z" := (0 ≤ z < 65536) (at level 10, only parsing) : kernel_scope.
Notation "'word32' z" := (0 ≤ z < 4294967296) (at level 10, only parsing) : kernel_scope.
Notation "'sword32' z" := (-2147483648 ≤ z < 2147483648)
  (at level 10, only parsing) : kernel_scope.
#[global] Open Scope kernel_scope.

Lemma u8_range z : word8 (u8 z).
Proof. unfold u8. lia. Qed.
Lemma u16_range z : word16 (u16 z).
Proof. unfold u16. lia. Qed.
Lemma u32_range z : word32 (u32 z).
Proof. unfold u32. lia. Qed.
Lemma s32_range z : sword32 (s32 z).
Proof. unfold s32. lia. Qed.
Lemma u8_small z : word8 z → u8 z = z.
Proof. unfold u8. lia. Qed.
Lemma u16_small z : word16 z → u16 z = z.
Proof. unfold u16. lia. Qed.
Lemma u32_small z : word32 z → u32 z = z.
Proof. unfold u32. lia. Qed.
Lemma s32_small z : sword32 z → s32 z = z.
Proof. unfold s32. lia. Qed.
Lemma u8_idemp z : u8 (u8 z) = u8 z.
Proof. unfold u8. lia. Qed.
Lemma u32_s32 z : u32 (s32 z) = u32 z.
Proof. unfold u32, s32. lia. Qed.
Lemma s32_u32 z : s32 (u32 z) = s32 z.
Proof. unfold u32, s32. lia. Qed.
Lemma u8_s8 z : u8 (s8 z) = u8 z.
Proof. unfold u8, s8. lia. Qed.

(** Range facts and range-justified removal of wrap-arounds. *)
Create HintDb cint.
Create Rewrite HintDb cint.
#[export] Hint Resolve u8_range u16_range u32_range s32_range : cint.
#[export] Hint Rewrite u8_idemp u32_s32 s32_u32 u8_s8 : cint.
#[export] Hint Rewrite u8_small u16_small u32_small s32_small using lia : cint.

Ltac unwrap := unfold u8, u16, u32, s8, s16, s32 in *.
(** Decide a linear goal about wrapped integers. *)
Ltac word := unwrap; lia.

(** ** Bits *)

Lemma testbit_pow2_spec n i : 0 ≤ n → Z.testbit (2 ^ n) i = bool_decide (i = n).
Proof.
  intros Hn. rewrite Z.pow2_bits_eqb by done.
  case_bool_decide as H; [subst; apply Z.eqb_refl | apply Z.eqb_neq; lia].
Qed.

Lemma shiftl_1_pow2 n : 0 ≤ n → Z.shiftl 1 n = 2 ^ n.
Proof. intros. rewrite Z.shiftl_mul_pow2 by done. lia. Qed.

Lemma u8_testbit z i : Z.testbit (u8 z) i = bool_decide (i < 8) && Z.testbit z i.
Proof.
  unfold u8. change 256 with (2 ^ 8).
  destruct (decide (0 ≤ i)); [|rewrite !Z.testbit_neg_r by lia; by rewrite andb_false_r].
  case_bool_decide.
  - rewrite Z.mod_pow2_bits_low by lia. done.
  - rewrite Z.mod_pow2_bits_high by lia. done.
Qed.

Lemma testbit_above n w i : 0 ≤ n < 2 ^ w → w ≤ i → Z.testbit n i = false.
Proof.
  intros Hn Hi.
  destruct (decide (n = 0)) as [->|]; [apply Z.bits_0|].
  apply Z.bits_above_log2; [lia|].
  apply Z.lt_le_trans with w; [|done].
  apply Z.log2_lt_pow2; lia.
Qed.

(** A number with its bits below [k] clear and one below [2^k] add up to
    their bitwise or. *)
Lemma lor_add_disjoint a b k :
  0 ≤ k → 0 ≤ b < 2 ^ k → Z.lor (a * 2 ^ k) b = a * 2 ^ k + b.
Proof.
  intros Hk Hb. rewrite <- Z.add_lor_land.
  replace (Z.land (a * 2 ^ k) b) with 0; [lia|].
  symmetry. apply Z.bits_inj'. intros i Hi.
  rewrite Z.land_spec, Z.bits_0.
  destruct (decide (i < k)).
  - rewrite Z.mul_pow2_bits_low by done. done.
  - rewrite (testbit_above b k) by lia. apply andb_false_r.
Qed.

(** Masking off the low [k] bits of a 32-bit word, and keeping them. *)
Lemma land_high x k : 0 ≤ k ≤ 32 → word32 x → Z.land x (2 ^ 32 - 2 ^ k) = x `div` 2 ^ k * 2 ^ k.
Proof.
  intros Hk Hx. replace (2 ^ 32 - 2 ^ k) with (Z.shiftl (Z.ones (32 - k)) k).
  2:{ rewrite Z.shiftl_mul_pow2, Z.ones_equiv by lia.
      pose proof (Z.pow_add_r 2 (32 - k) k ltac:(lia) ltac:(lia)) as H.
      rewrite Z.sub_add in H. rewrite H. unfold Z.pred. ring. }
  rewrite <- Z.shiftr_div_pow2, <- Z.shiftl_mul_pow2 by lia.
  apply Z.bits_inj'. intros i Hi. rewrite Z.land_spec, !Z.shiftl_spec by done.
  destruct (decide (i < k)).
  { rewrite !(Z.testbit_neg_r _ (i - k)) by lia. by rewrite andb_false_r. }
  rewrite Z.shiftr_spec, Z.sub_add by lia. destruct (decide (i < 32)).
  - rewrite Z.ones_spec_low by lia. by rewrite andb_true_r.
  - rewrite (testbit_above x 32) by (change (2 ^ 32) with 4294967296; lia). done.
Qed.

Lemma land_low x k : 0 ≤ k → Z.land x (2 ^ k - 1) = x `mod` 2 ^ k.
Proof. intros Hk. rewrite <- Z.land_ones by done. f_equal. rewrite Z.ones_equiv. lia. Qed.

(** ** Loops

    [for_z lo hi body s] is [for (i = lo; i < hi; i++) body] on the state [s]. *)

Definition for_z {S} (lo hi : Z) (body : Z → S → S) (s : S) : S :=
  foldl (λ st i, body i st) s (seqZ lo (hi - lo)).

#[global] Arguments for_z : simpl never.

Lemma for_z_stop {S} lo hi (body : Z → S → S) s : hi ≤ lo → for_z lo hi body s = s.
Proof. intros. unfold for_z. by rewrite seqZ_nil by lia. Qed.

Lemma for_z_step {S} lo hi (body : Z → S → S) s :
  lo < hi → for_z lo hi body s = for_z (lo + 1) hi body (body lo s).
Proof.
  intros. unfold for_z. rewrite seqZ_cons by lia. simpl.
  by replace (Z.pred (hi - lo)) with (hi - (lo + 1)) by lia.
Qed.

(** The loop rule: an invariant indexed by the loop counter. *)
Lemma for_z_ind {S} (P : Z → S → Prop) lo hi (body : Z → S → S) s :
  lo ≤ hi → P lo s →
  (∀ i st, lo ≤ i < hi → P i st → P (i + 1) (body i st)) →
  P hi (for_z lo hi body s).
Proof.
  intros Hle H0 Hstep.
  remember (Z.to_nat (hi - lo)) as n eqn:Hn.
  revert lo s Hle H0 Hstep Hn. induction n as [|n IH]; intros lo s Hle H0 Hstep Hn.
  - rewrite for_z_stop by lia. by replace hi with lo by lia.
  - rewrite for_z_step by lia. apply IH; [lia| |intros; apply Hstep; auto; lia|lia].
    apply Hstep; [lia|done].
Qed.

(** Two loops run in lock step. *)
Lemma for_z_rel {S T} (R : S → T → Prop) lo hi (b1 : Z → S → S) (b2 : Z → T → T) s t :
  R s t → (∀ i s t, lo ≤ i < hi → R s t → R (b1 i s) (b2 i t)) →
  R (for_z lo hi b1 s) (for_z lo hi b2 t).
Proof.
  intros H0 Hstep. destruct (decide (lo ≤ hi)).
  - remember (Z.to_nat (hi - lo)) as n eqn:Hn.
    revert lo s t l H0 Hstep Hn. induction n as [|n IH]; intros lo s t Hle H0 Hstep Hn.
    + by rewrite !for_z_stop by lia.
    + rewrite (for_z_step lo hi b1), (for_z_step lo hi b2) by lia.
      apply IH; [lia | apply Hstep; [lia|done] | intros; apply Hstep; auto; lia | lia].
  - by rewrite !for_z_stop by lia.
Qed.

(** ** Reachability *)

Section reachability.
Context {S : Type} (init : S → Prop) (step : S → S → Prop).

Definition reachable (s : S) : Prop := ∃ s0, init s0 ∧ rtc step s0 s.

(** An inductive invariant holds of every reachable state. *)
Lemma invariant_reachable (P : S → Prop) :
  (∀ s, init s → P s) → (∀ s s', P s → step s s' → P s') →
  ∀ s, reachable s → P s.
Proof.
  intros Hi Hs s (s0 & H0 & Hr). apply Hi in H0.
  induction Hr; eauto.
Qed.
End reachability.

(** ** Pairs and options

    Inversion that leaves the components as they are ([injection] would
    evaluate a component of type [gmap] to its constructor). *)

Lemma pair_inv {A B} (a c : A) (b d : B) : (a, b) = (c, d) → a = c ∧ b = d.
Proof. by intros [= -> ->]. Qed.
Lemma some_inv {A} (a b : A) : Some a = Some b → a = b.
Proof. by intros [= ->]. Qed.

(** Run the decision procedure of a closed decidable proposition. *)
Ltac vm_decide := refine (bool_decide_eq_true_1 _ _); vm_compute; reflexivity.

(** ** Lists *)

Lemma list_eq_lookup_total {A} `{Inhabited A} (l k : list A) :
  length l = length k → (∀ i, (i < length l)%nat → l !!! i = k !!! i) → l = k.
Proof.
  intros Hlen Heq. apply list_eq_same_length with (length l); [done..|].
  intros i x y Hi Hx Hy. apply list_lookup_total_correct in Hx, Hy.
  subst. auto.
Qed.

Lemma lookup_total_map_seqZ (f : Z → Z) lo n i :
  (i < n)%nat → (f <$> seqZ lo (Z.of_nat n)) !!! i = f (lo + Z.of_nat i).
Proof.
  intros. apply list_lookup_total_correct. rewrite list_lookup_fmap.
  by rewrite (proj2 (lookup_seqZ _ _ _ (lo + Z.of_nat i))) by lia.
Qed.

(** Writing the same value to every element of an array. *)
Lemma for_z_fill_list {A} `{Inhabited A} (l : list A) n v :
  length l = n → for_z 0 (Z.of_nat n) (λ i l, <[Z.to_nat i := v]> l) l = replicate n v.
Proof.
  intros Hl.
  set (r := for_z _ _ _ _).
  assert (length r = n ∧ ∀ j, (j < Z.to_nat (Z.of_nat n))%nat → r !!! j = v) as [H1 H2].
  { refine (for_z_ind (λ i t, length t = n ∧ ∀ j, (j < Z.to_nat i)%nat → t !!! j = v)
      0 (Z.of_nat n) _ l _ _ _).
    - lia.
    - split; [done|lia].
    - intros i st Hi [H1 H2]. rewrite length_insert. split; [done|]. intros j Hj.
      destruct (decide (j = Z.to_nat i)) as [->|].
      + apply list_lookup_total_insert_eq. lia.
      + rewrite list_lookup_total_insert_ne by done. apply H2. lia. }
  rewrite Nat2Z.id in H2.
  apply list_eq_lookup_total; rewrite ?length_replicate; [done|].
  intros i Hi. rewrite H1 in Hi. rewrite H2 by done. by rewrite lookup_total_replicate_2.
Qed.
