(* ===== verification/CMem.v ===== *)
(** * Byte-addressed memory

    The memory a C pointer ranges over: a finite map from addresses to bytes,
    total when read (an address that was never written reads as 0).  Little
    endian words, blocks of bytes, NUL-terminated strings and the frame
    reasoning every component uses. *)
From S2P Require Import Prelude.

Abbreviation mem := (gmap Z Z).

(** A byte load and a byte store. *)
Definition mget (m : mem) (a : Z) : Z := u8 (default 0 (m !! a)).
Definition mset (m : mem) (a v : Z) : mem := <[a := u8 v]> m.

Lemma mget_range m a : word8 (mget m a).
Proof. apply u8_range. Qed.
Lemma mget_mset m a v b : mget (mset m a v) b = if decide (a = b) then u8 v else mget m b.
Proof.
  unfold mget, mset. rewrite lookup_insert. case_decide; simpl; [apply u8_idemp|done].
Qed.
Lemma mget_mset_eq m a v : mget (mset m a v) a = u8 v.
Proof. rewrite mget_mset. by rewrite decide_True. Qed.
Lemma mget_mset_ne m a v b : a ≠ b → mget (mset m a v) b = mget m b.
Proof. intros. rewrite mget_mset. by rewrite decide_False. Qed.

#[export] Hint Resolve mget_range : cint.
#[export] Hint Rewrite mget_mset_eq : cint.
#[export] Hint Rewrite mget_mset_ne using lia : cint.

(** ** Observational equality

    Two memories are equal to the program when every load agrees. *)
Definition mem_eq (m1 m2 : mem) : Prop := ∀ a, mget m1 a = mget m2 a.
Infix "≡ₘ" := mem_eq (at level 70) : kernel_scope.

#[export] Instance mem_eq_equivalence : Equivalence mem_eq.
Proof.
  split; [done | by intros ???? | intros m1 m2 m3 H1 H2 a; by rewrite H1].
Qed.
#[export] Instance mset_proper : Proper (mem_eq ==> eq ==> eq ==> mem_eq) mset.
Proof. intros m1 m2 H a ? <- v ? <- b. rewrite !mget_mset. by case_decide. Qed.
#[export] Instance mget_proper : Proper (mem_eq ==> eq ==> eq) mget.
Proof. intros m1 m2 H a ? <-. apply H. Qed.

(** [frame lo hi m m']: going from [m] to [m'] changes nothing outside
    [lo, hi). *)
Definition frame (lo hi : Z) (m m' : mem) : Prop :=
  ∀ a, ¬ (lo ≤ a < hi) → mget m' a = mget m a.

Lemma frame_refl lo hi m : frame lo hi m m.
Proof. done. Qed.
Lemma frame_trans lo hi m1 m2 m3 : frame lo hi m1 m2 → frame lo hi m2 m3 → frame lo hi m1 m3.
Proof. intros H1 H2 a Ha. by rewrite H2, H1. Qed.
Lemma frame_mset lo hi m a v : lo ≤ a < hi → frame lo hi m (mset m a v).
Proof. intros H b Hb. apply mget_mset_ne. lia. Qed.
Lemma frame_mono lo hi lo' hi' m m' :
  frame lo hi m m' → lo' ≤ lo → hi ≤ hi' → frame lo' hi' m m'.
Proof. intros H ?? a Ha. apply H. lia. Qed.
#[export] Hint Resolve frame_refl frame_mset : cint.

(** ** Blocks of bytes *)

Fixpoint store_bytes (m : mem) (a : Z) (l : list Z) : mem :=
  match l with
  | [] => m
  | v :: l => store_bytes (mset m a v) (a + 1) l
  end.

Fixpoint load_bytes (m : mem) (a : Z) (n : nat) : list Z :=
  match n with
  | O => []
  | S n => mget m a :: load_bytes m (a + 1) n
  end.

Lemma length_load_bytes m a n : length (load_bytes m a n) = n.
Proof. revert a. induction n; intros; simpl; auto. Qed.

Lemma lookup_load_bytes m a n i :
  (i < n)%nat → load_bytes m a n !! i = Some (mget m (a + Z.of_nat i)).
Proof.
  revert a i. induction n as [|n IH]; intros a [|i] Hi; try lia; simpl.
  - by rewrite Z.add_0_r.
  - rewrite IH by lia. do 2 f_equal. lia.
Qed.

Lemma load_bytes_byte m a n : Forall (λ v, word8 v) (load_bytes m a n).
Proof. revert a. induction n; intros; simpl; constructor; auto with cint. Qed.

Lemma mget_store_bytes m a l b :
  mget (store_bytes m a l) b =
    match (if decide (a ≤ b) then l !! Z.to_nat (b - a) else None) with
    | Some v => u8 v
    | None => mget m b
    end.
Proof.
  revert m a. induction l as [|v l IH]; intros m a; simpl.
  - case_decide; by rewrite ?lookup_nil.
  - rewrite IH. repeat case_decide; try lia.
    + replace (Z.to_nat (b - a)) with (S (Z.to_nat (b - (a + 1)))) by lia. simpl.
      case_match; [done|]. rewrite mget_mset_ne by lia. done.
    + assert (b = a) as -> by lia. rewrite Z.sub_diag. simpl. apply mget_mset_eq.
    + rewrite mget_mset_ne by lia. done.
Qed.

Lemma mget_store_bytes_in m a l i v :
  l !! i = Some v → mget (store_bytes m a l) (a + Z.of_nat i) = u8 v.
Proof.
  intros H. rewrite mget_store_bytes. rewrite decide_True by lia.
  replace (Z.to_nat (a + Z.of_nat i - a)) with i by lia. by rewrite H.
Qed.

Lemma mget_store_bytes_out m a l b :
  ¬ (a ≤ b < a + Z.of_nat (length l)) → mget (store_bytes m a l) b = mget m b.
Proof.
  intros H. rewrite mget_store_bytes. case_decide; [|done].
  rewrite lookup_ge_None_2; [done|lia].
Qed.

Lemma frame_store_bytes m a l : frame a (a + Z.of_nat (length l)) m (store_bytes m a l).
Proof. intros b Hb. by apply mget_store_bytes_out. Qed.

Lemma store_bytes_app m a l k :
  store_bytes m a (l ++ k) = store_bytes (store_bytes m a l) (a + Z.of_nat (length l)) k.
Proof.
  revert m a. induction l as [|v l IH]; intros; simpl.
  - by rewrite Z.add_0_r.
  - rewrite IH. f_equal. lia.
Qed.

Lemma mset_comm m a v b w : a ≠ b → mset (mset m a v) b w = mset (mset m b w) a v.
Proof. intros. unfold mset. by apply insert_insert_ne. Qed.

(** A store outside a block commutes with storing the block. *)
Lemma store_bytes_mset_comm m a v b l :
  ¬ (b ≤ a < b + Z.of_nat (length l)) →
  store_bytes (mset m a v) b l = mset (store_bytes m b l) a v.
Proof.
  revert m b. induction l as [|w l IH]; intros m b H; simpl in *; [done|].
  rewrite (mset_comm m a v b w) by lia. apply IH. lia.
Qed.

Lemma load_bytes_app m a n k :
  load_bytes m a (n + k) = load_bytes m a n ++ load_bytes m (a + Z.of_nat n) k.
Proof.
  revert a. induction n as [|n IH]; intros; simpl.
  - by rewrite Z.add_0_r.
  - rewrite IH. do 3 f_equal. lia.
Qed.

Lemma load_bytes_ext m1 m2 a b n :
  (∀ i, 0 ≤ i < Z.of_nat n → mget m1 (a + i) = mget m2 (b + i)) →
  load_bytes m1 a n = load_bytes m2 b n.
Proof.
  revert a b. induction n as [|n IH]; intros a b H; simpl; [done|]. f_equal.
  - specialize (H 0). rewrite !Z.add_0_r in H. apply H. lia.
  - apply IH. intros i Hi. specialize (H (i + 1)).
    replace (a + 1 + i) with (a + (i + 1)) by lia.
    replace (b + 1 + i) with (b + (i + 1)) by lia. apply H. lia.
Qed.

(** Reading back a block that was just stored. *)
Lemma load_store_bytes m a l :
  Forall (λ v, word8 v) l → load_bytes (store_bytes m a l) a (length l) = l.
Proof.
  intros Hl. apply list_eq_same_length with (length l);
    [done | by rewrite length_load_bytes |].
  intros i x y Hi Hx Hy. rewrite lookup_load_bytes in Hx by lia.
  rewrite (mget_store_bytes_in _ _ _ _ y Hy) in Hx.
  rewrite Forall_lookup in Hl. apply Hl in Hy. rewrite u8_small in Hx by lia. congruence.
Qed.

Lemma load_store_bytes_out m a l b n :
  b + Z.of_nat n ≤ a ∨ a + Z.of_nat (length l) ≤ b →
  load_bytes (store_bytes m a l) b n = load_bytes m b n.
Proof.
  intros H. apply load_bytes_ext. intros i Hi. apply mget_store_bytes_out. lia.
Qed.

#[export] Instance load_bytes_proper : Proper (mem_eq ==> eq ==> eq ==> eq) load_bytes.
Proof. intros m1 m2 H a ? <- n ? <-. apply load_bytes_ext. intros. apply H. Qed.
#[export] Instance store_bytes_proper : Proper (mem_eq ==> eq ==> eq ==> mem_eq) store_bytes.
Proof.
  intros m1 m2 H a ? <- l ? <- b. rewrite !mget_store_bytes. by case_match.
Qed.

(** ** Little-endian words *)

Definition load32 (m : mem) (a : Z) : Z :=
  mget m a + 256 * mget m (a + 1) + 65536 * mget m (a + 2) + 16777216 * mget m (a + 3).
Definition store32 (m : mem) (a v : Z) : mem :=
  mset (mset (mset (mset m a v) (a + 1) (v `div` 256)) (a + 2) (v `div` 65536))
       (a + 3) (v `div` 16777216).
(** [int32_t] loads. *)
Definition loads32 (m : mem) (a : Z) : Z := s32 (load32 m a).

Lemma load32_range m a : word32 (load32 m a).
Proof.
  unfold load32.
  pose proof (mget_range m a); pose proof (mget_range m (a + 1));
  pose proof (mget_range m (a + 2)); pose proof (mget_range m (a + 3)). lia.
Qed.
#[export] Hint Resolve load32_range : cint.

Lemma load32_store32 m a v : load32 (store32 m a v) a = u32 v.
Proof.
  unfold load32, store32. rewrite !mget_mset.
  repeat (case_decide; try lia). word.
Qed.

Lemma load32_store32_out m a v b :
  b + 4 ≤ a ∨ a + 4 ≤ b → load32 (store32 m a v) b = load32 m b.
Proof.
  intros H. unfold load32, store32. rewrite !mget_mset.
  repeat (case_decide; try lia).
Qed.

Lemma frame_store32 m a v : frame a (a + 4) m (store32 m a v).
Proof. intros b Hb. unfold store32. rewrite !mget_mset. repeat (case_decide; try lia). Qed.

#[export] Instance load32_proper : Proper (mem_eq ==> eq ==> eq) load32.
Proof. intros m1 m2 H a ? <-. unfold load32. by rewrite !(H _). Qed.
#[export] Instance store32_proper : Proper (mem_eq ==> eq ==> eq ==> mem_eq) store32.
Proof. intros m1 m2 H a ? <- v ? <-. unfold store32. by rewrite H. Qed.

(** ** NUL-terminated strings *)

(** The bytes [l] and then a NUL stand at [a]. *)
Definition cstr (m : mem) (a : Z) (l : list Z) : Prop :=
  load_bytes m a (length l) = l ∧ mget m (a + Z.of_nat (length l)) = 0 ∧ Forall (λ v, v ≠ 0) l.

Lemma cstr_nil m a : cstr m a [] ↔ mget m a = 0.
Proof.
  unfold cstr; simpl. rewrite Z.add_0_r. split; [tauto|]. intros H. auto.
Qed.

Lemma cstr_cons m a v l : cstr m a (v :: l) ↔ mget m a = v ∧ v ≠ 0 ∧ cstr m (a + 1) l.
Proof.
  unfold cstr; simpl. rewrite Forall_cons.
  replace (a + Z.of_nat (S (length l))) with (a + 1 + Z.of_nat (length l)) by lia.
  split.
  - intros (H1 & H2 & H3 & H4). injection H1 as H1 H5. auto.
  - intros (H1 & H2 & H3 & H4 & H5). split; [congruence|auto].
Qed.

Lemma cstr_byte m a l : cstr m a l → Forall (λ v, word8 v) l.
Proof. intros (H & _). rewrite <- H. apply load_bytes_byte. Qed.

Lemma cstr_lookup m a l i v :
  cstr m a l → l !! i = Some v → mget m (a + Z.of_nat i) = v ∧ v ≠ 0.
Proof.
  intros (H1 & _ & H2) Hi. split.
  - rewrite <- H1 in Hi. pose proof (lookup_lt_Some _ _ _ Hi) as Hlt.
    rewrite length_load_bytes in Hlt. rewrite lookup_load_bytes in Hi by done. congruence.
  - rewrite Forall_lookup in H2. eauto.
Qed.

Lemma cstr_end m a l : cstr m a l → mget m (a + Z.of_nat (length l)) = 0.
Proof. by intros (_ & H & _). Qed.

(** A string is determined by its address. *)
Lemma cstr_det m a l k : cstr m a l → cstr m a k → l = k.
Proof.
  revert a k. induction l as [|v l IH]; intros a [|w k]; rewrite ?cstr_nil, ?cstr_cons.
  - done.
  - intros H1 (H2 & H3 & _). congruence.
  - intros (H1 & H2 & _) H3. congruence.
  - intros (H1 & ? & H2) (H3 & ? & H4). f_equal; [congruence|eauto].
Qed.

Lemma cstr_ext m m' a l :
  (∀ i, 0 ≤ i ≤ Z.of_nat (length l) → mget m' (a + i) = mget m (a + i)) →
  cstr m a l → cstr m' a l.
Proof.
  intros H (H1 & H2 & H3). split_and!; [|rewrite H by lia; done|done].
  rewrite <- H1 at 2. apply load_bytes_ext. intros i Hi. apply H. lia.
Qed.

(** A NUL-terminated string of non-NUL bytes, just stored. *)
Lemma cstr_store m a l :
  Forall (λ v, word8 v) l → Forall (λ v, v ≠ 0) l → cstr (store_bytes m a (l ++ [0])) a l.
Proof.
  intros Hb Hz. rewrite store_bytes_app. simpl. split_and!; [|by rewrite mget_mset_eq|done].
  transitivity (load_bytes (store_bytes m a l) a (length l)); [|by apply load_store_bytes].
  apply load_bytes_ext. intros i Hi. apply mget_mset_ne. lia.
Qed.

(** The rest of a string. *)
Lemma cstr_drop_app m a l k : cstr m a (l ++ k) → cstr m (a + Z.of_nat (length l)) k.
Proof.
  revert a. induction l as [|c l IH]; intros a H; simpl; [by rewrite Z.add_0_r|].
  apply cstr_cons in H as (_ & _ & H). apply IH in H.
  by replace (a + Z.of_nat (S (length l))) with (a + 1 + Z.of_nat (length l)) by lia.
Qed.

(** Characters stored in front of a string. *)
Lemma cstr_prepend m a l k :
  Forall (λ v, word8 v ∧ v ≠ 0) l → cstr m (a + Z.of_nat (length l)) k →
  cstr (store_bytes m a l) a (l ++ k).
Proof.
  intros Hl (H1 & H2 & H3).
  assert (Forall (λ v, word8 v) l) as Hb by (eapply Forall_impl; [exact Hl|]; simpl; tauto).
  split_and!.
  - rewrite length_app, load_bytes_app, load_store_bytes by done. f_equal.
    rewrite load_store_bytes_out by lia. exact H1.
  - rewrite length_app, mget_store_bytes_out by lia. rewrite <- H2. f_equal. lia.
  - apply Forall_app. split; [|done]. eapply Forall_impl; [exact Hl|]. simpl. tauto.
Qed.

(** Every address starts a string: memory is finite and reads as 0 beyond
    what was written. *)
Lemma cstr_exists m a : ∃ l, cstr m a l ∧ (length l ≤ size m)%nat.
Proof.
  assert (∀ n l b, (n = size m + 1 - length l)%nat → (length l ≤ size m)%nat →
    load_bytes m a (length l) = l → Forall (λ v, v ≠ 0) l → b = a + Z.of_nat (length l) →
    ∃ k, cstr m a k ∧ (length k ≤ size m)%nat) as Hgo.
  { induction n as [|n IH]; intros l b Hn Hle Hl Hz ->; [lia|].
    destruct (decide (mget m (a + Z.of_nat (length l)) = 0)) as [H0|H0].
    { exists l. by split_and!. }
    apply (IH (l ++ [mget m (a + Z.of_nat (length l))]) (a + Z.of_nat (length l) + 1));
      rewrite ?length_app; simpl; try lia.
    - destruct (decide (length l = size m)); [|lia]. exfalso.
      assert (size (list_to_set (seqZ a (Z.of_nat (S (length l)))) : gset Z) ≤ size (dom m))%nat
        as Hsz.
      { apply subseteq_size. intros x Hx. apply elem_of_list_to_set, elem_of_seqZ in Hx.
        apply elem_of_dom. destruct (m !! x) as [v|] eqn:E; [eauto|]. exfalso.
        assert (mget m x = 0) as Hx0 by (unfold mget; by rewrite E).
        destruct (decide (x = a + Z.of_nat (length l))) as [->|]; [done|].
        assert (l !! Z.to_nat (x - a) = Some 0) as Hl0.
        { rewrite <- Hl, lookup_load_bytes by lia. f_equal. rewrite <- Hx0. f_equal. lia. }
        rewrite Forall_lookup in Hz. by apply Hz in Hl0. }
      rewrite size_list_to_set in Hsz by apply NoDup_seqZ.
      rewrite length_seqZ, size_dom in Hsz. lia.
    - rewrite load_bytes_app, Hl. done.
    - apply Forall_app; split; auto. }
  eapply (Hgo _ []); simpl; eauto; lia.
Qed.

(** Words outside a written block are unchanged. *)
Lemma load32_frame lo hi m m' a :
  frame lo hi m m' → a + 4 ≤ lo ∨ hi ≤ a → load32 m' a = load32 m a.
Proof. intros Hf Ha. unfold load32. by rewrite !Hf by lia. Qed.
Lemma loads32_frame lo hi m m' a :
  frame lo hi m m' → a + 4 ≤ lo ∨ hi ≤ a → loads32 m' a = loads32 m a.
Proof. intros. unfold loads32. by rewrite (load32_frame lo hi m m'). Qed.
Lemma loads32_range m a : sword32 (loads32 m a).
Proof. apply s32_range. Qed.
Lemma load_bytes_frame lo hi m m' a n :
  frame lo hi m m' → a + Z.of_nat n ≤ lo ∨ hi ≤ a → load_bytes m' a n = load_bytes m a n.
Proof. intros Hf Ha. apply load_bytes_ext. intros i Hi. apply Hf. lia. Qed.

(** The word in a list of bytes, and in the memory that holds the list. *)
Definition word_at (l : list Z) (i : nat) : Z :=
  l !!! i + 256 * l !!! (i + 1)%nat + 65536 * l !!! (i + 2)%nat + 16777216 * l !!! (i + 3)%nat.
Lemma load32_word_at m a l i :
  load_bytes m a (length l) = l → (i + 4 ≤ length l)%nat →
  load32 m (a + Z.of_nat i) = word_at l i.
Proof.
  intros Hl Hi. assert (∀ j, (j < length l)%nat → l !!! j = mget m (a + Z.of_nat j)) as Hj.
  { intros j Hj. rewrite <- Hl at 1. apply list_lookup_total_correct. by apply lookup_load_bytes. }
  unfold load32, word_at. rewrite !Hj by lia. rewrite !Nat2Z.inj_add. by rewrite !Z.add_assoc.
Qed.
