(* ===== verification/LibString.v ===== *)
(** * lib.c: strings and memory blocks

    [strlen], [strcpy], [strncpy], [strncmp], [strrev] and the block routines
    [memset], [memset_word], [memset_dword], [memcpy], [memmove], the latter
    following their inline assembly register by register.  Pointers are flat
    addresses; 32-bit pointer overflow is not modelled (it is undefined in C). *)
From S2P Require Import Prelude CMem.

(** ** Strings *)

(** [while(s[len] != '\0') len++].  Memory is finite and reads as 0 outside,
    so [size m] iterations always suffice ([strlen_total]). *)
Fixpoint strlen_loop (fuel : nat) (m : mem) (s len : Z) : option Z :=
  match fuel with
  | O => None
  | S fuel => if mget m (s + len) =? 0 then Some len else strlen_loop fuel m s (len + 1)
  end.
Definition strlen (m : mem) (s : Z) : Z := default 0 (strlen_loop (S (size m)) m s 0).

Lemma strlen_loop_cstr fuel m s len l :
  cstr m (s + len) l → (length l < fuel)%nat →
  strlen_loop fuel m s len = Some (len + Z.of_nat (length l)).
Proof.
  revert len l. induction fuel as [|fuel IH]; intros len l Hl Hf; [lia|]. simpl.
  destruct l as [|v l].
  - rewrite cstr_nil in Hl. rewrite Hl. simpl. f_equal. lia.
  - rewrite cstr_cons in Hl. destruct Hl as (Hv & Hz & Hl). simpl in *.
    rewrite (proj2 (Z.eqb_neq _ _)) by congruence.
    rewrite (IH _ l); [f_equal; lia | by rewrite Z.add_assoc | lia].
Qed.

Lemma strlen_total m s : is_Some (strlen_loop (S (size m)) m s 0).
Proof.
  destruct (cstr_exists m s) as (l & Hl & Hle).
  rewrite (strlen_loop_cstr _ _ _ _ l); [eauto | by rewrite Z.add_0_r | lia].
Qed.

Lemma cstr_length_le m s l : cstr m s l → (length l ≤ size m)%nat.
Proof.
  intros Hl. destruct (cstr_exists m s) as (k & Hk & Hle).
  by rewrite (cstr_det _ _ _ _ Hl Hk).
Qed.

Lemma strlen_cstr m s l : cstr m s l → strlen m s = Z.of_nat (length l).
Proof.
  intros Hl. unfold strlen. rewrite (strlen_loop_cstr _ _ _ _ l).
  - done.
  - by rewrite Z.add_0_r.
  - apply cstr_length_le in Hl. lia.
Qed.

(** [while(src[i] != '\0') { dest[i] = src[i]; i++; } dest[i] = '\0'].
    [None]: the copy outran the string it was reading (overlap). *)
Fixpoint strcpy_loop (fuel : nat) (m : mem) (dest src i : Z) : option mem :=
  match fuel with
  | O => None
  | S fuel =>
      if mget m (src + i) =? 0 then Some (mset m (dest + i) 0)
      else strcpy_loop fuel (mset m (dest + i) (mget m (src + i))) dest src (i + 1)
  end.
Definition strcpy (m : mem) (dest src : Z) : option mem :=
  strcpy_loop (S (size m)) m dest src 0.

Lemma strcpy_loop_spec fuel m dest src i l :
  cstr m (src + i) l → (length l < fuel)%nat →
  dest ≤ src ∨ src + i + Z.of_nat (length l) < dest + i →
  strcpy_loop fuel m dest src i = Some (store_bytes m (dest + i) (l ++ [0])).
Proof.
  revert m i l. induction fuel as [|fuel IH]; intros m i l Hl Hf Hd; [lia|]. simpl.
  destruct l as [|v l].
  - rewrite cstr_nil in Hl. by rewrite Hl.
  - rewrite cstr_cons in Hl. destruct Hl as (Hv & Hz & Hl). simpl in *.
    rewrite (proj2 (Z.eqb_neq _ _)) by congruence. rewrite Hv.
    rewrite (IH _ _ l); [by rewrite <- Z.add_assoc | | lia | lia].
    apply (cstr_ext m); [|by rewrite Z.add_assoc].
    intros j Hj. apply mget_mset_ne. lia.
Qed.

(** Copying a string that the destination does not run into. *)
Lemma strcpy_cstr m dest src l :
  cstr m src l → dest ≤ src ∨ src + Z.of_nat (length l) < dest →
  strcpy m dest src = Some (store_bytes m dest (l ++ [0])).
Proof.
  intros Hl Hd. unfold strcpy. rewrite (strcpy_loop_spec _ _ _ _ _ l).
  - by rewrite Z.add_0_r.
  - by rewrite Z.add_0_r.
  - apply cstr_length_le in Hl. lia.
  - lia.
Qed.

(** The two loops of [strncpy]: copy, then pad with NULs up to [n]. *)
Fixpoint strncpy_copy (r : nat) (m : mem) (dest src i : Z) : mem * Z :=
  match r with
  | O => (m, i)
  | S r =>
      if mget m (src + i) =? 0 then (m, i)
      else strncpy_copy r (mset m (dest + i) (mget m (src + i))) dest src (i + 1)
  end.
Definition strncpy (m : mem) (dest src n : Z) : mem :=
  let '(m, i) := strncpy_copy (Z.to_nat n) m dest src 0 in
  for_z i n (λ j m, mset m (dest + j) 0) m.

Lemma for_z_fill m a lo hi v :
  for_z lo hi (λ j m, mset m (a + j) v) m
  = store_bytes m (a + lo) (replicate (Z.to_nat (hi - lo)) v).
Proof.
  remember (Z.to_nat (hi - lo)) as n eqn:Hn. revert m lo Hn.
  induction n as [|n IH]; intros m lo Hn; simpl.
  - by rewrite for_z_stop by lia.
  - rewrite for_z_step by lia. rewrite IH by lia. f_equal. lia.
Qed.

(** The copy phase, relative to the memory [m] before it: it is enough that
    what was written so far is not among the source bytes still to be read. *)
Lemma strncpy_copy_spec r m m' dest src i l :
  cstr m (src + i) l →
  (∀ b, src + i ≤ b ≤ src + i + Z.of_nat (length l) → b < src + i + Z.of_nat r →
    mget m' b = mget m b) →
  dest ≤ src ∨ src + Z.of_nat (length l) < dest ∨ src + Z.of_nat r ≤ dest →
  strncpy_copy r m' dest src i
  = (store_bytes m' (dest + i) (take r l), i + Z.of_nat (length (take r l))).
Proof.
  revert m' i l. induction r as [|r IH]; intros m' i l Hl Hm' Hd; simpl; [f_equal; lia|].
  rewrite Hm' by lia. destruct l as [|v l]; simpl in *.
  - rewrite cstr_nil in Hl. rewrite Hl. simpl. f_equal. lia.
  - rewrite cstr_cons in Hl. destruct Hl as (Hv & Hz & Hl).
    rewrite (proj2 (Z.eqb_neq _ _)) by congruence. rewrite Hv.
    rewrite (IH _ _ l); [f_equal; [f_equal; lia|lia] | by rewrite Z.add_assoc | | lia].
    intros b Hb1 Hb2. rewrite mget_mset_ne by lia. apply Hm'; lia.
Qed.

Lemma strncpy_cstr m dest src n l :
  cstr m src l → 0 ≤ n →
  dest ≤ src ∨ src + Z.of_nat (length l) < dest ∨ src + n ≤ dest →
  strncpy m dest src n
  = store_bytes m dest (take (Z.to_nat n) l ++ replicate (Z.to_nat n - length l) 0).
Proof.
  intros Hl Hn Hd. unfold strncpy. rewrite (strncpy_copy_spec _ m _ _ _ _ l).
  - rewrite Z.add_0_r, Z.add_0_l, for_z_fill, store_bytes_app. do 2 f_equal.
    rewrite length_take. lia.
  - by rewrite Z.add_0_r.
  - done.
  - lia.
Qed.

(** [strncmp]: [int8_t] is [char], which is signed for this target. *)
Fixpoint strncmp_loop (r : nat) (m : mem) (s1 s2 i : Z) : Z :=
  match r with
  | O => 0
  | S r =>
      let c1 := s8 (mget m (s1 + i)) in
      let c2 := s8 (mget m (s2 + i)) in
      if negb (c1 =? c2) || (c1 =? 0) then c1 - c2 else strncmp_loop r m s1 s2 (i + 1)
  end.
Definition strncmp (m : mem) (s1 s2 n : Z) : Z := strncmp_loop (Z.to_nat n) m s1 s2 0.

Lemma s8_mget_eq m a b : s8 (mget m a) = s8 (mget m b) ↔ mget m a = mget m b.
Proof. pose proof (mget_range m a); pose proof (mget_range m b). unfold s8. lia. Qed.
Lemma s8_mget_0 m a : s8 (mget m a) = 0 ↔ mget m a = 0.
Proof. pose proof (mget_range m a). unfold s8. lia. Qed.

Lemma strncmp_loop_spec r m s1 s2 i l1 l2 :
  cstr m (s1 + i) l1 → cstr m (s2 + i) l2 →
  strncmp_loop r m s1 s2 i = 0 ↔ take r l1 = take r l2.
Proof.
  revert i l1 l2. induction r as [|r IH]; intros i l1 l2 H1 H2; simpl; [done|].
  pose proof (s8_mget_eq m (s1 + i) (s2 + i)) as Heq.
  pose proof (s8_mget_0 m (s1 + i)) as H0.
  destruct l1 as [|v1 l1], l2 as [|v2 l2]; rewrite ?cstr_nil, ?cstr_cons in *; simpl.
  - rewrite orb_true_intro by (right; apply Z.eqb_eq, H0, H1).
    split; [done|]. intros _. apply proj2 in Heq. specialize (Heq ltac:(congruence)). lia.
  - destruct H2 as (Hv & Hz & _).
    rewrite orb_true_intro by (right; apply Z.eqb_eq, H0, H1).
    split; [|done]. intros. exfalso. apply Hz. rewrite <- Hv, <- (proj1 Heq); [done|lia].
  - destruct H1 as (Hv & Hz & _).
    rewrite orb_true_intro.
    + split; [|done]. intros. exfalso. apply Hz. rewrite <- Hv, (proj1 Heq); [done|lia].
    + left. apply negb_true_iff, Z.eqb_neq. intros E. apply Heq in E. congruence.
  - destruct H1 as (Hv1 & Hz1 & H1), H2 as (Hv2 & Hz2 & H2).
    destruct (decide (v1 = v2)) as [->|Hne].
    + rewrite (proj2 (Z.eqb_eq _ _)) by (apply Heq; congruence).
      rewrite (proj2 (Z.eqb_neq _ _)) by (rewrite H0; congruence). simpl.
      rewrite (IH _ l1 l2) by (by rewrite Z.add_assoc). split; [congruence|].
      intros E. by injection E.
    + rewrite (proj2 (Z.eqb_neq _ _)) by (rewrite Heq; congruence). simpl.
      split; [|congruence]. intros. exfalso. apply Hne.
      rewrite <- Hv1, <- Hv2. apply Heq. lia.
Qed.

(** [strncmp] is 0 exactly when the first [n] characters agree. *)
Lemma strncmp_cstr m s1 s2 n l1 l2 :
  cstr m s1 l1 → cstr m s2 l2 →
  strncmp m s1 s2 n = 0 ↔ take (Z.to_nat n) l1 = take (Z.to_nat n) l2.
Proof. intros. apply strncmp_loop_spec; by rewrite Z.add_0_r. Qed.

(** In-place reversal; [end - beg] shrinks, so [strlen s] iterations suffice. *)
Fixpoint strrev_loop (fuel : nat) (m : mem) (s beg end_ : Z) : mem :=
  match fuel with
  | O => m
  | S fuel =>
      if beg <? end_ then
        let tmp := mget m (s + end_) in
        let m := mset m (s + end_) (mget m (s + beg)) in
        let m := mset m (s + beg) tmp in
        strrev_loop fuel m s (beg + 1) (end_ - 1)
      else m
  end.
Definition strrev (m : mem) (s : Z) : mem :=
  strrev_loop (Z.to_nat (strlen m s)) m s 0 (strlen m s - 1).

Lemma strrev_loop_spec fuel m s beg l :
  (length l ≤ fuel)%nat → load_bytes m (s + beg) (length l) = l →
  strrev_loop fuel m s beg (beg + Z.of_nat (length l) - 1)
  ≡ₘ store_bytes m (s + beg) (reverse l).
Proof.
  revert fuel m beg. remember (length l) as n eqn:Hn. revert l Hn.
  induction (lt_wf n) as [n _ IH]. intros l -> fuel m beg Hf Hl.
  destruct fuel as [|fuel]; [destruct l; [done|simpl in *; lia]|]. simpl.
  destruct (Z.ltb_spec beg (beg + Z.of_nat (length l) - 1)) as [Hlt|Hge].
  - destruct l as [|x l]; [simpl in *; lia|].
    destruct l as [|y mid _] using rev_ind; [simpl in *; lia|].
    rewrite length_cons, length_app in *. simpl in *.
    replace (s + (beg + Z.of_nat (S (length mid + 1)) - 1))
      with (s + beg + 1 + Z.of_nat (length mid)) by lia.
    injection Hl as Hx Hl. rewrite load_bytes_app in Hl.
    apply app_inj_1 in Hl as [Hmid Hy]; [|by rewrite length_load_bytes].
    simpl in Hy. injection Hy as Hy. rewrite Hx, Hy.
    replace (beg + Z.of_nat (S (length mid + 1)) - 1 - 1)
      with (beg + 1 + Z.of_nat (length mid) - 1) by lia.
    rewrite (IH (length mid)); [| lia | done | lia |].
    + rewrite reverse_cons, reverse_app. simpl. rewrite store_bytes_app. simpl.
      replace (s + (beg + 1)) with (s + beg + 1) by lia. rewrite length_reverse.
      rewrite mset_comm by lia. rewrite store_bytes_mset_comm; [done|].
      rewrite length_reverse. lia.
    + transitivity (load_bytes m (s + beg + 1) (length mid)); [|done].
      apply load_bytes_ext. intros i Hi. rewrite !mget_mset_ne by lia. f_equal. lia.
  - destruct l as [|x [|y l]]; simpl in *; try lia; [done|].
    injection Hl as Hx. intros b. rewrite mget_mset. case_decide; [|done]. subst.
    by rewrite u8_small by apply mget_range.
Qed.

Lemma strrev_cstr m s l : cstr m s l → strrev m s ≡ₘ store_bytes m s (reverse l).
Proof.
  intros Hl. unfold strrev. rewrite (strlen_cstr _ _ _ Hl).
  pose proof (strrev_loop_spec (length l) m s 0 l) as H.
  rewrite Z.add_0_r, Z.add_0_l in H. rewrite Nat2Z.id.
  apply H; [done|apply Hl].
Qed.

(** ** Memory blocks

    The string instructions of the inline assembly.  A repeat count is the
    [ecx] the instruction starts with. *)

(** [rep stosl]: store [eax] at [edi], [ecx] times. *)
Fixpoint rep_stosl (ecx : nat) (m : mem) (edi eax : Z) : mem * Z :=
  match ecx with
  | O => (m, edi)
  | S ecx => rep_stosl ecx (store32 m edi eax) (edi + 4) eax
  end.
(** [rep stosw]: store [ax]. *)
Fixpoint rep_stosw (ecx : nat) (m : mem) (edi eax : Z) : mem * Z :=
  match ecx with
  | O => (m, edi)
  | S ecx => rep_stosw ecx (mset (mset m edi eax) (edi + 1) (eax `div` 256)) (edi + 2) eax
  end.
(** [rep movsl]. *)
Fixpoint rep_movsl (ecx : nat) (m : mem) (edi esi : Z) : mem * Z * Z :=
  match ecx with
  | O => (m, edi, esi)
  | S ecx => rep_movsl ecx (store32 m edi (load32 m esi)) (edi + 4) (esi + 4)
  end.
(** [rep movsb] with the direction flag [df]. *)
Fixpoint rep_movsb (df : bool) (ecx : nat) (m : mem) (edi esi : Z) : mem :=
  match ecx with
  | O => m
  | S ecx =>
      let d := if df then -1 else 1 in
      rep_movsb df ecx (mset m edi (mget m esi)) (edi + d) (esi + d)
  end.

(** *** memset *)

(** [.memset_top]: bytes until [edi] is a multiple of 4 or [ecx] is 0. *)
Fixpoint memset_top (ecx : nat) (m : mem) (edi al : Z) : mem * Z * nat :=
  match ecx with
  | O => (m, edi, O)
  | S ecx' =>
      if Z.land edi 3 =? 0 then (m, edi, ecx)
      else memset_top ecx' (mset m edi al) (edi + 1) al
  end.
(** [.memset_bottom]: the bytes left over by the dword stores. *)
Fixpoint memset_bottom (edx : nat) (m : mem) (edi al : Z) : mem :=
  match edx with
  | O => m
  | S edx => memset_bottom edx (mset m edi al) (edi + 1) al
  end.
Definition memset (m : mem) (s c n : Z) : mem :=
  let c := Z.land c 255 in
  let eax := Z.lor (Z.lor (Z.lor (Z.shiftl c 24) (Z.shiftl c 16)) (Z.shiftl c 8)) c in
  let '(m, edi, ecx) := memset_top (Z.to_nat n) m s eax in
  match ecx with
  | O => m
  | S _ =>
      let edx := Z.land (Z.of_nat ecx) 3 in
      let '(m, edi) := rep_stosl (Z.to_nat (Z.shiftr (Z.of_nat ecx) 2)) m edi eax in
      memset_bottom (Z.to_nat edx) m edi eax
  end.
Definition memset_word (m : mem) (s c n : Z) : mem := (rep_stosw (Z.to_nat n) m s c).1.
Definition memset_dword (m : mem) (s c n : Z) : mem := (rep_stosl (Z.to_nat n) m s c).1.

Lemma mset_u8 m a v w : u8 v = u8 w → mset m a v = mset m a w.
Proof. unfold mset. by intros ->. Qed.

(** The byte replicated in all four bytes of [eax]. *)
Lemma memset_eax c :
  let b := Z.land c 255 in
  Z.lor (Z.lor (Z.lor (Z.shiftl b 24) (Z.shiftl b 16)) (Z.shiftl b 8)) b = u8 c * 16843009.
Proof.
  intros b. assert (b = u8 c) as Hb.
  { unfold b, u8. change 255 with (Z.ones 8). by rewrite Z.land_ones. }
  rewrite Hb. pose proof (u8_range c) as Hr. revert Hr. generalize (u8 c) as v. intros v Hr.
  rewrite !Z.shiftl_mul_pow2 by done.
  rewrite (lor_add_disjoint v (v * 2 ^ 16) 24) by lia.
  replace (v * 2 ^ 24 + v * 2 ^ 16) with ((v * 2 ^ 8 + v) * 2 ^ 16) by lia.
  rewrite (lor_add_disjoint _ (v * 2 ^ 8) 16) by lia.
  replace ((v * 2 ^ 8 + v) * 2 ^ 16 + v * 2 ^ 8) with ((v * 2 ^ 16 + v * 2 ^ 8 + v) * 2 ^ 8) by lia.
  rewrite lor_add_disjoint by lia. lia.
Qed.

Lemma memset_top_spec ecx m edi al :
  let '(m', edi', ecx') := memset_top ecx m edi al in
  (ecx' ≤ ecx)%nat ∧ edi' = edi + Z.of_nat (ecx - ecx') ∧
  m' = store_bytes m edi (replicate (ecx - ecx') al).
Proof.
  revert m edi. induction ecx as [|ecx IH]; intros m edi; cbn [memset_top].
  { split_and!; simpl; auto; lia. }
  destruct (Z.eqb_spec (Z.land edi 3) 0).
  - rewrite Nat.sub_diag. simpl. split_and!; [lia|lia|done].
  - specialize (IH (mset m edi al) (edi + 1)).
    destruct (memset_top _ _ _ _) as [[m' edi'] ecx']. destruct IH as (? & -> & ->).
    replace (S ecx - ecx')%nat with (S (ecx - ecx')) by lia. simpl. split_and!; [lia|lia|done].
Qed.

Lemma rep_stosl_spec ecx m edi b :
  word8 b →
  rep_stosl ecx m edi (b * 16843009)
  = (store_bytes m edi (replicate (4 * ecx) b), edi + 4 * Z.of_nat ecx).
Proof.
  intros Hb. revert m edi. induction ecx as [|ecx IH]; intros m edi; simpl rep_stosl.
  - simpl. f_equal. lia.
  - rewrite IH. replace (4 * S ecx)%nat with (S (S (S (S (4 * ecx))))) by lia. simpl.
    f_equal; [|lia]. unfold store32.
    rewrite (mset_u8 m edi _ b), (mset_u8 _ (edi + 1) _ b), (mset_u8 _ (edi + 2) _ b),
      (mset_u8 _ (edi + 3) _ b) by (unfold u8; lia).
    by rewrite <- !(Z.add_assoc edi).
Qed.

Lemma memset_bottom_spec edx m edi al :
  memset_bottom edx m edi al = store_bytes m edi (replicate edx al).
Proof. revert m edi. induction edx; intros; simpl; auto. Qed.

Lemma store_bytes_u8 m a l k : u8 <$> l = u8 <$> k → store_bytes m a l = store_bytes m a k.
Proof.
  revert m a k. induction l as [|v l IH]; intros m a [|w k] H; simpl in *; try done.
  injection H as H1 H2. rewrite (mset_u8 _ _ v w) by done. auto.
Qed.

(** The dword-at-a-time [memset] is the byte-at-a-time fill. *)
Lemma memset_fill m s c n : memset m s c n = store_bytes m s (replicate (Z.to_nat n) (u8 c)).
Proof.
  unfold memset. rewrite memset_eax.
  pose proof (u8_range c) as Hc. revert Hc. generalize (u8 c) as b. intros b Hb.
  pose proof (memset_top_spec (Z.to_nat n) m s (b * 16843009)) as Htop.
  destruct (memset_top _ _ _ _) as [[m' edi] ecx]. destruct Htop as (Hle & -> & ->).
  assert (∀ k, store_bytes m s (replicate k (b * 16843009)) = store_bytes m s (replicate k b))
    as Hrep.
  { intros k. apply store_bytes_u8. rewrite !fmap_replicate. f_equal. unfold u8. lia. }
  rewrite Hrep. destruct ecx as [|ecx'] eqn:Hecx; [by rewrite Nat.sub_0_r|].
  rewrite <- Hecx in *. rewrite rep_stosl_spec by done. rewrite memset_bottom_spec.
  rewrite (store_bytes_u8 _ _ (replicate _ (b * _)) (replicate (Z.to_nat (Z.land (Z.of_nat ecx) 3)) b))
    by (rewrite !fmap_replicate; f_equal; unfold u8; lia).
  set (q := Z.to_nat (Z.shiftr (Z.of_nat ecx) 2)).
  set (r := Z.to_nat (Z.land (Z.of_nat ecx) 3)).
  assert (ecx = 4 * q + r)%nat as Heq.
  { unfold q, r. rewrite Z.shiftr_div_pow2 by done. change 3 with (Z.ones 2).
    rewrite Z.land_ones by done. change (2 ^ 2) with 4. lia. }
  transitivity (store_bytes m s (replicate (Z.to_nat n - ecx) b ++ replicate (4 * q) b ++ replicate r b)).
  - rewrite !store_bytes_app, !length_replicate. do 2 f_equal. lia.
  - rewrite <- !replicate_add. do 2 f_equal. lia.
Qed.

(** *** memcpy *)

Fixpoint memcpy_top (ecx : nat) (m : mem) (edi esi : Z) : mem * Z * Z * nat :=
  match ecx with
  | O => (m, edi, esi, O)
  | S ecx' =>
      if Z.land edi 3 =? 0 then (m, edi, esi, ecx)
      else memcpy_top ecx' (mset m edi (mget m esi)) (edi + 1) (esi + 1)
  end.
Fixpoint memcpy_bottom (edx : nat) (m : mem) (edi esi : Z) : mem :=
  match edx with
  | O => m
  | S edx => memcpy_bottom edx (mset m edi (mget m esi)) (edi + 1) (esi + 1)
  end.
Definition memcpy (m : mem) (dest src n : Z) : mem :=
  let '(m, edi, esi, ecx) := memcpy_top (Z.to_nat n) m dest src in
  match ecx with
  | O => m
  | S _ =>
      let edx := Z.land (Z.of_nat ecx) 3 in
      let '(m, edi, esi) := rep_movsl (Z.to_nat (Z.shiftr (Z.of_nat ecx) 2)) m edi esi in
      memcpy_bottom (Z.to_nat edx) m edi esi
  end.

(** *** memmove

    Forwards when [src >= dest], else backwards from the last byte.  The
    second component is the direction flag the function returns with. *)
Definition memmove (m : mem) (dest src n : Z) : mem * bool :=
  let ecx := Z.to_nat n in
  if dest <=? src then (rep_movsb false ecx m dest src, false)
  else (rep_movsb true ecx m (dest + n - 1) (src + n - 1), true).

(** The block copy both are meant to be: store what was there before. *)
Definition copy_block (m : mem) (dest src : Z) (n : nat) : mem :=
  store_bytes m dest (load_bytes m src n).

Lemma copy_block_S m dest src n :
  dest ≤ src ∨ src + Z.of_nat n < dest →
  copy_block m dest src (S n) = copy_block (mset m dest (mget m src)) (dest + 1) (src + 1) n.
Proof.
  intros H. unfold copy_block. simpl. f_equal. apply load_bytes_ext.
  intros i Hi. rewrite mget_mset_ne by lia. done.
Qed.

Lemma copy_block_add m dest src n k :
  dest ≤ src ∨ src + Z.of_nat (n + k) ≤ dest →
  copy_block m dest src (n + k)
  = copy_block (copy_block m dest src n) (dest + Z.of_nat n) (src + Z.of_nat n) k.
Proof.
  intros H. unfold copy_block at 1 2. rewrite load_bytes_app, store_bytes_app, length_load_bytes.
  f_equal. apply load_bytes_ext. intros i Hi.
  symmetry. apply mget_store_bytes_out. rewrite length_load_bytes. lia.
Qed.

Lemma rep_movsb_forward ecx m edi esi :
  edi ≤ esi ∨ esi + Z.of_nat ecx ≤ edi →
  rep_movsb false ecx m edi esi = copy_block m edi esi ecx.
Proof.
  revert m edi esi. induction ecx as [|ecx IH]; intros m edi esi H; [done|].
  rewrite copy_block_S by lia. simpl. apply IH. lia.
Qed.

Lemma rep_movsb_backward ecx m edi esi :
  esi ≤ edi →
  rep_movsb true ecx m (edi + Z.of_nat ecx - 1) (esi + Z.of_nat ecx - 1)
  = copy_block m edi esi ecx.
Proof.
  revert m. induction ecx as [|ecx IH]; intros m H; [done|]. cbn [rep_movsb].
  replace (edi + Z.of_nat (S ecx) - 1 + -1) with (edi + Z.of_nat ecx - 1) by lia.
  replace (esi + Z.of_nat (S ecx) - 1 + -1) with (esi + Z.of_nat ecx - 1) by lia.
  rewrite IH by done. unfold copy_block.
  replace (S ecx) with (ecx + 1)%nat by lia.
  rewrite load_bytes_app, store_bytes_app, length_load_bytes. simpl.
  rewrite store_bytes_mset_comm by (rewrite length_load_bytes; lia).
  replace (edi + Z.of_nat (ecx + 1) - 1) with (edi + Z.of_nat ecx) by lia.
  replace (esi + Z.of_nat (ecx + 1) - 1) with (esi + Z.of_nat ecx) by lia.
  do 2 f_equal. apply load_bytes_ext. intros i Hi. rewrite mget_mset_ne by lia. done.
Qed.

Lemma memcpy_top_spec ecx m edi esi :
  edi ≤ esi ∨ esi + Z.of_nat ecx ≤ edi →
  let '(m', edi', esi', ecx') := memcpy_top ecx m edi esi in
  (ecx' ≤ ecx)%nat ∧ edi' = edi + Z.of_nat (ecx - ecx') ∧ esi' = esi + Z.of_nat (ecx - ecx') ∧
  m' = copy_block m edi esi (ecx - ecx').
Proof.
  revert m edi esi. induction ecx as [|ecx IH]; intros m edi esi H; cbn [memcpy_top].
  { split_and!; simpl; auto; lia. }
  destruct (Z.eqb_spec (Z.land edi 3) 0).
  - rewrite Nat.sub_diag. split_and!; [lia|lia|lia|done].
  - specialize (IH (mset m edi (mget m esi)) (edi + 1) (esi + 1) ltac:(lia)).
    destruct (memcpy_top _ _ _ _) as [[[m' edi'] esi'] ecx']. destruct IH as (? & -> & -> & ->).
    replace (S ecx - ecx')%nat with (S (ecx - ecx')) by lia.
    rewrite copy_block_S by lia. split_and!; [lia|lia|lia|done].
Qed.

Lemma store32_load32 m a b : store32 m a (load32 m b) = store_bytes m a (load_bytes m b 4).
Proof.
  unfold store32, load32. simpl.
  pose proof (mget_range m b); pose proof (mget_range m (b + 1));
  pose proof (mget_range m (b + 2)); pose proof (mget_range m (b + 3)).
  replace (b + 1 + 1) with (b + 2) by lia. replace (b + 2 + 1) with (b + 3) by lia.
  replace (a + 1 + 1) with (a + 2) by lia. replace (a + 2 + 1) with (a + 3) by lia.
  rewrite (mset_u8 m a _ (mget m b)), (mset_u8 _ (a + 1) _ (mget m (b + 1))),
    (mset_u8 _ (a + 2) _ (mget m (b + 2))), (mset_u8 _ (a + 3) _ (mget m (b + 3)))
    by (unfold u8; lia).
  done.
Qed.

Lemma rep_movsl_spec ecx m edi esi :
  edi ≤ esi ∨ esi + 4 * Z.of_nat ecx ≤ edi →
  rep_movsl ecx m edi esi
  = (copy_block m edi esi (4 * ecx), edi + 4 * Z.of_nat ecx, esi + 4 * Z.of_nat ecx).
Proof.
  revert m edi esi. induction ecx as [|ecx IH]; intros m edi esi H; cbn [rep_movsl].
  - simpl. repeat f_equal; lia.
  - rewrite store32_load32. fold (copy_block m edi esi 4). rewrite IH by lia.
    replace (4 * S ecx)%nat with (4 + 4 * ecx)%nat by lia.
    rewrite copy_block_add by lia. f_equal; [f_equal; lia|lia].
Qed.

Lemma memcpy_bottom_spec edx m edi esi :
  edi ≤ esi ∨ esi + Z.of_nat edx ≤ edi →
  memcpy_bottom edx m edi esi = copy_block m edi esi edx.
Proof.
  revert m edi esi. induction edx as [|edx IH]; intros m edi esi H; [done|].
  rewrite copy_block_S by lia. simpl. apply IH. lia.
Qed.

(** [memcpy] copies the block when the destination does not start inside the
    source. *)
Lemma memcpy_copy m dest src n :
  dest ≤ src ∨ src + n ≤ dest → memcpy m dest src n = copy_block m dest src (Z.to_nat n).
Proof.
  intros H. destruct (decide (n < 0)) as [Hn|Hn].
  { unfold memcpy. by rewrite Z2Nat.nonpos by lia. }
  unfold memcpy. pose proof (memcpy_top_spec (Z.to_nat n) m dest src ltac:(lia)) as Htop.
  destruct (memcpy_top _ _ _ _) as [[[m' edi] esi] ecx]. destruct Htop as (Hle & -> & -> & ->).
  destruct ecx as [|ecx'] eqn:Hecx; [by rewrite Nat.sub_0_r|]. rewrite <- Hecx in *.
  set (q := Z.to_nat (Z.shiftr (Z.of_nat ecx) 2)).
  set (r := Z.to_nat (Z.land (Z.of_nat ecx) 3)).
  assert (ecx = 4 * q + r)%nat as Heq.
  { unfold q, r. rewrite Z.shiftr_div_pow2 by done. change 3 with (Z.ones 2).
    rewrite Z.land_ones by done. change (2 ^ 2) with 4. lia. }
  rewrite rep_movsl_spec by lia. rewrite memcpy_bottom_spec by lia.
  transitivity (copy_block m dest src (Z.to_nat n - ecx + (4 * q + r))); [|f_equal; lia].
  rewrite !copy_block_add by lia. f_equal; lia.
Qed.

Lemma memcpy_block m dest src n :
  0 ≤ n → dest ≤ src ∨ src + n ≤ dest →
  load_bytes (memcpy m dest src n) dest (Z.to_nat n) = load_bytes m src (Z.to_nat n) ∧
  frame dest (dest + n) m (memcpy m dest src n).
Proof.
  intros Hn Ho. rewrite memcpy_copy by done. unfold copy_block.
  set (l := load_bytes m src (Z.to_nat n)).
  assert (length l = Z.to_nat n) as Hl by apply length_load_bytes. split.
  - rewrite <- Hl. apply load_store_bytes. apply load_bytes_byte.
  - eapply frame_mono; [apply frame_store_bytes|lia|lia].
Qed.

(** [memmove] copies the block whatever the overlap. *)
Lemma memmove_copy m dest src n :
  0 ≤ n → (memmove m dest src n).1 = copy_block m dest src (Z.to_nat n).
Proof.
  intros Hn. unfold memmove. destruct (Z.leb_spec dest src); simpl.
  - apply rep_movsb_forward. lia.
  - rewrite <- rep_movsb_backward by lia. f_equal; lia.
Qed.

Lemma rep_stosw_spec ecx m edi eax :
  word16 eax →
  rep_stosw ecx m edi eax
  = (store_bytes m edi (concat (replicate ecx [u8 eax; eax `div` 256])), edi + 2 * Z.of_nat ecx).
Proof.
  intros He. revert m edi. induction ecx as [|ecx IH]; intros m edi; cbn [rep_stosw].
  - simpl. f_equal. lia.
  - rewrite IH. simpl. replace (edi + 1 + 1) with (edi + 2) by lia.
    f_equal; [|lia]. rewrite (mset_u8 m edi eax (u8 eax)) by (symmetry; apply u8_idemp). done.
Qed.

(** ** Properties *)

(** [memset], whose body aligns the pointer, stores whole dwords and then
    the rest, is the byte-by-byte fill with the low byte of [c]; [memset_dword]
    of a byte repeated in all four positions is the same fill. *)
Lemma memset_is_fill m s c n b k :
  memset m s c n = store_bytes m s (replicate (Z.to_nat n) (u8 c)) ∧
  frame s (s + Z.max 0 n) m (memset m s c n) ∧
  memset_dword m s (u8 b * 0x01010101) k = memset m s b (4 * Z.max 0 k).
Proof.
  rewrite !memset_fill. split; [done|]. split.
  - eapply frame_mono; [apply frame_store_bytes|lia|rewrite length_replicate; lia].
  - unfold memset_dword. rewrite rep_stosl_spec by apply u8_range. cbn [fst].
    do 2 f_equal. lia.
Qed.

(** When the destination does not start inside the source, [memcpy]
    leaves in [dest] the [n] bytes [src] had and changes nothing else. *)
Lemma memcpy_copies m dest src n :
  0 ≤ n → dest ≤ src ∨ src + n ≤ dest →
  load_bytes (memcpy m dest src n) dest (Z.to_nat n) = load_bytes m src (Z.to_nat n) ∧
  frame dest (dest + n) m (memcpy m dest src n).
Proof. apply memcpy_block. Qed.

Lemma memcpy_copies_witness :
  load_bytes (memcpy (store_bytes ∅ 102 [1; 2; 3; 4; 5; 6; 7]) 101 102 7) 101 7
  = load_bytes (store_bytes ∅ 102 [1; 2; 3; 4; 5; 6; 7]) 102 7 ∧
  frame 101 (101 + 7) (store_bytes ∅ 102 [1; 2; 3; 4; 5; 6; 7])
    (memcpy (store_bytes ∅ 102 [1; 2; 3; 4; 5; 6; 7]) 101 102 7).
Proof. apply (memcpy_copies (store_bytes ∅ 102 [1; 2; 3; 4; 5; 6; 7]) 101 102 7); lia. Defined.

(** C32: [memmove] leaves in [dest] the [n] bytes [src] had for every overlap of
    the two blocks; but after a backward copy the direction flag stays set. *)
Theorem memmove_any_overlap m dest src n :
  0 ≤ n →
  let '(m', df) := memmove m dest src n in
  load_bytes m' dest (Z.to_nat n) = load_bytes m src (Z.to_nat n) ∧
  frame dest (dest + n) m m' ∧ df = bool_decide (src < dest).
Proof.
  intros Hn. pose proof (memmove_copy m dest src n Hn) as Hc.
  assert ((memmove m dest src n).2 = bool_decide (src < dest)) as Hdf.
  { unfold memmove. case_bool_decide; destruct (Z.leb_spec dest src); simpl; lia || done. }
  destruct (memmove m dest src n) as [m' df]. cbn [fst snd] in *. subst m' df. unfold copy_block.
  set (l := load_bytes m src (Z.to_nat n)).
  assert (length l = Z.to_nat n) as Hl by apply length_load_bytes. split; [|split; [|done]].
  - rewrite <- Hl. apply load_store_bytes. apply load_bytes_byte.
  - eapply frame_mono; [apply frame_store_bytes|lia|lia].
Qed.

Lemma memmove_any_overlap_witness :
  let '(m', df) := memmove (store_bytes ∅ 100 [1; 2; 3; 4; 5]) 102 100 5 in
  load_bytes m' 102 5 = load_bytes (store_bytes ∅ 100 [1; 2; 3; 4; 5]) 100 5 ∧
  frame 102 (102 + 5) (store_bytes ∅ 100 [1; 2; 3; 4; 5]) m' ∧ df = bool_decide (100 < 102).
Proof. apply (memmove_any_overlap (store_bytes ∅ 100 [1; 2; 3; 4; 5]) 102 100 5). lia. Defined.

(** On NUL-terminated strings [strlen] counts the characters, [strcpy]
    copies them with the NUL, [strncpy] copies at most [n] and pads with NULs
    (so it does not terminate a string of [n] or more), and [strncmp] is 0
    exactly when the first [n] characters agree. *)
Lemma string_functions m dest src s2 n l l2 :
  cstr m src l → cstr m s2 l2 → 0 ≤ n →
  dest ≤ src ∨ src + Z.of_nat (length l) < dest →
  strlen m src = Z.of_nat (length l) ∧
  (∃ m', strcpy m dest src = Some m' ∧ cstr m' dest l ∧
     frame dest (dest + Z.of_nat (length l) + 1) m m') ∧
  load_bytes (strncpy m dest src n) dest (Z.to_nat n)
    = take (Z.to_nat n) l ++ replicate (Z.to_nat n - length l) 0 ∧
  frame dest (dest + n) m (strncpy m dest src n) ∧
  (strncmp m src s2 n = 0 ↔ take (Z.to_nat n) l = take (Z.to_nat n) l2).
Proof.
  intros Hl Hl2 Hn Hd. pose proof (cstr_byte _ _ _ Hl) as Hb.
  split; [by apply strlen_cstr|]. split; [|split; [|split]].
  - rewrite (strcpy_cstr _ _ _ l) by auto. eexists. split; [done|]. split.
    + apply cstr_store; [done|apply Hl].
    + eapply frame_mono; [apply frame_store_bytes|lia|rewrite length_app; simpl; lia].
  - rewrite (strncpy_cstr _ _ _ _ l) by (auto; lia).
    set (k := take _ l ++ _).
    assert (length k = Z.to_nat n) as Hk.
    { unfold k. rewrite length_app, length_take, length_replicate. lia. }
    rewrite <- Hk. apply load_store_bytes. unfold k. apply Forall_app. split.
    + by apply Forall_take.
    + apply Forall_replicate. lia.
  - rewrite (strncpy_cstr _ _ _ _ l) by (auto; lia).
    eapply frame_mono; [apply frame_store_bytes|lia|].
    rewrite length_app, length_take, length_replicate. lia.
  - by apply strncmp_cstr.
Qed.

Lemma string_functions_witness :
  strlen (store_bytes ∅ 10 [97; 98; 0; 97; 99; 0]) 10 = 2 ∧
  (strncmp (store_bytes ∅ 10 [97; 98; 0; 97; 99; 0]) 10 13 1 = 0 ↔ take 1 [97; 98] = take 1 [97; 99]).
Proof.
  destruct (string_functions (store_bytes ∅ 10 [97; 98; 0; 97; 99; 0]) 50 10 13 1 [97; 98] [97; 99])
    as (H1 & _ & _ & _ & H2).
  - split; [vm_compute; reflexivity|]. split; [vm_compute; reflexivity|].
    repeat constructor; discriminate.
  - split; [vm_compute; reflexivity|]. split; [vm_compute; reflexivity|].
    repeat constructor; discriminate.
  - lia.
  - right. simpl. lia.
  - split; [exact H1|exact H2].
Defined.
