(* ===== verification/Ports.v ===== *)
(** * The hardware interface

    The drivers reach the hardware through [inb], [outb], [cli] and [sti]
    (lib.h).  The devices themselves are not part of the program: they are a
    parameter of every driver, of class [Board].  What the drivers rely on is
    stated against [hw], the register-level view of the documented devices
    (8259A interrupt controllers, MC146818 clock, CRT controller, interrupt
    flag), with a log of everything written to a port. *)
From S2P Require Import Prelude.

(** The initialisation words an 8259A can still expect on its data port. *)
Inductive icw := Icw2 | Icw3 | Icw4.

(** One 8259A: interrupt mask, in-service bits, vector base, and the
    initialisation words it waits for. *)
Record pic := Pic { imr : Z; isr : Z; vector_base : Z; icw_todo : list icw }.

Record hw := Hw {
  hw_master : pic;
  hw_slave : pic;
  cmos_sel : Z;              (* register selected through port 0x70 *)
  cmos : gmap Z Z;           (* clock registers *)
  crtc_sel : Z;
  crtc : gmap Z Z;           (* CRT controller registers *)
  hw_if : bool;              (* the interrupt flag of the processor *)
  outlog : list (Z * Z)      (* (port, byte) of every outb, latest first *)
}.

Definition cmos_reg (h : hw) (r : Z) : Z := default 0 (cmos h !! r).
Definition crtc_reg (h : hw) (r : Z) : Z := default 0 (crtc h !! r).

Definition set_master (f : pic → pic) (h : hw) : hw :=
  Hw (f (hw_master h)) (hw_slave h) (cmos_sel h) (cmos h) (crtc_sel h) (crtc h) (hw_if h) (outlog h).
Definition set_slave (f : pic → pic) (h : hw) : hw :=
  Hw (hw_master h) (f (hw_slave h)) (cmos_sel h) (cmos h) (crtc_sel h) (crtc h) (hw_if h) (outlog h).
Definition set_cmos_sel (v : Z) (h : hw) : hw :=
  Hw (hw_master h) (hw_slave h) v (cmos h) (crtc_sel h) (crtc h) (hw_if h) (outlog h).
Definition set_cmos (v : Z) (h : hw) : hw :=
  Hw (hw_master h) (hw_slave h) (cmos_sel h) (<[cmos_sel h := v]> (cmos h)) (crtc_sel h) (crtc h)
     (hw_if h) (outlog h).
Definition set_crtc_sel (v : Z) (h : hw) : hw :=
  Hw (hw_master h) (hw_slave h) (cmos_sel h) (cmos h) v (crtc h) (hw_if h) (outlog h).
Definition set_crtc (v : Z) (h : hw) : hw :=
  Hw (hw_master h) (hw_slave h) (cmos_sel h) (cmos h) (crtc_sel h) (<[crtc_sel h := v]> (crtc h))
     (hw_if h) (outlog h).
Definition hw_set_if (b : bool) (h : hw) : hw :=
  Hw (hw_master h) (hw_slave h) (cmos_sel h) (cmos h) (crtc_sel h) (crtc h) b (outlog h).
Definition hw_log (p v : Z) (h : hw) : hw :=
  Hw (hw_master h) (hw_slave h) (cmos_sel h) (cmos h) (crtc_sel h) (crtc h) (hw_if h)
     ((p, v) :: outlog h).

(** A command byte: ICW1 (bit 4) restarts initialisation, with ICW3 expected
    unless bit 1 and ICW4 if bit 0; a specific EOI (OCW2, 01100LLL) clears one
    in-service bit. *)
Definition pic_command (v : Z) (p : pic) : pic :=
  if Z.testbit v 4 then
    Pic 0 0 (vector_base p)
      (Icw2 :: (if Z.testbit v 1 then [] else [Icw3]) ++ (if Z.testbit v 0 then [Icw4] else []))
  else if Z.land v 248 =? 96
       then Pic (imr p) (Z.clearbit (isr p) (Z.land v 7)) (vector_base p) (icw_todo p)
       else p.
(** A data byte: ICW2 sets the vector base (its top five bits), the other
    ICWs are consumed, and after initialisation it is the mask (OCW1). *)
Definition pic_data (v : Z) (p : pic) : pic :=
  match icw_todo p with
  | [] => Pic v (isr p) (vector_base p) []
  | Icw2 :: l => Pic (imr p) (isr p) (Z.land v 248) l
  | _ :: l => Pic (imr p) (isr p) (vector_base p) l
  end.

(** The effect of writing [v] to port [p]. *)
Definition hw_out (v p : Z) (h : hw) : hw :=
  let v := u8 v in
  let h := hw_log p v h in
  if p =? 0x20 then set_master (pic_command v) h
  else if p =? 0x21 then set_master (pic_data v) h
  else if p =? 0xA0 then set_slave (pic_command v) h
  else if p =? 0xA1 then set_slave (pic_data v) h
  else if p =? 0x70 then set_cmos_sel (Z.land v 127) h
  else if p =? 0x71 then set_cmos v h
  else if p =? 0x3D4 then set_crtc_sel v h
  else if p =? 0x3D5 then set_crtc v h
  else h.

(** What one write does to each part of the hardware. *)
Section projections.
Variables (v p : Z) (h : hw).

Ltac solve_proj := unfold hw_out; repeat case_match; done.

Lemma hw_out_master :
  hw_master (hw_out v p h)
  = if p =? 0x20 then pic_command (u8 v) (hw_master h)
    else if p =? 0x21 then pic_data (u8 v) (hw_master h) else hw_master h.
Proof. solve_proj. Qed.
Lemma hw_out_slave :
  hw_slave (hw_out v p h)
  = if p =? 0xA0 then pic_command (u8 v) (hw_slave h)
    else if p =? 0xA1 then pic_data (u8 v) (hw_slave h) else hw_slave h.
Proof.
  unfold hw_out.
  destruct (Z.eqb_spec p 0x20) as [->|]; [done|]. destruct (Z.eqb_spec p 0x21) as [->|]; [done|].
  repeat case_match; done.
Qed.
Lemma hw_out_cmos_sel :
  cmos_sel (hw_out v p h) = if p =? 0x70 then Z.land (u8 v) 127 else cmos_sel h.
Proof.
  unfold hw_out. destruct (Z.eqb_spec p 0x70) as [->|]; [done|]. repeat case_match; done.
Qed.
Lemma hw_out_cmos :
  cmos (hw_out v p h) = if p =? 0x71 then <[cmos_sel h := u8 v]> (cmos h) else cmos h.
Proof.
  unfold hw_out. destruct (Z.eqb_spec p 0x71) as [->|]; [done|]. repeat case_match; done.
Qed.
Lemma hw_out_crtc_sel :
  crtc_sel (hw_out v p h) = if p =? 0x3D4 then u8 v else crtc_sel h.
Proof.
  unfold hw_out. destruct (Z.eqb_spec p 0x3D4) as [->|]; [done|]. repeat case_match; done.
Qed.
Lemma hw_out_crtc :
  crtc (hw_out v p h) = if p =? 0x3D5 then <[crtc_sel h := u8 v]> (crtc h) else crtc h.
Proof.
  unfold hw_out. destruct (Z.eqb_spec p 0x3D5) as [->|]; [done|]. repeat case_match; done.
Qed.
Lemma hw_out_if : hw_if (hw_out v p h) = hw_if h.
Proof. solve_proj. Qed.
Lemma hw_out_log : outlog (hw_out v p h) = (p, u8 v) :: outlog h.
Proof. solve_proj. Qed.
End projections.

(** The ports whose reads the drivers depend on. *)
Definition hw_in (p : Z) (h : hw) : option Z :=
  if p =? 0x21 then Some (imr (hw_master h))
  else if p =? 0xA1 then Some (imr (hw_slave h))
  else if p =? 0x71 then Some (cmos_reg h (cmos_sel h))
  else None.

(** A machine the drivers run on. *)
Class Board (D : Type) := {
  inb : Z → D → Z * D;
  outb : Z → Z → D → D;          (* outb data port *)
  cli : D → D;
  sti : D → D;
  obs : D → hw;
  inb_byte : ∀ p d, word8 (inb p d).1;
  obs_inb : ∀ p d v, hw_in p (obs d) = Some v → (inb p d).1 = u8 v;
  obs_inb_state : ∀ p d, obs (inb p d).2 = obs d;
  obs_outb : ∀ v p d, obs (outb v p d) = hw_out v p (obs d);
  obs_cli : ∀ d, obs (cli d) = hw_set_if false (obs d);
  obs_sti : ∀ d, obs (sti d) = hw_set_if true (obs d)
}.

Create Rewrite HintDb hw.
#[export] Hint Rewrite @obs_inb_state @obs_outb @obs_cli @obs_sti : hw.

(** Push the observation of a board through a driver's writes, and evaluate
    the port numbers. *)
Ltac hw_simpl :=
  cbn -[u8 u16 pic_command pic_data Z.land Z.lor Z.shiftl Z.shiftr Z.lnot Z.add Z.sub Z.mul
        Z.testbit Z.clearbit inb outb hw_out].
Ltac hw_step :=
  rewrite ?obs_outb, ?obs_inb_state, ?obs_cli, ?obs_sti;
  repeat (first [ rewrite hw_out_master | rewrite hw_out_slave | rewrite hw_out_cmos
                | rewrite hw_out_cmos_sel | rewrite hw_out_crtc | rewrite hw_out_crtc_sel
                | rewrite hw_out_if | rewrite hw_out_log ]; cbn [Z.eqb Pos.eqb]).

(** A concrete board: the registers, and a queue of bytes for each of the two
    keyboard ports (status 0x64, data 0x60). *)
Record pc := Pc { pc_hw : hw; pc_status : list Z; pc_data : list Z }.

Definition pc_inb (p : Z) (d : pc) : Z * pc :=
  if p =? 0x64 then
    (u8 (hd 0 (pc_status d)), Pc (pc_hw d) (tail (pc_status d)) (pc_data d))
  else if p =? 0x60 then
    (u8 (hd 0 (pc_data d)), Pc (pc_hw d) (pc_status d) (tail (pc_data d)))
  else (u8 (default 0 (hw_in p (pc_hw d))), d).

#[export] Program Instance pc_board : Board pc := {
  inb := pc_inb;
  outb := λ v p d, Pc (hw_out v p (pc_hw d)) (pc_status d) (pc_data d);
  cli := λ d, Pc (hw_set_if false (pc_hw d)) (pc_status d) (pc_data d);
  sti := λ d, Pc (hw_set_if true (pc_hw d)) (pc_status d) (pc_data d);
  obs := pc_hw
}.
Next Obligation. intros. unfold pc_inb. repeat case_match; apply u8_range. Qed.
Next Obligation.
  intros p d v H. unfold pc_inb.
  destruct (Z.eqb_spec p 0x64) as [->|]; [done|].
  destruct (Z.eqb_spec p 0x60) as [->|]; [done|].
  by rewrite H.
Qed.
Next Obligation. intros. unfold pc_inb. by repeat case_match. Qed.
Next Obligation. done. Qed.
Next Obligation. done. Qed.
Next Obligation. done. Qed.

(** The state at power-on as the boot loader leaves it: nothing masked, no
    interrupt in service, interrupts off. *)
Definition hw_reset : hw :=
  Hw (Pic 0 0 0x08 []) (Pic 0 0 0x70 []) 0 ∅ 0 ∅ false [].
Definition pc_reset : pc := Pc hw_reset [] [].
