(* ===== verification/I8259.v ===== *)
(** * i8259.c: the interrupt controllers *)
From S2P Require Import Prelude Ports.

Definition MASTER_8259_PORT := 0x20.
Definition SLAVE_8259_PORT := 0xA0.
Definition MASTER_8259_PORT_DATA := MASTER_8259_PORT + 1.
Definition SLAVE_8259_PORT_DATA := SLAVE_8259_PORT + 1.
Definition ICW1 := 0x11.
Definition ICW2_MASTER := 0x20.
Definition ICW2_SLAVE := 0x28.
Definition ICW3_MASTER := 0x04.
Definition ICW3_SLAVE := 0x02.
Definition ICW4 := 0x01.
Definition EOI := 0x60.
Definition SLAVE_IRQ := 2.
Definition IRQ_ALL_MASK := 0xFF.
Definition IRQ_PER_PIC := 8.

Section driver.
Context {D : Type} `{Board D}.

(** The globals [master_mask] and [slave_mask] are written here only, with
    [IRQ_ALL_MASK], and read here only. *)
Definition i8259_init (d : D) : D :=
  let master_mask := IRQ_ALL_MASK in
  let slave_mask := IRQ_ALL_MASK in
  let d := outb ICW1 MASTER_8259_PORT d in
  let d := outb ICW1 SLAVE_8259_PORT d in
  let d := outb ICW2_MASTER MASTER_8259_PORT_DATA d in
  let d := outb ICW2_SLAVE SLAVE_8259_PORT_DATA d in
  let d := outb ICW3_MASTER MASTER_8259_PORT_DATA d in
  let d := outb ICW3_SLAVE SLAVE_8259_PORT_DATA d in
  let d := outb ICW4 MASTER_8259_PORT_DATA d in
  let d := outb ICW4 SLAVE_8259_PORT_DATA d in
  let d := outb master_mask MASTER_8259_PORT_DATA d in
  outb slave_mask SLAVE_8259_PORT_DATA d.

Definition enable_irq (irq_num : Z) (d : D) : D :=
  if irq_num <? IRQ_PER_PIC then
    let port := MASTER_8259_PORT_DATA in
    let '(v, d) := inb port d in
    let value := u8 (Z.land v (Z.lnot (Z.shiftl 1 irq_num))) in
    outb value port d
  else
    let port := SLAVE_8259_PORT_DATA in
    let irq_num := irq_num - IRQ_PER_PIC in
    let '(v, d) := inb port d in
    let value := u8 (Z.land v (Z.lnot (Z.shiftl 1 irq_num))) in
    let d := outb value port d in
    let port := MASTER_8259_PORT_DATA in
    let '(v, d) := inb port d in
    let value := u8 (Z.land v (Z.lnot (Z.shiftl 1 SLAVE_IRQ))) in
    outb value port d.

Definition disable_irq (irq_num : Z) (d : D) : D :=
  if irq_num <? IRQ_PER_PIC then
    let port := MASTER_8259_PORT_DATA in
    let '(v, d) := inb port d in
    let value := u8 (Z.lor v (Z.shiftl 1 irq_num)) in
    outb value port d
  else
    let port := SLAVE_8259_PORT_DATA in
    let irq_num := irq_num - IRQ_PER_PIC in
    let '(v, d) := inb port d in
    let value := u8 (Z.lor v (Z.shiftl 1 irq_num)) in
    let d := outb value port d in
    let port := MASTER_8259_PORT_DATA in
    let '(v, d) := inb port d in
    let value := u8 (Z.lor v (Z.shiftl 1 SLAVE_IRQ)) in
    outb value port d.

Definition send_eoi (irq_num : Z) (d : D) : D :=
  if irq_num <? IRQ_PER_PIC then outb (Z.lor EOI irq_num) MASTER_8259_PORT d
  else
    let irq_num := irq_num - IRQ_PER_PIC in
    let d := outb (Z.lor EOI irq_num) SLAVE_8259_PORT d in
    outb (Z.lor EOI SLAVE_IRQ) MASTER_8259_PORT d.
End driver.

(** ** Interrupt lines

    IRQ 0-7 are the bits of the master's mask, 8-15 those of the slave's. *)

Definition irq_masked (h : hw) (irq : Z) : bool :=
  if irq <? 8 then Z.testbit (imr (hw_master h)) irq else Z.testbit (imr (hw_slave h)) (irq - 8).
(** A slave line reaches the processor through the cascade line. *)
Definition irq_deliverable (h : hw) (irq : Z) : bool :=
  negb (irq_masked h irq) && ((irq <? 8) || negb (irq_masked h SLAVE_IRQ)).
Definition irq_in_service (h : hw) (irq : Z) : bool :=
  if irq <? 8 then Z.testbit (isr (hw_master h)) irq else Z.testbit (isr (hw_slave h)) (irq - 8).
(** Both controllers are past initialisation and hold byte masks. *)
Definition pics_ready (h : hw) : Prop :=
  icw_todo (hw_master h) = [] ∧ icw_todo (hw_slave h) = [] ∧
  word8 (imr (hw_master h)) ∧ word8 (imr (hw_slave h)).

(** [f n v] forces bit [n] of the byte [v] to [b]. *)
Definition forces_bit (b : bool) (f : Z → Z → Z) : Prop :=
  ∀ n v i, word8 v → 0 ≤ n < 8 → 0 ≤ i →
    Z.testbit (u8 (u8 (f n v))) i = if bool_decide (i = n) then b else Z.testbit v i.

Lemma clear_forces_bit : forces_bit false (λ n v, Z.land v (Z.lnot (Z.shiftl 1 n))).
Proof.
  intros n v i Hv Hn Hi. rewrite u8_idemp, u8_testbit, Z.land_spec, Z.lnot_spec by done.
  rewrite shiftl_1_pow2, testbit_pow2_spec by lia.
  destruct (decide (i < 8)).
  - rewrite (bool_decide_true (i < 8)) by done. simpl.
    case_bool_decide; simpl; by rewrite ?andb_true_r, ?andb_false_r.
  - rewrite (testbit_above v 8), (bool_decide_false (i < 8)), bool_decide_false by lia. done.
Qed.

Lemma set_forces_bit : forces_bit true (λ n v, Z.lor v (Z.shiftl 1 n)).
Proof.
  intros n v i Hv Hn Hi. rewrite u8_idemp, u8_testbit, Z.lor_spec.
  rewrite shiftl_1_pow2, testbit_pow2_spec by lia.
  destruct (decide (i < 8)).
  - rewrite (bool_decide_true (i < 8)) by done. simpl.
    case_bool_decide; by rewrite ?orb_true_r, ?orb_false_r.
  - rewrite (testbit_above v 8), (bool_decide_false (i < 8)), bool_decide_false by lia. done.
Qed.

(** A controller's registers after a mask update are still bytes. *)
Ltac solve_ready := split_and!; solve [done | assumption | lia | word].

Section spec.
Context {D : Type} `{Board D}.

Lemma inb_imr_master d : pics_ready (obs d) → (inb 0x21 d).1 = imr (hw_master (obs d)).
Proof.
  intros (_ & _ & Hm & _). rewrite (obs_inb _ _ (imr (hw_master (obs d)))) by done.
  by apply u8_small.
Qed.
Lemma inb_imr_slave d : pics_ready (obs d) → (inb 0xA1 d).1 = imr (hw_slave (obs d)).
Proof.
  intros (_ & _ & _ & Hs). rewrite (obs_inb _ _ (imr (hw_slave (obs d)))) by done.
  by apply u8_small.
Qed.

(** Writing a mask once initialised. *)
Lemma out_imr_master v d :
  pics_ready (obs d) →
  obs (outb v 0x21 d) = set_master (λ p, Pic (u8 v) (isr p) (vector_base p) []) (hw_log 0x21 (u8 v) (obs d)).
Proof.
  intros (Hm & _). rewrite obs_outb. unfold hw_out, set_master, pic_data. hw_simpl. by rewrite Hm.
Qed.
Lemma out_imr_slave v d :
  pics_ready (obs d) →
  obs (outb v 0xA1 d) = set_slave (λ p, Pic (u8 v) (isr p) (vector_base p) []) (hw_log 0xA1 (u8 v) (obs d)).
Proof.
  intros (_ & Hs & _). rewrite obs_outb. unfold hw_out, set_slave, pic_data. hw_simpl. by rewrite Hs.
Qed.

(** A masked read-modify-write of one controller's mask register. *)
Lemma rmw_master (f : Z → Z) d :
  pics_ready (obs d) →
  let '(v, d') := inb 0x21 d in
  obs (outb (u8 (f v)) 0x21 d')
  = set_master (λ p, Pic (u8 (u8 (f (imr p)))) (isr p) (vector_base p) [])
      (hw_log 0x21 (u8 (u8 (f (imr (hw_master (obs d)))))) (obs d)).
Proof.
  intros Hr. pose proof (inb_imr_master d Hr) as Hv. pose proof (obs_inb_state 0x21 d) as Hd.
  destruct (inb 0x21 d) as [v d']. simpl in *. subst v.
  rewrite out_imr_master by (by rewrite Hd). by rewrite Hd.
Qed.
Lemma rmw_slave (f : Z → Z) d :
  pics_ready (obs d) →
  let '(v, d') := inb 0xA1 d in
  obs (outb (u8 (f v)) 0xA1 d')
  = set_slave (λ p, Pic (u8 (u8 (f (imr p)))) (isr p) (vector_base p) [])
      (hw_log 0xA1 (u8 (u8 (f (imr (hw_slave (obs d)))))) (obs d)).
Proof.
  intros Hr. pose proof (inb_imr_slave d Hr) as Hv. pose proof (obs_inb_state 0xA1 d) as Hd.
  destruct (inb 0xA1 d) as [v d']. simpl in *. subst v.
  rewrite out_imr_slave by (by rewrite Hd). by rewrite Hd.
Qed.

(** The shape both operations share: one controller's mask is read,
    changed and written back; for a slave line the cascade line too. *)
Definition irq_rmw (f : Z → Z → Z) (irq : Z) (d : D) : D :=
  if irq <? 8 then let '(v, d) := inb 0x21 d in outb (u8 (f irq v)) 0x21 d
  else
    let '(v, d) := inb 0xA1 d in
    let d := outb (u8 (f (irq - 8) v)) 0xA1 d in
    let '(v, d) := inb 0x21 d in outb (u8 (f SLAVE_IRQ v)) 0x21 d.

Lemma enable_irq_rmw irq d :
  enable_irq irq d = irq_rmw (λ n v, Z.land v (Z.lnot (Z.shiftl 1 n))) irq d.
Proof. done. Qed.
Lemma disable_irq_rmw irq d :
  disable_irq irq d = irq_rmw (λ n v, Z.lor v (Z.shiftl 1 n)) irq d.
Proof. done. Qed.

Lemma irq_rmw_spec b f irq d :
  forces_bit b f → 0 ≤ irq < 16 → pics_ready (obs d) →
  pics_ready (obs (irq_rmw f irq d)) ∧
  cmos (obs (irq_rmw f irq d)) = cmos (obs d) ∧ hw_if (obs (irq_rmw f irq d)) = hw_if (obs d) ∧
  ∀ j, 0 ≤ j < 16 →
    irq_masked (obs (irq_rmw f irq d)) j
    = if bool_decide (j = irq ∨ 8 ≤ irq ∧ j = SLAVE_IRQ) then b else irq_masked (obs d) j.
Proof.
  intros Hf Hirq Hr. destruct (Hr) as (Hm & Hs & Hmb & Hsb). unfold irq_rmw.
  destruct (Z.ltb_spec irq 8) as [Hlt|Hge].
  - pose proof (rmw_master (f irq) d Hr) as Hrmw.
    destruct (inb 33 d) as [v d']. rewrite Hrmw. unfold pics_ready, irq_masked. hw_simpl.
    split; [by solve_ready|]. do 2 (split; [done|]). intros j Hj.
    destruct (Z.ltb_spec j 8); [rewrite Hf by lia|]; repeat case_bool_decide; try done; lia.
  - pose proof (rmw_slave (f (irq - 8)) d Hr) as Hrmw.
    destruct (inb 161 d) as [v d']. set (d1 := outb _ 161 d') in *.
    assert (pics_ready (obs d1)) as Hr1.
    { rewrite Hrmw. unfold pics_ready. hw_simpl. by solve_ready. }
    pose proof (rmw_master (f SLAVE_IRQ) d1 Hr1) as Hrmw1. cbv zeta.
    destruct (inb 33 d1) as [v1 d1']. rewrite Hrmw1, Hrmw. unfold pics_ready, irq_masked. hw_simpl.
    split; [by solve_ready|]. do 2 (split; [done|]). intros j Hj. unfold SLAVE_IRQ in *.
    destruct (Z.ltb_spec j 8); rewrite Hf by lia; repeat case_bool_decide; try done; lia.
Qed.
(** [send_eoi] ends the service of the line, and of the cascade line. *)
Lemma send_eoi_spec irq j d :
  0 ≤ irq < 16 → 0 ≤ j < 16 →
  irq_in_service (obs (send_eoi irq d)) j
  = irq_in_service (obs d) j && negb (bool_decide (j = irq ∨ 8 ≤ irq ∧ j = SLAVE_IRQ)).
Proof.
  intros Hirq Hj. unfold send_eoi, IRQ_PER_PIC.
  assert (∀ n, 0 ≤ n < 8 → ∀ p, pic_command (u8 (Z.lor EOI n)) p
    = Pic (imr p) (Z.clearbit (isr p) n) (vector_base p) (icw_todo p)) as Heoi.
  { intros n Hn p. assert (n = 0 ∨ n = 1 ∨ n = 2 ∨ n = 3 ∨ n = 4 ∨ n = 5 ∨ n = 6 ∨ n = 7)
      as Hc by lia. by destruct Hc as [->|[->|[->|[->|[->|[->|[->| ->]]]]]]]. }
  destruct (Z.ltb_spec irq 8).
  + change MASTER_8259_PORT with 0x20. unfold irq_in_service. hw_step.
    rewrite Heoi by lia. simpl. destruct (Z.ltb_spec j 8).
    * rewrite Z.clearbit_eqb by lia. f_equal. repeat case_bool_decide; lia.
    * rewrite bool_decide_false by lia. by rewrite andb_true_r.
  + change MASTER_8259_PORT with 0x20. change SLAVE_8259_PORT with 0xA0.
    unfold irq_in_service. hw_step. rewrite !Heoi by (unfold SLAVE_IRQ; lia). simpl. unfold SLAVE_IRQ in *.
    destruct (Z.ltb_spec j 8); rewrite Z.clearbit_eqb by lia; f_equal;
      repeat case_bool_decide; lia.
Qed.

(** A board whose controllers are in the same state has the same lines. *)
Lemma irq_in_service_ext h h' j :
  hw_master h' = hw_master h → hw_slave h' = hw_slave h → irq_in_service h' j = irq_in_service h j.
Proof. unfold irq_in_service. by intros -> ->. Qed.
End spec.

(** ** Properties *)

(** [enable_irq] and [disable_irq] change exactly the mask bits they
    should touch: the line itself and, for a line of the slave controller, the
    cascade line; every other line, the clock registers and the interrupt flag
    keep their state. *)
Lemma irq_masks_exact {D} `{Board D} irq (d : D) :
  0 ≤ irq < 16 → pics_ready (obs d) →
  (pics_ready (obs (enable_irq irq d)) ∧ pics_ready (obs (disable_irq irq d))) ∧
  (irq_deliverable (obs (enable_irq irq d)) irq = true) ∧
  (∀ j, 0 ≤ j < 16 → j ≠ irq → (8 ≤ irq → j ≠ SLAVE_IRQ) →
    irq_masked (obs (enable_irq irq d)) j = irq_masked (obs d) j ∧
    irq_masked (obs (disable_irq irq d)) j = irq_masked (obs d) j) ∧
  (irq_deliverable (obs (disable_irq irq d)) irq = false) ∧
  cmos (obs (enable_irq irq d)) = cmos (obs d) ∧ cmos (obs (disable_irq irq d)) = cmos (obs d) ∧
  hw_if (obs (enable_irq irq d)) = hw_if (obs d) ∧ hw_if (obs (disable_irq irq d)) = hw_if (obs d).
Proof.
  intros Hirq Hr. rewrite enable_irq_rmw, disable_irq_rmw.
  destruct (irq_rmw_spec _ _ irq d clear_forces_bit Hirq Hr) as (Hr1 & Hc1 & Hi1 & Hm1).
  destruct (irq_rmw_spec _ _ irq d set_forces_bit Hirq Hr) as (Hr2 & Hc2 & Hi2 & Hm2).
  split; [done|]. unfold irq_deliverable. split; [|split; [|split; [|done]]].
  - rewrite !Hm1 by (unfold SLAVE_IRQ; lia). rewrite bool_decide_true by auto. simpl.
    destruct (Z.ltb_spec irq 8); [done|]. by rewrite bool_decide_true by auto.
  - intros j Hj Hne Hs. rewrite Hm1, Hm2 by done. by rewrite bool_decide_false by tauto.
  - rewrite Hm2 by done. by rewrite bool_decide_true by auto.
Qed.

Lemma irq_masks_exact_witness :
  pics_ready (obs (i8259_init pc_reset)) ∧
  irq_deliverable (obs (enable_irq 8 (i8259_init pc_reset))) 8 = true.
Proof.
  assert (pics_ready (obs (i8259_init pc_reset))) as Hr
    by (split_and!; vm_compute; done).
  split; [done|].
  exact (proj1 (proj2 (irq_masks_exact 8 (i8259_init pc_reset) ltac:(lia) Hr))).
Defined.

(** Disabling one line of the slave controller makes all eight of them
    undeliverable, because the cascade line is masked with it. *)
Lemma disable_irq_blocks_slave {D} `{Board D} irq j (d : D) :
  8 ≤ irq < 16 → 8 ≤ j < 16 → pics_ready (obs d) →
  irq_deliverable (obs (disable_irq irq d)) j = false.
Proof.
  intros Hirq Hj Hr. rewrite disable_irq_rmw.
  destruct (irq_rmw_spec _ _ irq d set_forces_bit ltac:(lia) Hr) as (_ & _ & _ & Hm).
  unfold irq_deliverable. rewrite (Hm SLAVE_IRQ) by (unfold SLAVE_IRQ; lia).
  rewrite bool_decide_true by lia. destruct (Z.ltb_spec j 8); [lia|]. apply andb_false_r.
Qed.

(** From any state, [i8259_init] leaves both controllers initialised,
    vectors at 0x20 and 0x28 and every line masked; and [send_eoi] ends the
    service of exactly the given line, and of the cascade line for a line of
    the slave. *)
Lemma pic_init_and_eoi {D} `{Board D} (d : D) :
  (let h := obs (i8259_init d) in
   pics_ready h ∧ vector_base (hw_master h) = 0x20 ∧ vector_base (hw_slave h) = 0x28 ∧
   (∀ j, 0 ≤ j < 16 → irq_masked h j = true)) ∧
  (∀ irq j, 0 ≤ irq < 16 → 0 ≤ j < 16 →
    irq_in_service (obs (send_eoi irq d)) j
    = irq_in_service (obs d) j && negb (bool_decide (j = irq ∨ 8 ≤ irq ∧ j = SLAVE_IRQ))).
Proof.
  split.
  - cbv zeta. unfold i8259_init, pics_ready, irq_masked.
    change MASTER_8259_PORT_DATA with 0x21. change SLAVE_8259_PORT_DATA with 0xA1.
    change MASTER_8259_PORT with 0x20. change SLAVE_8259_PORT with 0xA0. hw_step.
    generalize (hw_master (obs d)) (hw_slave (obs d)). clear. intros m s.
    change (pic_command (u8 ICW1) m) with (Pic 0 0 (vector_base m) [Icw2; Icw3; Icw4]).
    change (pic_command (u8 ICW1) s) with (Pic 0 0 (vector_base s) [Icw2; Icw3; Icw4]).
    unfold pic_data. simpl. split_and!; try done. intros j Hj.
    assert (∀ i, 0 ≤ i < 8 → Z.testbit 255 i = true) as Hff.
    { intros i Hi. change 255 with (Z.ones 8). apply Z.ones_spec_low. lia. }
    change (u8 IRQ_ALL_MASK) with 255. destruct (Z.ltb_spec j 8); apply Hff; lia.
  - intros irq j. apply send_eoi_spec.
Qed.
