(* ===== verification/Screen.v ===== *)
(** * lib.c: text screens

    A screen is a cursor and a pointer to 25 rows of 80 cells, two bytes each
    (character, attribute).  [putc] and its helpers work on the file-static
    screen of lib.c, the [_in_terminal] ones on a terminal's; the registers of
    the CRT controller are set by [set_vga_start] and [move_cursor]. *)
From S2P Require Import Prelude CMem Ports.

Definition VIDEO := 0xB8000.
Definition NUM_COLS := 80.
Definition NUM_ROWS := 25.
Definition ATTRIB := 7.
Definition VGA_BASE := 0x3D4.
Definition CURSOR_LOW := 0x0F.
Definition CURSOR_HIGH := 0x0E.
Definition START_ADDR_REG_HIGH := 0x0C.
Definition START_ADDR_REG_LOW := 0x0D.

(** [screen_t]; the statics [screen_x], [screen_y], [video_mem] of lib.c form
    one too. *)
Record screen_t := Screen { scr_x : Z; scr_y : Z; video_mem : Z }.

(** The three statics at load time. *)
Definition lib_statics : screen_t := Screen 0 0 VIDEO.

(** [for(i = lo; i < hi; i++)] over cells, writing character and attribute. *)
Definition blank_cells (lo hi v : Z) (m : mem) : mem :=
  for_z lo hi (λ i m,
    let m := mset m (v + Z.shiftl i 1) 32 in
    mset m (v + Z.shiftl i 1 + 1) ATTRIB) m.

Definition clear (m : mem) (st : screen_t) : mem * screen_t :=
  (blank_cells 0 (NUM_ROWS * NUM_COLS) (video_mem st) m, Screen 0 0 (video_mem st)).

Definition clear_terminal (m : mem) (screen : screen_t) : mem * screen_t :=
  (blank_cells 0 (NUM_ROWS * NUM_COLS) (video_mem screen) m, Screen 0 0 (video_mem screen)).

(** First every row takes the characters of the row below it, then the last
    row is blanked. *)
Definition vert_scroll_in_terminal (m : mem) (screen : screen_t) : mem :=
  let v := video_mem screen in
  let m := for_z 0 ((NUM_ROWS - 1) * NUM_COLS) (λ i m,
    let m := mset m (v + Z.shiftl i 1) (mget m (v + Z.shiftl (i + NUM_COLS) 1)) in
    mset m (v + Z.shiftl i 1 + 1) ATTRIB) m in
  blank_cells ((NUM_ROWS - 1) * NUM_COLS) (NUM_ROWS * NUM_COLS) v m.

Definition vert_scroll (m : mem) (st : screen_t) : mem :=
  let v := video_mem st in
  let m := for_z 0 ((NUM_ROWS - 1) * NUM_COLS) (λ i m,
    let m := mset m (v + Z.shiftl i 1) (mget m (v + Z.shiftl (i + NUM_COLS) 1)) in
    mset m (v + Z.shiftl i 1 + 1) ATTRIB) m in
  blank_cells ((NUM_ROWS - 1) * NUM_COLS) (NUM_ROWS * NUM_COLS) v m.

(** [%] and [/] on [int] truncate. *)
Definition putc_in_terminal (c : Z) (m : mem) (screen : screen_t) : mem * screen_t :=
  let c := u8 c in
  let '(Screen x y v) := screen in
  if (c =? 10) || (c =? 13) then
    let y := y + 1 in
    let x := 0 in
    if y >? NUM_ROWS - 1 then
      (vert_scroll_in_terminal m (Screen x y v), Screen x (NUM_ROWS - 1) v)
    else (m, Screen x y v)
  else
    let m := mset m (v + Z.shiftl (NUM_COLS * y + x) 1) c in
    let m := mset m (v + Z.shiftl (NUM_COLS * y + x) 1 + 1) ATTRIB in
    let x := x + 1 in
    let increment_y := if x >? NUM_COLS - 1 then 1 else 0 in
    let x := Z.rem x NUM_COLS in
    if y + increment_y + Z.quot x NUM_COLS >? NUM_ROWS - 1 then
      (vert_scroll_in_terminal m (Screen x y v), Screen x (NUM_ROWS - 1) v)
    else (m, Screen x (Z.rem (y + increment_y + Z.quot x NUM_COLS) NUM_ROWS) v).

Definition putc (c : Z) (m : mem) (st : screen_t) : mem * screen_t :=
  let c := u8 c in
  let '(Screen screen_x screen_y v) := st in
  if (c =? 10) || (c =? 13) then
    let screen_y := screen_y + 1 in
    let screen_x := 0 in
    if screen_y >? NUM_ROWS - 1 then
      (vert_scroll m (Screen screen_x screen_y v), Screen screen_x (NUM_ROWS - 1) v)
    else (m, Screen screen_x screen_y v)
  else
    let m := mset m (v + Z.shiftl (NUM_COLS * screen_y + screen_x) 1) c in
    let m := mset m (v + Z.shiftl (NUM_COLS * screen_y + screen_x) 1 + 1) ATTRIB in
    let screen_x := screen_x + 1 in
    let increment_y := if screen_x >? NUM_COLS - 1 then 1 else 0 in
    let screen_x := Z.rem screen_x NUM_COLS in
    if screen_y + increment_y + Z.quot screen_x NUM_COLS >? NUM_ROWS - 1 then
      (vert_scroll m (Screen screen_x screen_y v), Screen screen_x (NUM_ROWS - 1) v)
    else
      (m, Screen screen_x (Z.rem (screen_y + increment_y + Z.quot screen_x NUM_COLS) NUM_ROWS) v).

Definition backspace_fnc (m : mem) (screen : screen_t) : mem * screen_t :=
  let '(Screen x y v) := screen in
  if x =? 0 then
    let '(m, Screen x y v) := putc_in_terminal 32 m (Screen (NUM_COLS - 1) (y - 1) v) in
    (m, Screen (NUM_COLS - 1) (y - 1) v)
  else
    let '(m, Screen x y v) := putc_in_terminal 32 m (Screen (x - 1) y v) in
    (m, Screen (x - 1) y v).

(** [puts]: the string is read while it is printed; [None] would mean that
    printing overwrote the string so that it never ends. *)
Fixpoint puts_loop (fuel : nat) (s index : Z) (m : mem) (st : screen_t)
    : option (Z * mem * screen_t) :=
  match fuel with
  | O => None
  | S fuel =>
      if mget m (s + index) =? 0 then Some (index, m, st)
      else
        let '(m, st) := putc (mget m (s + index)) m st in
        puts_loop fuel s (index + 1) m st
  end.
Definition puts (s : Z) (m : mem) (st : screen_t) : option (Z * mem * screen_t) :=
  puts_loop (S (size m)) s 0 m st.

(** Accessors of the statics. *)
Definition get_screen_x (st : screen_t) : Z := scr_x st.
Definition get_screen_y (st : screen_t) : Z := scr_y st.
Definition get_video_mem (st : screen_t) : Z := video_mem st.
Definition set_screen_x (x : Z) (st : screen_t) : screen_t := Screen x (scr_y st) (video_mem st).
Definition set_screen_y (y : Z) (st : screen_t) : screen_t := Screen (scr_x st) y (video_mem st).
Definition set_video_mem (p : Z) (st : screen_t) : screen_t := Screen (scr_x st) (scr_y st) p.

(** [video_mem[i<<1]++] on every character. *)
Definition test_interrupts (m : mem) (st : screen_t) : mem :=
  for_z 0 (NUM_ROWS * NUM_COLS) (λ i m,
    mset m (video_mem st + Z.shiftl i 1) (mget m (video_mem st + Z.shiftl i 1) + 1)) m.

Section vga.
Context {D : Type} `{Board D}.

Definition set_vga_start (addr : Z) (d : D) : D :=
  let addr := Z.shiftr (u32 addr) 1 in
  let d := outb START_ADDR_REG_LOW VGA_BASE d in
  let d := outb (Z.land addr 0xFF) (VGA_BASE + 1) d in
  let d := outb START_ADDR_REG_HIGH VGA_BASE d in
  outb (Z.land (Z.shiftr addr 8) 0xFF) (VGA_BASE + 1) d.

Definition move_cursor (term_num : Z) (screen : screen_t) (term_mem_length : Z) (d : D) : D :=
  let position := u16 (scr_y screen * NUM_COLS + scr_x screen
                       + Z.shiftr (u32 (term_num * term_mem_length)) 1) in
  let d := outb CURSOR_LOW VGA_BASE d in
  let d := outb (Z.land position 0xFF) (VGA_BASE + 1) d in
  let d := outb CURSOR_HIGH VGA_BASE d in
  outb (Z.land (Z.shiftr position 8) 0xFF) (VGA_BASE + 1) d.

(** The CRT registers are no business of the interrupt controllers. *)
Lemma set_vga_start_pics addr d :
  hw_master (obs (set_vga_start addr d)) = hw_master (obs d) ∧
  hw_slave (obs (set_vga_start addr d)) = hw_slave (obs d).
Proof.
  unfold set_vga_start. change (VGA_BASE + 1) with 0x3D5. change VGA_BASE with 0x3D4. by hw_step.
Qed.
Lemma move_cursor_pics t s n d :
  hw_master (obs (move_cursor t s n d)) = hw_master (obs d) ∧
  hw_slave (obs (move_cursor t s n d)) = hw_slave (obs d).
Proof.
  unfold move_cursor. change (VGA_BASE + 1) with 0x3D5. change VGA_BASE with 0x3D4. by hw_step.
Qed.
End vga.

(** ** The abstract screen

    A cursor and the list of 2000 cells in reading order. *)

Record aterm := Aterm { a_x : Z; a_y : Z; a_cells : list (Z * Z) }.

Definition cell (m : mem) (v i : Z) : Z * Z := (mget m (v + 2 * i), mget m (v + 2 * i + 1)).
Definition cells (m : mem) (v : Z) : list (Z * Z) := cell m v <$> seqZ 0 2000.
Definition abs_screen (m : mem) (s : screen_t) : aterm :=
  Aterm (scr_x s) (scr_y s) (cells m (video_mem s)).

Definition blank : Z * Z := (32, ATTRIB).
(** The first row goes, the others move up in the standard colour, a blank
    row appears. *)
Definition a_scroll (l : list (Z * Z)) : list (Z * Z) :=
  ((λ c, (c.1, ATTRIB)) <$> drop 80 l) ++ replicate 80 blank.
Definition a_newline (t : aterm) : aterm :=
  if a_y t =? 24 then Aterm 0 24 (a_scroll (a_cells t)) else Aterm 0 (a_y t + 1) (a_cells t).
Definition a_putc (c : Z) (t : aterm) : aterm :=
  if (c =? 10) || (c =? 13) then a_newline t
  else
    let t' := Aterm (a_x t + 1) (a_y t) (<[Z.to_nat (80 * a_y t + a_x t) := (c, ATTRIB)]> (a_cells t)) in
    if a_x t =? 79 then a_newline t' else t'.

(** The cursor is on the screen. *)
Definition screen_ok (s : screen_t) : Prop := 0 ≤ scr_x s < 80 ∧ 0 ≤ scr_y s < 25.

Lemma length_cells m v : length (cells m v) = 2000%nat.
Proof. unfold cells. rewrite length_fmap, length_seqZ. done. Qed.

Lemma lookup_cells m v i : (i < 2000)%nat → cells m v !! i = Some (cell m v (Z.of_nat i)).
Proof.
  intros Hi. unfold cells. rewrite list_lookup_fmap.
  by rewrite (proj2 (lookup_seqZ 0 2000 i (Z.of_nat i))) by lia.
Qed.

Lemma cells_eq m v (l : list (Z * Z)) :
  length l = 2000%nat →
  (∀ i, 0 ≤ i < 2000 → l !! Z.to_nat i = Some (cell m v i)) → cells m v = l.
Proof.
  intros Hlen H. apply list_eq. intros i. destruct (decide (i < 2000)%nat).
  - rewrite lookup_cells by done. specialize (H (Z.of_nat i)). rewrite Nat2Z.id in H.
    symmetry. apply H. lia.
  - rewrite !lookup_ge_None_2; rewrite ?length_cells; lia || done.
Qed.

(** Writing one cell. *)
Definition set_cell (m : mem) (v i ch : Z) : mem :=
  mset (mset m (v + Z.shiftl i 1) ch) (v + Z.shiftl i 1 + 1) ATTRIB.

Lemma shiftl_1 i : Z.shiftl i 1 = 2 * i.
Proof. rewrite Z.shiftl_mul_pow2 by done. lia. Qed.

Lemma cell_set_cell m v i ch j :
  cell (set_cell m v i ch) v j = if decide (i = j) then (u8 ch, ATTRIB) else cell m v j.
Proof.
  unfold cell, set_cell. rewrite shiftl_1, !mget_mset.
  repeat case_decide; try lia; done.
Qed.

Lemma frame_set_cell m v i ch :
  0 ≤ i < 2000 → frame v (v + 4000) m (set_cell m v i ch).
Proof.
  intros Hi a Ha. unfold set_cell. rewrite shiftl_1, !mget_mset.
  repeat case_decide; try lia; done.
Qed.

Lemma cells_set_cell m v i ch :
  0 ≤ i < 2000 → cells (set_cell m v i ch) v = <[Z.to_nat i := (u8 ch, ATTRIB)]> (cells m v).
Proof.
  intros Hi. apply cells_eq; [by rewrite length_insert, length_cells|]. intros j Hj.
  rewrite cell_set_cell. case_decide as Hij.
  - subst. rewrite list_lookup_insert_eq; [done|]. rewrite length_cells. lia.
  - rewrite list_lookup_insert_ne by lia. rewrite lookup_cells by lia. do 2 f_equal. lia.
Qed.

(** What the blanking loop leaves. *)
Lemma blank_cells_spec lo hi v m :
  0 ≤ lo ≤ hi → hi ≤ 2000 →
  frame v (v + 4000) m (blank_cells lo hi v m) ∧
  ∀ j, cell (blank_cells lo hi v m) v j = if decide (lo ≤ j < hi) then blank else cell m v j.
Proof.
  intros Hlo Hhi. unfold blank_cells.
  refine (for_z_ind (λ i m', frame v (v + 4000) m m' ∧
    ∀ j, cell m' v j = if decide (lo ≤ j < i) then blank else cell m v j) _ _ _ _ _ _ _); [lia| |].
  - split; [done|]. intros j. by rewrite decide_False by lia.
  - intros i m' Hi [Hf IH]. fold (set_cell m' v i 32). split.
    + eapply frame_trans; [done|]. apply frame_set_cell. lia.
    + intros j. rewrite cell_set_cell, IH. repeat case_decide; try lia; done.
Qed.

(** In-place scrolling reads each row before overwriting it. *)
Lemma vert_scroll_spec m s :
  frame (video_mem s) (video_mem s + 4000) m (vert_scroll_in_terminal m s) ∧
  cells (vert_scroll_in_terminal m s) (video_mem s) = a_scroll (cells m (video_mem s)).
Proof.
  set (v := video_mem s). unfold vert_scroll_in_terminal. fold v.
  set (m1 := for_z 0 _ _ m).
  assert (frame v (v + 4000) m m1 ∧ ∀ j, cell m1 v j =
    if decide (0 ≤ j < 1920) then ((cell m v (j + 80)).1, ATTRIB) else cell m v j) as [Hf1 Hc1].
  { unfold m1. refine (for_z_ind (λ i m', frame v (v + 4000) m m' ∧ ∀ j, cell m' v j =
      if decide (0 ≤ j < i) then ((cell m v (j + 80)).1, ATTRIB) else cell m v j)
      _ _ _ _ _ _ _); [done| |].
    - split; [done|]. intros j. by rewrite decide_False by lia.
    - intros i m' Hi [Hf IH]. fold (set_cell m' v i (mget m' (v + Z.shiftl (i + NUM_COLS) 1))).
      unfold NUM_ROWS, NUM_COLS in *. split.
      + eapply frame_trans; [done|]. apply frame_set_cell. lia.
      + intros j. rewrite cell_set_cell, shiftl_1.
        pose proof (IH (i + 80)) as Hi80. rewrite decide_False in Hi80 by lia.
        apply (f_equal fst) in Hi80. simpl in Hi80. rewrite Hi80. case_decide as Hij.
        * subst j. rewrite decide_True by lia. by rewrite u8_small by apply mget_range.
        * rewrite IH. repeat case_decide; try lia; done. }
  destruct (blank_cells_spec 1920 2000 v m1) as [Hf2 Hc2]; [lia..|].
  change ((NUM_ROWS - 1) * NUM_COLS) with 1920. change (NUM_ROWS * NUM_COLS) with 2000.
  split; [by eapply frame_trans|].
  apply cells_eq.
  { unfold a_scroll. rewrite length_app, length_fmap, length_drop, length_cells, length_replicate. done. }
  intros i Hi. rewrite Hc2, Hc1. unfold a_scroll. case_decide.
  - rewrite lookup_app_r by (rewrite length_fmap, length_drop, length_cells; lia).
    rewrite length_fmap, length_drop, length_cells. apply lookup_replicate. split; [done|lia].
  - rewrite decide_True by lia.
    rewrite lookup_app_l by (rewrite length_fmap, length_drop, length_cells; lia).
    rewrite list_lookup_fmap, lookup_drop, lookup_cells by lia. simpl. do 3 f_equal. lia.
Qed.

Lemma vert_scroll_eq m st : vert_scroll m st = vert_scroll_in_terminal m st.
Proof. unfold vert_scroll, vert_scroll_in_terminal. reflexivity. Qed.

Lemma putc_eq c m st : putc c m st = putc_in_terminal c m st.
Proof.
  destruct st as [x y v].
  unfold putc, putc_in_terminal, vert_scroll, vert_scroll_in_terminal. reflexivity.
Qed.
(** Scrolling is reasoned about through [vert_scroll_spec] only. *)
#[global] Opaque vert_scroll vert_scroll_in_terminal blank_cells cells.
#[global] Arguments a_scroll : simpl never.

(** The shared step of both code paths: the line is over. *)
Lemma newline_step m x y v s0 :
  0 ≤ y < 25 → video_mem s0 = v → ∀ m' s',
  (if y + 1 >? 24 then (vert_scroll_in_terminal m s0, Screen 0 24 v)
   else (m, Screen 0 (y + 1) v)) = (m', s') →
  abs_screen m' s' = a_newline (Aterm x y (cells m v)) ∧ screen_ok s' ∧
  video_mem s' = v ∧ frame v (v + 4000) m m'.
Proof.
  intros Hy <- m' s' Heq. unfold a_newline. simpl.
  destruct (Z.gtb_spec (y + 1) 24); apply pair_inv in Heq as [<- <-].
  - rewrite (proj2 (Z.eqb_eq y 24)) by lia.
    destruct (vert_scroll_spec m s0) as [Hf Hc].
    split; [unfold abs_screen; cbn [scr_x scr_y video_mem]; by rewrite Hc|].
    split; [split; simpl; lia|]. split; [reflexivity|exact Hf].
  - rewrite (proj2 (Z.eqb_neq y 24)) by lia.
    split; [reflexivity|]. split; [split; simpl; lia|]. split; [reflexivity|apply frame_refl].
Qed.

Lemma putc_in_terminal_spec c m s m' s' :
  screen_ok s → putc_in_terminal c m s = (m', s') →
  abs_screen m' s' = a_putc (u8 c) (abs_screen m s) ∧ screen_ok s' ∧
  video_mem s' = video_mem s ∧ frame (video_mem s) (video_mem s + 4000) m m'.
Proof.
  destruct s as [x y v]. intros [Hx Hy] Heq. simpl in Hx, Hy. unfold a_putc.
  cbn [putc_in_terminal] in Heq. cbv zeta in Heq.
  destruct ((u8 c =? 10) || (u8 c =? 13)).
  - change (NUM_ROWS - 1) with 24 in Heq.
    destruct (newline_step m x y v (Screen 0 (y + 1) v) Hy eq_refl m' s' Heq)
      as (H1 & H2 & H3 & H4).
    exact (conj H1 (conj H2 (conj H3 H4))).
  - fold (set_cell m v (NUM_COLS * y + x) (u8 c)) in Heq.
    change (NUM_ROWS - 1) with 24 in Heq. change (NUM_COLS - 1) with 79 in Heq.
    unfold NUM_COLS, NUM_ROWS in Heq.
    assert (frame v (v + 4000) m (set_cell m v (80 * y + x) (u8 c))) as Hf
      by (apply frame_set_cell; lia).
    assert (cells (set_cell m v (80 * y + x) (u8 c)) v
      = <[Z.to_nat (80 * y + x) := (u8 c, ATTRIB)]> (cells m v)) as Hc
      by (rewrite cells_set_cell, u8_idemp by lia; done).
    simpl. destruct (Z.eqb_spec x 79) as [->|Hx79].
    + change (Z.rem (79 + 1) 80) with 0 in Heq. change (Z.quot 0 80) with 0 in Heq.
      change (79 + 1 >? 79) with true in Heq. cbv iota in Heq.
      rewrite Z.add_0_r in Heq.
      destruct (newline_step (set_cell m v (80 * y + 79) (u8 c)) (79 + 1) y v (Screen 0 y v)
        Hy eq_refl m' s') as (H1 & H2 & H3 & H4).
      { rewrite <- Heq. destruct (Z.gtb_spec (y + 1) 24) as [H|H]; [reflexivity|].
        rewrite Z.rem_small by lia. reflexivity. }
      rewrite Hc in H1.
      exact (conj H1 (conj H2 (conj H3 (frame_trans _ _ _ _ _ Hf H4)))).
    + destruct (Z.gtb_spec (x + 1) 79); [lia|].
      rewrite (Z.rem_small (x + 1)), (Z.quot_small (x + 1)), !Z.add_0_r in Heq by lia.
      destruct (Z.gtb_spec y 24); [lia|]. rewrite Z.rem_small in Heq by lia.
      apply pair_inv in Heq as [<- <-].
      split; [unfold abs_screen; cbn [scr_x scr_y video_mem]; by rewrite Hc|].
      split; [split; simpl; lia|]. split; [reflexivity|exact Hf].
Qed.

(** The same, as a rewriting fact on projections. *)
Lemma putc_in_terminal_abs c m s :
  screen_ok s →
  let r := putc_in_terminal c m s in
  abs_screen r.1 r.2 = a_putc (u8 c) (abs_screen m s) ∧ screen_ok r.2 ∧
  video_mem r.2 = video_mem s ∧ frame (video_mem s) (video_mem s + 4000) m r.1.
Proof.
  intros Hs. cbv zeta. apply putc_in_terminal_spec; [done|]. by destruct (putc_in_terminal c m s).
Qed.

(** Printing a sequence of characters. *)
Definition print_all (l : list Z) (m : mem) (s : screen_t) : mem * screen_t :=
  foldl (λ '(m, s) c, putc_in_terminal c m s) (m, s) l.

Lemma print_all_cons c l m s :
  print_all (c :: l) m s = print_all l (putc_in_terminal c m s).1 (putc_in_terminal c m s).2.
Proof. unfold print_all. cbn [foldl]. by destruct (putc_in_terminal c m s). Qed.

Lemma print_all_abs l m s :
  screen_ok s →
  let r := print_all l m s in
  abs_screen r.1 r.2 = foldl (λ t c, a_putc (u8 c) t) (abs_screen m s) l ∧ screen_ok r.2 ∧
  video_mem r.2 = video_mem s ∧ frame (video_mem s) (video_mem s + 4000) m r.1.
Proof.
  revert m s. induction l as [|c l IH]; intros m s Hs; cbv zeta.
  - simpl. repeat split; try apply Hs.
  - rewrite print_all_cons. destruct (putc_in_terminal_abs c m s Hs) as (H1 & H2 & H3 & H4).
    destruct (IH (putc_in_terminal c m s).1 (putc_in_terminal c m s).2 H2) as (H5 & H6 & H7 & H8).
    rewrite H3 in H7, H8. rewrite H1 in H5.
    exact (conj H5 (conj H6 (conj H7 (frame_trans _ _ _ _ _ H4 H8)))).
Qed.

Lemma puts_loop_spec fuel s0 index m st l :
  screen_ok st → cstr m (s0 + index) l → (length l < fuel)%nat →
  s0 + index + Z.of_nat (length l) < video_mem st ∨ video_mem st + 4000 ≤ s0 + index →
  puts_loop fuel s0 index m st
  = Some (index + Z.of_nat (length l), (print_all l m st).1, (print_all l m st).2).
Proof.
  revert index m st l. induction fuel as [|fuel IH]; intros index m st l Hok Hl Hf Hout; [lia|].
  cbn [puts_loop]. destruct l as [|c l].
  - rewrite cstr_nil in Hl. rewrite Hl. simpl. by rewrite Z.add_0_r.
  - rewrite cstr_cons in Hl. destruct Hl as (Hc & Hz & Hl). cbn [length] in *.
    rewrite (proj2 (Z.eqb_neq _ _)) by congruence. rewrite Hc, putc_eq.
    destruct (putc_in_terminal_abs c m st Hok) as (_ & H2 & H3 & H4).
    rewrite print_all_cons. destruct (putc_in_terminal c m st) as [m' st']. cbn [fst snd] in *.
    rewrite (IH _ _ _ l); [|done| |lia|rewrite H3; lia].
    + do 3 f_equal. lia.
    + apply (cstr_ext m); [|by rewrite Z.add_assoc].
      intros i Hi. apply H4. lia.
Qed.

(** Moving back one cell and blanking it. *)
Lemma backspace_spec m s :
  screen_ok s → (scr_x s, scr_y s) ≠ (0, 0) →
  let r := backspace_fnc m s in
  screen_ok r.2 ∧ video_mem r.2 = video_mem s ∧
  NUM_COLS * scr_y r.2 + scr_x r.2 = NUM_COLS * scr_y s + scr_x s - 1 ∧
  cells r.1 (video_mem s)
  = <[Z.to_nat (NUM_COLS * scr_y r.2 + scr_x r.2) := blank]> (cells m (video_mem s)) ∧
  frame (video_mem s) (video_mem s + 4000) m r.1.
Proof.
  destruct s as [x y v]. intros [Hx Hy] Hne. cbn [scr_x scr_y video_mem] in *. unfold backspace_fnc.
  change (NUM_COLS - 1) with 79. unfold NUM_COLS.
  assert (∀ x0 y0, 0 ≤ x0 < 80 → 0 ≤ y0 < 24 ∨ y0 = 24 ∧ x0 < 79 →
    let r := putc_in_terminal 32 m (Screen x0 y0 v) in
    r.2 = Screen (if x0 =? 79 then 0 else x0 + 1) (if x0 =? 79 then y0 + 1 else y0) v ∧
    cells r.1 v = <[Z.to_nat (80 * y0 + x0) := blank]> (cells m v) ∧ frame v (v + 4000) m r.1)
    as Hputc.
  { intros x0 y0 Hx0 Hy0 r.
    destruct (putc_in_terminal_abs 32 m (Screen x0 y0 v)) as (Habs & _ & Hv & Hf);
      [split; simpl; lia|]. fold r in Habs, Hv, Hf. change (u8 32) with 32 in Habs.
    unfold a_putc in Habs. cbn [orb Z.eqb Pos.eqb abs_screen a_x a_y a_cells scr_x scr_y] in Habs.
    destruct r as [m' [x' y' v']]. cbn [fst snd video_mem] in *. subst v'.
    unfold a_newline in Habs. cbn [a_x a_y a_cells] in Habs.
    destruct (Z.eqb_spec x0 79).
    - rewrite (proj2 (Z.eqb_neq y0 24)) in Habs by lia.
      unfold abs_screen in Habs. injection Habs as -> -> Hc. auto.
    - unfold abs_screen in Habs. injection Habs as -> -> Hc. auto. }
  destruct (Z.eqb_spec x 0) as [->|Hx0].
  - destruct (Hputc 79 (y - 1)) as (Hs & Hc & Hf); [lia| |].
    { left. assert (y ≠ 0) by congruence. lia. }
    destruct (putc_in_terminal 32 m (Screen 79 (y - 1) v)) as [m' s']. cbn [fst snd] in *.
    rewrite Hs. simpl. replace (y - 1 + 1 - 1) with (y - 1) by lia.
    split; [split; simpl; assert (y ≠ 0) by congruence; lia|].
    split; [reflexivity|]. split; [lia|]. split; [exact Hc|exact Hf].
  - destruct (Hputc (x - 1) y) as (Hs & Hc & Hf); [lia|lia|].
    destruct (putc_in_terminal 32 m (Screen (x - 1) y v)) as [m' s']. cbn [fst snd] in *.
    rewrite Hs. rewrite (proj2 (Z.eqb_neq (x - 1) 79)) by lia. simpl.
    replace (x - 1 + 1 - 1) with (x - 1) by lia.
    split; [split; simpl; lia|]. split; [reflexivity|]. split; [lia|]. split; [exact Hc|exact Hf].
Qed.

(** ** Properties *)

(** C28: on every character, newline, wrap and scroll included, printing on a
    terminal is the step of the abstract screen; it keeps the cursor on the
    screen and writes only inside the 4000 bytes of the screen; [putc] on the
    static screen is the same function. *)
Theorem putc_refines c m s :
  screen_ok s →
  let '(m', s') := putc_in_terminal c m s in
  abs_screen m' s' = a_putc (u8 c) (abs_screen m s) ∧
  screen_ok s' ∧ video_mem s' = video_mem s ∧ frame (video_mem s) (video_mem s + 4000) m m' ∧
  putc c m s = (m', s').
Proof.
  intros Hs. pose proof (putc_in_terminal_abs c m s Hs) as H. cbv zeta in H.
  pose proof (putc_eq c m s) as H5.
  destruct (putc_in_terminal c m s) as [m' s']. cbn [fst snd] in H.
  destruct H as (H1 & H2 & H3 & H4).
  split; [exact H1|]. split; [exact H2|]. split; [exact H3|]. split; [exact H4|exact H5].
Qed.

(** The last cell of the last row: the screen scrolls. *)
Lemma putc_refines_witness :
  screen_ok (Screen 79 24 VIDEO) ∧
  let '(m', s') := putc_in_terminal 65 ∅ (Screen 79 24 VIDEO) in
  abs_screen m' s' = a_putc (u8 65) (abs_screen ∅ (Screen 79 24 VIDEO)) ∧
  screen_ok s' ∧ video_mem s' = video_mem (Screen 79 24 VIDEO) ∧
  frame (video_mem (Screen 79 24 VIDEO)) (video_mem (Screen 79 24 VIDEO) + 4000) ∅ m' ∧
  putc 65 ∅ (Screen 79 24 VIDEO) = (m', s').
Proof.
  assert (screen_ok (Screen 79 24 VIDEO)) as H by (split; simpl; lia).
  split; [exact H|]. exact (putc_refines 65 ∅ (Screen 79 24 VIDEO) H).
Defined.

(** The in-place scrolling loops compute the functional scroll: row [r]
    shows the characters row [r+1] had, the last row is blank, every attribute
    is the standard one, and nothing outside the screen is written. *)
Lemma vert_scroll_moves_rows m s :
  let m' := vert_scroll_in_terminal m s in
  let v := video_mem s in
  (∀ i, 0 ≤ i < 1920 → cell m' v i = ((cell m v (i + 80)).1, ATTRIB)) ∧
  (∀ i, 1920 ≤ i < 2000 → cell m' v i = blank) ∧
  frame v (v + 4000) m m' ∧ vert_scroll m s = m'.
Proof.
  cbv zeta. destruct (vert_scroll_spec m s) as [Hf Hc].
  assert (∀ i, 0 ≤ i < 2000 →
    a_scroll (cells m (video_mem s)) !! Z.to_nat i
    = Some (cell (vert_scroll_in_terminal m s) (video_mem s) i)) as Hl.
  { intros i Hi. rewrite <- Hc, lookup_cells by lia. do 2 f_equal. lia. }
  unfold a_scroll in Hl. split; [|split; [|split; [exact Hf|apply vert_scroll_eq]]].
  - intros i Hi. specialize (Hl i ltac:(lia)).
    rewrite lookup_app_l in Hl by (rewrite length_fmap, length_drop, length_cells; lia).
    rewrite list_lookup_fmap, lookup_drop, (lookup_cells m _ (80 + Z.to_nat i)) in Hl by lia.
    replace (Z.of_nat (80 + Z.to_nat i)) with (i + 80) in Hl by lia.
    by apply some_inv in Hl.
  - intros i Hi. specialize (Hl i ltac:(lia)).
    rewrite lookup_app_r in Hl by (rewrite length_fmap, length_drop, length_cells; lia).
    rewrite length_fmap, length_drop, length_cells in Hl.
    apply lookup_replicate in Hl. exact (proj1 Hl).
Qed.

(** [puts] on a string outside the screen prints exactly its characters
    up to the NUL, returns their number, and terminates. *)
Lemma puts_prints s0 m st l :
  screen_ok st → cstr m s0 l →
  s0 + Z.of_nat (length l) < video_mem st ∨ video_mem st + 4000 ≤ s0 →
  ∃ m' st', puts s0 m st = Some (Z.of_nat (length l), m', st') ∧
    abs_screen m' st' = foldl (λ t c, a_putc c t) (abs_screen m st) l ∧ screen_ok st' ∧
    video_mem st' = video_mem st ∧ frame (video_mem st) (video_mem st + 4000) m m'.
Proof.
  intros Hok Hl Hout. unfold puts.
  assert (length l ≤ size m)%nat as Hsz.
  { destruct (cstr_exists m s0) as (k & Hk & Hle). by rewrite (cstr_det _ _ _ _ Hl Hk). }
  pose proof (cstr_byte _ _ _ Hl) as Hb.
  rewrite (puts_loop_spec _ s0 0 m st l); [|done|by rewrite Z.add_0_r|lia|lia].
  destruct (print_all_abs l m st Hok) as (H1 & H2 & H3 & H4).
  do 2 eexists. split; [reflexivity|]. split; [|exact (conj H2 (conj H3 H4))].
  rewrite H1. generalize (abs_screen m st). clear - Hb.
  induction Hb as [|c l Hc Hb IH]; intros t; [done|]. simpl. by rewrite u8_small.
Qed.

(** Except in the home position, backspace moves the cursor back by
    exactly one cell (to the end of the previous row at the left margin),
    blanks that cell and changes no other. *)
Lemma backspace_deletes m s :
  screen_ok s → (scr_x s, scr_y s) ≠ (0, 0) →
  let '(m', s') := backspace_fnc m s in
  screen_ok s' ∧ video_mem s' = video_mem s ∧
  NUM_COLS * scr_y s' + scr_x s' = NUM_COLS * scr_y s + scr_x s - 1 ∧
  cells m' (video_mem s)
  = <[Z.to_nat (NUM_COLS * scr_y s' + scr_x s') := blank]> (cells m (video_mem s)) ∧
  frame (video_mem s) (video_mem s + 4000) m m'.
Proof.
  intros Hs Hne. pose proof (backspace_spec m s Hs Hne) as H. cbv zeta in H.
  by destruct (backspace_fnc m s).
Qed.

Lemma backspace_deletes_witness :
  let '(m', s') := backspace_fnc ∅ (Screen 0 3 VIDEO) in
  screen_ok s' ∧ video_mem s' = VIDEO ∧ NUM_COLS * scr_y s' + scr_x s' = NUM_COLS * 3 + 0 - 1 ∧
  cells m' VIDEO = <[Z.to_nat (NUM_COLS * scr_y s' + scr_x s') := blank]> (cells ∅ VIDEO) ∧
  frame VIDEO (VIDEO + 4000) ∅ m'.
Proof. apply (backspace_deletes ∅ (Screen 0 3 VIDEO)); [split; simpl; lia|done]. Defined.

(** In the home position backspace runs off the screen: it writes the two
    bytes below the video memory and leaves the cursor on row -1. *)
Lemma backspace_home_underflow m v :
  let '(m', s') := backspace_fnc m (Screen 0 0 v) in
  mget m' (v - 2) = 32 ∧ mget m' (v - 1) = ATTRIB ∧ scr_y s' = -1 ∧ ¬ screen_ok s'.
Proof.
  unfold backspace_fnc, putc_in_terminal. simpl.
  replace (v + Z.shiftl (NUM_COLS * (0 - 1) + (NUM_COLS - 1)) 1) with (v - 2)
    by (change (Z.shiftl _ 1) with (-2); lia).
  split; [rewrite mget_mset_ne, mget_mset_eq by lia; reflexivity|].
  replace (v - 2 + 1) with (v - 1) by lia.
  split; [rewrite mget_mset_eq; reflexivity|]. split; [reflexivity|].
  intros [_ H]. destruct H as [H _]. cbn [scr_y] in H. vm_compute in H. by apply H.
Qed.

(** [clear] and [clear_terminal] leave every one of the 2000 cells blank,
    the cursor home, and the rest of memory as it was. *)
Lemma clear_blanks m s :
  let '(m', s') := clear_terminal m s in
  clear m s = (m', s') ∧
  abs_screen m' s' = Aterm 0 0 (replicate 2000 blank) ∧
  screen_ok s' ∧ frame (video_mem s) (video_mem s + 4000) m m'.
Proof.
  unfold clear_terminal, clear. change (NUM_ROWS * NUM_COLS) with 2000.
  destruct (blank_cells_spec 0 2000 (video_mem s) m) as [Hf Hc]; [lia..|].
  split; [reflexivity|]. split; [|split; [split; simpl; lia|exact Hf]].
  unfold abs_screen. cbn [scr_x scr_y video_mem]. f_equal. apply cells_eq.
  - by rewrite length_replicate.
  - intros i Hi. rewrite Hc, decide_True by lia. apply lookup_replicate. split; [done|lia].
Qed.

(** The CRT controller after a switch to terminal [term]: its start address is
    the terminal's page and its cursor the cell of that page the cursor is on,
    both without truncation. *)
Lemma show_terminal_spec {D} `{Board D} term s (d : D) :
  0 ≤ term < 3 → screen_ok s →
  let h := obs (move_cursor term s 4096 (set_vga_start (term * 4096) d)) in
  256 * crtc_reg h CURSOR_HIGH + crtc_reg h CURSOR_LOW = 2048 * term + (NUM_COLS * scr_y s + scr_x s) ∧
  256 * crtc_reg h START_ADDR_REG_HIGH + crtc_reg h START_ADDR_REG_LOW = 2048 * term.
Proof.
  intros Ht [Hx Hy]. cbv zeta. unfold NUM_COLS in *.
  assert (∀ a, 0 ≤ a < 65536 → u8 (Z.land a 255) = a `mod` 256) as Hlo.
  { intros a Ha. change 255 with (2 ^ 8 - 1). rewrite land_low by done.
    apply u8_small. change (2 ^ 8) with 256. lia. }
  assert (∀ a, 0 ≤ a < 65536 → u8 (Z.land (Z.shiftr a 8) 255) = a `div` 256) as Hhi.
  { intros a Ha. rewrite Z.shiftr_div_pow2 by done. change (2 ^ 8) with 256.
    rewrite Hlo by lia. lia. }
  unfold move_cursor, set_vga_start, crtc_reg, NUM_COLS. rewrite !(u32_small (term * 4096)) by lia.
  rewrite !(Z.shiftr_div_pow2 (term * 4096)) by done. change (2 ^ 1) with 2.
  assert ((term * 4096) `div` 2 = 2048 * term) as -> by lia.
  rewrite u16_small by lia.
  set (pos := scr_y s * 80 + scr_x s + 2048 * term).
  assert (pos = 2048 * term + (80 * scr_y s + scr_x s)) as Hpos by (unfold pos; lia).
  clearbody pos. change (VGA_BASE + 1) with 0x3D5. change VGA_BASE with 0x3D4. hw_step.
  assert (0 ≤ pos < 65536) as Hr by lia.
  rewrite !(Hhi pos Hr), !(Hlo pos Hr), !(Hhi (2048 * term)), !(Hlo (2048 * term)) by lia.
  change START_ADDR_REG_LOW with 13. change START_ADDR_REG_HIGH with 12.
  change CURSOR_LOW with 15. change CURSOR_HIGH with 14.
  rewrite !(u8_small 12), !(u8_small 13), !(u8_small 14), !(u8_small 15) by lia.
  split.
  - rewrite lookup_insert_eq, lookup_insert_ne, lookup_insert_eq by done. simpl. lia.
  - rewrite !(lookup_insert_ne _ 14), !(lookup_insert_ne _ 15) by done.
    rewrite lookup_insert_eq, lookup_insert_ne, lookup_insert_eq by done. simpl. lia.
Qed.
