(* ===== verification/Format.v ===== *)
(** * lib.c: number formatting

    [itoa] and [printf].  The arguments of [printf] are words on the caller's
    stack, read through memory; the arrays it declares are at the addresses of
    a [printf_frame]. *)
From S2P Require Import Prelude CMem LibString Ports Screen.

(** The string "0123456789ABCDEFGHIJKLMNOPQRSTUVWXYZ" and its NUL. *)
Definition lookup_tab : list Z := seqZ 48 10 ++ seqZ 65 26 ++ [0].

(** The loop over the digits; [None] is a divide error, a digit beyond the
    table, or a radix of 1, for which it never ends. *)
Fixpoint itoa_loop (fuel : nat) (m : mem) (newbuf newval radix : Z) : option (mem * Z) :=
  match fuel with
  | O => None
  | S fuel =>
      if newval >? 0 then
        if radix =? 0 then None
        else
          let i := s32 (newval `mod` radix) in
          match (if i <? 0 then None else lookup_tab !! Z.to_nat i) with
          | None => None
          | Some d => itoa_loop fuel (mset m newbuf d) (newbuf + 1) (newval `div` radix) radix
          end
      else Some (m, newbuf)
  end.

Definition itoa (m : mem) (value buf radix : Z) : option mem :=
  let value := u32 value in
  if value =? 0 then Some (mset (mset m buf 48) (buf + 1) 0)
  else
    match itoa_loop 33 m buf value (u32 radix) with
    | None => None
    | Some (m, newbuf) => Some (strrev (mset m newbuf 0) buf)
    end.

(** ** [printf] *)

(** The [conv_buf] of the cases 'x', 'u' and 'd'. *)
Record printf_frame := PrintfFrame { hex_buf : Z; u_buf : Z; d_buf : Z }.

(** [itoa] and [puts], one after the other. *)
Definition put_number (m : mem) (st : screen_t) (value buf radix start : Z) : option (mem * screen_t) :=
  match itoa m value buf radix with
  | None => None
  | Some m => match puts start m st with None => None | Some (_, m, st) => Some (m, st) end
  end.

Definition put_hex8 (m : mem) (st : screen_t) (value conv_buf : Z) : option (mem * screen_t) :=
  match itoa m value (conv_buf + 8) 16 with
  | None => None
  | Some m =>
      let starting_index := strlen m (conv_buf + 8) in
      let m := for_z starting_index 8 (λ i m, mset m (conv_buf + i) 48) m in
      match puts (conv_buf + starting_index) m st with None => None | Some (_, m, st) => Some (m, st) end
  end.

Definition put_signed (m : mem) (st : screen_t) (value conv_buf : Z) : option (mem * screen_t) :=
  if value <? 0 then put_number (mset m conv_buf 45) st (u32 (- value)) (conv_buf + 1) 10 conv_buf
  else put_number m st value conv_buf 10 conv_buf.

(** The switch from [format_char_switch] on: the state, where [buf] and [esp]
    point after it. *)
Fixpoint conversion (fuel : nat) (f : printf_frame) (m : mem) (st : screen_t) (alternate : bool)
    (buf esp : Z) : option (mem * screen_t * Z * Z) :=
  let c := mget m buf in
  if c =? 37 then let '(m, st) := putc 37 m st in Some (m, st, buf, esp)
  else if c =? 35 then
    match fuel with O => None | S fuel => conversion fuel f m st true (buf + 1) esp end
  else if c =? 120 then
    match (if alternate then put_hex8 m st (load32 m esp) (hex_buf f)
           else put_number m st (load32 m esp) (hex_buf f) 16 (hex_buf f)) with
    | None => None | Some (m, st) => Some (m, st, buf, esp + 4)
    end
  else if c =? 117 then
    match put_number m st (load32 m esp) (u_buf f) 10 (u_buf f) with
    | None => None | Some (m, st) => Some (m, st, buf, esp + 4)
    end
  else if c =? 100 then
    match put_signed m st (loads32 m esp) (d_buf f) with
    | None => None | Some (m, st) => Some (m, st, buf, esp + 4)
    end
  else if c =? 99 then
    let '(m, st) := putc (u8 (loads32 m esp)) m st in Some (m, st, buf, esp + 4)
  else if c =? 115 then
    match puts (load32 m esp) m st with
    | None => None | Some (_, m, st) => Some (m, st, buf, esp + 4)
    end
  else Some (m, st, buf, esp).

Fixpoint printf_loop (fuel : nat) (f : printf_frame) (m : mem) (st : screen_t) (buf esp : Z)
    : option (mem * screen_t * Z) :=
  match fuel with
  | O => None
  | S fuel =>
      let c := mget m buf in
      if c =? 0 then Some (m, st, buf)
      else if c =? 37 then
        match conversion fuel f m st false (buf + 1) esp with
        | None => None
        | Some (m, st, buf, esp) => printf_loop fuel f m st (buf + 1) esp
        end
      else let '(m, st) := putc c m st in printf_loop fuel f m st (buf + 1) esp
  end.

(** [esp] is the address of the first argument after [format]. *)
Definition printf (f : printf_frame) (m : mem) (st : screen_t) (format esp : Z)
    : option (Z * mem * screen_t) :=
  match printf_loop (S (size m)) f m st format esp with
  | None => None
  | Some (m, st, buf) => Some (s32 (buf - format), m, st)
  end.

(** ** Numerals *)

(** The digits of a number, least significant first. *)
Fixpoint digits (fuel : nat) (radix v : Z) : list Z :=
  match fuel with
  | O => []
  | S fuel => if v >? 0 then lookup_tab !!! Z.to_nat (v `mod` radix) :: digits fuel radix (v `div` radix)
              else []
  end.
Definition numeral (radix v : Z) : list Z :=
  if v =? 0 then [48] else reverse (digits 32 radix v).

(** Reading a numeral back. *)
Definition digit_value (c : Z) : Z := if c <=? 57 then c - 48 else c - 55.
Definition number_of (radix : Z) (l : list Z) : Z := foldl (λ n c, n * radix + digit_value c) 0 l.

Definition is_digit (radix c : Z) : Prop := (48 ≤ c ≤ 57 ∨ 65 ≤ c ≤ 90) ∧ 0 ≤ digit_value c < radix.

Lemma lookup_tab_digit i :
  0 ≤ i < 36 → ∃ c, lookup_tab !! Z.to_nat i = Some c ∧ digit_value c = i ∧ (48 ≤ c ≤ 57 ∨ 65 ≤ c ≤ 90) ∧ (c = 48 ↔ i = 0).
Proof.
  intros Hi. unfold lookup_tab, digit_value. destruct (decide (i < 10)).
  - exists (48 + i). rewrite lookup_app_l, lookup_seqZ_lt by (rewrite ?length_seqZ; lia).
    split; [f_equal; lia|]. rewrite (proj2 (Z.leb_le _ _)) by lia. lia.
  - exists (65 + (i - 10)).
    rewrite lookup_app_r, lookup_app_l, lookup_seqZ_lt by (rewrite ?length_seqZ; lia).
    rewrite length_seqZ. split; [f_equal; lia|]. rewrite (proj2 (Z.leb_gt _ _)) by lia. lia.
Qed.

Section numerals.
Context (radix : Z) (Hradix : 2 ≤ radix ≤ 36).

Lemma digits_spec fuel v :
  0 ≤ v < 2 ^ Z.of_nat fuel →
  let l := digits fuel radix v in
  number_of radix (reverse l) = v ∧ Forall (is_digit radix) l ∧
  (0 < v → ∃ c, last l = Some c ∧ c ≠ 48) ∧ (0 < v → radix ^ (Z.of_nat (length l) - 1) ≤ v).
Proof using Hradix.
  revert v. induction fuel as [|fuel IH]; intros v Hv; cbn [digits].
  - replace v with 0 by lia. simpl. split; [done|]. split; [done|]. split; lia.
  - rewrite Z.gtb_ltb. destruct (Z.ltb_spec 0 v) as [Hp|Hp].
    2: { replace v with 0 by lia. split; [done|]. split; [by constructor|]. split; lia. }
    assert (0 ≤ v `mod` radix < radix) as Hm by (apply Z.mod_pos_bound; lia).
    destruct (lookup_tab_digit (v `mod` radix) ltac:(lia)) as (c & Hc & Hd & Hb & Hz).
    rewrite (list_lookup_total_correct _ _ _ Hc).
    assert (0 ≤ v `div` radix < 2 ^ Z.of_nat fuel) as Hq.
    { split; [apply Z.div_pos; lia|]. apply Z.div_lt_upper_bound; [lia|].
      rewrite Nat2Z.inj_succ, Z.pow_succ_r in Hv by lia. nia. }
    destruct (IH _ Hq) as (I1 & I2 & I3 & I4). pose proof (Z.div_mod v radix ltac:(lia)) as Edm.
    split. { rewrite reverse_cons. unfold number_of in *. rewrite foldl_app, I1. simpl. lia. }
    split; [constructor; [split; [exact Hb|lia]|done]|].
    destruct (decide (v `div` radix = 0)) as [E|E].
    + rewrite E. assert (digits fuel radix 0 = []) as -> by (by destruct fuel). split.
      * intros _. exists c. split; [done|]. lia.
      * intros _. simpl. lia.
    + split.
      * intros _. destruct (I3 ltac:(lia)) as (c' & Hl & Hc'). exists c'. split; [|done].
        destruct (digits fuel radix (v `div` radix)); [done|exact Hl].
      * intros _. specialize (I4 ltac:(lia)).
        destruct (digits fuel radix (v `div` radix)) as [|d l] eqn:El; [by destruct (I3 ltac:(lia)) as (? & ? & _)|].
        cbn [length] in *. replace (Z.of_nat (S (S (length l))) - 1) with (Z.succ (Z.of_nat (S (length l)) - 1)) by lia.
        rewrite Z.pow_succ_r by lia. nia.
Qed.

Lemma itoa_loop_spec fuel n m newbuf v :
  0 ≤ v < 2 ^ Z.of_nat n → v < 2 ^ 32 → (n < fuel)%nat →
  itoa_loop fuel m newbuf v radix
  = Some (store_bytes m newbuf (digits n radix v), newbuf + Z.of_nat (length (digits n radix v))).
Proof using Hradix.
  revert n m newbuf v. induction fuel as [|fuel IH]; intros n m newbuf v Hv Hv' Hn; [lia|].
  cbn [itoa_loop]. rewrite Z.gtb_ltb. destruct (Z.ltb_spec 0 v) as [Hp|Hp].
  2: { replace v with 0 by lia. assert (digits n radix 0 = []) as -> by (by destruct n).
       simpl. by rewrite Z.add_0_r. }
  destruct n as [|n]; [simpl in Hv; lia|]. cbn [digits]. rewrite Z.gtb_ltb, (proj2 (Z.ltb_lt 0 v)) by lia.
  rewrite (proj2 (Z.eqb_neq radix 0)) by lia.
  assert (0 ≤ v `mod` radix < radix) as Hm by (apply Z.mod_pos_bound; lia).
  rewrite s32_small by lia. rewrite (proj2 (Z.ltb_ge _ _)) by lia.
  destruct (lookup_tab_digit (v `mod` radix) ltac:(lia)) as (c & Hc & Hd & Hb & Hz).
  rewrite Hc, (list_lookup_total_correct _ _ _ Hc).
  assert (0 ≤ v `div` radix < 2 ^ Z.of_nat n) as Hq.
  { split; [apply Z.div_pos; lia|]. apply Z.div_lt_upper_bound; [lia|].
    rewrite Nat2Z.inj_succ, Z.pow_succ_r in Hv by lia. nia. }
  assert (v `div` radix < 2 ^ 32) as Hq'
    by (eapply Z.le_lt_trans; [|exact Hv']; apply Z.div_le_upper_bound; nia).
  rewrite (IH n) by (done || lia). simpl. f_equal. f_equal. lia.
Qed.

Lemma digits_cstr m buf l :
  Forall (is_digit radix) l → cstr (mset (store_bytes m buf l) (buf + Z.of_nat (length l)) 0) buf l.
Proof using.
  intros Hl. pose proof (cstr_store m buf l) as Hc. rewrite store_bytes_app in Hc. apply Hc.
  - eapply Forall_impl; [exact Hl|]. unfold is_digit. lia.
  - eapply Forall_impl; [exact Hl|]. unfold is_digit. lia.
Qed.
Lemma length_digits fuel v : (length (digits fuel radix v) ≤ fuel)%nat.
Proof using. revert v. induction fuel as [|fuel IH]; intros v; simpl; [done|]. case_match; simpl; [specialize (IH (v `div` radix))|]; lia. Qed.

(** [itoa] stores the numeral. *)
Lemma itoa_spec m value buf :
  let l := numeral radix (u32 value) in
  ∃ m', itoa m value buf radix = Some m' ∧ cstr m' buf l ∧
    frame buf (buf + Z.of_nat (length l) + 1) m m'.
Proof using Hradix.
  pose proof (u32_range value) as Hv. unfold itoa, numeral. rewrite (u32_small radix) by lia.
  destruct (Z.eqb_spec (u32 value) 0) as [E|E]; cbv zeta.
  - eexists. split; [done|]. split.
    + apply (cstr_store m buf [48]); repeat constructor; lia.
    + apply (frame_mono buf (buf + Z.of_nat (length [48; 0]))); [apply frame_store_bytes|lia|simpl; lia].
  - rewrite (itoa_loop_spec 33 32) by (simpl; lia). set (l := digits 32 radix (u32 value)).
    destruct (digits_spec 32 (u32 value)) as (_ & Hl & _); [simpl; lia|]. fold l in Hl.
    rewrite length_reverse. eexists. split; [done|].
    pose proof (digits_cstr m buf l Hl) as Hc.
    pose proof (strrev_cstr _ _ _ Hc) as Hr. split.
    + apply (cstr_ext (store_bytes (mset (store_bytes m buf l) (buf + Z.of_nat (length l)) 0) buf (reverse l)));
        [intros; apply Hr|].
      split_and!; [|rewrite length_reverse|].
      * apply load_store_bytes. apply Forall_reverse. eapply Forall_impl; [exact Hl|]. unfold is_digit. lia.
      * rewrite mget_store_bytes_out by (rewrite length_reverse; lia). by rewrite mget_mset_eq.
      * apply Forall_reverse. eapply Forall_impl; [exact Hl|]. unfold is_digit. lia.
    + intros a Ha. rewrite Hr, mget_store_bytes_out by (rewrite length_reverse; lia).
      rewrite mget_mset_ne by lia. apply mget_store_bytes_out. lia.
Qed.
End numerals.

(** What a numeral is: digits of the radix, read back as the number, with no
    leading zero. *)
Lemma numeral_spec radix v :
  2 ≤ radix ≤ 36 → word32 v →
  let l := numeral radix v in
  number_of radix l = v ∧ Forall (is_digit radix) l ∧
  (head l = Some 48 → l = [48]) ∧ (1 ≤ length l)%nat ∧ radix ^ (Z.of_nat (length l) - 1) ≤ Z.max 1 v.
Proof.
  intros Hr Hv. unfold numeral. destruct (Z.eqb_spec v 0) as [->|E]; cbv zeta.
  - split; [done|]. split; [apply Forall_singleton; unfold is_digit; change (digit_value 48) with 0; lia|]. split; [done|]. simpl. lia.
  - destruct (digits_spec radix Hr 32 v ltac:(simpl; lia)) as (H1 & H2 & H3 & H4).
    split; [done|]. split; [by apply Forall_reverse|].
    destruct (H3 ltac:(lia)) as (c & Hl & Hc). rewrite length_reverse. split; [|split].
    + rewrite head_reverse, Hl. intros [= ->]. done.
    + destruct (digits 32 radix v); [done|simpl; lia].
    + specialize (H4 ltac:(lia)). lia.
Qed.

(** ** Pieces of a format *)

(** A format is a sequence of pieces: a character, "%%", a conversion with the
    value it is given, or a conversion [printf] does not know. *)
Inductive piece :=
  | Lit (c : Z) | Percent | Hex (v : Z) | Hex8 (v : Z) | Uns (v : Z) | Sgn (v : Z) | Chr (c : Z)
  | Str (a : Z) (l : list Z) | Other (c : Z).

(** How it is written, the word it takes from the stack, what it prints. *)
Definition spelled (p : piece) : list Z :=
  match p with
  | Lit c => [c] | Percent => [37; 37] | Hex _ => [37; 120] | Hex8 _ => [37; 35; 120]
  | Uns _ => [37; 117] | Sgn _ => [37; 100] | Chr _ => [37; 99] | Str _ _ => [37; 115]
  | Other c => [37; c]
  end.
Definition argument (p : piece) : option Z :=
  match p with
  | Lit _ | Percent | Other _ => None
  | Hex v | Hex8 v | Uns v | Sgn v | Chr v | Str v _ => Some (u32 v)
  end.
Definition shown (p : piece) : list Z :=
  match p with
  | Lit c => [c] | Percent => [37]
  | Hex v => numeral 16 v
  | Hex8 v => replicate (8 - length (numeral 16 v)) 48 ++ numeral 16 v
  | Uns v => numeral 10 v
  | Sgn v => if v <? 0 then 45 :: numeral 10 (- v) else numeral 10 v
  | Chr c => [u8 c] | Str _ l => l | Other _ => []
  end.
Definition format_of (ps : list piece) : list Z := concat (spelled <$> ps).
Definition output_of (ps : list piece) : list Z := concat (shown <$> ps).

(** The arguments on the stack from [esp] on. *)
Fixpoint args_at (m : mem) (esp : Z) (ps : list piece) : Prop :=
  match ps with
  | [] => True
  | p :: ps =>
      match argument p with
      | None => args_at m esp ps
      | Some w => load32 m esp = w ∧ args_at m (esp + 4) ps
      end
  end.

Definition arg_count (ps : list piece) : Z := Z.of_nat (length (omap argument ps)).
Lemma arg_count_cons p ps :
  arg_count (p :: ps) = (match argument p with None => 0 | Some _ => 1 end) + arg_count ps.
Proof.
  unfold arg_count.
  change (omap argument (p :: ps))
    with (match argument p with Some y => y :: omap argument ps | None => omap argument ps end).
  destruct (argument p); cbn [length]; lia.
Qed.

Section pieces.
Context (f : printf_frame) (v : Z).
Implicit Types (m : mem) (st : screen_t).

(** What [printf] writes to: its arrays and the screen at [v]. *)
Definition scratch (a : Z) : Prop :=
  hex_buf f ≤ a < hex_buf f + 64 ∨ u_buf f ≤ a < u_buf f + 36 ∨ d_buf f ≤ a < d_buf f + 36 ∨
  v ≤ a < v + 4000.
Definition quiet (a n : Z) : Prop := ∀ x, a ≤ x < a + n → ¬ scratch x.
Definition off_screen (a n : Z) : Prop := a + n ≤ v ∨ v + 4000 ≤ a.
Definition buffers_ok : Prop :=
  off_screen (hex_buf f) 64 ∧ off_screen (u_buf f) 36 ∧ off_screen (d_buf f) 36.

Definition piece_ok m (p : piece) : Prop :=
  match p with
  | Lit c => c ≠ 37
  | Percent => True
  | Hex n | Hex8 n | Uns n => word32 n
  | Sgn n => -2 ^ 31 ≤ n < 2 ^ 31
  | Chr c => True
  | Str a l => word32 a ∧ cstr m a l ∧ quiet a (Z.of_nat (length l) + 1)
  | Other c => c ∉ [37; 35; 120; 117; 100; 99; 115]
  end.

(** Text [l] was printed, and nothing outside the scratch memory changed. *)
Record printed (l : list Z) m st m' st' : Prop := {
  pr_abs : abs_screen m' st' = foldl (λ t c, a_putc c t) (abs_screen m st) l;
  pr_ok : screen_ok st';
  pr_video : video_mem st' = v;
  pr_frame a : ¬ scratch a → mget m' a = mget m a }.

Lemma printed_app l k m st m1 st1 m2 st2 :
  printed l m st m1 st1 → printed k m1 st1 m2 st2 → printed (l ++ k) m st m2 st2.
Proof.
  intros [A1 _ _ A2] [B1 B2 B3 B4]. split; [by rewrite B1, A1, foldl_app|done|done|].
  intros a Ha. by rewrite B4, A2.
Qed.
Lemma quiet_cstr m m' a l :
  (∀ x, ¬ scratch x → mget m' x = mget m x) → quiet a (Z.of_nat (length l) + 1) →
  cstr m a l → cstr m' a l.
Proof. intros Hs Hq. apply cstr_ext. intros i Hi. apply Hs, Hq. lia. Qed.
Lemma quiet_load32 m m' a :
  (∀ x, ¬ scratch x → mget m' x = mget m x) → quiet a 4 → load32 m' a = load32 m a.
Proof. intros Hs Hq. unfold load32. rewrite !Hs; [done|apply Hq; lia..]. Qed.

Lemma abs_screen_ext m m' st :
  (∀ a, video_mem st ≤ a < video_mem st + 4000 → mget m' a = mget m a) →
  abs_screen m' st = abs_screen m st.
Proof.
  intros Hm. unfold abs_screen. f_equal. apply cells_eq; [apply length_cells|].
  intros i Hi. rewrite lookup_cells by lia. rewrite Z2Nat.id by lia. unfold cell. by rewrite !Hm by lia.
Qed.

(** One character. *)
Lemma putc_printed c m st :
  screen_ok st → video_mem st = v → word8 c →
  printed [c] m st (putc c m st).1 (putc c m st).2.
Proof.
  intros Hok Hv Hc. rewrite putc_eq. destruct (putc_in_terminal_abs c m st Hok) as (H1 & H2 & H3 & H4).
  split; [by rewrite H1, u8_small|done|congruence|].
  intros a Ha. apply H4. rewrite Hv. unfold scratch in Ha. lia.
Qed.

(** A string put together in one of the arrays. *)
Lemma puts_printed m0 m st s l lo hi :
  screen_ok st → video_mem st = v → off_screen lo (hi - lo) → (∀ a, lo ≤ a < hi → scratch a) →
  frame lo hi m0 m → cstr m s l → lo ≤ s → s + Z.of_nat (length l) + 1 ≤ hi →
  ∃ m' st', puts s m st = Some (Z.of_nat (length l), m', st') ∧ printed l m0 st m' st'.
Proof.
  intros Hok Hv Hoff Hsc Hf Hc Hlo Hhi. unfold off_screen in Hoff.
  destruct (puts_prints s m st l Hok Hc ltac:(lia)) as (m' & st' & E & Ha & Hok' & Hv' & Hf').
  exists m', st'. split; [done|]. split; [|done|congruence|].
  - rewrite Ha. f_equal. apply abs_screen_ext. intros a Ha'. apply Hf. lia.
  - intros a Hn. rewrite Hf' by (rewrite Hv; unfold scratch in Hn; lia). apply Hf.
    intros Ha'. by apply Hn, Hsc.
Qed.

Section conversions.
Context (Hbufs : buffers_ok).

Lemma scratch_hex lo hi : hex_buf f ≤ lo → hi ≤ hex_buf f + 64 →
  (∀ a, lo ≤ a < hi → scratch a) ∧ (lo ≤ hi → off_screen lo (hi - lo)).
Proof using Hbufs. destruct Hbufs as (H1 & _). unfold scratch, off_screen in *. split; intros; lia. Qed.
Lemma scratch_u lo hi : u_buf f ≤ lo → hi ≤ u_buf f + 36 →
  (∀ a, lo ≤ a < hi → scratch a) ∧ (lo ≤ hi → off_screen lo (hi - lo)).
Proof using Hbufs. destruct Hbufs as (_ & H1 & _). unfold scratch, off_screen in *. split; intros; lia. Qed.
Lemma scratch_d lo hi : d_buf f ≤ lo → hi ≤ d_buf f + 36 →
  (∀ a, lo ≤ a < hi → scratch a) ∧ (lo ≤ hi → off_screen lo (hi - lo)).
Proof using Hbufs. destruct Hbufs as (_ & _ & H1). unfold scratch, off_screen in *. split; intros; lia. Qed.

(** The arrays are long enough for any 32-bit number. *)
Lemma numeral_length radix n :
  2 ≤ radix ≤ 36 → word32 n → 10 ≤ radix → (1 ≤ length (numeral radix n) ≤ 10)%nat.
Proof using.
  intros Hr Hn H10. destruct (numeral_spec radix n Hr Hn) as (_ & _ & _ & H1 & H2). split; [done|].
  destruct (decide (length (numeral radix n) ≤ 10)%nat); [done|exfalso].
  assert (10 ^ 10 ≤ radix ^ (Z.of_nat (length (numeral radix n)) - 1)); [|lia].
  etransitivity; [apply (Z.pow_le_mono_l 10 radix 10); lia|]. apply Z.pow_le_mono_r; lia.
Qed.
Lemma numeral_hex_length n : word32 n → (length (numeral 16 n) ≤ 8)%nat.
Proof using.
  intros Hn. destruct (numeral_spec 16 n ltac:(lia) Hn) as (_ & _ & _ & _ & H2).
  destruct (decide (length (numeral 16 n) ≤ 8)%nat); [done|exfalso].
  assert (16 ^ 8 ≤ 16 ^ (Z.of_nat (length (numeral 16 n)) - 1)) by (apply Z.pow_le_mono_r; lia). lia.
Qed.

Lemma put_number_printed m st n buf radix :
  screen_ok st → video_mem st = v → 10 ≤ radix ≤ 36 → word32 n →
  (∀ a, buf ≤ a < buf + 12 → scratch a) → off_screen buf 12 →
  ∃ m' st', put_number m st n buf radix buf = Some (m', st') ∧ printed (numeral radix n) m st m' st'.
Proof using.
  intros Hok Hv Hr Hn Hsc Hoff. destruct (itoa_spec radix ltac:(lia) m n buf) as (m1 & E & Hc & Hf).
  rewrite (u32_small n) in Hc, Hf by done. pose proof (numeral_length radix n ltac:(lia) Hn ltac:(lia)).
  destruct (puts_printed m m1 st buf (numeral radix n) buf (buf + 12)) as (m' & st' & E' & Hp); try done; try lia.
  - by replace (buf + 12 - buf) with 12 by lia.
  - eapply frame_mono; [exact Hf|lia|lia].
  - exists m', st'. unfold put_number. by rewrite E, E'.
Qed.

Lemma put_signed_printed m st n :
  screen_ok st → video_mem st = v → - 2 ^ 31 ≤ n < 2 ^ 31 →
  ∃ m' st', put_signed m st n (d_buf f) = Some (m', st') ∧ printed (shown (Sgn n)) m st m' st'.
Proof using Hbufs.
  intros Hok Hv Hn. destruct (scratch_d (d_buf f) (d_buf f + 12)) as [Hsc Hoff]; [lia|lia|].
  specialize (Hoff ltac:(lia)). unfold put_signed, shown. destruct (Z.ltb_spec n 0) as [Hneg|Hpos].
  2: { apply put_number_printed; try done; try lia. by replace (d_buf f + 12 - d_buf f) with 12 in Hoff by lia. }
  rewrite (u32_small (- n)) by lia.
  destruct (itoa_spec 10 ltac:(lia) (mset m (d_buf f) 45) (- n) (d_buf f + 1)) as (m1 & E & Hc & Hf).
  rewrite (u32_small (- n)) in Hc, Hf by lia. pose proof (numeral_length 10 (- n) ltac:(lia) ltac:(lia) ltac:(lia)).
  destruct (puts_printed m m1 st (d_buf f) (45 :: numeral 10 (- n)) (d_buf f) (d_buf f + 12))
    as (m' & st' & E' & Hp); try done; try (simpl; lia).
  - intros a Ha. rewrite Hf by lia. apply mget_mset_ne. lia.
  - apply cstr_cons. split; [|split; [lia|done]]. rewrite Hf by lia. by rewrite mget_mset_eq.
  - exists m', st'. unfold put_number. by rewrite E, E'.
Qed.

Lemma fill_zeros m a lo hi :
  lo ≤ hi →
  for_z lo hi (λ i m, mset m (a + i) 48) m = store_bytes m (a + lo) (replicate (Z.to_nat (hi - lo)) 48).
Proof using.
  intros Hle. remember (Z.to_nat (hi - lo)) as n eqn:En. revert lo m Hle En.
  induction n as [|n IH]; intros lo m Hle En.
  - rewrite for_z_stop by lia. done.
  - rewrite for_z_step, IH by lia. simpl. by rewrite Z.add_assoc.
Qed.

Lemma put_hex8_printed m st n :
  screen_ok st → video_mem st = v → word32 n →
  ∃ m' st', put_hex8 m st n (hex_buf f) = Some (m', st') ∧ printed (shown (Hex8 n)) m st m' st'.
Proof using Hbufs.
  intros Hok Hv Hn. destruct (scratch_hex (hex_buf f) (hex_buf f + 20)) as [Hsc Hoff]; [lia|lia|].
  specialize (Hoff ltac:(lia)). unfold put_hex8.
  destruct (itoa_spec 16 ltac:(lia) m n (hex_buf f + 8)) as (m1 & E & Hc & Hf).
  rewrite (u32_small n) in Hc, Hf by done. pose proof (numeral_hex_length n Hn) as Hl8.
  pose proof (numeral_length 16 n ltac:(lia) Hn ltac:(lia)) as Hl1.
  rewrite E. cbv zeta. rewrite (strlen_cstr _ _ _ Hc), fill_zeros by lia.
  set (l := numeral 16 n) in *. set (z := replicate (Z.to_nat (8 - Z.of_nat (length l))) 48).
  assert (length z = 8 - length l)%nat as Hz by (unfold z; rewrite length_replicate; lia).
  assert (shown (Hex8 n) = z ++ l) as ->.
  { change (shown (Hex8 n)) with (replicate (8 - length l) 48 ++ l). unfold z. do 2 f_equal. lia. }
  set (m2 := store_bytes m1 _ z).
  destruct (puts_printed m m2 st (hex_buf f + Z.of_nat (length l)) (z ++ l) (hex_buf f) (hex_buf f + 20))
    as (m' & st' & E' & Hp); try done; rewrite ?length_app; try lia.
  - intros a Ha. unfold m2. rewrite mget_store_bytes_out by lia. apply Hf. lia.
  - unfold m2. apply cstr_prepend; [apply Forall_replicate; lia|]. rewrite Hz.
    by replace (hex_buf f + Z.of_nat (length l) + Z.of_nat (8 - length l)) with (hex_buf f + 8) by lia.
  - exists m', st'. by rewrite E'.
Qed.

Definition next_arg (p : piece) (esp : Z) : Z := match argument p with None => esp | Some _ => esp + 4 end.

(** One conversion, from the character after the percent sign. *)
Lemma conversion_spec fuel m st p buf esp k rest :
  spelled p = 37 :: k → screen_ok st → video_mem st = v → piece_ok m p → (1 ≤ fuel)%nat →
  cstr m buf (k ++ rest) → (∀ w, argument p = Some w → load32 m esp = w) →
  ∃ m' st', conversion fuel f m st false buf esp
      = Some (m', st', buf + Z.of_nat (length k) - 1, next_arg p esp) ∧
    printed (shown p) m st m' st'.
Proof using Hbufs.
  intros Hp Hok Hv Hpo Hfuel Hc Harg. destruct fuel as [|fuel]; [lia|].
  destruct (scratch_hex (hex_buf f) (hex_buf f + 12)) as [Hsc1 Hoff1]; [lia|lia|].
  destruct (scratch_u (u_buf f) (u_buf f + 12)) as [Hsc2 Hoff2]; [lia|lia|].
  specialize (Hoff1 ltac:(lia)). specialize (Hoff2 ltac:(lia)).
  replace (hex_buf f + 12 - hex_buf f) with 12 in Hoff1 by lia.
  replace (u_buf f + 12 - u_buf f) with 12 in Hoff2 by lia.
  unfold next_arg. destruct p as [c| |n|n|n|n|c|a l|c]; cbn [spelled argument piece_ok] in *;
    [by injection Hp|injection Hp as <-..]; cbn [app length] in *;
    apply cstr_cons in Hc as (Hb & Hnz & Hc); cbn [conversion]; rewrite Hb; cbn [Z.eqb Pos.eqb].
  - pose proof (putc_printed 37 m st Hok Hv ltac:(lia)) as Hpr. destruct (putc 37 m st) as [m' st'].
    exists m', st'. split; [by replace (buf + Z.of_nat 1 - 1) with buf by lia|done].
  - rewrite (Harg _ eq_refl), u32_small by done.
    destruct (put_number_printed m st n (hex_buf f) 16) as (m' & st' & -> & Hpr); try done.
    exists m', st'. split; [by replace (buf + Z.of_nat 1 - 1) with buf by lia|done].
  - apply cstr_cons in Hc as (Hb2 & _). destruct fuel as [|fuel]; cbn [conversion];
      rewrite Hb2; cbn [Z.eqb Pos.eqb]; rewrite (Harg _ eq_refl), u32_small by done;
      destruct (put_hex8_printed m st n) as (m' & st' & -> & Hpr); try done;
      exists m', st'; (split; [by replace (buf + Z.of_nat 2 - 1) with (buf + 1) by lia|done]).
  - rewrite (Harg _ eq_refl), u32_small by done.
    destruct (put_number_printed m st n (u_buf f) 10) as (m' & st' & -> & Hpr); try done.
    exists m', st'. split; [by replace (buf + Z.of_nat 1 - 1) with buf by lia|done].
  - unfold loads32. rewrite (Harg _ eq_refl). assert (s32 (u32 n) = n) as -> by (rewrite s32_u32, s32_small; lia).
    destruct (put_signed_printed m st n) as (m' & st' & -> & Hpr); try done.
    exists m', st'. split; [by replace (buf + Z.of_nat 1 - 1) with buf by lia|done].
  - unfold loads32. rewrite (Harg _ eq_refl).
    assert (u8 (s32 (u32 c)) = u8 c) as -> by (rewrite s32_u32; unwrap; lia).
    pose proof (putc_printed (u8 c) m st Hok Hv (u8_range _)) as Hpr. destruct (putc (u8 c) m st) as [m' st'].
    exists m', st'. split; [by replace (buf + Z.of_nat 1 - 1) with buf by lia|done].
  - destruct Hpo as (Ha & Hs & Hq). rewrite (Harg _ eq_refl), u32_small by done.
    assert (a + Z.of_nat (length l) < v ∨ v + 4000 ≤ a) as Hoff.
    { destruct (decide (a + Z.of_nat (length l) < v)); [by left|].
      destruct (decide (v + 4000 ≤ a)); [by right|]. exfalso.
      apply (Hq (Z.max a v)); [lia|]. unfold scratch. lia. }
    rewrite <- Hv in Hoff. destruct (puts_prints a m st l Hok Hs Hoff) as (m' & st' & -> & P1 & P2 & P3 & P4).
    exists m', st'. split; [by replace (buf + Z.of_nat 1 - 1) with buf by lia|].
    split; [done|done|congruence|]. intros x Hx. apply P4. rewrite Hv. unfold scratch in Hx. lia.
  - rewrite !not_elem_of_cons in Hpo.
    rewrite !(proj2 (Z.eqb_neq c _)) by tauto. exists m, st.
    split; [by replace (buf + Z.of_nat 1 - 1) with buf by lia|]. by split.
Qed.

Lemma args_quiet m m' esp ps :
  (∀ x, ¬ scratch x → mget m' x = mget m x) → quiet esp (4 * arg_count ps) →
  args_at m esp ps → args_at m' esp ps.
Proof using.
  intros Hs. revert esp. induction ps as [|p ps IH]; intros esp Hq Ha; [done|]. cbn [args_at] in *.
  rewrite arg_count_cons in Hq. assert (0 ≤ arg_count ps) by (unfold arg_count; lia).
  destruct (argument p) as [w|].
  - destruct Ha as [Hw Ha]. split.
    + rewrite <- Hw. apply quiet_load32; [done|]. intros x Hx. apply Hq. lia.
    + apply IH; [|done]. intros x Hx. apply Hq. lia.
  - apply IH; [|done]. intros x Hx. apply Hq. lia.
Qed.

(** One piece. *)
Lemma spelled_cases p : (∃ c, p = Lit c) ∨ ∃ k, spelled p = 37 :: k.
Proof using. destruct p; eauto. Qed.

Lemma piece_step fuel m st p buf esp rest :
  screen_ok st → video_mem st = v → piece_ok m p → (1 ≤ fuel)%nat →
  cstr m buf (spelled p ++ rest) → (∀ w, argument p = Some w → load32 m esp = w) →
  ∃ m' st', printf_loop (S fuel) f m st buf esp
      = printf_loop fuel f m' st' (buf + Z.of_nat (length (spelled p))) (next_arg p esp) ∧
    printed (shown p) m st m' st'.
Proof using Hbufs.
  intros Hok Hv Hp Hf Hc Harg. cbn [printf_loop]. destruct (spelled_cases p) as [[c ->]|[k E]].
  - cbn [spelled app] in *. pose proof (cstr_byte _ _ _ Hc) as Hby. apply Forall_cons in Hby as [Hby _].
    apply cstr_cons in Hc as (Hb & Hnz & _). simpl in Hp.
    rewrite Hb, (proj2 (Z.eqb_neq c 0)), (proj2 (Z.eqb_neq c 37)) by done.
    pose proof (putc_printed c m st Hok Hv Hby) as Hpr. destruct (putc c m st) as [m' st'].
    by exists m', st'.
  - rewrite E in Hc |- *. apply cstr_cons in Hc as (Hb & _ & Hc). rewrite Hb. cbn [Z.eqb Pos.eqb].
    destruct (conversion_spec fuel m st p (buf + 1) esp k rest E Hok Hv Hp Hf Hc Harg) as (m' & st' & -> & Hpr).
    exists m', st'. split; [|done]. cbn [length]. f_equal. lia.
Qed.

(** The whole loop. *)
Lemma printf_loop_spec ps fuel m st buf esp :
  screen_ok st → video_mem st = v → Forall (piece_ok m) ps → cstr m buf (format_of ps) →
  quiet buf (Z.of_nat (length (format_of ps)) + 1) → args_at m esp ps →
  quiet esp (4 * arg_count ps) → (length (format_of ps) < fuel)%nat →
  ∃ m' st', printf_loop fuel f m st buf esp
      = Some (m', st', buf + Z.of_nat (length (format_of ps))) ∧
    printed (output_of ps) m st m' st'.
Proof using Hbufs.
  revert fuel m st buf esp. induction ps as [|p ps IH]; intros fuel m st buf esp Hok Hv Hpo Hc Hq Ha Hqa Hf.
  - destruct fuel as [|fuel]; [simpl in Hf; lia|]. exists m, st. cbn [printf_loop].
    apply cstr_nil in Hc. rewrite Hc. simpl. split; [by rewrite Z.add_0_r|]. by split.
  - apply Forall_cons in Hpo as [Hp Hpo].
    change (format_of (p :: ps)) with (spelled p ++ format_of ps) in *.
    change (output_of (p :: ps)) with (shown p ++ output_of ps). rewrite length_app in *.
    assert (1 ≤ length (spelled p))%nat as Hl by (destruct p; simpl; lia).
    destruct fuel as [|fuel]; [lia|].
    destruct (piece_step fuel m st p buf esp (format_of ps)) as (m1 & st1 & -> & Hpr); try done; [lia| |].
    { intros w Hw. cbn [args_at] in Ha. rewrite Hw in Ha. apply Ha. }
    pose proof Hpr as [_ Hok1 Hv1 Hs]. rewrite arg_count_cons in Hqa.
    edestruct (IH fuel m1 st1 (buf + Z.of_nat (length (spelled p))) (next_arg p esp)) as (m2 & st2 & -> & Hpr2);
      try done; try lia.
    + eapply Forall_impl; [exact Hpo|]. intros q Hq'. destruct q; try done.
      destruct Hq' as (? & ? & ?). split; [done|]. split; [|done]. by eapply quiet_cstr.
    + assert (cstr m (buf + Z.of_nat (length (spelled p))) (format_of ps)) as Hc'.
      { pose proof (cstr_drop_app m buf (spelled p) (format_of ps) Hc) as Hd. exact Hd. }
      eapply quiet_cstr; [exact Hs| |exact Hc']. intros x Hx. apply Hq. lia.
    + intros x Hx. apply Hq. lia.
    + eapply args_quiet; [exact Hs| |].
      * intros x Hx. apply Hqa. unfold next_arg in Hx. destruct (argument p); lia.
      * cbn [args_at] in Ha. unfold next_arg. by destruct (argument p); [destruct Ha|].
    + intros x Hx. apply Hqa. unfold next_arg in Hx. destruct (argument p); lia.
    + exists m2, st2. split; [f_equal; f_equal; lia|]. by eapply printed_app.
Qed.
End conversions.
End pieces.

(** [printf] from the first character on. *)
Lemma printf_spec (f : printf_frame) m st format esp ps :
  screen_ok st → buffers_ok f (video_mem st) → Forall (piece_ok f (video_mem st) m) ps →
  cstr m format (format_of ps) →
  quiet f (video_mem st) format (Z.of_nat (length (format_of ps)) + 1) →
  args_at m esp ps → quiet f (video_mem st) esp (4 * arg_count ps) →
  ∃ m' st', printf f m st format esp = Some (s32 (Z.of_nat (length (format_of ps))), m', st') ∧
    abs_screen m' st' = foldl (λ t c, a_putc c t) (abs_screen m st) (output_of ps) ∧
    screen_ok st' ∧ video_mem st' = video_mem st ∧
    ∀ a, ¬ scratch f (video_mem st) a → mget m' a = mget m a.
Proof.
  intros Hok Hb Hp Hc Hq Ha Hqa. unfold printf.
  assert (length (format_of ps) ≤ base.size m)%nat as Hsz.
  { destruct (cstr_exists m format) as (k & Hk & Hle). by rewrite (cstr_det _ _ _ _ Hc Hk). }
  destruct (printf_loop_spec f (video_mem st) Hb ps (S (base.size m)) m st format esp)
    as (m' & st' & -> & [P1 P2 P3 P4]); try done; [lia|].
  exists m', st'. split; [|done]. by replace (format + Z.of_nat (length (format_of ps)) - format) with (Z.of_nat (length (format_of ps))) by lia.
Qed.

(** ** Properties *)

(** C33: [itoa] and its inverse: for a radix from 2 to 36 the buffer holds a
    NUL-terminated numeral whose digits, read back in that radix, are the
    value; it has no leading zero, at most as many digits as the value needs,
    and nothing but the numeral and its NUL is written. *)
Theorem itoa_roundtrip m value buf radix :
  2 ≤ radix ≤ 36 →
  ∃ m' l, itoa m value buf radix = Some m' ∧ cstr m' buf l ∧ number_of radix l = u32 value ∧
    Forall (is_digit radix) l ∧
    (head l = Some 48 → l = [48]) ∧ radix ^ (Z.of_nat (length l) - 1) ≤ Z.max 1 (u32 value) ∧
    frame buf (buf + Z.of_nat (length l) + 1) m m'.
Proof.
  intros Hr. destruct (itoa_spec radix Hr m value buf) as (m' & E & Hc & Hf).
  destruct (numeral_spec radix (u32 value) Hr (u32_range _)) as (H1 & H2 & H3 & _ & H4).
  exists m', (numeral radix (u32 value)). split_and!; try done.
Qed.

Lemma itoa_roundtrip_witness :
  ∃ m' l, itoa ∅ 3054 100 16 = Some m' ∧ cstr m' 100 l ∧ number_of 16 l = 3054 ∧
    load_bytes m' 100 4 = [66; 69; 69; 0].
Proof.
  destruct (itoa_roundtrip ∅ 3054 100 16) as (m' & l & E & Hc & Hn & _); [lia|].
  exists m', l. split; [exact E|]. split; [exact Hc|]. split; [exact Hn|].
  vm_compute in E. injection E as <-. vm_compute. reflexivity.
Defined.

(** C26: [printf] prints what its format and arguments say: the text of a
    format made of characters, "%%", "%x", "%#x" (eight digits), "%u", "%d"
    (all of [int32_t]), "%c", "%s" and conversions it does not know (which
    print nothing) appears on the screen character by character; the arguments
    are taken from the stack in order; it returns the length of the format;
    and it writes to its buffers and the screen only. *)
Theorem printf_prints (f : printf_frame) m st format esp ps :
  screen_ok st → buffers_ok f (video_mem st) → Forall (piece_ok f (video_mem st) m) ps →
  cstr m format (format_of ps) →
  quiet f (video_mem st) format (Z.of_nat (length (format_of ps)) + 1) →
  args_at m esp ps → quiet f (video_mem st) esp (4 * arg_count ps) →
  ∃ m' st', printf f m st format esp = Some (s32 (Z.of_nat (length (format_of ps))), m', st') ∧
    abs_screen m' st' = foldl (λ t c, a_putc c t) (abs_screen m st) (output_of ps) ∧
    screen_ok st' ∧ video_mem st' = video_mem st ∧
    ∀ a, ¬ scratch f (video_mem st) a → mget m' a = mget m a.
Proof. apply printf_spec. Qed.

(** printf("%d:%#x\n", -7, 0xBEE) *)
Definition sample_format : mem :=
  store32 (store32 (store_bytes ∅ 0x1000 [37; 100; 58; 37; 35; 120; 10; 0]) 0x2000 (-7)) 0x2004 0xBEE.
Lemma printf_prints_witness :
  ∃ m' st', printf (PrintfFrame 0x3000 0x3040 0x3080) sample_format (Screen 0 0 VIDEO) 0x1000 0x2000
      = Some (7, m', st') ∧
    abs_screen m' st' = foldl (λ t c, a_putc c t) (abs_screen sample_format (Screen 0 0 VIDEO))
      [45; 55; 58; 48; 48; 48; 48; 48; 66; 69; 69; 10].
Proof.
  destruct (printf_prints (PrintfFrame 0x3000 0x3040 0x3080) sample_format (Screen 0 0 VIDEO) 0x1000 0x2000
    [Sgn (-7); Lit 58; Hex8 0xBEE; Lit 10]) as (m' & st' & E & Ha & _).
  - split; simpl; lia.
  - unfold buffers_ok, off_screen. simpl. unfold VIDEO. lia.
  - repeat apply Forall_cons_2; try apply Forall_nil_2; cbn [piece_ok]; lia.
  - split; [vm_compute; reflexivity|]. split; [vm_compute; reflexivity|].
    repeat apply Forall_cons_2; try apply Forall_nil_2; discriminate.
  - intros x Hx. change (Z.of_nat (length _) + 1) with 8 in Hx. unfold scratch. simpl. unfold VIDEO. lia.
  - vm_compute. split; [reflexivity|]. split; reflexivity.
  - intros x Hx. change (4 * arg_count _) with 8 in Hx. unfold scratch. simpl. unfold VIDEO. lia.
  - exists m', st'. split; [exact E|exact Ha].
Defined.
