(* ===== verification/Process.v ===== *)
(** * process.h, process.c: file descriptors, PCBs and the process table

    The scalar fields of a PCB are a record; its [args] array is a block of
    memory at [pcb + PCB_ARGS].  Pointers to the static tables of operations
    and to page directories are values of inductive types ([None] and
    [PdNull] are the null pointer). *)
From S2P Require Import Prelude.

Definition MAX_PROCESSES := 6.
Definition MAX_DEVICES := 6.
Definition MAX_TERMINALS := 3.
Definition PROG_VIDMEM_ADDR := 0x8400000.
Definition FILE_ARRAY_LEN := 8.
Definition PCB_MASK := 0xFFFFE000.
Definition ARGS_MAX := 128.
Definition FD_LIVE := 0x1.

Definition RTC_FTYPE := 0.
Definition DIR_FTYPE := 1.
Definition FILE_FTYPE := 2.
Definition TERM_FTYPE := 3.

(** The four [static fops_t] of the kernel. *)
Inductive fops_t := rtc_fops | dir_fops | fs_fops | term_fops.
#[export] Instance fops_t_eq_dec : EqDecision fops_t.
Proof. solve_decision. Defined.

(** [pd_first], or an element of the array [pd] of process.c. *)
Inductive pd_ptr := PdNull | PdFirst | PdProc (i : Z).
#[export] Instance pd_ptr_eq_dec : EqDecision pd_ptr.
Proof. solve_decision. Defined.

Record fd_t := Fd { fops : option fops_t; inode : Z; inode_num : Z; pos : Z; flags : Z }.
Record context_t := Context { ctx_esp : Z; ctx_eip : Z; ctx_esp0 : Z; ctx_ebp : Z }.
Record pcb_t := Pcb {
  files : list fd_t; args_len : Z; pid : Z; parent_pcb : Z; context : context_t;
  esp_parent : Z; ebp_parent : Z; pd : pd_ptr; term_num : Z }.
(** Offset of the [args] array: eight descriptors of five words come first. *)
Definition PCB_ARGS := 160.

#[export] Instance fd_t_inhabited : Inhabited fd_t := populate (Fd None 0 0 0 0).
#[export] Instance context_t_inhabited : Inhabited context_t := populate (Context 0 0 0 0).
#[export] Instance pcb_t_inhabited : Inhabited pcb_t :=
  populate (Pcb (replicate 8 inhabitant) 0 0 0 inhabitant 0 0 PdNull 0).

(** Field updates. *)
Definition fd_set_pos (p : Z) (f : fd_t) : fd_t := Fd (fops f) (inode f) (inode_num f) p (flags f).
Definition pcb_set_files (l : list fd_t) (p : pcb_t) : pcb_t :=
  Pcb l (args_len p) (pid p) (parent_pcb p) (context p) (esp_parent p) (ebp_parent p) (pd p)
    (term_num p).
Definition pcb_set_context (c : context_t) (p : pcb_t) : pcb_t :=
  Pcb (files p) (args_len p) (pid p) (parent_pcb p) c (esp_parent p) (ebp_parent p) (pd p)
    (term_num p).

(** The [pcb] macro: the PCB is at the bottom of the 8 kB kernel stack. *)
Definition pcb_addr (esp : Z) : Z := Z.land esp PCB_MASK.

(** The statics of process.c, without the page directories. *)
Record proc_state := ProcState {
  proc_count : Z; procs : list Z; active_processes : list Z; devices : list (option fops_t) }.
Definition proc_statics : proc_state :=
  ProcState 0 (replicate 6 0) (replicate 3 (-1)) (replicate 6 None).

Definition add_device (ftype : Z) (ops : fops_t) (s : proc_state) : Z * proc_state :=
  let ftype := u32 ftype in
  if (ftype <? 0) || (ftype >=? MAX_DEVICES) then (-1, s)
  else (0, ProcState (proc_count s) (procs s) (active_processes s)
             (<[Z.to_nat ftype := Some ops]> (devices s))).

Definition get_device_fops (ftype : Z) (s : proc_state) : option fops_t :=
  let ftype := u32 ftype in
  if (ftype <? 0) || (ftype >=? MAX_DEVICES) then None else devices s !!! Z.to_nat ftype.

(** The loop of [add_process]: [n] slots are left from index [i]. *)
Fixpoint add_process_from (n : nat) (i : Z) (s : proc_state) : Z * proc_state :=
  match n with
  | O => (-1, s)
  | S n =>
      if procs s !!! Z.to_nat i =? 0 then
        (i + 1, ProcState (u32 (proc_count s + 1)) (<[Z.to_nat i := 1]> (procs s))
                  (active_processes s) (devices s))
      else add_process_from n (i + 1) s
  end.
Definition add_process (s : proc_state) : Z * proc_state :=
  add_process_from (Z.to_nat MAX_PROCESSES) 0 s.

Definition delete_process (pid : Z) (s : proc_state) : Z * proc_state :=
  let pid := s32 (pid - 1) in
  if (pid <? 0) || (pid >=? MAX_PROCESSES) then (-1, s)
  else (0, ProcState (u32 (proc_count s - 1)) (<[Z.to_nat pid := 0]> (procs s))
             (active_processes s) (devices s)).

Definition get_process_pd (pid : Z) : pd_ptr :=
  let pid := s32 (pid - 1) in
  if (pid <? 0) || (pid >=? MAX_PROCESSES) then PdNull else PdProc pid.

Definition processes (s : proc_state) : Z := s32 (proc_count s).
Definition free_procs (s : proc_state) : bool := proc_count s <? MAX_PROCESSES.

Definition get_active_process (term_num : Z) (s : proc_state) : Z :=
  let term_num := u32 term_num in
  if (term_num <? 0) || (term_num >=? MAX_TERMINALS) then -1
  else active_processes s !!! Z.to_nat term_num.

Definition set_active_process (term_num pid : Z) (s : proc_state) : Z * proc_state :=
  let term_num := u32 term_num in
  if (term_num <? 0) || (term_num >=? MAX_TERMINALS) then (-1, s)
  else (0, ProcState (proc_count s) (procs s) (<[Z.to_nat term_num := pid]> (active_processes s))
             (devices s)).

(** ** Specification *)

(** The processes that exist: pid [p] owns slot [p - 1]. *)
Definition pid_live (s : proc_state) (p : Z) : Prop :=
  1 ≤ p ≤ MAX_PROCESSES ∧ procs s !!! Z.to_nat (p - 1) ≠ 0.
Definition used_slots (s : proc_state) : nat := length (filter (λ v : Z, v ≠ 0) (procs s)).

(** The shape of the tables, and the count that [free_procs] and the
    scheduler rely on. *)
Record proc_inv (s : proc_state) : Prop := {
  pi_procs : length (procs s) = 6%nat;
  pi_active : length (active_processes s) = 3%nat;
  pi_devices : length (devices s) = 6%nat;
  pi_count : proc_count s = Z.of_nat (used_slots s) }.

(** What the rest of the kernel does to the table: a process starts, a live
    one halts, a terminal gets another foreground process, a driver registers. *)
Inductive proc_step : proc_state → proc_state → Prop :=
  | step_add s : proc_step s (add_process s).2
  | step_delete s p : pid_live s p → proc_step s (delete_process p s).2
  | step_active s t p : proc_step s (set_active_process t p s).2
  | step_device s f o : proc_step s (add_device f o s).2.

(** ** Lemmas *)

Lemma filter_insert_length (l : list Z) (i : nat) (v w : Z) :
  l !! i = Some w →
  (length (filter (λ v : Z, v ≠ 0%Z) (<[i := v]> l)) + (if decide (w ≠ 0%Z) then 1 else 0)
   = length (filter (λ v : Z, v ≠ 0%Z) l) + (if decide (v ≠ 0%Z) then 1 else 0))%nat.
Proof.
  revert i. induction l as [|x l IH]; intros [|i] Hl; simpl in Hl; try done.
  - apply some_inv in Hl. subst. simpl. rewrite !filter_cons.
    repeat case_decide; simpl; lia.
  - simpl. rewrite !filter_cons. specialize (IH _ Hl). repeat case_decide; simpl; lia.
Qed.

Lemma used_slots_le s : length (procs s) = 6%nat → (used_slots s ≤ 6)%nat.
Proof. intros <-. apply length_filter. Qed.

Lemma filter_nz_full (l : list Z) :
  length (filter (λ v : Z, v ≠ 0) l) = length l ↔ Forall (λ v : Z, v ≠ 0) l.
Proof.
  induction l as [|x l IH]; [done|]. rewrite filter_cons, Forall_cons.
  pose proof (length_filter (λ v : Z, v ≠ 0) l).
  case_decide; simpl; [|split; [lia|tauto]]. rewrite <- IH. split; [split; [done|lia]|lia].
Qed.

Lemma used_slots_full s :
  length (procs s) = 6%nat →
  used_slots s = 6%nat ↔ ∀ i, (i < 6)%nat → procs s !!! i ≠ 0.
Proof.
  intros Hl. unfold used_slots. rewrite <- Hl, filter_nz_full, Forall_lookup. split.
  - intros H i Hi. eapply H. by apply list_lookup_lookup_total_lt.
  - intros H i x Hx. pose proof (lookup_lt_Some _ _ _ Hx).
    rewrite <- (list_lookup_total_correct _ _ _ Hx). auto.
Qed.

(** The search stops at the first free slot. *)
Lemma add_process_from_spec n i s :
  0 ≤ i →
  match add_process_from n i s with
  | (r, s') =>
      (r = -1 ∧ s' = s ∧ (∀ j, i ≤ j < i + Z.of_nat n → procs s !!! Z.to_nat j ≠ 0)) ∨
      (∃ k, i ≤ k < i + Z.of_nat n ∧ r = k + 1 ∧ procs s !!! Z.to_nat k = 0 ∧
        (∀ j, i ≤ j < k → procs s !!! Z.to_nat j ≠ 0) ∧
        s' = ProcState (u32 (proc_count s + 1)) (<[Z.to_nat k := 1]> (procs s))
               (active_processes s) (devices s))
  end.
Proof.
  revert i. induction n as [|n IH]; intros i Hi; simpl.
  - left. split; [done|]. split; [done|]. intros. lia.
  - destruct (Z.eqb_spec (procs s !!! Z.to_nat i) 0) as [H|H].
    + right. exists i. repeat split; auto; intros; lia.
    + specialize (IH (i + 1) ltac:(lia)). destruct (add_process_from n (i + 1) s) as [r s'].
      destruct IH as [(-> & -> & Hj)|(k & Hk & -> & H0 & Hj & ->)].
      * left. split; [done|]. split; [done|]. intros j Hj'.
        destruct (decide (j = i)) as [->|]; [done|apply Hj; lia].
      * right. exists k. repeat split; try lia; auto. intros j Hj'.
        destruct (decide (j = i)) as [->|]; [done|apply Hj; lia].
Qed.

Lemma proc_inv_init : proc_inv proc_statics.
Proof. by split. Qed.

Lemma used_slots_insert c a d s i v :
  length (procs s) = 6%nat → (i < 6)%nat →
  (used_slots (ProcState c (<[i := v]> (procs s)) a d)
   + (if decide (procs s !!! i ≠ 0%Z) then 1 else 0)
   = used_slots s + (if decide (v ≠ 0%Z) then 1 else 0))%nat.
Proof.
  intros Hl Hi. unfold used_slots. apply filter_insert_length.
  apply list_lookup_lookup_total_lt. lia.
Qed.

Lemma proc_inv_step s s' : proc_inv s → proc_step s s' → proc_inv s'.
Proof.
  intros [H1 H2 H3 H4] Hs. pose proof (used_slots_le s H1) as Hle. destruct Hs as [s|s p Hp|s t p|s f o].
  - unfold add_process. pose proof (add_process_from_spec (Z.to_nat MAX_PROCESSES) 0 s) as H.
    destruct (add_process_from _ _ _) as [r s'].
    destruct H as [(_ & -> & _)|(k & Hk & _ & H0 & _ & ->)]; [lia|by split|].
    unfold MAX_PROCESSES in Hk. simpl. split; simpl; rewrite ?length_insert; try done.
    pose proof (used_slots_insert (u32 (proc_count s + 1)) (active_processes s) (devices s) s
      (Z.to_nat k) 1 H1 ltac:(lia)) as Hc.
    rewrite decide_False, decide_True in Hc by lia.
    unfold used_slots in *. cbn [procs] in *. rewrite H4, u32_small by lia. lia.
  - destruct Hp as [Hp Hl]. unfold MAX_PROCESSES in Hp. unfold delete_process, MAX_PROCESSES.
    rewrite s32_small by lia. rewrite (proj2 (Z.ltb_ge _ _)) by lia.
    rewrite Z.geb_leb, (proj2 (Z.leb_gt _ _)) by lia. simpl.
    split; simpl; rewrite ?length_insert; try done.
    pose proof (used_slots_insert (u32 (proc_count s - 1)) (active_processes s) (devices s) s
      (Z.to_nat (p - 1)) 0 H1 ltac:(lia)) as Hc.
    rewrite decide_True in Hc by done. rewrite decide_False in Hc by lia.
    unfold used_slots in *. cbn [procs] in *. rewrite H4, u32_small by lia. lia.
  - unfold set_active_process. case_match; simpl; split; simpl; rewrite ?length_insert; done.
  - unfold add_device. case_match; simpl; split; simpl; rewrite ?length_insert; done.
Qed.

Lemma proc_inv_reachable s : reachable (λ s, s = proc_statics) proc_step s → proc_inv s.
Proof. apply invariant_reachable; [intros ? ->; apply proc_inv_init|apply proc_inv_step]. Qed.

Lemma add_process_spec s :
  length (procs s) = 6%nat →
  let '(r, s') := add_process s in
  (r = -1 ∧ s' = s ∧ (∀ p, 1 ≤ p ≤ MAX_PROCESSES → pid_live s p)) ∨
  (1 ≤ r ≤ MAX_PROCESSES ∧ ¬ pid_live s r ∧ (∀ p, 1 ≤ p < r → pid_live s p) ∧
   (∀ p, pid_live s' p ↔ p = r ∨ pid_live s p) ∧
   proc_count s' = u32 (proc_count s + 1) ∧ active_processes s' = active_processes s ∧
   devices s' = devices s).
Proof.
  intros Hl. unfold add_process, pid_live, MAX_PROCESSES.
  pose proof (add_process_from_spec (Z.to_nat 6) 0 s ltac:(lia)) as H.
  destruct (add_process_from _ _ _) as [r s']. rewrite Z2Nat.id in H by lia.
  destruct H as [(-> & -> & Hj)|(k & Hk & -> & H0 & Hj & ->)].
  - left. repeat split; auto; try lia. apply Hj. lia.
  - right. cbn [procs proc_count active_processes devices].
    replace (k + 1 - 1) with k by lia.
    split; [lia|]. split; [tauto|]. split; [intros p Hp; split; [lia|apply Hj; lia]|].
    split; [|done]. intros p. destruct (decide (p - 1 = k)) as [<-|Hne].
    + rewrite list_lookup_total_insert_eq by lia. split; [|intros _; lia]. intros _. left. lia.
    + split.
      * intros [Hp Hv]. rewrite list_lookup_total_insert_ne in Hv by lia. auto.
      * intros [->|[Hp Hv]]; [lia|]. rewrite list_lookup_total_insert_ne by lia. auto.
Qed.

Lemma set_active_spec t p s :
  0 ≤ t < 3 → length (active_processes s) = 3%nat →
  let s' := (set_active_process t p s).2 in
  procs s' = procs s ∧ proc_count s' = proc_count s ∧ devices s' = devices s ∧
  length (active_processes s') = 3%nat ∧
  ∀ u, 0 ≤ u < 3 → active_processes s' !!! Z.to_nat u
    = if decide (u = t) then p else active_processes s !!! Z.to_nat u.
Proof.
  intros Ht Hl. unfold set_active_process, MAX_TERMINALS. rewrite u32_small by lia.
  rewrite (proj2 (Z.ltb_ge _ _)), Z.geb_leb, (proj2 (Z.leb_gt _ _)) by lia. simpl.
  rewrite length_insert. split; [done|]. split; [done|]. split; [done|]. split; [done|].
  intros u Hu. case_decide as E.
  - subst. apply list_lookup_total_insert_eq. lia.
  - apply list_lookup_total_insert_ne. lia.
Qed.

Lemma delete_process_spec p s :
  1 ≤ p ≤ MAX_PROCESSES → length (procs s) = 6%nat →
  let s' := (delete_process p s).2 in
  active_processes s' = active_processes s ∧ devices s' = devices s ∧ length (procs s') = 6%nat ∧
  ∀ q, pid_live s' q ↔ q ≠ p ∧ pid_live s q.
Proof.
  intros Hp Hl. unfold delete_process, pid_live, MAX_PROCESSES in *. rewrite s32_small by lia.
  rewrite (proj2 (Z.ltb_ge _ _)), Z.geb_leb, (proj2 (Z.leb_gt _ _)) by lia. simpl.
  rewrite length_insert. split; [done|]. split; [done|]. split; [done|].
  intros q. destruct (decide (q = p)) as [->|Hne].
  - rewrite list_lookup_total_insert_eq by lia. tauto.
  - split.
    + intros [Hq Hv]. rewrite list_lookup_total_insert_ne in Hv by lia. auto.
    + intros (_ & Hq & Hv). rewrite list_lookup_total_insert_ne by lia. auto.
Qed.

(** ** Properties *)

(** C30: in every state the kernel reaches by starting processes, halting live
    ones, changing foreground processes and registering devices, the tables
    keep their sizes, [processes()] is the number of live pids, and
    [free_procs()] says whether a pid is free. *)
Theorem proc_count_exact s :
  reachable (λ s, s = proc_statics) proc_step s →
  length (procs s) = 6%nat ∧ length (active_processes s) = 3%nat ∧ length (devices s) = 6%nat ∧
  processes s = Z.of_nat (used_slots s) ∧
  (free_procs s = true ↔ ∃ p, 1 ≤ p ≤ MAX_PROCESSES ∧ ¬ pid_live s p).
Proof.
  intros Hr. destruct (proc_inv_reachable s Hr) as [H1 H2 H3 H4].
  pose proof (used_slots_le s H1). pose proof (used_slots_full s H1) as Hfull.
  split; [done|]. split; [done|]. split; [done|]. split.
  { unfold processes. rewrite H4. apply s32_small. lia. }
  unfold free_procs, MAX_PROCESSES, pid_live. rewrite Z.ltb_lt, H4. split.
  - intros Hlt. destruct (decide (Exists (λ i, procs s !!! i = 0) (seq 0 6))) as [He|He].
    + apply Exists_exists in He as (i & Hi & H0). apply elem_of_seq in Hi.
      exists (Z.of_nat i + 1). split; [lia|]. replace (Z.of_nat i + 1 - 1) with (Z.of_nat i) by lia.
      rewrite Nat2Z.id. tauto.
    + exfalso. apply not_Exists_Forall in He; [|solve_decision].
      rewrite (proj2 Hfull) in Hlt; [lia|]. intros i Hi.
      rewrite Forall_forall in He. apply He, elem_of_seq. lia.
  - intros (p & Hp & Hn). destruct (decide (used_slots s = 6%nat)) as [E|]; [|lia].
    exfalso. apply Hn. split; [unfold MAX_PROCESSES; lia|]. apply (proj1 Hfull E). lia.
Qed.

Lemma proc_count_exact_witness :
  let s := (add_process (add_process proc_statics).2).2 in
  processes s = 2 ∧ (free_procs s = true ↔ ∃ p, 1 ≤ p ≤ MAX_PROCESSES ∧ ¬ pid_live s p).
Proof.
  intros s. destruct (proc_count_exact s) as (_ & _ & _ & H1 & H2).
  - exists proc_statics. split; [reflexivity|].
    apply rtc_l with (add_process proc_statics).2; [constructor|].
    apply rtc_once. constructor.
  - split; [exact H1|exact H2].
Defined.

(** [add_process] returns the least pid that is not live and makes
    exactly it live; it fails, changing nothing, only when all six are live. *)
Lemma add_process_allocates s :
  length (procs s) = 6%nat →
  let '(r, s') := add_process s in
  (r = -1 ∧ s' = s ∧ (∀ p, 1 ≤ p ≤ MAX_PROCESSES → pid_live s p)) ∨
  (1 ≤ r ≤ MAX_PROCESSES ∧ ¬ pid_live s r ∧ (∀ p, 1 ≤ p < r → pid_live s p) ∧
   (∀ p, pid_live s' p ↔ p = r ∨ pid_live s p) ∧
   proc_count s' = u32 (proc_count s + 1) ∧ active_processes s' = active_processes s ∧
   devices s' = devices s).
Proof. apply add_process_spec. Qed.

Lemma add_process_allocates_witness :
  let '(r, s') := add_process (ProcState 2 [1; 0; 1; 0; 0; 0] [1; -1; 3] []) in
  r = 2 ∧ procs s' = [1; 1; 1; 0; 0; 0].
Proof.
  destruct (add_process_allocates (ProcState 2 [1; 0; 1; 0; 0; 0] [1; -1; 3] []) eq_refl)
    as [(H & _)|_].
  - discriminate H.
  - split; reflexivity.
Defined.

(** [delete_process] does not look whether the pid is live: deleting one
    twice lowers the count below the number of processes, from zero to
    2^32 - 1, after which [free_procs] is false for ever. *)
Lemma delete_twice_breaks_count p :
  1 ≤ p ≤ MAX_PROCESSES →
  let s := (delete_process p proc_statics).2 in
  processes s = -1 ∧ used_slots s = 0%nat ∧ free_procs s = false.
Proof.
  unfold MAX_PROCESSES. intros Hp.
  assert (p = 1 ∨ p = 2 ∨ p = 3 ∨ p = 4 ∨ p = 5 ∨ p = 6) as H by lia.
  destruct_or! H; subst; vm_compute; auto.
Qed.
