(* ===== verification/FileSys.v ===== *)
(** * fs.c: the read-only file system

    The file system is an image in memory at [bootblock]: a boot block with
    the directory, then the inodes, then the data blocks, 4 kB each.  The
    operations read it through the same pointer arithmetic as the code, modulo
    2^32.  A [dentry_t] is 64 bytes of memory: name at 0, type at 32, inode at
    36. *)
From S2P Require Import Prelude CMem LibString Process.

Definition BLOCK_SIZE := 4096.
Definition CHARS_PER_BLOCK := 4096.
Definition BLOCKS_PER_INODE := 1023.
Definition NUM_INODES := 63.
Definition FNAME_LEN := 32.
Definition BYTES_DENTRY := 64.

(** Fields of [bootblock_t], [inode_t] and [dentry_t]. *)
Definition dir_entries_cnt (m : mem) (bb : Z) : Z := loads32 m bb.
Definition inode_cnt (m : mem) (bb : Z) : Z := loads32 m (bb + 4).
Definition data_block_cnt (m : mem) (bb : Z) : Z := loads32 m (bb + 8).
Definition dentry_addr (bb i : Z) : Z := bb + 64 + BYTES_DENTRY * i.
Definition inode_length (m : mem) (ip : Z) : Z := load32 m ip.
Definition data_block (m : mem) (ip k : Z) : Z := loads32 m (ip + 4 + 4 * k).
Definition dentry_ftype (m : mem) (d : Z) : Z := loads32 m (d + FNAME_LEN).
Definition dentry_inode (m : mem) (d : Z) : Z := loads32 m (d + FNAME_LEN + 4).

(** [bootblock = mem_mod->mod_start], and the two devices. *)
Definition fs_init (mem_mod : Z) (m : mem) (s : proc_state) : Z * proc_state :=
  let bootblock := load32 m mem_mod in
  let s := (add_device FILE_FTYPE fs_fops s).2 in
  let s := (add_device DIR_FTYPE dir_fops s).2 in
  (bootblock, s).

(** The search loop: [n] entries are left from [curr_dentry]. *)
Fixpoint find_dentry (n : nat) (m : mem) (fname curr_dentry dentry : Z) : Z * mem :=
  match n with
  | O => (-1, m)
  | S n =>
      if (strlen m fname =? strlen m curr_dentry) &&
         (strncmp m fname curr_dentry (strlen m curr_dentry) =? 0)
      then (0, memcpy m dentry curr_dentry BYTES_DENTRY)
      else find_dentry n m fname (curr_dentry + BYTES_DENTRY) dentry
  end.
Definition read_dentry_by_name (m : mem) (bootblock fname dentry : Z) : Z * mem :=
  find_dentry (Z.to_nat (dir_entries_cnt m bootblock)) m fname (dentry_addr bootblock 0) dentry.

(** The comparison of [uint32_t] and [int32_t] is unsigned. *)
Definition read_dentry_by_index (m : mem) (bootblock index dentry : Z) : Z * mem :=
  if (index >=? 0) && (index <? u32 (dir_entries_cnt m bootblock)) then
    (0, memcpy m dentry (dentry_addr bootblock index) BYTES_DENTRY)
  else (-1, m).

Definition get_inode_ptr (bootblock inode : Z) : Z :=
  u32 (bootblock + u32 ((inode + 1) * BLOCK_SIZE)).
Definition block_ptr (m : mem) (bootblock curr_inode off_data_block : Z) : Z :=
  u32 (bootblock
       + u32 ((1 + inode_cnt m bootblock + data_block m curr_inode off_data_block) * BLOCK_SIZE)).

(** The locals of [read_data] that its loop changes. *)
Record rd := Rd { rd_mem : mem; bytes_read : Z; new_offset : Z; off_data_block : Z;
                  curr_data_block : Z }.

Definition read_data_body (bootblock curr_inode offset buf i : Z) (r : rd) : rd :=
  let m := rd_mem r in
  if u32 (bytes_read r + offset) <? inode_length m curr_inode then
    let m := mset m (buf + i) (mget m (curr_data_block r + new_offset r)) in
    let new_offset := new_offset r + 1 in
    if new_offset >=? CHARS_PER_BLOCK then
      let off_data_block := off_data_block r + 1 in
      Rd m (s32 (bytes_read r + 1)) 0 off_data_block
        (block_ptr m bootblock curr_inode off_data_block)
    else Rd m (s32 (bytes_read r + 1)) new_offset (off_data_block r) (curr_data_block r)
  else r.

Definition read_data (m : mem) (bootblock inode offset buf length : Z) : Z * mem :=
  let inode := u32 inode in
  if (inode <? 0) || (inode >=? u32 (inode_cnt m bootblock)) then (0, m)
  else
    let new_offset := offset `mod` CHARS_PER_BLOCK in
    let off_data_block := offset `div` CHARS_PER_BLOCK in
    let curr_inode := get_inode_ptr bootblock inode in
    let curr_data_block := block_ptr m bootblock curr_inode off_data_block in
    let r := for_z 0 length (read_data_body bootblock curr_inode offset buf)
               (Rd m 0 new_offset off_data_block curr_data_block) in
    (bytes_read r, rd_mem r).

(** The loops over a name re-read its length; [None] would mean that copying
    it overwrote its end. *)
Fixpoint copy_name (fuel : nat) (m : mem) (dentry buf length i buf_idx ret_val : Z)
    : option (mem * Z * Z) :=
  match fuel with
  | O => None
  | S fuel =>
      if i <? strlen m dentry then
        if ret_val <? length then
          copy_name fuel (mset m (buf + buf_idx) (mget m (dentry + i))) dentry buf length (i + 1)
            (buf_idx + 1) (ret_val + 1)
        else copy_name fuel m dentry buf length (i + 1) buf_idx ret_val
      else Some (m, buf_idx, ret_val)
  end.

(** [dentry] is the local variable: the address of 64 bytes of kernel stack. *)
Definition read_directory_entry (m : mem) (bootblock dentry dir_entry buf length : Z)
    : option (Z * mem) :=
  if (dir_entry >=? u32 (dir_entries_cnt m bootblock)) || (dir_entry <? 0) then Some (0, m)
  else
    let m := (read_dentry_by_index m bootblock dir_entry dentry).2 in
    match copy_name (S (size m)) m dentry buf length 0 0 0 with
    | None => None
    | Some (m, buf_idx, ret_val) =>
        let m := mset m (buf + buf_idx) 10 in
        let m := mset m (buf + (buf_idx + 1)) 0 in
        Some (ret_val, m)
    end.

(** [read_directory]: the inner loop also counts the skipped characters. *)
Fixpoint dir_name (fuel : nat) (m : mem) (dentry offset buf length i buf_idx buf_off ret_val : Z)
    : option (mem * Z * Z * Z) :=
  match fuel with
  | O => None
  | S fuel =>
      if i <? strlen m dentry then
        if (buf_off >=? offset) && (ret_val <? length) then
          dir_name fuel (mset m (buf + buf_idx) (mget m (dentry + i))) dentry offset buf length
            (i + 1) (buf_idx + 1) buf_off (ret_val + 1)
        else dir_name fuel m dentry offset buf length (i + 1) buf_idx (buf_off + 1) ret_val
      else Some (m, buf_idx, buf_off, ret_val)
  end.
Fixpoint dir_names (n : nat) (k : Z) (m : mem) (bootblock dentry offset buf length : Z)
    (buf_idx buf_off ret_val : Z) : option (mem * Z * Z) :=
  match n with
  | O => Some (m, buf_idx, ret_val)
  | S n =>
      let m := (read_dentry_by_index m bootblock k dentry).2 in
      match dir_name (S (size m)) m dentry offset buf length 0 buf_idx buf_off ret_val with
      | None => None
      | Some (m, buf_idx, buf_off, ret_val) =>
          if (buf_off >=? offset) && (ret_val <? length) then
            dir_names n (k + 1) (mset m (buf + buf_idx) 10) bootblock dentry offset buf length
              (buf_idx + 1) buf_off ret_val
          else dir_names n (k + 1) m bootblock dentry offset buf length buf_idx buf_off ret_val
      end
  end.
Definition read_directory (m : mem) (bootblock dentry offset buf length : Z) : option (Z * mem) :=
  match dir_names (Z.to_nat (u32 (dir_entries_cnt m bootblock))) 0 m bootblock dentry offset buf
          length 0 0 0 with
  | None => None
  | Some (m, buf_idx, ret_val) => Some (ret_val, mset m (buf + buf_idx) 0)
  end.

(** [load]: [d] and [mem] are pointers that may be null. *)
Definition load (m : mem) (bootblock d dest : Z) : Z * mem :=
  if (d =? 0) || (dest =? 0) then (-1, m)
  else
    let curr_inode := get_inode_ptr bootblock (dentry_inode m d) in
    let len := inode_length m curr_inode in
    (0, (read_data m bootblock (dentry_inode m d) 0 dest len).2).

(** The operations of an open file or directory, on its descriptor. *)
Definition dir_read (m : mem) (bootblock dentry : Z) (fs_fd : fd_t) (buf nbytes : Z)
    : option (Z * mem * fd_t) :=
  match read_directory_entry m bootblock dentry (pos fs_fd) buf (u32 nbytes) with
  | None => None
  | Some (bytes_read, m) => Some (s32 bytes_read, m, fd_set_pos (u32 (pos fs_fd + 1)) fs_fd)
  end.
Definition fs_read (m : mem) (bootblock : Z) (fs_fd : fd_t) (buf nbytes : Z) : Z * mem * fd_t :=
  let '(bytes_read, m) := read_data m bootblock (inode_num fs_fd) (pos fs_fd) buf (u32 nbytes) in
  (bytes_read, m, fd_set_pos (u32 (pos fs_fd + bytes_read)) fs_fd).
Definition fs_write : Z := -1.
Definition fs_open : Z := 0.
Definition fs_close : Z := 0.

(** ** The image *)

Definition image_end (m : mem) (bb : Z) : Z :=
  bb + BLOCK_SIZE * (1 + inode_cnt m bb + data_block_cnt m bb).

(** An image the boot loader can have put in memory. *)
Record image_ok (m : mem) (bb : Z) : Prop := {
  img_base : 0 ≤ bb;
  img_dirs : 0 ≤ dir_entries_cnt m bb ≤ NUM_INODES;
  img_inodes : 0 ≤ inode_cnt m bb;
  img_blocks : 0 ≤ data_block_cnt m bb;
  img_fits : image_end m bb ≤ 4294967296 }.

(** An inode whose length and block numbers are those of a file. *)
Record file_ok (m : mem) (bb ino : Z) : Prop := {
  file_ino : 0 ≤ ino < inode_cnt m bb;
  file_len : inode_length m (bb + BLOCK_SIZE * (ino + 1)) ≤ BLOCKS_PER_INODE * BLOCK_SIZE;
  file_blocks k : 0 ≤ k → BLOCK_SIZE * k < inode_length m (bb + BLOCK_SIZE * (ino + 1)) →
    0 ≤ data_block m (bb + BLOCK_SIZE * (ino + 1)) k < data_block_cnt m bb }.

(** The contents of a file: byte [k] is in the block the inode lists for
    [k / 4096]. *)
Definition file_length (m : mem) (bb ino : Z) : Z := inode_length m (bb + BLOCK_SIZE * (ino + 1)).
Definition file_byte (m : mem) (bb ino k : Z) : Z :=
  mget m (bb + BLOCK_SIZE * (1 + inode_cnt m bb
            + data_block m (bb + BLOCK_SIZE * (ino + 1)) (k `div` BLOCK_SIZE))
          + k `mod` BLOCK_SIZE).
Definition file_contents (m : mem) (bb ino : Z) : list Z :=
  file_byte m bb ino <$> seqZ 0 (file_length m bb ino).

Definition outside_image (m : mem) (bb a n : Z) : Prop := a + n ≤ bb ∨ image_end m bb ≤ a.

Lemma image_frame m m' bb a n :
  image_ok m bb → outside_image m bb a n → frame a (a + n) m m' → 0 ≤ n →
  ∀ b, bb ≤ b < image_end m bb → mget m' b = mget m b.
Proof. intros Hi Ho Hf Hn b Hb. apply Hf. destruct Ho; lia. Qed.

Lemma seqZ_snoc a n : 0 ≤ n → seqZ a (n + 1) = seqZ a n ++ [a + n].
Proof.
  intros Hn. rewrite seqZ_app by lia. f_equal.
Qed.

(** ** [read_data] *)

#[local] Set Default Proof Using "All".
Section read_data.
Context (m : mem) (bb ino offset buf : Z).
Hypothesis (Himg : image_ok m bb) (Hfile : file_ok m bb ino).
Hypothesis (Hoff : word32 offset).
Let len := file_length m bb ino.
Let avail := Z.max 0 (len - offset).
Let ip := bb + BLOCK_SIZE * (ino + 1).

Lemma inode_ptr_eq : get_inode_ptr bb ino = ip.
Proof.
  unfold get_inode_ptr, ip. destruct Himg, Hfile. unfold image_end, BLOCK_SIZE in *.
  rewrite (u32_small ((ino + 1) * 4096)) by lia.
  rewrite u32_small by lia. lia.
Qed.

Lemma block_ptr_eq k :
  0 ≤ k → BLOCK_SIZE * k < len →
  block_ptr m bb ip k = bb + BLOCK_SIZE * (1 + inode_cnt m bb + data_block m ip k).
Proof.
  intros Hk Hl. pose proof (file_blocks _ _ _ Hfile k Hk Hl) as Hb. fold ip in Hb.
  destruct Himg. unfold block_ptr, image_end, BLOCK_SIZE in *.
  rewrite (u32_small ((1 + _ + _) * 4096)) by lia. rewrite u32_small by lia. lia.
Qed.

Lemma some_block : 0 < len → 1 ≤ data_block_cnt m bb.
Proof.
  intros Hl. unfold len, file_length in Hl.
  pose proof (file_blocks _ _ _ Hfile 0 ltac:(lia) ltac:(unfold BLOCK_SIZE in *; lia)). lia.
Qed.

Lemma ip_bounds : bb + 4096 ≤ ip ∧ ip + 4096 ≤ bb + BLOCK_SIZE * (1 + inode_cnt m bb).
Proof. destruct Himg, Hfile. unfold ip, BLOCK_SIZE in *. lia. Qed.

Variable (n : Z).
Hypothesis (Hn : 0 ≤ n).
Hypothesis (Hout : outside_image m bb buf (Z.min n avail)).

(** After [i] iterations: the bytes so far are in the buffer, and the block
    and the offset in it are those of the next byte. *)
Definition rd_inv (i : Z) (r : rd) : Prop :=
  let c := Z.min i avail in
  bytes_read r = c ∧
  rd_mem r = store_bytes m buf (file_byte m bb ino <$> seqZ offset c) ∧
  new_offset r = (offset + c) `mod` CHARS_PER_BLOCK ∧
  off_data_block r = (offset + c) `div` CHARS_PER_BLOCK ∧
  curr_data_block r = block_ptr m bb ip ((offset + c) `div` CHARS_PER_BLOCK).

Lemma rd_inv_frame i r :
  0 ≤ i ≤ n → rd_inv i r →
  ∀ b, bb ≤ b < image_end m bb → mget (rd_mem r) b = mget m b.
Proof.
  intros Hi (_ & Hm & _). rewrite Hm. apply (image_frame m _ bb buf (Z.min i avail)).
  - done.
  - destruct Hout; [left|right]; lia.
  - eapply frame_mono; [apply frame_store_bytes|lia|].
    rewrite length_fmap, length_seqZ. lia.
  - lia.
Qed.

Lemma image_load32 m' a :
  (∀ b, bb ≤ b < image_end m bb → mget m' b = mget m b) →
  bb ≤ a → a + 4 ≤ image_end m bb → load32 m' a = load32 m a.
Proof. intros H H1 H2. unfold load32. by rewrite !H by lia. Qed.

Lemma rd_step i r :
  0 ≤ i < n → rd_inv i r → rd_inv (i + 1) (read_data_body bb ip offset buf i r).
Proof.
  intros Hi Hr. pose proof (rd_inv_frame i r ltac:(lia) Hr) as Hsame.
  destruct Hr as (H1 & H2 & H3 & H4 & H5). unfold read_data_body.
  pose proof ip_bounds as Hip. pose proof (load32_range m ip) as Hlr.
  pose proof (file_len _ _ _ Hfile) as Hlen. fold ip in Hlen.
  change (inode_length m ip) with len in Hlen. change (load32 m ip) with len in Hlr.
  unfold BLOCKS_PER_INODE, BLOCK_SIZE in Hlen.
  assert (inode_length (rd_mem r) ip = len) as ->.
  { apply image_load32; [done|lia|]. unfold image_end, BLOCK_SIZE in *. destruct Himg. lia. }
  rewrite H1, H3, H4, H5. destruct (decide (i < avail)) as [Hlt|Hge].
  - (* a byte is copied *)
    set (p := offset + i).
    assert (offset + Z.min i avail = p ∧ p < len ∧ 0 ≤ p) as (Hp1 & Hp2 & Hp3) by (unfold p; lia).
    assert (avail = len - offset) as Hav by lia.
    rewrite (u32_small (Z.min i avail + offset)) by lia.
    rewrite (proj2 (Z.ltb_lt _ _)) by lia. rewrite Hp1.
    change CHARS_PER_BLOCK with 4096.
    assert (block_ptr m bb ip (p `div` 4096)
            = bb + BLOCK_SIZE * (1 + inode_cnt m bb + data_block m ip (p `div` 4096))) as Hbp.
    { apply block_ptr_eq; [lia|unfold BLOCK_SIZE; lia]. }
    pose proof (file_blocks _ _ _ Hfile (p `div` 4096) ltac:(lia)
      ltac:(change (4096 * (p `div` 4096) < len); lia)) as Hblk.
    fold ip in Hblk.
    assert (mget (rd_mem r) (block_ptr m bb ip (p `div` 4096) + p `mod` 4096)
            = file_byte m bb ino p) as ->.
    { rewrite Hsame; [unfold file_byte; fold ip; by rewrite Hbp|].
      rewrite Hbp. destruct Himg. unfold image_end, BLOCK_SIZE in *. lia. }
    set (m' := mset (rd_mem r) (buf + i) (file_byte m bb ino p)).
    assert (m' = store_bytes m buf (file_byte m bb ino <$> seqZ offset (Z.min (i + 1) avail))) as Hm'.
    { unfold m'. rewrite H2. replace (Z.min (i + 1) avail) with (i + 1) by lia.
      replace (Z.min i avail) with i by lia.
      rewrite seqZ_snoc, fmap_app, store_bytes_app by lia. simpl.
      rewrite length_fmap, length_seqZ. do 2 f_equal. lia. }
    assert (s32 (Z.min i avail + 1) = Z.min (i + 1) avail) as Hs by (rewrite s32_small; lia).
    assert (offset + Z.min (i + 1) avail = p + 1) as Hp' by (unfold p; lia).
    unfold rd_inv. rewrite Hp'. change CHARS_PER_BLOCK with 4096.
    destruct (Z.geb_spec (p `mod` 4096 + 1) 4096) as [Hw|Hw]; cbn [bytes_read rd_mem new_offset off_data_block curr_data_block].
    + assert ((p + 1) `div` 4096 = p `div` 4096 + 1) as Hd by lia.
      split; [exact Hs|]. split; [exact Hm'|]. split; [lia|]. split; [lia|]. rewrite Hd.
      assert (∀ b, bb ≤ b < image_end m bb → mget m' b = mget m b) as Hsame'.
      { apply (rd_inv_frame (i + 1) (Rd m' (Z.min (i + 1) avail) ((p + 1) `mod` 4096)
          ((p + 1) `div` 4096) (block_ptr m bb ip ((p + 1) `div` 4096)))); [lia|].
        unfold rd_inv. rewrite Hp'. repeat split. exact Hm'. }
      pose proof (some_block ltac:(lia)) as Hsb.
      unfold block_ptr, inode_cnt, data_block, loads32. unfold image_end in Hsame'.
      rewrite !(image_load32 m') ; [reflexivity| | | |exact Hsame'| |];
        unfold image_end, BLOCK_SIZE in *; destruct Himg; first [exact Hsame'|lia].
    + assert ((p + 1) `div` 4096 = p `div` 4096) as Hd by lia.
      split; [exact Hs|]. split; [exact Hm'|]. split; [lia|]. split; [lia|]. by rewrite Hd.
  - (* end of file *)
    rewrite (proj2 (Z.ltb_ge _ _)).
    2:{ destruct (decide (offset < len)).
        - rewrite u32_small by lia. lia.
        - rewrite u32_small by lia. lia. }
    unfold rd_inv. replace (Z.min (i + 1) avail) with (Z.min i avail) by lia. auto.
Qed.

Lemma read_data_inv :
  read_data m bb ino offset buf n
  = (Z.min n avail, store_bytes m buf (file_byte m bb ino <$> seqZ offset (Z.min n avail))).
Proof.
  unfold read_data. destruct Himg, Hfile as [Hino _ _].
  rewrite (u32_small ino) by (unfold image_end, BLOCK_SIZE in *; lia).
  rewrite (proj2 (Z.ltb_ge ino 0)) by lia.
  rewrite u32_small by (unfold image_end, BLOCK_SIZE in *; lia).
  rewrite Z.geb_leb, (proj2 (Z.leb_gt _ _)) by lia. simpl.
  rewrite inode_ptr_eq.
  set (r0 := Rd m 0 _ _ _).
  assert (rd_inv n (for_z 0 n (read_data_body bb ip offset buf) r0)) as (H1 & H2 & _).
  { refine (for_z_ind rd_inv 0 n _ _ Hn _ (λ i st Hi, rd_step i st Hi)).
    unfold rd_inv, r0. replace (Z.min 0 avail) with 0 by lia.
    rewrite seqZ_nil, Z.add_0_r by lia. repeat split. }
  rewrite H1, H2. reflexivity.
Qed.
End read_data.
#[local] Set Default Proof Using "Type".

(** The slice of a file a read returns. *)
Definition file_slice (m : mem) (bb ino offset n : Z) : list Z :=
  take (Z.to_nat n) (drop (Z.to_nat offset) (file_contents m bb ino)).

Lemma file_slice_eq m bb ino offset n :
  0 ≤ offset → 0 ≤ n →
  file_byte m bb ino <$> seqZ offset (Z.min n (Z.max 0 (file_length m bb ino - offset)))
  = file_slice m bb ino offset n.
Proof.
  intros Ho Hn. unfold file_slice, file_contents.
  rewrite <- fmap_drop, <- fmap_take. f_equal.
  pose proof (load32_range m (bb + BLOCK_SIZE * (ino + 1))) as Hr.
  change (load32 m _) with (file_length m bb ino) in Hr.
  destruct (decide (offset ≤ file_length m bb ino)) as [Hle|Hgt].
  - replace (file_length m bb ino) with (offset + (file_length m bb ino - offset)) at 2 by lia.
    rewrite seqZ_app, drop_app_length' by (rewrite ?length_seqZ; lia).
    rewrite Z.max_r, Z.add_0_l by lia.
    destruct (decide (n ≤ file_length m bb ino - offset)).
    + rewrite Z.min_l by lia.
      replace (file_length m bb ino - offset) with (n + (file_length m bb ino - offset - n)) by lia.
      rewrite seqZ_app, take_app_length' by (rewrite ?length_seqZ; lia). done.
    + rewrite Z.min_r by lia. rewrite take_ge by (rewrite length_seqZ; lia). done.
  - rewrite Z.max_l, Z.min_r, seqZ_nil by lia.
    rewrite drop_ge by (rewrite length_seqZ; lia). by rewrite take_nil.
Qed.

Lemma file_slice_length m bb ino offset n :
  0 ≤ offset → 0 ≤ n →
  Z.of_nat (length (file_slice m bb ino offset n))
  = Z.min n (Z.max 0 (file_length m bb ino - offset)).
Proof. intros. rewrite <- file_slice_eq by done. rewrite length_fmap, length_seqZ. lia. Qed.

Lemma file_slice_byte m bb ino offset n : Forall (λ v, word8 v) (file_slice m bb ino offset n).
Proof.
  apply Forall_take, Forall_drop, Forall_fmap, Forall_true. intros k. apply mget_range.
Qed.

Lemma file_slice_app m bb ino offset n1 n2 :
  0 ≤ offset → 0 ≤ n1 → 0 ≤ n2 →
  file_slice m bb ino offset n1
    ++ file_slice m bb ino (offset + Z.of_nat (length (file_slice m bb ino offset n1))) n2
  = file_slice m bb ino offset (n1 + n2).
Proof.
  intros Ho H1 H2. rewrite (file_slice_length m bb ino offset n1) by done.
  rewrite <- !file_slice_eq, <- fmap_app by lia. f_equal.
  set (a := Z.min n1 _). transitivity (seqZ offset (a + Z.min n2
    (Z.max 0 (file_length m bb ino - (offset + a))))); [rewrite seqZ_app by lia; done|].
  f_equal. lia.
Qed.

(** [read_data] as one block store. *)
Lemma read_data_spec m bb ino offset buf n :
  image_ok m bb → file_ok m bb ino → word32 offset → 0 ≤ n →
  outside_image m bb buf (Z.of_nat (length (file_slice m bb ino offset n))) →
  read_data m bb ino offset buf n
  = (Z.of_nat (length (file_slice m bb ino offset n)),
     store_bytes m buf (file_slice m bb ino offset n)).
Proof.
  intros Hi Hf Ho Hn Hout. rewrite file_slice_length in * by lia.
  rewrite read_data_inv by done. by rewrite file_slice_eq by lia.
Qed.

(** Memory that differs only outside the image holds the same file system. *)
Lemma image_same m m' bb :
  image_ok m bb → (∀ b, bb ≤ b < image_end m bb → mget m' b = mget m b) →
  dir_entries_cnt m' bb = dir_entries_cnt m bb ∧ inode_cnt m' bb = inode_cnt m bb ∧
  data_block_cnt m' bb = data_block_cnt m bb ∧ image_ok m' bb.
Proof.
  intros Hi Hs. assert (bb + 4096 ≤ image_end m bb) as Hend.
  { unfold image_end, BLOCK_SIZE. destruct Hi. lia. }
  assert (∀ a, bb ≤ a → a + 4 ≤ bb + 4096 → loads32 m' a = loads32 m a) as H.
  { intros a H1 H2. unfold loads32, load32. by rewrite !Hs by lia. }
  unfold dir_entries_cnt, inode_cnt, data_block_cnt. rewrite !H by lia.
  split; [done|]. split; [done|]. split; [done|].
  destruct Hi. unfold image_end, dir_entries_cnt, inode_cnt, data_block_cnt in *.
  split; unfold image_end, dir_entries_cnt, inode_cnt, data_block_cnt; rewrite ?H by lia; done.
Qed.

Lemma file_same m m' bb ino :
  image_ok m bb → file_ok m bb ino → (∀ b, bb ≤ b < image_end m bb → mget m' b = mget m b) →
  file_ok m' bb ino ∧ file_length m' bb ino = file_length m bb ino ∧
  file_contents m' bb ino = file_contents m bb ino.
Proof.
  intros Hi Hf Hs. destruct (image_same m m' bb Hi Hs) as (_ & Hic & Hdc & _).
  destruct Hi as [Hb _ H1 H2 _], Hf as [Hino Hlen Hblk].
  set (ip := bb + BLOCK_SIZE * (ino + 1)) in *.
  assert (bb ≤ ip ∧ ip + 4096 ≤ image_end m bb) as Hip
    by (unfold ip, image_end, BLOCK_SIZE; lia).
  assert (inode_length m' ip = inode_length m ip) as Hl.
  { unfold inode_length, load32. by rewrite !Hs by lia. }
  assert (∀ k, 0 ≤ k → 4096 * k < inode_length m ip → data_block m' ip k = data_block m ip k) as Hd.
  { intros k Hk Hkl. unfold data_block, loads32, load32.
    unfold BLOCKS_PER_INODE, BLOCK_SIZE in Hlen. by rewrite !Hs by lia. }
  split; [|split].
  - split; rewrite ?Hic; fold ip; rewrite ?Hl; try done.
    intros k Hk Hkl. rewrite Hd, Hdc by done. by apply Hblk.
  - exact Hl.
  - unfold file_contents, file_length. fold ip. rewrite Hl. apply list_fmap_ext.
    intros i k Hk. apply lookup_seqZ in Hk. unfold file_byte. fold ip. rewrite Hic.
    unfold BLOCK_SIZE. rewrite Hd by lia. apply Hs.
    specialize (Hblk (k `div` 4096) ltac:(lia) ltac:(unfold BLOCK_SIZE; lia)).
    unfold image_end, BLOCK_SIZE. lia.
Qed.

(** A store outside the image. *)
Lemma image_store m bb a l :
  image_ok m bb → outside_image m bb a (Z.of_nat (length l)) →
  ∀ b, bb ≤ b < image_end m bb → mget (store_bytes m a l) b = mget m b.
Proof. intros Hi Ho. eapply image_frame; eauto using frame_store_bytes. lia. Qed.

(** A small image, for examples: one file [a] with contents [hello]. *)
Definition sample_fs : mem :=
  store_bytes (store_bytes (store_bytes (store_bytes ∅
    0 [1; 0; 0; 0; 1; 0; 0; 0; 1; 0; 0; 0])
    64 ([97] ++ replicate 31 0 ++ [2; 0; 0; 0; 0; 0; 0; 0]))
    4096 [5; 0; 0; 0; 0; 0; 0; 0])
    8192 [104; 101; 108; 108; 111].

Lemma sample_image_ok : image_ok sample_fs 0.
Proof. split; vm_compute; split_and?; congruence. Qed.
Lemma sample_file_ok : file_ok sample_fs 0 0.
Proof.
  split; [vm_compute; split_and?; congruence|vm_compute; congruence|].
  intros k Hk Hl. assert (inode_length sample_fs (0 + BLOCK_SIZE * (0 + 1)) = 5) as E by reflexivity.
  rewrite E in Hl. unfold BLOCK_SIZE in Hl. assert (k = 0) as -> by lia.
  vm_compute. split_and?; congruence.
Qed.

(** ** Properties *)

(** C31: [read_data] copies into the buffer exactly the bytes of the file from
    [offset] on, at most [n] and none past the end of the file, across block
    boundaries; it returns their number and changes nothing else. *)
Theorem read_data_reads m bb ino offset buf n :
  image_ok m bb → file_ok m bb ino → word32 offset → 0 ≤ n →
  let data := take (Z.to_nat n) (drop (Z.to_nat offset) (file_contents m bb ino)) in
  outside_image m bb buf (Z.of_nat (length data)) →
  let '(r, m') := read_data m bb ino offset buf n in
  r = Z.of_nat (length data) ∧ load_bytes m' buf (length data) = data ∧ frame buf (buf + r) m m'.
Proof.
  intros Hi Hf Ho Hn data Hout. rewrite read_data_spec by done.
  change (file_slice m bb ino offset n) with data.
  split; [done|]. split; [|apply frame_store_bytes].
  apply load_store_bytes, (file_slice_byte m bb ino offset n).
Qed.

Lemma read_data_reads_witness :
  let '(r, m') := read_data sample_fs 0 0 1 20000 100 in
  r = 4 ∧ load_bytes m' 20000 4 = [101; 108; 108; 111] ∧ frame 20000 (20000 + r) sample_fs m'.
Proof.
  apply (read_data_reads sample_fs 0 0 1 20000 100).
  - exact sample_image_ok.
  - exact sample_file_ok.
  - lia.
  - lia.
  - right. vm_compute. congruence.
Defined.

(** Two consecutive reads of an open file return consecutive parts of it:
    together they are the bytes one read of both lengths would return, and the
    position in the descriptor is past them. *)
Lemma fs_read_twice m bb fd b1 n1 b2 n2 :
  image_ok m bb → file_ok m bb (inode_num fd) → 0 ≤ pos fd →
  pos fd + n1 + n2 < 4294967296 → 0 ≤ n1 → 0 ≤ n2 →
  outside_image m bb b1 n1 → outside_image m bb b2 n2 → b1 + n1 ≤ b2 ∨ b2 + n2 ≤ b1 →
  let '(r1, m1, fd1) := fs_read m bb fd b1 n1 in
  let '(r2, m2, fd2) := fs_read m1 bb fd1 b2 n2 in
  load_bytes m2 b1 (Z.to_nat r1) ++ load_bytes m2 b2 (Z.to_nat r2)
    = take (Z.to_nat (n1 + n2)) (drop (Z.to_nat (pos fd)) (file_contents m bb (inode_num fd))) ∧
  pos fd2 = pos fd + r1 + r2 ∧ inode_num fd2 = inode_num fd.
Proof.
  destruct fd as [o ino0 ino p f]. simpl. intros Hi Hf Hp Hlim H1 H2 Ho1 Ho2 Hd.
  pose proof (file_slice_length m bb ino p n1 Hp H1) as Hl1.
  unfold fs_read. cbn [pos inode_num]. rewrite (u32_small n1), (u32_small n2) by lia.
  rewrite read_data_spec; [|done|done|lia|done|destruct Ho1; [left|right]; lia].
  set (s1 := file_slice m bb ino p n1) in *. cbn [fd_set_pos pos inode_num].
  pose proof (image_store m bb b1 s1 Hi ltac:(destruct Ho1; [left|right]; lia)) as Hs.
  destruct (image_same _ _ _ Hi Hs) as (_ & Hic & Hdc & Hi').
  destruct (file_same _ _ _ _ Hi Hf Hs) as (Hf' & Hfl & Hfc).
  assert (∀ o n, file_slice (store_bytes m b1 s1) bb ino o n = file_slice m bb ino o n) as Hsl
    by (intros; unfold file_slice; by rewrite Hfc).
  rewrite (u32_small (p + _)) by lia. set (p' := p + Z.of_nat (length s1)).
  pose proof (file_slice_length m bb ino p' n2 ltac:(unfold p'; lia) H2) as Hl2.
  rewrite read_data_spec; [|done|done|unfold p'; lia|lia|].
  2:{ rewrite Hsl. unfold outside_image, image_end in *. rewrite Hic, Hdc. destruct Ho2; [left|right]; lia. }
  rewrite Hsl. set (s2 := file_slice m bb ino p' n2) in *.
  rewrite !Nat2Z.id. cbn [fd_set_pos pos inode_num]. split; [|split; [|done]].
  - rewrite (load_store_bytes _ b2 s2) by apply file_slice_byte.
    rewrite load_store_bytes_out by lia. rewrite load_store_bytes by apply file_slice_byte.
    apply file_slice_app; lia.
  - rewrite u32_small by (unfold p' in *; lia). unfold p'. lia.
Qed.

(** ** Directory operations *)

Lemma name_matches m fname curr l k :
  cstr m fname l → cstr m curr k →
  (strlen m fname =? strlen m curr) && (strncmp m fname curr (strlen m curr) =? 0) = true ↔ l = k.
Proof.
  intros Hl Hk. rewrite andb_true_iff, !Z.eqb_eq.
  rewrite (strlen_cstr _ _ _ Hl), (strlen_cstr _ _ _ Hk), (strncmp_cstr _ _ _ _ _ _ Hl Hk).
  rewrite Nat2Z.id. split.
  - intros [H1 H2]. by rewrite !take_ge in H2 by lia.
  - intros ->. done.
Qed.

Lemma find_dentry_spec n m fname curr dentry l :
  cstr m fname l →
  (∃ i, 0 ≤ i < Z.of_nat n ∧ cstr m (curr + BYTES_DENTRY * i) l ∧
    (∀ j, 0 ≤ j < i → ¬ cstr m (curr + BYTES_DENTRY * j) l) ∧
    find_dentry n m fname curr dentry = (0, memcpy m dentry (curr + BYTES_DENTRY * i) BYTES_DENTRY)) ∨
  ((∀ j, 0 ≤ j < Z.of_nat n → ¬ cstr m (curr + BYTES_DENTRY * j) l) ∧
   find_dentry n m fname curr dentry = (-1, m)).
Proof.
  intros Hl. revert curr. induction n as [|n IH]; intros curr.
  { right. split; [intros; lia|done]. }
  cbn [find_dentry]. destruct (cstr_exists m curr) as (k & Hk & _).
  pose proof (name_matches m fname curr l k Hl Hk) as Hm.
  destruct (andb _ _) eqn:E.
  - left. exists 0. rewrite Z.mul_0_r, Z.add_0_r. destruct (proj1 Hm eq_refl).
    split; [lia|]. split; [done|]. split; [intros; lia|done].
  - assert (¬ cstr m curr l) as Hne.
    { intros H. discriminate (proj2 Hm (cstr_det _ _ _ _ H Hk)). }
    assert (∀ j, 0 ≤ j → curr + BYTES_DENTRY + BYTES_DENTRY * j = curr + BYTES_DENTRY * (j + 1)) as Hsh
      by (intros; lia).
    destruct (IH (curr + BYTES_DENTRY)) as [(i & Hi & Hc & Hj & ->)|[Hj ->]].
    + left. exists (i + 1). rewrite Hsh in * by lia. split; [lia|]. split; [done|]. split; [|done].
      intros j Hj'. destruct (decide (j = 0)) as [->|]; [by rewrite Z.mul_0_r, Z.add_0_r|].
      specialize (Hj (j - 1) ltac:(lia)). rewrite Hsh in Hj by lia. by rewrite Z.sub_add in Hj.
    + right. split; [|done]. intros j Hj'.
      destruct (decide (j = 0)) as [->|]; [by rewrite Z.mul_0_r, Z.add_0_r|].
      specialize (Hj (j - 1) ltac:(lia)). rewrite Hsh in Hj by lia. by rewrite Z.sub_add in Hj.
Qed.

Lemma memcpy_dentry m bb i dentry :
  image_ok m bb → 0 ≤ i < NUM_INODES → outside_image m bb dentry BYTES_DENTRY →
  let m' := memcpy m dentry (dentry_addr bb i) BYTES_DENTRY in
  load_bytes m' dentry 64 = load_bytes m (dentry_addr bb i) 64 ∧
  frame dentry (dentry + BYTES_DENTRY) m m' ∧
  ∀ b, bb ≤ b < image_end m bb → mget m' b = mget m b.
Proof.
  intros Hi Hr Ho m'. assert (bb + 4096 ≤ image_end m bb) as Hend.
  { unfold image_end, BLOCK_SIZE. destruct Hi. lia. }
  unfold NUM_INODES, BYTES_DENTRY in *.
  assert (dentry ≤ dentry_addr bb i ∨ dentry_addr bb i + 64 ≤ dentry) as Hd.
  { unfold dentry_addr, BYTES_DENTRY. destruct Ho; [left|right]; lia. }
  pose proof (memcpy_block m dentry (dentry_addr bb i) 64 ltac:(lia) Hd) as [H1 H2].
  split; [exact H1|]. split; [exact H2|]. by eapply image_frame.
Qed.

(** The directory of an image: entry [i] names the C string at its address. *)
Definition dir_has (m : mem) (bb i : Z) (name : list Z) : Prop :=
  0 ≤ i < dir_entries_cnt m bb ∧ cstr m (dentry_addr bb i) name.

Lemma read_dentry_by_name_spec m bb fname dentry name :
  image_ok m bb → cstr m fname name → outside_image m bb dentry BYTES_DENTRY →
  let '(r, m') := read_dentry_by_name m bb fname dentry in
  (r = 0 ∧ ∃ i, dir_has m bb i name ∧ (∀ j, j < i → ¬ dir_has m bb j name) ∧
     load_bytes m' dentry 64 = load_bytes m (dentry_addr bb i) 64 ∧
     frame dentry (dentry + BYTES_DENTRY) m m') ∨
  (r = -1 ∧ m' = m ∧ ∀ i, ¬ dir_has m bb i name).
Proof.
  intros Hi Hc Ho. unfold read_dentry_by_name, dir_has. pose proof (img_dirs _ _ Hi) as Hd.
  pose proof (find_dentry_spec (Z.to_nat (dir_entries_cnt m bb)) m fname (dentry_addr bb 0) dentry
    name Hc) as H.
  assert (∀ i, dentry_addr bb 0 + BYTES_DENTRY * i = dentry_addr bb i) as Ha
    by (intros; unfold dentry_addr; lia).
  destruct (find_dentry _ _ _ _ _) as [r m']. rewrite Z2Nat.id in H by lia.
  destruct H as [(i & Hr & Hci & Hj & E)|[Hj E]]; apply pair_inv in E as [-> ->].
  - left. split; [done|]. exists i. rewrite Ha in Hci |- *.
    split; [auto|]. split.
    + intros j Hji [Hr' Hcj]. apply (Hj j); [lia|]. by rewrite Ha.
    + destruct (memcpy_dentry m bb i dentry Hi ltac:(lia) Ho) as (H1 & H2 & _). auto.
  - right. split; [done|]. split; [done|]. intros i [Hr Hci]. apply (Hj i Hr). by rewrite Ha.
Qed.

(** [read_dentry_by_name] finds the first directory entry whose name is
    exactly the given one and copies its 64 bytes; it fails, changing nothing,
    only when no entry has that name. *)
Lemma read_dentry_by_name_first m bb fname dentry name :
  image_ok m bb → cstr m fname name → outside_image m bb dentry BYTES_DENTRY →
  let '(r, m') := read_dentry_by_name m bb fname dentry in
  (r = 0 ∧ ∃ i, dir_has m bb i name ∧ (∀ j, j < i → ¬ dir_has m bb j name) ∧
     load_bytes m' dentry 64 = load_bytes m (dentry_addr bb i) 64 ∧
     frame dentry (dentry + BYTES_DENTRY) m m') ∨
  (r = -1 ∧ m' = m ∧ ∀ i, ¬ dir_has m bb i name).
Proof. apply read_dentry_by_name_spec. Qed.

Lemma read_dentry_by_name_first_witness :
  let m := store_bytes sample_fs 50000 [97; 0] in
  let '(r, m') := read_dentry_by_name m 0 50000 60000 in
  (r = 0 ∧ ∃ i, dir_has m 0 i [97] ∧ (∀ j, j < i → ¬ dir_has m 0 j [97]) ∧
     load_bytes m' 60000 64 = load_bytes m (dentry_addr 0 i) 64 ∧
     frame 60000 (60000 + BYTES_DENTRY) m m') ∨
  (r = -1 ∧ m' = m ∧ ∀ i, ¬ dir_has m 0 i [97]).
Proof.
  intros m. apply (read_dentry_by_name_first m 0 50000 60000 [97]).
  - apply (image_same sample_fs); [exact sample_image_ok|].
    apply image_store; [exact sample_image_ok|]. right. vm_compute. congruence.
  - split; [vm_compute; reflexivity|]. split; [vm_compute; reflexivity|].
    repeat constructor; discriminate.
  - right. vm_compute. congruence.
Defined.

(** A name that fills all 32 bytes has no NUL of its own: the lookup reads
    on into the type field, so no name of 32 characters can be found. *)
Lemma full_length_name_unreachable m bb fname dentry name :
  image_ok m bb → cstr m fname name → length name = 32%nat →
  (∀ i, 0 ≤ i < dir_entries_cnt m bb → u8 (dentry_ftype m (dentry_addr bb i)) ≠ 0) →
  outside_image m bb dentry BYTES_DENTRY →
  read_dentry_by_name m bb fname dentry = (-1, m).
Proof.
  intros Hi Hc Hlen Ht Ho. unfold read_dentry_by_name. pose proof (img_dirs _ _ Hi) as Hd.
  destruct (find_dentry_spec (Z.to_nat (dir_entries_cnt m bb)) m fname (dentry_addr bb 0) dentry
    name Hc) as [(i & Hr & Hci & _)|[_ E]]; [|exact E].
  exfalso. apply (Ht i); [lia|]. apply cstr_end in Hci. rewrite Hlen in Hci.
  unfold dentry_ftype, loads32, load32, FNAME_LEN.
  replace (dentry_addr bb 0 + BYTES_DENTRY * i + Z.of_nat 32) with (dentry_addr bb i + 32) in Hci
    by (unfold dentry_addr; lia).
  rewrite Hci. pose proof (mget_range m (dentry_addr bb i + 32 + 1)).
  pose proof (mget_range m (dentry_addr bb i + 32 + 2)).
  pose proof (mget_range m (dentry_addr bb i + 32 + 3)). word.
Qed.

(** [load] as one block store. *)
Lemma load_spec m bb d dest :
  image_ok m bb → file_ok m bb (dentry_inode m d) → d ≠ 0 → dest ≠ 0 →
  let data := file_contents m bb (dentry_inode m d) in
  outside_image m bb dest (Z.of_nat (length data)) →
  load m bb d dest = (0, store_bytes m dest data).
Proof.
  intros Hi Hf Hd Hdest data Ho. unfold load.
  rewrite (proj2 (Z.eqb_neq d 0)), (proj2 (Z.eqb_neq dest 0)) by done. simpl.
  set (ino := dentry_inode m d) in *. rewrite (inode_ptr_eq m bb ino 0) by (done || lia).
  change (inode_length m _) with (file_length m bb ino).
  pose proof (load32_range m (bb + BLOCK_SIZE * (ino + 1))) as Hr.
  change (load32 m _) with (file_length m bb ino) in Hr.
  assert (file_slice m bb ino 0 (file_length m bb ino) = data) as Hs.
  { unfold file_slice. rewrite drop_0, take_ge; [done|].
    unfold file_contents. rewrite length_fmap, length_seqZ. done. }
  rewrite read_data_spec by (rewrite ?Hs; done || lia). rewrite Hs. done.
Qed.
Lemma file_contents_byte m bb ino : Forall (λ v, word8 v) (file_contents m bb ino).
Proof. apply Forall_fmap, Forall_true. intros k. apply mget_range. Qed.

(** [load] writes the whole file the directory entry names at the given
    address, and nothing else. *)
Lemma load_loads m bb d dest :
  image_ok m bb → file_ok m bb (dentry_inode m d) → d ≠ 0 → dest ≠ 0 →
  let data := file_contents m bb (dentry_inode m d) in
  outside_image m bb dest (Z.of_nat (length data)) →
  let '(r, m') := load m bb d dest in
  r = 0 ∧ load_bytes m' dest (length data) = data ∧
  frame dest (dest + Z.of_nat (length data)) m m'.
Proof.
  intros Hi Hf Hd Hdest data Ho. rewrite load_spec by done. cbn [fst snd].
  split; [done|]. split; [|apply frame_store_bytes].
  apply load_store_bytes, file_contents_byte.
Qed.

Lemma load_loads_witness :
  let '(r, m') := load sample_fs 0 64 0x8048000 in
  r = 0 ∧ load_bytes m' 0x8048000 5 = [104; 101; 108; 108; 111] ∧
  frame 0x8048000 (0x8048000 + Z.of_nat (length (file_contents sample_fs 0 (dentry_inode sample_fs 64))))
    sample_fs m'.
Proof.
  apply (load_loads sample_fs 0 64 0x8048000).
  - exact sample_image_ok.
  - exact sample_file_ok.
  - discriminate.
  - discriminate.
  - right. vm_compute. congruence.
Defined.

(** ** Reading a directory *)

Lemma cstr_move m m' a b l :
  (∀ i, 0 ≤ i ≤ Z.of_nat (length l) → mget m' (a + i) = mget m (b + i)) →
  cstr m b l → cstr m' a l.
Proof.
  intros H (H1 & H2 & H3). split; [|split; [|done]].
  - rewrite <- H1 at 2. apply load_bytes_ext. intros i Hi. apply H. lia.
  - rewrite H by lia. exact H2.
Qed.

Lemma load_bytes_eq_mget m m' a b n :
  load_bytes m' a n = load_bytes m b n →
  ∀ i, 0 ≤ i < Z.of_nat n → mget m' (a + i) = mget m (b + i).
Proof.
  intros H i Hi. assert (load_bytes m' a n !! Z.to_nat i = load_bytes m b n !! Z.to_nat i) as E
    by by rewrite H.
  rewrite !lookup_load_bytes in E by lia. rewrite Z2Nat.id in E by lia. by apply some_inv in E.
Qed.

Lemma copy_name_spec fuel m dentry buf L i name :
  cstr m dentry name → 0 ≤ L → 0 ≤ i ≤ Z.of_nat (length name) →
  (Z.to_nat (Z.of_nat (length name) - i) < fuel)%nat →
  buf + Z.min (Z.of_nat (length name)) L ≤ dentry ∨ dentry + Z.of_nat (length name) < buf →
  let n := Z.min (Z.of_nat (length name)) L in
  copy_name fuel m dentry buf L i (Z.min i L) (Z.min i L)
  = Some (store_bytes m (buf + Z.min i L)
            (drop (Z.to_nat (Z.min i L)) (take (Z.to_nat n) name)), n, n).
Proof.
  intros Hc HL Hi Hf Hd n. unfold n in *. clear n. revert m i Hc Hi Hf.
  induction fuel as [|fuel IH]; intros m i Hc Hi Hf; [lia|]. cbn [copy_name].
  rewrite (strlen_cstr _ _ _ Hc).
  destruct (Z.ltb_spec i (Z.of_nat (length name))) as [Hlt|Hge].
  - destruct (Z.ltb_spec (Z.min i L) L) as [Hl|Hl].
    + replace (Z.min i L) with i by lia.
      destruct (lookup_lt_is_Some_2 name (Z.to_nat i) ltac:(lia)) as [v Hv].
      destruct (cstr_lookup _ _ _ _ _ Hc Hv) as [Hmv _]. rewrite Z2Nat.id in Hmv by lia.
      rewrite Hmv. pose proof (IH (mset m (buf + i) v) (i + 1)) as IH'.
      replace (Z.min (i + 1) L) with (i + 1) in IH' by lia. rewrite IH'; [| |lia|lia].
      * do 3 f_equal. rewrite (drop_S (take _ name) v (Z.to_nat i)).
        -- cbn [store_bytes]. rewrite Z.add_assoc.
           by replace (Z.to_nat (i + 1)) with (S (Z.to_nat i)) by lia.
        -- rewrite lookup_take_lt by lia. done.
      * apply (cstr_ext m); [|done]. intros j Hj. apply mget_mset_ne. lia.
    + pose proof (IH m (i + 1) Hc ltac:(lia) ltac:(lia)) as IH'.
      replace (Z.min (i + 1) L) with (Z.min i L) in IH' by lia. exact IH'.
  - replace i with (Z.of_nat (length name)) by lia.
    rewrite drop_ge by (rewrite length_take; lia). done.
Qed.

Lemma read_directory_entry_spec m bb dentry k buf L name :
  image_ok m bb → dir_has m bb k name → (length name < 64)%nat → 0 ≤ L →
  outside_image m bb dentry BYTES_DENTRY →
  let n := Z.min (Z.of_nat (length name)) L in
  buf + n + 2 ≤ dentry ∨ dentry + BYTES_DENTRY ≤ buf →
  ∃ m', read_directory_entry m bb dentry k buf L = Some (n, m') ∧
    load_bytes m' buf (Z.to_nat n + 2) = take (Z.to_nat n) name ++ [10; 0] ∧
    ∀ a, ¬ (buf ≤ a < buf + n + 2) → ¬ (dentry ≤ a < dentry + BYTES_DENTRY) → mget m' a = mget m a.
Proof.
  intros Hi [Hk Hc] Hlen HL Ho n Hd. pose proof (img_dirs _ _ Hi) as Hdirs.
  unfold read_directory_entry, read_dentry_by_index.
  rewrite (u32_small (dir_entries_cnt m bb)) by (unfold NUM_INODES in Hdirs; lia).
  rewrite Z.geb_leb, (proj2 (Z.leb_gt _ _)), (proj2 (Z.ltb_ge _ _)) by lia. simpl orb.
  rewrite Z.geb_leb, (proj2 (Z.leb_le 0 k)), (proj2 (Z.ltb_lt k _)) by lia. cbn [andb snd].
  destruct (memcpy_dentry m bb k dentry Hi ltac:(lia) Ho) as (H1 & H2 & _).
  set (m1 := memcpy m dentry (dentry_addr bb k) BYTES_DENTRY) in *.
  assert (cstr m1 dentry name) as Hc1.
  { apply (cstr_move m m1 dentry (dentry_addr bb k)); [|done]. intros i Hi'.
    apply (load_bytes_eq_mget m m1 _ _ _ H1). lia. }
  pose proof (copy_name_spec (S (size m1)) m1 dentry buf L 0 name Hc1 HL ltac:(lia)) as Hcp.
  replace (Z.min 0 L) with 0 in Hcp by lia. pose proof (cstr_length_le _ _ _ Hc1).
  unfold BYTES_DENTRY in *. rewrite Hcp by lia. fold n. rewrite drop_0, Z.add_0_r. cbn [fst snd].
  set (l := take (Z.to_nat n) name).
  assert (length l = Z.to_nat n) as Hl by (unfold l; rewrite length_take; lia).
  set (m2 := mset (mset (store_bytes m1 buf l) (buf + n) 10) (buf + (n + 1)) 0).
  assert (m2 = store_bytes m1 buf (l ++ [10; 0])) as Hm2.
  { rewrite store_bytes_app, Hl. cbn [store_bytes]. unfold m2.
    rewrite Z2Nat.id by (unfold n; lia). by rewrite Z.add_assoc. }
  exists m2. split; [done|]. rewrite Hm2. split.
  - assert (length (l ++ [10; 0]%Z) = Z.to_nat n + 2)%nat as <- by (rewrite length_app, Hl; done).
    apply load_store_bytes, Forall_app. split.
    + apply Forall_take. by apply (cstr_byte m1 dentry).
    + repeat constructor; lia.
  - intros a Ha Had. rewrite mget_store_bytes_out by (rewrite length_app, Hl; simpl; lia).
    apply H2. lia.
Qed.

(** C39: reading a directory entry copies its name, cut to [L] bytes, and then
    writes a newline and a NUL after it, which [L] does not count: with a name
    of [L] characters or more the buffer is overrun by two bytes. *)
Theorem read_directory_entry_name m bb dentry k buf L name :
  image_ok m bb → dir_has m bb k name → (length name < 64)%nat → 0 ≤ L →
  outside_image m bb dentry BYTES_DENTRY →
  let n := Z.min (Z.of_nat (length name)) L in
  buf + n + 2 ≤ dentry ∨ dentry + BYTES_DENTRY ≤ buf →
  ∃ m', read_directory_entry m bb dentry k buf L = Some (n, m') ∧
    load_bytes m' buf (Z.to_nat n + 2) = take (Z.to_nat n) name ++ [10; 0] ∧
    ∀ a, ¬ (buf ≤ a < buf + n + 2) → ¬ (dentry ≤ a < dentry + BYTES_DENTRY) → mget m' a = mget m a.
Proof. apply read_directory_entry_spec. Qed.

(** The one entry of the sample image read with a buffer of one byte. *)
Lemma read_directory_entry_name_witness :
  ∃ m', read_directory_entry sample_fs 0 60000 0 50000 1 = Some (1, m') ∧
    load_bytes m' 50000 3 = [97; 10; 0] ∧
    ∀ a, ¬ (50000 ≤ a < 50000 + 1 + 2) → ¬ (60000 ≤ a < 60000 + BYTES_DENTRY) →
      mget m' a = mget sample_fs a.
Proof.
  apply (read_directory_entry_name sample_fs 0 60000 0 50000 1 [97]).
  - exact sample_image_ok.
  - split; [vm_compute; split; congruence|]. split; [vm_compute; reflexivity|].
    split; [vm_compute; reflexivity|]. repeat constructor; discriminate.
  - simpl. lia.
  - lia.
  - right. vm_compute. congruence.
  - left. simpl. lia.
Defined.

(** Bad inode numbers and directory indices, null pointers and writes are
    refused and leave memory as it was. *)
Lemma fs_rejects m bb ino offset buf n index dentry d :
  inode_cnt m bb ≤ ino < 4294967296 → 0 ≤ inode_cnt m bb →
  dir_entries_cnt m bb ≤ index → 0 ≤ dir_entries_cnt m bb →
  read_data m bb ino offset buf n = (0, m) ∧
  read_dentry_by_index m bb index dentry = (-1, m) ∧
  read_directory_entry m bb dentry index buf n = Some (0, m) ∧
  load m bb 0 buf = (-1, m) ∧ load m bb d 0 = (-1, m) ∧ fs_write = -1.
Proof.
  intros H1 H2 H3 H4. pose proof (loads32_range m bb). pose proof (loads32_range m (bb + 4)).
  unfold inode_cnt, dir_entries_cnt in *.
  split; [|split; [|split; [|split; [|split]]]].
  - unfold read_data, inode_cnt. rewrite !u32_small by lia.
    rewrite Z.geb_leb, (proj2 (Z.leb_le _ _)) by lia. by rewrite orb_true_r.
  - unfold read_dentry_by_index, dir_entries_cnt. rewrite u32_small by lia.
    rewrite (proj2 (Z.ltb_ge index _)) by lia. by rewrite andb_false_r.
  - unfold read_directory_entry, dir_entries_cnt. rewrite u32_small by lia.
    rewrite Z.geb_leb, (proj2 (Z.leb_le _ _)) by lia. done.
  - done.
  - unfold load. by rewrite orb_true_r.
  - done.
Qed.
