(* ===== verification/Paging.v ===== *)
(** * virtualmem.c: page directories and page tables

    Directories and tables are lists of 1024 words written with the code's own
    bit operations; [translate] is what the processor does with them.  The
    addresses the linker gives the page tables are a [Layout]. *)
From S2P Require Import Prelude Screen Process.

Definition TABLE_SIZE := 1024.
Definition PAGE_SIZE := 4096.
Definition FLAG_P := 0x1.
Definition FLAG_WE := 0x2.
Definition FLAG_U := 0x4.
Definition FLAG_PS := 0x80.
Definition PDE_IDX_OFFS := 22.
Definition PTE_IDX_OFFS := 12.
Definition PTE_IDX_MASK := 0x3FF.
Definition PDE_4MB_MASK := 0xFFC00000.
Definition PDE_4KB_MASK := 0xFFFFF000.
Definition LARGE_INIT_FLAGS := Z.lor (Z.lor FLAG_P FLAG_WE) FLAG_PS.
Definition KERNEL_LOC := 0x400000.

Abbreviation table := (list Z).

(** Where the linker put [pt_vidmem[i]] and [pt_user_vidmem[i]]: six different
    page frames. *)
Class Layout := {
  pt_vidmem_addr : Z → Z;
  pt_user_vidmem_addr : Z → Z;
  layout_vidmem i : 0 ≤ i < 3 →
    0 ≤ pt_vidmem_addr i < 4294967296 ∧ pt_vidmem_addr i `mod` 4096 = 0;
  layout_user i : 0 ≤ i < 3 →
    0 ≤ pt_user_vidmem_addr i < 4294967296 ∧ pt_user_vidmem_addr i `mod` 4096 = 0;
  layout_vidmem_inj i j : 0 ≤ i < 3 → 0 ≤ j < 3 → pt_vidmem_addr i = pt_vidmem_addr j → i = j;
  layout_user_inj i j :
    0 ≤ i < 3 → 0 ≤ j < 3 → pt_user_vidmem_addr i = pt_user_vidmem_addr j → i = j;
  layout_disjoint i j : 0 ≤ i < 3 → 0 ≤ j < 3 → pt_vidmem_addr i ≠ pt_user_vidmem_addr j }.

(** The statics of virtualmem.c, the directories of process.c and the control
    registers. *)
Record vm_state := Vm {
  pd_first : table; pds : list table; pt_vidmem : list table; pt_user_vidmem : list table;
  cr0 : Z; cr3 : pd_ptr; cr4 : Z }.
Definition vm_statics : vm_state :=
  Vm (replicate 1024 0) (replicate 6 (replicate 1024 0)) (replicate 3 (replicate 1024 0))
     (replicate 3 (replicate 1024 0)) 0 PdNull 0.

(** Array accesses. *)
Definition tget (t : table) (i : Z) : Z := t !!! Z.to_nat i.
Definition tset (t : table) (i v : Z) : table := <[Z.to_nat i := v]> t.

Definition set_pde (pd : table) (virtual_addr physical_addr flags : Z) : table :=
  let physical_addr :=
    if negb (Z.land flags FLAG_PS =? 0) then Z.land physical_addr PDE_4MB_MASK
    else Z.land physical_addr PDE_4KB_MASK in
  tset pd (Z.shiftr virtual_addr PDE_IDX_OFFS) (Z.lor physical_addr flags).

Definition set_pde_flags (pd : table) (virtual_addr flags : Z) : table :=
  let i := Z.shiftr virtual_addr PDE_IDX_OFFS in tset pd i (Z.lor (tget pd i) flags).

Definition unset_pde_flags (pd : table) (virtual_addr flags : Z) : table :=
  let i := Z.shiftr virtual_addr PDE_IDX_OFFS in
  tset pd i (Z.land (tget pd i) (u32 (Z.lnot flags))).

Definition set_pd (pd : pd_ptr) (s : vm_state) : vm_state :=
  let pd := if decide (pd = PdNull) then PdFirst else pd in
  Vm (pd_first s) (pds s) (pt_vidmem s) (pt_user_vidmem s) (cr0 s) pd (cr4 s).

Section layout.
Context `{Layout}.

Definition pd_init (pd : table) (term_num : Z) : table :=
  let pd := for_z 0 TABLE_SIZE (λ i pd, tset pd i 0) pd in
  let pd := tset pd 0 (Z.lor (Z.lor (pt_vidmem_addr term_num) FLAG_WE) FLAG_P) in
  let pd := tset pd (Z.shiftr PROG_VIDMEM_ADDR PDE_IDX_OFFS)
              (Z.lor (Z.lor (pt_user_vidmem_addr term_num) FLAG_WE) FLAG_U) in
  set_pde pd KERNEL_LOC KERNEL_LOC LARGE_INIT_FLAGS.

(** The entries written by the second loop of [virtualmem_init]. *)
Definition init_pt_vidmem (i : Z) (pt : table) : table :=
  let pt := tset pt (Z.land (Z.shiftr VIDEO PTE_IDX_OFFS) PTE_IDX_MASK)
              (Z.lor (Z.lor (VIDEO + i * PAGE_SIZE) FLAG_WE) FLAG_P) in
  for_z 0 MAX_TERMINALS (λ j pt,
    tset pt (Z.land (Z.shiftr (VIDEO + (j + 1) * PAGE_SIZE) PTE_IDX_OFFS) PTE_IDX_MASK)
      (Z.lor (Z.lor (VIDEO + j * PAGE_SIZE) FLAG_WE) FLAG_P)) pt.
Definition init_pt_user_vidmem (i : Z) (pt : table) : table :=
  tset pt (Z.land (Z.shiftr PROG_VIDMEM_ADDR PTE_IDX_OFFS) PTE_IDX_MASK)
    (Z.lor (Z.lor (Z.lor (VIDEO + i * PAGE_SIZE) FLAG_WE) FLAG_U) FLAG_P).

(** [upd l i f]: replace element [i] of an array of tables. *)
Definition upd (l : list table) (i : Z) (f : table → table) : list table :=
  <[Z.to_nat i := f (l !!! Z.to_nat i)]> l.

Definition virtualmem_init (s : vm_state) : vm_state :=
  let pdf := pd_init (pd_first s) 0 in
  let clear_all l := for_z 0 MAX_TERMINALS (λ i l,
    upd l i (λ t, for_z 0 TABLE_SIZE (λ j t, tset t j 0) t)) l in
  let ptv := clear_all (pt_vidmem s) in
  let ptu := clear_all (pt_user_vidmem s) in
  let ptv := for_z 0 MAX_TERMINALS (λ i l, upd l i (init_pt_vidmem i)) ptv in
  let ptu := for_z 0 MAX_TERMINALS (λ i l, upd l i (init_pt_user_vidmem i)) ptu in
  let s := set_pd PdFirst (Vm pdf (pds s) ptv ptu (cr0 s) (cr3 s) (cr4 s)) in
  Vm (pd_first s) (pds s) (pt_vidmem s) (pt_user_vidmem s) (Z.lor (cr0 s) 0x80000000) (cr3 s)
    (Z.lor (cr4 s) 0x10).

(** The paging part of [execute] for a process [pid] on terminal [term_num]. *)
Definition PROG_VM_START := 0x8000000.
Definition SPACE_4MB := 0x400000.
Definition KERNEL_MEM_END := 0x800000.
Definition process_pd (pd : table) (pid term_num : Z) : table :=
  let pd := pd_init pd term_num in
  set_pde pd PROG_VM_START (KERNEL_MEM_END + (pid - 1) * SPACE_4MB)
    (Z.lor (Z.lor (Z.lor FLAG_PS FLAG_U) FLAG_WE) FLAG_P).

(** ** What the processor does

    A word of a table read as an entry: its flags and its frame. *)
Definition present (e : Z) : bool := Z.testbit e 0.
Definition writable (e : Z) : bool := Z.testbit e 1.
Definition user (e : Z) : bool := Z.testbit e 2.
Definition large (e : Z) : bool := Z.testbit e 7.
Definition frame_of (size e : Z) : Z := e `div` size * size.

(** The page table at a physical address. *)
Definition pt_at (s : vm_state) (a : Z) : option table :=
  if decide (a = pt_vidmem_addr 0) then pt_vidmem s !! 0%nat
  else if decide (a = pt_vidmem_addr 1) then pt_vidmem s !! 1%nat
  else if decide (a = pt_vidmem_addr 2) then pt_vidmem s !! 2%nat
  else if decide (a = pt_user_vidmem_addr 0) then pt_user_vidmem s !! 0%nat
  else if decide (a = pt_user_vidmem_addr 1) then pt_user_vidmem s !! 1%nat
  else if decide (a = pt_user_vidmem_addr 2) then pt_user_vidmem s !! 2%nat
  else None.

(** The physical address a load or store at [va] reaches, or [None] for a page
    fault; in user mode the entries must have the user flag. *)
Definition translate (s : vm_state) (pd : table) (user_mode : bool) (va : Z) : option Z :=
  let pde := tget pd (va `div` 4194304) in
  if negb (present pde) || (user_mode && negb (user pde)) then None
  else if large pde then Some (frame_of 4194304 pde + va `mod` 4194304)
  else match pt_at s (frame_of 4096 pde) with
       | None => None
       | Some pt =>
           let pte := tget pt ((va `div` 4096) `mod` 1024) in
           if negb (present pte) || (user_mode && negb (user pte)) then None
           else Some (frame_of 4096 pte + va `mod` 4096)
       end.
End layout.

(** A layout, for examples. *)
#[export] Instance sample_layout : Layout.
Proof.
  refine {| pt_vidmem_addr i := 0x500000 + 4096 * i; pt_user_vidmem_addr i := 0x600000 + 4096 * i |};
    intros; lia.
Defined.

(** ** Words and entries *)

Lemma aligned_mul b k : 0 ≤ k → b `mod` 2 ^ k = 0 → b = b `div` 2 ^ k * 2 ^ k.
Proof. intros Hk Hb. pose proof (Z.div_mod b (2 ^ k) ltac:(lia)). lia. Qed.

(** Flags or-ed into an aligned address. *)
Lemma entry_add b f k : 0 ≤ k → b `mod` 2 ^ k = 0 → 0 ≤ f < 2 ^ k → Z.lor b f = b + f.
Proof.
  intros Hk Hb Hf. rewrite (aligned_mul b k Hk Hb) at 1. rewrite lor_add_disjoint by done.
  by rewrite <- (aligned_mul b k Hk Hb).
Qed.

Lemma entry_flag b f k i : b `mod` 2 ^ k = 0 → 0 ≤ i < k → Z.testbit (Z.lor b f) i = Z.testbit f i.
Proof.
  intros Hb Hi. rewrite Z.lor_spec, (aligned_mul b k) by (lia || done).
  by rewrite Z.mul_pow2_bits_low by lia.
Qed.

Lemma entry_frame b f : b `mod` 4096 = 0 → 0 ≤ f < 4096 → frame_of 4096 (Z.lor b f) = b.
Proof. intros Hb Hf. rewrite (entry_add b f 12) by done. unfold frame_of. lia. Qed.
Lemma entry_frame_large b f :
  b `mod` 4194304 = 0 → 0 ≤ f < 4194304 → frame_of 4194304 (Z.lor b f) = b.
Proof. intros Hb Hf. rewrite (entry_add b f 22) by done. unfold frame_of. lia. Qed.

(** ** Tables *)

Lemma tget_tset t i j v :
  0 ≤ i → 0 ≤ j < Z.of_nat (length t) → tget (tset t i v) j = if decide (i = j) then v else tget t j.
Proof.
  intros Hi Hj. unfold tget, tset. case_decide as E.
  - subst. apply list_lookup_total_insert_eq. lia.
  - apply list_lookup_total_insert_ne. lia.
Qed.
Lemma length_tset t i v : length (tset t i v) = length t.
Proof. apply length_insert. Qed.

Lemma zero_loop (t : table) n :
  length t = n → for_z 0 (Z.of_nat n) (λ i t, tset t i 0) t = replicate n 0.
Proof. apply for_z_fill_list. Qed.

Lemma for_z_3 {S} (f : Z → S → S) s : for_z 0 MAX_TERMINALS f s = f 2 (f 1 (f 0 s)).
Proof. unfold MAX_TERMINALS. do 3 rewrite for_z_step by lia. by rewrite for_z_stop by lia. Qed.

(** Arrays of the sizes the declarations give them. *)
Record vm_wf (s : vm_state) : Prop := {
  wf_first : length (pd_first s) = 1024%nat;
  wf_ptv : length (pt_vidmem s) = 3%nat;
  wf_ptu : length (pt_user_vidmem s) = 3%nat;
  wf_ptv_len : Forall (λ t, length t = 1024%nat) (pt_vidmem s);
  wf_ptu_len : Forall (λ t, length t = 1024%nat) (pt_user_vidmem s) }.

Definition zero_table : table := replicate 1024 0.

Lemma clear_tables (l : list table) :
  length l = 3%nat → Forall (λ t, length t = 1024%nat) l →
  for_z 0 MAX_TERMINALS (λ i l, upd l i (λ t, for_z 0 TABLE_SIZE (λ j t, tset t j 0) t)) l
  = [zero_table; zero_table; zero_table].
Proof.
  intros Hl Hf. destruct l as [|a [|b [|c [|]]]]; try discriminate Hl.
  repeat (apply Forall_cons in Hf as [? Hf]). rewrite for_z_3. unfold upd.
  cbn [list_insert insert lookup_total list_lookup_total Z.to_nat Pos.to_nat Pos.iter_op Nat.add].
  unfold TABLE_SIZE. change 1024 with (Z.of_nat 1024). by rewrite !zero_loop.
Qed.

Section init.
Context `{Layout}.

Lemma virtualmem_init_tables s :
  vm_wf s →
  pt_vidmem (virtualmem_init s)
    = [init_pt_vidmem 0 zero_table; init_pt_vidmem 1 zero_table; init_pt_vidmem 2 zero_table] ∧
  pt_user_vidmem (virtualmem_init s)
    = [init_pt_user_vidmem 0 zero_table; init_pt_user_vidmem 1 zero_table;
       init_pt_user_vidmem 2 zero_table].
Proof.
  intros [_ H1 H2 H3 H4]. unfold virtualmem_init.
  rewrite (clear_tables _ H1 H3), (clear_tables _ H2 H4), !for_z_3. split; reflexivity.
Qed.

Lemma vidmem_ne i j : 0 ≤ i < 3 → 0 ≤ j < 3 → i ≠ j → pt_vidmem_addr i ≠ pt_vidmem_addr j.
Proof. intros ?? Hne E. by apply layout_vidmem_inj in E. Qed.
Lemma user_ne i j :
  0 ≤ i < 3 → 0 ≤ j < 3 → i ≠ j → pt_user_vidmem_addr i ≠ pt_user_vidmem_addr j.
Proof. intros ?? Hne E. by apply layout_user_inj in E. Qed.
Lemma user_vidmem_ne i j :
  0 ≤ i < 3 → 0 ≤ j < 3 → pt_user_vidmem_addr i ≠ pt_vidmem_addr j.
Proof. intros ?? E. by apply eq_sym, layout_disjoint in E. Qed.

Lemma pt_at_vidmem s t : 0 ≤ t < 3 → pt_at s (pt_vidmem_addr t) = pt_vidmem s !! Z.to_nat t.
Proof.
  intros Ht. unfold pt_at. assert (t = 0 ∨ t = 1 ∨ t = 2) as Hc by lia.
  destruct_or! Hc; subst.
  - by rewrite decide_True.
  - rewrite decide_False by (apply vidmem_ne; lia). by rewrite decide_True.
  - do 2 rewrite decide_False by (apply vidmem_ne; lia). by rewrite decide_True.
Qed.
Lemma pt_at_user s t :
  0 ≤ t < 3 → pt_at s (pt_user_vidmem_addr t) = pt_user_vidmem s !! Z.to_nat t.
Proof.
  intros Ht. unfold pt_at. assert (t = 0 ∨ t = 1 ∨ t = 2) as Hc by lia.
  do 3 rewrite decide_False by (apply user_vidmem_ne; lia).
  destruct_or! Hc; subst.
  - by rewrite decide_True.
  - rewrite decide_False by (apply user_ne; lia). by rewrite decide_True.
  - do 2 rewrite decide_False by (apply user_ne; lia). by rewrite decide_True.
Qed.

(** The entries of a fresh directory. *)
Lemma pd_init_entries pd t j :
  length pd = 1024%nat → 0 ≤ j < 1024 →
  tget (pd_init pd t) j =
    if decide (j = 0) then Z.lor (pt_vidmem_addr t) 3
    else if decide (j = 1) then 0x400083
    else if decide (j = 33) then Z.lor (pt_user_vidmem_addr t) 6
    else 0.
Proof.
  intros Hl Hj. unfold pd_init, TABLE_SIZE. change 1024 with (Z.of_nat 1024).
  rewrite zero_loop by done. unfold set_pde.
  change (Z.land LARGE_INIT_FLAGS FLAG_PS =? 0) with false. cbn [negb].
  change (Z.shiftr PROG_VIDMEM_ADDR PDE_IDX_OFFS) with 33.
  change (Z.shiftr KERNEL_LOC PDE_IDX_OFFS) with 1.
  rewrite !tget_tset by (rewrite ?length_tset, ?length_replicate; lia).
  rewrite <- !Z.lor_assoc.
  change (Z.lor FLAG_WE FLAG_P) with 3. change (Z.lor FLAG_WE FLAG_U) with 6.
  change (Z.lor (Z.land KERNEL_LOC PDE_4MB_MASK) LARGE_INIT_FLAGS) with 0x400083.
  repeat (case_decide; try lia).
  unfold tget. rewrite lookup_total_replicate_2 by lia. done.
Qed.

Lemma length_pd_init pd t : length pd = 1024%nat → length (pd_init pd t) = 1024%nat.
Proof.
  intros Hl. unfold pd_init, TABLE_SIZE, set_pde. change 1024 with (Z.of_nat 1024).
  rewrite zero_loop by done. by rewrite !length_tset, length_replicate.
Qed.

Lemma process_pd_entries pd pid t j :
  length pd = 1024%nat → 1 ≤ pid ≤ 6 → 0 ≤ j < 1024 →
  tget (process_pd pd pid t) j =
    if decide (j = 32) then Z.lor (0x800000 + (pid - 1) * 4194304) 0x87
    else tget (pd_init pd t) j.
Proof.
  intros Hl Hp Hj. unfold process_pd, set_pde.
  change (Z.lor (Z.lor (Z.lor FLAG_PS FLAG_U) FLAG_WE) FLAG_P) with 0x87.
  change (Z.land 0x87 FLAG_PS =? 0) with false. cbn [negb].
  change (Z.shiftr PROG_VM_START PDE_IDX_OFFS) with 32.
  rewrite tget_tset by (rewrite ?length_pd_init; lia || done).
  case_decide; case_decide; try lia. unfold PDE_4MB_MASK.
  change 0xFFC00000 with (2 ^ 32 - 2 ^ 22). rewrite land_high; [|lia|unfold KERNEL_MEM_END, SPACE_4MB; lia].
  f_equal. unfold KERNEL_MEM_END, SPACE_4MB. change (2 ^ 22) with 4194304. lia.
Qed.

Lemma process_pd_user pd pid t :
  length pd = 1024%nat → 1 ≤ pid ≤ 6 →
  tget (process_pd pd pid t) 33 = Z.lor (pt_user_vidmem_addr t) 6.
Proof.
  intros Hl Hp. rewrite process_pd_entries by (done || lia). rewrite decide_False by done.
  rewrite pd_init_entries by (done || lia). do 2 rewrite decide_False by done.
  by rewrite decide_True.
Qed.

(** A directory entry that points to a page table. *)
Lemma translate_small s pd um va b f pt :
  tget pd (va `div` 4194304) = Z.lor b f → b `mod` 4096 = 0 → 0 ≤ f < 4096 →
  present f = true → (um = true → user f = true) → large f = false → pt_at s b = Some pt →
  translate s pd um va =
    let pte := tget pt ((va `div` 4096) `mod` 1024) in
    if negb (present pte) || (um && negb (user pte)) then None
    else Some (frame_of 4096 pte + va `mod` 4096).
Proof.
  intros He Hb Hf Hp Hu Hl Hpt. unfold translate. rewrite He. unfold present, user, large in *.
  rewrite !(entry_flag b f 12) by (lia || done).
  rewrite Hp, Hl, entry_frame, Hpt by done. destruct um; [rewrite Hu by done|]; done.
Qed.

(** An entry that is a 4 MB page. *)
Lemma translate_large s pd um va b f :
  tget pd (va `div` 4194304) = Z.lor b f → b `mod` 4194304 = 0 → 0 ≤ f < 4096 →
  present f = true → large f = true →
  translate s pd um va = if um && negb (user f) then None else Some (b + va `mod` 4194304).
Proof.
  intros He Hb Hf Hp Hl. unfold translate. rewrite He. unfold present, user, large in *.
  rewrite !(entry_flag b f 22) by (lia || done). rewrite Hp, Hl, entry_frame_large by (done || lia).
  done.
Qed.

Lemma translate_absent s pd um va : tget pd (va `div` 4194304) = 0 → translate s pd um va = None.
Proof. intros He. unfold translate. by rewrite He. Qed.

(** No flag of the directory entry, no access from user mode. *)
Lemma translate_no_user s pd va :
  user (tget pd (va `div` 4194304)) = false → translate s pd true va = None.
Proof. intros Hu. unfold translate. rewrite Hu. by rewrite orb_true_r. Qed.
End init.

Lemma tget_zero i : 0 ≤ i < 1024 → tget zero_table i = 0.
Proof. intros Hi. unfold tget, zero_table. by rewrite lookup_total_replicate_2 by lia. Qed.

Lemma init_pt_vidmem_entries t i :
  0 ≤ t < 3 → 0 ≤ i < 1024 →
  tget (init_pt_vidmem t zero_table) i =
    if decide (i = 0xB8) then Z.lor (VIDEO + t * 4096) 3
    else if decide (0xB9 ≤ i < 0xBC) then Z.lor (VIDEO + (i - 0xB9) * 4096) 3 else 0.
Proof.
  intros Ht Hi. unfold init_pt_vidmem. rewrite for_z_3.
  rewrite !tget_tset by (rewrite ?length_tset; simpl; first [vm_compute; congruence|lia]).
  rewrite tget_zero, <- !Z.lor_assoc by done. unfold PAGE_SIZE.
  change (Z.lor FLAG_WE FLAG_P) with 3.
  change (Z.land (Z.shiftr VIDEO PTE_IDX_OFFS) PTE_IDX_MASK) with 0xB8.
  change (Z.land (Z.shiftr (VIDEO + (0 + 1) * 4096) PTE_IDX_OFFS) PTE_IDX_MASK) with 0xB9.
  change (Z.land (Z.shiftr (VIDEO + (1 + 1) * 4096) PTE_IDX_OFFS) PTE_IDX_MASK) with 0xBA.
  change (Z.land (Z.shiftr (VIDEO + (2 + 1) * 4096) PTE_IDX_OFFS) PTE_IDX_MASK) with 0xBB.
  repeat (case_decide; try lia); repeat f_equal; lia.
Qed.

Lemma init_pt_user_entries t i :
  0 ≤ i < 1024 →
  tget (init_pt_user_vidmem t zero_table) i =
    if decide (i = 0) then Z.lor (VIDEO + t * 4096) 7 else 0.
Proof.
  intros Hi. unfold init_pt_user_vidmem.
  rewrite tget_tset by (simpl; first [vm_compute; congruence|lia]).
  rewrite tget_zero, <- !Z.lor_assoc by done. unfold PAGE_SIZE.
  change (Z.lor FLAG_WE (Z.lor FLAG_U FLAG_P)) with 7.
  change (Z.land (Z.shiftr PROG_VIDMEM_ADDR PTE_IDX_OFFS) PTE_IDX_MASK) with 0.
  repeat case_decide; done || lia.
Qed.

(** A translation only depends on the page tables and the directory entry. *)
Lemma translate_ext `{Layout} s1 s2 d1 d2 um va :
  pt_vidmem s1 = pt_vidmem s2 → pt_user_vidmem s1 = pt_user_vidmem s2 →
  tget d1 (va `div` 4194304) = tget d2 (va `div` 4194304) →
  translate s1 d1 um va = translate s2 d2 um va.
Proof. intros H1 H2 H3. unfold translate, pt_at. by rewrite H1, H2, H3. Qed.

Section mapping.
Context `{Layout} (s : vm_state).
Hypothesis (Hwf : vm_wf s).
Let s' := virtualmem_init s.

Lemma video_entry t : 0 ≤ t < 3 →
  pt_at s' (pt_vidmem_addr t) = Some (init_pt_vidmem t zero_table).
Proof using Hwf.
  intros Ht. unfold s'. rewrite pt_at_vidmem by done. destruct (virtualmem_init_tables s Hwf) as [-> _].
  assert (t = 0 ∨ t = 1 ∨ t = 2) as Hc by lia. by destruct_or! Hc; subst.
Qed.
Lemma user_entry t : 0 ≤ t < 3 →
  pt_at s' (pt_user_vidmem_addr t) = Some (init_pt_user_vidmem t zero_table).
Proof using Hwf.
  intros Ht. unfold s'. rewrite pt_at_user by done. destruct (virtualmem_init_tables s Hwf) as [_ ->].
  assert (t = 0 ∨ t = 1 ∨ t = 2) as Hc by lia. by destruct_or! Hc; subst.
Qed.

(** Kernel accesses to the four pages from the video memory on. *)
Lemma translate_video d t k o :
  0 ≤ t < 3 → tget d 0 = Z.lor (pt_vidmem_addr t) 3 → 0 ≤ k < 4 → 0 ≤ o < 4096 →
  translate s' d false (VIDEO + k * 4096 + o)
  = Some (VIDEO + (if decide (k = 0) then t else k - 1) * 4096 + o).
Proof using Hwf.
  intros Ht Hd Hk Ho. assert (VIDEO = 0xB8000) as HV by reflexivity.
  rewrite (translate_small s' d false _ (pt_vidmem_addr t) 3 (init_pt_vidmem t zero_table)).
  - replace (((VIDEO + k * 4096 + o) `div` 4096) `mod` 1024) with (0xB8 + k) by lia.
    rewrite init_pt_vidmem_entries by lia. cbv zeta.
    assert (∀ b, b `mod` 4096 = 0 →
      (if negb (present (Z.lor b 3)) || (false && negb (user (Z.lor b 3))) then None
       else Some (frame_of 4096 (Z.lor b 3) + (VIDEO + k * 4096 + o) `mod` 4096)) = Some (b + o)) as Hb.
    { intros b Hb. unfold present. rewrite (entry_flag b 3 12) by (lia || done).
      rewrite entry_frame by (lia || done). simpl. f_equal. lia. }
    destruct (decide (k = 0)) as [->|].
    + rewrite decide_True by lia. rewrite Hb by lia. done.
    + rewrite decide_False, decide_True by lia. rewrite Hb by lia. f_equal. lia.
  - replace ((VIDEO + k * 4096 + o) `div` 4194304) with 0 by lia. done.
  - apply layout_vidmem. lia.
  - lia.
  - done.
  - done.
  - done.
  - by apply video_entry.
Qed.

Lemma translate_user_video d t o :
  0 ≤ t < 3 → tget d 33 = Z.lor (pt_user_vidmem_addr t) 7 → 0 ≤ o < 4096 →
  translate s' d true (PROG_VIDMEM_ADDR + o) = Some (VIDEO + t * 4096 + o).
Proof using Hwf.
  intros Ht Hd Ho. assert (VIDEO = 0xB8000) as HV by reflexivity.
  assert (PROG_VIDMEM_ADDR = 0x8400000) as HP by reflexivity.
  rewrite (translate_small s' d true _ (pt_user_vidmem_addr t) 7 (init_pt_user_vidmem t zero_table)).
  - replace (((PROG_VIDMEM_ADDR + o) `div` 4096) `mod` 1024) with 0 by lia.
    rewrite init_pt_user_entries by lia. cbv zeta. rewrite decide_True by done.
    unfold present, user. rewrite !(entry_flag _ 7 12) by lia. rewrite entry_frame by lia.
    simpl. f_equal. lia.
  - replace ((PROG_VIDMEM_ADDR + o) `div` 4194304) with 33 by lia. done.
  - apply layout_user. lia.
  - lia.
  - done.
  - done.
  - done.
  - by apply user_entry.
Qed.
End mapping.

(** ** Properties *)

(** In a directory made for terminal [t], the kernel sees at the video
    address the page of terminal [t] and, one page further each, the pages of
    terminals 0, 1 and 2, whatever [t]; user mode reaches no video page until
    the present flag is set at [PROG_VIDMEM_ADDR], and then exactly the page
    of terminal [t]. *)
Lemma terminal_video_pages `{Layout} s pd t o :
  vm_wf s → length pd = 1024%nat → 0 ≤ t < 3 → 0 ≤ o < 4096 →
  let s' := virtualmem_init s in
  let d := pd_init pd t in
  translate s' d false (VIDEO + o) = Some (VIDEO + t * 4096 + o) ∧
  (∀ j, 0 ≤ j < 3 → translate s' d false (VIDEO + (j + 1) * 4096 + o) = Some (VIDEO + j * 4096 + o)) ∧
  translate s' d true (PROG_VIDMEM_ADDR + o) = None ∧
  translate s' d true (VIDEO + t * 4096 + o) = None ∧
  translate s' (set_pde_flags d PROG_VIDMEM_ADDR FLAG_P) true (PROG_VIDMEM_ADDR + o)
    = Some (VIDEO + t * 4096 + o).
Proof.
  intros Hwf Hl Ht Ho s' d. assert (VIDEO = 0xB8000) as HV by reflexivity.
  assert (PROG_VIDMEM_ADDR = 0x8400000) as HP by reflexivity.
  assert (tget d 0 = Z.lor (pt_vidmem_addr t) 3) as H0
    by (unfold d; rewrite (pd_init_entries _ _ _ Hl) by lia; reflexivity).
  assert (tget d 33 = Z.lor (pt_user_vidmem_addr t) 6) as H33
    by (unfold d; rewrite (pd_init_entries _ _ _ Hl) by lia; reflexivity).
  split; [|split; [|split; [|split]]].
  - pose proof (translate_video s Hwf d t 0 o Ht H0 ltac:(lia) Ho) as E.
    rewrite Z.mul_0_l, Z.add_0_r, decide_True in E by done. exact E.
  - intros j Hj. pose proof (translate_video s Hwf d t (j + 1) o Ht H0 ltac:(lia) Ho) as E.
    rewrite decide_False, Z.add_simpl_r in E by lia. exact E.
  - unfold translate. replace ((PROG_VIDMEM_ADDR + o) `div` 4194304) with 33 by lia.
    rewrite H33. unfold present. rewrite (entry_flag _ 6 12); [done| |lia]. apply layout_user. lia.
  - apply translate_no_user. replace ((VIDEO + t * 4096 + o) `div` 4194304) with 0 by lia.
    rewrite H0. unfold user. rewrite (entry_flag _ 3 12); [done| |lia]. apply layout_vidmem. lia.
  - apply translate_user_video; [done|done| |done].
    unfold set_pde_flags. change (Z.shiftr PROG_VIDMEM_ADDR PDE_IDX_OFFS) with 33.
    rewrite tget_tset by (unfold d; rewrite ?length_pd_init by done; lia).
    rewrite decide_True, H33, <- Z.lor_assoc by done. done.
Qed.

Lemma vm_statics_wf : vm_wf vm_statics.
Proof. split; try reflexivity; repeat constructor. Qed.

Lemma terminal_video_pages_witness :
  translate (virtualmem_init vm_statics) (pd_init zero_table 2) false (VIDEO + 10)
    = Some (VIDEO + 2 * 4096 + 10) ∧
  translate (virtualmem_init vm_statics) (pd_init zero_table 2) true (PROG_VIDMEM_ADDR + 10) = None.
Proof.
  destruct (terminal_video_pages vm_statics zero_table 2 10) as (H1 & _ & H2 & _).
  - exact vm_statics_wf.
  - reflexivity.
  - lia.
  - lia.
  - split; [exact H1|exact H2].
Defined.

(** C27: the directory of process [pid] gives user mode the 4 MB at
    [PROG_VM_START] and nothing else, on a frame of the process's own: two
    processes never reach the same byte; the kernel's 4 MB are mapped to
    themselves and closed to user mode. *)
Theorem process_memory_isolated `{Layout} s pd pid t o :
  vm_wf s → length pd = 1024%nat → 1 ≤ pid ≤ MAX_PROCESSES → 0 ≤ t < 3 → 0 ≤ o < SPACE_4MB →
  let s' := virtualmem_init s in
  let d := process_pd pd pid t in
  translate s' d true (PROG_VM_START + o) = Some (KERNEL_MEM_END + (pid - 1) * SPACE_4MB + o) ∧
  translate s' d false (KERNEL_LOC + o) = Some (KERNEL_LOC + o) ∧
  (∀ va pa, word32 va → translate s' d true va = Some pa →
    PROG_VM_START ≤ va < PROG_VM_START + SPACE_4MB ∧
    KERNEL_MEM_END + (pid - 1) * SPACE_4MB ≤ pa < KERNEL_MEM_END + pid * SPACE_4MB) ∧
  (∀ pid' t' va va' pa, 1 ≤ pid' ≤ MAX_PROCESSES → pid' ≠ pid → 0 ≤ t' < 3 → word32 va →
    word32 va' → translate s' d true va = Some pa →
    translate s' (process_pd pd pid' t') true va' ≠ Some pa).
Proof.
  intros Hwf Hl Hp Ht Ho s' d. unfold SPACE_4MB, MAX_PROCESSES, KERNEL_MEM_END in *.
  assert (∀ p t0 va, 1 ≤ p ≤ 6 → 0 ≤ t0 < 3 → 0 ≤ va < 4194304 →
    translate s' (process_pd pd p t0) true (PROG_VM_START + va) = Some (0x800000 + (p - 1) * 4194304 + va)) as Hin.
  { intros p t0 va Hp' Ht' Hva. assert (PROG_VM_START = 0x8000000) as HP by reflexivity.
    rewrite (translate_large s' _ true _ (0x800000 + (p - 1) * 4194304) 0x87).
    - simpl. f_equal. lia.
    - replace ((PROG_VM_START + va) `div` 4194304) with 32 by lia.
      rewrite process_pd_entries by (done || lia). by rewrite decide_True.
    - lia.
    - lia.
    - done.
    - done. }
  assert (∀ p t0 va, 1 ≤ p ≤ 6 → 0 ≤ t0 < 3 → word32 va → va `div` 4194304 ≠ 32 →
    translate s' (process_pd pd p t0) true va = None) as Hno.
  { intros p t0 va Hp' Ht' Hva Hne.
    assert (tget (process_pd pd p t0) (va `div` 4194304) = tget (pd_init pd t0) (va `div` 4194304)) as He.
    { rewrite process_pd_entries by (done || lia). by rewrite decide_False. }
    rewrite (pd_init_entries _ _ _ Hl) in He by lia.
    destruct (decide (va `div` 4194304 = 0)); [|destruct (decide (va `div` 4194304 = 1));
      [|destruct (decide (va `div` 4194304 = 33))]].
    - apply translate_no_user. rewrite He. unfold user.
      rewrite (entry_flag _ 3 12); [done| |lia]. apply layout_vidmem. lia.
    - apply translate_no_user. by rewrite He.
    - unfold translate. rewrite He. unfold present.
      rewrite (entry_flag _ 6 12); [done| |lia]. apply layout_user. lia.
    - by apply translate_absent. }
  assert (∀ p t0 va pa, 1 ≤ p ≤ 6 → 0 ≤ t0 < 3 → word32 va →
    translate s' (process_pd pd p t0) true va = Some pa →
    0x8000000 ≤ va < 0x8400000 ∧ pa = 0x800000 + (p - 1) * 4194304 + (va - 0x8000000)) as Hall.
  { intros p t0 va pa Hp' Ht' Hva E. destruct (decide (va `div` 4194304 = 32)) as [Hd|Hd].
    - replace va with (PROG_VM_START + (va - 0x8000000)) in E by (unfold PROG_VM_START; lia).
      rewrite Hin in E by lia. apply some_inv in E. lia.
    - rewrite Hno in E by done. discriminate E. }
  split; [by apply Hin|]. split; [|split].
  - rewrite (translate_large s' d false _ 0x400000 0x83); unfold KERNEL_LOC; try done.
    + simpl. f_equal. lia.
    + replace ((0x400000 + o) `div` 4194304) with 1 by lia. unfold d.
      rewrite process_pd_entries by (done || lia). rewrite decide_False by done.
      by rewrite pd_init_entries.
  - intros va pa Hva E. apply Hall in E; [|lia..]. unfold PROG_VM_START. lia.
  - intros pid' t' va va' pa Hp' Hne Ht' Hva Hva' E1 E2.
    apply Hall in E1; [|lia..]. apply Hall in E2; [|lia..]. lia.
Qed.

Lemma process_memory_isolated_witness :
  translate (virtualmem_init vm_statics) (process_pd zero_table 3 1) true (PROG_VM_START + 0x48000)
    = Some (KERNEL_MEM_END + (3 - 1) * SPACE_4MB + 0x48000).
Proof.
  destruct (process_memory_isolated vm_statics zero_table 3 1 0x48000) as (E & _).
  - exact vm_statics_wf.
  - reflexivity.
  - unfold MAX_PROCESSES. lia.
  - lia.
  - unfold SPACE_4MB. lia.
  - exact E.
Defined.

(** [set_pde_flags] and [unset_pde_flags] turn exactly the given flags of
    exactly one directory entry on and off and keep its frame. *)
Lemma pde_flags_exact pd va f j i :
  length pd = 1024%nat → word32 va → 0 ≤ f < 4096 → 0 ≤ j < 1024 → 0 ≤ i →
  word32 (tget pd j) →
  let hit := bool_decide (j = va `div` 4194304) in
  Z.testbit (tget (set_pde_flags pd va f) j) i = Z.testbit (tget pd j) i || (hit && Z.testbit f i) ∧
  Z.testbit (tget (unset_pde_flags pd va f) j) i
    = Z.testbit (tget pd j) i && negb (hit && Z.testbit f i) ∧
  frame_of 4096 (tget (set_pde_flags pd va f) j) = frame_of 4096 (tget pd j).
Proof.
  intros Hl Hva Hf Hj Hi Hw hit. unfold set_pde_flags, unset_pde_flags, PDE_IDX_OFFS.
  rewrite Z.shiftr_div_pow2 by done. change (2 ^ 22) with 4194304.
  rewrite !tget_tset by lia. unfold hit.
  destruct (decide (va `div` 4194304 = j)) as [<-|Hne].
  2:{ rewrite bool_decide_eq_false_2 by congruence. simpl.
      by rewrite orb_false_r, andb_true_r. }
  rewrite bool_decide_eq_true_2 by done. simpl. set (e := tget pd _) in *.
  split; [apply Z.lor_spec|]. split.
  - rewrite Z.land_spec. destruct (decide (i < 32)).
    + unfold u32. change 4294967296 with (2 ^ 32). rewrite Z.mod_pow2_bits_low by done.
      by rewrite Z.lnot_spec.
    + rewrite (testbit_above e 32) by (change (2 ^ 32) with 4294967296; lia). done.
  - unfold frame_of. assert (∀ x, 0 ≤ x → x `div` 4096 = Z.shiftr x 12) as Hs.
    { intros x Hx. by rewrite Z.shiftr_div_pow2. }
    rewrite !Hs by (try apply Z.lor_nonneg; lia). rewrite Z.shiftr_lor.
    replace (Z.shiftr f 12) with 0; [by rewrite Z.lor_0_r|].
    rewrite Z.shiftr_div_pow2 by done. change (2 ^ 12) with 4096. lia.
Qed.
