(* ===== verification/Idt.v ===== *)
(** * x86_desc.h, idt_set.c, isr.c: descriptors and interrupt dispatch

    A descriptor is the record of bit fields the code assigns; [encode] packs
    it into the 64 bits the processor reads, and [gate_of] is what the
    processor makes of them.  The addresses of the assembly stubs are given by
    the linker. *)
From S2P Require Import Prelude.

Definition KERNEL_CS := 0x0010.
Definition KERNEL_DS := 0x0018.
Definition USER_CS := 0x0023.
Definition USER_DS := 0x002B.
Definition KERNEL_TSS := 0x0030.
Definition KERNEL_LDT := 0x0038.
Definition TSS_SIZE := 104.
Definition NUM_VEC := 256.
Definition NUM_IRQS := 16.

Record idt_desc_t := Desc {
  offset_15_00 : Z; seg_selector : Z; reserved4 : Z; reserved3 : Z; reserved2 : Z;
  reserved1 : Z; size : Z; reserved0 : Z; dpl : Z; present : Z; offset_31_16 : Z }.
#[export] Instance idt_desc_inhabited : Inhabited idt_desc_t :=
  populate (Desc 0 0 0 0 0 0 0 0 0 0 0).

(** [SET_IDT_ENTRY]. *)
Definition SET_IDT_ENTRY (str : idt_desc_t) (handler : Z) : idt_desc_t :=
  Desc (u16 (Z.land (u32 handler) 0xFFFF)) (seg_selector str) (reserved4 str) (reserved3 str)
    (reserved2 str) (reserved1 str) (size str) (reserved0 str) (dpl str) (present str)
    (u16 (Z.shiftr (Z.land (u32 handler) 0xFFFF0000) 16)).

(** The assignments that follow it in each setter, in the order of the
    fields: selector, [reserved0] to [reserved3], size, privilege, present. *)
Definition set_fields (d : idt_desc_t) (sel r0 r1 r2 r3 sz dp : Z) : idt_desc_t :=
  Desc (offset_15_00 d) sel (reserved4 d) r3 r2 r1 sz r0 dp 1 (offset_31_16 d).

Definition set_int_gate_desc (d : idt_desc_t) (addr : Z) : idt_desc_t :=
  set_fields (SET_IDT_ENTRY d addr) KERNEL_CS 0 1 1 0 1 0.
Definition set_sys_gate_desc (d : idt_desc_t) (addr : Z) : idt_desc_t :=
  set_fields (SET_IDT_ENTRY d addr) KERNEL_CS 0 1 1 1 1 3.
Definition set_sys_int_gate_desc (d : idt_desc_t) (addr : Z) : idt_desc_t :=
  set_fields (SET_IDT_ENTRY d addr) KERNEL_CS 0 1 1 1 1 3.
Definition set_trap_gate_desc (d : idt_desc_t) (addr : Z) : idt_desc_t :=
  set_fields (SET_IDT_ENTRY d addr) KERNEL_CS 0 1 1 0 1 0.
(** The task gate does not set the size. *)
Definition set_task_gate_desc (d : idt_desc_t) (gdt : Z) : idt_desc_t :=
  let d := SET_IDT_ENTRY d 0 in set_fields d (Z.land gdt 0xFFFF) 0 0 1 1 (size d) 3.

Abbreviation idt_t := (list idt_desc_t).
Definition idt_update (f : idt_desc_t → Z → idt_desc_t) (n addr : Z) (idt : idt_t) : idt_t :=
  <[Z.to_nat n := f (idt !!! Z.to_nat n) addr]> idt.
Definition set_int_gate := idt_update set_int_gate_desc.
Definition set_sys_gate := idt_update set_sys_gate_desc.
Definition set_sys_int_gate := idt_update set_sys_int_gate_desc.
Definition set_trap_gate := idt_update set_trap_gate_desc.
Definition set_task_gate := idt_update set_task_gate_desc.

(** The assembly entry points, and the C handlers [irq_table] can hold. *)
Inductive stub := Isr (n : Z) | Irq (n : Z) | Handle_syscall.
Inductive gate_kind := IntGate | SysGate | SysIntGate | TrapGate.
Inductive irq_handler := irq_handler_default | pit_handler | keyboard_handler | rtc_handler.
#[export] Instance stub_eq_dec : EqDecision stub.
Proof. solve_decision. Defined.
#[export] Instance gate_kind_eq_dec : EqDecision gate_kind.
Proof. solve_decision. Defined.
#[export] Instance irq_handler_inhabited : Inhabited irq_handler := populate irq_handler_default.

Definition set_gate (k : gate_kind) : Z → Z → idt_t → idt_t :=
  match k with
  | IntGate => set_int_gate | SysGate => set_sys_gate
  | SysIntGate => set_sys_int_gate | TrapGate => set_trap_gate
  end.

(** The calls of [isrs_install], in order. *)
Definition install_calls : list (gate_kind * Z * stub) :=
  [(TrapGate, 0, Isr 0); (TrapGate, 1, Isr 1); (IntGate, 2, Isr 2);
   (SysIntGate, 3, Isr 3); (SysGate, 4, Isr 4); (SysGate, 5, Isr 5);
   (TrapGate, 6, Isr 6); (TrapGate, 7, Isr 7); (TrapGate, 8, Isr 8);
   (TrapGate, 9, Isr 9); (TrapGate, 10, Isr 10); (TrapGate, 11, Isr 11);
   (TrapGate, 12, Isr 12); (TrapGate, 13, Isr 13); (IntGate, 14, Isr 14);
   (TrapGate, 15, Isr 15); (TrapGate, 16, Isr 16); (TrapGate, 17, Isr 17);
   (TrapGate, 18, Isr 18); (TrapGate, 19, Isr 19); (TrapGate, 20, Isr 20);
   (TrapGate, 21, Isr 21); (TrapGate, 22, Isr 22); (TrapGate, 23, Isr 23);
   (TrapGate, 24, Isr 24); (TrapGate, 25, Isr 25); (TrapGate, 26, Isr 26);
   (TrapGate, 27, Isr 27); (TrapGate, 28, Isr 28); (TrapGate, 29, Isr 29);
   (TrapGate, 30, Isr 30); (TrapGate, 31, Isr 31); (SysGate, 0x80, Handle_syscall);
   (IntGate, 32, Irq 0); (IntGate, 33, Irq 1); (IntGate, 34, Irq 2);
   (IntGate, 35, Irq 3); (IntGate, 36, Irq 4); (IntGate, 37, Irq 5);
   (IntGate, 38, Irq 6); (IntGate, 39, Irq 7); (IntGate, 40, Irq 8);
   (IntGate, 41, Irq 9); (IntGate, 42, Irq 10); (IntGate, 43, Irq 11);
   (IntGate, 44, Irq 12); (IntGate, 45, Irq 13); (IntGate, 46, Irq 14);
   (IntGate, 47, Irq 15)].

Section install.
Context (stub_addr : stub → Z).

(** The calls one after the other. *)
Definition install_all (calls : list (gate_kind * Z * stub)) (idt : idt_t) : idt_t :=
  foldl (λ idt '(k, n, s), set_gate k n (stub_addr s) idt) idt calls.

Definition isrs_install (idt : idt_t) (irq_table : list irq_handler) : idt_t * list irq_handler :=
  let idt := install_all install_calls idt in
  let irq_table := for_z 0 NUM_IRQS (λ i t, <[Z.to_nat i := irq_handler_default]> t) irq_table in
  (idt, irq_table).
End install.

Definition add_irq (irq : Z) (h : irq_handler) (irq_table : list irq_handler) : list irq_handler :=
  if (irq <? 0) || (irq >=? NUM_IRQS) then irq_table else <[Z.to_nat irq := h]> irq_table.

(** ** What the processor reads *)

Definition encode (d : idt_desc_t) : Z :=
  offset_15_00 d + 2 ^ 16 * seg_selector d + 2 ^ 32 * reserved4 d + 2 ^ 40 * reserved3 d
  + 2 ^ 41 * reserved2 d + 2 ^ 42 * reserved1 d + 2 ^ 43 * size d + 2 ^ 44 * reserved0 d
  + 2 ^ 45 * dpl d + 2 ^ 47 * present d + 2 ^ 48 * offset_31_16 d.

(** [g_type] 14 is an interrupt gate (it masks interrupts), 15 a trap gate, 5
    a task gate; [g_dpl] is the least privilege that may use [int n]. *)
Record gate := Gate { g_offset : Z; g_selector : Z; g_type : Z; g_dpl : Z; g_present : bool }.
Definition gate_of (w : Z) : gate :=
  Gate (w `mod` 2 ^ 16 + 2 ^ 16 * ((w `div` 2 ^ 48) `mod` 2 ^ 16)) ((w `div` 2 ^ 16) `mod` 2 ^ 16)
    ((w `div` 2 ^ 40) `mod` 16) ((w `div` 2 ^ 45) `mod` 4) (bool_decide ((w `div` 2 ^ 47) `mod` 2 = 1)).

Definition user_may_call (g : gate) : bool := g_present g && (g_dpl g =? 3).
Definition masks_interrupts (g : gate) : bool := g_type g =? 14.

(** ** Lemmas *)

(** Fields of the widths the structure declares. *)
Definition desc_ok (d : idt_desc_t) : Prop :=
  word16 (offset_15_00 d) ∧ word16 (seg_selector d) ∧ word8 (reserved4 d) ∧ 0 ≤ reserved3 d < 2 ∧
  0 ≤ reserved2 d < 2 ∧ 0 ≤ reserved1 d < 2 ∧ 0 ≤ size d < 2 ∧ 0 ≤ reserved0 d < 2 ∧
  0 ≤ dpl d < 4 ∧ 0 ≤ present d < 2 ∧ word16 (offset_31_16 d).

Lemma gate_of_encode d :
  desc_ok d →
  gate_of (encode d) =
    Gate (offset_15_00 d + 65536 * offset_31_16 d) (seg_selector d)
      (reserved3 d + 2 * reserved2 d + 4 * reserved1 d + 8 * size d) (dpl d)
      (bool_decide (present d = 1)).
Proof.
  destruct d as [a b c d e f g h i j k]. unfold desc_ok, gate_of, encode. simpl.
  intros (?&?&?&?&?&?&?&?&?&?&?). f_equal; try lia. apply bool_decide_ext. lia.
Qed.

Lemma set_entry_offset d handler :
  let d' := SET_IDT_ENTRY d handler in
  word16 (offset_15_00 d') ∧ word16 (offset_31_16 d') ∧
  offset_15_00 d' + 65536 * offset_31_16 d' = u32 handler.
Proof.
  cbv zeta. pose proof (u32_range handler) as Hr. unfold SET_IDT_ENTRY.
  cbn [offset_15_00 offset_31_16]. split; [apply u16_range|]. split; [apply u16_range|].
  change 0xFFFF with (2 ^ 16 - 1). change 0xFFFF0000 with (2 ^ 32 - 2 ^ 16).
  rewrite land_low, land_high, Z.shiftr_div_pow2 by lia.
  change (2 ^ 16) with 65536. word.
Qed.

(** The gate a setter makes, from the fields it assigns. *)
Lemma gate_of_set d addr sel r0 r1 r2 r3 sz dp :
  word8 (reserved4 d) → word16 sel → 0 ≤ r0 < 2 → 0 ≤ r1 < 2 → 0 ≤ r2 < 2 → 0 ≤ r3 < 2 →
  0 ≤ sz < 2 → 0 ≤ dp < 4 →
  gate_of (encode (set_fields (SET_IDT_ENTRY d addr) sel r0 r1 r2 r3 sz dp))
  = Gate (u32 addr) sel (r3 + 2 * r2 + 4 * r1 + 8 * sz) dp true.
Proof.
  destruct (set_entry_offset d addr) as (H1 & H2 & H3). intros.
  rewrite gate_of_encode.
  - unfold set_fields. cbn [offset_15_00 offset_31_16 seg_selector reserved3 reserved2 reserved1
      size dpl present]. by rewrite H3.
  - unfold desc_ok, set_fields. unfold SET_IDT_ENTRY in *.
    cbn [offset_15_00 offset_31_16 seg_selector reserved4 reserved3
      reserved2 reserved1 reserved0 size dpl present] in *. repeat split; lia.
Qed.

(** The type and privilege each kind of gate really gets. *)
Definition kind_type (k : gate_kind) : Z :=
  match k with IntGate | TrapGate => 14 | SysGate | SysIntGate => 15 end.
Definition kind_dpl (k : gate_kind) : Z :=
  match k with IntGate | TrapGate => 0 | SysGate | SysIntGate => 3 end.

Lemma set_gate_lookup k n addr idt :
  0 ≤ n < Z.of_nat (length idt) → word8 (reserved4 (idt !!! Z.to_nat n)) →
  gate_of (encode (set_gate k n addr idt !!! Z.to_nat n))
  = Gate (u32 addr) KERNEL_CS (kind_type k) (kind_dpl k) true.
Proof.
  intros Hn Hr. destruct k; unfold set_gate, set_int_gate, set_sys_gate, set_sys_int_gate,
    set_trap_gate, idt_update; rewrite list_lookup_total_insert_eq by lia;
    apply gate_of_set; done || (unfold KERNEL_CS; lia).
Qed.

Lemma set_gate_other k n addr idt m :
  m ≠ Z.to_nat n → set_gate k n addr idt !!! m = idt !!! m.
Proof.
  intros Hm. destruct k; unfold set_gate, set_int_gate, set_sys_gate, set_sys_int_gate,
    set_trap_gate, idt_update; by apply list_lookup_total_insert_ne.
Qed.
Lemma length_set_gate k n addr idt : length (set_gate k n addr idt) = length idt.
Proof. destruct k; apply length_insert. Qed.
Lemma reserved4_set_gate k n addr idt m :
  reserved4 (set_gate k n addr idt !!! m) = reserved4 (idt !!! m).
Proof.
  destruct (decide (m = Z.to_nat n)) as [->|Hne]; [|by rewrite set_gate_other].
  destruct (decide (Z.to_nat n < length idt)%nat).
  - destruct k; unfold set_gate, set_int_gate, set_sys_gate, set_sys_int_gate,
      set_trap_gate, idt_update; by rewrite list_lookup_total_insert_eq.
  - destruct k; unfold set_gate, set_int_gate, set_sys_gate, set_sys_int_gate,
      set_trap_gate, idt_update; by rewrite list_insert_ge by lia.
Qed.

Section installed.
Context (stub_addr : stub → Z).

Lemma install_all_other calls idt m :
  (∀ k n s, (k, n, s) ∈ calls → m ≠ Z.to_nat n) → install_all stub_addr calls idt !!! m = idt !!! m.
Proof.
  revert idt. induction calls as [|[[k n] s] calls IH]; intros idt Hm; [done|]. simpl.
  rewrite IH by (intros; eapply Hm; by right). apply set_gate_other. eapply Hm. by left.
Qed.

(** Distinct vectors: each call's gate survives the later ones. *)
Lemma install_all_lookup calls idt k n s :
  NoDup ((λ c : gate_kind * Z * stub, c.1.2) <$> calls) →
  (∀ k n s, (k, n, s) ∈ calls → 0 ≤ n < Z.of_nat (length idt)) →
  (∀ m, word8 (reserved4 (idt !!! m))) →
  (k, n, s) ∈ calls →
  gate_of (encode (install_all stub_addr calls idt !!! Z.to_nat n))
  = Gate (u32 (stub_addr s)) KERNEL_CS (kind_type k) (kind_dpl k) true.
Proof.
  revert idt. induction calls as [|[[k0 n0] s0] calls IH]; intros idt Hnd Hn Hr Hin.
  { by apply not_elem_of_nil in Hin. }
  simpl in *. apply NoDup_cons in Hnd as [Hnot Hnd]. apply elem_of_cons in Hin as [E|Hin].
  - assert (k = k0 ∧ n = n0 ∧ s = s0) as (-> & -> & ->) by (by simplify_eq).
    pose proof (Hn k0 n0 s0 (list_elem_of_here _ _)) as Hn0.
    rewrite install_all_other; [by apply set_gate_lookup|].
    intros k n s Hc E'. apply Hnot. apply list_elem_of_fmap. exists (k, n, s). split; [|done].
    simpl. pose proof (Hn k n s (list_elem_of_further _ _ _ Hc)). lia.
  - apply IH; [done| | |done].
    + intros k' n' s' Hc. rewrite length_set_gate. eapply Hn. by right.
    + intros m. by rewrite reserved4_set_gate.
Qed.
End installed.

(** ** Properties *)

(** After [isrs_install] the processor enters, for each exception, device
    interrupt and system call vector, exactly that vector's stub in the kernel
    code segment; user mode can call only vectors 3, 4, 5 and 0x80, every
    device interrupt runs with interrupts masked and the system call with
    interrupts as they were; all sixteen IRQs have the default handler. *)
Lemma isrs_install_vectors stub_addr idt tbl :
  length idt = 256%nat → length tbl = 16%nat → (∀ m, word8 (reserved4 (idt !!! m))) →
  (∀ s, word32 (stub_addr s)) →
  let '(idt', tbl') := isrs_install stub_addr idt tbl in
  let g n := gate_of (encode (idt' !!! Z.to_nat n)) in
  (∀ n, 0 ≤ n < 32 → g_offset (g n) = stub_addr (Isr n) ∧ g_selector (g n) = KERNEL_CS ∧
    g_present (g n) = true ∧ user_may_call (g n) = bool_decide (3 ≤ n ≤ 5)) ∧
  (∀ n, 0 ≤ n < 16 → g (32 + n) = Gate (stub_addr (Irq n)) KERNEL_CS 14 0 true) ∧
  g 0x80 = Gate (stub_addr Handle_syscall) KERNEL_CS 15 3 true ∧
  (∀ n, 48 ≤ n < 256 → n ≠ 0x80 → idt' !!! Z.to_nat n = idt !!! Z.to_nat n) ∧
  tbl' = replicate 16 irq_handler_default.
Proof.
  intros Hl Ht Hr Ha. unfold isrs_install. cbv zeta.
  assert (NoDup ((λ c : gate_kind * Z * stub, c.1.2) <$> install_calls)) as Hnd
    by vm_decide.
  assert (∀ k n s, (k, n, s) ∈ install_calls → 0 ≤ n < Z.of_nat (length idt)) as Hn.
  { rewrite Hl. assert (Forall (λ c : gate_kind * Z * stub, 0 ≤ c.1.2 < Z.of_nat 256) install_calls) as Hf
      by vm_decide.
    rewrite Forall_forall in Hf. intros k n s Hc. by apply (Hf (k, n, s)). }
  pose proof (λ k n s Hin, install_all_lookup stub_addr install_calls idt k n s Hnd Hn Hr Hin) as Hg.
  split; [|split; [|split; [|split]]].
  - intros n Hb. assert (Forall (λ n, Exists (λ k, (k, n, Isr n) ∈ install_calls ∧
      (kind_dpl k =? 3) = bool_decide (3 ≤ n ≤ 5)) [IntGate; SysGate; SysIntGate; TrapGate])
      (seqZ 0 32)) as Hf by vm_decide.
    rewrite Forall_forall in Hf. specialize (Hf n). rewrite elem_of_seqZ in Hf.
    specialize (Hf ltac:(lia)). apply Exists_exists in Hf as (k & _ & Hk & Hd).
    rewrite (Hg _ _ _ Hk), u32_small by apply Ha. unfold user_may_call.
    cbn [g_offset g_selector g_present g_dpl andb]. by rewrite Hd.
  - intros n Hb. assert (Forall (λ n, (IntGate, 32 + n, Irq n) ∈ install_calls) (seqZ 0 16)) as Hf
      by vm_decide.
    rewrite Forall_forall in Hf. specialize (Hf n). rewrite elem_of_seqZ in Hf.
    rewrite (Hg _ _ _ (Hf ltac:(lia))), u32_small by apply Ha. done.
  - assert ((SysGate, 0x80, Handle_syscall) ∈ install_calls) as Hin
      by vm_decide.
    rewrite (Hg _ _ _ Hin), u32_small by apply Ha. done.
  - intros n Hb Hne. apply install_all_other. intros k n' s Hin.
    assert (Forall (λ c : gate_kind * Z * stub, 0 ≤ c.1.2 < 48 ∨ c.1.2 = 0x80) install_calls) as Hf
      by vm_decide.
    rewrite Forall_forall in Hf. specialize (Hf _ Hin). simpl in Hf. lia.
  - unfold NUM_IRQS. change 16 with (Z.of_nat 16). by apply for_z_fill_list.
Qed.

Definition sample_stub (s : stub) : Z :=
  match s with Isr n => 0x400000 + 16 * (n `mod` 32) | Irq n => 0x401000 + 16 * (n `mod` 32)
  | Handle_syscall => 0x402000 end.

Definition sample_idt : idt_t := replicate 256 inhabitant.
Definition sample_irqs : list irq_handler := replicate 16 inhabitant.

Lemma isrs_install_vectors_witness :
  let '(idt', tbl') := isrs_install sample_stub sample_idt sample_irqs in
  gate_of (encode (idt' !!! Z.to_nat 0x80)) = Gate 0x402000 KERNEL_CS 15 3 true.
Proof.
  pose proof (isrs_install_vectors sample_stub sample_idt sample_irqs eq_refl eq_refl) as H.
  destruct (isrs_install _ _ _) as [idt' tbl']. destruct H as (_ & _ & H & _).
  - intros m. destruct (sample_idt !! m) as [d|] eqn:E.
    + rewrite (list_lookup_total_correct _ _ _ E). apply lookup_replicate in E as [-> _]. simpl. lia.
    + rewrite list_lookup_total_alt, E. simpl. lia.
  - intros [n|n|]; simpl; lia.
  - exact H.
Defined.

(** Whatever the descriptor held, each setter makes a present gate to the
    given address; [set_trap_gate] makes an interrupt gate (type 14) and
    [set_sys_int_gate] a trap gate (type 15), the opposite of their names;
    [set_task_gate] leaves the size bit alone and sets the type's low bits to
    3, which is no task gate. *)
Lemma gate_setters d addr gdt :
  desc_ok d → word32 addr →
  let g f := gate_of (encode (f d addr)) in
  g set_int_gate_desc = Gate addr KERNEL_CS 14 0 true ∧
  g set_trap_gate_desc = Gate addr KERNEL_CS 14 0 true ∧
  g set_sys_gate_desc = Gate addr KERNEL_CS 15 3 true ∧
  g set_sys_int_gate_desc = Gate addr KERNEL_CS 15 3 true ∧
  gate_of (encode (set_task_gate_desc d gdt)) = Gate 0 (u16 gdt) (3 + 8 * size d) 3 true.
Proof.
  intros (_ & _ & H4 & _ & _ & _ & Hs & _) Ha. cbv zeta.
  assert (word16 KERNEL_CS) by (unfold KERNEL_CS; lia).
  unfold set_int_gate_desc, set_trap_gate_desc, set_sys_gate_desc, set_sys_int_gate_desc,
    set_task_gate_desc.
  rewrite !gate_of_set, u32_small by (done || lia).
  split; [done|]. split; [done|]. split; [done|]. split; [done|].
  change 0xFFFF with (2 ^ 16 - 1). rewrite land_low by done. change (2 ^ 16) with 65536.
  rewrite gate_of_set; try done; simpl; lia.
Qed.

(** [add_irq] replaces the handler of exactly one IRQ and ignores numbers
    that are none. *)
Lemma add_irq_exact irq h tbl j :
  length tbl = 16%nat → 0 ≤ j < 16 →
  add_irq irq h tbl !!! Z.to_nat j = (if decide (j = irq) then h else tbl !!! Z.to_nat j) ∧
  length (add_irq irq h tbl) = 16%nat ∧
  (¬ (0 ≤ irq < 16) → add_irq irq h tbl = tbl).
Proof.
  intros Hl Hj. unfold add_irq, NUM_IRQS.
  destruct (Z.ltb_spec irq 0); [case_decide; [lia|]; auto|].
  destruct (Z.geb_spec irq 16); [case_decide; [lia|]; auto|]. simpl. rewrite length_insert.
  split; [|split; [done|lia]]. case_decide.
  - subst. apply list_lookup_total_insert_eq. lia.
  - apply list_lookup_total_insert_ne. lia.
Qed.
