(* ===== verification/Rtc.v ===== *)
(** * devices/rtc.c: the virtualised real-time clock

    Every process reads the clock at a rate of its own; the hardware runs at
    the fastest one and a process waits for [max_count] interrupts.  The
    driver runs on any [Board]; [pid] is the caller's [pcb->pid]. *)
From S2P Require Import Prelude CMem Ports I8259 Process Idt.

Definition RTC_IRQ_NUM := 8.
Definition RTC_REG_PORT := 0x70.
Definition RW_CMOS_PORT := 0x71.
Definition NMI_DISABLE := 0x80.
Definition REG_A := 0xA.
Definition REG_B := 0xB.
Definition REG_C := 0xC.
Definition INT_FLAG := 0x40.
Definition RATE_DEFAULT := 0xF.
Definition RATE_MIN := 2.
Definition RATE_MAX := 1024.
Definition RTC_ABS_MAX := 32768.

Record rtc_process := RtcProcess { rate : Z; curr_count : Z; max_count : Z }.
#[export] Instance rtc_process_inhabited : Inhabited rtc_process := populate (RtcProcess 0 0 0).

(** The statics: [rtc_rate], [open] and [procs]. *)
Record rtc_state := Rtc { rtc_rate : Z; rtc_users : Z; rtc_procs : list rtc_process }.
Definition rtc_statics : rtc_state := Rtc 0 0 (replicate 6 (RtcProcess 0 0 0)).

Definition set_rate_field (r : Z) (p : rtc_process) : rtc_process :=
  RtcProcess r (curr_count p) (max_count p).
Definition set_curr_count (c : Z) (p : rtc_process) : rtc_process :=
  RtcProcess (rate p) c (max_count p).
Definition set_max_count (c : Z) (p : rtc_process) : rtc_process :=
  RtcProcess (rate p) (curr_count p) c.
Definition upd_proc (pid : Z) (f : rtc_process → rtc_process) (l : list rtc_process) :=
  <[Z.to_nat (pid - 1) := f (l !!! Z.to_nat (pid - 1))]> l.

Definition rtc_init (irqs : list irq_handler) (ps : proc_state) (s : rtc_state)
    : list irq_handler * proc_state * rtc_state :=
  let irqs := add_irq RTC_IRQ_NUM rtc_handler irqs in
  let ps := (add_device RTC_FTYPE rtc_fops ps).2 in
  (irqs, ps, Rtc (rtc_rate s) (rtc_users s) (set_rate_field RATE_MIN <$> rtc_procs s)).

Definition update_rtc_processes (s : rtc_state) : rtc_state :=
  Rtc (rtc_rate s) (rtc_users s)
    ((λ p, set_max_count (s32 (Z.quot (rtc_rate s) (rate p))) p) <$> rtc_procs s).

(** [while(ratefactor >>= 1) rs++]: a positive 32-bit factor is zero after 31
    shifts. *)
Fixpoint rs_loop (fuel : nat) (ratefactor rs : Z) : Z :=
  match fuel with
  | O => rs
  | S fuel =>
      let ratefactor := Z.shiftr ratefactor 1 in
      if ratefactor =? 0 then rs else rs_loop fuel ratefactor (u8 (rs + 1))
  end.

Section rtc.
Context {D : Type} `{Board D}.

(** Select a register, read it, select it again, write it back changed. *)
Definition rmw_register (reg : Z) (f : Z → Z) (d : D) : D :=
  let d := outb (Z.lor NMI_DISABLE reg) RTC_REG_PORT d in
  let '(curr, d) := inb RW_CMOS_PORT d in
  let d := outb (Z.lor NMI_DISABLE reg) RTC_REG_PORT d in
  outb (f curr) RW_CMOS_PORT d.

Definition rtc_handler_main (s : rtc_state) (d : D) : rtc_state * D :=
  let d := send_eoi RTC_IRQ_NUM d in
  let d := outb REG_C RTC_REG_PORT d in
  let d := (inb RW_CMOS_PORT d).2 in
  (Rtc (rtc_rate s) (rtc_users s)
     ((λ p, set_curr_count (s32 (curr_count p - 1)) p) <$> rtc_procs s), d).

Definition rtc_open (s : rtc_state) (d : D) : Z * rtc_state * D :=
  if rtc_users s =? 0 then
    let d := cli d in
    let d := rmw_register REG_B (λ curr, Z.lor curr INT_FLAG) d in
    let d := rmw_register REG_A (λ curr, Z.lor (Z.land curr 0xF0) RATE_DEFAULT) d in
    let d := sti d in
    let d := enable_irq RTC_IRQ_NUM d in
    (0, Rtc RATE_MIN (s32 (rtc_users s + 1)) (rtc_procs s), d)
  else (0, Rtc (rtc_rate s) (s32 (rtc_users s + 1)) (rtc_procs s), d).

(** [rtc_read] up to the loop, and the condition under which the loop ends;
    the interrupt handler runs in between. *)
Definition rtc_read_begin (pid : Z) (s : rtc_state) : rtc_state :=
  Rtc (rtc_rate s) (rtc_users s)
    (upd_proc pid (λ p, set_curr_count (max_count p) p) (rtc_procs s)).
Definition rtc_read_done (pid : Z) (s : rtc_state) : bool :=
  negb (curr_count (rtc_procs s !!! Z.to_nat (pid - 1)) >? 0).

Definition set_rate (rate : Z) (d : D) : D :=
  let ratefactor := Z.quot RTC_ABS_MAX rate in
  let rs := rs_loop 32 ratefactor 0 in
  let rs := u8 (rs + 1) in
  let d := cli d in
  let d := rmw_register REG_A (λ curr, Z.lor (Z.land curr 0xF0) rs) d in
  sti d.

Definition rtc_write (m : mem) (buf pid : Z) (s : rtc_state) (d : D) : Z * rtc_state * D :=
  if buf =? 0 then (-1, s, d)
  else
    let rate := loads32 m buf in
    if (rate =? 0) || (rate >? RATE_MAX) then (-1, s, d)
    else if negb (Z.land rate (s32 (rate - 1)) =? 0) then (-1, s, d)
    else
      let procs := upd_proc pid (λ p,
        set_max_count (s32 (Z.quot (rtc_rate s) rate)) (set_rate_field rate p)) (rtc_procs s) in
      if rate >? rtc_rate s then
        let d := set_rate rate d in
        (1, update_rtc_processes (Rtc rate (rtc_users s) procs), d)
      else (1, Rtc (rtc_rate s) (rtc_users s) procs, d).

Definition rtc_close (pid : Z) (s : rtc_state) (d : D) : Z * rtc_state * D :=
  let procs := upd_proc pid (set_rate_field RATE_MIN) (rtc_procs s) in
  let users := s32 (rtc_users s - 1) in
  if users =? 0 then
    let d := disable_irq RTC_IRQ_NUM d in
    let d := cli d in
    let d := rmw_register REG_B (λ curr, Z.land curr (Z.lnot INT_FLAG)) d in
    let d := sti d in
    (0, Rtc (rtc_rate s) users procs, d)
  else
    let rate := foldl (λ r p, if rate p >? r then rate p else r) RATE_MIN procs in
    (0, update_rtc_processes (Rtc rate users procs), d).

End rtc.

(** ** Specification *)

(** The frequency the rate-select bits of register A stand for. *)
Definition hw_rate (h : hw) : Z := Z.shiftr RTC_ABS_MAX (Z.land (cmos_reg h REG_A) 15 - 1).

Definition proc_of (s : rtc_state) (pid : Z) : rtc_process := rtc_procs s !!! Z.to_nat (pid - 1).

(** While the clock is open: all rates are powers of two, the hardware runs at
    [rtc_rate] and no process asked for more. *)
Definition rtc_inv (s : rtc_state) (h : hw) : Prop :=
  ∃ k, 1 ≤ k ≤ 10 ∧ rtc_rate s = 2 ^ k ∧ hw_rate h = 2 ^ k ∧ length (rtc_procs s) = 6%nat ∧
    Forall (λ p, ∃ j, 0 ≤ j ≤ k ∧ rate p = 2 ^ j) (rtc_procs s).

(** The process waits for its own period: [max_count] interrupts at
    [rtc_rate]. *)
Definition in_sync (s : rtc_state) (pid : Z) : Prop :=
  max_count (proc_of s pid) * rate (proc_of s pid) = rtc_rate s.

(** ** Lemmas *)

Section lemmas.
Context {D : Type} `{Board D}.

Lemma rmw_register_spec reg f d :
  0 ≤ reg < 128 →
  let h := obs d in
  let h' := obs (rmw_register reg f d) in
  cmos h' = <[reg := u8 (f (u8 (cmos_reg h reg)))]> (cmos h) ∧ hw_if h' = hw_if h ∧
  hw_master h' = hw_master h ∧ hw_slave h' = hw_slave h.
Proof.
  intros Hr. cbv zeta. unfold rmw_register, RTC_REG_PORT, RW_CMOS_PORT, NMI_DISABLE.
  assert (Z.land (u8 (Z.lor 128 reg)) 127 = reg) as Hsel.
  { apply Z.bits_inj'. intros i Hi. change 127 with (Z.ones 7). change 128 with (2 ^ 7).
    rewrite Z.land_spec, u8_testbit, Z.lor_spec, testbit_pow2_spec by done.
    destruct (decide (i < 7)).
    - rewrite Z.ones_spec_low by lia. rewrite !bool_decide_eq_true_2, bool_decide_eq_false_2 by lia.
      by rewrite andb_true_r.
    - rewrite Z.ones_spec_high by lia. rewrite andb_false_r. symmetry.
      apply (testbit_above reg 7); [change (2 ^ 7) with 128; lia|lia]. }
  set (d1 := outb (Z.lor 128 reg) 112 d).
  assert ((inb 113 d1).1 = u8 (cmos_reg (obs d) reg)) as Hv.
  { apply obs_inb. unfold hw_in. simpl. unfold d1, cmos_reg. hw_step. by rewrite Hsel. }
  pose proof (obs_inb_state 113 d1) as Hd. destruct (inb 113 d1) as [v d2]. simpl in Hv, Hd.
  hw_step. rewrite Hd. unfold d1. hw_step. rewrite Hsel, Hv. done.
Qed.

Lemma rs_loop_log n : 0 ≤ n ≤ 15 → rs_loop 32 (2 ^ n) 0 = n.
Proof.
  intros Hn. assert (Forall (λ n, rs_loop 32 (2 ^ n) 0 = n) (seqZ 0 16)) as Hf by vm_decide.
  rewrite Forall_forall in Hf. apply Hf, elem_of_seqZ. lia.
Qed.

Lemma set_rate_spec j d :
  1 ≤ j ≤ 10 →
  hw_rate (obs (set_rate (2 ^ j) d)) = 2 ^ j ∧ hw_if (obs (set_rate (2 ^ j) d)) = true.
Proof.
  intros Hj. unfold set_rate, RTC_ABS_MAX. change 32768 with (2 ^ 15).
  assert (Z.quot (2 ^ 15) (2 ^ j) = 2 ^ (15 - j)) as ->.
  { rewrite Z.quot_div_nonneg, <- Z.pow_sub_r by lia. done. }
  rewrite rs_loop_log by lia. rewrite (u8_small (15 - j + 1)) by lia.
  rewrite obs_sti. split; [|done]. unfold hw_rate, hw_set_if. unfold cmos_reg. cbn [cmos].
  destruct (rmw_register_spec REG_A (λ curr, Z.lor (Z.land curr 240) (15 - j + 1)) (cli d)) as (-> & _);
    [unfold REG_A; lia|].
  rewrite lookup_insert_eq. simpl default. generalize (u8 (cmos_reg (obs (cli d)) REG_A)). intros v.
  assert (Z.land (u8 (Z.lor (Z.land v 240) (15 - j + 1))) 15 = 16 - j) as ->.
  { apply Z.bits_inj'. intros i Hi. change 15 with (Z.ones 4) at 2.
    rewrite Z.land_spec, u8_testbit, Z.lor_spec, Z.land_spec.
    replace (15 - j + 1) with (16 - j) by lia.
    destruct (decide (i < 4)).
    - rewrite Z.ones_spec_low, bool_decide_eq_true_2 by lia. rewrite andb_true_r. simpl.
      replace (Z.testbit 240 i) with false; [by rewrite andb_false_r|].
      assert (i = 0 ∨ i = 1 ∨ i = 2 ∨ i = 3) as Hc by lia. by destruct_or! Hc; subst.
    - rewrite Z.ones_spec_high by lia. rewrite andb_false_r. symmetry.
      apply (testbit_above (16 - j) 4); [change (2 ^ 4) with 16; lia|lia]. }
  change RTC_ABS_MAX with (2 ^ 15). rewrite Z.shiftr_div_pow2, <- Z.pow_sub_r by lia. f_equal. lia.
Qed.
End lemmas.

Lemma length_upd_proc pid f l : length (upd_proc pid f l) = length l.
Proof. apply length_insert. Qed.
Lemma upd_proc_lookup pid q f l :
  1 ≤ pid ≤ Z.of_nat (length l) → 1 ≤ q →
  upd_proc pid f l !!! Z.to_nat (q - 1)
  = if decide (q = pid) then f (l !!! Z.to_nat (pid - 1)) else l !!! Z.to_nat (q - 1).
Proof.
  intros Hp Hq. unfold upd_proc. case_decide as E.
  - subst. apply list_lookup_total_insert_eq. lia.
  - apply list_lookup_total_insert_ne. lia.
Qed.

(** Powers of two divide each other. *)
Lemma quot_pow2 k j : 0 ≤ j ≤ k → k ≤ 10 → s32 (Z.quot (2 ^ k) (2 ^ j)) * 2 ^ j = 2 ^ k.
Proof.
  intros Hj Hk. rewrite Z.quot_div_nonneg, <- Z.pow_sub_r by lia.
  assert (0 < 2 ^ (k - j) ≤ 2 ^ 10) as Hr.
  { split; [apply Z.pow_pos_nonneg; lia|apply Z.pow_le_mono_r; lia]. }
  rewrite s32_small by (change (2 ^ 10) with 1024 in Hr; lia).
  rewrite <- Z.pow_add_r by lia. f_equal. lia.
Qed.

Lemma power_of_two_test r :
  1 ≤ r ≤ 1024 → Z.land r (r - 1) = 0 ↔ ∃ j, 0 ≤ j ≤ 10 ∧ r = 2 ^ j.
Proof.
  intros Hr. assert (Forall (λ r, bool_decide (Z.land r (r - 1) = 0)
    = bool_decide (r ∈ [1; 2; 4; 8; 16; 32; 64; 128; 256; 512; 1024])) (seqZ 1 1024)) as Hf by vm_decide.
  rewrite Forall_forall in Hf. specialize (Hf r). rewrite elem_of_seqZ in Hf.
  specialize (Hf ltac:(lia)). 
  rewrite <- (bool_decide_eq_true (Z.land r (r - 1) = 0)), Hf, bool_decide_eq_true. split.
  - intros Hin. change [1; 2; 4; 8; 16; 32; 64; 128; 256; 512; 1024]
      with ((λ j, 2 ^ j) <$> seqZ 0 11) in Hin.
    apply list_elem_of_fmap in Hin as (j & -> & Hj). apply elem_of_seqZ in Hj. exists j. split; [lia|done].
  - intros (j & Hj & ->). change [1; 2; 4; 8; 16; 32; 64; 128; 256; 512; 1024]
      with ((λ j, 2 ^ j) <$> seqZ 0 11). apply list_elem_of_fmap. exists j.
    split; [done|]. apply elem_of_seqZ. lia.
Qed.

Lemma update_in_sync s q k j :
  1 ≤ q ≤ Z.of_nat (length (rtc_procs s)) → rtc_rate s = 2 ^ k → rate (proc_of s q) = 2 ^ j →
  0 ≤ j ≤ k → k ≤ 10 → in_sync (update_rtc_processes s) q.
Proof.
  intros Hq Hk Hj Hjk Hk10. unfold in_sync, proc_of, update_rtc_processes in *.
  cbn [rtc_procs rtc_rate]. rewrite (list_lookup_total_fmap _ _ (Z.to_nat (q - 1))) by lia. simpl.
  rewrite Hk, Hj. by apply quot_pow2.
Qed.

Lemma rate_of_proc s h q :
  rtc_inv s h → 1 ≤ q ≤ 6 → ∃ k j, rtc_rate s = 2 ^ k ∧ rate (proc_of s q) = 2 ^ j ∧ 0 ≤ j ≤ k ∧ 1 ≤ k ≤ 10.
Proof.
  intros (k & Hk & Hr & _ & Hl & Hf) Hq. rewrite Forall_lookup in Hf.
  destruct (Hf (Z.to_nat (q - 1)) (proc_of s q)) as (j & Hj & E).
  - apply list_lookup_lookup_total_lt. lia.
  - eauto 10.
Qed.

(** ** Properties *)

(** [rtc_write] accepts a rate exactly when it is a power of two from 1 to
    1024 or the most negative integer, and returns 1; otherwise it returns -1
    and changes nothing. *)
Lemma rtc_write_accepts {D} `{Board D} m buf pid s (d : D) :
  let '(r, s', d') := rtc_write m buf pid s d in
  let rate := loads32 m buf in
  (r = 1 ∧ buf ≠ 0 ∧ ((∃ j, 0 ≤ j ≤ 10 ∧ rate = 2 ^ j) ∨ rate = -2147483648)) ∨
  (r = -1 ∧ s' = s ∧ d' = d ∧
   (buf = 0 ∨ ¬ ((∃ j, 0 ≤ j ≤ 10 ∧ rate = 2 ^ j) ∨ rate = -2147483648))).
Proof.
  unfold rtc_write. destruct (Z.eqb_spec buf 0) as [->|Hb]; [right; auto|].
  cbv zeta. pose proof (loads32_range m buf) as Hr. set (rate := loads32 m buf) in *.
  assert (∀ j, 0 ≤ j ≤ 10 → 1 ≤ 2 ^ j ≤ 1024) as Hpow.
  { intros j Hj. change 1 with (2 ^ 0). change 1024 with (2 ^ 10).
    split; apply Z.pow_le_mono_r; lia. }
  destruct ((rate =? 0) || (rate >? RATE_MAX)) eqn:E1.
  { right. split; [done|]. split; [done|]. split; [done|]. right.
    apply orb_true_iff in E1. unfold RATE_MAX in E1. rewrite Z.eqb_eq, Z.gtb_lt in E1.
    intros [(j & Hj & E)|E]; [specialize (Hpow j Hj)|]; lia. }
  apply orb_false_iff in E1 as [E0 E1]. apply Z.eqb_neq in E0. unfold RATE_MAX in E1.
  assert (rate ≤ 1024) as Hle by (destruct (Z.gtb_spec rate 1024); lia || done).
  assert (Z.land rate (s32 (rate - 1)) = 0 ↔
    ((∃ j, 0 ≤ j ≤ 10 ∧ rate = 2 ^ j) ∨ rate = -2147483648)) as Htest.
  { destruct (decide (rate = -2147483648)) as [->|Hmin]; [split; [auto|reflexivity]|].
    rewrite s32_small by lia. destruct (decide (1 ≤ rate)).
    - rewrite power_of_two_test by lia. split; [auto|intros [?|?]; [done|lia]].
    - split; [intros E|intros [(j & Hj & E)|?]; [specialize (Hpow j Hj)|]; lia].
      assert (Z.land rate (rate - 1) < 0) by (apply Z.land_neg; lia). lia. }
  destruct (Z.eqb_spec (Z.land rate (s32 (rate - 1))) 0) as [E|E]; simpl.
  - destruct (rate >? rtc_rate s); left; split; auto; split; auto; by apply Htest.
  - right. split; [done|]. split; [done|]. split; [done|]. right. by rewrite <- Htest.
Qed.

(** Setting a rate makes the process wait for its own period exactly:
    [max_count] interrupts of the hardware, which runs at the fastest rate
    asked for; every process that was exact stays exact. *)
Lemma rtc_write_virtualizes {D} `{Board D} m buf pid s (d : D) j :
  rtc_inv s (obs d) → 1 ≤ pid ≤ MAX_PROCESSES → buf ≠ 0 → 0 ≤ j ≤ 10 → loads32 m buf = 2 ^ j →
  let '(r, s', d') := rtc_write m buf pid s d in
  r = 1 ∧ rtc_inv s' (obs d') ∧ rate (proc_of s' pid) = 2 ^ j ∧ in_sync s' pid ∧
  (∀ q, 1 ≤ q ≤ MAX_PROCESSES → in_sync s q → in_sync s' q) ∧ rtc_users s' = rtc_users s.
Proof.
  unfold MAX_PROCESSES. intros Hinv Hp Hb Hj Hrate. destruct (Hinv) as (k & Hk & Hr & Hh & Hl & Hf).
  assert (1 ≤ 2 ^ j ≤ 1024) as Hpow.
  { change 1 with (2 ^ 0). change 1024 with (2 ^ 10). split; apply Z.pow_le_mono_r; lia. }
  unfold rtc_write. rewrite (proj2 (Z.eqb_neq buf 0) Hb), Hrate. cbv zeta.
  rewrite (proj2 (Z.eqb_neq (2 ^ j) 0)) by lia. unfold RATE_MAX.
  rewrite Z.gtb_ltb, (proj2 (Z.ltb_ge 1024 (2 ^ j))) by lia. simpl orb.
  rewrite s32_small, (proj2 (power_of_two_test (2 ^ j) Hpow)) by (lia || eauto).
  rewrite Z.eqb_refl. simpl negb. rewrite Z.gtb_ltb, Hr.
  set (f := λ p, set_max_count (s32 (Z.quot (2 ^ k) (2 ^ j))) (set_rate_field (2 ^ j) p)).
  assert (∀ q, 1 ≤ q ≤ 6 → upd_proc pid f (rtc_procs s) !!! Z.to_nat (q - 1)
    = if decide (q = pid) then f (proc_of s pid) else proc_of s q) as Hq.
  { intros q Hq. rewrite upd_proc_lookup by lia. done. }
  assert (∀ kk, j ≤ kk → k ≤ kk →
    Forall (λ p, ∃ i, 0 ≤ i ≤ kk ∧ rate p = 2 ^ i) (upd_proc pid f (rtc_procs s))) as Hforall.
  { intros kk H1 H2. apply Forall_insert.
    - eapply Forall_impl; [exact Hf|]. intros p (i & Hi & E). exists i. split; [lia|done].
    - exists j. split; [lia|done]. }
  destruct (Z.ltb_spec (2 ^ k) (2 ^ j)) as [Hlt|Hge].
  - assert (k < j) as Hkj by (apply (Z.pow_lt_mono_r_iff 2); lia).
    set (s1 := Rtc (2 ^ j) (rtc_users s) (upd_proc pid f (rtc_procs s))).
    assert (∀ q, 1 ≤ q ≤ 6 → in_sync (update_rtc_processes s1) q) as Hsync.
    { intros q Hq6. assert (∃ i, 0 ≤ i ≤ j ∧ rate (proc_of s1 q) = 2 ^ i) as (i & Hi & E).
      { pose proof (Hforall j ltac:(lia) ltac:(lia)) as Hfa. rewrite Forall_lookup in Hfa.
        apply (Hfa (Z.to_nat (q - 1))). apply list_lookup_lookup_total_lt.
        cbn [s1 rtc_procs]. rewrite length_upd_proc. lia. }
      apply (update_in_sync s1 q j i); [|done|done|lia|lia].
      unfold s1. cbn [rtc_procs]. rewrite length_upd_proc. lia. }
    destruct (set_rate_spec j d ltac:(lia)) as [Hhw _].
    split; [done|]. split; [|split; [|split; [|split]]].
    + exists j. split; [lia|]. split; [done|]. split; [done|].
      unfold update_rtc_processes, s1. cbn [rtc_procs]. rewrite length_fmap, length_upd_proc.
      split; [done|]. apply Forall_fmap. eapply Forall_impl; [exact (Hforall j ltac:(lia) ltac:(lia))|done].
    + unfold proc_of, update_rtc_processes, s1. cbn [rtc_procs].
      rewrite (list_lookup_total_fmap _ _ (Z.to_nat (pid - 1))) by (rewrite length_upd_proc; lia).
      rewrite Hq, decide_True by (lia || done). done.
    + by apply Hsync.
    + intros q Hq6 _. by apply Hsync.
    + done.
  - assert (j ≤ k) as Hkj by (apply (Z.pow_le_mono_r_iff 2); lia).
    set (s1 := Rtc (2 ^ k) (rtc_users s) (upd_proc pid f (rtc_procs s))).
    assert (in_sync s1 pid) as Hsync.
    { unfold in_sync, proc_of, s1. cbn [rtc_procs rtc_rate]. rewrite Hq, decide_True by (lia || done).
      apply quot_pow2; lia. }
    split; [done|]. split; [|split; [|split; [|split]]].
    + exists k. split; [lia|]. split; [done|]. split; [done|]. unfold s1. cbn [rtc_procs].
      rewrite length_upd_proc. split; [done|]. apply Hforall; lia.
    + unfold proc_of, s1. cbn [rtc_procs]. rewrite Hq, decide_True by (lia || done). done.
    + done.
    + intros q Hq6 Hs. destruct (decide (q = pid)) as [->|Hne]; [done|].
      unfold in_sync, proc_of, s1 in *. cbn [rtc_procs rtc_rate].
      rewrite Hq, decide_False by (lia || done). unfold proc_of. rewrite Hs. done.
    + done.
Qed.

(** The clock as two processes have it open at the default rate. *)
Definition sample_rtc : rtc_state := Rtc 2 2 (replicate 6 (RtcProcess 2 0 1)).
Definition sample_clock : pc := Pc (set_cmos 0x2F (set_cmos_sel REG_A hw_reset)) [] [].
Lemma sample_rtc_inv : rtc_inv sample_rtc (obs sample_clock).
Proof.
  exists 1. split; [lia|]. split; [done|]. split; [vm_compute; reflexivity|]. split; [done|].
  apply Forall_replicate. exists 1. split; [lia|done].
Qed.

Lemma rtc_write_virtualizes_witness :
  let '(r, s', d') := rtc_write (store32 ∅ 1000 64) 1000 3 sample_rtc sample_clock in
  r = 1 ∧ rtc_inv s' (obs d') ∧ rate (proc_of s' 3) = 2 ^ 6 ∧ in_sync s' 3 ∧
  (∀ q, 1 ≤ q ≤ MAX_PROCESSES → in_sync sample_rtc q → in_sync s' q) ∧
  rtc_users s' = rtc_users sample_rtc.
Proof.
  apply (rtc_write_virtualizes (store32 ∅ 1000 64) 1000 3 sample_rtc sample_clock 6).
  - exact sample_rtc_inv.
  - unfold MAX_PROCESSES. lia.
  - lia.
  - lia.
  - vm_compute. reflexivity.
Defined.

(** C38: a read returns after exactly [max_count] clock interrupts, at once if
    there are none to wait for - as before the first [rtc_write]. *)
Theorem rtc_read_waits {D} `{Board D} pid s (d : D) n :
  length (rtc_procs s) = 6%nat → 1 ≤ pid ≤ MAX_PROCESSES →
  0 ≤ max_count (proc_of s pid) < 2147483648 → Z.of_nat n ≤ 2147483648 →
  rtc_read_done pid (Nat.iter n (λ sd, rtc_handler_main sd.1 sd.2) (rtc_read_begin pid s, d)).1
  = bool_decide (max_count (proc_of s pid) ≤ Z.of_nat n).
Proof.
  unfold MAX_PROCESSES. intros Hl Hp Hm Hn.
  assert (length (rtc_procs (Nat.iter n (λ sd, rtc_handler_main sd.1 sd.2) (rtc_read_begin pid s, d)).1) = 6%nat
    ∧ curr_count (proc_of (Nat.iter n (λ sd, rtc_handler_main sd.1 sd.2) (rtc_read_begin pid s, d)).1 pid)
      = max_count (proc_of s pid) - Z.of_nat n) as [_ Hc].
  { induction n as [|n IH].
    - simpl. rewrite length_upd_proc. split; [done|]. unfold proc_of, rtc_read_begin. cbn [rtc_procs].
      rewrite upd_proc_lookup, decide_True by (lia || done). simpl. unfold proc_of. lia.
    - destruct IH as [IH1 IH2]; [lia|]. rewrite Nat.iter_succ. revert IH1 IH2.
      generalize (Nat.iter n (λ sd : rtc_state * D, rtc_handler_main sd.1 sd.2) (rtc_read_begin pid s, d)).
      intros [s1 d1]. cbn [fst snd]. intros IH1 IH2. unfold rtc_handler_main. cbn [fst rtc_procs].
      rewrite length_fmap. split; [done|]. unfold proc_of in *. cbn [rtc_procs].
      rewrite (list_lookup_total_fmap _ _ (Z.to_nat (pid - 1))) by lia. simpl. rewrite IH2.
      rewrite s32_small by lia. lia. }
  unfold rtc_read_done. unfold proc_of in Hc at 1. rewrite Hc.
  case_bool_decide; destruct (Z.gtb_spec (max_count (proc_of s pid) - Z.of_nat n) 0); simpl; lia || done.
Qed.

Lemma rtc_read_waits_witness :
  rtc_read_done 3 (Nat.iter 1 (λ sd, rtc_handler_main sd.1 sd.2) (rtc_read_begin 3 sample_rtc, pc_reset)).1
  = bool_decide (max_count (proc_of sample_rtc 3) ≤ Z.of_nat 1).
Proof.
  apply (rtc_read_waits 3 sample_rtc pc_reset 1).
  - reflexivity.
  - unfold MAX_PROCESSES. lia.
  - vm_compute. split; congruence.
  - lia.
Defined.

(** Closing the clock while others have it open recomputes [rtc_rate] and
    every [max_count] but does not touch the hardware: when the fastest
    process closes, the others' waits become too short. *)
Lemma rtc_close_stale_hardware {D} `{Board D} pid s (d : D) k :
  rtc_inv s (obs d) → 1 ≤ pid ≤ MAX_PROCESSES → 2 ≤ rtc_users s < 2147483648 → rtc_rate s = 2 ^ k →
  (∀ q, 1 ≤ q ≤ MAX_PROCESSES → q ≠ pid → rate (proc_of s q) = RATE_MIN) →
  let '(r, s', d') := rtc_close pid s d in
  r = 0 ∧ rtc_rate s' = RATE_MIN ∧ d' = d ∧ hw_rate (obs d') = 2 ^ k ∧
  ∀ q, 1 ≤ q ≤ MAX_PROCESSES → max_count (proc_of s' q) = 1.
Proof.
  unfold MAX_PROCESSES. intros (k' & Hk & Hr & Hh & Hl & Hf) Hp Hu Hrk Hothers.
  assert (2 ^ k = 2 ^ k') as -> by congruence.
  unfold rtc_close. rewrite s32_small, (proj2 (Z.eqb_neq _ _)) by lia.
  set (procs := upd_proc pid (set_rate_field RATE_MIN) (rtc_procs s)).
  assert (length procs = 6%nat) as Hlen by (unfold procs; by rewrite length_upd_proc).
  assert (∀ q, 1 ≤ q ≤ 6 → rate (procs !!! Z.to_nat (q - 1)) = RATE_MIN) as Hall.
  { intros q Hq. unfold procs. rewrite upd_proc_lookup by lia. case_decide; [done|]. by apply Hothers. }
  assert (Forall (λ p, rate p = RATE_MIN) procs) as Hforall.
  { apply Forall_lookup. intros i p Hi. pose proof (lookup_lt_Some _ _ _ Hi).
    specialize (Hall (Z.of_nat i + 1) ltac:(lia)).
    replace (Z.to_nat (Z.of_nat i + 1 - 1)) with i in Hall by lia.
    by rewrite (list_lookup_total_correct _ _ _ Hi) in Hall. }
  assert (foldl (λ r p, if rate p >? r then rate p else r) RATE_MIN procs = RATE_MIN) as ->.
  { clear - Hforall. induction Hforall as [|p l E _ IH]; [done|]. simpl. by rewrite E. }
  split; [done|]. split; [done|]. split; [done|]. split; [done|].
  intros q Hq. unfold proc_of, update_rtc_processes. cbn [rtc_procs rtc_rate].
  rewrite (list_lookup_total_fmap _ _ (Z.to_nat (q - 1))) by lia. simpl. by rewrite Hall.
Qed.

Definition fast_rtc : rtc_state :=
  Rtc 1024 2 [RtcProcess 1024 0 1; RtcProcess 2 0 512; RtcProcess 2 0 512; RtcProcess 2 0 512;
              RtcProcess 2 0 512; RtcProcess 2 0 512].
Definition fast_clock : pc := Pc (set_cmos 0x26 (set_cmos_sel REG_A hw_reset)) [] [].
Lemma rtc_close_stale_hardware_witness :
  let '(r, s', d') := rtc_close 1 fast_rtc fast_clock in
  r = 0 ∧ rtc_rate s' = RATE_MIN ∧ d' = fast_clock ∧ hw_rate (obs d') = 2 ^ 10 ∧
  ∀ q, 1 ≤ q ≤ MAX_PROCESSES → max_count (proc_of s' q) = 1.
Proof.
  apply (rtc_close_stale_hardware 1 fast_rtc fast_clock 10).
  - exists 10. split; [lia|]. split; [done|]. split; [vm_compute; reflexivity|]. split; [done|].
    unfold fast_rtc. cbn [rtc_procs]. apply Forall_cons. split; [exists 10; split; [lia|done]|].
    repeat (apply Forall_cons; split; [exists 1; split; [lia|done]|]). apply Forall_nil. exact I.
  - unfold MAX_PROCESSES. lia.
  - simpl. lia.
  - reflexivity.
  - unfold MAX_PROCESSES. intros q Hq Hne.
    assert (q = 2 ∨ q = 3 ∨ q = 4 ∨ q = 5 ∨ q = 6) as Hc by lia. by destruct_or! Hc; subst.
Defined.
