(* ===== verification/KeyTable.v ===== *)
(** * keyboard.h, keyboard.c: scan codes

    The key table, the modifier keys and the characters keys stand for.  The
    table has 83 entries while scan codes go up to 127: reads past its end
    yield whatever the linker placed there, the parameter [beyond]. *)
From S2P Require Import Prelude.

Definition KEYBOARD_PORT := 0x64.
Definition KEYBOARD_PORT_DATA := 0x60.
Definition KEYBOARD_IRQ_NUM := 0x01.
Definition MASK_KEY_PRESS := 0x80.
Definition MAX_SCANCODE := 0x3A.
Definition LINE_BUF_MAX := 128.
Definition NULL_CHAR := 0.

Definition KEY_SPACE := 32.
Definition KEY_0 := 48.
Definition KEY_1 := 49.
Definition KEY_2 := 50.
Definition KEY_3 := 51.
Definition KEY_4 := 52.
Definition KEY_5 := 53.
Definition KEY_6 := 54.
Definition KEY_7 := 55.
Definition KEY_8 := 56.
Definition KEY_9 := 57.
Definition KEY_A := 97.
Definition KEY_B := 98.
Definition KEY_C := 99.
Definition KEY_D := 100.
Definition KEY_E := 101.
Definition KEY_F := 102.
Definition KEY_G := 103.
Definition KEY_H := 104.
Definition KEY_I := 105.
Definition KEY_J := 106.
Definition KEY_K := 107.
Definition KEY_L := 108.
Definition KEY_M := 109.
Definition KEY_N := 110.
Definition KEY_O := 111.
Definition KEY_P := 112.
Definition KEY_Q := 113.
Definition KEY_R := 114.
Definition KEY_S := 115.
Definition KEY_T := 116.
Definition KEY_U := 117.
Definition KEY_V := 118.
Definition KEY_W := 119.
Definition KEY_X := 120.
Definition KEY_Y := 121.
Definition KEY_Z := 122.
Definition KEY_RETURN := 13.
Definition KEY_ESCAPE := 0x1001.
Definition KEY_BACKSPACE := 8.
Definition KEY_F1 := 0x1201.
Definition KEY_F2 := 0x1202.
Definition KEY_F3 := 0x1203.
Definition KEY_F4 := 0x1204.
Definition KEY_F5 := 0x1205.
Definition KEY_F6 := 0x1206.
Definition KEY_F7 := 0x1207.
Definition KEY_F8 := 0x1208.
Definition KEY_F9 := 0x1209.
Definition KEY_F10 := 0x120a.
Definition KEY_F11 := 0x120b.
Definition KEY_F12 := 0x120b.
Definition KEY_DOT := 46.
Definition KEY_COMMA := 44.
Definition KEY_COLON := 58.
Definition KEY_SEMICOLON := 59.
Definition KEY_SLASH := 47.
Definition KEY_BACKSLASH := 92.
Definition KEY_PLUS := 43.
Definition KEY_MINUS := 45.
Definition KEY_ASTERISK := 42.
Definition KEY_EXCLAMATION := 33.
Definition KEY_QUESTION := 63.
Definition KEY_QUOTEDOUBLE := 34.
Definition KEY_QUOTE := 39.
Definition KEY_EQUAL := 61.
Definition KEY_HASH := 35.
Definition KEY_PERCENT := 37.
Definition KEY_AMPERSAND := 38.
Definition KEY_UNDERSCORE := 95.
Definition KEY_LEFTPARENTHESIS := 40.
Definition KEY_RIGHTPARENTHESIS := 41.
Definition KEY_LEFTBRACKET := 91.
Definition KEY_RIGHTBRACKET := 93.
Definition KEY_LEFTCURL := 123.
Definition KEY_RIGHTCURL := 125.
Definition KEY_DOLLAR := 36.
Definition KEY_LESS := 60.
Definition KEY_GREATER := 62.
Definition KEY_BAR := 124.
Definition KEY_GRAVE := 96.
Definition KEY_TILDE := 126.
Definition KEY_AT := 64.
Definition KEY_CARRET := 94.
Definition KEY_KP_0 := 48.
Definition KEY_KP_2 := 50.
Definition KEY_KP_3 := 51.
Definition KEY_KP_8 := 56.
Definition KEY_KP_DECIMAL := 46.
Definition KEY_KP_ASTERISK := 42.
Definition KEY_KP_NUMLOCK := 0x300f.
Definition KEY_TAB := 0x4000.
Definition KEY_CAPSLOCK := 0x4001.
Definition KEY_LSHIFT := 0x4002.
Definition KEY_LCTRL := 0x4003.
Definition KEY_LALT := 0x4004.
Definition KEY_RSHIFT := 0x4006.
Definition KEY_RCTRL := 0x4007.
Definition KEY_RALT := 0x4008.
Definition KEY_HOME := 0x400c.
Definition KEY_PAGEUP := 0x400e.
Definition KEY_SCROLLLOCK := 0x4010.
Definition KEY_UNKNOWN := 0.

Definition kybd_keys : list Z :=
  [KEY_UNKNOWN; KEY_ESCAPE; KEY_1; KEY_2; KEY_3; KEY_4;
   KEY_5; KEY_6; KEY_7; KEY_8; KEY_9; KEY_0;
   KEY_MINUS; KEY_EQUAL; KEY_BACKSPACE; KEY_TAB; KEY_Q; KEY_W;
   KEY_E; KEY_R; KEY_T; KEY_Y; KEY_U; KEY_I;
   KEY_O; KEY_P; KEY_LEFTBRACKET; KEY_RIGHTBRACKET; KEY_RETURN; KEY_LCTRL;
   KEY_A; KEY_S; KEY_D; KEY_F; KEY_G; KEY_H;
   KEY_J; KEY_K; KEY_L; KEY_SEMICOLON; KEY_QUOTE; KEY_GRAVE;
   KEY_LSHIFT; KEY_BACKSLASH; KEY_Z; KEY_X; KEY_C; KEY_V;
   KEY_B; KEY_N; KEY_M; KEY_COMMA; KEY_DOT; KEY_SLASH;
   KEY_RSHIFT; KEY_KP_ASTERISK; KEY_RALT; KEY_SPACE; KEY_CAPSLOCK; KEY_F1;
   KEY_F2; KEY_F3; KEY_F4; KEY_F5; KEY_F6; KEY_F7;
   KEY_F8; KEY_F9; KEY_F10; KEY_KP_NUMLOCK; KEY_SCROLLLOCK; KEY_HOME;
   KEY_KP_8; KEY_PAGEUP; KEY_KP_2; KEY_KP_3; KEY_KP_0; KEY_KP_DECIMAL;
   KEY_UNKNOWN; KEY_UNKNOWN; KEY_UNKNOWN; KEY_F11; KEY_F12].

(** The statics that say which modifier keys are down, and caps lock. *)
Record mods := Mods {
  r_shift_key : Z; l_shift_key : Z; r_ctrl_key : Z; l_ctrl_key : Z; r_alt_key : Z; l_alt_key : Z;
  caps_lock : Z }.
Definition mods_statics : mods := Mods 0 0 0 0 0 0 0.

(** A modifier key goes down or up; like the code, the left control key sets
    the right one's variable and the other way round. *)
Definition set_modifier (key_out v : Z) (m : mods) : option mods :=
  let '(Mods rs ls rc lc ra la caps) := m in
  if key_out =? KEY_RSHIFT then Some (Mods v ls rc lc ra la caps)
  else if key_out =? KEY_LSHIFT then Some (Mods rs v rc lc ra la caps)
  else if key_out =? KEY_LCTRL then Some (Mods rs ls v lc ra la caps)
  else if key_out =? KEY_RCTRL then Some (Mods rs ls rc v ra la caps)
  else if key_out =? KEY_LALT then Some (Mods rs ls rc lc ra v caps)
  else if key_out =? KEY_RALT then Some (Mods rs ls rc lc v la caps)
  else None.
Definition key_released (key_out : Z) (m : mods) : mods := default m (set_modifier key_out 0 m).
Definition key_pressed (key_out : Z) (m : mods) : option mods :=
  if key_out =? KEY_CAPSLOCK then
    let '(Mods rs ls rc lc ra la caps) := m in
    Some (Mods rs ls rc lc ra la (if caps =? 0 then 1 else 0))
  else set_modifier key_out 1 m.

Definition shift_of (m : mods) : Z := Z.lor (l_shift_key m) (r_shift_key m).
Definition alt_of (m : mods) : Z := Z.lor (l_alt_key m) (r_alt_key m).
Definition ctrl_of (m : mods) : Z := Z.lor (l_ctrl_key m) (r_ctrl_key m).

(** The [switch] on a shifted key. *)
Definition shifted (key_out : Z) : Z :=
  if key_out =? 48 then KEY_RIGHTPARENTHESIS
  else if key_out =? 49 then KEY_EXCLAMATION
  else if key_out =? 50 then KEY_AT
  else if key_out =? 51 then KEY_HASH
  else if key_out =? 52 then KEY_DOLLAR
  else if key_out =? 53 then KEY_PERCENT
  else if key_out =? 54 then KEY_CARRET
  else if key_out =? 55 then KEY_AMPERSAND
  else if key_out =? 56 then KEY_ASTERISK
  else if key_out =? 57 then KEY_LEFTPARENTHESIS
  else if key_out =? KEY_COMMA then KEY_LESS
  else if key_out =? KEY_DOT then KEY_GREATER
  else if key_out =? KEY_SLASH then KEY_QUESTION
  else if key_out =? KEY_SEMICOLON then KEY_COLON
  else if key_out =? KEY_QUOTE then KEY_QUOTEDOUBLE
  else if key_out =? KEY_LEFTBRACKET then KEY_LEFTCURL
  else if key_out =? KEY_RIGHTBRACKET then KEY_RIGHTCURL
  else if key_out =? KEY_GRAVE then KEY_TILDE
  else if key_out =? KEY_MINUS then KEY_UNDERSCORE
  else if key_out =? KEY_EQUAL then KEY_PLUS
  else if key_out =? KEY_BACKSLASH then KEY_BAR
  else key_out.

(** The character a key stands for, before the test whether it prints. *)
Definition key_char (m : mods) (key_out : Z) : Z :=
  let shift := shift_of m in
  let alt := alt_of m in
  let ctrl := ctrl_of m in
  if negb (Z.lxor (caps_lock m) shift =? 0) && ((alt =? 0) && (ctrl =? 0))
     && ((key_out >=? 97) && (key_out <=? 122))
  then key_out - (97 - 65)
  else if negb (shift =? 0) && (ctrl =? 0) && (alt =? 0) then shifted key_out
  else key_out.
Definition prints (key_out : Z) : bool :=
  ((key_out >=? 32) && (key_out <=? 126)) || (key_out =? KEY_BACKSPACE) || (key_out =? KEY_RETURN).

Section table.
Context (beyond : Z → Z).
Definition key_at (scancode : Z) : Z :=
  match kybd_keys !! Z.to_nat scancode with Some k => k | None => u16 (beyond scancode) end.
End table.

(** ** The keyboard the code means

    The main block of a US keyboard, row by row from a scan code: what each
    key types alone and with shift. *)
Definition us_rows : list (Z * list Z * list Z) :=
  [ (0x02, [49; 50; 51; 52; 53; 54; 55; 56; 57; 48; 45; 61],            (* 1 2 3 ... - = *)
           [33; 64; 35; 36; 37; 94; 38; 42; 40; 41; 95; 43]);           (* ! @ # ... _ + *)
    (0x10, [113; 119; 101; 114; 116; 121; 117; 105; 111; 112; 91; 93],  (* q w e ... [ ] *)
           [81; 87; 69; 82; 84; 89; 85; 73; 79; 80; 123; 125]);         (* Q W E ... { } *)
    (0x1E, [97; 115; 100; 102; 103; 104; 106; 107; 108; 59; 39; 96],    (* a s d ... ; ' ` *)
           [65; 83; 68; 70; 71; 72; 74; 75; 76; 58; 34; 126]);          (* A S D ... : quote ~ *)
    (0x2B, [92; 122; 120; 99; 118; 98; 110; 109; 44; 46; 47],           (* \ z x c ... , . / *)
           [124; 90; 88; 67; 86; 66; 78; 77; 60; 62; 63]);              (* | Z X C ... < > ? *)
    (0x37, [42], [42]); (0x39, [32], [32]); (0x0E, [8], [8]); (0x1C, [13], [13]) ].

Definition us_key (sc : Z) : option (Z * Z) :=
  foldr (λ '(base, plain, shift) r,
    if (base <=? sc) && (sc <? base + Z.of_nat (length plain)) then
      Some (plain !!! Z.to_nat (sc - base), shift !!! Z.to_nat (sc - base))
    else r) None us_rows.
Definition is_letter (c : Z) : bool := (97 <=? c) && (c <=? 122).

(** Shift picks the second character, caps lock flips letters; control and
    alt switch both off. *)
Definition us_types (caps shift alt ctrl : bool) (sc : Z) : option Z :=
  match us_key sc with
  | None => None
  | Some (p, s) =>
      if alt || ctrl then Some p
      else if is_letter p then Some (if xorb caps shift then s else p)
      else Some (if shift then s else p)
  end.

Definition bool_mods (rs ls rc lc ra la caps : bool) : mods :=
  Mods (Z.b2z rs) (Z.b2z ls) (Z.b2z rc) (Z.b2z lc) (Z.b2z ra) (Z.b2z la) (Z.b2z caps).

(** For every scan code the code looks at and every state of the modifier
    keys, the key that is typed is the one of the US layout, or none. *)
Lemma keyboard_layout beyond rs ls rc lc ra la caps sc :
  0 ≤ sc ≤ MAX_SCANCODE →
  let m := bool_mods rs ls rc lc ra la caps in
  let key := key_at beyond sc in
  key_pressed key m = None →
  (if prints (key_char m key) then Some (key_char m key) else None)
  = us_types caps (rs || ls) (ra || la) (rc || lc) sc.
Proof.
  intros Hsc m key Hp.
  assert (key_at beyond sc = kybd_keys !!! Z.to_nat sc) as Hk.
  { unfold key_at. destruct (lookup_lt_is_Some_2 kybd_keys (Z.to_nat sc)) as [k Hk].
    - unfold MAX_SCANCODE in Hsc. simpl. lia.
    - rewrite Hk. symmetry. by apply list_lookup_total_correct. }
  unfold key in *. rewrite Hk in *. clear Hk key.
  assert (Forall (λ sc,
    match key_pressed (kybd_keys !!! Z.to_nat sc) m with
    | None =>
        bool_decide ((if prints (key_char m (kybd_keys !!! Z.to_nat sc))
         then Some (key_char m (kybd_keys !!! Z.to_nat sc)) else None)
        = us_types caps (rs || ls) (ra || la) (rc || lc) sc)
    | Some _ => true
    end = true) (seqZ 0 59)) as Hf
    by (clear; destruct rs, ls, rc, lc, ra, la, caps; vm_decide).
  rewrite Forall_forall in Hf. specialize (Hf sc). rewrite elem_of_seqZ, Hp in Hf.
  unfold MAX_SCANCODE in Hsc. specialize (Hf ltac:(lia)). by apply bool_decide_eq_true in Hf.
Qed.

Lemma keyboard_layout_witness :
  (let m := bool_mods true false false false false false false in
   let key := key_at (λ _, 0) 0x23 in
   if prints (key_char m key) then Some (key_char m key) else None) = Some 72.
Proof.
  exact (keyboard_layout (λ _, 0) true false false false false false false 0x23
    ltac:(unfold MAX_SCANCODE; lia) eq_refl).
Defined.
