(* ===== verification/Keyboard.v ===== *)
(** * keyboard.c: terminals

    Three terminals, each with a screen and a line buffer of 128 bytes that
    the keyboard fills and [terminal_read] empties.  A store outside a line
    buffer is outside the C object: the operation has no result ([None]).
    Blocking calls are split where they wait; interrupts run in between. *)
From S2P Require Import Prelude CMem Ports I8259 Screen Process Paging Idt KeyTable.

Record terminal_t := Term {
  screen : screen_t; line_buf : list Z; buf_count : Z; input_len : Z; hit_enter : Z; reading : Z }.
Definition term_statics : terminal_t := Term (Screen 0 0 0) (replicate 128 0) 0 0 0 0.

(** The statics of keyboard.c. *)
Record kbd_state := Kbd { terminals : list terminal_t; modifiers : mods; current_terminal : Z }.
Definition kbd_statics : kbd_state := Kbd (replicate 3 term_statics) mods_statics (-1).

Definition set_screen (s : screen_t) (t : terminal_t) : terminal_t :=
  Term s (line_buf t) (buf_count t) (input_len t) (hit_enter t) (reading t).
Definition set_terminals (l : list terminal_t) (k : kbd_state) : kbd_state :=
  Kbd l (modifiers k) (current_terminal k).
Definition set_modifiers (m : mods) (k : kbd_state) : kbd_state :=
  Kbd (terminals k) m (current_terminal k).

(** [terminals[i]], for any [i]. *)
Definition get_terminal (i : Z) (k : kbd_state) : option terminal_t :=
  if i <? 0 then None else terminals k !! Z.to_nat i.
Definition put_terminal (i : Z) (t : terminal_t) (k : kbd_state) : kbd_state :=
  set_terminals (<[Z.to_nat i := t]> (terminals k)) k.

(** [line_buf[i] = v]. *)
Definition line_store (t : terminal_t) (i v : Z) : option terminal_t :=
  if (0 <=? i) && (i <? LINE_BUF_MAX) then
    Some (Term (screen t) (<[Z.to_nat i := u8 v]> (line_buf t)) (buf_count t) (input_len t)
            (hit_enter t) (reading t))
  else None.

(** Draw on the page of terminal [cur] instead of the current mapping:
    [video_mem] is moved before and moved back after. *)
Definition on_page (cur : Z) (f : mem → screen_t → mem * screen_t) (m : mem) (s : screen_t)
    : mem * screen_t :=
  let s := Screen (scr_x s) (scr_y s) (video_mem s + PAGE_SIZE * (cur + 1)) in
  let '(m, s) := f m s in
  (m, Screen (scr_x s) (scr_y s) (video_mem s - PAGE_SIZE * (cur + 1))).

(** What [start_terminal] asks of the rest of the kernel. *)
Inductive term_action := Ta_none | Ta_schedule_shell | Ta_execute_shell.

Definition set_curr_active_process (pid : Z) (k : kbd_state) (ps : proc_state) : proc_state :=
  (set_active_process (current_terminal k) pid ps).2.
Definition get_curr_active_process (k : kbd_state) (ps : proc_state) : Z :=
  get_active_process (current_terminal k) ps.
Definition curr_terminal_running_process (k : kbd_state) (ps : proc_state) : bool :=
  negb (get_active_process (current_terminal k) ps =? -1).
Definition get_current_terminal (k : kbd_state) : Z := u32 (current_terminal k).
Definition terminal_open : Z := 0.
Definition terminal_close : Z := 0.

Section keyboard.
Context {D : Type} `{Board D} (beyond : Z → Z).

Definition update (key : Z) (m : mem) (k : kbd_state) (d : D) : option (mem * kbd_state * D) :=
  let cur := current_terminal k in
  match get_terminal cur k with
  | None => None
  | Some t =>
      if key =? KEY_RETURN then
        let '(m, s) := on_page cur (putc_in_terminal key) m (screen t) in
        let d := move_cursor cur s PAGE_SIZE d in
        match line_store (set_screen s t) (buf_count t) 10 with
        | None => None
        | Some t =>
            let t := Term (screen t) (line_buf t) (u16 (buf_count t + 1)) 0 1 (reading t) in
            let t :=
              if reading t =? 0 then
                Term (screen t) (replicate (Z.to_nat LINE_BUF_MAX) NULL_CHAR) 0 (input_len t)
                  (hit_enter t) (reading t)
              else t in
            Some (m, put_terminal cur t k, d)
        end
      else if key =? KEY_BACKSPACE then
        if negb (input_len t =? 0) then
          let '(m, s) := on_page cur backspace_fnc m (screen t) in
          let d := move_cursor cur s PAGE_SIZE d in
          let t := Term s (line_buf t) (u16 (buf_count t - 1)) (s32 (input_len t - 1))
                     (hit_enter t) (reading t) in
          match line_store t (buf_count t) NULL_CHAR with
          | None => None
          | Some t => Some (m, put_terminal cur t k, d)
          end
        else Some (m, k, d)
      else if buf_count t <? LINE_BUF_MAX - 1 - 1 then
        let '(m, s) := on_page cur (putc_in_terminal key) m (screen t) in
        let d := move_cursor cur s PAGE_SIZE d in
        match line_store (set_screen s t) (buf_count t) key with
        | None => None
        | Some t =>
            Some (m, put_terminal cur (Term (screen t) (line_buf t) (u16 (buf_count t + 1))
              (s32 (input_len t + 1)) (hit_enter t) (reading t)) k, d)
        end
      else Some (m, k, d)
  end.

Definition start_terminal (term_num : Z) (k : kbd_state) (ps : proc_state) (d : D)
    : option (Z * kbd_state * D * term_action) :=
  let term_num := u32 term_num in
  if (term_num <? 0) || (term_num >=? MAX_TERMINALS) then Some (-1, k, d, Ta_none)
  else if term_num =? u32 (current_terminal k) then Some (-1, k, d, Ta_none)
  else
    let curr_active_process := get_active_process (current_terminal k) ps in
    let next_active_process := get_active_process term_num ps in
    if negb (free_procs ps) && (next_active_process =? -1) then Some (-1, k, d, Ta_none)
    else
      match get_terminal term_num k with
      | None => None
      | Some t =>
          let d := set_vga_start (term_num * PAGE_SIZE) d in
          let d := move_cursor term_num (screen t) PAGE_SIZE d in
          let k := Kbd (terminals k) (modifiers k) term_num in
          if next_active_process =? -1 then
            if negb (curr_active_process =? -1) then Some (0, k, d, Ta_schedule_shell)
            else Some (0, k, d, Ta_execute_shell)
          else Some (0, k, d, Ta_none)
      end.

(** Control-L: clear the screen and print the line again. *)
Definition redraw (m : mem) (k : kbd_state) (d : D) : option (mem * kbd_state * D) :=
  let cur := current_terminal k in
  match get_terminal cur k with
  | None => None
  | Some t =>
      let '(m, s) := on_page cur (λ m s,
        for_z 0 (buf_count t) (λ i '(m, s),
          putc_in_terminal (line_buf t !!! Z.to_nat i) m s) (clear_terminal m s)) m (screen t) in
      let d := move_cursor cur s PAGE_SIZE d in
      Some (m, put_terminal cur (set_screen s t) k, d)
  end.

(** The branch of the handler for a key that goes down and is no modifier. *)
Definition key_down (scancode key_out : Z) (m : mem) (k : kbd_state) (ps : proc_state) (d : D)
    : option (mem * kbd_state * D * term_action) :=
  let shift := shift_of (modifiers k) in
  let alt := alt_of (modifiers k) in
  let ctrl := ctrl_of (modifiers k) in
  let switch n :=
    let d := send_eoi KEYBOARD_IRQ_NUM d in
    match start_terminal n k ps d with
    | None => None
    | Some (_, k, d, a) => Some (m, k, d, a)
    end in
  let finish r :=
    match r with
    | None => None
    | Some (m, k, d) => Some (m, k, send_eoi KEYBOARD_IRQ_NUM d, Ta_none)
    end in
  if (shift =? 0) && negb (ctrl =? 0) && (key_out =? 108) then finish (redraw m k d)
  else if (ctrl =? 0) && (shift =? 0) && negb (alt =? 0) && (key_out =? KEY_F1) then switch 0
  else if (ctrl =? 0) && (shift =? 0) && negb (alt =? 0) && (key_out =? KEY_F2) then switch 1
  else if (ctrl =? 0) && (shift =? 0) && negb (alt =? 0) && (key_out =? KEY_F3) then switch 2
  else if scancode >? MAX_SCANCODE then finish (Some (m, k, d))
  else
    let key_out := key_char (modifiers k) key_out in
    if prints key_out then finish (update key_out m k d) else finish (Some (m, k, d)).

Definition keyboard_handler_main (m : mem) (k : kbd_state) (ps : proc_state) (d : D)
    : option (mem * kbd_state * D * term_action) :=
  let '(status, d) := inb KEYBOARD_PORT d in
  if negb (Z.land status 1 =? 0) then
    let '(scancode, d) := inb KEYBOARD_PORT_DATA d in
    if negb (Z.land scancode MASK_KEY_PRESS =? 0) then
      let scancode := scancode - MASK_KEY_PRESS in
      let key_out := key_at beyond scancode in
      Some (m, set_modifiers (key_released key_out (modifiers k)) k, send_eoi KEYBOARD_IRQ_NUM d,
            Ta_none)
    else
      let key_out := key_at beyond scancode in
      match key_pressed key_out (modifiers k) with
      | Some mo => Some (m, set_modifiers mo k, send_eoi KEYBOARD_IRQ_NUM d, Ta_none)
      | None => key_down scancode key_out m k ps d
      end
  else Some (m, k, send_eoi KEYBOARD_IRQ_NUM d, Ta_none).

(** [terminal_read] before the wait, the condition it waits for, and after.
    [None] of the first is the null pointer, answered with -1. *)
Definition terminal_read_begin (buf term_num : Z) (k : kbd_state) : option kbd_state :=
  if buf =? 0 then None
  else match get_terminal term_num k with
       | None => None
       | Some t =>
           Some (put_terminal term_num
             (Term (screen t) (line_buf t) (buf_count t) (input_len t) 0 1) k)
       end.
Definition terminal_read_ready (term_num : Z) (k : kbd_state) : bool :=
  match get_terminal term_num k with Some t => negb (hit_enter t =? 0) | None => false end.

Definition terminal_read_finish (buf nbytes term_num : Z) (m : mem) (k : kbd_state) (d : D)
    : option (Z * mem * kbd_state * D) :=
  match get_terminal term_num k with
  | None => None
  | Some t =>
      let d := cli d in
      let nbytes := if nbytes >? LINE_BUF_MAX then LINE_BUF_MAX else nbytes in
      let diff := buf_count t - nbytes in
      let chars_read := if nbytes >? buf_count t then buf_count t else nbytes in
      let diff := if diff <? 0 then 0 else diff in
      (* the copies run outside the buffer *)
      if (nbytes <? 0) || (diff + nbytes >? LINE_BUF_MAX) then None
      else
        let n := Z.to_nat nbytes in
        let k_diff := Z.to_nat diff in
        let m := store_bytes m buf (take n (line_buf t)) in
        let lb := take k_diff (drop n (line_buf t)) ++ drop k_diff (line_buf t) in
        let lb := take k_diff lb ++ replicate n NULL_CHAR ++ drop (k_diff + n) lb in
        let d := sti d in
        Some (chars_read, m,
              put_terminal term_num (Term (screen t) lb (u16 diff) (input_len t) 0 0) k, d)
  end.

Definition terminal_write (buf nbytes term_num : Z) (m : mem) (k : kbd_state) (d : D)
    : option (Z * mem * kbd_state * D) :=
  if buf =? 0 then Some (-1, m, k, d)
  else match get_terminal term_num k with
       | None => None
       | Some t =>
           let '(m, s) := for_z 0 nbytes (λ i '(m, s), putc_in_terminal (mget m (buf + i)) m s)
                            (m, screen t) in
           let d := if term_num =? current_terminal k then move_cursor term_num s PAGE_SIZE d else d in
           Some (nbytes, m, put_terminal term_num (set_screen s t) k, d)
       end.

Definition kybd_init (irqs : list irq_handler) (ps : proc_state) (vid : screen_t) (k : kbd_state)
    (d : D) : list irq_handler * proc_state * kbd_state * D :=
  let irqs := add_irq KEYBOARD_IRQ_NUM keyboard_handler irqs in
  let d := enable_irq KEYBOARD_IRQ_NUM d in
  let terms := (λ t, Term (Screen 0 0 (get_video_mem vid)) (replicate (Z.to_nat LINE_BUF_MAX) NULL_CHAR)
                       0 (input_len t) (hit_enter t) 0) <$> terminals k in
  let ps := (add_device TERM_FTYPE term_fops ps).2 in
  (irqs, ps, set_terminals terms k, d).
End keyboard.

(** ** The line editor

    What a terminal's buffer means: the text waiting to be read and how many
    of its last characters can still be erased. *)
Record line := Line { text : list Z; editable : Z }.

Definition typed (t : terminal_t) : list Z := take (Z.to_nat (buf_count t)) (line_buf t).
Definition line_of (t : terminal_t) : line := Line (typed t) (input_len t).

Definition edit_key (reading : bool) (key : Z) (l : line) : line :=
  if key =? KEY_RETURN then if reading then Line (text l ++ [10]) 0 else Line [] 0
  else if key =? KEY_BACKSPACE then
    if editable l =? 0 then l else Line (take (length (text l) - 1) (text l)) (editable l - 1)
  else if decide (length (text l) < 126)%nat then Line (text l ++ [key]) (editable l + 1)
  else l.

(** The buffer holds the text and zeros, and only typed text can be erased. *)
Record term_ok (t : terminal_t) : Prop := {
  tok_len : length (line_buf t) = 128%nat;
  tok_count : 0 ≤ buf_count t ≤ 128;
  tok_input : 0 ≤ input_len t ≤ buf_count t;
  tok_tail : drop (Z.to_nat (buf_count t)) (line_buf t) = replicate (128 - Z.to_nat (buf_count t)) 0;
  tok_bytes : Forall (λ v, word8 v) (line_buf t);
  tok_screen : screen_ok (screen t) }.

(** The page of terminal [cur] as the abstract screen. *)
Definition page_of (cur : Z) (m : mem) (s : screen_t) : aterm :=
  abs_screen m (Screen (scr_x s) (scr_y s) (video_mem s + PAGE_SIZE * (cur + 1))).

Lemma on_page_putc cur key m s :
  screen_ok s →
  let '(m', s') := on_page cur (putc_in_terminal key) m s in
  page_of cur m' s' = a_putc (u8 key) (page_of cur m s) ∧ screen_ok s' ∧
  video_mem s' = video_mem s ∧
  frame (video_mem s + PAGE_SIZE * (cur + 1)) (video_mem s + PAGE_SIZE * (cur + 1) + 4000) m m'.
Proof.
  destruct s as [x y v]. intros Hs. unfold on_page, page_of. cbn [scr_x scr_y video_mem].
  assert (screen_ok (Screen x y (v + PAGE_SIZE * (cur + 1)))) as Hs'
    by (destruct Hs; split; cbn [scr_x scr_y] in *; done).
  pose proof (putc_in_terminal_abs key m _ Hs') as H. cbv zeta in H.
  destruct (putc_in_terminal key m _) as [m' [x' y' v']]. cbn [fst snd scr_x scr_y video_mem] in *.
  destruct H as (H1 & H2 & H3 & H4). cbn [video_mem] in H3, H4. subst v'.
  replace (v + PAGE_SIZE * (cur + 1) - PAGE_SIZE * (cur + 1) + PAGE_SIZE * (cur + 1))
    with (v + PAGE_SIZE * (cur + 1)) by lia.
  split; [exact H1|]. split; [destruct H2; split; cbn [scr_x scr_y] in *; done|].
  split; [lia|exact H4].
Qed.

Lemma on_page_backspace cur m s :
  screen_ok s → (scr_x s, scr_y s) ≠ (0, 0) →
  let '(m', s') := on_page cur backspace_fnc m s in
  screen_ok s' ∧ video_mem s' = video_mem s ∧
  frame (video_mem s + PAGE_SIZE * (cur + 1)) (video_mem s + PAGE_SIZE * (cur + 1) + 4000) m m'.
Proof.
  destruct s as [x y v]. intros Hs Hne. unfold on_page. cbn [scr_x scr_y video_mem] in *.
  assert (screen_ok (Screen x y (v + PAGE_SIZE * (cur + 1)))) as Hs'
    by (destruct Hs; split; cbn [scr_x scr_y] in *; done).
  pose proof (backspace_spec m _ Hs' Hne) as H. cbv zeta in H.
  destruct (backspace_fnc m _) as [m' [x' y' v']]. cbn [fst snd scr_x scr_y video_mem] in *.
  destruct H as (H2 & H3 & _ & _ & H4). subst v'.
  split; [destruct H2; split; cbn [scr_x scr_y] in *; done|]. split; [lia|exact H4].
Qed.

(** Buffers: storing at the end, erasing the end. *)
Lemma typed_store t n v :
  n = Z.to_nat (buf_count t) → length (line_buf t) = 128%nat → (n < 128)%nat →
  take (S n) (<[n := v]> (line_buf t)) = typed t ++ [v].
Proof.
  intros -> Hl Hn. unfold typed. rewrite (take_S_r _ _ v).
  - by rewrite take_insert_ge by lia.
  - apply list_lookup_insert_eq. lia.
Qed.

Lemma drop_replicate_S {A} n k (x : A) l :
  drop n l = replicate k x → drop (S n) l = replicate (k - 1) x.
Proof.
  intros H. replace (S n) with (n + 1)%nat by lia. rewrite <- drop_drop, H, drop_replicate. done.
Qed.

Section spec.
Context {D : Type} `{Board D}.

Lemma line_store_ok t i v :
  0 ≤ i < 128 →
  line_store t i v = Some (Term (screen t) (<[Z.to_nat i := u8 v]> (line_buf t)) (buf_count t)
                             (input_len t) (hit_enter t) (reading t)).
Proof.
  intros Hi. unfold line_store, LINE_BUF_MAX. rewrite (proj2 (Z.leb_le 0 i)) by lia.
  by rewrite (proj2 (Z.ltb_lt i 128)) by lia.
Qed.

Lemma put_terminal_current cur t k :
  current_terminal (put_terminal cur t k) = current_terminal k ∧
  modifiers (put_terminal cur t k) = modifiers k.
Proof. done. Qed.

(** [update] on a terminal with room for one more byte. *)
Lemma update_spec key m k d t :
  let cur := current_terminal k in
  get_terminal cur k = Some t → term_ok t → buf_count t < 128 → word8 key →
  (key = KEY_BACKSPACE → (scr_x (screen t), scr_y (screen t)) ≠ (0, 0)) →
  ∃ m' k' d' t', update key m k d = Some (m', k', d') ∧
    terminals k' = <[Z.to_nat cur := t']> (terminals k) ∧ current_terminal k' = cur ∧
    term_ok t' ∧ line_of t' = edit_key (negb (reading t =? 0)) key (line_of t) ∧
    reading t' = reading t ∧ hit_enter t' = (if key =? KEY_RETURN then 1 else hit_enter t) ∧
    video_mem (screen t') = video_mem (screen t) ∧
    (key ≠ KEY_BACKSPACE → page_of cur m' (screen t')
       = if (key =? KEY_RETURN) || bool_decide (buf_count t < 126)
         then a_putc key (page_of cur m (screen t)) else page_of cur m (screen t)) ∧
    frame (video_mem (screen t) + PAGE_SIZE * (cur + 1))
      (video_mem (screen t) + PAGE_SIZE * (cur + 1) + 4000) m m'.
Proof.
  intros cur Ht [H1 H2 H3 H4 H6 H5] Hlt Hkey Hbs. unfold update. fold cur. rewrite Ht.
  assert (get_terminal cur k = Some t → <[Z.to_nat cur := t]> (terminals k) = terminals k) as Hsame.
  { unfold get_terminal. case_match; [done|]. apply list_insert_id. }
  assert (length (typed t) = Z.to_nat (buf_count t)) as Htl
    by (unfold typed; rewrite length_take; lia).
  unfold edit_key, line_of. cbn [text editable]. rewrite Htl.
  destruct (Z.eqb_spec key KEY_RETURN) as [->|Hnr].
  - pose proof (on_page_putc cur KEY_RETURN m (screen t) H5) as Hp.
    destruct (on_page _ _ _ _) as [m1 s1]. destruct Hp as (Hp1 & Hp2 & Hp3 & Hp4).
    rewrite line_store_ok by (simpl; lia). cbn [set_screen screen line_buf buf_count input_len hit_enter reading].
    destruct (Z.eqb_spec (reading t) 0) as [Er|Er]; cbn [negb];
      (do 4 eexists; split; [reflexivity|]; split; [reflexivity|]; split; [reflexivity|]).
    + cbn [screen line_buf buf_count input_len hit_enter reading].
      split; [split; cbn [screen line_buf buf_count input_len]; try done; try lia;
              apply Forall_replicate; unfold NULL_CHAR; lia|]. split; [done|]. split; [done|]. split; [done|].
      split; [exact Hp3|]. split; [intros _; exact Hp1|exact Hp4].
    + cbn [screen line_buf buf_count input_len hit_enter reading]. rewrite u16_small by lia.
      replace (Z.to_nat (buf_count t + 1)) with (S (Z.to_nat (buf_count t))) by lia.
      split; [|split; [|split; [|split; [|split; [|split]]]]]; try done.
      * split; cbn [screen line_buf buf_count input_len]; try done; try lia.
        -- by rewrite length_insert.
        -- replace (Z.to_nat (buf_count t + 1)) with (S (Z.to_nat (buf_count t))) by lia.
           rewrite drop_insert_lt by lia. rewrite (drop_replicate_S _ _ _ _ H4). f_equal. lia.
        -- apply Forall_insert; [done|apply u8_range].
      * unfold typed. cbn [line_buf buf_count].
        replace (Z.to_nat (buf_count t + 1)) with (S (Z.to_nat (buf_count t))) by lia.
        rewrite typed_store by lia. done.
  - destruct (Z.eqb_spec key KEY_BACKSPACE) as [->|Hnb].
    + destruct (Z.eqb_spec (input_len t) 0) as [Ei|Ei]; cbn [negb].
      * do 4 eexists; split; [reflexivity|]. split; [symmetry; by apply Hsame|].
        split; [done|]. split; [by split|]. split; [done|]. split; [done|]. split; [done|]. split; [done|].
        split; [done|apply frame_refl].
      * pose proof (on_page_backspace cur m (screen t) H5 (Hbs eq_refl)) as Hp.
        destruct (on_page _ _ _ _) as [m1 s1]. destruct Hp as (Hp2 & Hp3 & Hp4).
        rewrite line_store_ok by (cbn [buf_count]; rewrite u16_small by lia; lia).
        cbn [screen line_buf buf_count input_len hit_enter reading].
        rewrite u16_small, s32_small by lia.
        do 4 eexists; split; [reflexivity|]; split; [reflexivity|]; split; [reflexivity|].
        set (n := Z.to_nat (buf_count t - 1)). assert (Z.to_nat (buf_count t) = S n) as Hn by lia.
        cbn [screen line_buf buf_count input_len hit_enter reading].
        split; [|split; [|split; [|split; [|split; [|split]]]]]; try done.
        -- split; cbn [screen line_buf buf_count input_len]; try done; try lia.
           ++ by rewrite length_insert.
           ++ fold n. rewrite drop_insert_ge, Nat.sub_diag by lia.
              rewrite Hn in H4. destruct (drop n (line_buf t)) as [|x l] eqn:E.
              { apply (f_equal length) in E. rewrite length_drop in E. simpl in E. lia. }
              assert (l = replicate (128 - S n) 0) as ->.
              { rewrite <- H4. replace (S n) with (n + 1)%nat by lia.
                rewrite <- drop_drop, E. done. }
              simpl. replace (128 - n)%nat with (S (128 - S n)) by lia. done.
           ++ apply Forall_insert; [done|apply u8_range].
        -- unfold typed. cbn [line_buf buf_count]. fold n.
           rewrite take_insert_ge by lia. f_equal. rewrite take_take. f_equal. lia.
    + unfold LINE_BUF_MAX. change (128 - 1 - 1) with 126.
      destruct (Z.ltb_spec (buf_count t) 126) as [Hc|Hc].
      * rewrite decide_True by lia. rewrite bool_decide_eq_true_2 by lia.
        pose proof (on_page_putc cur key m (screen t) H5) as Hp.
        destruct (on_page _ _ _ _) as [m1 s1]. destruct Hp as (Hp1 & Hp2 & Hp3 & Hp4).
        rewrite line_store_ok by (simpl; lia).
        cbn [set_screen screen line_buf buf_count input_len hit_enter reading].
        rewrite u16_small, s32_small, (u8_small key) in * by lia.
        do 4 eexists; split; [reflexivity|]; split; [reflexivity|]; split; [reflexivity|].
        cbn [screen line_buf buf_count input_len hit_enter reading].
        split; [|split; [|split; [|split; [|split; [|split]]]]]; try done.
        -- split; cbn [screen line_buf buf_count input_len]; try done; try lia.
           ++ by rewrite length_insert.
           ++ replace (Z.to_nat (buf_count t + 1)) with (S (Z.to_nat (buf_count t))) by lia.
              rewrite drop_insert_lt by lia. rewrite (drop_replicate_S _ _ _ _ H4). f_equal. lia.
           ++ by apply Forall_insert.
        -- unfold typed. cbn [line_buf buf_count].
           replace (Z.to_nat (buf_count t + 1)) with (S (Z.to_nat (buf_count t))) by lia.
           rewrite typed_store by lia. done.
      * rewrite decide_False by lia. rewrite bool_decide_eq_false_2 by lia.
        do 4 eexists; split; [reflexivity|]. split; [symmetry; by apply Hsame|].
        split; [done|]. split; [by split|]. split; [done|]. split; [done|]. split; [done|]. split; [done|].
        split; [done|apply frame_refl].
Qed.
End spec.

(** ** Reading *)

Lemma take_line t n :
  length (line_buf t) = 128%nat → (n ≤ Z.to_nat (buf_count t))%nat →
  take n (line_buf t) = take n (typed t).
Proof. intros Hl Hn. unfold typed. rewrite take_take. f_equal. lia. Qed.

(** The buffer after [n] of its bytes went to the reader. *)
Lemma buffer_shift (lb : list Z) c n :
  length lb = 128%nat → (c ≤ 128)%nat → (n ≤ 128)%nat → drop c lb = replicate (128 - c) 0 →
  let d := (c - n)%nat in
  let lb1 := take d (drop n lb) ++ drop d lb in
  let lb' := take d lb1 ++ replicate n 0 ++ drop (d + n) lb1 in
  length lb' = 128%nat ∧ take d lb' = drop n (take c lb) ∧ drop d lb' = replicate (128 - d) 0.
Proof.
  intros Hl Hc Hn Htail d lb1 lb'.
  assert (length lb1 = 128%nat) as Hl1.
  { unfold lb1. rewrite length_app, length_take, !length_drop. lia. }
  assert (take d lb1 = take d (drop n lb)) as Ht1.
  { unfold lb1. apply take_app_length'. rewrite length_take, length_drop. lia. }
  assert (length (take d lb1) = d) as Htl by (rewrite length_take; lia).
  split; [|split].
  - unfold lb'. rewrite !length_app, Htl, length_replicate, length_drop. lia.
  - unfold lb'. rewrite take_app_length' by done. rewrite Ht1.
    rewrite take_drop_commute. unfold d.
    destruct (decide (n ≤ c)%nat); [f_equal; f_equal; lia|].
    rewrite !drop_ge; [done|rewrite length_take; lia|rewrite length_take; lia].
  - unfold lb'. rewrite drop_app_length' by done.
    assert (drop (d + n) lb1 = replicate (128 - (d + n)) 0) as ->.
    { unfold lb1. rewrite drop_app_ge by (rewrite length_take, length_drop; lia).
      rewrite length_take, length_drop, drop_drop.
      replace (d + (d + n - d `min` (length lb - n)))%nat with (c + (d + n - c))%nat by lia.
      rewrite <- drop_drop, Htail, drop_replicate. f_equal. lia. }
    rewrite <- replicate_add. f_equal. lia.
Qed.

Section read.
Context {D : Type} `{Board D}.

Lemma terminal_read_finish_spec buf nbytes term m k (d : D) t :
  get_terminal term k = Some t → term_ok t → 0 ≤ nbytes →
  let n := Z.min nbytes 128 in
  ∃ lb d',
    terminal_read_finish buf nbytes term m k d
    = Some (Z.min n (buf_count t), store_bytes m buf (take (Z.to_nat n) (line_buf t)),
            put_terminal term (Term (screen t) lb (Z.max 0 (buf_count t - n)) (input_len t) 0 0) k, d')
    ∧ length lb = 128%nat ∧
    take (Z.to_nat (Z.max 0 (buf_count t - n))) lb = drop (Z.to_nat n) (typed t) ∧
    drop (Z.to_nat (Z.max 0 (buf_count t - n))) lb
      = replicate (128 - Z.to_nat (Z.max 0 (buf_count t - n))) 0.
Proof.
  intros Ht [H1 H2 H3 H4 H6 H5] Hn n. unfold terminal_read_finish, LINE_BUF_MAX. rewrite Ht.
  assert ((if nbytes >? 128 then 128 else nbytes) = n) as Hclamp
    by (unfold n; destruct (Z.gtb_spec nbytes 128); lia).
  rewrite Hclamp. assert (0 ≤ n ≤ 128) as Hnb by (unfold n; lia). clearbody n.
  assert ((if buf_count t - n <? 0 then 0 else buf_count t - n) = Z.max 0 (buf_count t - n)) as ->
    by (destruct (Z.ltb_spec (buf_count t - n) 0); lia).
  assert ((if n >? buf_count t then buf_count t else n) = Z.min n (buf_count t)) as ->
    by (destruct (Z.gtb_spec n (buf_count t)); lia).
  rewrite (proj2 (Z.ltb_ge n 0)) by lia. rewrite Z.gtb_ltb, (proj2 (Z.ltb_ge 128 _)) by lia.
  cbn [orb]. pose proof (buffer_shift (line_buf t) (Z.to_nat (buf_count t)) (Z.to_nat n) H1
    ltac:(lia) ltac:(lia) H4) as Hb. cbv zeta in Hb.
  replace (Z.to_nat (buf_count t) - Z.to_nat n)%nat
    with (Z.to_nat (Z.max 0 (buf_count t - n))) in Hb by lia.
  rewrite u16_small by lia. do 2 eexists. split; [reflexivity|]. exact Hb.
Qed.
End read.

(** ** Properties *)

(** C29: with room in the buffer, a printing key, backspace and return are
    exactly the steps of the line editor: a key is appended below 126
    characters and ignored from there on, backspace erases only what was typed
    since the last return, return ends the line for a reader and drops it
    otherwise; the key is echoed on the terminal's own page and nothing
    outside that page is written.  Left out is a backspace with the cursor at
    the top left, where [backspace_fnc] writes two bytes before the page. *)
Theorem update_line_discipline {D} `{Board D} key m k (d : D) t :
  let cur := current_terminal k in
  get_terminal cur k = Some t → term_ok t → buf_count t < 128 → word8 key →
  (key = KEY_BACKSPACE → (scr_x (screen t), scr_y (screen t)) ≠ (0, 0)) →
  ∃ m' k' d' t', update key m k d = Some (m', k', d') ∧
    terminals k' = <[Z.to_nat cur := t']> (terminals k) ∧ current_terminal k' = cur ∧
    term_ok t' ∧ line_of t' = edit_key (negb (reading t =? 0)) key (line_of t) ∧
    reading t' = reading t ∧ hit_enter t' = (if key =? KEY_RETURN then 1 else hit_enter t) ∧
    video_mem (screen t') = video_mem (screen t) ∧
    (key ≠ KEY_BACKSPACE → page_of cur m' (screen t')
       = if (key =? KEY_RETURN) || bool_decide (buf_count t < 126)
         then a_putc key (page_of cur m (screen t)) else page_of cur m (screen t)) ∧
    frame (video_mem (screen t) + PAGE_SIZE * (cur + 1))
      (video_mem (screen t) + PAGE_SIZE * (cur + 1) + 4000) m m'.
Proof. exact (update_spec key m k d t). Qed.

(** A terminal on which [text] was typed, the last [n] characters of it since
    the last return. *)
Definition sample_term (text : list Z) (n rd : Z) : terminal_t :=
  Term (Screen 5 3 VIDEO) (text ++ replicate (128 - length text) 0) (Z.of_nat (length text)) n 0 rd.
Lemma sample_term_ok text n rd :
  (length text ≤ 128)%nat → Forall (λ v, word8 v) text → 0 ≤ n ≤ Z.of_nat (length text) →
  term_ok (sample_term text n rd).
Proof.
  intros Hl Hb Hn. split; cbn [sample_term line_buf buf_count input_len screen]; try lia.
  - rewrite length_app, length_replicate. lia.
  - rewrite Nat2Z.id, drop_app_length. done.
  - apply Forall_app. split; [done|]. apply Forall_replicate. lia.
  - split; simpl; lia.
Qed.
Definition sample_kbd (t : terminal_t) : kbd_state := Kbd [t; t; t] mods_statics 1.

Lemma update_line_discipline_witness :
  ∃ m' k' d' t', update 97 ∅ (sample_kbd (sample_term [104; 105] 2 1)) pc_reset = Some (m', k', d') ∧
    terminals k' = <[1%nat := t']> (terminals (sample_kbd (sample_term [104; 105] 2 1))) ∧
    line_of t' = edit_key true 97 (line_of (sample_term [104; 105] 2 1)).
Proof.
  destruct (update_line_discipline 97 ∅ (sample_kbd (sample_term [104; 105] 2 1)) pc_reset
    (sample_term [104; 105] 2 1)) as (m' & k' & d' & t' & H1 & H2 & _ & _ & H3 & _).
  - reflexivity.
  - apply sample_term_ok; [simpl; lia|repeat constructor; lia|simpl; lia].
  - simpl. lia.
  - lia.
  - discriminate.
  - exists m', k', d', t'. split; [exact H1|]. split; [exact H2|exact H3].
Defined.

(** When the wait is over, [terminal_read] returns the first bytes of the
    buffer, at most [nbytes] (and 128), removes exactly them from it and pads
    the caller's buffer with zeros; text typed after the return is handed over
    with the line, and what can be erased is not adjusted. *)
Lemma terminal_read_takes {D} `{Board D} buf nbytes term m k (d : D) t :
  get_terminal term k = Some t → term_ok t → 0 ≤ nbytes →
  let n := Z.min nbytes 128 in
  let r := Z.min n (buf_count t) in
  ∃ m' t' d', terminal_read_finish buf nbytes term m k d = Some (r, m', put_terminal term t' k, d') ∧
    load_bytes m' buf (Z.to_nat n) = take (Z.to_nat n) (typed t) ++ replicate (Z.to_nat (n - r)) 0 ∧
    frame buf (buf + n) m m' ∧
    typed t' = drop (Z.to_nat n) (typed t) ∧ input_len t' = input_len t ∧
    hit_enter t' = 0 ∧ reading t' = 0 ∧ (input_len t ≤ buf_count t' → term_ok t').
Proof.
  intros Ht Hok Hn n r. destruct (terminal_read_finish_spec buf nbytes term m k d t Ht Hok Hn)
    as (lb & d' & E & Hl & Htake & Hdrop). fold n in E, Htake, Hdrop.
  destruct Hok as [H1 H2 H3 H4 H6 H5]. do 3 eexists. split; [exact E|].
  assert (0 ≤ n ≤ 128) as Hnb by (unfold n; lia).
  assert (take (Z.to_nat n) (line_buf t)
          = take (Z.to_nat n) (typed t) ++ replicate (Z.to_nat (n - r)) 0) as Hbuf.
  { rewrite <- (take_drop (Z.to_nat (buf_count t)) (line_buf t)) at 1. fold (typed t).
    rewrite H4, take_app. f_equal. rewrite take_replicate. f_equal.
    unfold typed. rewrite length_take. unfold r. lia. }
  assert (length (take (Z.to_nat n) (line_buf t)) = Z.to_nat n) as Hlen by (rewrite length_take; lia).
  split; [|split; [|split; [|split; [|split; [|split]]]]]; try done.
  - rewrite <- Hbuf. rewrite <- Hlen at 2. apply load_store_bytes. by apply Forall_take.
  - eapply frame_mono; [apply frame_store_bytes|lia|lia].
  - cbn [input_len buf_count]. intros Hi. split; cbn [line_buf buf_count input_len screen]; try done; try lia.
    rewrite <- (take_drop (Z.to_nat (Z.max 0 (buf_count t - n))) lb), Htake, Hdrop.
    apply Forall_app. split; [by apply Forall_drop, Forall_take|]. apply Forall_replicate. lia.
Qed.

Lemma terminal_read_takes_witness :
  ∃ m' t' d', terminal_read_finish 5000 2 1 ∅ (sample_kbd (sample_term [104; 105; 10] 0 1)) pc_reset
    = Some (2, m', put_terminal 1 t' (sample_kbd (sample_term [104; 105; 10] 0 1)), d') ∧
    load_bytes m' 5000 2 = [104; 105] ∧ typed t' = [10].
Proof.
  destruct (terminal_read_takes 5000 2 1 ∅ (sample_kbd (sample_term [104; 105; 10] 0 1)) pc_reset
    (sample_term [104; 105; 10] 0 1)) as (m' & t' & d' & E & H1 & _ & H2 & _).
  - reflexivity.
  - apply sample_term_ok; [simpl; lia|repeat constructor; lia|simpl; lia].
  - lia.
  - exists m', t', d'. split; [exact E|]. split; [exact H1|exact H2].
Defined.

(** Text typed between the return and the end of the read leaves more
    erasable characters than the buffer holds; the next backspace stores at
    index 65535, outside the line buffer. *)
Lemma typeahead_breaks_backspace {D} `{Board D} buf nbytes term m k (d : D) t :
  get_terminal term k = Some t → term_ok t → 0 < input_len t → buf_count t ≤ nbytes →
  current_terminal k = term →
  ∃ r m' k' d' t', terminal_read_finish buf nbytes term m k d = Some (r, m', k', d') ∧
    get_terminal term k' = Some t' ∧ buf_count t' = 0 ∧ input_len t' = input_len t ∧
    ∀ m1 d1, update KEY_BACKSPACE m1 k' d1 = None.
Proof.
  intros Ht Hok Hi Hn Hc. pose proof Hok as [H1 H2 H3 _ _ _].
  destruct (terminal_read_finish_spec buf nbytes term m k d t Ht Hok ltac:(lia))
    as (lb & d' & E & _). replace (Z.max 0 (buf_count t - Z.min nbytes 128)) with 0 in E by lia.
  set (t' := Term (screen t) lb 0 (input_len t) 0 0) in E.
  assert (get_terminal term (put_terminal term t' k) = Some t') as Ht'.
  { unfold get_terminal in *. case_match; [done|]. simpl. apply list_lookup_insert_eq.
    by apply lookup_lt_Some in Ht. }
  do 5 eexists. split; [exact E|]. split; [exact Ht'|]. split; [done|]. split; [done|].
  intros m1 d1. unfold update. change (current_terminal (put_terminal term t' k)) with (current_terminal k).
  rewrite Hc, Ht'. change (KEY_BACKSPACE =? KEY_RETURN) with false.
  change (KEY_BACKSPACE =? KEY_BACKSPACE) with true. cbn [input_len t'].
  rewrite (proj2 (Z.eqb_neq _ _)) by lia. cbn [negb]. by destruct (on_page _ _ _ _).
Qed.

Lemma typeahead_breaks_backspace_witness :
  ∃ r m' k' d' t', terminal_read_finish 5000 128 1 ∅ (sample_kbd (sample_term [104; 10; 120] 1 1)) pc_reset
    = Some (r, m', k', d') ∧ get_terminal 1 k' = Some t' ∧ buf_count t' = 0 ∧ input_len t' = 1 ∧
    ∀ m1 d1, update KEY_BACKSPACE m1 k' d1 = None (A := mem * kbd_state * pc).
Proof.
  apply (typeahead_breaks_backspace 5000 128 1 ∅ (sample_kbd (sample_term [104; 10; 120] 1 1)) pc_reset
    (sample_term [104; 10; 120] 1 1)).
  - reflexivity.
  - apply sample_term_ok; [simpl; lia|repeat constructor; lia|simpl; lia].
  - simpl. lia.
  - simpl. lia.
  - reflexivity.
Defined.

(** Pressing the same key several times. *)
Fixpoint press {D} `{Board D} (n : nat) (key : Z) (m : mem) (k : kbd_state) (d : D)
    : option (mem * kbd_state * D) :=
  match n with
  | O => Some (m, k, d)
  | S n => match update key m k d with
           | None => None
           | Some (m, k, d) => press n key m k d
           end
  end.

(** While a reader has not been woken up yet, every further return is
    stored without a bound: the presses stay inside the line buffer exactly as
    long as it has room for all of them. *)
Lemma return_overflows_line {D} `{Board D} n m k (d : D) t :
  get_terminal (current_terminal k) k = Some t → term_ok t → reading t ≠ 0 →
  is_Some (press n KEY_RETURN m k d) ↔ buf_count t + Z.of_nat n ≤ 128 ∨ n = 0%nat.
Proof.
  revert m k d t. induction n as [|n IH]; intros m k d t Ht Hok Hr; [simpl; split; eauto|].
  pose proof (tok_count _ Hok) as Hc. cbn [press]. destruct (decide (buf_count t < 128)) as [Hlt|Hge].
  - destruct (update_spec KEY_RETURN m k d t Ht Hok Hlt) as
      (m' & k' & d' & t' & E & Hts & Hcur & Hok' & Hl & Hr' & _); [unfold KEY_RETURN; lia|done|].
    rewrite E. assert (get_terminal (current_terminal k') k' = Some t') as Ht'.
    { rewrite Hcur. unfold get_terminal in *. rewrite Hts. case_match; [done|].
      apply list_lookup_insert_eq. by apply lookup_lt_Some in Ht. }
    rewrite (IH m' k' d' t' Ht' Hok') by congruence.
    assert (buf_count t' = buf_count t + 1) as ->; [|lia].
    apply (f_equal text) in Hl. unfold edit_key in Hl.
    change (KEY_RETURN =? KEY_RETURN) with true in Hl. rewrite (proj2 (Z.eqb_neq _ _)) in Hl by done.
    cbn in Hl. apply (f_equal length) in Hl. rewrite length_app in Hl. unfold typed in Hl.
    rewrite !length_take in Hl. cbn [length] in Hl.
    rewrite (tok_len _ Hok), (tok_len _ Hok') in Hl. pose proof (tok_count _ Hok'). lia.
  - split; [|lia]. intros [x Hx]. unfold update in Hx. rewrite Ht in Hx.
    change (KEY_RETURN =? KEY_RETURN) with true in Hx. cbv iota in Hx.
    destruct (on_page _ _ _ _) as [m1 s1] in Hx.
    unfold line_store, LINE_BUF_MAX in Hx. cbn [set_screen buf_count] in Hx.
    rewrite (proj2 (Z.ltb_ge (buf_count t) 128)), andb_false_r in Hx by lia. discriminate Hx.
Qed.

Lemma return_overflows_line_witness :
  ¬ is_Some (press 129 KEY_RETURN ∅ (sample_kbd (sample_term [] 0 1)) pc_reset).
Proof.
  intros Hs. apply (return_overflows_line 129 ∅ (sample_kbd (sample_term [] 0 1)) pc_reset
    (sample_term [] 0 1)) in Hs.
  - simpl in Hs. lia.
  - reflexivity.
  - apply sample_term_ok; [simpl; lia|constructor|simpl; lia].
  - simpl. lia.
Defined.

(** ** The interrupt handler *)

Section handler.
Context {D : Type} `{Board D}.

Definition same_pics (d d' : D) : Prop :=
  hw_master (obs d') = hw_master (obs d) ∧ hw_slave (obs d') = hw_slave (obs d).

Lemma update_pics key m k d m' k' d' : update key m k d = Some (m', k', d') → same_pics d d'.
Proof.
  unfold update. destruct (get_terminal _ _) as [t|]; [|done].
  destruct (key =? KEY_RETURN); [|destruct (key =? KEY_BACKSPACE);
    [destruct (negb _)|destruct (buf_count t <? _)]].
  - destruct (on_page _ _ _ _) as [m1 s1]. destruct (line_store _ _ _); [|done].
    intros E. apply some_inv, pair_inv in E as [_ <-]. apply move_cursor_pics.
  - destruct (on_page _ _ _ _) as [m1 s1]. destruct (line_store _ _ _); [|done].
    intros E. apply some_inv, pair_inv in E as [_ <-]. apply move_cursor_pics.
  - intros E. apply some_inv, pair_inv in E as [_ <-]. done.
  - destruct (on_page _ _ _ _) as [m1 s1]. destruct (line_store _ _ _); [|done].
    intros E. apply some_inv, pair_inv in E as [_ <-]. apply move_cursor_pics.
  - intros E. apply some_inv, pair_inv in E as [_ <-]. done.
Qed.

Lemma redraw_pics m k d m' k' d' : redraw m k d = Some (m', k', d') → same_pics d d'.
Proof.
  unfold redraw. destruct (get_terminal _ _) as [t|]; [|done].
  destruct (on_page _ _ _ _) as [m1 s1]. intros E. apply some_inv, pair_inv in E as [_ <-].
  apply move_cursor_pics.
Qed.

Lemma start_terminal_pics n k ps d r k' d' a :
  start_terminal n k ps d = Some (r, k', d', a) → same_pics d d'.
Proof.
  unfold start_terminal. repeat (case_match; [intros [= <- <- <- <-]; done|]).
  destruct (get_terminal _ _) as [t|]; [|done].
  assert (same_pics d (move_cursor (u32 n) (screen t) PAGE_SIZE (set_vga_start (u32 n * PAGE_SIZE) d)))
    as Hs.
  { destruct (move_cursor_pics (u32 n) (screen t) PAGE_SIZE (set_vga_start (u32 n * PAGE_SIZE) d)) as [E1 E2].
    destruct (set_vga_start_pics (u32 n * PAGE_SIZE) d) as [E3 E4].
    unfold same_pics. by rewrite E1, E2, E3, E4. }
  repeat case_match; intros E; apply some_inv, pair_inv in E as [E _];
    apply pair_inv in E as [_ <-]; exact Hs.
Qed.

Definition acked (d d' : D) : Prop :=
  ∀ j, 0 ≤ j < 16 →
    irq_in_service (obs d') j = irq_in_service (obs d) j && negb (bool_decide (j = KEYBOARD_IRQ_NUM)).

Lemma acked_eoi_then d d' : same_pics (send_eoi KEYBOARD_IRQ_NUM d) d' → acked d d'.
Proof.
  intros [E1 E2] j Hj. rewrite (irq_in_service_ext _ _ j E1 E2).
  rewrite send_eoi_spec by (unfold KEYBOARD_IRQ_NUM; lia). do 2 f_equal.
  unfold KEYBOARD_IRQ_NUM, SLAVE_IRQ. apply bool_decide_ext. lia.
Qed.
Lemma acked_then_eoi d d' : same_pics d d' → acked d (send_eoi KEYBOARD_IRQ_NUM d').
Proof.
  intros [E1 E2] j Hj. rewrite <- (irq_in_service_ext _ _ j E1 E2).
  by apply (acked_eoi_then d').
Qed.

Lemma key_down_acks sc key m k ps d m' k' d' a :
  key_down sc key m k ps d = Some (m', k', d', a) → acked d d'.
Proof.
  unfold key_down. cbv zeta.
  assert (∀ n, match start_terminal n k ps (send_eoi KEYBOARD_IRQ_NUM d) with
    | None => None | Some (_, k0, d0, a0) => Some (m, k0, d0, a0) end = Some (m', k', d', a) →
    acked d d') as Hswitch.
  { intros n. destruct (start_terminal _ _ _ _) as [[[[r k0] d0] a0]|] eqn:E; [|done].
    intros E'. apply some_inv, pair_inv in E' as [E' _]. apply pair_inv in E' as [_ <-].
    apply acked_eoi_then. by eapply start_terminal_pics. }
  assert (∀ r, (∀ m1 k1 d1, r = Some (m1, k1, d1) → same_pics d d1) →
    match r with None => None
    | Some (m1, k1, d1) => Some (m1, k1, send_eoi KEYBOARD_IRQ_NUM d1, Ta_none) end
    = Some (m', k', d', a) → acked d d') as Hfinish.
  { intros [[[m1 k1] d1]|] Hr; [|done]. intros E'. apply some_inv, pair_inv in E' as [E' _].
    apply pair_inv in E' as [_ <-]. apply acked_then_eoi. by eapply Hr. }
  assert (∀ m1 k1 d1, Some (m, k, d) = Some (m1, k1, d1) → same_pics d d1) as Hid.
  { intros m1 k1 d1 E. apply some_inv, pair_inv in E as [_ <-]. done. }
  destruct (_ && _ && _); [apply Hfinish, redraw_pics|].
  destruct (_ && _ && _ && _); [apply Hswitch|].
  destruct (_ && _ && _ && _); [apply Hswitch|].
  destruct (_ && _ && _ && _); [apply Hswitch|].
  destruct (sc >? _); [apply (Hfinish (Some (m, k, d))), Hid|].
  destruct (prints _); [apply Hfinish, update_pics|apply (Hfinish (Some (m, k, d))), Hid].
Qed.
End handler.

(** On every path - no data, release, modifier, control-L, terminal
    switch, typed or ignored key - the keyboard handler ends the service of
    IRQ 1 and of no other line. *)
Lemma keyboard_handler_acknowledges {D} `{Board D} beyond m k ps (d : D) m' k' d' a :
  keyboard_handler_main beyond m k ps d = Some (m', k', d', a) →
  ∀ j, 0 ≤ j < 16 →
    irq_in_service (obs d') j = irq_in_service (obs d) j && negb (bool_decide (j = KEYBOARD_IRQ_NUM)).
Proof.
  unfold keyboard_handler_main. pose proof (obs_inb_state KEYBOARD_PORT d) as H1.
  destruct (inb KEYBOARD_PORT d) as [status d1]. cbn [snd] in H1. rewrite <- H1.
  destruct (negb _); [|intros E; apply some_inv, pair_inv in E as [E _]; apply pair_inv in E as [_ <-];
    by apply (acked_then_eoi d1 d1)].
  pose proof (obs_inb_state KEYBOARD_PORT_DATA d1) as H2.
  destruct (inb KEYBOARD_PORT_DATA d1) as [sc d2]. cbn [snd] in H2. rewrite <- H2.
  destruct (negb _); [intros E; apply some_inv, pair_inv in E as [E _]; apply pair_inv in E as [_ <-];
    by apply (acked_then_eoi d2 d2)|].
  destruct (key_pressed _ _) as [mo|]; [intros E; apply some_inv, pair_inv in E as [E _];
    apply pair_inv in E as [_ <-]; by apply (acked_then_eoi d2 d2)|].
  apply key_down_acks.
Qed.

(** The key A goes down while IRQ 1 is in service. *)
Lemma keyboard_handler_acknowledges_witness :
  let d := Pc (Hw (Pic 0 2 0x20 []) (Pic 0 0 0x28 []) 0 ∅ 0 ∅ false []) [1] [0x2A] in
  irq_in_service (obs d) 1 = true ∧
  ∃ m' k' d' a, keyboard_handler_main (λ _, 0) ∅ kbd_statics proc_statics d = Some (m', k', d', a) ∧
    irq_in_service (obs d') 1 = false.
Proof.
  intros d. split; [reflexivity|].
  assert (∃ m' k' d' a, keyboard_handler_main (λ _, 0) ∅ kbd_statics proc_statics d = Some (m', k', d', a))
    as (m' & k' & d' & a & E) by (do 4 eexists; vm_compute; reflexivity).
  exists m', k', d', a. split; [exact E|].
  exact (keyboard_handler_acknowledges (λ _, 0) ∅ kbd_statics proc_statics d m' k' d' a E 1 ltac:(lia)).
Defined.

(** Switching terminals fails, changing nothing, for a number that is none,
    for the terminal already shown, and when an empty terminal cannot get a
    process; otherwise the terminal becomes the current one, its page and
    cursor are on the screen, and a shell is scheduled (or at boot executed)
    exactly if it has no process. *)
Lemma start_terminal_switches {D} `{Board D} n k ps (d : D) t :
  0 ≤ n → get_terminal n k = Some t → screen_ok (screen t) →
  -1 ≤ current_terminal k < MAX_TERMINALS → n < MAX_TERMINALS →
  let next := get_active_process n ps in
  if (n =? current_terminal k) || (negb (free_procs ps) && (next =? -1))
  then start_terminal n k ps d = Some (-1, k, d, Ta_none)
  else ∃ d' a, start_terminal n k ps d = Some (0, Kbd (terminals k) (modifiers k) n, d', a) ∧
    (let h := obs d' in
     256 * crtc_reg h CURSOR_HIGH + crtc_reg h CURSOR_LOW
       = 2048 * n + (NUM_COLS * scr_y (screen t) + scr_x (screen t)) ∧
     256 * crtc_reg h START_ADDR_REG_HIGH + crtc_reg h START_ADDR_REG_LOW = 2048 * n) ∧
    a = (if negb (next =? -1) then Ta_none
         else if get_active_process (current_terminal k) ps =? -1 then Ta_execute_shell
         else Ta_schedule_shell).
Proof.
  intros Hn Ht Hs Hc Hn3 next. unfold start_terminal, MAX_TERMINALS in *.
  rewrite (u32_small n) by lia. rewrite (proj2 (Z.ltb_ge n 0)) by lia.
  rewrite Z.geb_leb, (proj2 (Z.leb_gt 3 n)) by lia. cbn [orb]. fold next.
  assert ((n =? u32 (current_terminal k)) = (n =? current_terminal k)) as ->.
  { destruct (decide (current_terminal k = -1)) as [E|E].
    - rewrite E. change (u32 (-1)) with 4294967295.
      by rewrite !(proj2 (Z.eqb_neq n _)) by lia.
    - by rewrite u32_small by lia. }
  destruct (n =? current_terminal k) eqn:E1; [done|]. cbn [orb].
  destruct (negb (free_procs ps) && (next =? -1)) eqn:E2; [done|]. rewrite Ht.
  pose proof (show_terminal_spec n (screen t) d ltac:(lia) Hs) as Hshow.
  destruct (next =? -1); cbn [negb].
  - destruct (get_active_process (current_terminal k) ps =? -1); cbn [negb];
      (do 2 eexists; split; [reflexivity|]; split; [exact Hshow|done]).
  - do 2 eexists. split; [reflexivity|]. split; [exact Hshow|done].
Qed.

Lemma start_terminal_switches_witness :
  let k := sample_kbd (sample_term [] 0 0) in
  ∃ d' a, start_terminal 2 k proc_statics pc_reset = Some (0, Kbd (terminals k) (modifiers k) 2, d', a) ∧
    (let h := obs d' in
     256 * crtc_reg h CURSOR_HIGH + crtc_reg h CURSOR_LOW = 2048 * 2 + (NUM_COLS * 3 + 5) ∧
     256 * crtc_reg h START_ADDR_REG_HIGH + crtc_reg h START_ADDR_REG_LOW = 2048 * 2) ∧
    a = Ta_execute_shell.
Proof.
  intros k. apply (start_terminal_switches 2 k proc_statics pc_reset (sample_term [] 0 0)).
  - lia.
  - reflexivity.
  - split; simpl; lia.
  - unfold MAX_TERMINALS. simpl. lia.
  - unfold MAX_TERMINALS. lia.
Defined.
