(* ===== verification/Kernel.v ===== *)
(** * The state of the whole kernel

    The components' states side by side, the registers a system call sees,
    memory in the address space of the running process, and how a call ends.
    What a change of directory does to memory is the processor's business: the
    parameter [Mmu]. *)
From S2P Require Import Prelude CMem LibString Ports Screen Process FileSys Paging Idt Rtc KeyTable.
From S2P Require Import Keyboard.

Definition KERNEL_STACK_SIZE := 0x2000.
Definition WORD_SIZE := 4.

(** Switching the directory replaces the part of memory the directories map
    differently; the kernel's 4 MB page is the same in all of them. *)
Definition kernel_address (a : Z) : Prop := KERNEL_LOC ≤ a < KERNEL_LOC + SPACE_4MB.
Class Mmu := {
  remap : pd_ptr → mem → mem;
  remap_kernel pd m a : kernel_address a → mget (remap pd m) a = mget m a }.
(** A machine whose other memory is cleared by a switch, for examples. *)
#[export] Instance sample_mmu : Mmu.
Proof.
  refine {| remap := λ pd m, filter (λ av, kernel_address av.1) m |}.
  intros pd m a Ha. unfold mget. f_equal. f_equal.
  destruct (m !! a) as [v|] eqn:E.
  - by apply map_lookup_filter_Some_2.
  - apply map_lookup_filter_None_2. by left.
Defined.

Record kernel {D : Type} := Kernel {
  kmem : mem; kproc : proc_state; kpcbs : gmap Z pcb_t; kkbd : kbd_state; krtc : rtc_state;
  kvm : vm_state; kesp : Z; kebp : Z; ktss_esp0 : Z; ktss_ss0 : Z; kboot : Z; kdev : D }.
Arguments kernel : clear implicits.
#[global] Arguments Kernel {_} _ _ _ _ _ _ _ _ _ _ _ _.

Section updates.
Context {D : Type}.
Definition set_kmem (m : mem) (k : kernel D) : kernel D :=
  Kernel m (kproc k) (kpcbs k) (kkbd k) (krtc k) (kvm k) (kesp k) (kebp k) (ktss_esp0 k)
    (ktss_ss0 k) (kboot k) (kdev k).
Definition set_kproc (p : proc_state) (k : kernel D) : kernel D :=
  Kernel (kmem k) p (kpcbs k) (kkbd k) (krtc k) (kvm k) (kesp k) (kebp k) (ktss_esp0 k)
    (ktss_ss0 k) (kboot k) (kdev k).
Definition set_kpcb (a : Z) (p : pcb_t) (k : kernel D) : kernel D :=
  Kernel (kmem k) (kproc k) (<[a := p]> (kpcbs k)) (kkbd k) (krtc k) (kvm k) (kesp k) (kebp k)
    (ktss_esp0 k) (ktss_ss0 k) (kboot k) (kdev k).
Definition set_kkbd (b : kbd_state) (k : kernel D) : kernel D :=
  Kernel (kmem k) (kproc k) (kpcbs k) b (krtc k) (kvm k) (kesp k) (kebp k) (ktss_esp0 k)
    (ktss_ss0 k) (kboot k) (kdev k).
Definition set_krtc (r : rtc_state) (k : kernel D) : kernel D :=
  Kernel (kmem k) (kproc k) (kpcbs k) (kkbd k) r (kvm k) (kesp k) (kebp k) (ktss_esp0 k)
    (ktss_ss0 k) (kboot k) (kdev k).
Definition set_kvm (v : vm_state) (k : kernel D) : kernel D :=
  Kernel (kmem k) (kproc k) (kpcbs k) (kkbd k) (krtc k) v (kesp k) (kebp k) (ktss_esp0 k)
    (ktss_ss0 k) (kboot k) (kdev k).
Definition set_kregs (esp ebp : Z) (k : kernel D) : kernel D :=
  Kernel (kmem k) (kproc k) (kpcbs k) (kkbd k) (krtc k) (kvm k) esp ebp (ktss_esp0 k)
    (ktss_ss0 k) (kboot k) (kdev k).
Definition set_ktss (esp0 ss0 : Z) (k : kernel D) : kernel D :=
  Kernel (kmem k) (kproc k) (kpcbs k) (kkbd k) (krtc k) (kvm k) (kesp k) (kebp k) esp0 ss0
    (kboot k) (kdev k).
Definition set_kdev (d : D) (k : kernel D) : kernel D :=
  Kernel (kmem k) (kproc k) (kpcbs k) (kkbd k) (krtc k) (kvm k) (kesp k) (kebp k) (ktss_esp0 k)
    (ktss_ss0 k) (kboot k) d.

(** The [pcb] macro, and the descriptor table of the running process. *)
Definition cur_addr (k : kernel D) : Z := pcb_addr (kesp k).
Definition cur_pcb (k : kernel D) : pcb_t := kpcbs k !!! cur_addr k.
Definition cur_fd (fd : Z) (k : kernel D) : fd_t := files (cur_pcb k) !!! Z.to_nat fd.
Definition set_cur_fd (fd : Z) (f : fd_t) (k : kernel D) : kernel D :=
  set_kpcb (cur_addr k) (pcb_set_files (<[Z.to_nat fd := f]> (files (cur_pcb k))) (cur_pcb k)) k.

(** How a call ends. *)
Inductive outcome :=
  | Ret (r : Z) (k : kernel D)               (* returns to the caller *)
  | Wait_terminal (buf nbytes : Z) (k : kernel D)  (* spins on hit_enter *)
  | Wait_rtc (k : kernel D)                  (* spins on the tick count *)
  | Enter (entry user_esp : Z) (k : kernel D)      (* user mode at entry *)
  | Resume (bl : Z) (k : kernel D)           (* back in the parent's execute, status in bl *)
  | Restart_shell (k : kernel D)             (* a base shell ended: execute a new one *)
  | Fault.
End updates.
Arguments outcome : clear implicits.

(** A directory of the process array, changed in place. *)
Definition upd_pd (p : pd_ptr) (f : table → table) (s : vm_state) : vm_state :=
  match p with
  | PdNull => s
  | PdFirst => Vm (f (pd_first s)) (pds s) (pt_vidmem s) (pt_user_vidmem s) (cr0 s) (cr3 s) (cr4 s)
  | PdProc i => Vm (pd_first s) (upd (pds s) i f) (pt_vidmem s) (pt_user_vidmem s) (cr0 s) (cr3 s)
                  (cr4 s)
  end.

Lemma upd_pd_tables p f s :
  pt_vidmem (upd_pd p f s) = pt_vidmem s ∧ pt_user_vidmem (upd_pd p f s) = pt_user_vidmem s.
Proof. by destruct p. Qed.

Section paging.
Context {D : Type} `{Mmu}.
(** [set_pd] as the kernel sees it: the register, and the memory behind it. *)
Definition switch_pd (p : pd_ptr) (k : kernel D) : kernel D :=
  let v := set_pd p (kvm k) in
  set_kmem (remap (cr3 v) (kmem k)) (set_kvm v k).
End paging.

(** The address of the PCB of a process, and of the top of its stack. *)
Definition pcb_of_pid (pid : Z) : Z := KERNEL_MEM_END - (pid + 1) * KERNEL_STACK_SIZE.
Definition esp0_of_pid (pid : Z) : Z := KERNEL_MEM_END - KERNEL_STACK_SIZE * pid - WORD_SIZE.


(** The stack of a process lies above its PCB, so the macro finds the PCB from
    any stack pointer in it; stacks of different processes do not meet. *)
Lemma pcb_addr_stack p esp :
  1 ≤ p ≤ MAX_PROCESSES → pcb_of_pid p ≤ esp < pcb_of_pid p + KERNEL_STACK_SIZE →
  pcb_addr esp = pcb_of_pid p.
Proof.
  unfold pcb_of_pid, KERNEL_STACK_SIZE, MAX_PROCESSES, KERNEL_MEM_END, pcb_addr. intros Hp He.
  change PCB_MASK with (2 ^ 32 - 2 ^ 13). rewrite land_high by lia. change (2 ^ 13) with 8192. lia.
Qed.
Lemma pcb_of_pid_inj p q : pcb_of_pid p = pcb_of_pid q → p = q.
Proof. unfold pcb_of_pid, KERNEL_STACK_SIZE. lia. Qed.
Lemma pcb_of_pid_nonzero p : 1 ≤ p ≤ MAX_PROCESSES → pcb_of_pid p ≠ 0.
Proof. unfold pcb_of_pid, KERNEL_STACK_SIZE, MAX_PROCESSES, KERNEL_MEM_END. lia. Qed.
Lemma esp0_in_stack p :
  1 ≤ p ≤ MAX_PROCESSES → pcb_of_pid p ≤ esp0_of_pid p < pcb_of_pid p + KERNEL_STACK_SIZE.
Proof.
  unfold esp0_of_pid, pcb_of_pid, KERNEL_STACK_SIZE, WORD_SIZE, MAX_PROCESSES, KERNEL_MEM_END. lia.
Qed.

(** A state for examples: process 1 runs on terminal 0, with a file system
    whose only file is [a] and the string "a" in its memory. *)
Definition sample_pcb : pcb_t :=
  Pcb (Fd (Some term_fops) 0 0 0 FD_LIVE :: Fd (Some term_fops) 0 0 0 FD_LIVE
         :: replicate 6 (Fd None 0 0 0 0))
    3 1 0 (Context 0 0 (esp0_of_pid 1) 0) 0 0 (PdProc 0) 0.
Definition sample_proc : proc_state :=
  ProcState 1 [1; 0; 0; 0; 0; 0] [1; -1; -1]
    [Some rtc_fops; Some dir_fops; Some fs_fops; Some term_fops; None; None].
Definition sample_user_mem : mem :=
  store_bytes (store_bytes sample_fs 50000 [97; 0]) (pcb_of_pid 1 + PCB_ARGS) [102; 111; 111; 0].
Definition sample_kernel : kernel pc :=
  Kernel sample_user_mem sample_proc {[ pcb_of_pid 1 := sample_pcb ]}
    (Kbd [term_statics; term_statics; term_statics] mods_statics 0) rtc_statics
    (virtualmem_init vm_statics) (esp0_of_pid 1 - 100) (esp0_of_pid 1 - 60) (esp0_of_pid 1)
    KERNEL_DS 0 pc_reset.

Lemma sample_user_image : image_ok sample_user_mem 0.
Proof. split; vm_compute; split_and?; congruence. Qed.
