(* ===== verification/SysCalls.v ===== *)
(** * sys_calls.c: the calls on open files, arguments and video memory

    A call that has to wait gives the state in which it waits; a call through
    a null pointer has the outcome [Fault]. *)
From S2P Require Import Prelude CMem LibString Ports Screen Process FileSys Paging Idt Rtc KeyTable.
From S2P Require Import Keyboard Kernel.

Section calls.
Context {D : Type} `{Board D} `{Layout} `{Mmu}.

(** The operations tables. [dentry] is the local of [read_directory_entry]. *)
Definition fops_read (ops : option fops_t) (fd buf nbytes dentry : Z) (k : kernel D) : outcome D :=
  match ops with
  | None => Fault
  | Some fs_fops =>
      let '(r, m, f) := fs_read (kmem k) (kboot k) (cur_fd fd k) buf nbytes in
      Ret r (set_cur_fd fd f (set_kmem m k))
  | Some dir_fops =>
      match dir_read (kmem k) (kboot k) dentry (cur_fd fd k) buf nbytes with
      | None => Fault
      | Some (r, m, f) => Ret r (set_cur_fd fd f (set_kmem m k))
      end
  | Some rtc_fops => Wait_rtc (set_krtc (rtc_read_begin (pid (cur_pcb k)) (krtc k)) k)
  | Some term_fops =>
      if buf =? 0 then Ret (-1) k
      else match terminal_read_begin buf (term_num (cur_pcb k)) (kkbd k) with
           | None => Fault
           | Some b => Wait_terminal buf nbytes (set_kkbd b k)
           end
  end.

Definition fops_write (ops : option fops_t) (fd buf nbytes : Z) (k : kernel D) : outcome D :=
  match ops with
  | None => Fault
  | Some fs_fops | Some dir_fops => Ret fs_write k
  | Some rtc_fops =>
      let '(r, s, d) := rtc_write (kmem k) buf (pid (cur_pcb k)) (krtc k) (kdev k) in
      Ret r (set_kdev d (set_krtc s k))
  | Some term_fops =>
      match terminal_write buf nbytes (term_num (cur_pcb k)) (kmem k) (kkbd k) (kdev k) with
      | None => Fault
      | Some (r, m, b, d) => Ret r (set_kdev d (set_kkbd b (set_kmem m k)))
      end
  end.

Definition fops_open (ops : option fops_t) (k : kernel D) : option (kernel D) :=
  match ops with
  | None => None
  | Some fs_fops | Some dir_fops | Some term_fops => Some k
  | Some rtc_fops =>
      let '(_, s, d) := rtc_open (krtc k) (kdev k) in Some (set_kdev d (set_krtc s k))
  end.

Definition fops_close (ops : option fops_t) (k : kernel D) : option (kernel D) :=
  match ops with
  | None => None
  | Some fs_fops | Some dir_fops | Some term_fops => Some k
  | Some rtc_fops =>
      let '(_, s, d) := rtc_close (pid (cur_pcb k)) (krtc k) (kdev k) in
      Some (set_kdev d (set_krtc s k))
  end.

(** [flags && FD_LIVE] is true for any flag. *)
Definition read (fd buf nbytes dentry : Z) (k : kernel D) : outcome D :=
  if (fd <? 0) || (fd =? 1) || (fd >=? FILE_ARRAY_LEN) then Ret (-1) k
  else if negb (flags (cur_fd fd k) =? 0) then
    fops_read (fops (cur_fd fd k)) fd buf nbytes dentry k
  else Ret (-1) k.

Definition write (fd buf nbytes : Z) (k : kernel D) : outcome D :=
  if (fd <? 0) || (fd =? 0) || (fd >=? FILE_ARRAY_LEN) then Ret (-1) k
  else if negb (flags (cur_fd fd k) =? 0) then fops_write (fops (cur_fd fd k)) fd buf nbytes k
  else Ret (-1) k.

(** The rest of [terminal_read] and [rtc_read] after the wait. *)
Definition read_terminal_finish (buf nbytes : Z) (k : kernel D) : outcome D :=
  match terminal_read_finish buf nbytes (term_num (cur_pcb k)) (kmem k) (kkbd k) (kdev k) with
  | None => Fault
  | Some (r, m, b, d) => Ret r (set_kdev d (set_kkbd b (set_kmem m k)))
  end.
Definition read_rtc_finish (k : kernel D) : outcome D := Ret 0 k.

(** The first free descriptor from [i] on, [n] of them left. *)
Fixpoint find_fd (n : nat) (i : Z) (l : list fd_t) : option Z :=
  match n with
  | O => None
  | S n => if flags (l !!! Z.to_nat i) =? 0 then Some i else find_fd n (i + 1) l
  end.

Definition open (filename dentry : Z) (k : kernel D) : outcome D :=
  match find_fd (Z.to_nat (FILE_ARRAY_LEN - 2)) 2 (files (cur_pcb k)) with
  | None => Ret (-1) k
  | Some fd =>
      let '(r, m) := read_dentry_by_name (kmem k) (kboot k) filename dentry in
      let k := set_kmem m k in
      if r =? -1 then Ret (-1) k
      else
        let ftype := dentry_ftype m dentry in
        let ops := get_device_fops ftype (kproc k) in
        let f := cur_fd fd k in
        let f :=
          if (ftype =? RTC_FTYPE) || (ftype =? DIR_FTYPE) then
            Fd (fops f) 0 (u32 (dentry_inode m dentry)) (pos f) (flags f)
          else if ftype =? FILE_FTYPE then
            Fd (fops f) (get_inode_ptr (kboot k) (u32 (dentry_inode m dentry)))
              (u32 (dentry_inode m dentry)) (pos f) (flags f)
          else f in
        let f := Fd ops (inode f) (inode_num f) (pos f) FD_LIVE in
        let k := set_cur_fd fd f k in
        match fops_open ops k with
        | None => Fault
        | Some k => Ret fd k
        end
  end.

Definition close (fd : Z) (k : kernel D) : outcome D :=
  if (fd <? 2) || (fd >=? FILE_ARRAY_LEN) then Ret (-1) k
  else
    let file_desc := cur_fd fd k in
    if negb (flags file_desc =? 0) then
      match fops_close (fops file_desc) k with
      | None => Fault
      | Some k => Ret 0 (set_cur_fd fd (Fd None 0 (inode_num file_desc) 0 0) k)
      end
    else Ret (-1) k.

(** The comparison of [int32_t] and [uint32_t] is unsigned. *)
Definition getargs (buf nbytes : Z) (k : kernel D) : outcome D :=
  let len := args_len (cur_pcb k) in
  if u32 nbytes <? u32 (len + 1) then Ret (-1) k
  else
    let m := memcpy (kmem k) buf (cur_addr k + PCB_ARGS) len in
    Ret 0 (set_kmem (mset m (buf + len) 0) k).

Definition vidmap (screen_start : Z) (k : kernel D) : outcome D :=
  if (s32 screen_start <? PROG_VM_START) || (s32 screen_start >=? PROG_VM_START + SPACE_4MB)
  then Ret (-1) k
  else
    let k := set_kmem (store32 (kmem k) screen_start PROG_VIDMEM_ADDR) k in
    let k := set_kvm (upd_pd (pd (cur_pcb k)) (λ t, set_pde_flags t PROG_VIDMEM_ADDR FLAG_P) (kvm k)) k in
    Ret PROG_VIDMEM_ADDR k.

Definition set_handler (signum handler_address : Z) : Z := -1.
Definition sigreturn : Z := -1.
End calls.

(** ** Descriptor tables *)

(** A descriptor table as [execute] makes it and the calls keep it: a free
    entry has no operations and position 0, a live one has operations. *)
Definition fd_ok (f : fd_t) : Prop :=
  (flags f = 0 ∧ fops f = None ∧ pos f = 0) ∨ (flags f = FD_LIVE ∧ fops f ≠ None ∧ 0 ≤ pos f).
Definition fds_ok (l : list fd_t) : Prop := length l = 8%nat ∧ Forall fd_ok l.

#[export] Instance fd_ok_dec f : Decision (fd_ok f).
Proof. unfold fd_ok. apply _. Defined.
#[export] Instance fds_ok_dec l : Decision (fds_ok l).
Proof. unfold fds_ok. apply _. Defined.

Lemma find_fd_spec n i l :
  0 ≤ i →
  match find_fd n i l with
  | Some fd => i ≤ fd < i + Z.of_nat n ∧ flags (l !!! Z.to_nat fd) = 0 ∧
      ∀ j, i ≤ j < fd → flags (l !!! Z.to_nat j) ≠ 0
  | None => ∀ j, i ≤ j < i + Z.of_nat n → flags (l !!! Z.to_nat j) ≠ 0
  end.
Proof.
  revert i. induction n as [|n IH]; intros i Hi; simpl; [lia|].
  destruct (Z.eqb_spec (flags (l !!! Z.to_nat i)) 0) as [H|H].
  { split; [lia|]. split; [done|]. lia. }
  specialize (IH (i + 1) ltac:(lia)). destruct (find_fd n (i + 1) l) as [fd|].
  - destruct IH as (H1 & H2 & H3). split; [lia|]. split; [done|]. intros j Hj.
    destruct (decide (j = i)) as [->|]; [done|]. apply H3. lia.
  - intros j Hj. destruct (decide (j = i)) as [->|]; [done|]. apply IH. lia.
Qed.

Section descriptors.
Context {D : Type} `{Board D} `{Layout} `{Mmu}.
Implicit Types k : kernel D.

Lemma cur_pcb_set_kpcb p k : cur_pcb (set_kpcb (cur_addr k) p k) = p.
Proof. unfold cur_pcb, cur_addr. simpl. apply lookup_total_insert_eq. Qed.
Lemma files_set_cur_fd fd f k :
  files (cur_pcb (set_cur_fd fd f k)) = <[Z.to_nat fd := f]> (files (cur_pcb k)).
Proof. unfold set_cur_fd. by rewrite cur_pcb_set_kpcb. Qed.
Lemma cur_fd_set fd f k j :
  0 ≤ fd → 0 ≤ j < Z.of_nat (length (files (cur_pcb k))) →
  cur_fd j (set_cur_fd fd f k) = if decide (j = fd) then f else cur_fd j k.
Proof.
  intros Hf Hj. unfold cur_fd. rewrite files_set_cur_fd. case_decide as E.
  - subst. apply list_lookup_total_insert_eq. lia.
  - apply list_lookup_total_insert_ne. lia.
Qed.

(** Two states with the same processes, memory and registers: a driver
    operation that only works on the clock. *)
Definition tables k : vm_state * Z := (kvm k, ktss_esp0 k).
Definition same_frame k k' : Prop :=
  kmem k' = kmem k ∧ kproc k' = kproc k ∧ kpcbs k' = kpcbs k ∧ kkbd k' = kkbd k ∧ tables k' = tables k ∧
  kesp k' = kesp k ∧ kboot k' = kboot k.
Lemma same_frame_cur k k' : same_frame k k' → cur_pcb k' = cur_pcb k ∧ cur_addr k' = cur_addr k.
Proof. intros (_ & _ & H3 & _ & _ & H6 & _). unfold cur_pcb, cur_addr. by rewrite H3, H6. Qed.

Lemma fops_open_frame ops k k' : fops_open ops k = Some k' → same_frame k k'.
Proof.
  unfold fops_open. intros E. destruct ops as [[]|]; [|apply some_inv in E as <-; by split_and!..|done].
  destruct (rtc_open _ _) as [[? ?] ?]. apply some_inv in E as <-. by split_and!.
Qed.
Lemma fops_close_frame ops k k' : fops_close ops k = Some k' → same_frame k k'.
Proof.
  unfold fops_close. intros E.
  destruct ops as [[]|]; [|apply some_inv in E as <-; by split_and!..|done].
  destruct (rtc_close _ _ _) as [[? ?] ?]. apply some_inv in E as <-. by split_and!.
Qed.
Lemma fops_open_total ops k : ops ≠ None → is_Some (fops_open ops k).
Proof.
  destruct ops as [[]|]; intros ?; simpl; try done.
  destruct (rtc_open _ _) as [[? ?] ?]. done.
Qed.
Lemma fops_close_total ops k : ops ≠ None → is_Some (fops_close ops k).
Proof.
  destruct ops as [[]|]; intros ?; simpl; try done.
  destruct (rtc_close _ _ _) as [[? ?] ?]. done.
Qed.

Lemma fds_lookup l i : fds_ok l → 0 ≤ i < 8 → fd_ok (l !!! Z.to_nat i).
Proof.
  intros [Hl Hf] Hi. rewrite Forall_lookup in Hf. apply (Hf (Z.to_nat i)).
  apply list_lookup_lookup_total_lt. lia.
Qed.
Lemma fds_insert l i f : fds_ok l → fd_ok f → fds_ok (<[i := f]> l).
Proof. intros [Hl Hf] Ho. split; [by rewrite length_insert|]. by apply Forall_insert. Qed.

(** What [open] does once a descriptor and the entry are found. *)
Definition opened (ops : option fops_t) (ino_ptr ino : Z) (f : fd_t) : fd_t :=
  Fd ops ino_ptr ino (pos f) FD_LIVE.

Lemma open_unfold filename dentry k fd m :
  find_fd 6 2 (files (cur_pcb k)) = Some fd →
  read_dentry_by_name (kmem k) (kboot k) filename dentry = (0, m) →
  (dentry_ftype m dentry = RTC_FTYPE ∨ dentry_ftype m dentry = DIR_FTYPE ∨
   dentry_ftype m dentry = FILE_FTYPE) →
  get_device_fops (dentry_ftype m dentry) (kproc k) ≠ None →
  ∃ k', open filename dentry k = Ret fd k' ∧
    same_frame (set_cur_fd fd (opened (get_device_fops (dentry_ftype m dentry) (kproc k))
      (if dentry_ftype m dentry =? FILE_FTYPE
       then get_inode_ptr (kboot k) (u32 (dentry_inode m dentry)) else 0)
      (u32 (dentry_inode m dentry)) (cur_fd fd k)) (set_kmem m k)) k'.
Proof.
  intros Hfd Hd Ht Ho. unfold open. change (Z.to_nat (FILE_ARRAY_LEN - 2)) with 6%nat.
  rewrite Hfd, Hd. simpl. change (get_device_fops _ (kproc (set_kmem m k)))
    with (get_device_fops (dentry_ftype m dentry) (kproc k)).
  match goal with |- context [fops_open ?o ?q] => destruct (fops_open_total o q) as [k' E] end; [done|].
  rewrite E. exists k'. split; [done|]. apply fops_open_frame in E.
  destruct Ht as [Ht|[Ht|Ht]]; rewrite Ht in *; exact E.
Qed.
End descriptors.

(** ** Properties *)

(** A descriptor out of range or not open is refused by [read], [write]
    and [close], as are reading from standard output, writing to standard
    input and closing either; nothing changes. *)
Lemma descriptors_refused {D : Type} `{Board D} `{Layout} `{Mmu} (k : kernel D) fd buf n dentry :
  let bad := fd < 0 ∨ FILE_ARRAY_LEN ≤ fd ∨ flags (cur_fd fd k) = 0 in
  (bad ∨ fd = 1 → read fd buf n dentry k = Ret (-1) k) ∧
  (bad ∨ fd = 0 → write fd buf n k = Ret (-1) k) ∧
  (bad ∨ fd = 0 ∨ fd = 1 → close fd k = Ret (-1) k).
Proof.
  intros bad. unfold bad, read, write, close, FILE_ARRAY_LEN. clear bad.
  repeat split; intros Hb; rewrite Z.geb_leb;
    match goal with |- (if ?c then _ else _) = _ => destruct c eqn:E; [done|] end;
    repeat (apply orb_false_iff in E as [E ?]);
    rewrite ?Z.ltb_ge, ?Z.leb_gt, ?Z.eqb_neq in *;
    destruct_or! Hb; try lia; by rewrite Hb.
Qed.

(** A copied directory entry has the type and inode of the original. *)
Lemma dentry_fields m m' a b :
  load_bytes m' a 64 = load_bytes m b 64 →
  dentry_ftype m' a = dentry_ftype m b ∧ dentry_inode m' a = dentry_inode m b.
Proof.
  intros Hc. pose proof (load_bytes_eq_mget m m' a b 64 Hc) as Hb.
  unfold dentry_ftype, dentry_inode, loads32, load32, FNAME_LEN.
  rewrite <- !Z.add_assoc. rewrite !Hb by lia. done.
Qed.

(** The first directory entry with a name. *)
Definition names_file (m : mem) (bb i : Z) (name : list Z) : Prop :=
  dir_has m bb i name ∧ ∀ j, j < i → ¬ dir_has m bb j name.

Lemma lookup_named m bb fname dentry name i :
  image_ok m bb → cstr m fname name → outside_image m bb dentry BYTES_DENTRY →
  names_file m bb i name →
  ∃ m', read_dentry_by_name m bb fname dentry = (0, m') ∧
    dentry_ftype m' dentry = dentry_ftype m (dentry_addr bb i) ∧
    dentry_inode m' dentry = dentry_inode m (dentry_addr bb i) ∧
    frame dentry (dentry + BYTES_DENTRY) m m'.
Proof.
  intros Hi Hc Ho [Hn Hfst]. pose proof (read_dentry_by_name_spec m bb fname dentry name Hi Hc Ho) as H.
  destruct (read_dentry_by_name _ _ _ _) as [r m'].
  destruct H as [(-> & j & Hj & Hjf & Hl & Hfr)|(_ & _ & Hno)]; [|by destruct (Hno i)].
  assert (j = i) as ->.
  { destruct (Z.lt_trichotomy i j) as [Hlt|[->|Hlt]]; [by destruct (Hjf i)|done|by destruct (Hfst j)]. }
  apply dentry_fields in Hl as [H1 H2]. eauto.
Qed.

(** C24: [open] gives the first free descriptor, counting from 2, to the file
    the name means: the operations registered for its type, its inode,
    position 0; the others stay.  [close] makes exactly that one free again. *)
Theorem open_close_descriptor {D : Type} `{Board D} `{Layout} `{Mmu}
    (k : kernel D) filename dentry name i ops :
  let bb := kboot k in
  let t := dentry_ftype (kmem k) (dentry_addr bb i) in
  fds_ok (files (cur_pcb k)) → image_ok (kmem k) bb → cstr (kmem k) filename name →
  outside_image (kmem k) bb dentry BYTES_DENTRY → names_file (kmem k) bb i name →
  t = RTC_FTYPE ∨ t = DIR_FTYPE ∨ t = FILE_FTYPE → get_device_fops t (kproc k) = Some ops →
  (∃ j, 2 ≤ j < FILE_ARRAY_LEN ∧ flags (cur_fd j k) = 0) →
  ∃ fd k1 k2, open filename dentry k = Ret fd k1 ∧ close fd k1 = Ret 0 k2 ∧
    2 ≤ fd < FILE_ARRAY_LEN ∧ flags (cur_fd fd k) = 0 ∧
    (∀ j, 2 ≤ j < fd → flags (cur_fd j k) = FD_LIVE) ∧
    fops (cur_fd fd k1) = Some ops ∧ pos (cur_fd fd k1) = 0 ∧ flags (cur_fd fd k1) = FD_LIVE ∧
    inode_num (cur_fd fd k1) = u32 (dentry_inode (kmem k) (dentry_addr bb i)) ∧
    flags (cur_fd fd k2) = 0 ∧ fds_ok (files (cur_pcb k1)) ∧ fds_ok (files (cur_pcb k2)) ∧
    (∀ j, 0 ≤ j < FILE_ARRAY_LEN → j ≠ fd → cur_fd j k1 = cur_fd j k ∧ cur_fd j k2 = cur_fd j k) ∧
    frame dentry (dentry + BYTES_DENTRY) (kmem k) (kmem k1) ∧ kmem k2 = kmem k1.
Proof.
  intros bb t Hfds Hi Hc Ho Hn Ht Hops (j0 & Hj0 & Hfree). unfold FILE_ARRAY_LEN in *.
  pose proof (find_fd_spec 6 2 (files (cur_pcb k)) ltac:(lia)) as Hfind.
  destruct (find_fd 6 2 _) as [fd|] eqn:Efd; [|by destruct (Hfind j0 ltac:(lia))].
  destruct Hfind as (Hr & Hz & Hlow). pose proof (fds_lookup _ _ Hfds (ltac:(lia) : 0 ≤ fd < 8)) as Hfdok.
  assert (length (files (cur_pcb k)) = 8%nat) as Hlen by apply Hfds.
  destruct (lookup_named _ _ _ _ _ _ Hi Hc Ho Hn) as (m' & E & Et & Ei & Hfr).
  fold bb t in E, Et, Ei.
  destruct (open_unfold filename dentry k fd m' Efd E) as (k1 & Ek1 & Hk1).
  { rewrite Et. exact Ht. }
  { rewrite Et. by rewrite Hops. }
  rewrite Et, Hops in Hk1. pose proof (same_frame_cur _ _ Hk1) as [Hcur1 _].
  set (f1 := opened _ _ _ _) in Hk1, Hcur1.
  assert (pos (cur_fd fd k) = 0) as Hpos by (destruct Hfdok as [(_ & _ & ?)|(Hx & _)]; [done|by rewrite Hz in Hx]).
  assert (∀ j, 0 ≤ j < 8 → cur_fd j k1 = if decide (j = fd) then f1 else cur_fd j k) as Hf1.
  { intros j Hj. unfold cur_fd at 1. rewrite Hcur1.
    apply (cur_fd_set fd f1 (set_kmem m' k)); [lia|]. change (cur_pcb (set_kmem m' k)) with (cur_pcb k).
    lia. }
  assert (fds_ok (files (cur_pcb k1))) as Hfds1.
  { rewrite Hcur1, files_set_cur_fd. apply fds_insert; [done|]. right. simpl. rewrite Hpos. by split_and!. }
  assert (cur_fd fd k1 = f1) as Hfd1 by (rewrite Hf1, decide_True by lia; done).
  destruct (fops_close_total (fops (cur_fd fd k1)) k1) as [k2' E2]; [by rewrite Hfd1|].
  set (k2 := set_cur_fd fd (Fd None 0 (inode_num (cur_fd fd k1)) 0 0) k2').
  assert (close fd k1 = Ret 0 k2) as Ek2.
  { unfold close, FILE_ARRAY_LEN. rewrite (proj2 (Z.ltb_ge _ _)), Z.geb_leb, (proj2 (Z.leb_gt _ _)) by lia.
    cbv zeta. rewrite E2. assert (flags (cur_fd fd k1) = FD_LIVE) as -> by by rewrite Hfd1. done. }
  apply fops_close_frame in E2. pose proof (same_frame_cur _ _ E2) as [Hcur2 _].
  assert (length (files (cur_pcb k2')) = 8%nat) as Hlen2 by (rewrite Hcur2; apply Hfds1).
  assert (∀ j, 0 ≤ j < 8 → cur_fd j k2 = if decide (j = fd) then Fd None 0 (inode_num f1) 0 0
    else cur_fd j k1) as Hf2.
  { intros j Hj. unfold k2. rewrite cur_fd_set by (rewrite ?Hlen2; lia). rewrite Hfd1.
    case_decide; [done|]. unfold cur_fd. by rewrite Hcur2. }
  exists fd, k1, k2. split; [done|]. split; [done|]. split; [lia|]. split; [done|].
  split. { intros j Hj. destruct (fds_lookup _ _ Hfds (ltac:(lia) : 0 ≤ j < 8)) as [(Hx & _)|(Hx & _)];
    [by destruct (Hlow j)|done]. }
  rewrite Hfd1. rewrite (Hf2 fd), decide_True by (done || lia). simpl.
  split; [done|]. split; [done|]. split; [done|]. split; [by rewrite Ei|]. split; [done|].
  split; [done|]. split.
  { unfold k2. rewrite files_set_cur_fd, Hcur2. apply fds_insert; [done|]. by left. }
  split. { intros j Hj Hne. assert (cur_fd j k1 = cur_fd j k) as E1 by (by rewrite Hf1, decide_False by lia).
    split; [exact E1|]. by rewrite Hf2, decide_False by lia. }
  destruct Hk1 as (Hm & _). destruct E2 as (Hm2 & _). split; [rewrite Hm; exact Hfr|exact Hm2].
Qed.

Lemma sample_names_a : names_file (kmem sample_kernel) 0 0 [97].
Proof.
  split.
  - split; [vm_compute; split; congruence|]. split; [vm_compute; reflexivity|].
    split; [vm_compute; reflexivity|]. repeat constructor; discriminate.
  - intros j Hj [Hr _]. lia.
Qed.

Lemma open_close_descriptor_witness :
  ∃ fd k1 k2, open 50000 60000 sample_kernel = Ret fd k1 ∧ close fd k1 = Ret 0 k2 ∧
    2 ≤ fd < FILE_ARRAY_LEN.
Proof.
  destruct (open_close_descriptor sample_kernel 50000 60000 [97] 0 fs_fops)
    as (fd & k1 & k2 & H1 & H2 & H3 & _).
  - vm_decide.
  - exact sample_user_image.
  - split; [vm_compute; reflexivity|]. split; [vm_compute; reflexivity|].
    repeat constructor; discriminate.
  - right. vm_compute. congruence.
  - exact sample_names_a.
  - right. right. vm_compute. reflexivity.
  - vm_compute. reflexivity.
  - exists 2. split; [unfold FILE_ARRAY_LEN; lia|]. vm_compute. reflexivity.
  - exists fd, k1, k2. split; [exact H1|]. split; [exact H2|exact H3].
Defined.

Section reading.
Context {D : Type} `{Board D} `{Layout} `{Mmu}.
Implicit Types k : kernel D.

Lemma read_file fd buf n dentry k r m f :
  0 ≤ fd < FILE_ARRAY_LEN → fd ≠ 1 → flags (cur_fd fd k) ≠ 0 →
  fops (cur_fd fd k) = Some fs_fops → fs_read (kmem k) (kboot k) (cur_fd fd k) buf n = (r, m, f) →
  read fd buf n dentry k = Ret r (set_cur_fd fd f (set_kmem m k)).
Proof.
  intros Hr Hne Hl Ho E. unfold read, FILE_ARRAY_LEN in *.
  rewrite (proj2 (Z.ltb_ge _ _)), (proj2 (Z.eqb_neq fd 1)) by (done || lia).
  rewrite Z.geb_leb, (proj2 (Z.leb_gt _ _)), (proj2 (Z.eqb_neq _ 0)) by (done || lia).
  rewrite Ho. simpl. by rewrite E.
Qed.

Lemma fs_read_keeps m bb f buf n r m' f' :
  fs_read m bb f buf n = (r, m', f') →
  fops f' = fops f ∧ flags f' = flags f ∧ inode f' = inode f ∧ inode_num f' = inode_num f.
Proof.
  unfold fs_read. destruct (read_data _ _ _ _ _ _) as [r0 m0]. intros E.
  apply pair_inv in E as [_ <-]. done.
Qed.
End reading.

(** C25: two [read] calls on an open file put consecutive bytes of it in their
    buffers, from the position of the descriptor on and none past its end; the
    position moves past them and the other descriptors stay. *)
Theorem reads_are_sequential {D : Type} `{Board D} `{Layout} `{Mmu}
    (k : kernel D) fd dentry b1 n1 b2 n2 :
  let f := cur_fd fd k in
  0 ≤ fd < FILE_ARRAY_LEN → fd ≠ 1 → flags f ≠ 0 → fops f = Some fs_fops →
  length (files (cur_pcb k)) = 8%nat →
  image_ok (kmem k) (kboot k) → file_ok (kmem k) (kboot k) (inode_num f) →
  0 ≤ pos f → pos f + n1 + n2 < 4294967296 → 0 ≤ n1 → 0 ≤ n2 →
  outside_image (kmem k) (kboot k) b1 n1 → outside_image (kmem k) (kboot k) b2 n2 →
  b1 + n1 ≤ b2 ∨ b2 + n2 ≤ b1 →
  ∃ r1 k1 r2 k2,
    read fd b1 n1 dentry k = Ret r1 k1 ∧ read fd b2 n2 dentry k1 = Ret r2 k2 ∧
    load_bytes (kmem k2) b1 (Z.to_nat r1) ++ load_bytes (kmem k2) b2 (Z.to_nat r2)
      = take (Z.to_nat (n1 + n2))
          (drop (Z.to_nat (pos f)) (file_contents (kmem k) (kboot k) (inode_num f))) ∧
    pos (cur_fd fd k2) = pos f + r1 + r2 ∧
    ∀ j, 0 ≤ j < FILE_ARRAY_LEN → j ≠ fd → cur_fd j k2 = cur_fd j k.
Proof.
  intros f Hfd Hne Hl Ho Hlen Hi Hf Hp Hlim Hn1 Hn2 Ho1 Ho2 Hd. unfold f in *. clear f.
  pose proof (fs_read_twice (kmem k) (kboot k) (cur_fd fd k) b1 n1 b2 n2 Hi Hf Hp Hlim Hn1 Hn2 Ho1 Ho2 Hd) as Hs.
  destruct (fs_read (kmem k) _ _ b1 n1) as [[r1 m1] f1] eqn:E1.
  destruct (fs_read m1 _ _ b2 n2) as [[r2 m2] f2] eqn:E2.
  destruct Hs as (Hdata & Hpos & _).
  set (k1 := set_cur_fd fd f1 (set_kmem m1 k)).
  assert (∀ j, 0 ≤ j < 8 → cur_fd j k1 = if decide (j = fd) then f1 else cur_fd j k) as Hf1.
  { intros j Hj. apply (cur_fd_set fd f1 (set_kmem m1 k)); [lia|].
    change (cur_pcb (set_kmem m1 k)) with (cur_pcb k). lia. }
  unfold FILE_ARRAY_LEN in Hfd. pose proof (Hf1 fd Hfd) as Hf1fd.
  rewrite decide_True in Hf1fd by done.
  pose proof (fs_read_keeps _ _ _ _ _ _ _ _ E1) as (K1 & K2 & _).
  exists r1, k1, r2, (set_cur_fd fd f2 (set_kmem m2 k1)).
  split; [by apply read_file|]. split.
  { apply read_file; rewrite ?Hf1fd; [done|done|by rewrite K2|by rewrite K1|exact E2]. }
  split; [exact Hdata|].
  assert (∀ j, 0 ≤ j < 8 → cur_fd j (set_cur_fd fd f2 (set_kmem m2 k1))
    = if decide (j = fd) then f2 else cur_fd j k1) as Hf2.
  { intros j Hj. apply (cur_fd_set fd f2 (set_kmem m2 k1)); [lia|].
    change (cur_pcb (set_kmem m2 k1)) with (cur_pcb k1). unfold k1.
    rewrite files_set_cur_fd, length_insert. change (cur_pcb (set_kmem m1 k)) with (cur_pcb k). lia. }
  split; [by rewrite Hf2, decide_True|].
  intros j Hj Hjne. unfold FILE_ARRAY_LEN in Hj. rewrite Hf2, decide_False, Hf1 by done.
  by rewrite decide_False.
Qed.

(** The sample file read through a descriptor opened for it. *)
Definition sample_open : kernel pc :=
  set_cur_fd 2 (Fd (Some fs_fops) 4096 0 0 FD_LIVE) sample_kernel.
Lemma reads_are_sequential_witness :
  ∃ r1 k1 r2 k2,
    read 2 70000 2 60000 sample_open = Ret r1 k1 ∧ read 2 80000 9 60000 k1 = Ret r2 k2 ∧
    load_bytes (kmem k2) 70000 (Z.to_nat r1) ++ load_bytes (kmem k2) 80000 (Z.to_nat r2)
      = [104; 101; 108; 108; 111].
Proof.
  destruct (reads_are_sequential sample_open 2 60000 70000 2 80000 9)
    as (r1 & k1 & r2 & k2 & E1 & E2 & Ed & _).
  - split; vm_compute; congruence.
  - discriminate.
  - vm_compute. discriminate.
  - vm_compute. reflexivity.
  - vm_compute. reflexivity.
  - exact sample_user_image.
  - change (inode_num (cur_fd 2 sample_open)) with 0. change (kmem sample_open) with sample_user_mem.
    apply (file_same sample_fs sample_user_mem 0 0 sample_image_ok sample_file_ok).
    intros b Hb. change (image_end sample_fs 0) with 12288 in Hb. unfold sample_user_mem.
    rewrite !mget_store_bytes_out; [done|simpl; lia|].
    change (pcb_of_pid 1 + PCB_ARGS) with 0x7fc0a0. lia.
  - vm_compute. congruence.
  - vm_compute. reflexivity.
  - lia.
  - lia.
  - right. vm_compute. congruence.
  - right. vm_compute. congruence.
  - left. lia.
  - exists r1, k1, r2, k2. split; [exact E1|]. split; [exact E2|]. rewrite Ed. vm_compute. reflexivity.
Defined.

(** [getargs] with enough room is one block store. *)
Lemma getargs_stores {D : Type} `{Board D} `{Layout} `{Mmu} (k : kernel D) buf n args :
  let p := cur_addr k + PCB_ARGS in
  let len := Z.of_nat (length args) in
  sword32 n → cstr (kmem k) p args → args_len (cur_pcb k) = len → len < ARGS_MAX →
  buf ≤ p ∨ p + len ≤ buf → n < 0 ∨ len < n →
  getargs buf n k = Ret 0 (set_kmem (store_bytes (kmem k) buf (args ++ [0])) k).
Proof.
  intros p len Hn Hc Hlen Hmax Hd Hr. unfold getargs, ARGS_MAX in *. rewrite Hlen.
  rewrite (u32_small (len + 1)) by lia. rewrite (proj2 (Z.ltb_ge _ _)) by (unfold u32; word). fold p.
  rewrite memcpy_copy by lia. unfold copy_block, len. rewrite Nat2Z.id.
  destruct Hc as (Hl & Hz & Hnz). rewrite Hl. by rewrite store_bytes_app.
Qed.

(** [getargs] copies the arguments of the process and a NUL into a buffer
    that has room for both, and refuses a shorter one; the comparison is
    unsigned, so every negative length counts as room. *)
Lemma getargs_returns {D : Type} `{Board D} `{Layout} `{Mmu} (k : kernel D) buf n args :
  let p := cur_addr k + PCB_ARGS in
  let len := Z.of_nat (length args) in
  sword32 n → cstr (kmem k) p args → args_len (cur_pcb k) = len → len < ARGS_MAX →
  buf ≤ p ∨ p + len ≤ buf →
  (0 ≤ n ≤ len → getargs buf n k = Ret (-1) k) ∧
  (n < 0 ∨ len < n → ∃ m', getargs buf n k = Ret 0 (set_kmem m' k) ∧
     cstr m' buf args ∧ frame buf (buf + len + 1) (kmem k) m').
Proof.
  intros p len Hn Hc Hlen Hmax Hd. split; intros Hr.
  - unfold getargs, ARGS_MAX in *. rewrite Hlen, (u32_small (len + 1)), u32_small by lia.
    by rewrite (proj2 (Z.ltb_lt _ _)) by lia.
  - exists (store_bytes (kmem k) buf (args ++ [0])). split; [by apply getargs_stores|]. split.
    + apply cstr_store; [by eapply cstr_byte|apply Hc].
    + replace (buf + len + 1) with (buf + Z.of_nat (length (args ++ [0])))
        by (unfold len; rewrite length_app; simpl; lia). apply frame_store_bytes.
Qed.

Lemma getargs_returns_witness :
  getargs 50000 3 sample_kernel = Ret (-1) sample_kernel ∧
  ∃ m', getargs 50000 (-1) sample_kernel = Ret 0 (set_kmem m' sample_kernel) ∧
     cstr m' 50000 [102; 111; 111] ∧ frame 50000 (50000 + 3 + 1) (kmem sample_kernel) m'.
Proof.
  assert (cstr (kmem sample_kernel) (cur_addr sample_kernel + PCB_ARGS) [102; 111; 111]) as Hc.
  { split; [vm_compute; reflexivity|]. split; [vm_compute; reflexivity|].
    repeat constructor; discriminate. }
  split.
  - apply (getargs_returns sample_kernel 50000 3 [102; 111; 111]); try exact Hc.
    + lia.
    + vm_compute. reflexivity.
    + vm_compute. reflexivity.
    + left. vm_compute. congruence.
    + simpl. lia.
  - apply (getargs_returns sample_kernel 50000 (-1) [102; 111; 111]); try exact Hc.
    + lia.
    + vm_compute. reflexivity.
    + vm_compute. reflexivity.
    + left. vm_compute. congruence.
    + left. lia.
Defined.

(** The directory of the running process, made by [execute] for a terminal. *)
Definition own_directory {D : Type} `{Layout} (k : kernel D) (i pid t : Z) : Prop :=
  pd (cur_pcb k) = PdProc i ∧ 0 ≤ i < 6 ∧ length (pds (kvm k)) = 6%nat ∧
  (∃ d0, length d0 = 1024%nat ∧ pds (kvm k) !!! Z.to_nat i = process_pd d0 pid t) ∧
  (∃ s, vm_wf s ∧ pt_vidmem (kvm k) = pt_vidmem (virtualmem_init s) ∧
     pt_user_vidmem (kvm k) = pt_user_vidmem (virtualmem_init s)).

(** C37: [vidmap] takes a pointer in the 4 MB of the program and only such: it
    stores [PROG_VIDMEM_ADDR] there, and from then on user mode reaches at
    that address the page of the process's own terminal, which it did not
    before; every other user address means what it meant. *)
Theorem vidmap_maps_page {D : Type} `{Board D} `{Layout} `{Mmu} (k : kernel D) p i pid t :
  word32 p → own_directory k i pid t → 1 ≤ pid ≤ MAX_PROCESSES → 0 ≤ t < 3 →
  if decide (PROG_VM_START ≤ p < PROG_VM_START + SPACE_4MB) then
    ∃ k', vidmap p k = Ret PROG_VIDMEM_ADDR k' ∧
      load32 (kmem k') p = PROG_VIDMEM_ADDR ∧ frame p (p + 4) (kmem k) (kmem k') ∧
      let tr k := translate (kvm k) (pds (kvm k) !!! Z.to_nat i) true in
      (∀ o, 0 ≤ o < PAGE_SIZE →
        tr k (PROG_VIDMEM_ADDR + o) = None ∧
        tr k' (PROG_VIDMEM_ADDR + o) = Some (VIDEO + t * PAGE_SIZE + o)) ∧
      (∀ va, word32 va → ¬ (PROG_VIDMEM_ADDR ≤ va < PROG_VIDMEM_ADDR + SPACE_4MB) →
        tr k' va = tr k va)
  else vidmap p k = Ret (-1) k.
Proof.
  intros Hp (Hpd & Hi & Hl & (d0 & Hd0 & Hdir) & (s & Hwf & Hv & Hu)) Hpid Ht.
  unfold vidmap, PROG_VM_START, SPACE_4MB, MAX_PROCESSES, PAGE_SIZE in *. case_decide as Hr.
  2:{ rewrite Z.geb_leb. destruct (Z.ltb_spec (s32 p) 0x8000000), (Z.leb_spec (0x8000000 + 0x400000) (s32 p));
      [reflexivity|reflexivity|reflexivity|exfalso; word]. }
  rewrite s32_small by lia. rewrite (proj2 (Z.ltb_ge _ _)), Z.geb_leb, (proj2 (Z.leb_gt _ _)) by lia.
  eexists. split; [done|]. cbn [kmem set_kvm set_kmem]. split.
  { rewrite load32_store32. done. }
  split; [apply frame_store32|].
  change (cur_pcb (set_kmem _ k)) with (cur_pcb k). rewrite Hpd.
  cbn [kvm set_kvm set_kmem upd_pd]. cbv zeta. unfold upd.
  set (d := process_pd d0 pid t). set (d' := set_pde_flags d PROG_VIDMEM_ADDR FLAG_P).
  assert (<[Z.to_nat i:=set_pde_flags (pds (kvm k) !!! Z.to_nat i) PROG_VIDMEM_ADDR FLAG_P]>
    (pds (kvm k)) !!! Z.to_nat i = d') as E.
  { rewrite list_lookup_total_insert_eq by lia. by rewrite Hdir. }
  cbn [pds pt_vidmem pt_user_vidmem]. rewrite E, Hdir. clear E. fold d.
  assert (length d = 1024%nat) as Hlen by (unfold d, process_pd, set_pde; by rewrite length_tset, length_pd_init).
  assert (∀ j, 0 ≤ j < 1024 → tget d' j = if decide (j = 33) then Z.lor (pt_user_vidmem_addr t) 7 else tget d j) as Hd'.
  { intros j Hj. unfold d', set_pde_flags. change (Z.shiftr PROG_VIDMEM_ADDR PDE_IDX_OFFS) with 33.
    rewrite tget_tset by lia. destruct (decide (33 = j)) as [<-|]; [|by rewrite decide_False by lia].
    rewrite decide_True by done.
    unfold d. rewrite process_pd_user by (done || lia). by rewrite <- Z.lor_assoc. }
  assert (PROG_VIDMEM_ADDR = 0x8400000) as HP by reflexivity.
  split.
  - intros o Ho. split.
    + unfold translate. replace ((PROG_VIDMEM_ADDR + o) `div` 4194304) with 33 by lia.
      unfold d. rewrite process_pd_user by (done || lia). unfold Paging.present. rewrite (entry_flag _ 6 12); [done| |lia]. apply layout_user. lia.
    + rewrite (translate_ext _ (virtualmem_init s) _ d') by done.
      apply translate_user_video; [done|done| |done]. by rewrite Hd' by lia.
  - intros va Hva Hne. apply translate_ext; [done|done|].
    rewrite Hd' by lia. by rewrite decide_False by lia.
Qed.

(** The state of process 1 on terminal 0 after its directory was made. *)
Definition sample_running : kernel pc :=
  set_kvm (upd_pd (PdProc 0) (λ _, process_pd zero_table 1 0) (kvm sample_kernel)) sample_kernel.
Lemma vidmap_maps_page_witness :
  (∃ k', vidmap 0x8000010 sample_running = Ret PROG_VIDMEM_ADDR k' ∧
     load32 (kmem k') 0x8000010 = PROG_VIDMEM_ADDR) ∧
  vidmap 0x400000 sample_running = Ret (-1) sample_running.
Proof.
  assert (own_directory sample_running 0 1 0) as Ho.
  { split; [reflexivity|]. split; [lia|]. split; [reflexivity|]. split.
    - exists zero_table. split; [reflexivity|]. apply list_lookup_total_insert_eq. simpl. lia.
    - exists vm_statics. split; [exact vm_statics_wf|].
      change (kvm sample_running) with
        (upd_pd (PdProc 0) (λ _, process_pd zero_table 1 0) (virtualmem_init vm_statics)).
      apply upd_pd_tables. }
  split.
  - destruct (vidmap_maps_page sample_running 0x8000010 0 1 0) as (k' & E & El & _).
    + lia.
    + exact Ho.
    + unfold MAX_PROCESSES. lia.
    + lia.
    + exists k'. split; [exact E|exact El].
  - apply (vidmap_maps_page sample_running 0x400000 0 1 0).
    + lia.
    + exact Ho.
    + unfold MAX_PROCESSES. lia.
    + lia.
Defined.

(** A descriptor call that returns, or starts or ends a wait, by the running
    process. *)
Inductive fd_step {D : Type} `{Board D} `{Layout} `{Mmu} : kernel D → kernel D → Prop :=
  | fd_open k fn dentry r k' : open fn dentry k = Ret r k' → fd_step k k'
  | fd_close k fd r k' : close fd k = Ret r k' → fd_step k k'
  | fd_write k fd buf n r k' : write fd buf n k = Ret r k' → fd_step k k'
  | fd_read k fd buf n dentry r k' : read fd buf n dentry k = Ret r k' → fd_step k k'
  | fd_read_wait k fd buf n dentry b n' k' :
      read fd buf n dentry k = Wait_terminal b n' k' → fd_step k k'
  | fd_read_wait_rtc k fd buf n dentry k' : read fd buf n dentry k = Wait_rtc k' → fd_step k k'
  | fd_read_end k buf n r k' : read_terminal_finish buf n k = Ret r k' → fd_step k k'.

(** The operations and the flag of a descriptor. *)
Definition ops_live (f : fd_t) : option fops_t * Z := (fops f, flags f).

Section invariant.
Context {D : Type} `{Board D} `{Layout} `{Mmu}.
Implicit Types k : kernel D.

(** What a descriptor call keeps: the registers and every PCB but the table of
    the caller, whose entries stay well formed and whose first two stay. *)
Definition fd_keeps k k' : Prop :=
  kesp k' = kesp k ∧ kproc k' = kproc k ∧ tables k' = tables k ∧
  (∀ a, a ≠ cur_addr k → kpcbs k' !!! a = kpcbs k !!! a) ∧
  (∃ l, cur_pcb k' = pcb_set_files l (cur_pcb k) ∧ fds_ok l ∧
    ops_live (l !!! 0%nat) = ops_live (files (cur_pcb k) !!! 0%nat) ∧
    ops_live (l !!! 1%nat) = ops_live (files (cur_pcb k) !!! 1%nat)).

Lemma pcb_set_files_id p : pcb_set_files (files p) p = p.
Proof. by destruct p. Qed.

Lemma fd_keeps_same k k' :
  fds_ok (files (cur_pcb k)) → kesp k' = kesp k → kproc k' = kproc k → tables k' = tables k →
  kpcbs k' = kpcbs k → fd_keeps k k'.
Proof.
  intros Hf H1' H2' H3' H4'. split; [done|]. split; [done|]. split; [done|]. rewrite H4'. split; [done|].
  exists (files (cur_pcb k)). unfold cur_pcb at 1, cur_addr. rewrite H1', H4'.
  rewrite pcb_set_files_id. done.
Qed.

(** A change of one descriptor, and whatever else on the side. *)
Lemma fd_keeps_set k k' fd f :
  fds_ok (files (cur_pcb k)) → 0 ≤ fd < 8 → fd_ok f →
  (fd < 2 → ops_live f = ops_live (cur_fd fd k)) →
  kesp k' = kesp k → kproc k' = kproc k → tables k' = tables k →
  kpcbs k' = kpcbs (set_cur_fd fd f k) → fd_keeps k k'.
Proof.
  intros Hf Hfd Ho Hstd H1' H2' H3' H4'. split; [done|]. split; [done|]. split; [done|]. rewrite H4'.
  split. { intros a Ha. simpl. by rewrite lookup_total_insert_ne. }
  exists (<[Z.to_nat fd := f]> (files (cur_pcb k))).
  assert (cur_pcb k' = pcb_set_files (<[Z.to_nat fd := f]> (files (cur_pcb k))) (cur_pcb k)) as E.
  { transitivity (cur_pcb (set_cur_fd fd f k)).
    - unfold cur_pcb, cur_addr. by rewrite H1', H4'.
    - unfold set_cur_fd. by rewrite cur_pcb_set_kpcb. }
  split; [exact E|]. split; [by apply fds_insert|]. destruct Hf as [Hl _].
  unfold cur_fd in Hstd.
  split; (destruct (decide (fd = 0)) as [->|]; [|destruct (decide (fd = 1)) as [->|]]);
    first [rewrite list_lookup_total_insert_eq by (rewrite Hl; lia); by apply Hstd
          |by rewrite list_lookup_total_insert_ne by lia].
Qed.
Lemma ret_inv (r r' : Z) k k' : Ret r k = Ret r' k' → r = r' ∧ k = k'.
Proof. by intros [= -> ->]. Qed.

Lemma open_keeps fn dentry k r k' :
  fds_ok (files (cur_pcb k)) → open fn dentry k = Ret r k' → fd_keeps k k'.
Proof.
  intros Hf. unfold open. change (Z.to_nat (FILE_ARRAY_LEN - 2)) with 6%nat.
  pose proof (find_fd_spec 6 2 (files (cur_pcb k)) ltac:(lia)) as Hfind.
  destruct (find_fd _ _ _) as [fd|]; [|intros E; apply ret_inv in E as [_ <-]; by apply fd_keeps_same].
  destruct Hfind as (Hr & _). destruct (read_dentry_by_name _ _ _ _) as [q m]. cbv zeta.
  destruct (q =? -1); [intros E; apply ret_inv in E as [_ <-]; by apply fd_keeps_same|].
  match goal with |- context [set_cur_fd fd ?f ?s] => set (f0 := f) end.
  destruct (fops_open _ _) as [k1|] eqn:E1; [|done]. intros E. apply ret_inv in E as [_ <-].
  assert (fops f0 ≠ None) as Hops by (intros Hn; change (fops f0) with (get_device_fops
    (dentry_ftype m dentry) (kproc (set_kmem m k))) in Hn; by rewrite Hn in E1).
  assert (fd_ok f0) as Ho.
  { right. split; [done|]. split; [done|].
    pose proof (fds_lookup _ fd Hf ltac:(lia)) as Hok. unfold f0.
    change (cur_fd fd (set_kmem m k)) with (cur_fd fd k).
    assert (0 ≤ pos (cur_fd fd k)) as Hp by (unfold cur_fd; destruct Hok as [(_ & _ & ?)|(_ & _ & ?)]; lia).
    repeat case_match; exact Hp. }
  clearbody f0. apply fops_open_frame in E1 as (_ & Hpr & Hpc & _ & Hvm & He & _).
  apply (fd_keeps_set k k1 fd f0); try done; lia.
Qed.

Lemma close_keeps fd k r k' :
  fds_ok (files (cur_pcb k)) → close fd k = Ret r k' → fd_keeps k k'.
Proof.
  intros Hf. unfold close, FILE_ARRAY_LEN.
  destruct (_ || _) eqn:Eg; [intros E; apply ret_inv in E as [_ <-]; by apply fd_keeps_same|].
  apply orb_false_iff in Eg as [Hlo Hhi]. rewrite Z.geb_leb, Z.leb_gt in Hhi. apply Z.ltb_ge in Hlo.
  cbv zeta. destruct (negb _); [|intros E; apply ret_inv in E as [_ <-]; by apply fd_keeps_same].
  destruct (fops_close _ _) as [k1|] eqn:E1; [|done]. intros E. apply ret_inv in E as [_ <-].
  apply fops_close_frame in E1. pose proof (same_frame_cur _ _ E1) as [Hc Ha].
  destruct E1 as (_ & Hpr & Hpc & _ & Hvm & He & _).
  eapply (fd_keeps_set k _ fd (Fd None 0 (inode_num (cur_fd fd k)) 0 0)); try done; try lia.
  - by left.
  - unfold set_cur_fd. simpl. by rewrite Hc, Ha, Hpc.
Qed.

Lemma write_keeps fd buf n k r k' :
  fds_ok (files (cur_pcb k)) → write fd buf n k = Ret r k' → fd_keeps k k'.
Proof.
  intros Hf. unfold write. destruct (_ || _);
    [intros E; apply ret_inv in E as [_ <-]; by apply fd_keeps_same|].
  destruct (negb _); [|intros E; apply ret_inv in E as [_ <-]; by apply fd_keeps_same].
  destruct (fops _) as [[]|]; simpl; [| | | |done].
  - destruct (rtc_write _ _ _ _ _) as [[? ?] ?]. intros E. apply ret_inv in E as [_ <-].
    by apply fd_keeps_same.
  - intros E. apply ret_inv in E as [_ <-]. by apply fd_keeps_same.
  - intros E. apply ret_inv in E as [_ <-]. by apply fd_keeps_same.
  - destruct (terminal_write _ _ _ _ _ _) as [[[[? ?] ?] ?]|]; [|done].
    intros E. apply ret_inv in E as [_ <-]. by apply fd_keeps_same.
Qed.
Lemma dir_read_keeps m bb dentry f buf n r m' f' :
  dir_read m bb dentry f buf n = Some (r, m', f') →
  fops f' = fops f ∧ flags f' = flags f ∧ 0 ≤ pos f'.
Proof.
  unfold dir_read. destruct (read_directory_entry _ _ _ _ _ _) as [[? ?]|]; [|done].
  intros E. apply some_inv, pair_inv in E as [_ <-]. split; [done|]. split; [done|]. apply u32_range.
Qed.

Lemma read_keeps fd buf n dentry k :
  fds_ok (files (cur_pcb k)) →
  match read fd buf n dentry k with
  | Ret _ k' | Wait_terminal _ _ k' | Wait_rtc k' => fd_keeps k k'
  | _ => True
  end.
Proof.
  intros Hf. unfold read, FILE_ARRAY_LEN. destruct (_ || _) eqn:Eg; [by apply fd_keeps_same|].
  repeat (apply orb_false_iff in Eg as [Eg ?]). apply Z.ltb_ge in Eg.
  rewrite Z.geb_leb, Z.leb_gt in *.
  pose proof (fds_lookup _ fd Hf ltac:(lia)) as Hok. fold (cur_fd fd k) in Hok.
  destruct (Z.eqb_spec (flags (cur_fd fd k)) 0) as [|Hl]; [by apply fd_keeps_same|]. cbn [negb].
  destruct Hok as [(? & _)|(Hfl & Hop & Hp)]; [done|].
  assert (∀ m f, fops f = fops (cur_fd fd k) → flags f = flags (cur_fd fd k) → 0 ≤ pos f →
    fd_keeps k (set_cur_fd fd f (set_kmem m k))) as Hset.
  { intros m f H1' H2' H3'. apply (fd_keeps_set k _ fd f); try done.
    - right. rewrite H1', H2'. done.
    - intros _. unfold ops_live. by rewrite H1', H2'. }
  destruct (fops (cur_fd fd k)) as [[]|] eqn:Eo; simpl; [| | | |done].
  - by apply fd_keeps_same.
  - destruct (dir_read _ _ _ _ _ _) as [[[? ?] f]|] eqn:E; [|done].
    apply dir_read_keeps in E as (? & ? & ?). apply Hset; congruence.
  - destruct (fs_read _ _ _ _ _) as [[? ?] f] eqn:E. pose proof E as E'.
    apply fs_read_keeps in E as (? & ? & _). apply Hset; [congruence|done|].
    unfold fs_read in E'. destruct (read_data _ _ _ _ _ _). apply pair_inv in E' as [_ <-].
    apply u32_range.
  - destruct (_ =? 0); [by apply fd_keeps_same|].
    destruct (terminal_read_begin _ _ _); [by apply fd_keeps_same|done].
Qed.

Lemma fd_step_keeps k k' : fds_ok (files (cur_pcb k)) → fd_step k k' → fd_keeps k k'.
Proof.
  intros Hf Hs. destruct Hs as [k fn dentry r k' E|k fd r k' E|k fd buf n r k' E
    |k fd buf n dentry r k' E|k fd buf n dentry b n' k' E|k fd buf n dentry k' E|k buf n r k' E].
  - by eapply open_keeps.
  - by eapply close_keeps.
  - by eapply write_keeps.
  - pose proof (read_keeps fd buf n dentry k Hf) as Hk. by rewrite E in Hk.
  - pose proof (read_keeps fd buf n dentry k Hf) as Hk. by rewrite E in Hk.
  - pose proof (read_keeps fd buf n dentry k Hf) as Hk. by rewrite E in Hk.
  - unfold read_terminal_finish in E.
    destruct (terminal_read_finish _ _ _ _ _ _) as [[[[? ?] ?] ?]|]; [|done].
    apply ret_inv in E as [_ <-]. by apply fd_keeps_same.
Qed.

Lemma fd_keeps_trans k1 k2 k3 : fd_keeps k1 k2 → fd_keeps k2 k3 → fd_keeps k1 k3.
Proof.
  intros (A1 & A2 & A3 & A4 & la & A5 & A6 & A7 & A8) (B1 & B2 & B3 & B4 & lb & B5 & B6 & B7 & B8).
  split; [congruence|]. split; [congruence|]. split; [congruence|]. split.
  - intros a Ha. rewrite B4; [by apply A4|]. unfold cur_addr in *. by rewrite A1.
  - exists lb. rewrite B5, A5 in *. split; [done|]. split; [done|]. simpl in *. split; congruence.
Qed.
End invariant.

(** C23: whatever sequence of descriptor calls a process makes, its table stays
    well formed (a free entry has no operations and position 0, a live one
    has operations), standard input and output stay open on the terminal, and
    no other process, table or directory is touched. *)
Theorem descriptor_table_invariant {D : Type} `{Board D} `{Layout} `{Mmu} (k k' : kernel D) :
  fds_ok (files (cur_pcb k)) → rtc fd_step k k' →
  fds_ok (files (cur_pcb k')) ∧
  (∀ i : nat, (i < 2)%nat →
     fops (files (cur_pcb k') !!! i) = fops (files (cur_pcb k) !!! i) ∧
     flags (files (cur_pcb k') !!! i) = flags (files (cur_pcb k) !!! i)) ∧
  pid (cur_pcb k') = pid (cur_pcb k) ∧ parent_pcb (cur_pcb k') = parent_pcb (cur_pcb k) ∧
  (∀ a, a ≠ cur_addr k → kpcbs k' !!! a = kpcbs k !!! a) ∧ kproc k' = kproc k ∧ kvm k' = kvm k.
Proof.
  intros Hf Hs. assert (fd_keeps k k') as (H1' & H2' & H3' & H4' & l & E & Hl & L0 & L1).
  { induction Hs as [k|k k1 k2 Hst _ IH]; [by apply fd_keeps_same|].
    pose proof (fd_step_keeps _ _ Hf Hst) as Hk. eapply fd_keeps_trans; [exact Hk|].
    apply IH. destruct Hk as (_ & _ & _ & _ & l & -> & Hl & _). exact Hl. }
  rewrite E. apply pair_inv in H3' as [H3' _]. split; [exact Hl|]. unfold ops_live in *. apply pair_inv in L0 as [L00 L01], L1 as [L10 L11].
  split; [|done]. intros [|[|i]] Hi; [done|done|lia].
Qed.

Definition returned {D} (o : outcome D) : option Z := match o with Ret r _ => Some r | _ => None end.
Lemma returned_inv {D} (o : outcome D) r : returned o = Some r → ∃ k', o = Ret r k'.
Proof. destruct o; try done. intros [= ->]. eauto. Qed.

Lemma descriptor_table_invariant_witness :
  ∃ k', open 50000 60000 sample_kernel = Ret 2 k' ∧ fds_ok (files (cur_pcb k')).
Proof.
  destruct (returned_inv (open 50000 60000 sample_kernel) 2) as [k' E].
  - vm_compute. reflexivity.
  - exists k'. split; [exact E|]. apply (descriptor_table_invariant sample_kernel k').
    + vm_decide.
    + apply rtc_once. apply (fd_open _ _ _ _ _ E).
Defined.
