(* ===== verification/Exec.v ===== *)
(** * sys_calls.c: programs

    [parse_arg], [execute] and [halt], and the dispatch of isr_asm.S.  The
    locals of [execute] are blocks of the caller's stack, at the addresses of
    an [exec_frame]. *)
From S2P Require Import Prelude CMem LibString Ports Screen Process FileSys Paging Idt Rtc KeyTable.
From S2P Require Import Keyboard Kernel SysCalls.

Definition START_EXE_ADDR := 0x08048000.
Definition ELF_HEADER_LEN := 40.
Definition ELF_MAGIC := 0x464c457f.
Definition ELF_ADDR_OFFS := 24.

(** [parse_arg]: the first loop finds the end of the first word, the second
    skips spaces. *)
Fixpoint word_end (fuel : nat) (m : mem) (command i : Z) : Z :=
  match fuel with
  | O => i
  | S fuel =>
      if negb (mget m (command + i) =? 0) && negb (mget m (command + i) =? 32)
         && negb (mget m (command + i) =? 10)
      then word_end fuel m command (i + 1) else i
  end.
Fixpoint skip_spaces (fuel : nat) (m : mem) (command i : Z) : Z :=
  match fuel with
  | O => i
  | S fuel => if mget m (command + i) =? 32 then skip_spaces fuel m command (i + 1) else i
  end.
Definition parse_arg (m : mem) (command command_buf arg_buf : Z) : option mem :=
  let i := word_end (S (base.size m)) m command 0 in
  let m := memcpy m command_buf command i in
  let m := mset m (command_buf + i) 0 in
  let i := skip_spaces (S (base.size m)) m command i in
  strcpy m arg_buf (command + i).

Section exec.
Context {D : Type} `{Board D} `{Layout} `{Mmu}.

(** The descriptors [execute] gives a process; [inode_num] is not set. *)
Definition fresh_files (term_ops : option fops_t) (junk_in junk_out junk_fd : Z) : list fd_t :=
  Fd term_ops 0 junk_in 0 FD_LIVE :: Fd term_ops 0 junk_out 0 FD_LIVE
    :: replicate (Z.to_nat (FILE_ARRAY_LEN - 2)) (Fd None 0 junk_fd 0 0).

(** The locals of [execute]: the addresses of its arrays, and whatever the
    uninitialised words hold. *)
Record exec_frame := ExecFrame { command_buf : Z; args : Z; elf_buf : Z; exec_dentry : Z;
  junk_in : Z; junk_out : Z; junk_fd : Z }.

(** From the test of the ELF magic on. *)
Definition execute_elf (f : exec_frame) (k : kernel D) : outcome D :=
  let '(pid, ps) := add_process (kproc k) in
  let k := set_kproc ps k in
  if pid <? 0 then Ret (-1) k
  else
    let addr := load32 (kmem k) (elf_buf f + ELF_ADDR_OFFS) in
    let vm_end := PROG_VM_START + SPACE_4MB - WORD_SIZE in
    let pcb_start := cur_addr k in
    let term_ops := get_device_fops TERM_FTYPE (kproc k) in
    let pcb := pcb_of_pid pid in
    let '(parent, term) :=
      if curr_terminal_running_process (kkbd k) (kproc k)
      then (pcb_start, term_num (kpcbs k !!! pcb_start))
      else (0, s32 (get_current_terminal (kkbd k))) in
    let p := get_process_pd pid in
    let k := set_kvm (upd_pd p (λ t, process_pd t pid term) (kvm k)) k in
    let k := switch_pd p k in
    let len := strlen (kmem k) (args f) in
    match strcpy (kmem k) (pcb + PCB_ARGS) (args f) with
    | None => Fault
    | Some m =>
        let k := set_kmem m k in
        let k := set_kproc (set_active_process term pid (kproc k)).2 k in
        let k := set_ktss (esp0_of_pid pid) KERNEL_DS k in
        let k := set_kmem (load (kmem k) (kboot k) (exec_dentry f) START_EXE_ADDR).2 k in
        let k := set_kpcb pcb
          (Pcb (fresh_files term_ops (junk_in f) (junk_out f) (junk_fd f)) len pid parent
             (Context (ctx_esp (context (kpcbs k !!! pcb))) (ctx_eip (context (kpcbs k !!! pcb)))
                (esp0_of_pid pid) (ctx_ebp (context (kpcbs k !!! pcb))))
             (kesp k) (kebp k) p term) k in
        Enter addr vm_end k
    end.

Definition execute (f : exec_frame) (command : Z) (k : kernel D) : outcome D :=
  let k := set_kdev (cli (kdev k)) k in
  match parse_arg (kmem k) command (command_buf f) (args f) with
  | None => Fault
  | Some m =>
      let '(r, m) := read_dentry_by_name m (kboot k) (command_buf f) (exec_dentry f) in
      let k := set_kmem m k in
      if r =? -1 then Ret (-1) k
      else
        let '(n, m) := read_data m (kboot k) (u32 (dentry_inode m (exec_dentry f))) 0 (elf_buf f)
                         ELF_HEADER_LEN in
        let k := set_kmem m k in
        if n <? ELF_HEADER_LEN then Ret (-1) k
        else if load32 m (elf_buf f) =? ELF_MAGIC then execute_elf f k
        else Ret (-1) k
  end.

(** What the caller of [execute] gets when its child halts: [movb %bl] into an
    [int8_t]. *)
Definition execute_result (bl : Z) : Z := s8 bl.

(** The loop of [halt] over the descriptors. *)
Fixpoint close_all (n : nat) (i : Z) (k : kernel D) : option (kernel D) :=
  match n with
  | O => Some k
  | S n =>
      if negb (Z.land (flags (cur_fd i k)) FD_LIVE =? 0) then
        match fops_close (fops (cur_fd i k)) k with
        | None => None
        | Some k => close_all n (i + 1) k
        end
      else close_all n (i + 1) k
  end.

Definition halt (status : Z) (k : kernel D) : outcome D :=
  let status := u8 status in
  let k := set_kdev (cli (kdev k)) k in
  let child := cur_pcb k in
  let parent_ptr := parent_pcb child in
  let k := set_kproc (delete_process (pid child) (kproc k)).2 k in
  match close_all (Z.to_nat FILE_ARRAY_LEN) 0 k with
  | None => Fault
  | Some k =>
      if negb (parent_ptr =? 0) then
        let parent := kpcbs k !!! parent_ptr in
        let k := switch_pd (pd parent) k in
        let k := set_ktss (ctx_esp0 (context parent)) (ktss_ss0 k) k in
        let k := set_kproc (set_active_process (term_num parent) (pid parent) (kproc k)).2 k in
        Resume status (set_kregs (esp_parent child) (ebp_parent child) k)
      else
        let k := switch_pd PdNull k in
        let k := set_kproc (set_active_process (term_num child) (-1) (kproc k)).2 k in
        Restart_shell k
  end.

(** [handle_syscall]: the number in [eax], the arguments in [ebx], [ecx],
    [edx]; [stk] is the address of the locals of the call. *)
Definition handle_syscall (f : exec_frame) (eax ebx ecx edx : Z) (k : kernel D) : outcome D :=
  if (u32 eax <? 1) || (u32 eax >? 10) then Ret (-1) k
  else if eax =? 1 then halt ebx k
  else if eax =? 2 then execute f ebx k
  else if eax =? 3 then read (s32 ebx) ecx (s32 edx) (exec_dentry f) k
  else if eax =? 4 then write (s32 ebx) ecx (s32 edx) k
  else if eax =? 5 then open ebx (exec_dentry f) k
  else if eax =? 6 then close (s32 ebx) k
  else if eax =? 7 then getargs ebx (s32 ecx) k
  else if eax =? 8 then vidmap ebx k
  else if eax =? 9 then Ret (set_handler (s32 ebx) ecx) k
  else Ret sigreturn k.
End exec.

(** ** [parse_arg] *)

(** The words of a command as lists of characters: the command up to a space
    or newline, and what follows it and the spaces after it. *)
Fixpoint command_word (l : list Z) : list Z :=
  match l with
  | [] => []
  | c :: l => if (c =? 32) || (c =? 10) then [] else c :: command_word l
  end.
Fixpoint drop_spaces (l : list Z) : list Z :=
  match l with
  | [] => []
  | c :: l' => if c =? 32 then drop_spaces l' else l
  end.
Definition command_args (l : list Z) : list Z := drop_spaces (drop (length (command_word l)) l).

Lemma command_word_prefix l : take (length (command_word l)) l = command_word l.
Proof. induction l as [|c l IH]; [done|]. simpl. case_match; simpl; [done|]. by f_equal. Qed.
Lemma length_command_word l : (length (command_word l) ≤ length l)%nat.
Proof. rewrite <- (command_word_prefix l), length_take. lia. Qed.
Lemma drop_spaces_suffix l : ∃ n, (n ≤ length l)%nat ∧ drop_spaces l = drop n l.
Proof.
  induction l as [|c l (n & Hn & IH)]; [by exists 0%nat|]. simpl. case_match.
  - exists (S n). simpl. split; [lia|done].
  - exists 0%nat. split; [lia|done].
Qed.

Lemma cstr_drop m a l n : (n ≤ length l)%nat → cstr m a l → cstr m (a + Z.of_nat n) (drop n l).
Proof.
  revert a l. induction n as [|n IH]; intros a l Hn Hc; [by rewrite Z.add_0_r, drop_0|].
  destruct l as [|c l]; simpl in Hn; [lia|]. rewrite cstr_cons in Hc. destruct Hc as (_ & _ & Hc).
  replace (a + Z.of_nat (S n)) with (a + 1 + Z.of_nat n) by lia. apply IH; [lia|done].
Qed.

Lemma word_end_spec fuel m command i l :
  cstr m (command + i) l → (length l < fuel)%nat →
  word_end fuel m command i = i + Z.of_nat (length (command_word l)).
Proof.
  revert i l. induction fuel as [|fuel IH]; intros i l Hc Hf; [lia|]. simpl.
  destruct l as [|c l].
  - rewrite cstr_nil in Hc. rewrite Hc. simpl. lia.
  - rewrite cstr_cons in Hc. destruct Hc as (Hv & Hz & Hc). rewrite Hv.
    rewrite (proj2 (Z.eqb_neq c 0)) by done. simpl in *.
    destruct (Z.eqb_spec c 32); [simpl; lia|]. destruct (Z.eqb_spec c 10); [simpl; lia|]. simpl.
    rewrite (IH (i + 1) l); [lia| |lia]. by rewrite Z.add_assoc.
Qed.

Lemma skip_spaces_spec fuel m command i l :
  cstr m (command + i) l → (length l < fuel)%nat →
  skip_spaces fuel m command i = i + Z.of_nat (length l) - Z.of_nat (length (drop_spaces l)).
Proof.
  revert i l. induction fuel as [|fuel IH]; intros i l Hc Hf; [lia|]. simpl.
  destruct l as [|c l].
  - rewrite cstr_nil in Hc. rewrite Hc. simpl. lia.
  - rewrite cstr_cons in Hc. destruct Hc as (Hv & Hz & Hc). rewrite Hv. simpl in *.
    destruct (Z.eqb_spec c 32); [|simpl; lia].
    rewrite (IH (i + 1) l); [lia| |lia]. by rewrite Z.add_assoc.
Qed.

(** Two blocks of memory that do not touch. *)
Definition disjoint (a n b k : Z) : Prop := a + n ≤ b ∨ b + k ≤ a.

(** A string stored elsewhere leaves another as it was. *)
Lemma cstr_store_out m a l b k :
  cstr m a l → disjoint a (Z.of_nat (length l) + 1) b (Z.of_nat (length k)) →
  cstr (store_bytes m b k) a l.
Proof.
  intros Hc Hd. apply (cstr_ext m); [|done]. intros i Hi. apply mget_store_bytes_out.
  destruct Hd; lia.
Qed.

Lemma memcpy_string m dest src l :
  cstr m src l → ∀ n, (n ≤ length l)%nat →
  dest ≤ src ∨ src + Z.of_nat n ≤ dest →
  mset (memcpy m dest src (Z.of_nat n)) (dest + Z.of_nat n) 0
  = store_bytes m dest (take n l ++ [0]).
Proof.
  intros (Hl & _) n Hn Hd. rewrite memcpy_copy by done. unfold copy_block. rewrite Nat2Z.id.
  assert (load_bytes m src n = take n l) as ->.
  { rewrite <- Hl. replace (length l) with (n + (length l - n))%nat by lia.
    rewrite load_bytes_app, take_app_length' by (by rewrite length_load_bytes). done. }
  rewrite store_bytes_app. simpl. rewrite length_take. by rewrite Nat.min_l by done.
Qed.

(** [parse_arg] as two stores. *)
Lemma parse_arg_spec m command command_buf arg_buf l :
  let w := command_word l in
  let r := command_args l in
  cstr m command l →
  disjoint command (Z.of_nat (length l) + 1) command_buf (Z.of_nat (length w) + 1) →
  disjoint command (Z.of_nat (length l) + 1) arg_buf (Z.of_nat (length r) + 1) →
  parse_arg m command command_buf arg_buf
  = Some (store_bytes (store_bytes m command_buf (w ++ [0])) arg_buf (r ++ [0])).
Proof.
  intros w r Hc Hd1 Hd2. pose proof (cstr_length_le _ _ _ Hc) as Hle.
  pose proof (length_command_word l) as Hw. fold w in Hw. unfold parse_arg. cbv zeta.
  rewrite (word_end_spec _ _ _ _ l) by (rewrite ?Z.add_0_r; done || lia). fold w. rewrite Z.add_0_l.
  rewrite (memcpy_string m command_buf command l Hc (length w) Hw) by (destruct Hd1; lia).
  assert (take (length w) l = w) as -> by apply command_word_prefix.
  set (m1 := store_bytes m command_buf (w ++ [0])).
  assert (cstr m1 command l) as Hc1.
  { apply cstr_store_out; [done|]. rewrite length_app. simpl. destruct Hd1; [left|right]; lia. }
  pose proof (cstr_length_le _ _ _ Hc1) as Hle1.
  pose proof (cstr_drop m1 command l (length w) Hw Hc1) as Hc2.
  rewrite (skip_spaces_spec _ _ _ _ _ Hc2) by (rewrite length_drop; lia).
  destruct (drop_spaces_suffix (drop (length w) l)) as (n & Hn & Hr).
  change (drop_spaces _) with r in Hr.
  pose proof (cstr_drop m1 _ _ n Hn Hc2) as Hc3. rewrite <- Hr in Hc3.
  rewrite length_drop in Hn. rewrite length_drop.
  assert (length r = length l - length w - n)%nat as Hlr by (by rewrite Hr, !length_drop).
  change (drop_spaces (drop (length w) l)) with r.
  replace (command + (Z.of_nat (length w) + Z.of_nat (length l - length w) - Z.of_nat (length r)))
    with (command + Z.of_nat (length w) + Z.of_nat n) by lia.
  rewrite (strcpy_cstr _ _ _ r Hc3); [done|]. destruct Hd2; lia.
Qed.

Lemma command_word_app w l :
  Forall (λ c, c ≠ 32 ∧ c ≠ 10) w → (∀ c, head l = Some c → c = 32 ∨ c = 10) →
  command_word (w ++ l) = w.
Proof.
  intros Hw Hl. induction Hw as [|c w [H1 H2] _ IH]; simpl.
  - destruct l as [|c l]; [done|]. simpl. destruct (Hl c eq_refl) as [->| ->]; done.
  - rewrite (proj2 (Z.eqb_neq c 32)), (proj2 (Z.eqb_neq c 10)) by done. simpl. by f_equal.
Qed.
Lemma drop_spaces_replicate k r : head r ≠ Some 32 → drop_spaces (replicate k 32 ++ r) = r.
Proof.
  intros Hr. induction k as [|k IH]; [|done]. simpl. destruct r as [|c r]; [done|]. simpl.
  destruct (Z.eqb_spec c 32) as [->|]; done.
Qed.

(** ** [execute] *)

Section execute_lemmas.
Context {D : Type} `{Board D} `{Layout} `{Mmu}.
Implicit Types k : kernel D.

(** The part of the state that a failed [execute] leaves alone. *)
Definition same_tables k k' : Prop :=
  kproc k' = kproc k ∧ kpcbs k' = kpcbs k ∧ kkbd k' = kkbd k ∧ krtc k' = krtc k ∧ kvm k' = kvm k ∧
  kesp k' = kesp k ∧ kebp k' = kebp k ∧ ktss_esp0 k' = ktss_esp0 k ∧ kboot k' = kboot k ∧
  kdev k' = cli (kdev k).

(** Whom the new process returns to, and on which terminal it runs. *)
Definition parent_of k : Z :=
  if curr_terminal_running_process (kkbd k) (kproc k) then cur_addr k else 0.
Definition terminal_of k : Z :=
  if curr_terminal_running_process (kkbd k) (kproc k) then term_num (cur_pcb k)
  else s32 (get_current_terminal (kkbd k)).

(** The state in which a program is entered, but for memory. *)
Record entered (f : exec_frame) k (p : Z) (ps : proc_state) k' : Prop := {
  en_proc : kproc k' = (set_active_process (terminal_of k) p ps).2;
  en_pcbs : kpcbs k' = <[pcb_of_pid p := kpcbs k' !!! pcb_of_pid p]> (kpcbs k);
  en_pid : pid (kpcbs k' !!! pcb_of_pid p) = p;
  en_files : files (kpcbs k' !!! pcb_of_pid p) =
    fresh_files (get_device_fops TERM_FTYPE ps) (junk_in f) (junk_out f) (junk_fd f);
  en_parent : parent_pcb (kpcbs k' !!! pcb_of_pid p) = parent_of k;
  en_term : term_num (kpcbs k' !!! pcb_of_pid p) = terminal_of k;
  en_esp0 : ctx_esp0 (context (kpcbs k' !!! pcb_of_pid p)) = esp0_of_pid p;
  en_esp : esp_parent (kpcbs k' !!! pcb_of_pid p) = kesp k;
  en_ebp : ebp_parent (kpcbs k' !!! pcb_of_pid p) = kebp k;
  en_pd : pd (kpcbs k' !!! pcb_of_pid p) = get_process_pd p;
  en_vm : kvm k' = set_pd (get_process_pd p)
    (upd_pd (get_process_pd p) (λ t, process_pd t p (terminal_of k)) (kvm k));
  en_tss : ktss_esp0 k' = esp0_of_pid p ∧ ktss_ss0 k' = KERNEL_DS;
  en_rest : kkbd k' = kkbd k ∧ krtc k' = krtc k ∧ kesp k' = kesp k ∧ kebp k' = kebp k ∧
    kboot k' = kboot k ∧ kdev k' = kdev k }.

Lemma add_process_tables s p ps :
  add_process s = (p, ps) → active_processes ps = active_processes s ∧ devices ps = devices s.
Proof.
  unfold add_process. intros E. pose proof (add_process_from_spec (Z.to_nat MAX_PROCESSES) 0 s ltac:(lia)) as Hs.
  rewrite E in Hs. destruct Hs as [(_ & -> & _)|(? & _ & _ & _ & _ & ->)]; done.
Qed.

Lemma running_ext b s s' :
  active_processes s' = active_processes s →
  curr_terminal_running_process b s' = curr_terminal_running_process b s.
Proof. intros E. unfold curr_terminal_running_process, get_active_process. by rewrite E. Qed.

(** The memory of the new process: the page of its directory, with the
    arguments in its PCB and the file at [START_EXE_ADDR]. *)
Definition entered_mem (f : exec_frame) k p k' : Prop :=
  let m0 := remap (get_process_pd p) (kmem k) in
  args_len (kpcbs k' !!! pcb_of_pid p) = strlen m0 (args f) ∧
  ∃ m1, strcpy m0 (pcb_of_pid p + PCB_ARGS) (args f) = Some m1 ∧
    kmem k' = (load m1 (kboot k) (exec_dentry f) START_EXE_ADDR).2.

Lemma pid_of_add s p ps : add_process s = (p, ps) → (p = -1 ∧ ps = s) ∨ 1 ≤ p ≤ 6.
Proof.
  unfold add_process. intros E. pose proof (add_process_from_spec (Z.to_nat MAX_PROCESSES) 0 s ltac:(lia)) as Hs.
  rewrite E in Hs. unfold MAX_PROCESSES in Hs.
  destruct Hs as [(-> & -> & _)|(? & ? & -> & _)]; [by left|right; lia].
Qed.

Lemma get_process_pd_pid p : 1 ≤ p ≤ 6 → get_process_pd p = PdProc (p - 1).
Proof.
  intros Hp. unfold get_process_pd, MAX_PROCESSES. rewrite s32_small by lia.
  rewrite (proj2 (Z.ltb_ge _ _)), Z.geb_leb, (proj2 (Z.leb_gt _ _)) by lia. done.
Qed.

Lemma execute_elf_spec f k p ps :
  add_process (kproc k) = (p, ps) →
  match execute_elf f k with
  | Ret r k' => r = -1 ∧ p = -1 ∧ k' = set_kproc (kproc k) k
  | Enter entry esp k' =>
      1 ≤ p ≤ 6 ∧ entry = load32 (kmem k) (elf_buf f + ELF_ADDR_OFFS) ∧
      esp = PROG_VM_START + SPACE_4MB - WORD_SIZE ∧ entered f k p ps k' ∧ entered_mem f k p k'
  | Fault => 1 ≤ p ≤ 6 ∧
      strcpy (remap (get_process_pd p) (kmem k)) (pcb_of_pid p + PCB_ARGS) (args f) = None
  | _ => False
  end.
Proof.
  intros E. pose proof (add_process_tables _ _ _ E) as [Ha Hd]. pose proof (pid_of_add _ _ _ E) as Hp.
  unfold execute_elf. rewrite E. destruct Hp as [[-> ->]|Hp]; [done|].
  rewrite (proj2 (Z.ltb_ge p 0)) by lia.
  change (kproc (set_kproc ps k)) with ps. change (kkbd (set_kproc ps k)) with (kkbd k).
  rewrite (running_ext _ _ _ Ha). change (kpcbs (set_kproc ps k)) with (kpcbs k).
  change (cur_addr (set_kproc ps k)) with (cur_addr k). change (kmem (set_kproc ps k)) with (kmem k).
  assert ((if curr_terminal_running_process (kkbd k) (kproc k)
    then (cur_addr k, term_num (kpcbs k !!! cur_addr k))
    else (0, s32 (get_current_terminal (kkbd k)))) = (parent_of k, terminal_of k)) as ->
    by (unfold parent_of, terminal_of, cur_pcb; by case_match).
  cbv zeta. set (v := upd_pd _ _ (kvm (set_kproc ps k))).
  assert (cr3 (set_pd (get_process_pd p) v) = get_process_pd p) as Hcr3
    by (rewrite get_process_pd_pid by done; done).
  assert (kmem (switch_pd (get_process_pd p) (set_kvm v (set_kproc ps k)))
    = remap (get_process_pd p) (kmem k)) as Hm.
  { change (remap (cr3 (set_pd (get_process_pd p) v)) (kmem k) = remap (get_process_pd p) (kmem k)).
    by rewrite Hcr3. }
  rewrite Hm.
  destruct (strcpy _ _ _) as [m1|] eqn:Es; [|done].
  split; [done|]. split; [done|]. split; [done|].
  set (k' := set_kpcb _ _ _).
  assert (kpcbs k' !!! pcb_of_pid p = Pcb (fresh_files (get_device_fops TERM_FTYPE ps) (junk_in f)
    (junk_out f) (junk_fd f)) (strlen (remap (get_process_pd p) (kmem k)) (args f)) p (parent_of k)
    (Context (ctx_esp (context (kpcbs k !!! pcb_of_pid p))) (ctx_eip (context (kpcbs k !!! pcb_of_pid p)))
      (esp0_of_pid p) (ctx_ebp (context (kpcbs k !!! pcb_of_pid p))))
    (kesp k) (kebp k) (get_process_pd p) (terminal_of k)) as Hpcb by apply lookup_total_insert_eq.
  split.
  - assert (kpcbs k' = <[pcb_of_pid p := kpcbs k' !!! pcb_of_pid p]> (kpcbs k)) as Hpcbs
      by (rewrite Hpcb; reflexivity).
    split; first [exact Hpcbs|rewrite ?Hpcb; by split_and?].
  - split; [by rewrite Hpcb|]. exists m1. split; [exact Es|]. done.
Qed.

Lemma set_kproc_id k : set_kproc (kproc k) k = k.
Proof. by destruct k. Qed.
End execute_lemmas.

(** The locals of [execute] as its caller's stack holds them: four blocks that
    overlap neither each other nor the image nor the command, in the kernel's
    page. *)
Definition locals (f : exec_frame) : list (Z * Z) :=
  [(command_buf f, ARGS_MAX); (args f, ARGS_MAX); (elf_buf f, ELF_HEADER_LEN);
   (exec_dentry f, BYTES_DENTRY)].
Definition in_kernel (a n : Z) : Prop := KERNEL_LOC ≤ a ∧ a + n ≤ KERNEL_LOC + SPACE_4MB.
Record frame_ok (f : exec_frame) (m : mem) (bb command : Z) (l : list Z) : Prop := {
  fr_image : Forall (λ b, outside_image m bb b.1 b.2) (locals f);
  fr_kernel : Forall (λ b, in_kernel b.1 b.2) (locals f);
  fr_command : Forall (λ b, disjoint command (Z.of_nat (length l) + 1) b.1 b.2) (locals f);
  fr_args_buf : disjoint (args f) ARGS_MAX (command_buf f) ARGS_MAX;
  fr_elf : Forall (λ b, disjoint (elf_buf f) ELF_HEADER_LEN b.1 b.2) (take 2 (locals f));
  fr_dentry : Forall (λ b, disjoint (exec_dentry f) BYTES_DENTRY b.1 b.2) (take 3 (locals f)) }.

Lemma store_string_image m bb a n l :
  image_ok m bb → outside_image m bb a n → Z.of_nat (length l) ≤ n →
  ∀ b, bb ≤ b < image_end m bb → mget (store_bytes m a l) b = mget m b.
Proof. intros Hi Ho Hl. apply image_store; [done|]. destruct Ho; [left|right]; lia. Qed.

(** Memories with the same image have the same directory. *)
Lemma dir_has_same m m' bb j name :
  image_ok m bb → (∀ b, bb ≤ b < image_end m bb → mget m' b = mget m b) →
  bb + 2 * BLOCK_SIZE ≤ image_end m bb → Z.of_nat (length name) < ARGS_MAX →
  dir_has m bb j name ↔ dir_has m' bb j name.
Proof.
  intros Hi Hs Hend Hl. destruct (image_same m m' bb Hi Hs) as (Hd & _).
  pose proof (img_dirs _ _ Hi) as Hdirs. unfold NUM_INODES, BLOCK_SIZE, ARGS_MAX in *.
  unfold dir_has. rewrite Hd. unfold dentry_addr, BYTES_DENTRY.
  split; intros [Hj Hc]; (split; [done|]);
    (eapply cstr_ext; [|exact Hc]); intros x Hx; [|symmetry]; apply Hs; lia.
Qed.
Lemma names_file_same m m' bb i name :
  image_ok m bb → (∀ b, bb ≤ b < image_end m bb → mget m' b = mget m b) →
  bb + 2 * BLOCK_SIZE ≤ image_end m bb → Z.of_nat (length name) < ARGS_MAX →
  names_file m bb i name → names_file m' bb i name.
Proof.
  intros Hi Hs Hend Hl [H1 H2].
  split; [by apply (dir_has_same m)|]. intros j Hj Hj'. apply (H2 j Hj). by apply (dir_has_same m m').
Qed.

Section memory.
Context (m : mem) (bb command : Z) (l : list Z) (f : exec_frame).
Hypothesis (Himg : image_ok m bb) (Hcmd : cstr m command l) (Hfr : frame_ok f m bb command l).
Hypothesis (Hword : Z.of_nat (length (command_word l)) < ARGS_MAX).
Hypothesis (Hargs : Z.of_nat (length (command_args l)) < ARGS_MAX).
Let w := command_word l.
Let r := command_args l.

(** Memory after [parse_arg]. *)
Definition parsed : mem :=
  store_bytes (store_bytes m (command_buf f) (w ++ [0])) (args f) (r ++ [0]).

Lemma parse_arg_parsed : parse_arg m command (command_buf f) (args f) = Some parsed.
Proof using Hcmd Hfr Hword Hargs.
  destruct Hfr as [_ _ Hc _ _ _]. unfold locals, ARGS_MAX in *.
  repeat (apply Forall_cons in Hc as [? Hc]). simpl in *.
  apply parse_arg_spec; [done| |]; unfold disjoint in *; lia.
Qed.

Lemma parsed_image : ∀ b, bb ≤ b < image_end m bb → mget parsed b = mget m b.
Proof using Himg Hfr Hword Hargs.
  destruct Hfr as [Ho _ _ _ _ _]. unfold locals, ARGS_MAX in *.
  repeat (apply Forall_cons in Ho as [? Ho]). simpl in *.
  assert (∀ x : list Z, Z.of_nat (length (x ++ [0])) = Z.of_nat (length x) + 1) as Hl
    by (intros; rewrite length_app; simpl; lia).
  intros b Hb. unfold parsed.
  rewrite mget_store_bytes_out by (rewrite Hl; unfold outside_image in *; fold r in Hargs; lia).
  rewrite mget_store_bytes_out by (rewrite Hl; unfold outside_image in *; fold w in Hword; lia).
  done.
Qed.

Lemma parsed_strings : cstr parsed (command_buf f) w ∧ cstr parsed (args f) r.
Proof using Hcmd Hfr Hword Hargs.
  destruct Hfr as [_ _ _ Hab _ _]. unfold ARGS_MAX in *. fold r in Hargs. fold w in Hword.
  destruct Hcmd as (Hl & _ & Hnz). pose proof (cstr_byte _ _ _ Hcmd) as Hby.
  destruct (drop_spaces_suffix (drop (length w) l)) as (n & _ & Hr).
  change (drop_spaces _) with r in Hr.
  split.
  - apply cstr_store_out.
    + apply cstr_store; unfold w; rewrite <- command_word_prefix; by apply Forall_take.
    + rewrite length_app. simpl. unfold disjoint in *. lia.
  - apply cstr_store; rewrite Hr; by repeat apply Forall_drop.
Qed.

(** The lookup of the word in the directory. *)
Lemma lookup_parsed i :
  names_file m bb i w → bb + 2 * BLOCK_SIZE ≤ image_end m bb →
  ∃ m2, read_dentry_by_name parsed bb (command_buf f) (exec_dentry f) = (0, m2) ∧
    dentry_inode m2 (exec_dentry f) = dentry_inode m (dentry_addr bb i) ∧
    frame (exec_dentry f) (exec_dentry f + BYTES_DENTRY) parsed m2.
Proof using Himg Hcmd Hfr Hword Hargs.
  intros Hn Hend. pose proof parsed_image as Hs. destruct parsed_strings as [Hw _].
  destruct (image_same m parsed bb Himg Hs) as (Hd & Hi & Hb & Himg').
  assert (image_end parsed bb = image_end m bb) as He by (unfold image_end; by rewrite Hi, Hb).
  destruct Hfr as [Ho _ _ _ _ _]. unfold locals in Ho.
  repeat (apply Forall_cons in Ho as [? Ho]). simpl in *.
  pose proof (img_dirs _ _ Himg) as Hdirs. unfold NUM_INODES, BLOCK_SIZE, ARGS_MAX in *.
  fold w in Hword.
  destruct (lookup_named parsed bb (command_buf f) (exec_dentry f) w i) as (m2 & E & _ & Hino & Hf2).
  - done.
  - done.
  - unfold outside_image in *. by rewrite He.
  - by apply (names_file_same m parsed).
  - exists m2. split; [done|]. split; [|done]. rewrite Hino.
    destruct Hn as [[Hr _] _]. unfold dentry_inode, loads32, load32, dentry_addr, BYTES_DENTRY, FNAME_LEN.
    by rewrite !Hs by lia.
Qed.

(** The 40 bytes read, and everything the rest of [execute] looks at. *)
Lemma header_read i :
  names_file m bb i w → file_ok m bb (dentry_inode m (dentry_addr bb i)) →
  let ino := dentry_inode m (dentry_addr bb i) in
  let hdr := take (Z.to_nat ELF_HEADER_LEN) (file_contents m bb ino) in
  ∃ m2 m3, read_dentry_by_name parsed bb (command_buf f) (exec_dentry f) = (0, m2) ∧
    read_data m2 bb (u32 (dentry_inode m2 (exec_dentry f))) 0 (elf_buf f) ELF_HEADER_LEN
      = (Z.of_nat (length hdr), m3) ∧
    load_bytes m3 (elf_buf f) (length hdr) = hdr ∧ cstr m3 (args f) r ∧
    dentry_inode m3 (exec_dentry f) = ino ∧ ∀ b, bb ≤ b < image_end m bb → mget m3 b = mget m b.
Proof using Himg Hcmd Hfr Hword Hargs.
  intros Hn Hf ino hdr. pose proof Hf as [Hino _ _]. fold ino in Hino.
  pose proof Himg as [_ _ Hic Hbc Hend]. pose proof (loads32_range m (bb + 4)) as Hicr.
  destruct (lookup_parsed i Hn) as (m2 & E & E2 & Hf2); [unfold image_end, BLOCK_SIZE; lia|].
  fold ino in E2. pose proof parsed_image as Hp. destruct parsed_strings as [_ Hr].
  destruct Hfr as [Ho _ _ Hab Helf Hde]. unfold locals, ARGS_MAX, BYTES_DENTRY in *.
  cbn [take] in Helf, Hde. change ELF_HEADER_LEN with 40 in *.
  repeat (apply Forall_cons in Ho as [? Ho]). repeat (apply Forall_cons in Helf as [? Helf]).
  repeat (apply Forall_cons in Hde as [? Hde]). simpl in *. fold r in Hargs.
  unfold disjoint, outside_image in *.
  assert (∀ b, bb ≤ b < image_end m bb → mget m2 b = mget m b) as Hs2.
  { intros b Hb. rewrite Hf2 by lia. by apply Hp. }
  destruct (image_same _ _ _ Himg Hs2) as (_ & Hi2 & Hb2 & Himg2).
  destruct (file_same _ _ _ _ Himg Hf Hs2) as (Hfile2 & _ & Hfc). fold ino in Hfile2, Hfc.
  assert (file_slice m2 bb ino 0 40 = hdr) as Hsl by (unfold file_slice; by rewrite Hfc, drop_0).
  assert (length hdr ≤ 40)%nat as Hlh by (unfold hdr; rewrite length_take; lia).
  exists m2, (store_bytes m2 (elf_buf f) hdr). split; [done|]. split.
  { rewrite E2, u32_small by (unfold inode_cnt in *; lia).
    rewrite read_data_spec; rewrite ?Hsl; try done.
    unfold outside_image, image_end. rewrite Hi2, Hb2. unfold image_end in *. lia. }
  split; [apply load_store_bytes; rewrite <- Hsl; apply file_slice_byte|]. split; [|split].
  - apply cstr_store_out; [|unfold disjoint; lia]. apply (cstr_ext parsed); [|done].
    intros x Hx. apply Hf2. lia.
  - rewrite <- E2. unfold dentry_inode, loads32, load32, FNAME_LEN.
    by rewrite !mget_store_bytes_out by lia.
  - intros b Hb. rewrite mget_store_bytes_out by lia. by apply Hs2.
Qed.
End memory.

(** ** Running a command *)

(** A command at an address of a state whose file system is sound, and a stack
    with room for the locals. *)
Record command_ok {D} (f : exec_frame) (k : kernel D) (command : Z) (l : list Z) : Prop := {
  co_image : image_ok (kmem k) (kboot k);
  co_inodes : 1 ≤ inode_cnt (kmem k) (kboot k);
  co_string : cstr (kmem k) command l;
  co_frame : frame_ok f (kmem k) (kboot k) command l;
  co_word : Z.of_nat (length (command_word l)) < ARGS_MAX;
  co_args : Z.of_nat (length (command_args l)) < ARGS_MAX }.

(** The inode and the contents of the file that directory entry [i] names. *)
Definition entry_inode {D} (k : kernel D) (i : Z) : Z :=
  dentry_inode (kmem k) (dentry_addr (kboot k) i).
Definition entry_file {D} (k : kernel D) (i : Z) : list Z :=
  file_contents (kmem k) (kboot k) (entry_inode k i).
Definition executable (data : list Z) : Prop :=
  ELF_HEADER_LEN ≤ Z.of_nat (length data) ∧ word_at data 0 = ELF_MAGIC.

Section running.
Context {D : Type} `{Board D} `{Layout} `{Mmu}.
Implicit Types k : kernel D.

Lemma word_at_take l n i : (i + 4 ≤ n)%nat → word_at (take n l) i = word_at l i.
Proof. intros Hi. unfold word_at. by rewrite !lookup_total_take_lt by lia. Qed.

(** [execute] up to the test of the magic number. *)
Lemma execute_header f command l k i :
  command_ok f k command l → names_file (kmem k) (kboot k) i (command_word l) →
  file_ok (kmem k) (kboot k) (entry_inode k i) →
  ∃ m3, let k3 := set_kmem m3 (set_kdev (cli (kdev k)) k) in
    execute f command k = (if decide (executable (entry_file k i)) then execute_elf f k3 else Ret (-1) k3) ∧
    (ELF_HEADER_LEN ≤ Z.of_nat (length (entry_file k i)) →
      load32 m3 (elf_buf f + ELF_ADDR_OFFS) = word_at (entry_file k i) 24) ∧
    cstr m3 (args f) (command_args l) ∧ dentry_inode m3 (exec_dentry f) = entry_inode k i ∧
    ∀ b, kboot k ≤ b < image_end (kmem k) (kboot k) → mget m3 b = mget (kmem k) b.
Proof.
  intros [Hi _ Hc Hf Hw Ha] Hn Hfile.
  destruct (header_read (kmem k) (kboot k) command l f Hi Hc Hf Hw Ha i Hn Hfile)
    as (m2 & m3 & E2 & E3 & Hl & Hs & Hino & Himg).
  fold (entry_inode k i) in *. fold (entry_file k i) in *. set (data := entry_file k i) in *.
  exists m3. cbv zeta. split; [|split; [|done]].
  - unfold execute. change (kmem (set_kdev _ k)) with (kmem k).
    rewrite (parse_arg_parsed (kmem k) (kboot k) command l f Hc Hf Hw Ha).
    change (kboot (set_kdev _ k)) with (kboot k). rewrite E2. cbv zeta.
    change (0 =? -1) with false. cbv iota. change (kboot (set_kmem m2 _)) with (kboot k).
    rewrite E3. change ELF_HEADER_LEN with 40 in *. rewrite length_take in *. unfold executable.
    change ELF_HEADER_LEN with 40.
    destruct (Z.ltb_spec (Z.of_nat (Z.to_nat 40 `min` length data)) 40) as [Hlt|Hge].
    { rewrite decide_False by lia. done. }
    assert (load32 m3 (elf_buf f) = word_at data 0) as ->.
    { rewrite <- (word_at_take data (Z.to_nat 40) 0) by lia.
      rewrite <- (load32_word_at m3 (elf_buf f)) by (rewrite length_take; done || lia).
      f_equal. lia. }
    destruct (Z.eqb_spec (word_at data 0) ELF_MAGIC).
    + rewrite decide_True by (split; [lia|done]). done.
    + rewrite decide_False by tauto. done.
  - intros Hlen. change ELF_HEADER_LEN with 40 in *. change ELF_ADDR_OFFS with (Z.of_nat 24).
    rewrite <- (word_at_take data (Z.to_nat 40)) by lia. apply load32_word_at; [done|].
    rewrite length_take. lia.
Qed.

Lemma execute_unnamed f command l k :
  command_ok f k command l → (∀ i, ¬ dir_has (kmem k) (kboot k) i (command_word l)) →
  execute f command k = Ret (-1) (set_kmem (parsed (kmem k) l f) (set_kdev (cli (kdev k)) k)).
Proof.
  intros [Hi Hin Hc Hf Hw Ha] Hno. pose proof Hi as [_ _ _ Hb Hend].
  pose proof (parsed_image (kmem k) (kboot k) command l f Hi Hf Hw Ha) as Hs.
  destruct (parsed_strings (kmem k) (kboot k) command l f Hc Hf Hw Ha) as [Hcw _].
  destruct (image_same _ _ _ Hi Hs) as (_ & Hic & Hbc & Himg').
  assert (kboot k + 2 * BLOCK_SIZE ≤ image_end (kmem k) (kboot k)) as Hend2
    by (unfold image_end, BLOCK_SIZE in *; lia).
  unfold execute. change (kmem (set_kdev _ k)) with (kmem k).
  rewrite (parse_arg_parsed (kmem k) (kboot k) command l f Hc Hf Hw Ha).
  change (kboot (set_kdev _ k)) with (kboot k).
  pose proof (read_dentry_by_name_spec (parsed (kmem k) l f) (kboot k) (command_buf f) (exec_dentry f)
    (command_word l) Himg' Hcw) as Hl.
  destruct (read_dentry_by_name _ _ _ _) as [q m2]. destruct Hl as [(_ & i & Hd & _)|(-> & -> & _)].
  - destruct Hf as [Ho _ _ _ _ _]. unfold locals in Ho. repeat (apply Forall_cons in Ho as [? Ho]).
    unfold outside_image, image_end in *. simpl in *. rewrite Hic, Hbc. done.
  - destruct (Hno i). by apply (dir_has_same (kmem k) (parsed (kmem k) l f)).
  - done.
Qed.

Lemma execute_ret f command k r k' : execute f command k = Ret r k' → r = -1 ∧ same_tables k k'.
Proof.
  unfold execute. destruct (parse_arg _ _ _ _) as [m|]; [|done].
  destruct (read_dentry_by_name _ _ _ _) as [q m2]. cbv zeta.
  assert (∀ m, same_tables k (set_kmem m (set_kdev (cli (kdev k)) k))) as Hs by (intros; by split_and!).
  destruct (q =? -1); [intros E; apply ret_inv in E as [<- <-]; split; [done|apply Hs]|].
  destruct (read_data _ _ _ _ _ _) as [n m3].
  destruct (n <? ELF_HEADER_LEN); [intros E; apply ret_inv in E as [<- <-]; split; [done|apply Hs]|].
  destruct (load32 m3 _ =? ELF_MAGIC);
    [|intros E; apply ret_inv in E as [<- <-]; split; [done|apply Hs]].
  intros E. match type of E with execute_elf f ?k3 = _ => set (k3' := k3) in E end.
  destruct (add_process (kproc k3')) as [p ps] eqn:Ep.
  pose proof (execute_elf_spec f k3' p ps Ep) as Hx. rewrite E in Hx.
  destruct Hx as (-> & _ & ->). rewrite set_kproc_id. split; [done|]. apply Hs.
Qed.

(** The memory of an entered program. *)
Lemma entered_memory f k p k' data bb r :
  1 ≤ p ≤ 6 → entered_mem f k p k' → kboot k = bb → image_ok (kmem k) bb →
  file_ok (kmem k) bb (dentry_inode (kmem k) (exec_dentry f)) →
  data = file_contents (kmem k) bb (dentry_inode (kmem k) (exec_dentry f)) →
  cstr (kmem k) (args f) r → Z.of_nat (length r) < ARGS_MAX →
  in_kernel bb (image_end (kmem k) bb - bb) → in_kernel (args f) ARGS_MAX →
  in_kernel (exec_dentry f) BYTES_DENTRY →
  outside_image (kmem k) bb (pcb_of_pid p + PCB_ARGS) ARGS_MAX →
  disjoint (args f) ARGS_MAX (pcb_of_pid p + PCB_ARGS) ARGS_MAX →
  disjoint (exec_dentry f) BYTES_DENTRY (pcb_of_pid p + PCB_ARGS) ARGS_MAX →
  args_len (kpcbs k' !!! pcb_of_pid p) = Z.of_nat (length r) ∧
  cstr (kmem k') (pcb_of_pid p + PCB_ARGS) r ∧
  load_bytes (kmem k') START_EXE_ADDR (length data) = data.
Proof.
  intros Hp (Hlen & m1 & Es & Em) Hbb Hi Hf Hdata Hr Hrl Hki Hka Hkd Ho Hd1 Hd2. rewrite Hbb in Em.
  assert (0x7f0000 ≤ pcb_of_pid p + PCB_ARGS ≤ 0x7fe000) as Hpcb
    by (unfold pcb_of_pid, PCB_ARGS, KERNEL_MEM_END, KERNEL_STACK_SIZE; lia).
  unfold in_kernel, KERNEL_LOC, SPACE_4MB, ARGS_MAX, BYTES_DENTRY, disjoint, outside_image in *.
  set (m0 := remap (get_process_pd p) (kmem k)) in *.
  assert (∀ a, 0x400000 ≤ a < 0x800000 → mget m0 a = mget (kmem k) a) as Hm0
    by (intros a Ha; apply remap_kernel; unfold kernel_address, KERNEL_LOC, SPACE_4MB; lia).
  assert (cstr m0 (args f) r) as Hr0 by (apply (cstr_ext (kmem k)); [|done]; intros x Hx; apply Hm0; lia).
  rewrite (strlen_cstr _ _ _ Hr0) in Hlen. split; [done|].
  rewrite (strcpy_cstr _ _ _ _ Hr0) in Es by lia. apply some_inv in Es.
  assert (length (r ++ [0]%Z) = S (length r)) as Hlr by (rewrite length_app; simpl; lia).
  assert (∀ a, 0x400000 ≤ a < 0x800000 → (a < pcb_of_pid p + PCB_ARGS ∨ pcb_of_pid p + PCB_ARGS + 128 ≤ a) →
    mget m1 a = mget (kmem k) a) as Hm1.
  { intros a Ha Hout. rewrite <- Es, mget_store_bytes_out by lia. by apply Hm0. }
  assert (∀ b, bb ≤ b < image_end (kmem k) bb → mget m1 b = mget (kmem k) b) as Hs
    by (intros b Hb; apply Hm1; lia).
  destruct (image_same _ _ _ Hi Hs) as (_ & Hic & Hbc & Hi1).
  destruct (file_same _ _ _ _ Hi Hf Hs) as (Hf1 & _ & Hfc).
  assert (dentry_inode m1 (exec_dentry f) = dentry_inode (kmem k) (exec_dentry f)) as Hino.
  { unfold dentry_inode, loads32, load32, FNAME_LEN. by rewrite !Hm1 by lia. }
  rewrite load_spec in Em; rewrite ?Hino; try done; [|lia|].
  2:{ unfold START_EXE_ADDR, outside_image, image_end in *. rewrite Hic, Hbc. lia. }
  rewrite Hino, Hfc, <- Hdata in Em. cbn [snd] in Em. rewrite Em. split.
  - apply cstr_store_out.
    + rewrite <- Es. apply cstr_store; [by eapply cstr_byte|]. by destruct Hr as (_ & _ & ?).
    + left. unfold START_EXE_ADDR. lia.
  - apply load_store_bytes. rewrite Hdata. apply file_contents_byte.
Qed.
End running.

(** Where the image, the locals and the new PCB may lie. *)
Record room_ok {D} (f : exec_frame) (k : kernel D) (p : Z) : Prop := {
  ro_image : in_kernel (kboot k) (image_end (kmem k) (kboot k) - kboot k);
  ro_pcb : outside_image (kmem k) (kboot k) (pcb_of_pid p + PCB_ARGS) ARGS_MAX;
  ro_args : disjoint (args f) ARGS_MAX (pcb_of_pid p + PCB_ARGS) ARGS_MAX;
  ro_dentry : disjoint (exec_dentry f) BYTES_DENTRY (pcb_of_pid p + PCB_ARGS) ARGS_MAX }.

Lemma execute_enters {D} `{Board D} `{Layout} `{Mmu} f (k : kernel D) command l i p ps :
  command_ok f k command l → names_file (kmem k) (kboot k) i (command_word l) →
  file_ok (kmem k) (kboot k) (entry_inode k i) → executable (entry_file k i) →
  add_process (kproc k) = (p, ps) → 1 ≤ p → room_ok f k p →
  ∃ k', execute f command k
      = Enter (word_at (entry_file k i) 24) (PROG_VM_START + SPACE_4MB - WORD_SIZE) k' ∧
    1 ≤ p ≤ 6 ∧ entered f (set_kdev (cli (kdev k)) k) p ps k' ∧
    args_len (kpcbs k' !!! pcb_of_pid p) = Z.of_nat (length (command_args l)) ∧
    cstr (kmem k') (pcb_of_pid p + PCB_ARGS) (command_args l) ∧
    load_bytes (kmem k') START_EXE_ADDR (length (entry_file k i)) = entry_file k i.
Proof.
  intros Hco Hn Hfile Hex Ep Hp1 [Hri Hrp Hra Hrd]. pose proof Hco as [Hi _ _ Hf _ Hal].
  destruct (execute_header f command l k i Hco Hn Hfile) as (m3 & E & Hent & Hs & Hino & Hsame).
  rewrite decide_True in E by done. set (k3 := set_kmem m3 (set_kdev (cli (kdev k)) k)) in *.
  pose proof (execute_elf_spec f k3 p ps Ep) as Hx.
  destruct Hf as [_ Hk _ _ _ _]. unfold locals in Hk. repeat (apply Forall_cons in Hk as [? Hk]).
  destruct (image_same _ _ _ Hi Hsame) as (_ & Hic & Hbc & Hi3).
  destruct (file_same _ _ _ _ Hi Hfile Hsame) as (Hf3 & _ & Hfc).
  destruct (execute_elf f k3) as [r k'| | |entry esp k'| | |]; try done.
  - destruct Hx as (_ & -> & _). lia.
  - destruct Hx as (Hp & -> & -> & Hen & Hmem). exists k'. rewrite E. split.
    { destruct Hex as [Hlen _]. f_equal. exact (Hent Hlen). }
    split; [done|]. split; [by destruct Hen; split|].
    assert (image_end m3 (kboot k) = image_end (kmem k) (kboot k)) as Hend
      by (unfold image_end; by rewrite Hic, Hbc).
    apply (entered_memory f k3 p k' (entry_file k i) (kboot k)); try done.
    + change (kmem k3) with m3. by rewrite Hino.
    + change (kmem k3) with m3. by rewrite Hino, Hfc.
    + change (kmem k3) with m3. by rewrite Hend.
    + change (kmem k3) with m3. unfold outside_image in *. by rewrite Hend.
  - destruct Hx as (Hp & Hx). exfalso.
    assert (cstr (remap (get_process_pd p) (kmem k3)) (args f) (command_args l)) as Hs0.
    { apply (cstr_ext m3); [|done]. intros x Hx'. apply remap_kernel.
      unfold kernel_address, in_kernel, ARGS_MAX in *. simpl in *. lia. }
    rewrite (strcpy_cstr _ _ _ _ Hs0) in Hx; [done|]. unfold disjoint, ARGS_MAX in *. lia.
Qed.

(** ** Properties *)

(** [parse_arg] splits a command: its first word, up to a space or newline,
    goes to one buffer, and what follows the spaces after it, spaces and
    newlines included, to the other; nothing else is written. *)
Lemma parse_arg_splits m command command_buf arg_buf w n r :
  let l := w ++ replicate n 32 ++ r in
  cstr m command l → Forall (λ c, c ≠ 32 ∧ c ≠ 10) w → head r ≠ Some 32 →
  (n = 0%nat → r = [] ∨ head r = Some 10) →
  disjoint command (Z.of_nat (length l) + 1) command_buf (Z.of_nat (length w) + 1) →
  disjoint command (Z.of_nat (length l) + 1) arg_buf (Z.of_nat (length r) + 1) →
  disjoint command_buf (Z.of_nat (length w) + 1) arg_buf (Z.of_nat (length r) + 1) →
  ∃ m', parse_arg m command command_buf arg_buf = Some m' ∧
    cstr m' command_buf w ∧ cstr m' arg_buf r ∧
    ∀ a, ¬ (command_buf ≤ a ≤ command_buf + Z.of_nat (length w)) →
      ¬ (arg_buf ≤ a ≤ arg_buf + Z.of_nat (length r)) → mget m' a = mget m a.
Proof.
  intros l Hc Hw Hr Hn Hd1 Hd2 Hd3.
  assert (command_word l = w) as Hcw.
  { apply command_word_app; [done|]. intros c Hh. destruct n; [|simpl in Hh; injection Hh; auto].
    simpl in Hh. destruct (Hn eq_refl) as [->|Hr']; [done|]. rewrite Hr' in Hh. injection Hh. auto. }
  assert (command_args l = r) as Hca.
  { unfold command_args. rewrite Hcw. unfold l. rewrite drop_app_length.
    by apply drop_spaces_replicate. }
  pose proof (parse_arg_spec m command command_buf arg_buf l) as E. rewrite Hcw, Hca in E.
  rewrite E by done. eexists. split; [done|].
  pose proof (cstr_byte _ _ _ Hc) as Hby. destruct Hc as (_ & _ & Hnz). unfold l in Hby, Hnz.
  repeat (apply Forall_app in Hby as [? Hby]; apply Forall_app in Hnz as [? Hnz]).
  assert (∀ x : list Z, length (x ++ [0]) = S (length x)) as Hl1 by (intros; rewrite length_app; simpl; lia).
  split; [|split].
  - apply cstr_store_out; [by apply cstr_store|]. rewrite Hl1. unfold disjoint in *. lia.
  - by apply cstr_store.
  - intros a Ha1 Ha2. rewrite !mget_store_bytes_out by (rewrite Hl1; lia). done.
Qed.

Lemma parse_arg_splits_witness :
  ∃ m', parse_arg (store_bytes ∅ 100 [108; 115; 32; 32; 97; 10; 0]) 100 200 300 = Some m' ∧
    cstr m' 200 [108; 115] ∧ cstr m' 300 [97; 10].
Proof.
  destruct (parse_arg_splits (store_bytes ∅ 100 [108; 115; 32; 32; 97; 10; 0]) 100 200 300
    [108; 115] 2 [97; 10]) as (m' & E & H1 & H2 & _).
  - split; [vm_compute; reflexivity|]. split; [vm_compute; reflexivity|].
    repeat constructor; discriminate.
  - repeat constructor; discriminate.
  - discriminate.
  - discriminate.
  - left. simpl. lia.
  - left. simpl. lia.
  - left. simpl. lia.
  - exists m'. split; [exact E|]. split; [exact H1|exact H2].
Defined.

(** C8: running a command whose first word names an ELF file, when a pid is
    free: the program starts at the entry point of its header, with the whole
    file at [START_EXE_ADDR] and the rest of the command in its PCB; standard
    input and output are open on the terminal and nothing else is; the
    least free pid, its own page directory and kernel stack are in force, and
    it is the active process of its terminal.  Its parent is the caller if the
    terminal shown runs a process, and none otherwise. *)
Theorem execute_starts {D} `{Board D} `{Layout} `{Mmu} f (k : kernel D) command l i p ps :
  let data := entry_file k i in
  command_ok f k command l → names_file (kmem k) (kboot k) i (command_word l) →
  file_ok (kmem k) (kboot k) (entry_inode k i) → executable data →
  add_process (kproc k) = (p, ps) → 1 ≤ p → room_ok f k p →
  let '(parent, term) :=
    if curr_terminal_running_process (kkbd k) (kproc k) then (cur_addr k, term_num (cur_pcb k))
    else (0, s32 (get_current_terminal (kkbd k))) in
  ∃ k', execute f command k = Enter (word_at data 24) (PROG_VM_START + SPACE_4MB - WORD_SIZE) k' ∧
    load_bytes (kmem k') START_EXE_ADDR (length data) = data ∧
    cstr (kmem k') (pcb_of_pid p + PCB_ARGS) (command_args l) ∧
    let pcb := kpcbs k' !!! pcb_of_pid p in
    args_len pcb = Z.of_nat (length (command_args l)) ∧ pid pcb = p ∧
    parent_pcb pcb = parent ∧ term_num pcb = term ∧
    (∀ j : nat, (j < 2)%nat → fops (files pcb !!! j) = get_device_fops TERM_FTYPE (kproc k) ∧
       flags (files pcb !!! j) = FD_LIVE ∧ pos (files pcb !!! j) = 0) ∧
    (∀ j : nat, (2 ≤ j < 8)%nat → fops (files pcb !!! j) = None ∧ flags (files pcb !!! j) = 0) ∧
    cr3 (kvm k') = PdProc (p - 1) ∧ pd pcb = PdProc (p - 1) ∧
    (length (pds (kvm k)) = 6%nat → pds (kvm k') !!! Z.to_nat (p - 1)
      = process_pd (pds (kvm k) !!! Z.to_nat (p - 1)) p term) ∧
    ktss_esp0 k' = esp0_of_pid p ∧ kproc k' = (set_active_process term p ps).2 ∧
    ∀ a, a ≠ pcb_of_pid p → kpcbs k' !!! a = kpcbs k !!! a.
Proof.
  intros data Hco Hn Hfile Hex Ep Hp1 Hro.
  destruct (execute_enters f k command l i p ps Hco Hn Hfile Hex Ep Hp1 Hro)
    as (k' & E & Hp & Hen & Hal & Hargs & Hload).
  assert ((if curr_terminal_running_process (kkbd k) (kproc k) then (cur_addr k, term_num (cur_pcb k))
    else (0, s32 (get_current_terminal (kkbd k)))) = (parent_of k, terminal_of k)) as ->
    by (unfold parent_of, terminal_of; by case_match).
  exists k'. destruct Hen as [Epr Epc Epid Efi Epar Eter _ _ _ Epd Evm [Etss _] _].
  rewrite get_process_pd_pid in * by done.
  split; [exact E|]. split; [exact Hload|]. split; [exact Hargs|]. cbv zeta.
  split; [exact Hal|]. split; [exact Epid|]. split; [exact Epar|]. split; [exact Eter|].
  assert (get_device_fops TERM_FTYPE ps = get_device_fops TERM_FTYPE (kproc k)) as Hd
    by (unfold get_device_fops; by rewrite (proj2 (add_process_tables _ _ _ Ep))).
  split. { intros j Hj. rewrite Efi, Hd. do 2 (destruct j as [|j]; [done|]). lia. } split.
  { intros j Hj. rewrite Efi. do 8 (destruct j as [|j]; [first [done|lia]|]). lia. }
  rewrite Evm. split; [done|]. split; [exact Epd|]. split.
  { intros Hl. simpl. unfold upd. rewrite list_lookup_total_insert_eq by lia. done. }
  split; [exact Etss|]. split; [exact Epr|].
  intros a Ha. rewrite Epc. rewrite lookup_total_insert_ne by done. done.
Qed.

(** C40: [execute] fails with -1 when no file has the name, when the file is
    shorter than an ELF header or does not begin with the magic number, and
    when six processes run.  Then, as after any failure, the processes, the
    PCBs, the directories and the devices are as before; but interrupts have
    been disabled. *)
Theorem execute_rejects {D} `{Board D} `{Layout} `{Mmu} f (k : kernel D) command l :
  command_ok f k command l →
  (∀ i, ¬ dir_has (kmem k) (kboot k) i (command_word l)) ∨
  (∃ i, names_file (kmem k) (kboot k) i (command_word l) ∧
     file_ok (kmem k) (kboot k) (entry_inode k i) ∧
     (¬ executable (entry_file k i) ∨ (add_process (kproc k)).1 = -1)) →
  ∃ k', execute f command k = Ret (-1) k' ∧ kproc k' = kproc k ∧ kpcbs k' = kpcbs k ∧
    kvm k' = kvm k ∧ kkbd k' = kkbd k ∧ krtc k' = krtc k ∧ kdev k' = cli (kdev k).
Proof.
  intros Hco Hwhy. assert (∃ k', execute f command k = Ret (-1) k') as [k' E].
  { destruct Hwhy as [Hno|(i & Hn & Hfile & Hwhy)].
    - eexists. exact (execute_unnamed f command l k Hco Hno).
    - destruct (execute_header f command l k i Hco Hn Hfile) as (m3 & E & _).
      rewrite E. case_decide as Hx; [|eauto]. destruct Hwhy as [|Hfull]; [done|].
      match goal with |- context [execute_elf f ?s] => set (k3 := s) end.
      destruct (add_process (kproc k)) as [p ps] eqn:Ep. simpl in Hfull.
      pose proof (execute_elf_spec f k3 p ps Ep) as Hs.
      destruct (execute_elf f k3) as [r k'| | |entry esp k'| | |]; try done; [|lia|lia].
      destruct Hs as [-> _]. eauto. }
  exists k'. split; [exact E|]. apply execute_ret in E as (_ & H1' & H2' & H3' & H4' & H5' & _ & _ & _ & _ & H6').
  done.
Qed.

(** ** Examples *)

(** An image in the kernel's page with one program, [sh], of 44 bytes. *)
Definition sample_elf : list Z :=
  [0x7f; 0x45; 0x4c; 0x46] ++ replicate 20 0 ++ [0; 0x80; 0x04; 0x08] ++ replicate 16 1.
Definition sample_image : mem :=
  store_bytes (store_bytes (store_bytes (store_bytes ∅
    0x500000 [1; 0; 0; 0; 1; 0; 0; 0; 1; 0; 0; 0])
    0x500040 ([115; 104] ++ replicate 30 0 ++ [2; 0; 0; 0; 0; 0; 0; 0]))
    0x501000 [44; 0; 0; 0; 0; 0; 0; 0])
    0x502000 sample_elf.
Definition sample_frame : exec_frame := ExecFrame 0x7fd000 0x7fd080 0x7fd100 0x7fd200 0 0 0.
Definition sample_caller (command : list Z) : kernel pc :=
  Kernel (store_bytes sample_image 0x8000100 (command ++ [0])) sample_proc
    {[ pcb_of_pid 1 := sample_pcb ]} (kkbd sample_kernel) rtc_statics vm_statics
    (esp0_of_pid 1 - 100) (esp0_of_pid 1 - 60) (esp0_of_pid 1) KERNEL_DS 0x500000 pc_reset.

Lemma sample_caller_same command b :
  0x500000 ≤ b < 0x503000 → mget (kmem (sample_caller command)) b = mget sample_image b.
Proof. intros Hb. apply mget_store_bytes_out. lia. Qed.

Lemma sample_image_ok' : image_ok sample_image 0x500000.
Proof. split; vm_compute; split_and?; congruence. Qed.
Lemma sample_elf_ok : file_ok sample_image 0x500000 0.
Proof.
  split; [vm_compute; split_and?; congruence|vm_compute; congruence|].
  intros k Hk Hl. assert (inode_length sample_image (0x500000 + BLOCK_SIZE * (0 + 1)) = 44) as E
    by reflexivity.
  rewrite E in Hl. unfold BLOCK_SIZE in Hl. assert (k = 0) as -> by lia.
  vm_compute. split_and?; congruence.
Qed.

Lemma sample_command_ok command :
  Forall (λ c, word8 c) command → Forall (λ c, c ≠ 0) command → (length command < 100)%nat →
  command_ok sample_frame (sample_caller command) 0x8000100 command.
Proof.
  intros Hb Hz Hl. pose proof sample_image_ok' as Hi. pose proof (length_command_word command) as Hw.
  assert (length (command_args command) ≤ length command)%nat as Ha.
  { unfold command_args. destruct (drop_spaces_suffix (drop (length (command_word command)) command))
      as (n & _ & ->). rewrite !length_drop. lia. }
  destruct (image_same sample_image (kmem (sample_caller command)) 0x500000 Hi) as (_ & Hic & Hbc & Hi').
  { intros b Hb'. apply sample_caller_same. change (image_end sample_image 0x500000) with 0x503000 in Hb'. lia. }
  assert (image_end (kmem (sample_caller command)) 0x500000 = 0x503000) as Hend
    by (unfold image_end; rewrite Hic, Hbc; reflexivity).
  split.
  - exact Hi'.
  - change (kboot (sample_caller command)) with 0x500000. rewrite Hic. vm_compute. congruence.
  - by apply cstr_store.
  - change (kboot (sample_caller command)) with 0x500000.
    set (m := kmem (sample_caller command)) in *. clearbody m.
    split; unfold locals; cbn [take]; repeat apply Forall_cons_2; try apply Forall_nil_2;
      unfold disjoint, outside_image, in_kernel, ARGS_MAX, ELF_HEADER_LEN, BYTES_DENTRY, KERNEL_LOC,
        SPACE_4MB; cbn [fst snd sample_frame command_buf args elf_buf exec_dentry];
      rewrite ?Hend; lia.
  - unfold ARGS_MAX. lia.
  - unfold ARGS_MAX. lia.
Qed.

Lemma sample_caller_file command :
  file_ok (kmem (sample_caller command)) 0x500000 0 ∧
  file_contents (kmem (sample_caller command)) 0x500000 0 = sample_elf ∧
  dentry_inode (kmem (sample_caller command)) 0x500040 = 0 ∧
  names_file (kmem (sample_caller command)) 0x500000 0 [115; 104].
Proof.
  assert (∀ b, 0x500000 ≤ b < image_end sample_image 0x500000 →
    mget (kmem (sample_caller command)) b = mget sample_image b) as Hs.
  { intros b Hb. apply sample_caller_same. change (image_end sample_image 0x500000) with 0x503000 in Hb. lia. }
  destruct (file_same _ _ _ _ sample_image_ok' sample_elf_ok Hs) as (H1 & _ & H2).
  split; [exact H1|]. split; [rewrite H2; vm_compute; reflexivity|]. split.
  - unfold dentry_inode, loads32, load32. rewrite !sample_caller_same by (unfold FNAME_LEN; lia).
    vm_compute. reflexivity.
  - apply (names_file_same sample_image).
    + exact sample_image_ok'.
    + exact Hs.
    + vm_compute. congruence.
    + vm_compute. reflexivity.
    + split.
      * split; [vm_compute; split; congruence|]. split; [vm_compute; reflexivity|].
        split; [vm_compute; reflexivity|]. repeat constructor; discriminate.
      * intros j Hj [Hr _]. lia.
Qed.

Lemma sample_room_ok command : room_ok sample_frame (sample_caller command) 2.
Proof.
  assert (image_end (kmem (sample_caller command)) (kboot (sample_caller command)) = 0x503000) as Hend.
  { destruct (image_same sample_image (kmem (sample_caller command)) 0x500000 sample_image_ok')
      as (_ & Hic & Hbc & _).
    - intros b Hb. apply sample_caller_same. change (image_end sample_image 0x500000) with 0x503000 in Hb. lia.
    - change (kboot (sample_caller command)) with 0x500000. unfold image_end. rewrite Hic, Hbc. reflexivity. }
  change (kboot (sample_caller command)) with 0x500000 in *.
  split; change (kboot (sample_caller command)) with 0x500000; unfold outside_image; rewrite ?Hend;
    change (pcb_of_pid 2 + PCB_ARGS) with 0x7fa0a0;
    unfold in_kernel, disjoint, KERNEL_LOC, SPACE_4MB, ARGS_MAX, BYTES_DENTRY;
    cbn [sample_frame args exec_dentry]; lia.
Qed.

Lemma sample_enters :
  ∃ k', execute sample_frame 0x8000100 (sample_caller [115; 104])
      = Enter 0x08048000 0x83ffffc k' ∧
    entered sample_frame (set_kdev (cli (kdev (sample_caller [115; 104]))) (sample_caller [115; 104]))
      2 (add_process sample_proc).2 k'.
Proof.
  destruct (sample_caller_file [115; 104]) as (Hf & Hc & Hi & Hn).
  set (k := sample_caller [115; 104]) in *.
  assert (entry_inode k 0 = 0) as Hino by exact Hi.
  assert (entry_file k 0 = sample_elf) as Hfile by (unfold entry_file; rewrite Hino; exact Hc).
  pose proof (execute_enters sample_frame k 0x8000100 [115; 104] 0 2 (add_process sample_proc).2) as H.
  rewrite Hfile in H. destruct H as (k' & E & _ & Hen & _).
  - apply sample_command_ok; [repeat constructor; lia|repeat constructor; discriminate|simpl; lia].
  - exact Hn.
  - rewrite Hino. exact Hf.
  - split; [vm_compute; congruence|vm_compute; reflexivity].
  - vm_compute. reflexivity.
  - lia.
  - apply sample_room_ok.
  - exists k'. split; [exact E|exact Hen].
Qed.

Lemma execute_starts_witness :
  ∃ k', execute sample_frame 0x8000100 (sample_caller [115; 104; 32; 32; 104; 105])
      = Enter 0x08048000 0x83ffffc k' ∧
    load_bytes (kmem k') START_EXE_ADDR 44 = sample_elf ∧
    cstr (kmem k') 0x7fa0a0 [104; 105] ∧ parent_pcb (kpcbs k' !!! pcb_of_pid 2) = pcb_of_pid 1.
Proof.
  destruct (sample_caller_file [115; 104; 32; 32; 104; 105]) as (Hf & Hc & Hi & Hn).
  set (k := sample_caller [115; 104; 32; 32; 104; 105]) in *.
  assert (entry_inode k 0 = 0) as Hino by exact Hi.
  assert (entry_file k 0 = sample_elf) as Hfile by (unfold entry_file; rewrite Hino; exact Hc).
  pose proof (execute_starts sample_frame k 0x8000100 [115; 104; 32; 32; 104; 105] 0 2
    (add_process sample_proc).2) as H.
  rewrite Hfile in H. destruct H as (k' & E & H1 & H2 & _ & _ & H3 & _).
  - apply sample_command_ok; [repeat constructor; lia|repeat constructor; discriminate|simpl; lia].
  - exact Hn.
  - rewrite Hino. exact Hf.
  - split; [vm_compute; congruence|vm_compute; reflexivity].
  - vm_compute. reflexivity.
  - lia.
  - apply sample_room_ok.
  - exists k'. split; [exact E|]. split; [exact H1|]. split; [exact H2|exact H3].
Defined.

Lemma execute_rejects_witness :
  ∃ k', execute sample_frame 0x8000100 (sample_caller [108; 115]) = Ret (-1) k' ∧
    kproc k' = sample_proc.
Proof.
  destruct (execute_rejects sample_frame (sample_caller [108; 115]) 0x8000100 [108; 115])
    as (k' & E & H1 & _).
  - apply sample_command_ok; [repeat constructor; lia|repeat constructor; discriminate|simpl; lia].
  - left. intros i [Hr Hc].
    assert (dir_entries_cnt (kmem (sample_caller [108; 115])) 0x500000 = 1) as Hd by (vm_compute; reflexivity).
    change (kboot (sample_caller [108; 115])) with 0x500000 in *. rewrite Hd in Hr.
    assert (i = 0) as -> by lia. destruct (sample_caller_file [108; 115]) as (_ & _ & _ & [[_ Hc'] _]).
    change (command_word [108; 115]) with [108; 115] in Hc.
    pose proof (cstr_det _ _ _ _ Hc Hc') as Hx. discriminate Hx.
  - exists k'. split; [exact E|exact H1].
Defined.
