(* ===== verification/Isr.v ===== *)
(** * isr.c: exceptions

    What the stubs of the first 32 vectors call: the message on the screen of
    the process that faulted, and its end. *)
From Stdlib Require Import Ascii String.
From S2P Require Import Prelude CMem LibString Ports I8259 Screen Format Process FileSys Paging Idt Rtc.
From S2P Require Import KeyTable Keyboard Kernel SysCalls Exec.

Definition exception_messages : list (list Z) :=
  chars <$> (["Division by zero"; "Debugger"; "NMI"; "Breakpoint"; "Overflow"; "Bounds";
   "Invalid Opcode"; "Coprocessor not availible"; "Double fault"; "Coprocessor segment overrun";
   "Invalid TSS"; "Segment not present"; "Stack fault"; "General protection fault"; "Page fault";
   "Unknown interrupt"; "Math fault"; "Alignment Check"; "Machine check"]%string
   ++ replicate 13 "Reserved"%string).

(** The fields of [struct regs] that the handler reads. *)
Record regs := Regs { int_no : Z; err_code : Z }.

(** Where the literals stand, and what the handler's stack frame gives
    [printf]: the place of its arguments and of its arrays. *)
Record fault_frame := FaultFrame {
  fault_format : Z; syscall_format : Z; message_addr : list Z; fault_args : Z;
  fault_printf : printf_frame }.

Definition fault_text : list Z := chars "Process terminated with exception %d: %s (%d)" ++ [10].
Definition syscall_text : list Z := chars "SYSTEM CALL %d" ++ [10].

(** How the handlers end: in [halt], or in a loop. *)
Inductive fault_end {D : Type} :=
  | Fault_halts (o : outcome D) (lib : screen_t)
  | Fault_spins (k : kernel D) (lib : screen_t)
  | Fault_stuck.
Arguments fault_end : clear implicits.

Section handler.
Context {D : Type} `{Board D} `{Layout} `{Mmu}.

(** The call of [printf] with its three arguments pushed. *)
Definition print_fault (f : fault_frame) (r : regs) (m : mem) (lib : screen_t) : option (mem * screen_t) :=
  match message_addr f !! Z.to_nat (int_no r) with
  | None => None
  | Some msg =>
      let m := store32 m (fault_args f + 8) (err_code r) in
      let m := store32 m (fault_args f + 4) msg in
      let m := store32 m (fault_args f) (int_no r) in
      match printf (fault_printf f) m lib (fault_format f) (fault_args f) with
      | None => None
      | Some (_, m, lib) => Some (m, lib)
      end
  end.

(** [lib] is the static screen of lib.c. *)
Definition fault_handler (f : fault_frame) (r : regs) (lib : screen_t) (k : kernel D) : fault_end D :=
  if negb (processes (kproc k) =? 0) then
    let term := term_num (cur_pcb k) in
    match get_terminal term (kkbd k) with
    | None => Fault_stuck
    | Some terminal =>
        let lib := set_screen_x (scr_x (screen terminal)) lib in
        let lib := set_screen_y (scr_y (screen terminal)) lib in
        let lib := set_video_mem (video_mem (screen terminal) + PAGE_SIZE * (term + 1)) lib in
        match print_fault f r (kmem k) lib with
        | None => Fault_stuck
        | Some (m, lib) =>
            let s := Screen (get_screen_x lib) (get_screen_y lib)
                       (get_video_mem lib - PAGE_SIZE * (term + 1)) in
            let k := set_kmem m (set_kkbd (put_terminal term (set_screen s terminal) (kkbd k)) k) in
            Fault_halts (halt 1 k) lib
        end
    end
  else
    match print_fault f r (kmem k) lib with
    | None => Fault_stuck
    | Some (m, lib) => Fault_spins (set_kmem m k) lib
    end.

Definition sys_call_handler (f : fault_frame) (syscall : Z) (lib : screen_t) (k : kernel D) : fault_end D :=
  let m := store32 (kmem k) (fault_args f) syscall in
  match printf (fault_printf f) m lib (syscall_format f) (fault_args f) with
  | None => Fault_stuck
  | Some (_, m, lib) => Fault_spins (set_kmem m k) lib
  end.
End handler.

(** ** The message *)

(** The format's pieces, with the values it is given. *)
Definition fault_pieces (n : Z) (addr : Z) (msg : list Z) (err : Z) : list piece :=
  (Lit <$> chars "Process terminated with exception ")
    ++ [Sgn n; Lit 58; Lit 32; Str addr msg; Lit 32; Lit 40; Sgn err; Lit 41; Lit 10].
Definition message (n : Z) : list Z := exception_messages !!! Z.to_nat n.
Definition signed_text (n : Z) : list Z := if n <? 0 then 45 :: numeral 10 (- n) else numeral 10 n.
Definition fault_message (n err : Z) : list Z :=
  chars "Process terminated with exception " ++ signed_text n ++ chars ": " ++ message n
    ++ chars " (" ++ signed_text err ++ chars ")" ++ [10].

Lemma lits_format l : format_of (Lit <$> l) = l.
Proof.
  induction l as [|c l IH]; [done|].
  change (format_of (Lit <$> c :: l)) with (c :: format_of (Lit <$> l)). by rewrite IH.
Qed.
Lemma lits_output l : output_of (Lit <$> l) = l.
Proof.
  induction l as [|c l IH]; [done|].
  change (output_of (Lit <$> c :: l)) with (c :: output_of (Lit <$> l)). by rewrite IH.
Qed.
Lemma format_of_app ps qs : format_of (ps ++ qs) = format_of ps ++ format_of qs.
Proof. unfold format_of. by rewrite fmap_app, concat_app. Qed.
Lemma output_of_app ps qs : output_of (ps ++ qs) = output_of ps ++ output_of qs.
Proof. unfold output_of. by rewrite fmap_app, concat_app. Qed.

Lemma fault_pieces_format n a msg err : format_of (fault_pieces n a msg err) = fault_text.
Proof. unfold fault_pieces. rewrite format_of_app, lits_format. reflexivity. Qed.
Lemma fault_pieces_output n a err : output_of (fault_pieces n a (message n) err) = fault_message n err.
Proof. unfold fault_pieces. rewrite output_of_app, lits_output. reflexivity. Qed.

Lemma args_at_lits m esp l ps : args_at m esp ((Lit <$> l) ++ ps) = args_at m esp ps.
Proof. induction l as [|c l IH]; [done|]. exact IH. Qed.

(** The memory the handler works in: its literals, the words pushed for
    [printf], and the arrays of [printf], which none of these meets. *)
Record fault_memory (f : fault_frame) (m : mem) (v n a : Z) : Prop := {
  fm_format : cstr m (fault_format f) fault_text;
  fm_addr : message_addr f !! Z.to_nat n = Some a ∧ word32 a;
  fm_message : cstr m a (message n);
  fm_buffers : buffers_ok (fault_printf f) v;
  fm_quiet_format : quiet (fault_printf f) v (fault_format f) (Z.of_nat (length fault_text) + 1);
  fm_quiet_message : quiet (fault_printf f) v a (Z.of_nat (length (message n)) + 1);
  fm_quiet_args : quiet (fault_printf f) v (fault_args f) 12;
  fm_args_format : disjoint (fault_args f) 12 (fault_format f) (Z.of_nat (length fault_text) + 1);
  fm_args_message : disjoint (fault_args f) 12 a (Z.of_nat (length (message n)) + 1);
  fm_args_screen : disjoint (fault_args f) 12 v 4000 }.

Lemma print_fault_spec f n err m lib a :
  fault_memory f m (video_mem lib) n a → screen_ok lib → 0 ≤ n < 32 → - 2 ^ 31 ≤ err < 2 ^ 31 →
  ∃ m' lib', print_fault f (Regs n err) m lib = Some (m', lib') ∧
    abs_screen m' lib' = foldl (λ t c, a_putc c t) (abs_screen m lib) (fault_message n err) ∧
    screen_ok lib' ∧ video_mem lib' = video_mem lib ∧
    ∀ x, ¬ scratch (fault_printf f) (video_mem lib) x → ¬ (fault_args f ≤ x < fault_args f + 12) →
      mget m' x = mget m x.
Proof.
  intros [H1 [H2 H2'] H3 H4 H5 H6 H7 H8 H9 H10] Hok Hn He. unfold print_fault. cbn [int_no err_code].
  rewrite H2. cbv zeta. set (s := fault_args f) in *.
  set (m3 := store32 _ s n).
  assert (∀ x, ¬ (s ≤ x < s + 12) → mget m3 x = mget m x) as Hm3.
  { intros x Hx. unfold m3. rewrite !frame_store32 by lia. done. }
  assert (load32 m3 s = u32 n) as A1 by apply load32_store32.
  assert (load32 m3 (s + 4) = u32 a) as A2.
  { unfold m3. rewrite load32_store32_out by lia. apply load32_store32. }
  assert (load32 m3 (s + 8) = u32 err) as A3.
  { unfold m3. rewrite !load32_store32_out by lia. apply load32_store32. }
  assert (∀ b l, cstr m b l → disjoint s 12 b (Z.of_nat (length l) + 1) → cstr m3 b l) as Hcs.
  { intros b l Hc Hd. apply (cstr_ext m); [|done]. intros i Hi. apply Hm3. unfold disjoint in Hd. lia. }
  pose proof (fault_pieces_format n a (message n) err) as Hfmt.
  destruct (printf_spec (fault_printf f) m3 lib (fault_format f) s (fault_pieces n a (message n) err))
    as (m' & lib' & E & P1 & P2 & P3 & P4); rewrite ?Hfmt; try done.
  - unfold fault_pieces. apply Forall_app. split.
    + apply Forall_fmap. assert (Forall (λ c : Z, c ≠ 37) (chars "Process terminated with exception ")) as Hl
        by vm_decide. exact Hl.
    + repeat apply Forall_cons_2; try apply Forall_nil_2; cbn [piece_ok]; try lia.
      split; [exact H2'|]. split; [exact (Hcs _ _ H3 H9)|exact H6].
  - exact (Hcs _ _ H1 H8).
  - unfold fault_pieces. rewrite args_at_lits. cbn [args_at argument].
    replace (s + 4 + 4) with (s + 8) by lia. by split_and!.
  - rewrite E. exists m', lib'. split; [done|]. rewrite P1, fault_pieces_output. split.
    { assert (abs_screen m3 lib = abs_screen m lib) as ->; [|reflexivity].
      apply abs_screen_ext. intros x Hx. apply Hm3. unfold disjoint in H10. lia. }
    split; [done|]. split; [done|]. intros x Hx Hx'. by rewrite P4, Hm3.
Qed.

(** ** Properties *)

(** C7: a fault of a process ends it.  With a process running, the handler
    prints the number, name and error code of the exception at the cursor of
    the process's terminal, on that terminal's own page, keeps the terminal's
    cursor in step, changes nothing else, and then is [halt] with status 1:
    whoever executed the process gets 1. *)
Theorem fault_kills_process {D} `{Board D} `{Layout} `{Mmu} f (k : kernel D) n err lib t a :
  let term := term_num (cur_pcb k) in
  let page := video_mem (screen t) + PAGE_SIZE * (term + 1) in
  processes (kproc k) ≠ 0 → get_terminal term (kkbd k) = Some t → screen_ok (screen t) →
  0 ≤ n < 32 → - 2 ^ 31 ≤ err < 2 ^ 31 → fault_memory f (kmem k) page n a →
  ∃ m lib' t', fault_handler f (Regs n err) lib k
      = Fault_halts (halt 1 (set_kmem m (set_kkbd (put_terminal term t' (kkbd k)) k))) lib' ∧
    abs_screen m (Screen (scr_x (screen t')) (scr_y (screen t')) page)
      = foldl (λ t c, a_putc c t)
          (abs_screen (kmem k) (Screen (scr_x (screen t)) (scr_y (screen t)) page)) (fault_message n err) ∧
    screen_ok (screen t') ∧ t' = set_screen (screen t') t ∧
    video_mem (screen t') = video_mem (screen t) ∧
    ∀ x, ¬ scratch (fault_printf f) page x → ¬ (fault_args f ≤ x < fault_args f + 12) →
      mget m x = mget (kmem k) x.
Proof.
  intros term page Hp Ht Hok Hn He Hm. unfold fault_handler. rewrite (proj2 (Z.eqb_neq _ _) Hp). cbn [negb].
  cbv zeta. fold term. rewrite Ht. set (lib0 := set_video_mem _ _).
  destruct (print_fault_spec f n err (kmem k) lib0 a Hm Hok Hn He) as (m & lib' & -> & P1 & P2 & P3 & P4).
  set (s := Screen _ _ _). exists m, lib', (set_screen s t).
  change (video_mem lib0) with page in *. split; [done|]. split.
  { assert (Screen (scr_x (screen (set_screen s t))) (scr_y (screen (set_screen s t))) page = lib') as ->;
      [|exact P1]. rewrite <- P3. by destruct lib'. }
  split; [exact P2|]. split; [by destruct t|]. split; [|exact P4].
  cbn [screen set_screen video_mem s]. unfold get_video_mem. rewrite P3. unfold page. lia.
Qed.

(** Process 1 of the sample state divides by zero. *)
Definition sample_fault : fault_frame :=
  FaultFrame 0x10000 0 [0x20000] 0x30000 (PrintfFrame 0x40000 0x40040 0x40080).
Definition sample_faulting : kernel pc :=
  set_kmem (store_bytes (store_bytes ∅ 0x10000 (fault_text ++ [0])) 0x20000 (message 0 ++ [0]))
    sample_kernel.

Lemma fault_kills_process_witness :
  ∃ m lib' t', fault_handler sample_fault (Regs 0 0) lib_statics sample_faulting
      = Fault_halts (halt 1 (set_kmem m (set_kkbd (put_terminal 0 t' (kkbd sample_faulting)) sample_faulting)))
          lib' ∧ video_mem (screen t') = 0.
Proof.
  assert (∀ a n, 0x10000 ≤ a → a + n ≤ 0x40000 → quiet (fault_printf sample_fault) 4096 a n) as Hq.
  { intros a n Ha Hn x Hx. unfold scratch. cbn [sample_fault fault_printf hex_buf u_buf d_buf]. lia. }
  destruct (fault_kills_process sample_fault sample_faulting 0 0 lib_statics term_statics 0x20000)
    as (m & lib' & t' & E & _ & _ & _ & Hv & _).
  - vm_compute. congruence.
  - vm_compute. reflexivity.
  - vm_decide.
  - lia.
  - lia.
  - split.
    + split; [vm_compute; reflexivity|]. split; [vm_compute; reflexivity|]. vm_decide.
    + split; [reflexivity|lia].
    + split; [vm_compute; reflexivity|]. split; [vm_compute; reflexivity|]. vm_decide.
    + unfold buffers_ok, off_screen. vm_compute. split_and!; left + right; congruence.
    + apply Hq; vm_compute; congruence.
    + apply Hq; vm_compute; congruence.
    + apply Hq; vm_compute; congruence.
    + right. vm_compute. congruence.
    + right. vm_compute. congruence.
    + right. vm_compute. congruence.
  - exists m, lib', t'. split; [exact E|exact Hv].
Defined.
