(* ===== verification/Pit.v ===== *)
(** * devices/pit.c: the interval timer and the round-robin scheduler *)
From S2P Require Import Prelude CMem LibString Ports I8259 Screen Process FileSys Paging Idt Rtc.
From S2P Require Import KeyTable Keyboard Kernel SysCalls Exec.

Definition PIT_CMD_PORT := 0x40.
Definition PIT0_DATA_PORT := 0x43.
Definition PIT_0_RESET := 0x31.
Definition PIT_0_LATCH := 0x00.
Definition PIT_IRQ_NUM := 0.
Definition DEFAULT_RATE := 100.
Definition INPUT_CLK := 1193180.
Definition LOWER_B := 0xFF.
Definition UPPER_B := 8.

(** The globals of pit.c; [next_execute] is a pointer, 0 for null. *)
Record pit_state := Pit { pit_rate : Z; next_execute : Z }.
Definition pit_statics : pit_state := Pit 0 0.

Section driver.
Context {D : Type} `{Board D}.

Definition pit_reset_count (s : pit_state) (d : D) : D :=
  let d := outb PIT_0_RESET PIT_CMD_PORT d in
  let d := outb (u8 (Z.land (pit_rate s) LOWER_B)) PIT0_DATA_PORT d in
  outb (u8 (Z.shiftr (pit_rate s) UPPER_B)) PIT0_DATA_PORT d.

Definition pit_init (irq_table : list irq_handler) (s : pit_state) (d : D)
    : list irq_handler * pit_state * D :=
  let irq_table := add_irq PIT_IRQ_NUM pit_handler irq_table in
  let s := Pit (u16 (Z.quot INPUT_CLK DEFAULT_RATE)) (next_execute s) in
  let d := cli d in
  let d := pit_reset_count s d in
  let d := sti d in
  (irq_table, s, enable_irq PIT_IRQ_NUM d).

(** [None] is the divide error. *)
Definition pit_set_rate (rate : Z) (s : pit_state) : option pit_state :=
  let rate := u16 rate in
  if rate =? 0 then None else Some (Pit (u16 (Z.quot INPUT_CLK rate)) (next_execute s)).

(** [outb] takes the data first: the call writes 0x40 to port 0. *)
Definition pit_get_count (d : D) : Z * D :=
  let d := cli d in
  let d := outb PIT_CMD_PORT PIT_0_LATCH d in
  let '(lo, d) := inb PIT0_DATA_PORT d in
  let retval := u16 lo in
  let '(hi, d) := inb PIT0_DATA_PORT d in
  let temp := u16 (Z.shiftl (u16 hi) 8) in
  let d := sti d in
  (u16 (Z.lor retval temp), d).
End driver.

Definition schedule_for_execution (command : Z) (s : pit_state) : pit_state :=
  Pit (pit_rate s) command.

(** The loop of the scheduler: [n] terminals are left, from distance [i]. *)
Fixpoint next_active (n : nat) (i running_term next_pid : Z) (ps : proc_state) : Z :=
  match n with
  | O => next_pid
  | S n =>
      let next_pid := get_active_process (Z.rem (running_term + i) MAX_TERMINALS) ps in
      if negb (next_pid =? -1) then next_pid
      else next_active n (i + 1) running_term next_pid ps
  end.

(** How a tick ends: back to the process it interrupted, on the stack of
    another one, in the user mode of a shell just executed, or in a fault of
    [execute]. *)
Inductive tick {D : Type} :=
  | Tick_return (s : pit_state) (k : kernel D)
  | Tick_switch (s : pit_state) (k : kernel D)
  | Tick_enter (entry user_esp : Z) (s : pit_state) (k : kernel D)
  | Tick_fault.
Arguments tick : clear implicits.

Section scheduler.
Context {D : Type} `{Board D} `{Layout} `{Mmu}.

Definition save_context (prev : Z) (k : kernel D) : kernel D :=
  let c := context (kpcbs k !!! prev) in
  set_kpcb prev
    (pcb_set_context (Context (kesp k) (ctx_eip c) (ctx_esp0 c) (kebp k)) (kpcbs k !!! prev)) k.

(** From the comment "scheduling logic" on. *)
Definition pit_schedule (prev : Z) (s : pit_state) (k : kernel D) : tick D :=
  let prev_pid := pid (kpcbs k !!! prev) in
  let running_term := term_num (kpcbs k !!! prev) in
  let next_pid := next_active (Z.to_nat MAX_TERMINALS) 1 running_term 0 (kproc k) in
  let next := kpcbs k !!! (KERNEL_MEM_END - KERNEL_STACK_SIZE * (next_pid + 1)) in
  let k := set_kdev (pit_reset_count s (kdev k)) k in
  if prev_pid =? next_pid then Tick_return s k
  else
    let k := switch_pd (pd next) k in
    let k := set_kregs (ctx_esp (context next)) (ctx_ebp (context next)) k in
    Tick_switch s (set_ktss (ctx_esp0 (context next)) (ktss_ss0 k) k).

(** [shell] is the address of the literal [execute] is called with, [f] the
    stack it gets; [kesp] and [kebp] are the registers inside the handler. *)
Definition pit_handler_main (f : exec_frame) (shell : Z) (s : pit_state) (k : kernel D) : tick D :=
  let k := set_kdev (send_eoi PIT_IRQ_NUM (kdev k)) k in
  if processes (kproc k) =? 0 then Tick_return s (set_kdev (pit_reset_count s (kdev k)) k)
  else
    let prev := cur_addr k in
    let k := save_context prev k in
    if negb (next_execute s =? 0) then
      let s := Pit (pit_rate s) 0 in
      let k := set_kdev (pit_reset_count s (kdev k)) k in
      match execute f shell k with
      | Ret _ k => pit_schedule prev s k
      | Enter entry user_esp k => Tick_enter entry user_esp s k
      | _ => Tick_fault
      end
    else pit_schedule prev s k.
End scheduler.

(** ** The order of terminals *)

Definition active_of (ps : proc_state) (t : Z) : Z := active_processes ps !!! Z.to_nat t.
(** The terminal [d] places after [t]. *)
Definition after (t d : Z) : Z := (t + d) `mod` MAX_TERMINALS.

Lemma after_range t d : 0 ≤ after t d < 3.
Proof. apply Z.mod_pos_bound. done. Qed.
Lemma get_active_after t d ps :
  0 ≤ t → 0 ≤ d → get_active_process (Z.rem (t + d) MAX_TERMINALS) ps = active_of ps (after t d).
Proof.
  intros Ht Hd. rewrite Z.rem_mod_nonneg by (unfold MAX_TERMINALS; lia). fold (after t d).
  pose proof (after_range t d) as Hr. unfold get_active_process, MAX_TERMINALS.
  by rewrite u32_small, (proj2 (Z.ltb_ge _ _)), Z.geb_leb, (proj2 (Z.leb_gt _ _)) by lia.
Qed.

(** The terminal whose process runs after that of terminal [t]: the next busy
    one, or [t] again. *)
Definition next_terminal (ps : proc_state) (t : Z) : Z :=
  if decide (active_of ps (after t 1) ≠ -1) then after t 1
  else if decide (active_of ps (after t 2) ≠ -1) then after t 2 else t.

Lemma next_terminal_range ps t : 0 ≤ t < 3 → 0 ≤ next_terminal ps t < 3.
Proof. intros Ht. unfold next_terminal. repeat case_decide; try apply after_range. done. Qed.

Lemma next_active_spec ps t :
  0 ≤ t < 3 →
  next_active (Z.to_nat MAX_TERMINALS) 1 t 0 ps = active_of ps (next_terminal ps t).
Proof.
  intros Ht. change (Z.to_nat MAX_TERMINALS) with 3%nat. cbn [next_active].
  rewrite !get_active_after by lia. unfold next_terminal. change (1 + 1 + 1) with 3.
  assert (after t 3 = t) as -> by (unfold after, MAX_TERMINALS; lia). change (1 + 1) with 2.
  destruct (Z.eqb_spec (active_of ps (after t 1)) (-1)) as [E1|E1]; cbn [negb].
  2: by rewrite decide_True.
  rewrite decide_False by (intros E; by apply E).
  destruct (Z.eqb_spec (active_of ps (after t 2)) (-1)) as [E2|E2]; cbn [negb].
  2: by rewrite decide_True.
  rewrite decide_False by (intros E; by apply E). by case_match.
Qed.

(** Going on from any terminal reaches every busy one in at most three stops. *)
Lemma reach_busy ps t u :
  0 ≤ t < 3 → 0 ≤ u < 3 → active_of ps u ≠ -1 →
  ∃ n, (1 ≤ n ≤ 3)%nat ∧ Nat.iter n (next_terminal ps) t = u.
Proof.
  intros Ht Hu Hb.
  assert (∀ v, 0 ≤ v < 3 → v ≠ u → after v 1 = u ∨
    after v 2 = u ∧ (next_terminal ps v = u ∨ next_terminal ps v = after v 1)) as Hs.
  { intros v Hv Hne. assert (after v 1 = u ∨ after v 2 = u) as [E|E]
      by (unfold after, MAX_TERMINALS; lia); [by left|right]. split; [done|].
    unfold next_terminal. rewrite E. repeat case_decide; auto; done. }
  assert (∀ v, 0 ≤ v < 3 → after v 1 = u → next_terminal ps v = u) as H1.
  { intros v Hv E. unfold next_terminal. rewrite E. by case_decide. }
  assert (∀ v, 0 ≤ v < 3 → v ≠ u →
    next_terminal ps v = u ∨ next_terminal ps (next_terminal ps v) = u) as H2.
  { intros v Hv Hne. destruct (Hs v Hv Hne) as [E|(E2 & [E|E])]; [left; auto|by left|right].
    rewrite E. apply H1; [apply after_range|]. revert E2. unfold after, MAX_TERMINALS. lia. }
  destruct (decide (t = u)) as [->|Hne].
  - set (v := next_terminal ps u). assert (0 ≤ v < 3) as Hv by by apply next_terminal_range.
    destruct (decide (v = u)) as [E|Hvu]; [exists 1%nat; split; [lia|exact E]|].
    destruct (H2 v Hv Hvu); [exists 2%nat|exists 3%nat]; (split; [lia|done]).
  - destruct (H2 t Ht Hne); [exists 1%nat|exists 2%nat]; (split; [lia|done]).
Qed.

(** ** The timer's registers *)

Section registers.
Context {D : Type} `{Board D}.

Lemma pit_reset_obs (s : pit_state) (d : D) :
  obs (pit_reset_count s d)
  = hw_out (u8 (Z.shiftr (pit_rate s) 8)) 0x43 (hw_out (u8 (Z.land (pit_rate s) 0xFF)) 0x43
      (hw_out 0x31 0x40 (obs d))).
Proof. unfold pit_reset_count. by rewrite !obs_outb. Qed.

(** The count as two bytes and back. *)
Lemma rate_bytes r :
  word16 r → u8 (Z.land r 0xFF) + 256 * u8 (Z.shiftr r 8) = r.
Proof.
  intros Hr. change 0xFF with (2 ^ 8 - 1). rewrite land_low, Z.shiftr_div_pow2 by lia.
  change (2 ^ 8) with 256. rewrite !u8_small by lia. lia.
Qed.

Lemma pit_reset_pics s d :
  hw_master (obs (pit_reset_count s d)) = hw_master (obs d) ∧
  hw_slave (obs (pit_reset_count s d)) = hw_slave (obs d) ∧
  hw_if (obs (pit_reset_count s d)) = hw_if (obs d).
Proof. rewrite pit_reset_obs. split_and!; by hw_step. Qed.
Lemma pit_reset_log s d :
  word16 (pit_rate s) →
  outlog (obs (pit_reset_count s d))
  = (0x43, pit_rate s `div` 256) :: (0x43, pit_rate s `mod` 256) :: (0x40, 0x31) :: outlog (obs d).
Proof.
  intros Hr. rewrite pit_reset_obs. hw_step. pose proof (rate_bytes _ Hr) as Hb.
  pose proof (u8_range (Z.land (pit_rate s) 0xFF)). pose proof (u8_range (Z.shiftr (pit_rate s) 8)).
  rewrite !u8_idemp. change (u8 0x31) with 0x31. f_equal; f_equal; [lia|]. f_equal. f_equal. lia.
Qed.

Lemma pit_init_spec irqs s d :
  length irqs = 16%nat → pics_ready (obs d) →
  let '(irqs', s', d') := pit_init irqs s d in
  irqs' = <[0%nat := pit_handler]> irqs ∧ s' = Pit 11931 (next_execute s) ∧
  pics_ready (obs d') ∧ hw_if (obs d') = true ∧
  ∀ j, 0 ≤ j < 16 → irq_masked (obs d') j = if bool_decide (j = 0) then false else irq_masked (obs d) j.
Proof.
  intros Hl Hr. unfold pit_init. set (s' := Pit _ _).
  split; [reflexivity|]. split; [reflexivity|].
  destruct (pit_reset_pics s' (cli d)) as (P1 & P2 & _). rewrite obs_cli in P1, P2.
  rewrite enable_irq_rmw.
  edestruct (irq_rmw_spec _ _ PIT_IRQ_NUM (sti (pit_reset_count s' (cli d))) clear_forces_bit)
    as (Hr' & _ & Hif & Hm);
    [unfold PIT_IRQ_NUM; lia|unfold pics_ready; rewrite obs_sti; cbn; rewrite P1, P2; exact Hr|].
  split; [exact Hr'|]. split; [by rewrite Hif, obs_sti|]. intros j Hj. rewrite Hm by done.
  unfold PIT_IRQ_NUM. destruct (decide (j = 0)) as [E|E].
  - rewrite bool_decide_true by (by left). by rewrite bool_decide_true.
  - rewrite bool_decide_false by (intros [|[]]; lia || done). rewrite (bool_decide_false (j = 0)) by done.
    unfold irq_masked. rewrite obs_sti. cbn. by rewrite P1, P2.
Qed.

Lemma pit_get_count_spec d :
  let d1 := outb 0x40 0 (cli d) in
  let d2 := (inb 0x43 d1).2 in
  (pit_get_count d).1 = (inb 0x43 d1).1 + 256 * (inb 0x43 d2).1 ∧
  outlog (obs (pit_get_count d).2) = (0, 0x40) :: outlog (obs d).
Proof.
  intros d1 d2. unfold pit_get_count, PIT_CMD_PORT, PIT0_DATA_PORT, PIT_0_LATCH. fold d1.
  pose proof (inb_byte 0x43 d1) as B1. pose proof (inb_byte 0x43 d2) as B2.
  pose proof (obs_inb_state 0x43 d1) as O1. pose proof (obs_inb_state 0x43 d2) as O2. unfold d2 in *.
  destruct (inb 0x43 d1) as [lo d3]. cbn [fst snd] in *. destruct (inb 0x43 d3) as [hi d4]. cbn [fst snd] in *.
  split.
  - rewrite (u16_small lo), (u16_small hi), Z.shiftl_mul_pow2 by lia.
    rewrite (u16_small (hi * _)), Z.lor_comm, lor_add_disjoint, u16_small by lia. lia.
  - rewrite obs_sti. cbn [outlog hw_set_if]. rewrite O2, O1. unfold d1. by rewrite obs_outb, hw_out_log, obs_cli.
Qed.
End registers.

(** The timer at start-up and while it runs: [pit_init] registers the
    handler, sets the divisor for 100 Hz, unmasks the line and leaves
    interrupts on; [pit_reset_count] writes the mode byte to port 0x40 and the
    count, low byte first, to port 0x43 and touches nothing else; a new rate
    is the exact divisor from 19 Hz up, and 0 is a divide error; and
    [pit_get_count] makes one number of the two bytes it reads at 0x43. *)
Lemma pit_registers {D} `{Board D} (irqs : list irq_handler) (s : pit_state) (d : D) rate :
  length irqs = 16%nat → pics_ready (obs d) → 19 ≤ rate < 65536 → word16 (pit_rate s) →
  let '(irqs', s', d') := pit_init irqs s d in
  (irqs' !!! 0%nat = pit_handler ∧ (∀ i, (1 ≤ i)%nat → irqs' !!! i = irqs !!! i) ∧
   pit_rate s' = 1193180 `div` 100 ∧ next_execute s' = next_execute s ∧
   irq_deliverable (obs d') 0 = true ∧ hw_if (obs d') = true) ∧
  (outlog (obs (pit_reset_count s d))
   = (0x43, pit_rate s `div` 256) :: (0x43, pit_rate s `mod` 256) :: (0x40, 0x31) :: outlog (obs d)) ∧
  pit_set_rate 0 s = None ∧
  pit_set_rate rate s = Some (Pit (1193180 `div` rate) (next_execute s)) ∧
  (let d1 := outb 0x40 0 (cli d) in
   let d2 := (inb 0x43 d1).2 in
   (pit_get_count d).1 = (inb 0x43 d1).1 + 256 * (inb 0x43 d2).1 ∧
   outlog (obs (pit_get_count d).2) = (0, 0x40) :: outlog (obs d)).
Proof.
  intros Hl Hr Hrate Hs. pose proof (pit_init_spec irqs s d Hl Hr) as Hi.
  destruct (pit_init irqs s d) as [[irqs' s'] d']. destruct Hi as (-> & -> & _ & Hf & Hd). split.
  { split; [apply list_lookup_total_insert_eq; lia|].
    split; [intros i Hi; by rewrite list_lookup_total_insert_ne by lia|]. split; [done|]. split; [done|].
    split; [|done]. unfold irq_deliverable. by rewrite Hd by lia. }
  split; [by apply pit_reset_log|]. split; [done|]. split; [|apply pit_get_count_spec].
  unfold pit_set_rate, INPUT_CLK. rewrite (u16_small rate) by lia.
  rewrite (proj2 (Z.eqb_neq rate 0)), Z.quot_div_nonneg by lia. rewrite u16_small; [done|].
  split; [apply Z.div_pos; lia|]. apply Z.div_lt_upper_bound; lia.
Qed.

Lemma pit_registers_witness :
  outlog (obs (pit_reset_count (Pit 11931 0) pc_reset)) = [(0x43, 46); (0x43, 155); (0x40, 0x31)] ∧
  pit_set_rate 20 pit_statics = Some (Pit 59659 0).
Proof.
  assert (pics_ready (obs pc_reset)) as Hr by (vm_compute; split_and!; congruence).
  split.
  - pose proof (pit_registers sample_irqs (Pit 11931 0) pc_reset 20) as H.
    destruct (pit_init _ _ _) as [[i s'] d]. apply H; [reflexivity|exact Hr|lia|simpl; lia].
  - pose proof (pit_registers sample_irqs pit_statics pc_reset 20) as H.
    destruct (pit_init _ _ _) as [[i s'] d]. apply H; [reflexivity|exact Hr|lia|simpl; lia].
Defined.
