(* ===== verification/Lifecycle.v ===== *)
(** * The life of processes: [execute], [halt] and the tree they keep

    What [halt] does to the state, the round trip from [execute] to [halt],
    and the invariant of the process table, the PCBs and the terminals over
    everything processes do. *)
From S2P Require Import Prelude CMem LibString Ports Screen Process FileSys Paging Idt Rtc KeyTable.
From S2P Require Import Keyboard Kernel SysCalls Exec Pit.

(** ** [halt] *)

Section halting.
Context {D : Type} `{Board D} `{Layout} `{Mmu}.
Implicit Types k : kernel D.

Lemma same_frame_trans k1 k2 k3 : same_frame k1 k2 → same_frame k2 k3 → same_frame k1 k3.
Proof. unfold same_frame. intros. destruct_and!. split_and!; congruence. Qed.

Lemma close_all_spec n i k :
  fds_ok (files (cur_pcb k)) → 0 ≤ i → i + Z.of_nat n ≤ 8 →
  ∃ k', close_all n i k = Some k' ∧ same_frame k k'.
Proof.
  revert i k. induction n as [|n IH]; intros i k Hf Hi Hn.
  { exists k. split; [done|]. by split_and!. }
  cbn [close_all]. destruct (fds_lookup _ i Hf ltac:(lia)) as [(E & _)|(E & Ho & _)];
    fold (cur_fd i k) in E; rewrite E.
  - change (negb (Z.land 0 FD_LIVE =? 0)) with false. cbn. apply IH; [done|lia|lia].
  - change (negb (Z.land FD_LIVE FD_LIVE =? 0)) with true. cbn iota.
    fold (cur_fd i k) in Ho. destruct (fops_close_total (fops (cur_fd i k)) k Ho) as [k1 E1].
    rewrite E1. apply fops_close_frame in E1. destruct (same_frame_cur _ _ E1) as [Hc _].
    destruct (IH (i + 1) k1) as (k' & E' & Hs); [by rewrite Hc|lia|lia|].
    exists k'. split; [done|]. by apply (same_frame_trans k k1).
Qed.

(** The directory [set_pd] loads for a pointer. *)
Definition loaded (p : pd_ptr) : pd_ptr := if decide (p = PdNull) then PdFirst else p.

(** [halt] of the running process, by the parent pointer in its PCB. *)
Lemma halt_spec status k :
  fds_ok (files (cur_pcb k)) →
  let child := cur_pcb k in
  let parent := kpcbs k !!! parent_pcb child in
  let ps := (delete_process (pid child) (kproc k)).2 in
  ∃ k', kpcbs k' = kpcbs k ∧ kkbd k' = kkbd k ∧ kboot k' = kboot k ∧
    pds (kvm k') = pds (kvm k) ∧ pt_vidmem (kvm k') = pt_vidmem (kvm k) ∧
    pt_user_vidmem (kvm k') = pt_user_vidmem (kvm k) ∧
    if parent_pcb child =? 0 then
      halt status k = Restart_shell k' ∧ cr3 (kvm k') = PdFirst ∧
      kproc k' = (set_active_process (term_num child) (-1) ps).2 ∧ kesp k' = kesp k
    else
      halt status k = Resume (u8 status) k' ∧ cr3 (kvm k') = loaded (pd parent) ∧
      kproc k' = (set_active_process (term_num parent) (pid parent) ps).2 ∧
      ktss_esp0 k' = ctx_esp0 (context parent) ∧ kesp k' = esp_parent child ∧
      kebp k' = ebp_parent child.
Proof.
  intros Hf child parent ps. unfold halt. cbv zeta.
  change (cur_pcb (set_kdev (cli (kdev k)) k)) with child.
  set (k0 := set_kproc _ _).
  destruct (close_all_spec (Z.to_nat FILE_ARRAY_LEN) 0 k0) as (k1 & E & Hs); [exact Hf|lia|done|].
  rewrite E.
  destruct Hs as (_ & Hpr & Hpc & Hkb & Hvm & He & Hbo).
  change (kproc k0) with ps in Hpr. change (kpcbs k0) with (kpcbs k) in Hpc.
  change (kkbd k0) with (kkbd k) in Hkb. apply pair_inv in Hvm as [Hvm _].
  change (kvm k0) with (kvm k) in Hvm.
  change (kesp k0) with (kesp k) in He. change (kboot k0) with (kboot k) in Hbo.
  destruct (Z.eqb_spec (parent_pcb child) 0) as [Hz|Hz]; cbn [negb].
  - match goal with |- context [Restart_shell ?x] => exists x end.
    split_and!; try reflexivity; simpl; rewrite ?Hvm, ?Hpr; done.
  - match goal with |- context [Resume _ ?x] => exists x end.
    split_and!; try reflexivity; simpl; rewrite ?Hvm, ?Hpr, ?Hpc; done.
Qed.
End halting.

(** [execute] from the caller's side: what the new PCB holds. *)
Lemma execute_enter {D} `{Board D} `{Layout} `{Mmu} f command (k : kernel D) a u k' :
  execute f command k = Enter a u k' →
  ∃ p ps, add_process (kproc k) = (p, ps) ∧ 1 ≤ p ≤ 6 ∧ entered f k p ps (set_kdev (kdev k) k').
Proof.
  unfold execute. destruct (parse_arg _ _ _ _) as [m|]; [|done].
  destruct (read_dentry_by_name _ _ _ _) as [q m2]. cbv zeta.
  destruct (q =? -1); [done|]. destruct (read_data _ _ _ _ _ _) as [n m3].
  destruct (n <? ELF_HEADER_LEN); [done|]. destruct (load32 m3 _ =? ELF_MAGIC); [|done].
  intros E. match type of E with execute_elf f ?s = _ => set (k3 := s) in E end.
  destruct (add_process (kproc k)) as [p ps] eqn:Ep. exists p, ps. split; [done|].
  pose proof (execute_elf_spec f k3 p ps Ep) as Hx. rewrite E in Hx.
  destruct Hx as (Hp & _ & _ & Hen & _).
  destruct Hen as [? ? ? ? ? ? ? ? ? ? ? ? (? & ? & ? & ? & ? & _)].
  split; [done|]. split; try assumption. by split_and!.
Qed.

(** A PCB but for its descriptor table. *)
Definition same_pcb (p q : pcb_t) : Prop := pcb_set_files [] p = pcb_set_files [] q.
Lemma same_pcb_fields p q :
  same_pcb p q → pid p = pid q ∧ parent_pcb p = parent_pcb q ∧ context p = context q ∧
    esp_parent p = esp_parent q ∧ ebp_parent p = ebp_parent q ∧ pd p = pd q ∧
    term_num p = term_num q ∧ args_len p = args_len q.
Proof. unfold same_pcb. destruct p, q. simpl. intros [= -> -> -> -> -> -> -> ->]. done. Qed.

(** C22: what a process gets back when the program it executed halts, where
    the terminal shown runs a process when it calls [execute] (else the program
    has no parent) and its own PCB is unchanged meanwhile: its own
    stack and frame pointers, its kernel stack in the TSS, its page directory,
    and its place as the active process of the terminal, with the program's
    pid free again.  The status arrives as a signed byte: from 128 on as a
    negative number, 255 as the -1 of a failed [execute]. *)
Theorem execute_halt_roundtrip {D} `{Board D} `{Layout} `{Mmu} f command (k : kernel D) a u k1 p ps
    k2 status :
  let c := cur_pcb k in
  execute f command k = Enter a u k1 → add_process (kproc k) = (p, ps) →
  curr_terminal_running_process (kkbd k) (kproc k) = true → cur_addr k ≠ 0 → 0 ≤ term_num c < 3 →
  cur_addr k2 = pcb_of_pid p → same_pcb (cur_pcb k2) (kpcbs k1 !!! pcb_of_pid p) →
  fds_ok (files (cur_pcb k2)) → kpcbs k2 !!! cur_addr k = c →
  length (procs (kproc k2)) = 6%nat → length (active_processes (kproc k2)) = 3%nat →
  ∃ k3, halt status k2 = Resume (u8 status) k3 ∧
    kesp k3 = kesp k ∧ kebp k3 = kebp k ∧ ktss_esp0 k3 = ctx_esp0 (context c) ∧
    cr3 (kvm k3) = loaded (pd c) ∧ kpcbs k3 = kpcbs k2 ∧
    (∀ q, pid_live (kproc k3) q ↔ q ≠ p ∧ pid_live (kproc k2) q) ∧
    (∀ t, 0 ≤ t < 3 → active_processes (kproc k3) !!! Z.to_nat t
       = if decide (t = term_num c) then pid c
         else active_processes (kproc k2) !!! Z.to_nat t) ∧
    execute_result (u8 status) = s8 status.
Proof.
  intros c E Ep' Hrun Hca Hterm Ha Hsame Hf Hc Hl1 Hl2.
  destruct (execute_enter f command k a u k1 E) as (p0 & ps0 & Ep & Hp & Hen).
  rewrite Ep' in Ep. apply pair_inv in Ep as [<- <-].
  destruct (same_pcb_fields _ _ Hsame) as (Hpid & Hpar & _ & Hesp & Hebp & _).
  destruct Hen as [_ _ Epid _ Epar _ _ Eesp Eebp _ _ _ _].
  change (kpcbs (set_kdev (kdev k) k1)) with (kpcbs k1) in *.
  unfold parent_of in Epar. rewrite Hrun in Epar.
  rewrite Epid in Hpid. rewrite Epar in Hpar. rewrite Eesp in Hesp. rewrite Eebp in Hebp.
  destruct (halt_spec status k2 Hf) as (k3 & Hpc & _ & _ & _ & _ & _ & Hh).
  rewrite Hpar, (proj2 (Z.eqb_neq _ _) Hca), Hc, Hpid in Hh.
  destruct Hh as (Eh & Hcr3 & Hpr & Htss & Hes & Heb). exists k3.
  pose proof (delete_process_spec p (kproc k2) Hp Hl1) as (Hda & _ & Hdl & Hdlive).
  pose proof (set_active_spec (term_num c) (pid c) (delete_process p (kproc k2)).2 Hterm) as Hsa.
  rewrite Hda in Hsa. destruct (Hsa Hl2) as (Hsp & _ & _ & _ & Hact).
  split; [exact Eh|]. rewrite Hes, Heb, Htss, Hcr3, Hpc, Hesp, Hebp.
  split; [done|]. split; [done|]. split; [done|]. split; [done|]. split; [done|].
  rewrite Hpr. split.
  { intros q. unfold pid_live. rewrite Hsp. apply Hdlive. }
  split; [exact Hact|]. unfold execute_result. unwrap. lia.
Qed.

(** The sample program halts at once with status 200. *)
Lemma execute_halt_roundtrip_witness :
  ∃ k1 k3, execute sample_frame 0x8000100 (sample_caller [115; 104]) = Enter 0x08048000 0x83ffffc k1 ∧
    halt 200 (set_kregs (esp0_of_pid 2) 0 k1) = Resume 200 k3 ∧
    kesp k3 = esp0_of_pid 1 - 100 ∧ execute_result 200 = -56.
Proof.
  destruct sample_enters as (k1 & E & Hen).
  assert (cur_addr (set_kregs (esp0_of_pid 2) 0 k1) = pcb_of_pid 2) as Ha by (vm_compute; reflexivity).
  destruct (execute_halt_roundtrip sample_frame 0x8000100 (sample_caller [115; 104]) 0x08048000 0x83ffffc
    k1 2 (add_process sample_proc).2 (set_kregs (esp0_of_pid 2) 0 k1) 200) as (k3 & E3 & H1 & _).
  - exact E.
  - vm_compute. reflexivity.
  - vm_compute. reflexivity.
  - vm_compute. discriminate.
  - vm_compute. split; congruence.
  - exact Ha.
  - unfold cur_pcb. rewrite Ha. reflexivity.
  - unfold cur_pcb. rewrite Ha. change (kpcbs (set_kregs (esp0_of_pid 2) 0 k1)) with (kpcbs k1).
    rewrite (en_files _ _ _ _ _ Hen). vm_decide.
  - change (kpcbs (set_kregs (esp0_of_pid 2) 0 k1)) with (kpcbs k1). rewrite (en_pcbs _ _ _ _ _ Hen).
    vm_compute. reflexivity.
  - change (kproc (set_kregs (esp0_of_pid 2) 0 k1)) with (kproc k1). rewrite (en_proc _ _ _ _ _ Hen).
    vm_compute. reflexivity.
  - change (kproc (set_kregs (esp0_of_pid 2) 0 k1)) with (kproc k1). rewrite (en_proc _ _ _ _ _ Hen).
    vm_compute. reflexivity.
  - exists k1, k3. split; [exact E|]. split; [exact E3|]. split; [exact H1|vm_compute; reflexivity].
Defined.

(** ** The tree of processes *)

(** What holds of a live process [p] and its PCB: it has its own pid,
    directory and kernel stack, a terminal and a descriptor table; its parent
    is none or another live process of the same terminal, to a place in whose
    stack it returns. *)
Record node_ok (s : proc_state) (pcbs : gmap Z pcb_t) (p : Z) : Prop := {
  nd_pid : pid (pcbs !!! pcb_of_pid p) = p;
  nd_pd : pd (pcbs !!! pcb_of_pid p) = PdProc (p - 1);
  nd_esp0 : ctx_esp0 (context (pcbs !!! pcb_of_pid p)) = esp0_of_pid p;
  nd_term : 0 ≤ term_num (pcbs !!! pcb_of_pid p) < MAX_TERMINALS;
  nd_files : fds_ok (files (pcbs !!! pcb_of_pid p));
  nd_parent : parent_pcb (pcbs !!! pcb_of_pid p) = 0 ∨
    ∃ q, pid_live s q ∧ q ≠ p ∧ parent_pcb (pcbs !!! pcb_of_pid p) = pcb_of_pid q ∧
      term_num (pcbs !!! pcb_of_pid q) = term_num (pcbs !!! pcb_of_pid p) ∧
      pcb_addr (esp_parent (pcbs !!! pcb_of_pid p)) = pcb_of_pid q }.

Definition active_on (s : proc_state) (t p : Z) : Prop :=
  0 ≤ t < MAX_TERMINALS ∧ active_processes s !!! Z.to_nat t = p.

(** The whole: the processes of a terminal form a chain, whose last is the
    active one. *)
Record tree_ok (s : proc_state) (pcbs : gmap Z pcb_t) : Prop := {
  tr_procs : length (procs s) = 6%nat;
  tr_active_len : length (active_processes s) = 3%nat;
  tr_term_ops : get_device_fops TERM_FTYPE s = Some term_fops;
  tr_node p : pid_live s p → node_ok s pcbs p;
  tr_active t p : active_on s t p → p = -1 ∨ pid_live s p ∧ term_num (pcbs !!! pcb_of_pid p) = t;
  tr_child a b : pid_live s a → pid_live s b → parent_pcb (pcbs !!! pcb_of_pid a) ≠ 0 →
    parent_pcb (pcbs !!! pcb_of_pid a) = parent_pcb (pcbs !!! pcb_of_pid b) → a = b;
  tr_leaf t p q : active_on s t p → pid_live s p → pid_live s q →
    parent_pcb (pcbs !!! pcb_of_pid q) ≠ pcb_of_pid p }.

(** What happens in a step, as far as the conditions on runs ask. *)
Inductive event := Ev_execute | Ev_shell | Ev_key_shell | Ev_restart (p : Z) | Ev_other.

(** One thing processes, the timer and the user do.  The process that runs is
    the active one of some terminal, and enters the kernel with a pointer into
    its own stack; where the shown terminal runs nothing, [execute] starts a
    base shell there, whoever calls it (a process, the timer, the keyboard) and
    from whatever stack; a base shell that halts executes the next one on the
    stack it leaves; a tick saves registers in a PCB; the rest of the machine
    (memory, devices, which terminal is shown) changes at will. *)
Inductive life_step {D} `{Board D} `{Layout} `{Mmu} : event → kernel D → kernel D → Prop :=
  | life_execute k t p esp ebp f command a u k' :
      active_on (kproc k) t p → pid_live (kproc k) p → pcb_addr esp = pcb_of_pid p →
      curr_terminal_running_process (kkbd k) (kproc k) = true →
      execute f command (set_kregs esp ebp k) = Enter a u k' → life_step Ev_execute k k'
  | life_shell k f command a u k' :
      curr_terminal_running_process (kkbd k) (kproc k) = false →
      0 ≤ current_terminal (kkbd k) < MAX_TERMINALS →
      execute f command k = Enter a u k' → life_step Ev_shell k k'
  | life_fails k f command r k' : execute f command k = Ret r k' → life_step Ev_other k k'
  | life_halt k t p esp ebp status bl k' :
      active_on (kproc k) t p → pid_live (kproc k) p → pcb_addr esp = pcb_of_pid p →
      halt status (set_kregs esp ebp k) = Resume bl k' → life_step Ev_other k k'
  | life_halt_shell k t p esp ebp status k' :
      active_on (kproc k) t p → pid_live (kproc k) p → pcb_addr esp = pcb_of_pid p →
      halt status (set_kregs esp ebp k) = Restart_shell k' → life_step Ev_other k k'
  | life_restart k t p esp ebp status k1 f command a u k' :
      active_on (kproc k) t p → pid_live (kproc k) p → pcb_addr esp = pcb_of_pid p →
      halt status (set_kregs esp ebp k) = Restart_shell k1 →
      0 ≤ current_terminal (kkbd k1) < MAX_TERMINALS →
      execute f command k1 = Enter a u k' → life_step (Ev_restart p) k k'
  | life_files k t p esp ebp k' :
      active_on (kproc k) t p → pid_live (kproc k) p → pcb_addr esp = pcb_of_pid p →
      fd_step (set_kregs esp ebp k) k' → life_step Ev_other k k'
  | life_save k p esp ebp : life_step Ev_other k (save_context (pcb_of_pid p) (set_kregs esp ebp k))
  | life_other k k' : kproc k' = kproc k → kpcbs k' = kpcbs k → life_step Ev_other k k'.

(** The terminal on the screen runs nothing. *)
Definition shown_idle {D} (k : kernel D) : Prop :=
  curr_terminal_running_process (kkbd k) (kproc k) = false.
(** A base shell that halts is on the terminal shown, or that one is idle: no
    base shell halts behind a busy screen.  There [execute] takes the ended
    shell for the parent of the next one ([Sched.hidden_shell_parent]). *)
Definition shell_in_view {D} (e : event) (k : kernel D) : Prop :=
  match e with
  | Ev_restart p => term_num (kpcbs k !!! pcb_of_pid p) = current_terminal (kkbd k) ∨ shown_idle k
  | _ => True
  end.
Definition life_run {D} `{Board D} `{Layout} `{Mmu} : kernel D → kernel D → Prop :=
  rtc (λ k k', ∃ e, life_step e k k' ∧ shell_in_view e k).

Section tree.
Context {D : Type} `{Board D} `{Layout} `{Mmu}.
Implicit Types (k : kernel D) (s : proc_state) (pcbs : gmap Z pcb_t).

Lemma pid_live_range s p : pid_live s p → 1 ≤ p ≤ 6.
Proof. intros [Hp _]. exact Hp. Qed.

(** A change of tables that keeps what links every live PCB to the others. *)
Definition same_links (p q : pcb_t) : Prop :=
  pid p = pid q ∧ parent_pcb p = parent_pcb q ∧ ctx_esp0 (context p) = ctx_esp0 (context q) ∧
  esp_parent p = esp_parent q ∧ pd p = pd q ∧ term_num p = term_num q.
Lemma same_pcb_links p q : same_pcb p q → same_links p q.
Proof. intros (? & ? & E & ? & ? & ? & ? & ?)%same_pcb_fields. unfold same_links. by rewrite E. Qed.

Lemma tree_files s pcbs pcbs' :
  tree_ok s pcbs →
  (∀ p, pid_live s p → same_links (pcbs' !!! pcb_of_pid p) (pcbs !!! pcb_of_pid p) ∧
     fds_ok (files (pcbs' !!! pcb_of_pid p))) →
  tree_ok s pcbs'.
Proof.
  intros [H1' H2' H3' Hn Ha Hc Hl] Hsame.
  assert (∀ p, pid_live s p → same_links (pcbs' !!! pcb_of_pid p) (pcbs !!! pcb_of_pid p)) as Hf
    by (intros p Hp; by apply Hsame).
  split; try done.
  - intros p Hp. destruct (Hn p Hp) as [N1 N2 N3 N4 N5 N6]. destruct (Hf p Hp) as (F1 & F2 & F3 & F4 & F5 & F6).
    split; rewrite ?F1, ?F2, ?F3, ?F4, ?F5, ?F6; try done; [by apply Hsame|].
    destruct N6 as [|(q & Q1 & Q2 & Q3 & Q4 & Q5)]; [by left|]. right. exists q.
    destruct (Hf q Q1) as (_ & _ & _ & _ & _ & ->). done.
  - intros t p Hp. destruct (Ha t p Hp) as [|[Hl' Ht]]; [by left|]. right.
    destruct (Hf p Hl') as (_ & _ & _ & _ & _ & ->). done.
  - intros a b La Lb. destruct (Hf a La) as (_ & -> & _). destruct (Hf b Lb) as (_ & -> & _). auto.
  - intros t p q Hp Lp Lq. destruct (Hf q Lq) as (_ & -> & _). eauto.
Qed.

Lemma active_on_set t p s :
  0 ≤ t < 3 → length (active_processes s) = 3%nat →
  ∀ u q, active_on (set_active_process t p s).2 u q ↔
    (u = t ∧ q = p) ∨ (u ≠ t ∧ active_on s u q).
Proof.
  intros Ht Hl u q. destruct (set_active_spec t p s Ht Hl) as (_ & _ & _ & _ & Ha).
  unfold active_on, MAX_TERMINALS. split.
  - intros [Hu E]. rewrite Ha in E by lia. case_decide; [left|right]; auto.
  - intros [[-> ->]|[Hne [Hu E]]]; (split; [lia|]); rewrite Ha by lia; by case_decide.
Qed.

(** A process starts: as a base shell of an idle terminal, or as the child of
    the active process of its terminal. *)
Lemma tree_grow s s' pcbs n t pcb :
  tree_ok s pcbs → 1 ≤ n ≤ 6 → ¬ pid_live s n → (∀ q, pid_live s' q ↔ q = n ∨ pid_live s q) →
  length (procs s') = 6%nat → active_processes s' = active_processes s → devices s' = devices s →
  0 ≤ t < 3 → pid pcb = n → pd pcb = PdProc (n - 1) → ctx_esp0 (context pcb) = esp0_of_pid n →
  term_num pcb = t → fds_ok (files pcb) →
  (parent_pcb pcb = 0 ∧ active_on s t (-1)) ∨
  (∃ p, active_on s t p ∧ pid_live s p ∧ parent_pcb pcb = pcb_of_pid p ∧
     pcb_addr (esp_parent pcb) = pcb_of_pid p) →
  tree_ok (set_active_process t n s').2 (<[pcb_of_pid n := pcb]> pcbs).
Proof.
  intros [_ Hal Hop Hn Hact Hch Hleaf] Hr Hnew Hlive Hpl Ha Hd Ht E1 E2 E3 E4 E5 Hpar.
  rewrite <- Ha in Hal. destruct (set_active_spec t n s' Ht Hal) as (Sp & _ & Sd & Sl & _).
  assert (∀ q, pid_live (set_active_process t n s').2 q ↔ q = n ∨ pid_live s q) as Hlive'
    by (intros q; rewrite <- Hlive; unfold pid_live; by rewrite Sp).
  assert (∀ q, pid_live s q → <[pcb_of_pid n := pcb]> pcbs !!! pcb_of_pid q = pcbs !!! pcb_of_pid q) as Hold.
  { intros q Lq. apply lookup_total_insert_ne. intros E%pcb_of_pid_inj. congruence. }
  assert (<[pcb_of_pid n := pcb]> pcbs !!! pcb_of_pid n = pcb) as Hnewp by apply lookup_total_insert_eq.
  assert (∀ u q, active_on (set_active_process t n s').2 u q ↔
    (u = t ∧ q = n) ∨ (u ≠ t ∧ active_on s u q)) as Hon.
  { intros u q. rewrite (active_on_set t n s' Ht Hal). unfold active_on. by rewrite Ha. }
  assert (∀ q, pid_live s q → parent_pcb (pcbs !!! pcb_of_pid q) ≠ pcb_of_pid n) as Hnochild.
  { intros q Lq E. destruct (nd_parent _ _ _ (Hn q Lq)) as [H0'|(p & Lp & _ & E' & _)].
    - rewrite H0' in E. by apply (pcb_of_pid_nonzero n).
    - rewrite E' in E. apply pcb_of_pid_inj in E. congruence. }
  split.
  - by rewrite Sp.
  - exact Sl.
  - unfold get_device_fops in *. by rewrite Sd, Hd.
  - intros q Lq. apply Hlive' in Lq as [->|Lq].
    + split; rewrite ?Hnewp; try done; [by rewrite E4|].
      destruct Hpar as [[]|(p & Ap & Lp & P1 & P2)]; [by left|]. right. exists p.
      rewrite Hold by done. split; [apply Hlive'; auto|]. split; [congruence|]. split; [done|].
      split; [|done]. destruct (Hact t p Ap) as [->|[_ ->]]; [|by rewrite E4].
      apply pid_live_range in Lp. lia.
    + destruct (Hn q Lq) as [N1 N2 N3 N4 N5 N6]. split; rewrite ?Hold by done; try done.
      destruct N6 as [|(p & Q1 & Q2 & Q3 & Q4 & Q5)]; [by left|]. right. exists p.
      rewrite Hold by done. split; [apply Hlive'; auto|]. done.
  - intros u q Hu. apply Hon in Hu as [[-> ->]|[Hne Hu]].
    + right. split; [apply Hlive'; auto|]. by rewrite Hnewp.
    + destruct (Hact u q Hu) as [|[Lq Tq]]; [by left|]. right. rewrite Hold by done.
      split; [apply Hlive'; auto|done].
  - assert (∀ b, pid_live s b → parent_pcb pcb ≠ 0 → parent_pcb pcb ≠ parent_pcb (pcbs !!! pcb_of_pid b)) as Hone.
    { intros b Lb Hz E. destruct Hpar as [[]|(p & Ap & Lp & P1 & _)]; [done|].
      apply (Hleaf t p b Ap Lp Lb). congruence. }
    intros a b La Lb. apply Hlive' in La as [->|La], Lb as [->|Lb]; rewrite ?Hnewp, ?Hold by done.
    + done.
    + intros Hz E. by destruct (Hone b Lb Hz).
    + intros Hz E. rewrite E in Hz. by destruct (Hone a La Hz).
    + by apply Hch.
  - intros u q b Hu Lq Lb. apply Hlive' in Lq. apply Hlive' in Lb as [->|Lb]; rewrite ?Hnewp, ?Hold by done.
    + apply Hon in Hu as [[-> ->]|[Hne Hu]].
      * destruct Hpar as [[-> _]|(p & _ & Lp & -> & _)]; [symmetry; by apply pcb_of_pid_nonzero|].
        intros E%pcb_of_pid_inj. congruence.
      * destruct Hpar as [[-> _]|(p & Ap & Lp & -> & _)]; intros E.
        { destruct Lq as [->|Lq]; [by apply (pcb_of_pid_nonzero n)|].
          apply (pcb_of_pid_nonzero q); [by apply pid_live_range in Lq|done]. }
        apply pcb_of_pid_inj in E as ->.
        destruct (Hact t q Ap) as [->|[_ T1]]; [apply pid_live_range in Lp; lia|].
        destruct (Hact u q Hu) as [->|[_ T2]]; [apply pid_live_range in Lp; lia|congruence].
    + apply Hon in Hu as [[-> ->]|[Hne Hu]]; [by apply Hnochild|].
      destruct Lq as [->|Lq]; [|by apply (Hleaf u)]. by apply Hnochild.
Qed.

(** The active process of a terminal ends: its parent, or nothing, becomes
    active. *)
Lemma tree_shrink s pcbs t p q :
  tree_ok s pcbs → active_on s t p → pid_live s p →
  (parent_pcb (pcbs !!! pcb_of_pid p) = 0 ∧ q = -1) ∨
  (pid_live s q ∧ parent_pcb (pcbs !!! pcb_of_pid p) = pcb_of_pid q) →
  tree_ok (set_active_process t q (delete_process p s).2).2 pcbs.
Proof.
  intros [Hpl Hal Hop Hn Hact Hch Hleaf] Ap Lp Hq.
  assert (0 ≤ t < 3) as Ht by apply Ap. pose proof (pid_live_range _ _ Lp) as Hr.
  destruct (delete_process_spec p s Hr Hpl) as (Da & Dd & Dl & Dlive).
  rewrite <- Da in Hal. destruct (set_active_spec t q _ Ht Hal) as (Sp & _ & Sd & Sl & _).
  assert (∀ x, pid_live (set_active_process t q (delete_process p s).2).2 x ↔ x ≠ p ∧ pid_live s x)
    as Hlive by (intros x; rewrite <- Dlive; unfold pid_live; by rewrite Sp).
  assert (∀ u x, active_on (set_active_process t q (delete_process p s).2).2 u x ↔
    (u = t ∧ x = q) ∨ (u ≠ t ∧ active_on s u x)) as Hon.
  { intros u x. rewrite (active_on_set t q _ Ht Hal). unfold active_on. by rewrite Da. }
  assert (∀ x, pid_live s x → parent_pcb (pcbs !!! pcb_of_pid x) ≠ pcb_of_pid p) as Hnochild
    by (intros x Lx; by apply (Hleaf t)).
  assert (pid_live s q → q ≠ p) as Hqp.
  { intros Lq ->. destruct Hq as [[_ ->]|[_ E]]; [lia|]. by apply (Hnochild p). }
  split.
  - by rewrite Sp.
  - exact Sl.
  - unfold get_device_fops in *. by rewrite Sd, Dd.
  - intros x [Hx Lx]%Hlive. destruct (Hn x Lx) as [N1 N2 N3 N4 N5 N6]. split; try done.
    destruct N6 as [|(y & Y1 & Y2 & Y3 & Y4 & Y5)]; [by left|]. right. exists y.
    split; [|done]. apply Hlive. split; [|done]. intros ->. by apply (Hnochild x).
  - intros u x Hu. apply Hon in Hu as [[-> ->]|[Hne Hu]].
    + destruct Hq as [[_ ->]|[Lq E]]; [by left|]. right. split; [apply Hlive; auto|].
      destruct (nd_parent _ _ _ (Hn p Lp)) as [Hz|(y & Y1 & Y2 & Y3 & Y4 & _)].
      { rewrite Hz in E. symmetry in E. apply pcb_of_pid_nonzero in E; [done|by apply pid_live_range in Lq]. }
      rewrite Y3 in E. apply pcb_of_pid_inj in E as ->. rewrite Y4.
      destruct (Hact t p Ap) as [->|[_ ?]]; [lia|done].
    + destruct (Hact u x Hu) as [->|[Lx Tx]]; [by left|]. right. split; [|done]. apply Hlive.
      split; [|done]. intros ->. destruct (Hact t p Ap) as [->|[_ ?]]; [lia|congruence].
  - intros a b [_ La]%Hlive [_ Lb]%Hlive. by apply Hch.
  - intros u x b Hu [Hxp Lx]%Hlive [Hbp Lb]%Hlive E. apply Hon in Hu as [[-> ->]|[Hne Hu]].
    + destruct Hq as [[_ ->]|[Lq Eq]]; [apply pid_live_range in Lx; lia|].
      apply Hbp, (Hch b p Lb Lp); [|congruence]. rewrite E.
      apply pcb_of_pid_nonzero. by apply pid_live_range in Lx.
    + by apply (Hleaf u x b Hu Lx Lb).
Qed.

(** The running process sees its own PCB. *)
Lemma cur_pcb_run k p esp ebp :
  pcb_addr esp = pcb_of_pid p → cur_pcb (set_kregs esp ebp k) = kpcbs k !!! pcb_of_pid p.
Proof. intros E. unfold cur_pcb, cur_addr. simpl. by rewrite E. Qed.

Lemma running_active b s :
  curr_terminal_running_process b s = false → 0 ≤ current_terminal b < 3 →
  active_on s (current_terminal b) (-1).
Proof.
  intros E Hr. split; [exact Hr|]. unfold curr_terminal_running_process, get_active_process, MAX_TERMINALS in E.
  rewrite u32_small, (proj2 (Z.ltb_ge _ _)), Z.geb_leb, (proj2 (Z.leb_gt _ _)) in E by lia.
  simpl in E. apply negb_false_iff, Z.eqb_eq in E. exact E.
Qed.
Lemma active_idle b s :
  active_on s (current_terminal b) (-1) → curr_terminal_running_process b s = false.
Proof.
  intros [Hr E]. unfold curr_terminal_running_process, get_active_process, MAX_TERMINALS in *.
  rewrite u32_small, (proj2 (Z.ltb_ge _ _)), Z.geb_leb, (proj2 (Z.leb_gt _ _)) by lia.
  simpl. by rewrite E.
Qed.

Lemma tree_enter f k p ps k' :
  tree_ok (kproc k) (kpcbs k) → add_process (kproc k) = (p, ps) → 1 ≤ p ≤ 6 →
  entered f k p ps k' → 0 ≤ terminal_of k < 3 →
  (parent_of k = 0 ∧ active_on (kproc k) (terminal_of k) (-1)) ∨
  (∃ q, active_on (kproc k) (terminal_of k) q ∧ pid_live (kproc k) q ∧ parent_of k = pcb_of_pid q ∧
     pcb_addr (kesp k) = pcb_of_pid q) →
  tree_ok (kproc k') (kpcbs k').
Proof.
  intros Htree Ep Hp [E1 E2 E3 E4 E5 E6 E7 E8 _ E10 _ _ _] Ht Hpar.
  pose proof (add_process_spec (kproc k) (tr_procs _ _ Htree)) as Ha. rewrite Ep in Ha.
  destruct Ha as [(-> & _)|(_ & Hnew & _ & Hlive & _ & Hact & Hdev)]; [lia|].
  assert (length (procs ps) = 6%nat) as Hlen.
  { unfold add_process in Ep.
    pose proof (add_process_from_spec (Z.to_nat MAX_PROCESSES) 0 (kproc k) ltac:(lia)) as Hs.
    rewrite Ep in Hs. destruct Hs as [(_ & -> & _)|(? & _ & _ & _ & _ & ->)]; simpl;
      rewrite ?length_insert; apply (tr_procs _ _ Htree). }
  rewrite E1, E2. apply (tree_grow (kproc k)); try done.
  - by rewrite E10, get_process_pd_pid.
  - rewrite E4. unfold get_device_fops. rewrite Hdev.
    pose proof (tr_term_ops _ _ Htree) as Hops. unfold get_device_fops in Hops. rewrite Hops.
    split; [done|]. repeat (apply Forall_cons_2); try apply Forall_nil_2;
      first [by right|by left].
  - rewrite E5, E8. exact Hpar.
Qed.

Lemma tree_halt k t p esp ebp status :
  tree_ok (kproc k) (kpcbs k) → active_on (kproc k) t p → pid_live (kproc k) p →
  pcb_addr esp = pcb_of_pid p →
  let pcb := kpcbs k !!! pcb_of_pid p in
  ∃ k', kpcbs k' = kpcbs k ∧ kkbd k' = kkbd k ∧
    (if decide (parent_pcb pcb = 0) then
       halt status (set_kregs esp ebp k) = Restart_shell k' ∧ cr3 (kvm k') = PdFirst ∧
       kproc k' = (set_active_process t (-1) (delete_process p (kproc k)).2).2
     else ∃ q, pid_live (kproc k) q ∧ q ≠ p ∧ parent_pcb pcb = pcb_of_pid q ∧
       halt status (set_kregs esp ebp k) = Resume (u8 status) k' ∧ cr3 (kvm k') = PdProc (q - 1) ∧
       ktss_esp0 k' = esp0_of_pid q ∧ kesp k' = esp_parent pcb ∧ kebp k' = ebp_parent pcb ∧
       kproc k' = (set_active_process t q (delete_process p (kproc k)).2).2) ∧
    tree_ok (kproc k') (kpcbs k').
Proof.
  intros Htree Ap Lp He pcb. pose proof (tr_node _ _ Htree p Lp) as [N1 N2 N3 N4 N5 N6].
  assert (term_num pcb = t) as Et.
  { destruct (tr_active _ _ Htree t p Ap) as [->|[_ ?]]; [apply pid_live_range in Lp; lia|done]. }
  pose proof (cur_pcb_run k p esp ebp He) as Hcur. fold pcb in Hcur, N1, N2, N3, N4, N5, N6.
  destruct (halt_spec status (set_kregs esp ebp k)) as (k' & Hpc & Hkb & _ & _ & _ & _ & Hh);
    [by rewrite Hcur|].
  rewrite Hcur, N1, Et in Hh. change (kproc (set_kregs esp ebp k)) with (kproc k) in Hh.
  change (kpcbs (set_kregs esp ebp k)) with (kpcbs k) in Hh, Hpc.
  exists k'. split; [done|]. split; [exact Hkb|]. rewrite Hpc. case_decide as Hz.
  - rewrite Hz, Z.eqb_refl in Hh. destruct Hh as (H1' & H2' & H3' & _).
    split; [done|]. rewrite H3'. apply tree_shrink; [done..|]. by left.
  - rewrite (proj2 (Z.eqb_neq _ _) Hz) in Hh.
    destruct N6 as [|(q & Q1 & Q2 & Q3 & Q4 & Q5)]; [done|].
    destruct (tr_node _ _ Htree q Q1) as [M1 M2 M3 _ _ _]. rewrite Q3, M1, M2, M3, Q4, Et in Hh.
    destruct Hh as (H1' & H2' & H3' & H4' & H5' & H6'). split.
    + exists q. split_and!; try done.
    + rewrite H3'. apply tree_shrink; [done..|]. right. by split.
Qed.

(** A shell starts where nothing runs. *)
Lemma tree_shell k f command a u k' :
  tree_ok (kproc k) (kpcbs k) → shown_idle k → 0 ≤ current_terminal (kkbd k) < MAX_TERMINALS →
  execute f command k = Enter a u k' → tree_ok (kproc k') (kpcbs k').
Proof.
  intros Htree Hrun Hcur E. destruct (execute_enter f command _ a u k' E) as (n & ps & Ep & Hn & Hen).
  assert (terminal_of k = current_terminal (kkbd k)) as Etm.
  { unfold terminal_of. rewrite Hrun. unfold get_current_terminal, MAX_TERMINALS in *.
    rewrite s32_u32. apply s32_small. lia. }
  apply (tree_enter f k n ps _ Htree Ep Hn Hen); rewrite Etm; [done|].
  left. unfold parent_of. rewrite Hrun. split; [done|]. by apply running_active.
Qed.

(** Where the base shell of the terminal in view has ended, nothing runs. *)
Lemma restart_idle k t p esp ebp status k1 :
  tree_ok (kproc k) (kpcbs k) → active_on (kproc k) t p → pid_live (kproc k) p →
  pcb_addr esp = pcb_of_pid p → halt status (set_kregs esp ebp k) = Restart_shell k1 →
  0 ≤ current_terminal (kkbd k1) < MAX_TERMINALS → shell_in_view (Ev_restart p) k → shown_idle k1.
Proof.
  intros Htree Ap Lp He E Hcur Hv.
  destruct (tree_halt k t p esp ebp status Htree Ap Lp He) as (k2 & _ & Hkb & Hh & _).
  case_decide; [|by destruct Hh as (q & _ & _ & _ & E' & _); rewrite E in E'].
  destruct Hh as (E' & _ & Hpr). rewrite E in E'. injection E' as <-. rewrite Hkb in Hcur.
  pose proof (delete_process_spec p (kproc k) (pid_live_range _ _ Lp) (tr_procs _ _ Htree)) as (Da & _).
  assert (length (active_processes (delete_process p (kproc k)).2) = 3%nat) as Hal
    by (rewrite Da; apply (tr_active_len _ _ Htree)).
  unfold shown_idle. rewrite Hkb, Hpr. apply active_idle, (active_on_set t (-1) _ ltac:(apply Ap) Hal).
  destruct (decide (current_terminal (kkbd k) = t)) as [|Hne]; [by left|right]. split; [done|].
  destruct Hv as [Hv|Hv].
  - destruct (tr_active _ _ Htree t p Ap) as [->|[_ Et]]; [apply pid_live_range in Lp; lia|congruence].
  - unfold active_on. rewrite Da. by apply running_active.
Qed.

Lemma tree_step e k k' :
  tree_ok (kproc k) (kpcbs k) → life_step e k k' → shell_in_view e k → tree_ok (kproc k') (kpcbs k').
Proof.
  intros Htree Hs Hv. destruct Hs as [k t p esp ebp f command a u k' Ap Lp He Hrun E
    |k f command a u k' Hrun Hcur E|k f command r k' E|k t p esp ebp status bl k' Ap Lp He E
    |k t p esp ebp status k' Ap Lp He E|k t p esp ebp status k1 f command a u k' Ap Lp He E Hcur Ex
    |k t p esp ebp k' Ap Lp He E|k p esp ebp|k k' Epr Epc].
  - destruct (execute_enter f command _ a u k' E) as (n & ps & Ep & Hn & Hen).
    assert (term_num (kpcbs k !!! pcb_of_pid p) = t) as Et.
    { destruct (tr_active _ _ Htree t p Ap) as [->|[_ ?]]; [apply pid_live_range in Lp; lia|done]. }
    assert (terminal_of (set_kregs esp ebp k) = t) as Etm.
    { unfold terminal_of. change (kkbd (set_kregs esp ebp k)) with (kkbd k).
      change (kproc (set_kregs esp ebp k)) with (kproc k). rewrite Hrun.
      by rewrite (cur_pcb_run k p esp ebp He). }
    apply (tree_enter f (set_kregs esp ebp k) n ps _ Htree Ep Hn Hen); rewrite Etm; [by apply Ap|].
    right. exists p. unfold parent_of. change (kkbd (set_kregs esp ebp k)) with (kkbd k).
    change (kproc (set_kregs esp ebp k)) with (kproc k). rewrite Hrun.
    split_and!; try done.
  - by apply (tree_shell k f command a u).
  - apply execute_ret in E as (_ & -> & -> & _). done.
  - destruct (tree_halt k t p esp ebp status Htree Ap Lp He) as (k1 & _ & _ & Hh & Ht).
    case_decide; [by destruct Hh as (E' & _); rewrite E in E'|].
    destruct Hh as (q & _ & _ & _ & E' & _). rewrite E in E'. by injection E' as _ ->.
  - destruct (tree_halt k t p esp ebp status Htree Ap Lp He) as (k1 & _ & _ & Hh & Ht).
    case_decide; [|by destruct Hh as (q & _ & _ & _ & E' & _); rewrite E in E'].
    destruct Hh as (E' & _). rewrite E in E'. by injection E' as ->.
  - pose proof (restart_idle k t p esp ebp status k1 Htree Ap Lp He E Hcur Hv) as Hidle.
    destruct (tree_halt k t p esp ebp status Htree Ap Lp He) as (k2 & _ & _ & Hh & Ht).
    case_decide; [|by destruct Hh as (q & _ & _ & _ & E' & _); rewrite E in E'].
    destruct Hh as (E' & _). rewrite E in E'. injection E' as <-. by apply (tree_shell k1 f command a u).
  - pose proof (cur_pcb_run k p esp ebp He) as Hcur.
    pose proof (fd_step_keeps (set_kregs esp ebp k) k') as Hk. rewrite Hcur in Hk.
    destruct (Hk (nd_files _ _ _ (tr_node _ _ Htree p Lp)) E) as (K1 & K2 & _ & K4 & l & K5 & K6 & _).
    rewrite Hcur in K5. rewrite K2. apply (tree_files _ (kpcbs k)); [exact Htree|].
    assert (kpcbs k' !!! pcb_of_pid p = pcb_set_files l (kpcbs k !!! pcb_of_pid p)) as Ep.
    { rewrite <- K5. unfold cur_pcb, cur_addr. rewrite K1. simpl. by rewrite He. }
    intros q Lq. destruct (decide (q = p)) as [->|Hne]; [rewrite Ep; by split|].
    assert (kpcbs k' !!! pcb_of_pid q = kpcbs k !!! pcb_of_pid q) as Eq.
    { apply K4. unfold cur_addr. simpl. rewrite He. intros E'%pcb_of_pid_inj. done. }
    rewrite Eq. split; [by split_and!|]. apply (nd_files _ _ _ (tr_node _ _ Htree q Lq)).
  - apply (tree_files _ (kpcbs k)); [exact Htree|]. intros q Lq.
    pose proof (nd_files _ _ _ (tr_node _ _ Htree q Lq)) as Hf.
    destruct (decide (q = p)) as [->|Hne]; simpl.
    + rewrite lookup_total_insert_eq. split; [by split_and!|exact Hf].
    + rewrite lookup_total_insert_ne by (intros E'%pcb_of_pid_inj; congruence). split; [by split_and!|exact Hf].
  - by rewrite Epr, Epc.
Qed.

(** No process yet, and the terminal driver registered. *)
Definition booted (s : proc_state) : Prop :=
  procs s = replicate 6 0 ∧ active_processes s = replicate 3 (-1) ∧
  get_device_fops TERM_FTYPE s = Some term_fops.
Lemma tree_booted s pcbs : booted s → tree_ok s pcbs.
Proof.
  intros (Hp & Ha & Ho). assert (∀ p, ¬ pid_live s p) as Hno.
  { intros p [Hr Hl]. unfold MAX_PROCESSES in Hr. rewrite Hp, lookup_total_replicate_2 in Hl by lia. done. }
  split.
  - by rewrite Hp.
  - by rewrite Ha.
  - exact Ho.
  - intros p Lp. by destruct (Hno p).
  - intros t p [Ht E]. left. unfold MAX_TERMINALS in Ht.
    rewrite Ha, lookup_total_replicate_2 in E by lia. done.
  - intros a b La. by destruct (Hno a).
  - intros t p q _ Lp. by destruct (Hno p).
Qed.
Lemma tree_reachable k0 k : booted (kproc k0) → life_run k0 k → tree_ok (kproc k) (kpcbs k).
Proof.
  intros H0'. apply (tree_booted _ (kpcbs k0)) in H0'. intros Hr.
  induction Hr as [|k0 k1 k2 (e & Hs & Hv) _ IH]; [done|]. apply IH. by eapply tree_step.
Qed.
End tree.

(** ** Properties of the tree *)

(** C2: in every run from boot in which no base shell halts behind a busy
    screen (its terminal is shown, or the shown one is idle: elsewhere
    [execute] takes the ended shell for the parent of the next), whatever else
    processes execute, halt and do with files, whoever starts shells and
    whichever terminals are shown, the process table, the PCBs and the
    terminals agree: a live process has its own pid, directory and kernel
    stack in its PCB; its parent is none or a live process of its terminal,
    into whose stack it returns; no process has two children; and the active
    process of a terminal is live, belongs to it and has no child. *)
Theorem process_tree_invariant {D} `{Board D} `{Layout} `{Mmu} (k0 k : kernel D) :
  booted (kproc k0) → life_run k0 k →
  let pcb p := kpcbs k !!! pcb_of_pid p in
  let live := pid_live (kproc k) in
  (∀ p, live p → pid (pcb p) = p ∧ pd (pcb p) = PdProc (p - 1) ∧
     ctx_esp0 (context (pcb p)) = esp0_of_pid p ∧ 0 ≤ term_num (pcb p) < MAX_TERMINALS ∧
     (parent_pcb (pcb p) = 0 ∨ ∃ q, live q ∧ q ≠ p ∧ parent_pcb (pcb p) = pcb_of_pid q ∧
        term_num (pcb q) = term_num (pcb p) ∧ pcb_addr (esp_parent (pcb p)) = pcb_of_pid q)) ∧
  (∀ a b, live a → live b → parent_pcb (pcb a) ≠ 0 → parent_pcb (pcb a) = parent_pcb (pcb b) → a = b) ∧
  (∀ t p, active_on (kproc k) t p → p = -1 ∨
     live p ∧ term_num (pcb p) = t ∧ ∀ q, live q → parent_pcb (pcb q) ≠ pcb_of_pid p).
Proof.
  intros Hb Hr pcb live. destruct (tree_reachable k0 k Hb Hr) as [_ _ _ Hn Ha Hc Hl]. split; [|split].
  - intros p Lp. destruct (Hn p Lp) as [N1 N2 N3 N4 _ N6]. auto 10.
  - exact Hc.
  - intros t p Ap. destruct (Ha t p Ap) as [->|[Lp Tp]]; [by left|]. right.
    split; [done|]. split; [done|]. intros q Lq. by apply (Hl t).
Qed.

(** C6: in every run from boot in which no base shell has halted behind a
    busy screen (the condition of the invariant above), when the active process
    of a terminal halts, it is a base shell
    and a new one is to be executed, or its live parent resumes: on a pointer
    into the parent's own stack, under the parent's directory, with the
    parent's kernel stack in the TSS and the parent active on the terminal.
    [halt] never calls through a null pointer. *)
Theorem halt_resumes_parent {D} `{Board D} `{Layout} `{Mmu} (k0 k : kernel D) t p esp ebp status :
  booted (kproc k0) → life_run k0 k → active_on (kproc k) t p → p ≠ -1 →
  pcb_addr esp = pcb_of_pid p →
  ∃ k', ¬ pid_live (kproc k') p ∧
    ((halt status (set_kregs esp ebp k) = Restart_shell k' ∧ cr3 (kvm k') = PdFirst ∧
      active_on (kproc k') t (-1)) ∨
     (∃ q, halt status (set_kregs esp ebp k) = Resume (u8 status) k' ∧ pid_live (kproc k') q ∧
        pcb_addr (kesp k') = pcb_of_pid q ∧ cr3 (kvm k') = PdProc (q - 1) ∧
        ktss_esp0 k' = esp0_of_pid q ∧ active_on (kproc k') t q)).
Proof.
  intros Hb Hr Ap Hp He. pose proof (tree_reachable k0 k Hb Hr) as Htree.
  destruct (tr_active _ _ Htree t p Ap) as [|[Lp _]]; [done|].
  destruct (tree_halt k t p esp ebp status Htree Ap Lp He) as (k' & Hpc & _ & Hh & _).
  pose proof (delete_process_spec p (kproc k) (pid_live_range _ _ Lp) (tr_procs _ _ Htree))
    as (Da & _ & _ & Dl).
  assert (length (active_processes (delete_process p (kproc k)).2) = 3%nat) as Hal
    by (rewrite Da; apply (tr_active_len _ _ Htree)).
  assert (0 ≤ t < 3) as Ht by apply Ap.
  exists k'. case_decide as Hz.
  - destruct Hh as (E & Hcr & Hpr). rewrite Hpr.
    destruct (set_active_spec t (-1) _ Ht Hal) as (Sp & _). split.
    + unfold pid_live. rewrite Sp. intros Hl. by apply Dl in Hl as [].
    + left. split; [done|]. split; [done|]. apply (active_on_set t (-1) _ Ht Hal). by left.
  - destruct Hh as (q & Lq & Hqp & Epar & E & Hcr & Htss & Hesp & _ & Hpr). rewrite Hpr.
    destruct (set_active_spec t q _ Ht Hal) as (Sp & _). split.
    + unfold pid_live. rewrite Sp. intros Hl. by apply Dl in Hl as [].
    + right. exists q. split; [done|]. split.
      { unfold pid_live. rewrite Sp. by apply Dl. }
      split. { rewrite Hesp. destruct (nd_parent _ _ _ (tr_node _ _ Htree p Lp)) as [|(y & _ & _ & Y & _ & Y')];
        [done|]. rewrite Y in Epar. apply pcb_of_pid_inj in Epar as <-. exact Y'. }
      split; [done|]. split; [done|]. apply (active_on_set t q _ Ht Hal). by left.
Qed.

(** The sample machine before any process, showing terminal 0. *)
Definition boot_proc : proc_state :=
  ProcState 0 (replicate 6 0) (replicate 3 (-1))
    [Some rtc_fops; Some dir_fops; Some fs_fops; Some term_fops; None; None].
Definition sample_boot : kernel pc := set_kproc boot_proc (sample_caller [115; 104]).

(** The sample program is entered from any state with its memory and a free
    pid among the first two. *)
Lemma sample_enters_any (k : kernel pc) n ps :
  kmem k = kmem sample_boot → kboot k = kboot sample_boot → add_process (kproc k) = (n, ps) →
  n = 1 ∨ n = 2 →
  ∃ k', execute sample_frame 0x8000100 k = Enter 0x08048000 0x83ffffc k' ∧
    entered sample_frame (set_kdev (cli (kdev k)) k) n ps k'.
Proof.
  intros Hm Hb Ep Hn12. destruct (sample_caller_file [115; 104]) as (Hf & Hc & Hi & Hn).
  assert (entry_inode k 0 = 0) as Hino by (unfold entry_inode; rewrite Hm, Hb; exact Hi).
  assert (entry_file k 0 = sample_elf) as Hfile by (unfold entry_file; rewrite Hino, Hm, Hb; exact Hc).
  assert (command_ok sample_frame k 0x8000100 [115; 104]) as Hco.
  { destruct (sample_command_ok [115; 104]); [repeat constructor; lia|repeat constructor; discriminate|
      simpl; lia|]. split; rewrite ?Hm, ?Hb; assumption. }
  pose proof (execute_enters sample_frame k 0x8000100 [115; 104] 0 n ps) as H.
  rewrite Hfile, Hino, Hm, Hb in H. destruct H as (k' & E & _ & Hen & _); try assumption.
  - split; [vm_compute; congruence|vm_compute; reflexivity].
  - lia.
  - destruct (sample_room_ok [115; 104]) as [R1 R2 R3 R4]. split; rewrite ?Hm, ?Hb; [exact R1| | |].
    + destruct R2 as [R2|R2]; [left|right].
      * change (0x7fa0a0 + 128 ≤ 0x500000) in R2. lia.
      * etransitivity; [exact R2|]. destruct Hn12 as [->| ->]; vm_compute; congruence.
    + right. destruct Hn12 as [->| ->]; vm_compute; congruence.
    + right. destruct Hn12 as [->| ->]; vm_compute; congruence.
  - exists k'. split; [exact E|exact Hen].
Qed.
Lemma sample_boot_enters :
  ∃ k', execute sample_frame 0x8000100 sample_boot = Enter 0x08048000 0x83ffffc k' ∧
    entered sample_frame (set_kdev (cli (kdev sample_boot)) sample_boot) 1 (add_process boot_proc).2 k'.
Proof. apply sample_enters_any; [done|done|vm_compute; reflexivity|by left]. Qed.

Lemma sample_boot_reaches :
  ∃ k', life_run sample_boot k' ∧ active_on (kproc k') 0 1 ∧ pid_live (kproc k') 1.
Proof.
  destruct sample_boot_enters as (k' & E & Hen). exists k'. split; [|rewrite (en_proc _ _ _ _ _ Hen)].
  - apply rtc_once. exists Ev_shell. split; [|exact I]. eapply life_shell; [| |exact E].
    + vm_compute. reflexivity.
    + vm_compute. split; [congruence|reflexivity].
  - split; [split; [vm_compute; split; [congruence|reflexivity]|vm_compute; reflexivity]|].
    split; [vm_compute; split; congruence|]. vm_compute. discriminate.
Qed.

Lemma process_tree_invariant_witness :
  ∃ k : kernel pc, life_run sample_boot k ∧ pid_live (kproc k) 1 ∧ pid (kpcbs k !!! pcb_of_pid 1) = 1.
Proof.
  destruct sample_boot_reaches as (k & Hr & _ & Hl).
  destruct (process_tree_invariant sample_boot k) as (Hp & _).
  - vm_compute. split; [reflexivity|split; reflexivity].
  - exact Hr.
  - exists k. split; [exact Hr|]. split; [exact Hl|]. apply (Hp 1 Hl).
Defined.

Lemma halt_resumes_parent_witness :
  ∃ k k' : kernel pc, life_run sample_boot k ∧ ¬ pid_live (kproc k') 1.
Proof.
  destruct sample_boot_reaches as (k & Hr & Ha & _).
  destruct (halt_resumes_parent sample_boot k 0 1 (esp0_of_pid 1) 0 0) as (k' & Hl & _).
  - vm_compute. split; [reflexivity|split; reflexivity].
  - exact Hr.
  - exact Ha.
  - discriminate.
  - vm_compute. reflexivity.
  - exists k, k'. split; [exact Hr|exact Hl].
Defined.
