(* ===== verification/Sched.v ===== *)
(** * The processor: which process runs

    The kernel, the timer and the process whose code the processor executes.
    Every system call, tick and device interrupt is a step; the properties
    are what the scheduler and the process calls keep together. *)
From S2P Require Import Prelude CMem LibString Ports I8259 Screen Process FileSys Paging Idt Rtc.
From S2P Require Import KeyTable Keyboard Kernel SysCalls Exec Pit Lifecycle.

(** The kernel, the timer's globals, and the process that runs, if any. *)
Record cpu {D : Type} := Cpu { ck : kernel D; cpit : pit_state; crun : option Z }.
Arguments cpu : clear implicits.
#[global] Arguments Cpu {_} _ _ _.

(** A process that runs enters the kernel with its stack pointer somewhere in
    its own kernel stack.  After a call that leaves for user mode the next
    process is the one whose kernel stack the TSS names; after one that
    returns, it is the one whose stack the stack pointer is in.  The keyboard's
    handler runs on the stack of the process it interrupts, and executes a
    shell there when neither the terminal it leaves nor the one it shows has a
    process. *)
Inductive cpu_step {D : Type} `{Board D} `{Layout} `{Mmu} : event → cpu D → cpu D → Prop :=
  | cpu_boot k s f command a u k' n :
      curr_terminal_running_process (kkbd k) (kproc k) = false →
      0 ≤ current_terminal (kkbd k) < MAX_TERMINALS →
      execute f command k = Enter a u k' → ktss_esp0 k' = esp0_of_pid n →
      cpu_step Ev_shell (Cpu k s None) (Cpu k' s (Some n))
  | cpu_execute k s p esp ebp f command a u k' n :
      pcb_addr esp = pcb_of_pid p →
      execute f command (set_kregs esp ebp k) = Enter a u k' → ktss_esp0 k' = esp0_of_pid n →
      cpu_step Ev_execute (Cpu k s (Some p)) (Cpu k' s (Some n))
  | cpu_execute_fails k s p esp ebp f command r k' :
      execute f command (set_kregs esp ebp k) = Ret r k' →
      cpu_step Ev_other (Cpu k s (Some p)) (Cpu k' s (Some p))
  | cpu_key_shell k s p esp ebp t r b d f command a u k' n :
      pcb_addr esp = pcb_of_pid p →
      start_terminal t (kkbd k) (kproc k) (kdev k) = Some (r, b, d, Ta_execute_shell) →
      execute f command (set_kregs esp ebp (set_kdev d (set_kkbd b k))) = Enter a u k' →
      ktss_esp0 k' = esp0_of_pid n → cpu_step Ev_key_shell (Cpu k s (Some p)) (Cpu k' s (Some n))
  | cpu_halt k s p esp ebp status bl k' q :
      pcb_addr esp = pcb_of_pid p → halt status (set_kregs esp ebp k) = Resume bl k' →
      pcb_addr (kesp k') = pcb_of_pid q → cpu_step Ev_other (Cpu k s (Some p)) (Cpu k' s (Some q))
  | cpu_restart k s p esp ebp status k1 f command a u k' n :
      pcb_addr esp = pcb_of_pid p → halt status (set_kregs esp ebp k) = Restart_shell k1 →
      0 ≤ current_terminal (kkbd k1) < MAX_TERMINALS →
      execute f command k1 = Enter a u k' → ktss_esp0 k' = esp0_of_pid n →
      cpu_step (Ev_restart p) (Cpu k s (Some p)) (Cpu k' s (Some n))
  | cpu_files k s p esp ebp k' :
      pcb_addr esp = pcb_of_pid p → fd_step (set_kregs esp ebp k) k' →
      cpu_step Ev_other (Cpu k s (Some p)) (Cpu k' s (Some p))
  | cpu_tick_return k s p esp ebp f shell s' k' :
      pcb_addr esp = pcb_of_pid p →
      pit_handler_main f shell s (set_kregs esp ebp k) = Tick_return s' k' →
      cpu_step Ev_other (Cpu k s (Some p)) (Cpu k' s' (Some p))
  | cpu_tick_switch k s p esp ebp f shell s' k' q :
      pcb_addr esp = pcb_of_pid p →
      pit_handler_main f shell s (set_kregs esp ebp k) = Tick_switch s' k' →
      pcb_addr (kesp k') = pcb_of_pid q → cpu_step Ev_other (Cpu k s (Some p)) (Cpu k' s' (Some q))
  | cpu_tick_enter k s p esp ebp f shell a u s' k' n :
      pcb_addr esp = pcb_of_pid p → 0 ≤ current_terminal (kkbd k) < MAX_TERMINALS →
      pit_handler_main f shell s (set_kregs esp ebp k) = Tick_enter a u s' k' →
      ktss_esp0 k' = esp0_of_pid n → cpu_step Ev_other (Cpu k s (Some p)) (Cpu k' s' (Some n))
  | cpu_machine k s r k' s' :
      kproc k' = kproc k → kpcbs k' = kpcbs k → cr3 (kvm k') = cr3 (kvm k) →
      ktss_esp0 k' = ktss_esp0 k → cpu_step Ev_other (Cpu k s r) (Cpu k' s' r).

(** The steps after which the scheduler has what it needs: not a base shell's
    halt behind a busy screen; not a program executed by a process while the
    terminal shown is idle, nor a shell executed by the keyboard's handler,
    which take the processor from a process that stays active on its terminal
    and whose registers are saved nowhere ([idle_execute_strands]). *)
Definition orderly {D} (e : event) (k : kernel D) : Prop :=
  shell_in_view e k ∧
  match e with Ev_execute => ¬ shown_idle k | Ev_key_shell => False | _ => True end.
Definition orderly_step {D} `{Board D} `{Layout} `{Mmu} (c c' : cpu D) : Prop :=
  ∃ e, cpu_step e c c' ∧ orderly e (ck c).

(** The stack pointer the scheduler saved for a process is in its stack. *)
Definition saved {D} (k : kernel D) (q : Z) : Prop :=
  pcb_addr (ctx_esp (context (kpcbs k !!! pcb_of_pid q))) = pcb_of_pid q.

Record cpu_ok {D} (c : cpu D) : Prop := {
  co_tree : tree_ok (kproc (ck c)) (kpcbs (ck c));
  co_proc : proc_inv (kproc (ck c));
  co_idle : crun c = None → ∀ t p, active_on (kproc (ck c)) t p → p = -1;
  co_run p : crun c = Some p → pid_live (kproc (ck c)) p ∧ (∃ t, active_on (kproc (ck c)) t p) ∧
    cr3 (kvm (ck c)) = PdProc (p - 1) ∧ ktss_esp0 (ck c) = esp0_of_pid p;
  co_saved t q : active_on (kproc (ck c)) t q → q ≠ -1 → crun c ≠ Some q → saved (ck c) q }.

(** Power-on: no process, nothing active. *)
Definition powered {D} (c : cpu D) : Prop :=
  booted (kproc (ck c)) ∧ proc_inv (kproc (ck c)) ∧ crun c = None.

Section running.
Context {D : Type} `{Board D} `{Layout} `{Mmu}.
Implicit Types (k : kernel D) (c : cpu D).

Lemma processes_live ps p : proc_inv ps → pid_live ps p → processes ps ≠ 0.
Proof.
  intros [Hl _ _ Hc] [Hr Hp]. pose proof (used_slots_le ps Hl). unfold processes. rewrite Hc, s32_small by lia.
  intros E. assert (used_slots ps = 0%nat) as E0 by lia. unfold used_slots in E0.
  apply nil_length_inv in E0. unfold MAX_PROCESSES in Hr.
  assert (procs ps !! Z.to_nat (p - 1) = Some (procs ps !!! Z.to_nat (p - 1))) as Hx
    by (apply list_lookup_lookup_total_lt; lia).
  apply list_elem_of_lookup_2 in Hx.
  assert (procs ps !!! Z.to_nat (p - 1) ∈ filter (λ v : Z, v ≠ 0) (procs ps)) as Hin
    by (by apply list_elem_of_filter).
  rewrite E0 in Hin. by apply not_elem_of_nil in Hin.
Qed.
Lemma esp0_of_pid_inj p q : esp0_of_pid p = esp0_of_pid q → p = q.
Proof. unfold esp0_of_pid, KERNEL_STACK_SIZE. lia. Qed.
Lemma active_fun ps t p q : active_on ps t p → active_on ps t q → p = q.
Proof. unfold active_on. intros [_ <-] [_ <-]. done. Qed.
(** A live process is active on one terminal at most. *)
Lemma active_terminal ps pcbs t p :
  tree_ok ps pcbs → active_on ps t p → pid_live ps p → term_num (pcbs !!! pcb_of_pid p) = t.
Proof.
  intros Ht Ap Lp. destruct (tr_active _ _ Ht t p Ap) as [->|[_ ?]]; [|done].
  apply pid_live_range in Lp. lia.
Qed.
Lemma active_live ps pcbs t p : tree_ok ps pcbs → active_on ps t p → p ≠ -1 → pid_live ps p.
Proof. intros Ht Ap Hp. by destruct (tr_active _ _ Ht t p Ap) as [|[]]. Qed.

(** ** One tick *)

Lemma save_context_spec p esp ebp k :
  let k' := save_context (pcb_of_pid p) (set_kregs esp ebp k) in
  (∀ q, q ≠ p → kpcbs k' !!! pcb_of_pid q = kpcbs k !!! pcb_of_pid q) ∧
  ctx_esp (context (kpcbs k' !!! pcb_of_pid p)) = esp ∧
  ctx_ebp (context (kpcbs k' !!! pcb_of_pid p)) = ebp ∧
  (∀ q, same_links (kpcbs k' !!! pcb_of_pid q) (kpcbs k !!! pcb_of_pid q)).
Proof.
  cbv zeta. simpl. split_and!.
  - intros q Hq. rewrite lookup_total_insert_ne; [done|]. intros E%pcb_of_pid_inj. congruence.
  - by rewrite lookup_total_insert_eq.
  - by rewrite lookup_total_insert_eq.
  - intros q. destruct (decide (q = p)) as [->|Hne].
    + rewrite lookup_total_insert_eq. by split_and!.
    + rewrite lookup_total_insert_ne; [by split_and!|]. intros E%pcb_of_pid_inj. congruence.
Qed.

(** The rest of the handler after the registers are saved, in a state whose
    active process [p] of terminal [t] is interrupted. *)
Lemma pit_schedule_spec t p s k :
  tree_ok (kproc k) (kpcbs k) → active_on (kproc k) t p → pid_live (kproc k) p →
  let u := next_terminal (kproc k) t in
  let q := active_of (kproc k) u in
  active_on (kproc k) u q ∧ pid_live (kproc k) q ∧ (q = p ↔ u = t) ∧
  ∃ k', kproc k' = kproc k ∧ kpcbs k' = kpcbs k ∧ kkbd k' = kkbd k ∧
    if decide (q = p) then
      pit_schedule (pcb_of_pid p) s k = Tick_return s k' ∧ tables k' = tables k ∧
      kesp k' = kesp k ∧ kebp k' = kebp k
    else
      pit_schedule (pcb_of_pid p) s k = Tick_switch s k' ∧
      kesp k' = ctx_esp (context (kpcbs k !!! pcb_of_pid q)) ∧
      kebp k' = ctx_ebp (context (kpcbs k !!! pcb_of_pid q)) ∧
      cr3 (kvm k') = PdProc (q - 1) ∧ ktss_esp0 k' = esp0_of_pid q.
Proof.
  intros Ht Ap Lp u q. assert (0 ≤ t < 3) as Htr by apply Ap.
  pose proof (next_terminal_range (kproc k) t Htr) as Hu. fold u in Hu.
  assert (active_on (kproc k) u q) as Aq by (split; [exact Hu|done]).
  assert (u ≠ t → q ≠ -1) as Hbusy.
  { unfold q, u, next_terminal. repeat case_decide; auto. }
  assert (q = p ↔ u = t) as Hqp.
  { split; [|intros ->; by apply (active_fun (kproc k) t)]. intros ->.
    rewrite <- (active_terminal _ _ t p Ht Ap Lp). by rewrite (active_terminal _ _ u p Ht Aq Lp). }
  assert (pid_live (kproc k) q) as Lq.
  { destruct (decide (u = t)) as [E|E]; [by rewrite (proj2 Hqp E)|]. eapply active_live; eauto. }
  split; [done|]. split; [done|]. split; [done|].
  pose proof (tr_node _ _ Ht p Lp) as [N1 _ _ _ _ _]. pose proof (tr_node _ _ Ht q Lq) as [_ M2 M3 _ _ _].
  pose proof (next_active_spec (kproc k) t Htr) as En. fold u q in En.
  unfold pit_schedule. cbv zeta. rewrite N1, (active_terminal _ _ t p Ht Ap Lp), En.
  replace (KERNEL_MEM_END - KERNEL_STACK_SIZE * (q + 1)) with (pcb_of_pid q) by (unfold pcb_of_pid; lia).
  destruct (decide (q = p)) as [E|E].
  - rewrite (proj2 (Z.eqb_eq p q)) by done. eexists. split_and!; [..|reflexivity| | |]; done.
  - rewrite (proj2 (Z.eqb_neq p q)) by congruence.
    match goal with |- context [Tick_switch s ?x] => exists x end.
    split_and!; try reflexivity.
    + change (loaded (pd (kpcbs k !!! pcb_of_pid q)) = PdProc (q - 1)). by rewrite M2.
    + exact M3.
Qed.

(** The state in which the scheduler of a tick chooses. *)
Definition ticked esp ebp p k : kernel D :=
  save_context (pcb_of_pid p) (set_kdev (send_eoi PIT_IRQ_NUM (kdev k)) (set_kregs esp ebp k)).

Lemma handler_unfold f shell s p esp ebp k :
  processes (kproc k) ≠ 0 → pcb_addr esp = pcb_of_pid p →
  pit_handler_main f shell s (set_kregs esp ebp k) =
    if next_execute s =? 0 then pit_schedule (pcb_of_pid p) s (ticked esp ebp p k)
    else
      let s := Pit (pit_rate s) 0 in
      match execute f shell (set_kdev (pit_reset_count s (kdev (ticked esp ebp p k))) (ticked esp ebp p k)) with
      | Ret _ k => pit_schedule (pcb_of_pid p) s k
      | Enter entry user_esp k => Tick_enter entry user_esp s k
      | _ => Tick_fault
      end.
Proof.
  intros Hp He. unfold pit_handler_main. cbv zeta.
  change (kproc (set_kdev _ (set_kregs esp ebp k))) with (kproc k). rewrite (proj2 (Z.eqb_neq _ _) Hp).
  unfold cur_addr. change (kesp (set_kdev _ (set_kregs esp ebp k))) with esp. rewrite He.
  destruct (next_execute s =? 0); done.
Qed.

Lemma ticked_spec esp ebp p k :
  (∀ q, q ≠ p → kpcbs (ticked esp ebp p k) !!! pcb_of_pid q = kpcbs k !!! pcb_of_pid q) ∧
  ctx_esp (context (kpcbs (ticked esp ebp p k) !!! pcb_of_pid p)) = esp ∧
  ctx_ebp (context (kpcbs (ticked esp ebp p k) !!! pcb_of_pid p)) = ebp ∧
  (tree_ok (kproc k) (kpcbs k) → tree_ok (kproc k) (kpcbs (ticked esp ebp p k))).
Proof using H H0 H1.
  destruct (save_context_spec p esp ebp k) as (S1 & S2 & S3 & S4).
  change (kpcbs (ticked esp ebp p k)) with (kpcbs (save_context (pcb_of_pid p) (set_kregs esp ebp k))).
  split; [exact S1|]. split; [exact S2|]. split; [exact S3|]. intros Ht.
  exact (tree_step Ev_other k _ Ht (life_save k p esp ebp) I).
Qed.

(** ** Every step keeps [cpu_ok], and the processes that wait for a tick *)

(** What a step does to a process that is active but does not run: nothing,
    and when it runs again it has the registers saved for it. *)
Definition keeps_waiting c c' : Prop := ∀ t q,
  active_on (kproc (ck c)) t q → q ≠ -1 → crun c ≠ Some q →
  active_on (kproc (ck c')) t q ∧
  context (kpcbs (ck c') !!! pcb_of_pid q) = context (kpcbs (ck c) !!! pcb_of_pid q) ∧
  (crun c' = Some q →
     kesp (ck c') = ctx_esp (context (kpcbs (ck c) !!! pcb_of_pid q)) ∧
     kebp (ck c') = ctx_ebp (context (kpcbs (ck c) !!! pcb_of_pid q))).

(** A program is entered, on a terminal where nothing else stays active. *)
Lemma cpu_enter f k n ps k' s m d :
  tree_ok (kproc k) (kpcbs k) → proc_inv (kproc k) → add_process (kproc k) = (n, ps) → 1 ≤ n ≤ 6 →
  entered f k n ps (set_kdev d k') → tree_ok (kproc k') (kpcbs k') → 0 ≤ terminal_of k < 3 →
  (∀ u q, u ≠ terminal_of k → active_on (kproc k) u q → q ≠ -1 → saved k q) →
  ktss_esp0 k' = esp0_of_pid m →
  cpu_ok (Cpu k' s (Some m)) ∧
  ∀ u q, u ≠ terminal_of k → active_on (kproc k) u q → q ≠ -1 →
    active_on (kproc k') u q ∧ q ≠ m ∧ kpcbs k' !!! pcb_of_pid q = kpcbs k !!! pcb_of_pid q.
Proof.
  intros Ht Hi Ep Hn Hen Ht' Htm Hsv Hm.
  pose proof Hen as [E1 E2 _ _ _ _ _ _ _ _ E11 [E12 _] _].
  change (kproc (set_kdev d k')) with (kproc k') in E1. change (kpcbs (set_kdev d k')) with (kpcbs k') in E2.
  change (kvm (set_kdev d k')) with (kvm k') in E11.
  change (ktss_esp0 (set_kdev d k')) with (ktss_esp0 k') in E12. rewrite E12 in Hm.
  apply esp0_of_pid_inj in Hm as <-.
  pose proof (proc_inv_step _ _ Hi (step_add (kproc k))) as Hi1. rewrite Ep in Hi1.
  pose proof (proc_inv_step _ _ Hi1 (step_active ps (terminal_of k) n)) as Hi2. rewrite <- E1 in Hi2.
  destruct (add_process_tables _ _ _ Ep) as [Ha _].
  pose proof (add_process_spec (kproc k) (pi_procs _ Hi)) as Hnew. rewrite Ep in Hnew.
  destruct Hnew as [(-> & _)|(_ & Hnew & _)]; [lia|].
  pose proof (active_on_set (terminal_of k) n ps Htm (pi_active _ Hi1)) as Hon. rewrite <- E1 in Hon.
  assert (∀ u q, active_on ps u q ↔ active_on (kproc k) u q) as Hps
    by (intros u q; unfold active_on; by rewrite Ha).
  assert (∀ u q, u ≠ terminal_of k → active_on (kproc k) u q → q ≠ -1 →
    q ≠ n ∧ kpcbs k' !!! pcb_of_pid q = kpcbs k !!! pcb_of_pid q) as Hold.
  { intros u q Hu Aq Hq. assert (q ≠ n) as Hqn by (intros ->; by apply Hnew, (active_live _ _ u n Ht)).
    split; [done|]. rewrite E2, lookup_total_insert_ne; [done|]. intros E%pcb_of_pid_inj. congruence. }
  assert (active_on (kproc k') (terminal_of k) n) as An by (apply Hon; by left). split.
  - split; cbn [ck crun]; [exact Ht'|exact Hi2|done| |].
    + intros p [= <-]. split; [eapply active_live; eauto; lia|]. split; [by eexists|].
      split; [|done]. rewrite E11. by rewrite get_process_pd_pid by done.
    + intros u q Aq Hq Hne. apply Hon in Aq as [[-> ->]|[Hu Aq]]; [done|]. apply Hps in Aq.
      unfold saved. rewrite (proj2 (Hold u q Hu Aq Hq)). by apply (Hsv u q Hu).
  - intros u q Hu Aq Hq. split; [apply Hon; right; split; [done|]; by apply Hps|]. by apply (Hold u q).
Qed.

(** The terminal of the running process is not that of a waiting one. *)
Lemma waiting_terminal c t p u q :
  cpu_ok c → active_on (kproc (ck c)) t p → active_on (kproc (ck c)) u q → q ≠ p → u ≠ t.
Proof. intros _ Ap Aq Hne ->. by rewrite (active_fun _ t p q Ap Aq) in Hne. Qed.

(** Nothing but descriptor tables changes and the same process runs on. *)
Lemma cpu_same k s r k' s' :
  cpu_ok (Cpu k s r) → kproc k' = kproc k → tree_ok (kproc k') (kpcbs k') →
  (∀ q, Some q ≠ r → context (kpcbs k' !!! pcb_of_pid q) = context (kpcbs k !!! pcb_of_pid q)) →
  cr3 (kvm k') = cr3 (kvm k) → ktss_esp0 k' = ktss_esp0 k →
  cpu_ok (Cpu k' s' r) ∧ keeps_waiting (Cpu k s r) (Cpu k' s' r).
Proof.
  intros [Ht Hi Hidle Hrun Hsv] Epr Ht' Hctx Ecr Etss. cbn [ck crun] in *. split.
  - split; cbn [ck crun]; rewrite ?Epr; try done.
    + by rewrite Epr in Ht'.
    + by rewrite Ecr, Etss.
    + intros t q Aq Hq Hne. unfold saved. rewrite Hctx by congruence. by apply (Hsv t q).
  - intros t q Aq Hq Hne. cbn [ck crun] in *. rewrite Epr. split; [done|]. split; [|done].
    apply Hctx. congruence.
Qed.

(** The conclusion of [cpu_enter] for a program executed by the running
    process, and for a shell on an idle terminal. *)
Definition enters_on t k k' s m : Prop :=
  cpu_ok (Cpu k' s (Some m)) ∧
  ∀ u q, u ≠ t → active_on (kproc k) u q → q ≠ -1 →
    active_on (kproc k') u q ∧ q ≠ m ∧ kpcbs k' !!! pcb_of_pid q = kpcbs k !!! pcb_of_pid q.

Lemma set_kregs_id k : set_kregs (kesp k) (kebp k) k = k.
Proof. by destruct k. Qed.

Lemma enter_child f command k t p a v k' s m :
  tree_ok (kproc k) (kpcbs k) → proc_inv (kproc k) → active_on (kproc k) t p → pid_live (kproc k) p →
  pcb_addr (kesp k) = pcb_of_pid p → curr_terminal_running_process (kkbd k) (kproc k) = true →
  execute f command k = Enter a v k' → ktss_esp0 k' = esp0_of_pid m →
  (∀ u q, u ≠ t → active_on (kproc k) u q → q ≠ -1 → saved k q) → enters_on t k k' s m.
Proof.
  intros Ht Hi Ap Lp He Hrun E Hm Hsv. destruct (execute_enter f command k a v k' E) as (n & ps & Ep & Hn & Hen).
  assert (terminal_of k = t) as Etm.
  { unfold terminal_of, cur_pcb, cur_addr. rewrite Hrun, He. by apply (active_terminal (kproc k)). }
  assert (tree_ok (kproc k') (kpcbs k')) as Ht'.
  { refine (tree_step Ev_execute k k' Ht (life_execute k t p (kesp k) (kebp k) f command a v k' Ap Lp He Hrun _) I).
    rewrite set_kregs_id. exact E. }
  unfold enters_on. rewrite <- Etm in *.
  exact (cpu_enter f k n ps k' s m _ Ht Hi Ep Hn Hen Ht' ltac:(apply Ap) Hsv Hm).
Qed.
Lemma enter_shell f command k a v k' s m :
  tree_ok (kproc k) (kpcbs k) → proc_inv (kproc k) →
  curr_terminal_running_process (kkbd k) (kproc k) = false →
  0 ≤ current_terminal (kkbd k) < MAX_TERMINALS →
  execute f command k = Enter a v k' → ktss_esp0 k' = esp0_of_pid m →
  (∀ u q, active_on (kproc k) u q → q ≠ -1 → saved k q) →
  cpu_ok (Cpu k' s (Some m)) ∧
  ∀ u q, active_on (kproc k) u q → q ≠ -1 →
    active_on (kproc k') u q ∧ q ≠ m ∧ kpcbs k' !!! pcb_of_pid q = kpcbs k !!! pcb_of_pid q.
Proof.
  intros Ht Hi Hrun Hcur E Hm Hsv. destruct (execute_enter f command k a v k' E) as (n & ps & Ep & Hn & Hen).
  assert (terminal_of k = current_terminal (kkbd k)) as Etm.
  { unfold terminal_of. rewrite Hrun. unfold get_current_terminal, MAX_TERMINALS in *.
    rewrite s32_u32. apply s32_small. lia. }
  assert (tree_ok (kproc k') (kpcbs k')) as Ht' by exact (tree_step Ev_shell k k' Ht (life_shell k f command a v k' Hrun Hcur E) I).
  assert (∀ u q, active_on (kproc k) u q → q ≠ -1 → u ≠ terminal_of k) as Hne.
  { intros u q Aq Hq ->. apply Hq. rewrite Etm in Aq. eapply active_fun; [exact Aq|].
    by apply running_active. }
  assert (0 ≤ terminal_of k < 3) as Htm by by rewrite Etm.
  destruct (cpu_enter f k n ps k' s m _ Ht Hi Ep Hn Hen Ht' Htm (λ u q _, Hsv u q) Hm) as [H1' H2'].
  split; [exact H1'|]. intros u q Aq Hq. apply H2'; eauto.
Qed.

(** What [halt] of the running process leaves. *)
Lemma halt_tables k t p q ps :
  proc_inv (kproc k) → pid_live (kproc k) p → 0 ≤ t < 3 →
  ps = (set_active_process t q (delete_process p (kproc k)).2).2 →
  proc_inv ps ∧
  ∀ u r, active_on ps u r ↔ (u = t ∧ r = q) ∨ (u ≠ t ∧ active_on (kproc k) u r).
Proof.
  intros Hi Lp Ht ->. pose proof (proc_inv_step _ _ Hi (step_delete _ p Lp)) as Hi1. split.
  - by apply (proc_inv_step _ _ Hi1 (step_active _ t q)).
  - intros u r. rewrite (active_on_set t q _ Ht (pi_active _ Hi1)).
    destruct (delete_process_spec p (kproc k) (pid_live_range _ _ Lp) (pi_procs _ Hi)) as (Da & _).
    unfold active_on. by rewrite Da.
Qed.

Lemma cpu_step_halt k s p esp ebp status bl k' q :
  cpu_ok (Cpu k s (Some p)) → pcb_addr esp = pcb_of_pid p →
  halt status (set_kregs esp ebp k) = Resume bl k' → pcb_addr (kesp k') = pcb_of_pid q →
  cpu_ok (Cpu k' s (Some q)) ∧ keeps_waiting (Cpu k s (Some p)) (Cpu k' s (Some q)).
Proof.
  intros [Ht Hi _ Hrun Hsv] He E Hq. cbn [ck crun] in *.
  destruct (Hrun p eq_refl) as (Lp & (t & Ap) & _ & _). assert (0 ≤ t < 3) as Htr by apply Ap.
  destruct (tree_halt k t p esp ebp status Ht Ap Lp He) as (k1 & Hpc & _ & Hh & Ht').
  case_decide; [by destruct Hh as (E' & _); rewrite E in E'|].
  destruct Hh as (r & Lr & Hrp & Epar & E' & Hcr & Htss & Hesp & _ & Hpr).
  rewrite E in E'. injection E' as _ <-.
  assert (q = r) as ->.
  { apply pcb_of_pid_inj. rewrite <- Hq, Hesp.
    destruct (nd_parent _ _ _ (tr_node _ _ Ht p Lp)) as [|(y & _ & _ & Y & _ & ->)]; [done|]. by rewrite <- Y. }
  destruct (halt_tables k t p r _ Hi Lp Htr Hpr) as [Hi' Hon].
  assert (active_on (kproc k') t r) as Ar by (apply Hon; by left). split.
  - split; cbn [ck crun]; [exact Ht'|exact Hi'|done| |].
    + intros x [= <-]. pose proof (pid_live_range _ _ Lr).
      split; [apply (active_live _ _ t r Ht' Ar); lia|]. split; [by exists t|done].
    + intros u x Ax Hx Hne. apply Hon in Ax as [[-> ->]|[Hu Ax]]; [done|]. unfold saved. rewrite Hpc.
      apply (Hsv u x Ax Hx). intros [= <-]. by rewrite <- (active_terminal _ _ u p Ht Ax Lp),
        (active_terminal _ _ t p Ht Ap Lp) in Hu.
  - intros u x Ax Hx Hne. cbn [ck crun] in *. rewrite Hpc.
    assert (u ≠ t) as Hu by (intros ->; by rewrite (active_fun _ t p x Ap Ax) in Hne).
    split; [apply Hon; by right|]. split; [done|]. intros [= <-].
    by destruct (tr_leaf _ _ Ht u r p Ax Lr Lp).
Qed.

Lemma cpu_step_restart k s p esp ebp status k1 f command a v k' n :
  cpu_ok (Cpu k s (Some p)) → pcb_addr esp = pcb_of_pid p →
  halt status (set_kregs esp ebp k) = Restart_shell k1 →
  0 ≤ current_terminal (kkbd k1) < MAX_TERMINALS →
  execute f command k1 = Enter a v k' → ktss_esp0 k' = esp0_of_pid n → shell_in_view (Ev_restart p) k →
  cpu_ok (Cpu k' s (Some n)) ∧ keeps_waiting (Cpu k s (Some p)) (Cpu k' s (Some n)).
Proof.
  intros [Ht Hi _ Hrun Hsv] He E Hcur Ex Hn Hv. cbn [ck crun] in *.
  destruct (Hrun p eq_refl) as (Lp & (t & Ap) & _ & _). assert (0 ≤ t < 3) as Htr by apply Ap.
  pose proof (restart_idle k t p esp ebp status k1 Ht Ap Lp He E Hcur Hv) as Hidle.
  destruct (tree_halt k t p esp ebp status Ht Ap Lp He) as (k2 & Hpc & _ & Hh & Ht').
  case_decide; [|by destruct Hh as (q & _ & _ & _ & E' & _); rewrite E in E'].
  destruct Hh as (E' & _ & Hpr). rewrite E in E'. injection E' as <-.
  destruct (halt_tables k t p (-1) _ Hi Lp Htr Hpr) as [Hi' Hon].
  assert (∀ u q, active_on (kproc k1) u q → q ≠ -1 →
    active_on (kproc k) u q ∧ Some p ≠ Some q) as Hback.
  { intros u q Aq Hq. apply Hon in Aq as [[-> ->]|[Hu Aq]]; [done|]. split; [done|].
    intros [= <-]. by rewrite <- (active_terminal _ _ u p Ht Aq Lp), (active_terminal _ _ t p Ht Ap Lp) in Hu. }
  destruct (enter_shell f command k1 a v k' s n Ht' Hi' Hidle Hcur Ex Hn) as [Hok Hkeep].
  { intros u q Aq Hq. destruct (Hback u q Aq Hq) as [Aq' Hne]. unfold saved. rewrite Hpc.
    by apply (Hsv u q). }
  split; [exact Hok|]. intros u q Aq Hq Hne. cbn [ck crun] in *.
  assert (u ≠ t) as Hu by (intros ->; by rewrite (active_fun _ t p q Ap Aq) in Hne).
  destruct (Hkeep u q) as (K1 & K2 & K3); [apply Hon; by right|done|].
  split; [done|]. rewrite K3, Hpc. split; [done|]. congruence.
Qed.

(** The scheduling part of a tick, from a state with the tables of [k] but
    for the context of the interrupted process, which is saved. *)
Lemma cpu_step_schedule k s p k2 s0 s' k' q :
  cpu_ok (Cpu k s (Some p)) → kproc k2 = kproc k → tree_ok (kproc k2) (kpcbs k2) →
  (∀ x, x ≠ p → kpcbs k2 !!! pcb_of_pid x = kpcbs k !!! pcb_of_pid x) → saved k2 p →
  pit_schedule (pcb_of_pid p) s0 k2 = Tick_switch s' k' → pcb_addr (kesp k') = pcb_of_pid q →
  cpu_ok (Cpu k' s' (Some q)) ∧ keeps_waiting (Cpu k s (Some p)) (Cpu k' s' (Some q)).
Proof.
  intros [Ht Hi _ Hrun Hsv] Epr Ht2 Hold Hp E Hq. cbn [ck crun] in *.
  destruct (Hrun p eq_refl) as (Lp & (t & Ap) & _ & _). rewrite <- Epr in Hi, Hsv, Lp, Ap.
  destruct (pit_schedule_spec t p s0 k2 Ht2 Ap Lp) as (Ar & Lr & _ & k1 & P1 & P2 & _ & Hs).
  set (r := active_of _ _) in *. set (w := next_terminal _ _) in *.
  case_decide as Hrp; [destruct Hs as [E' _]; by rewrite E in E'|].
  destruct Hs as (E' & Hesp & Hebp & Hcr & Htss). rewrite E in E'. injection E' as _ <-.
  assert (Some p ≠ Some r) as Hne by congruence. pose proof (pid_live_range _ _ Lr) as Hr1.
  assert (∀ u x, active_on (kproc k2) u x → x ≠ -1 → saved k2 x) as Hsv2.
  { intros u x Ax Hx. destruct (decide (x = p)) as [->|Hxp]; [done|]. unfold saved. rewrite Hold by done.
    apply (Hsv u x Ax Hx). congruence. }
  assert (q = r) as ->.
  { apply pcb_of_pid_inj. rewrite <- Hq, Hesp. apply (Hsv2 w r Ar). lia. }
  split.
  - split; cbn [ck crun]; rewrite ?P1, ?P2; [exact Ht2|exact Hi|done| |].
    + intros x [= <-]. split; [done|]. split; [by exists w|done].
    + intros u x Ax Hx _. unfold saved. rewrite P2. by apply (Hsv2 u x).
  - intros u x Ax Hx Hxp. cbn [ck crun] in *. rewrite P1, P2, Hold by congruence.
    rewrite <- Epr in Ax. split; [done|]. split; [done|]. intros [= ->].
    rewrite Hesp, Hebp, Hold by congruence. done.
Qed.

(** What a tick promises, by the way it ends. *)
Definition tick_ok k s p (o : tick D) : Prop :=
  match o with
  | Tick_return s' k' =>
      cpu_ok (Cpu k' s' (Some p)) ∧ keeps_waiting (Cpu k s (Some p)) (Cpu k' s' (Some p))
  | Tick_switch s' k' => ∀ q, pcb_addr (kesp k') = pcb_of_pid q →
      cpu_ok (Cpu k' s' (Some q)) ∧ keeps_waiting (Cpu k s (Some p)) (Cpu k' s' (Some q))
  | Tick_enter _ _ s' k' => ∀ n, 0 ≤ current_terminal (kkbd k) < MAX_TERMINALS →
      ktss_esp0 k' = esp0_of_pid n →
      cpu_ok (Cpu k' s' (Some n)) ∧ keeps_waiting (Cpu k s (Some p)) (Cpu k' s' (Some n))
  | Tick_fault => True
  end.

Lemma schedule_ok k s p esp ebp k2 s0 :
  cpu_ok (Cpu k s (Some p)) → pcb_addr esp = pcb_of_pid p →
  kproc k2 = kproc k → kpcbs k2 = kpcbs (ticked esp ebp p k) → tables k2 = tables k →
  tick_ok k s p (pit_schedule (pcb_of_pid p) s0 k2).
Proof using H H0 H1.
  intros Hok He Epr Epc Etb. pose proof Hok as [Ht _ _ Hrun _]. cbn [ck crun] in *.
  destruct (Hrun p eq_refl) as (Lp & (t & Ap) & _ & _).
  destruct (ticked_spec esp ebp p k) as (S1 & S2 & _ & S4). apply S4 in Ht.
  rewrite <- Epc in S1, S2, Ht. rewrite <- Epr in Ht.
  pose proof Ap as Ap2. pose proof Lp as Lp2. rewrite <- Epr in Ap2, Lp2.
  destruct (pit_schedule_spec t p s0 k2 Ht Ap2 Lp2) as (_ & _ & _ & k1 & P1 & P2 & _ & Hs).
  set (r := active_of _ _) in *. case_decide as Hrp.
  - destruct Hs as (-> & P3 & _). rewrite Etb in P3. apply pair_inv in P3 as [P3 P4].
    apply (cpu_same k s (Some p) k1 s0 Hok); try congruence.
    intros q Hq. rewrite P2. rewrite S1; [done|congruence].
  - destruct Hs as (E & _). rewrite E. intros q Hq.
    apply (cpu_step_schedule k s p k2 s0 s0 k1 q Hok Epr Ht S1); [|exact E|exact Hq].
    unfold saved. by rewrite S2.
Qed.

Lemma cpu_step_tick k s p esp ebp f shell :
  cpu_ok (Cpu k s (Some p)) → pcb_addr esp = pcb_of_pid p →
  tick_ok k s p (pit_handler_main f shell s (set_kregs esp ebp k)).
Proof.
  intros Hok He. pose proof Hok as [Ht Hi _ Hrun Hsv]. cbn [ck crun] in *.
  destruct (Hrun p eq_refl) as (Lp & (t & Ap) & _ & _).
  rewrite (handler_unfold f shell s p esp ebp k (processes_live _ p Hi Lp) He).
  destruct (next_execute s =? 0); [by apply (schedule_ok k s p esp ebp)|]. cbv zeta.
  set (s1 := Pit (pit_rate s) 0). set (k3 := set_kdev _ (ticked esp ebp p k)).
  destruct (ticked_spec esp ebp p k) as (S1 & S2 & _ & S4). pose proof (S4 Ht) as Ht3.
  destruct (execute f shell k3) as [r k4| | |a v k4| | |] eqn:E; try done.
  { apply execute_ret in E as (_ & E1 & E2 & _ & _ & E3 & _ & _ & E4 & _).
    apply (schedule_ok k s p esp ebp k4 s1 Hok He); [done|done|].
    unfold tables. by rewrite E3, E4. }
  intros n Hcur Hn.
  assert (∀ u q, active_on (kproc k3) u q → q ≠ -1 → saved k3 q) as Hsv3.
  { intros u q Aq Hq. unfold saved. destruct (decide (q = p)) as [->|Hne].
    - change (kpcbs k3) with (kpcbs (ticked esp ebp p k)). by rewrite S2.
    - change (kpcbs k3) with (kpcbs (ticked esp ebp p k)). rewrite S1 by done.
      apply (Hsv u q Aq Hq). congruence. }
  assert (cpu_ok (Cpu k4 s1 (Some n)) ∧ ∀ u q, u ≠ t → active_on (kproc k3) u q → q ≠ -1 →
    active_on (kproc k4) u q ∧ q ≠ n ∧ kpcbs k4 !!! pcb_of_pid q = kpcbs k3 !!! pcb_of_pid q) as [Hok4 Hkeep].
  { destruct (curr_terminal_running_process (kkbd k3) (kproc k3)) eqn:Hc.
    - exact (enter_child f shell k3 t p a v k4 s1 n Ht3 Hi Ap Lp He Hc E Hn (λ u q _, Hsv3 u q)).
    - destruct (enter_shell f shell k3 a v k4 s1 n Ht3 Hi Hc Hcur E Hn Hsv3) as [H1' H2'].
      split; [exact H1'|]. intros u q _. apply H2'. }
  split; [exact Hok4|]. intros u q Aq Hq Hne. cbn [ck crun] in *.
  assert (u ≠ t) as Hu by (intros ->; by rewrite (active_fun _ t p q Ap Aq) in Hne).
  destruct (Hkeep u q Hu Aq Hq) as (K1 & K2 & K3). split; [done|]. rewrite K3.
  change (kpcbs k3) with (kpcbs (ticked esp ebp p k)). rewrite S1 by congruence.
  split; [done|]. congruence.
Qed.

Lemma cpu_step_ok e c c' :
  cpu_ok c → cpu_step e c c' → orderly e (ck c) → cpu_ok c' ∧ keeps_waiting c c'.
Proof.
  intros Hok Hs [Hview Ho]. destruct Hs as [k s f command a u k' n Hidle Hcur E Hn
    |k s p esp ebp f command a u k' n He E Hn|k s p esp ebp f command r k' E
    |k s p esp ebp t0 r b d f command a u k' n He Hst E Hn
    |k s p esp ebp status bl k' q He E Hq|k s p esp ebp status k1 f command a u k' n He E Hcur Ex Hn
    |k s p esp ebp k' He E|k s p esp ebp f shell s' k' He E|k s p esp ebp f shell s' k' q He E Hq
    |k s p esp ebp f shell a u s' k' n He Hcur E Hn|k s r k' s' E1 E2 E3 E4].
  - destruct Hok as [Ht Hi Hno _ _]. cbn [ck crun] in *.
    destruct (enter_shell f command k a u k' s n Ht Hi Hidle Hcur E Hn) as [Hok _].
    + intros t q Aq Hq. destruct Hq. by apply (Hno eq_refl t).
    + split; [exact Hok|]. intros t q Aq Hq. destruct Hq. by apply (Hno eq_refl t).
  - assert (curr_terminal_running_process (kkbd k) (kproc k) = true) as Hrun by (by apply not_false_is_true).
    pose proof Hok as [Ht Hi _ Hr Hsv]. cbn [ck crun] in *. destruct (Hr p eq_refl) as (Lp & (t & Ap) & _).
    destruct (enter_child f command (set_kregs esp ebp k) t p a u k' s n Ht Hi Ap Lp He Hrun E Hn) as [Hok' Hkeep].
    + intros v q Hv Aq Hq. apply (Hsv v q Aq Hq). intros [= <-]. apply Hv.
      by rewrite <- (active_terminal _ _ v p Ht Aq Lp), (active_terminal _ _ t p Ht Ap Lp).
    + split; [exact Hok'|]. intros v q Aq Hq Hne. cbn [ck crun] in *.
      assert (v ≠ t) as Hv by (intros ->; by rewrite (active_fun _ t p q Ap Aq) in Hne).
      destruct (Hkeep v q Hv Aq Hq) as (K1 & K2 & K3). split; [done|]. rewrite K3. split; [done|]. congruence.
  - pose proof Hok as [Ht _ _ _ _]. apply execute_ret in E as (_ & E1 & E2 & _ & _ & E3 & _ & _ & E4 & _).
    apply (cpu_same k s (Some p) k' s Hok).
    + exact E1.
    + rewrite E1, E2. exact Ht.
    + intros q _. by rewrite E2.
    + by rewrite E3.
    + exact E4.
  - destruct Ho.
  - by apply (cpu_step_halt k s p esp ebp status bl k' q).
  - by apply (cpu_step_restart k s p esp ebp status k1 f command a u k' n).
  - pose proof Hok as [Ht _ _ Hr _]. cbn [ck crun] in *. destruct (Hr p eq_refl) as (Lp & (t & Ap) & _).
    pose proof (tree_step Ev_other k k' Ht (life_files k t p esp ebp k' Ap Lp He E) I) as Ht'.
    pose proof (cur_pcb_run k p esp ebp He) as Hc.
    pose proof (fd_step_keeps (set_kregs esp ebp k) k') as Hk. rewrite Hc in Hk.
    destruct (Hk (nd_files _ _ _ (tr_node _ _ Ht p Lp)) E) as (_ & K2 & K3 & K4 & _).
    apply pair_inv in K3 as [K31 K32]. apply (cpu_same k s (Some p) k' s Hok); [exact K2|exact Ht'| |by rewrite K31|exact K32].
    intros q Hq. rewrite K4; [done|]. unfold cur_addr. simpl. rewrite He. intros E'%pcb_of_pid_inj. congruence.
  - pose proof (cpu_step_tick k s p esp ebp f shell Hok He) as Hk. by rewrite E in Hk.
  - pose proof (cpu_step_tick k s p esp ebp f shell Hok He) as Hk. rewrite E in Hk. by apply Hk.
  - pose proof (cpu_step_tick k s p esp ebp f shell Hok He) as Hk. rewrite E in Hk. by apply Hk.
  - destruct Hok as [Ht Hi Hidle Hr Hsv]. apply (cpu_same k s r k' s'); [by split|done| | |done|done].
    + rewrite E1, E2. exact Ht.
    + intros q _. by rewrite E2.
Qed.

Lemma cpu_powered c : powered c → cpu_ok c.
Proof.
  intros (Hb & Hi & Hr). pose proof Hb as (_ & Ha & _).
  assert (∀ t p, active_on (kproc (ck c)) t p → p = -1) as Hno.
  { intros t p [Ht E]. unfold MAX_TERMINALS in Ht. rewrite Ha, lookup_total_replicate_2 in E by lia. done. }
  split; [by apply tree_booted|exact Hi|done| |].
  - intros p E. congruence.
  - intros t q Aq Hq. by destruct Hq; apply (Hno t).
Qed.
Lemma orderly_step_ok c c' : cpu_ok c → orderly_step c c' → cpu_ok c' ∧ keeps_waiting c c'.
Proof. intros Hok (e & Hs & Ho). by apply (cpu_step_ok e). Qed.
Lemma orderly_other c c' : cpu_step Ev_other c c' → orderly_step c c'.
Proof. intros Hs. by exists Ev_other. Qed.
Lemma cpu_reachable c0 c : powered c0 → rtc orderly_step c0 c → cpu_ok c.
Proof.
  intros Hp Hr. apply cpu_powered in Hp. induction Hr as [|c0 c1 c2 Hs _ IH]; [done|].
  apply IH. by destruct (orderly_step_ok c0 c1 Hp Hs).
Qed.

(** A tick without a shell to execute. *)
Lemma quiet_handler f shell k s t p esp ebp :
  cpu_ok (Cpu k s (Some p)) → pcb_addr esp = pcb_of_pid p → next_execute s = 0 →
  active_on (kproc k) t p →
  let u := next_terminal (kproc k) t in
  let q := active_of (kproc k) u in
  active_on (kproc k) u q ∧ pid_live (kproc k) q ∧ ∃ k', kproc k' = kproc k ∧
    ctx_esp (context (kpcbs k' !!! pcb_of_pid p)) = esp ∧
    ctx_ebp (context (kpcbs k' !!! pcb_of_pid p)) = ebp ∧
    (∀ x, x ≠ p → kpcbs k' !!! pcb_of_pid x = kpcbs k !!! pcb_of_pid x) ∧
    if decide (q = p) then
      pit_handler_main f shell s (set_kregs esp ebp k) = Tick_return s k' ∧ tables k' = tables k ∧
      kesp k' = esp ∧ kebp k' = ebp
    else
      pit_handler_main f shell s (set_kregs esp ebp k) = Tick_switch s k' ∧
      kesp k' = ctx_esp (context (kpcbs k !!! pcb_of_pid q)) ∧
      kebp k' = ctx_ebp (context (kpcbs k !!! pcb_of_pid q)) ∧
      pcb_addr (kesp k') = pcb_of_pid q ∧
      cr3 (kvm k') = PdProc (q - 1) ∧ ktss_esp0 k' = esp0_of_pid q.
Proof.
  intros [Ht Hi _ Hrun Hsv] He Hq Ap u q. cbn [ck crun] in *. destruct (Hrun p eq_refl) as (Lp & _).
  destruct (ticked_spec esp ebp p k) as (S1 & S2 & S3 & S4).
  destruct (pit_schedule_spec t p s (ticked esp ebp p k) (S4 Ht) Ap Lp) as
    (Aq & Lq & _ & k' & P1 & P2 & _ & Hs). change (kproc (ticked esp ebp p k)) with (kproc k) in *.
  fold u q in Aq, Lq, Hs. split; [done|]. split; [done|]. exists k'. rewrite P2.
  split; [done|]. split; [done|]. split; [done|]. split; [done|].
  rewrite (handler_unfold f shell s p esp ebp k (processes_live _ p Hi Lp) He), Hq. cbn [Z.eqb].
  case_decide as Hqp; [exact Hs|]. rewrite S1 in Hs by done.
  destruct Hs as (Ha & Hb & Hc & Hd & Hf). split_and!; try done. rewrite Hb.
  apply (Hsv u q Aq); [pose proof (pid_live_range _ _ Lq); lia|congruence].
Qed.
End running.

(** A tick with no shell to execute, as a step of its own. *)
Inductive quiet_tick {D : Type} `{Board D} `{Layout} `{Mmu} : cpu D → cpu D → Prop :=
  | quiet_return k s p esp ebp f shell k' :
      pcb_addr esp = pcb_of_pid p → next_execute s = 0 →
      pit_handler_main f shell s (set_kregs esp ebp k) = Tick_return s k' →
      quiet_tick (Cpu k s (Some p)) (Cpu k' s (Some p))
  | quiet_switch k s p esp ebp f shell k' q :
      pcb_addr esp = pcb_of_pid p → next_execute s = 0 →
      pit_handler_main f shell s (set_kregs esp ebp k) = Tick_switch s k' →
      pcb_addr (kesp k') = pcb_of_pid q →
      quiet_tick (Cpu k s (Some p)) (Cpu k' s (Some q)).

Section ticks.
Context {D : Type} `{Board D} `{Layout} `{Mmu}.
Implicit Types c : cpu D.

Lemma quiet_cpu c c' : quiet_tick c c' → orderly_step c c' ∧ cpit c' = cpit c.
Proof.
  intros []; (split; [|done]); apply orderly_other; [by eapply cpu_tick_return|by eapply cpu_tick_switch].
Qed.

(** A quiet tick moves on to the next terminal. *)
Lemma quiet_next c c' t p :
  cpu_ok c → crun c = Some p → active_on (kproc (ck c)) t p → quiet_tick c c' →
  let u := next_terminal (kproc (ck c)) t in
  cpu_ok c' ∧ kproc (ck c') = kproc (ck c) ∧
  active_on (kproc (ck c')) u (active_of (kproc (ck c)) u) ∧
  crun c' = Some (active_of (kproc (ck c)) u).
Proof.
  intros Hok Hr Ap Hq u. split; [by apply (orderly_step_ok c c' Hok), quiet_cpu|].
  destruct Hq as [k s p' esp ebp f shell k' He Hn E|k s p' esp ebp f shell k' q He Hn E Hq];
    cbn [ck crun] in *; injection Hr as ->;
    destruct (quiet_handler f shell k s t p esp ebp Hok He Hn Ap) as (Aq & Lq & k1 & P & _ & _ & _ & Hs);
    fold u in Aq, Hs; case_decide as Eq.
  - destruct Hs as (E' & _). rewrite E in E'. injection E' as <-. rewrite P. split; [done|].
    split; [done|]. by rewrite Eq.
  - destruct Hs as (E' & _). by rewrite E in E'.
  - destruct Hs as (E' & _). by rewrite E in E'.
  - destruct Hs as (E' & _ & _ & Ha & _). rewrite E in E'. injection E' as <-. rewrite P. split; [done|].
    split; [done|]. f_equal. apply pcb_of_pid_inj. by rewrite <- Hq, <- Ha.
Qed.

(** It can always happen. *)
Lemma quiet_total c t p :
  cpu_ok c → crun c = Some p → active_on (kproc (ck c)) t p → next_execute (cpit c) = 0 →
  ∃ c', quiet_tick c c'.
Proof.
  intros Hok Hr Ap Hn. destruct c as [k s r]. cbn [ck crun cpit] in *. subst r.
  pose proof (co_run _ Hok p eq_refl) as (Lp & _). apply pid_live_range in Lp.
  assert (pcb_addr (esp0_of_pid p) = pcb_of_pid p) as He
    by (apply pcb_addr_stack; [done|by apply esp0_in_stack]).
  set (f0 := ExecFrame 0 0 0 0 0 0 0).
  destruct (quiet_handler f0 0 k s t p (esp0_of_pid p) 0 Hok He Hn Ap) as (_ & _ & k1 & _ & _ & _ & _ & Hs).
  case_decide.
  - destruct Hs as (E & _). eexists. by eapply (quiet_return k s p (esp0_of_pid p) 0 f0 0).
  - destruct Hs as (E & _ & _ & Ha & _). eexists. by eapply (quiet_switch k s p (esp0_of_pid p) 0 f0 0).
Qed.

Lemma quiet_run n c c' t p :
  cpu_ok c → crun c = Some p → active_on (kproc (ck c)) t p → nsteps quiet_tick n c c' →
  let ps := kproc (ck c) in
  let u := Nat.iter n (next_terminal ps) t in
  cpu_ok c' ∧ kproc (ck c') = ps ∧ cpit c' = cpit c ∧
  active_on ps u (active_of ps u) ∧ crun c' = Some (active_of ps u).
Proof.
  intros Hok Hr Ap Hs. revert t p Hok Hr Ap. induction Hs as [c|n c c1 c2 Hq _ IH]; intros t p Hok Hr Ap.
  - cbv zeta. cbn [Nat.iter nat_rect]. assert (active_of (kproc (ck c)) t = p) as E by apply Ap. by rewrite E.
  - destruct (quiet_next c c1 t p Hok Hr Ap Hq) as (Hok1 & E1 & A1 & R1).
    destruct (quiet_cpu c c1 Hq) as [_ Hp].
    specialize (IH _ _ Hok1 R1 A1). cbv zeta in *. rewrite E1, Hp in IH.
    by rewrite Nat.iter_succ_r.
Qed.
Lemma quiet_runs n c t p :
  cpu_ok c → crun c = Some p → active_on (kproc (ck c)) t p → next_execute (cpit c) = 0 →
  ∃ c', nsteps quiet_tick n c c'.
Proof.
  revert c t p. induction n as [|n IH]; intros c t p Hok Hr Ap Hn; [by exists c; constructor|].
  destruct (quiet_total c t p Hok Hr Ap Hn) as [c1 Hq].
  destruct (quiet_next c c1 t p Hok Hr Ap Hq) as (Hok1 & _ & A1 & R1).
  destruct (IH c1 _ _ Hok1 R1 A1) as [c' Hc']; [by rewrite (proj2 (quiet_cpu _ _ Hq))|].
  exists c'. by eapply nsteps_l.
Qed.
End ticks.

(** ** What [orderly] leaves out

    A base shell that halts behind a busy screen: [execute] takes the PCB of
    the shell that has just ended for the parent of the new one, and that is
    the new shell's own PCB when, as is usual, it gets the same pid. *)
Lemma hidden_shell_parent {D} `{Board D} `{Layout} `{Mmu} (k : kernel D) s p esp ebp status k1 f command
    a u k2 :
  cpu_ok (Cpu k s (Some p)) → pcb_addr esp = pcb_of_pid p →
  halt status (set_kregs esp ebp k) = Restart_shell k1 →
  curr_terminal_running_process (kkbd k1) (kproc k1) = true →
  execute f command k1 = Enter a u k2 →
  ¬ pid_live (kproc k1) p ∧
  ∃ n ps, add_process (kproc k1) = (n, ps) ∧ parent_pcb (kpcbs k2 !!! pcb_of_pid n) = pcb_of_pid p.
Proof.
  intros [Ht Hi _ Hrun _] He E Hc Ex. cbn [ck crun] in *. destruct (Hrun p eq_refl) as (Lp & (t & Ap) & _).
  destruct (halt_spec status (set_kregs esp ebp k)) as (k0 & _ & _ & _ & _ & _ & _ & Hh);
    [rewrite (cur_pcb_run k p esp ebp He); apply (nd_files _ _ _ (tr_node _ _ Ht p Lp))|].
  destruct (tree_halt k t p esp ebp status Ht Ap Lp He) as (k' & _ & _ & Hk & _).
  case_decide; [|by destruct Hk as (q & _ & _ & _ & E' & _); rewrite E in E'].
  destruct Hk as (E' & _ & Hpr). rewrite E in E'. injection E' as <-.
  destruct (Z.eqb_spec (parent_pcb (cur_pcb (set_kregs esp ebp k))) 0) as [Hz|Hz];
    [|by destruct Hh as (E' & _); rewrite E in E'].
  destruct Hh as (E' & _ & _ & Hesp). rewrite E in E'. injection E' as <-.
  pose proof (delete_process_spec p (kproc k) (pid_live_range _ _ Lp) (pi_procs _ Hi)) as (Da & _ & _ & Dl).
  assert (0 ≤ t < 3) as Htr by apply Ap. split.
  - rewrite Hpr. destruct (set_active_spec t (-1) (delete_process p (kproc k)).2 Htr) as (Sp & _);
      [rewrite Da; apply (pi_active _ Hi)|]. unfold pid_live. rewrite Sp. intros Hl. by apply Dl in Hl as [].
  - destruct (execute_enter f command k1 a u k2 Ex) as (n & ps & Ep & _ & Hen). exists n, ps.
    split; [done|]. pose proof (en_parent _ _ _ _ _ Hen) as Epar.
    change (kpcbs (set_kdev (kdev k1) k2)) with (kpcbs k2) in Epar. rewrite Epar.
    unfold parent_of. rewrite Hc. unfold cur_addr. by rewrite Hesp.
Qed.

(** A program executed, or a shell the keyboard starts, while the terminal
    shown is idle: the process on whose stack that happens stays active on its
    terminal, but does not run, and its PCB keeps the registers of some earlier
    tick. *)
Lemma idle_execute_strands {D} `{Board D} `{Layout} `{Mmu} (k : kernel D) s p esp ebp f command a u k' :
  cpu_ok (Cpu k s (Some p)) → pcb_addr esp = pcb_of_pid p → shown_idle k →
  0 ≤ current_terminal (kkbd k) < MAX_TERMINALS →
  execute f command (set_kregs esp ebp k) = Enter a u k' →
  ∃ t n ps, add_process (kproc k) = (n, ps) ∧ n ≠ p ∧ ktss_esp0 k' = esp0_of_pid n ∧
    active_on (kproc k') t p ∧ kpcbs k' !!! pcb_of_pid p = kpcbs k !!! pcb_of_pid p.
Proof.
  intros [Ht Hi _ Hrun _] He Hidle Hcur E. cbn [ck crun] in *. destruct (Hrun p eq_refl) as (Lp & (t & Ap) & _).
  destruct (execute_enter f command _ a u k' E) as (n & ps & Ep & Hn & Hen).
  change (kproc (set_kregs esp ebp k)) with (kproc k) in Ep. exists t, n, ps. split; [done|].
  pose proof (add_process_spec (kproc k) (pi_procs _ Hi)) as Hnew. rewrite Ep in Hnew.
  destruct Hnew as [(-> & _)|(_ & Hnew & _ & _ & _ & Hact & _)]; [lia|].
  assert (n ≠ p) as Hne by (intros ->; done). split; [done|].
  pose proof Hen as [E1 E2 _ _ _ _ _ _ _ _ _ [E12 _] _]. split; [exact E12|].
  change (kpcbs (set_kdev (kdev (set_kregs esp ebp k)) k')) with (kpcbs k') in E2.
  assert (terminal_of (set_kregs esp ebp k) = current_terminal (kkbd k)) as Etm.
  { unfold terminal_of. change (kkbd (set_kregs esp ebp k)) with (kkbd k).
    change (kproc (set_kregs esp ebp k)) with (kproc k). rewrite Hidle.
    unfold get_current_terminal, MAX_TERMINALS in *. rewrite s32_u32. apply s32_small. lia. }
  split.
  - change (kproc k' = (set_active_process (terminal_of (set_kregs esp ebp k)) n ps).2) in E1.
    rewrite E1, Etm. apply active_on_set; [exact Hcur|by rewrite Hact; apply (pi_active _ Hi)|]. right.
    unfold active_on. rewrite Hact. split; [|exact Ap]. intros ->.
    pose proof (active_fun _ _ _ _ Ap (running_active _ _ Hidle Hcur)). apply pid_live_range in Lp. lia.
  - rewrite E2, lookup_total_insert_ne; [done|]. intros E'%pcb_of_pid_inj. congruence.
Qed.

(** ** Properties *)

(** C5: in every orderly run from power-on, whatever processes and the user do
    in it, the process that
    runs is live, active on its terminal, under its own page directory, and
    the TSS names its own kernel stack; and every other active process, which
    waits for a tick, has a stack pointer into its own kernel stack saved for
    it.  Orderly: no base shell halts behind a busy screen, no process executes
    a program while the terminal shown is idle, and the keyboard's handler does
    not execute a shell itself; after those the claim fails
    ([hidden_shell_parent], [idle_execute_strands]). *)
Theorem running_process_invariant {D} `{Board D} `{Layout} `{Mmu} (c0 c : cpu D) p :
  powered c0 → rtc orderly_step c0 c → crun c = Some p →
  pid_live (kproc (ck c)) p ∧ active_on (kproc (ck c)) (term_num (kpcbs (ck c) !!! pcb_of_pid p)) p ∧
  cr3 (kvm (ck c)) = PdProc (p - 1) ∧ pcb_addr (ktss_esp0 (ck c)) = pcb_of_pid p ∧
  ∀ t q, active_on (kproc (ck c)) t q → q ≠ -1 → q ≠ p →
    pcb_addr (ctx_esp (context (kpcbs (ck c) !!! pcb_of_pid q))) = pcb_of_pid q.
Proof.
  intros Hp Hr Hrun. destruct (cpu_reachable c0 c Hp Hr) as [Ht _ _ Ho Hsv].
  destruct (Ho p Hrun) as (Lp & (t & Ap) & Hcr & Htss). split; [done|].
  split; [by rewrite (active_terminal _ _ t p Ht Ap Lp)|]. split; [done|]. split.
  - pose proof (pid_live_range _ _ Lp). rewrite Htss. by apply pcb_addr_stack, esp0_in_stack.
  - intros u q Aq Hq Hne. apply (Hsv u q Aq Hq). congruence.
Qed.

(** C21: round robin.  In an orderly run, a tick with no shell scheduled saves the registers of the
    process it interrupts and gives the processor to the active process of
    the next terminal that has one: the interrupted process itself when there
    is no other, else that process, on its own stack as last saved, under its
    own directory and with its own kernel stack in the TSS. *)
Theorem tick_round_robin {D} `{Board D} `{Layout} `{Mmu} (c0 : cpu D) k s t p f shell esp ebp :
  powered c0 → rtc orderly_step c0 (Cpu k s (Some p)) → active_on (kproc k) t p →
  pcb_addr esp = pcb_of_pid p → next_execute s = 0 →
  let u := if decide (active_of (kproc k) ((t + 1) `mod` 3) ≠ -1) then (t + 1) `mod` 3
           else if decide (active_of (kproc k) ((t + 2) `mod` 3) ≠ -1) then (t + 2) `mod` 3 else t in
  let q := active_of (kproc k) u in
  pid_live (kproc k) q ∧ ∃ k', kproc k' = kproc k ∧
    ctx_esp (context (kpcbs k' !!! pcb_of_pid p)) = esp ∧
    ctx_ebp (context (kpcbs k' !!! pcb_of_pid p)) = ebp ∧
    (∀ x, x ≠ p → kpcbs k' !!! pcb_of_pid x = kpcbs k !!! pcb_of_pid x) ∧
    if decide (q = p) then
      pit_handler_main f shell s (set_kregs esp ebp k) = Tick_return s k' ∧ kesp k' = esp ∧ kebp k' = ebp
    else
      pit_handler_main f shell s (set_kregs esp ebp k) = Tick_switch s k' ∧
      kesp k' = ctx_esp (context (kpcbs k !!! pcb_of_pid q)) ∧
      kebp k' = ctx_ebp (context (kpcbs k !!! pcb_of_pid q)) ∧
      pcb_addr (kesp k') = pcb_of_pid q ∧
      cr3 (kvm k') = PdProc (q - 1) ∧ ktss_esp0 k' = esp0_of_pid q.
Proof.
  intros Hp Hr Ap He Hn u q. pose proof (cpu_reachable _ _ Hp Hr) as Hok.
  destruct (quiet_handler f shell k s t p esp ebp Hok He Hn Ap) as (_ & Lq & k' & P1 & P2 & P3 & P4 & Hs).
  change (next_terminal (kproc k) t) with u in Lq, Hs. fold q in Lq, Hs.
  split; [exact Lq|]. exists k'. split; [done|]. split; [done|]. split; [done|]. split; [done|].
  case_decide; [|exact Hs]. destruct Hs as (? & _ & ? & ?). done.
Qed.

(** C1: a process the timer switches away from (with no shell scheduled) gets
    its registers back. Whatever the other processes do in an orderly run in
    the meantime (they execute, halt, use files, are switched between; but no
    base shell halts behind a busy screen, and neither a process nor the
    keyboard's handler executes a program while the terminal shown is idle),
    when it runs again it is at the stack and frame pointers at which it was
    interrupted, under its own directory, with its own kernel stack in the TSS.
    *)
Theorem preempted_process_resumes {D} `{Board D} `{Layout} `{Mmu} (c0 c2 c3 : cpu D) k s p esp ebp f
    shell k1 q :
  powered c0 → rtc orderly_step c0 (Cpu k s (Some p)) → pcb_addr esp = pcb_of_pid p → next_execute s = 0 →
  pit_handler_main f shell s (set_kregs esp ebp k) = Tick_switch s k1 → pcb_addr (kesp k1) = pcb_of_pid q →
  rtc (λ a b, orderly_step a b ∧ crun b ≠ Some p) (Cpu k1 s (Some q)) c2 →
  orderly_step c2 c3 → crun c3 = Some p →
  kesp (ck c3) = esp ∧ kebp (ck c3) = ebp ∧ pid_live (kproc (ck c3)) p ∧
  cr3 (kvm (ck c3)) = PdProc (p - 1) ∧ ktss_esp0 (ck c3) = esp0_of_pid p.
Proof.
  intros Hp Hr He Hn E Hq Hrun Hlast H3. pose proof (cpu_reachable _ _ Hp Hr) as Hok.
  destruct (co_run _ Hok p eq_refl) as (Lp & (t & Ap) & _). cbn [ck] in *.
  destruct (quiet_handler f shell k s t p esp ebp Hok He Hn Ap) as (_ & _ & k' & P1 & P2 & P3 & _ & Hs).
  case_decide as Eqp; [by destruct Hs as (E' & _); rewrite E in E'|].
  destruct Hs as (E' & _ & _ & Ha & _). rewrite E in E'. injection E' as <-.
  pose proof (proj1 (cpu_step_ok Ev_other _ _ Hok (cpu_tick_switch k s p esp ebp f shell s k1 q He E Hq) (conj I I))) as Hok1.
  assert (q ≠ p) as Hqp.
  { intros ->. apply Eqp, pcb_of_pid_inj. by rewrite <- Ha. }
  assert (p ≠ -1) as Hp1 by (apply pid_live_range in Lp; lia).
  assert (∀ c, rtc (λ a b, orderly_step a b ∧ crun b ≠ Some p) (Cpu k1 s (Some q)) c →
    cpu_ok c ∧ crun c ≠ Some p ∧ active_on (kproc (ck c)) t p ∧
    context (kpcbs (ck c) !!! pcb_of_pid p) = context (kpcbs k1 !!! pcb_of_pid p)) as Hwait.
  { intros c Hc. refine (rtc_ind_r (λ c, cpu_ok c ∧ crun c ≠ Some p ∧ active_on (kproc (ck c)) t p ∧
      context (kpcbs (ck c) !!! pcb_of_pid p) = context (kpcbs k1 !!! pcb_of_pid p)) _ _ _ c Hc).
    - split; [done|]. split; [cbn; congruence|]. split; [cbn [ck]; by rewrite P1|done].
    - intros a b _ [Hab Hb] (Oa & Ra & Aa & Ca). destruct (orderly_step_ok a b Oa Hab) as [Ob Kab].
      destruct (Kab t p Aa Hp1 Ra) as (K1 & K2 & _). by rewrite K2. }
  destruct (Hwait c2 Hrun) as (O2 & R2 & A2 & C2).
  destruct (orderly_step_ok c2 c3 O2 Hlast) as [O3 K3]. destruct (K3 t p A2 Hp1 R2) as (_ & _ & Kr).
  destruct (Kr H3) as [K4 K5]. rewrite K4, K5, C2, P2, P3.
  destruct (co_run _ O3 p H3) as (? & _ & ? & ?). done.
Qed.

(** C19: nobody starves.  In a state an orderly run from power-on reaches,
    where a process runs and no shell is scheduled, three ticks in a row can
    happen, and among any three ticks in a row (no system call between them)
    every process that is active on a terminal gets the processor.  Orderly: no
    base shell halted behind a busy screen, and neither a process nor the
    keyboard's handler executed a program while the terminal shown was idle. *)
Theorem active_process_runs {D} `{Board D} `{Layout} `{Mmu} (c0 c : cpu D) p u q :
  powered c0 → rtc orderly_step c0 c → crun c = Some p → next_execute (cpit c) = 0 →
  active_on (kproc (ck c)) u q → q ≠ -1 →
  (∃ c3, nsteps quiet_tick 3 c c3) ∧
  ∀ c3, nsteps quiet_tick 3 c c3 → ∃ (n : nat) c', (1 ≤ n ≤ 3)%nat ∧
    nsteps quiet_tick n c c' ∧ nsteps quiet_tick (3 - n) c' c3 ∧ crun c' = Some q.
Proof.
  intros Hp Hr Hrun Hn Aq Hq. pose proof (cpu_reachable _ _ Hp Hr) as Hok.
  destruct (co_run _ Hok p Hrun) as (_ & (t & Ap) & _). split; [by eapply quiet_runs|].
  intros c3 H3. assert (active_of (kproc (ck c)) u = q) as Eq by apply Aq.
  destruct (reach_busy (kproc (ck c)) t u) as (n & Hn3 & En); [apply Ap|apply Aq|by rewrite Eq|].
  replace 3%nat with (n + (3 - n))%nat in H3 by lia. apply nsteps_add_inv in H3 as (c' & Hc' & H3).
  exists n, c'. split; [done|]. split; [done|]. split; [done|].
  destruct (quiet_run n c c' t p Hok Hrun Ap Hc') as (_ & _ & _ & _ & R). by rewrite R, En, Eq.
Qed.

(** ** An example: two terminals with a shell each *)

Definition sample_cpu : cpu pc := Cpu sample_boot (Pit 11931 0) None.
Definition shown (n : Z) (k : kernel pc) : kernel pc :=
  set_kmem (kmem sample_boot) (set_kkbd (Kbd (terminals (kkbd k)) (modifiers (kkbd k)) n) k).

Lemma sample_powered : powered sample_cpu.
Proof.
  split; [vm_compute; split_and!; reflexivity|]. split; [|reflexivity]. split; vm_compute; reflexivity.
Qed.

(** Terminal 0 has process 1; terminal 1 is shown, a shell is scheduled, and
    the next tick executes it as process 2. *)
Lemma sample_two :
  ∃ k, rtc orderly_step sample_cpu (Cpu k (Pit 11931 0) (Some 2)) ∧
    active_processes (kproc k) = [1; 2; -1].
Proof.
  destruct sample_boot_enters as (k1 & E1 & Hen1).
  pose proof (en_proc _ _ _ _ _ Hen1) as P1.
  change (terminal_of (set_kdev (cli (kdev sample_boot)) sample_boot)) with 0 in P1.
  set (k2 := ticked (esp0_of_pid 1) 0 1 (shown 1 k1)).
  set (k3 := set_kdev (pit_reset_count (Pit 11931 0) (kdev k2)) k2).
  destruct (sample_enters_any k3 2 (add_process (kproc k1)).2) as (k4 & E4 & Hen4).
  { reflexivity. }
  { exact (proj1 (proj2 (proj2 (proj2 (proj2 (en_rest _ _ _ _ _ Hen1)))))). }
  { change (kproc k3) with (kproc k1). rewrite P1. vm_compute. reflexivity. }
  { by right. }
  exists k4. split.
  - apply rtc_l with (Cpu k1 (Pit 11931 0) (Some 1)).
    { exists Ev_shell. split; [|by split].
      eapply (cpu_boot sample_boot (Pit 11931 0) sample_frame 0x8000100); [| |exact E1|].
      - vm_compute. reflexivity.
      - vm_compute. split; [congruence|reflexivity].
      - exact (proj1 (en_tss _ _ _ _ _ Hen1)). }
    apply rtc_l with (Cpu (shown 1 k1) (Pit 11931 1) (Some 1)); [by apply orderly_other, cpu_machine|].
    apply rtc_once, orderly_other.
    eapply (cpu_tick_enter _ _ _ (esp0_of_pid 1) 0 sample_frame 0x8000100).
    + vm_compute. reflexivity.
    + vm_compute. split; [congruence|reflexivity].
    + rewrite (handler_unfold sample_frame 0x8000100 (Pit 11931 1) 1 (esp0_of_pid 1) 0 (shown 1 k1)).
      * cbn [next_execute Z.eqb pit_rate]. cbv zeta. fold k2. fold k3. rewrite E4. reflexivity.
      * change (kproc (shown 1 k1)) with (kproc k1). rewrite P1. vm_compute. congruence.
      * vm_compute. reflexivity.
    + exact (proj1 (en_tss _ _ _ _ _ Hen4)).
  - rewrite (en_proc _ _ _ _ _ Hen4). change (kproc k3) with (kproc k1).
    unfold terminal_of. change (kproc (set_kdev _ k3)) with (kproc k1). rewrite P1. vm_compute. reflexivity.
Qed.

Lemma running_process_invariant_witness :
  ∃ k : kernel pc, rtc orderly_step sample_cpu (Cpu k (Pit 11931 0) (Some 2)) ∧
    pid_live (kproc k) 2 ∧ cr3 (kvm k) = PdProc 1.
Proof.
  destruct sample_two as (k & Hr & _). exists k. split; [exact Hr|].
  destruct (running_process_invariant sample_cpu (Cpu k (Pit 11931 0) (Some 2)) 2) as (L & _ & C & _).
  - exact sample_powered.
  - exact Hr.
  - reflexivity.
  - split; [exact L|exact C].
Defined.

(** Process 2 of terminal 1 is interrupted: process 1 of terminal 0 runs. *)
Lemma tick_round_robin_witness :
  ∃ k k' : kernel pc, rtc orderly_step sample_cpu (Cpu k (Pit 11931 0) (Some 2)) ∧
    pit_handler_main sample_frame 0x8000100 (Pit 11931 0) (set_kregs (esp0_of_pid 2) 7 k)
      = Tick_switch (Pit 11931 0) k' ∧
    cr3 (kvm k') = PdProc 0 ∧ ctx_ebp (context (kpcbs k' !!! pcb_of_pid 2)) = 7.
Proof.
  destruct sample_two as (k & Hr & Ha). exists k.
  destruct (tick_round_robin sample_cpu k (Pit 11931 0) 1 2 sample_frame 0x8000100 (esp0_of_pid 2) 7)
    as (_ & k' & _ & _ & He & _ & Hs).
  - exact sample_powered.
  - exact Hr.
  - split; [vm_compute; split; [congruence|reflexivity]|]. rewrite Ha. vm_compute. reflexivity.
  - vm_compute. reflexivity.
  - reflexivity.
  - exists k'. split; [exact Hr|]. unfold active_of in Hs. rewrite Ha in Hs.
    split; [exact (proj1 Hs)|]. split; [exact (proj1 (proj2 (proj2 (proj2 (proj2 Hs)))))|exact He].
Defined.

Lemma preempted_process_resumes_witness :
  ∃ c : cpu pc, rtc orderly_step sample_cpu c ∧ crun c = Some 2 ∧
    kesp (ck c) = esp0_of_pid 2 - 64 ∧ kebp (ck c) = 7.
Proof.
  destruct sample_two as (k & Hr & Ha). pose proof (cpu_reachable _ _ sample_powered Hr) as Hok.
  assert (active_on (kproc k) 1 2) as A2.
  { split; [vm_compute; split; [congruence|reflexivity]|]. rewrite Ha. vm_compute. reflexivity. }
  assert (pcb_addr (esp0_of_pid 2 - 64) = pcb_of_pid 2) as He by (vm_compute; reflexivity).
  destruct (quiet_handler sample_frame 0 k (Pit 11931 0) 1 2 (esp0_of_pid 2 - 64) 7 Hok He eq_refl A2)
    as (_ & _ & k1 & P1 & _ & _ & _ & Hs).
  unfold next_terminal, active_of in Hs. rewrite Ha in Hs.
  destruct Hs as (E1 & _ & _ & Q1 & _).
  set (c1 := Cpu k1 (Pit 11931 0) (Some 1)).
  assert (orderly_step (Cpu k (Pit 11931 0) (Some 2)) c1) as S1
    by exact (orderly_other _ _ (cpu_tick_switch k (Pit 11931 0) 2 _ 7 sample_frame 0 _ k1 1 He E1 Q1)).
  pose proof (proj1 (orderly_step_ok _ _ Hok S1)) as Hok1.
  assert (active_on (kproc k1) 0 1) as A1.
  { split; [vm_compute; split; [congruence|reflexivity]|]. rewrite P1, Ha. vm_compute. reflexivity. }
  destruct (quiet_handler sample_frame 0 k1 (Pit 11931 0) 0 1 (esp0_of_pid 1) 0 Hok1
    ltac:(vm_compute; reflexivity) eq_refl A1) as (_ & _ & k2 & _ & _ & _ & _ & Hs).
  unfold next_terminal, active_of in Hs. rewrite P1, Ha in Hs.
  destruct Hs as (E2 & _ & _ & Q2 & _).
  set (c2 := Cpu k2 (Pit 11931 0) (Some 2)).
  assert (orderly_step c1 c2) as S2
    by exact (orderly_other _ _ (cpu_tick_switch k1 (Pit 11931 0) 1 (esp0_of_pid 1) 0 sample_frame 0 _ k2 2
        ltac:(vm_compute; reflexivity) E2 Q2)).
  exists c2. split; [eapply rtc_r; [eapply rtc_r; [exact Hr|exact S1]|exact S2]|]. split; [reflexivity|].
  destruct (preempted_process_resumes sample_cpu c1 c2 k (Pit 11931 0) 2 (esp0_of_pid 2 - 64) 7 sample_frame 0
    k1 1) as (H1 & H2 & _).
  - exact sample_powered.
  - exact Hr.
  - exact He.
  - reflexivity.
  - exact E1.
  - exact Q1.
  - apply rtc_refl.
  - exact S2.
  - reflexivity.
  - split; [exact H1|exact H2].
Defined.

Lemma active_process_runs_witness :
  ∃ c c' : cpu pc, rtc orderly_step sample_cpu c ∧ crun c = Some 2 ∧ rtc quiet_tick c c' ∧ crun c' = Some 1.
Proof.
  destruct sample_two as (k & Hr & Ha). exists (Cpu k (Pit 11931 0) (Some 2)).
  destruct (active_process_runs sample_cpu (Cpu k (Pit 11931 0) (Some 2)) 2 0 1) as ((c3 & H3) & Hn).
  - exact sample_powered.
  - exact Hr.
  - reflexivity.
  - reflexivity.
  - split; [vm_compute; split; [congruence|reflexivity]|]. cbn [ck]. rewrite Ha. vm_compute. reflexivity.
  - discriminate.
  - destruct (Hn c3 H3) as (n & c' & _ & Hc & _ & R). exists c'. split; [exact Hr|]. split; [reflexivity|].
    split; [exact (rtc_nsteps_2 _ _ _ Hc)|exact R].
Defined.
