(* ===== verification/Boot.v ===== *)
(** * kernel.c, multiboot.h, x86_desc.h: from the boot loader to the first shell

    What [entry] reads from the multiboot structures and prints, the
    descriptors it builds, the order in which it starts the parts of the
    kernel, and the state it leaves for the first program.  A call of [printf]
    is the text it prints ([Format.printf_prints]). *)
From Stdlib Require Import Ascii String.
From S2P Require Import Prelude CMem LibString Ports I8259 Screen Format Process FileSys Paging Idt Rtc.
From S2P Require Import KeyTable Keyboard Kernel SysCalls Exec Isr Pit Lifecycle Sched.

Definition MULTIBOOT_BOOTLOADER_MAGIC := 0x2BADB002.

(** ** Segment descriptors *)

Record seg_desc := SegDesc {
  seg_lim_15_00 : Z; base_15_00 : Z; base_23_16 : Z; seg_type : Z; sys : Z; seg_dpl : Z;
  seg_present : Z; seg_lim_19_16 : Z; avail : Z; reserved : Z; opsize : Z; granularity : Z;
  base_31_24 : Z }.

(** The macros [SET_LDT_PARAMS] and [SET_TSS_PARAMS], whose bodies agree. *)
Definition SET_PARAMS (str : seg_desc) (addr lim : Z) : seg_desc :=
  SegDesc (u16 (Z.land lim 0x0000FFFF)) (u16 (Z.land (u32 addr) 0x0000FFFF))
    (u8 (Z.shiftr (Z.land (u32 addr) 0x00FF0000) 16)) (seg_type str) (sys str) (seg_dpl str)
    (seg_present str) (Z.shiftr (Z.land lim 0x000F0000) 16 `mod` 16) (avail str) (reserved str)
    (opsize str) (granularity str) (u8 (Z.shiftr (Z.land (u32 addr) 0xFF000000) 24)).
Definition SET_LDT_PARAMS := SET_PARAMS.
Definition SET_TSS_PARAMS := SET_PARAMS.

(** [tss_size] and [ldt_size] of x86_desc.S. *)
Definition tss_size := TSS_SIZE - 1.
Definition ldt_size := 4 * 8 - 1.

(** The blocks of [entry] that build the two descriptors, from a local whose
    fields are not initialised. *)
Definition make_ldt_desc (junk : seg_desc) (ldt : Z) : seg_desc :=
  let d := SegDesc (seg_lim_15_00 junk) (base_15_00 junk) (base_23_16 junk) 0x2 0 0x0 1
             (seg_lim_19_16 junk) 0 0 1 0 (base_31_24 junk) in
  SET_LDT_PARAMS d ldt ldt_size.
Definition make_tss_desc (junk : seg_desc) (tss : Z) : seg_desc :=
  let d := SegDesc (u16 (Z.land TSS_SIZE 0x0000FFFF)) (base_15_00 junk) (base_23_16 junk) 0x9 0 0x0 1
             (Z.land TSS_SIZE 0x000F0000 `mod` 16) 0 0 0 0 (base_31_24 junk) in
  SET_TSS_PARAMS d tss tss_size.

(** ** The machine while it boots *)

(** The kernel's state, and what only booting changes: the static screen, the
    two descriptors of the GDT, the LDT selector of the TSS, the registers LDTR
    and TR, whether IDTR is loaded, the IDT, the table of interrupt handlers
    and the timer's globals. *)
Record machine {D : Type} := Machine {
  mk : kernel D; mlib : screen_t; ldt_desc_ptr : seg_desc; tss_desc_ptr : seg_desc;
  ldt_segment_selector : Z; ldtr : Z; tr : Z; idtr_loaded : bool; midt : idt_t;
  mirqs : list irq_handler; mpit : pit_state }.
Arguments machine : clear implicits.
#[global] Arguments Machine {_} _ _ _ _ _ _ _ _ _ _ _.

Section updates.
Context {D : Type}.
Definition with_kernel (k : kernel D) (c : machine D) : machine D :=
  Machine k (mlib c) (ldt_desc_ptr c) (tss_desc_ptr c) (ldt_segment_selector c) (ldtr c) (tr c)
    (idtr_loaded c) (midt c) (mirqs c) (mpit c).
Definition with_screen (m : mem) (st : screen_t) (c : machine D) : machine D :=
  Machine (set_kmem m (mk c)) st (ldt_desc_ptr c) (tss_desc_ptr c) (ldt_segment_selector c) (ldtr c)
    (tr c) (idtr_loaded c) (midt c) (mirqs c) (mpit c).

(** One call of [printf]. *)
Definition say (ps : list piece) (c : machine D) : machine D :=
  let '(m, st) := foldl (λ r ch, putc ch r.1 r.2) (kmem (mk c), mlib c) (output_of ps) in
  with_screen m st c.
Definition clear_screen (c : machine D) : machine D :=
  let '(m, st) := clear (kmem (mk c)) (mlib c) in with_screen m st c.
Definition text (s : string) : list piece := Lit <$> chars s.
Definition nl : list piece := [Lit 10].

(** Field offsets of [multiboot_info_t], [module_t] and [memory_map_t]. *)
Definition mbi_field (c : machine D) (mbi ofs : Z) : Z := load32 (kmem (mk c)) (mbi + ofs).
Definition CHECK_FLAG (flags bit : Z) : bool := Z.testbit flags bit.

(** The first bytes of a module. *)
Definition print_bytes (start : Z) (c : machine D) : machine D :=
  for_z 0 16 (λ i c, say (text "0x" ++ [Hex (u32 (s8 (mget (kmem (mk c)) (u32 (start + i)))))] ++ text " ") c) c.

(** [None]: the count changed while it was printed. *)
Fixpoint print_modules (fuel : nat) (mbi mod_count module : Z) (c : machine D) : option (machine D) :=
  match fuel with
  | O => None
  | S fuel =>
      if mod_count <? mbi_field c mbi 20 then
        let c := say (text "Module " ++ [Sgn mod_count] ++ text " loaded at address: 0x"
                        ++ [Hex8 (mbi_field c module 0)] ++ nl) c in
        let c := say (text "Module " ++ [Sgn mod_count] ++ text " ends at address: 0x"
                        ++ [Hex8 (mbi_field c module 4)] ++ nl) c in
        let c := say (text "First few bytes of module:" ++ nl) c in
        let c := print_bytes (mbi_field c module 0) c in
        let c := say nl c in
        print_modules fuel mbi (mod_count + 1) (u32 (module + 16)) c
      else Some c
  end.

(** [None]: an entry whose size steps back. *)
Fixpoint print_mmap (fuel : nat) (mbi mmap : Z) (c : machine D) : option (machine D) :=
  match fuel with
  | O => None
  | S fuel =>
      if mmap <? u32 (mbi_field c mbi 48 + mbi_field c mbi 44) then
        let f := mbi_field c mmap in
        let c := say (text " size = 0x" ++ [Hex (f 0)] ++ text ",     base_addr = 0x"
                   ++ [Hex8 (f 8); Hex8 (f 4)] ++ nl ++ text "     type = 0x" ++ [Hex (f 20)]
                   ++ text ",  length    = 0x" ++ [Hex8 (f 16); Hex8 (f 12)] ++ nl) c in
        print_mmap fuel mbi (u32 (mmap + mbi_field c mmap 0 + 4)) c
      else Some c
  end.

(** The string [printf] reads for "%s". *)
Definition string_at (m : mem) (a : Z) : list Z := load_bytes m a (Z.to_nat (strlen m a)).

(** [entry] up to the descriptors: [Some (false, c)] is one of its early
    returns. *)
Definition entry_info (magic addr : Z) (c : machine D) : option (bool * machine D) :=
  let c := clear_screen c in
  if negb (u32 magic =? MULTIBOOT_BOOTLOADER_MAGIC) then
    Some (false, say (text "Invalid magic number: 0x" ++ [Hex8 (u32 magic)] ++ nl) c)
  else
    let mbi := u32 addr in
    let fld := λ c ofs, mbi_field c mbi ofs in
    let c := say (text "flags = 0x" ++ [Hex8 (fld c 0)] ++ nl) c in
    let c := if CHECK_FLAG (fld c 0) 0 then
        say (text "mem_lower = " ++ [Uns (fld c 4)] ++ text "KB, mem_upper = " ++ [Uns (fld c 8)]
               ++ text "KB" ++ nl) c else c in
    let c := if CHECK_FLAG (fld c 0) 1 then
        say (text "boot_device = 0x" ++ [Hex8 (fld c 12)] ++ nl) c else c in
    let c := if CHECK_FLAG (fld c 0) 2 then
        say (text "cmdline = " ++ [Str (fld c 16) (string_at (kmem (mk c)) (fld c 16))] ++ nl) c else c in
    match (if CHECK_FLAG (fld c 0) 3
           then print_modules (S (Z.to_nat (fld c 20))) mbi 0 (fld c 24) c else Some c) with
    | None => None
    | Some c =>
        if CHECK_FLAG (fld c 0) 4 && CHECK_FLAG (fld c 0) 5 then
          Some (false, say (text "Both bits 4 and 5 are set." ++ nl) c)
        else
          let c := if CHECK_FLAG (fld c 0) 5 then
              say (text "elf_sec: num = " ++ [Uns (fld c 28)] ++ text ", size = 0x" ++ [Hex8 (fld c 32)]
                     ++ text ", addr = 0x" ++ [Hex8 (fld c 36)] ++ text ", shndx = 0x"
                     ++ [Hex8 (fld c 40)] ++ nl) c else c in
          if CHECK_FLAG (fld c 0) 6 then
            let c := say (text "mmap_addr = 0x" ++ [Hex8 (fld c 48)] ++ text ", mmap_length = 0x"
                            ++ [Hex (fld c 44)] ++ nl) c in
            match print_mmap (S (Z.to_nat (fld c 44))) mbi (fld c 48) c with
            | None => None
            | Some c => Some (true, c)
            end
          else Some (true, c)
    end.
End updates.

Section entry.
Context {D : Type} `{Board D} `{Layout} `{Mmu}.

(** The addresses of [ldt], [tss] and the stubs, the uninitialised locals, the
    literal "shell" and the stack [execute] gets. *)
Record boot_layout := BootLayout {
  ldt_addr : Z; tss_addr : Z; stub_addr : stub → Z; junk_ldt : seg_desc; junk_tss : seg_desc;
  shell_addr : Z; shell_frame : exec_frame }.

(** The blocks that fill in the LDT and TSS entries and load LDTR and TR. *)
Definition init_segments (b : boot_layout) (c : machine D) : machine D :=
  Machine (set_ktss 0x800000 KERNEL_DS (mk c)) (mlib c) (make_ldt_desc (junk_ldt b) (ldt_addr b))
    (make_tss_desc (junk_tss b) (tss_addr b)) KERNEL_LDT KERNEL_LDT KERNEL_TSS (idtr_loaded c) (midt c)
    (mirqs c) (mpit c).

(** [i8259_init], [fs_init], [virtualmem_init]. *)
Definition init_memory (mods_addr : Z) (c : machine D) : machine D :=
  let k := set_kdev (i8259_init (kdev (mk c))) (mk c) in
  let '(bootblock, ps) := fs_init mods_addr (kmem k) (kproc k) in
  let k := Kernel (kmem k) ps (kpcbs k) (kkbd k) (krtc k) (kvm k) (kesp k) (kebp k) (ktss_esp0 k)
             (ktss_ss0 k) bootblock (kdev k) in
  let v := virtualmem_init (kvm k) in
  with_kernel (set_kmem (remap (cr3 v) (kmem k)) (set_kvm v k)) c.

(** [isrs_install], [kybd_init], [rtc_init], [pit_init]. *)
Definition init_devices (b : boot_layout) (c : machine D) : machine D :=
  let k := mk c in
  let '(idt, irqs) := isrs_install (stub_addr b) (midt c) (mirqs c) in
  let '(irqs, ps, kb, d) := kybd_init irqs (kproc k) (mlib c) (kkbd k) (kdev k) in
  let '(irqs, ps, r) := rtc_init irqs ps (krtc k) in
  let '(irqs, s, d) := pit_init irqs (mpit c) d in
  let k := Kernel (kmem k) ps (kpcbs k) kb r (kvm k) (kesp k) (kebp k) (ktss_esp0 k) (ktss_ss0 k)
             (kboot k) d in
  Machine k (mlib c) (ldt_desc_ptr c) (tss_desc_ptr c) (ldt_segment_selector c) (ldtr c) (tr c)
    (idtr_loaded c) idt irqs s.

(** [lidt]. *)
Definition lidt (c : machine D) : machine D :=
  Machine (mk c) (mlib c) (ldt_desc_ptr c) (tss_desc_ptr c) (ldt_segment_selector c) (ldtr c) (tr c) true
    (midt c) (mirqs c) (mpit c).

(** How [entry] ends: it returns early, waits in [hlt] for ever, or is in the
    loop that executes the shell, which enters it (or faults) or still tries;
    [c] is the machine when that loop begins. *)
Inductive boot_end :=
  | Boot_returns (c : machine D)
  | Boot_waits (c : machine D)
  | Boot_shell (r : outcome D + kernel D) (c : machine D)
  | Boot_stuck.

(** [while(1) execute(shell)], for at most [fuel] attempts. *)
Fixpoint shell_loop (fuel : nat) (f : exec_frame) (command : Z) (k : kernel D) : outcome D + kernel D :=
  match fuel with
  | O => inr k
  | S fuel => match execute f command k with Ret _ k => shell_loop fuel f command k | o => inl o end
  end.

(** From the message "Enabling Interrupts" on. *)
Definition entry_start (fuel : nat) (b : boot_layout) (c : machine D) : boot_end :=
  let c := say (text "Enabling Interrupts" ++ nl) c in
  let c := with_kernel (set_kdev (sti (kdev (mk c))) (mk c)) c in
  let c := clear_screen c in
  let k := mk c in
  match start_terminal 0 (kkbd k) (kproc k) (kdev k) with
  | None => Boot_stuck
  | Some (_, kb, d, act) =>
      let k := set_kdev d (set_kkbd kb k) in
      match act with
      | Ta_execute_shell => Boot_shell (shell_loop fuel (shell_frame b) (shell_addr b) k) (with_kernel k c)
      | _ => Boot_waits (with_kernel k c)
      end
  end.

Definition entry (fuel : nat) (b : boot_layout) (magic addr : Z) (c : machine D) : boot_end :=
  match entry_info magic addr c with
  | None => Boot_stuck
  | Some (false, c) => Boot_returns c
  | Some (true, c) =>
      let c := init_segments b c in
      let c := init_memory (mbi_field c (u32 addr) 24) c in
      let c := init_devices b c in
      let c := lidt c in
      entry_start fuel b c
  end.
End entry.

(** ** The descriptors, as the processor reads them *)

(** The eight bytes of a descriptor. *)
Definition seg_encode (d : seg_desc) : Z :=
  seg_lim_15_00 d + 2 ^ 16 * base_15_00 d + 2 ^ 32 * base_23_16 d + 2 ^ 40 * seg_type d + 2 ^ 44 * sys d
  + 2 ^ 45 * seg_dpl d + 2 ^ 47 * seg_present d + 2 ^ 48 * seg_lim_19_16 d + 2 ^ 52 * avail d
  + 2 ^ 53 * reserved d + 2 ^ 54 * opsize d + 2 ^ 55 * granularity d + 2 ^ 56 * base_31_24 d.
Record segment := Segment { s_base : Z; s_limit : Z; s_type : Z; s_system : bool; s_dpl : Z; s_present : bool }.
Definition segment_of (w : Z) : segment :=
  Segment ((w `div` 2 ^ 16) `mod` 2 ^ 24 + 2 ^ 24 * ((w `div` 2 ^ 56) `mod` 2 ^ 8))
    (w `mod` 2 ^ 16 + 2 ^ 16 * ((w `div` 2 ^ 48) `mod` 2 ^ 4)) ((w `div` 2 ^ 40) `mod` 2 ^ 4)
    (bool_decide ((w `div` 2 ^ 44) `mod` 2 = 0)) ((w `div` 2 ^ 45) `mod` 4)
    (bool_decide ((w `div` 2 ^ 47) `mod` 2 = 1)).

Definition seg_ok (d : seg_desc) : Prop :=
  word16 (seg_lim_15_00 d) ∧ word16 (base_15_00 d) ∧ word8 (base_23_16 d) ∧ 0 ≤ seg_type d < 16 ∧
  0 ≤ sys d < 2 ∧ 0 ≤ seg_dpl d < 4 ∧ 0 ≤ seg_present d < 2 ∧ 0 ≤ seg_lim_19_16 d < 16 ∧
  0 ≤ avail d < 2 ∧ 0 ≤ reserved d < 2 ∧ 0 ≤ opsize d < 2 ∧ 0 ≤ granularity d < 2 ∧ word8 (base_31_24 d).

Lemma segment_of_encode d :
  seg_ok d →
  segment_of (seg_encode d) =
    Segment (base_15_00 d + 65536 * base_23_16 d + 16777216 * base_31_24 d)
      (seg_lim_15_00 d + 65536 * seg_lim_19_16 d) (seg_type d) (bool_decide (sys d = 0)) (seg_dpl d)
      (bool_decide (seg_present d = 1)).
Proof.
  destruct d as [a b c d e f g h i j k l m]. unfold seg_ok, segment_of, seg_encode. simpl.
  intros (?&?&?&?&?&?&?&?&?&?&?&?&?).
  f_equal; try lia; apply bool_decide_ext; lia.
Qed.

Lemma set_params_spec str addr lim :
  0 ≤ lim < 2 ^ 20 → 0 ≤ seg_type str < 16 → 0 ≤ sys str < 2 → 0 ≤ seg_dpl str < 4 →
  0 ≤ seg_present str < 2 → 0 ≤ avail str < 2 → 0 ≤ reserved str < 2 → 0 ≤ opsize str < 2 →
  0 ≤ granularity str < 2 →
  segment_of (seg_encode (SET_PARAMS str addr lim))
  = Segment (u32 addr) lim (seg_type str) (bool_decide (sys str = 0)) (seg_dpl str)
      (bool_decide (seg_present str = 1)).
Proof.
  intros Hl. intros. pose proof (u32_range addr) as Hr.
  assert (Z.land lim 0x0000FFFF = lim `mod` 65536) as E1
    by (change 0x0000FFFF with (2 ^ 16 - 1); by rewrite land_low).
  assert (Z.land (u32 addr) 0x0000FFFF = u32 addr `mod` 65536) as E2
    by (change 0x0000FFFF with (2 ^ 16 - 1); by rewrite land_low).
  assert (∀ x a n, 0 ≤ x → 0 ≤ a → 0 ≤ n →
    Z.shiftr (Z.land x (Z.shiftl (2 ^ n - 1) a)) a = (x `div` 2 ^ a) `mod` 2 ^ n) as Hf.
  { intros x a n Hx Ha Hn. rewrite Z.shiftr_land, Z.shiftr_shiftl_l, Z.sub_diag, Z.shiftl_0_r by lia.
    by rewrite land_low, Z.shiftr_div_pow2 by lia. }
  pose proof (Hf (u32 addr) 16 8 ltac:(lia) ltac:(lia) ltac:(lia)) as E3.
  pose proof (Hf (u32 addr) 24 8 ltac:(lia) ltac:(lia) ltac:(lia)) as E4.
  pose proof (Hf lim 16 4 ltac:(lia) ltac:(lia) ltac:(lia)) as E5.
  change (Z.shiftl (2 ^ 8 - 1) 16) with 0x00FF0000 in E3. change (Z.shiftl (2 ^ 8 - 1) 24) with 0xFF000000 in E4.
  change (Z.shiftl (2 ^ 4 - 1) 16) with 0x000F0000 in E5.
  unfold SET_PARAMS. rewrite E1, E2, E3, E4, E5.
  rewrite !(u16_small (_ `mod` 65536)) by (apply Z.mod_pos_bound; lia).
  rewrite !(u8_small (_ `mod` 2 ^ 8)) by (apply Z.mod_pos_bound; lia).
  rewrite segment_of_encode.
  - cbn [base_15_00 base_23_16 base_31_24 seg_lim_15_00 seg_lim_19_16 seg_type sys seg_dpl seg_present].
    f_equal; lia.
  - unfold seg_ok. cbn [base_15_00 base_23_16 base_31_24 seg_lim_15_00 seg_lim_19_16 seg_type sys seg_dpl
      seg_present avail reserved opsize granularity]. repeat split; lia.
Qed.

(** ** Printing touches memory and the screen only *)

Section printing.
Context {D : Type}.
Implicit Types c : machine D.

Definition only_printed c c' : Prop :=
  ∃ m st, c' = with_screen m st c ∧ video_mem st = video_mem (mlib c).

Lemma with_screen_id c : with_screen (kmem (mk c)) (mlib c) c = c.
Proof. by destruct c as [[] ? ? ? ? ? ? ? ? ? ?]. Qed.
Lemma only_printed_refl c : only_printed c c.
Proof. exists (kmem (mk c)), (mlib c). by rewrite with_screen_id. Qed.
Lemma only_printed_trans c1 c2 c3 : only_printed c1 c2 → only_printed c2 c3 → only_printed c1 c3.
Proof.
  intros (m1 & s1 & -> & E1) (m2 & s2 & -> & E2). exists m2, s2.
  destruct c1 as [[] ? ? ? ? ? ? ? ? ? ?]. split; [done|]. simpl in *. congruence.
Qed.

Lemma putc_video ch m st : video_mem (putc ch m st).2 = video_mem st.
Proof. unfold putc. destruct st. repeat case_match; done. Qed.
Lemma say_printed ps c : only_printed c (say ps c).
Proof.
  unfold say. assert (∀ l r, video_mem (foldl (λ r ch, putc ch r.1 r.2) r l).2 = video_mem (r : mem * screen_t).2) as Hv.
  { induction l as [|ch l IH]; intros r; [done|]. simpl. rewrite IH. apply putc_video. }
  pose proof (Hv (output_of ps) (kmem (mk c), mlib c)) as E. destruct (foldl _ _ _) as [m st]. exists m, st.
  done.
Qed.
Lemma clear_printed c : only_printed c (clear_screen c).
Proof. unfold clear_screen, clear. eexists _, _. done. Qed.
Lemma print_bytes_printed a c : only_printed c (print_bytes a c).
Proof.
  unfold print_bytes. apply (for_z_ind (λ _ c', only_printed c c')); [lia|apply only_printed_refl|].
  intros i c' _ Hc. eapply only_printed_trans; [exact Hc|apply say_printed].
Qed.
Lemma print_modules_printed fuel mbi n md c c' :
  print_modules fuel mbi n md c = Some c' → only_printed c c'.
Proof.
  revert n md c. induction fuel as [|fuel IH]; intros n md c; [done|]. cbn [print_modules].
  case_match; [|intros [= <-]; apply only_printed_refl]. cbv zeta. intros E. apply IH in E.
  do 3 (eapply only_printed_trans; [apply say_printed|]).
  eapply only_printed_trans; [apply print_bytes_printed|].
  eapply only_printed_trans; [apply say_printed|]. exact E.
Qed.
Lemma print_mmap_printed fuel mbi a c c' : print_mmap fuel mbi a c = Some c' → only_printed c c'.
Proof.
  revert a c. induction fuel as [|fuel IH]; intros a c; [done|]. cbn [print_mmap].
  case_match; [|intros [= <-]; apply only_printed_refl]. cbv zeta. intros E. apply IH in E.
  eapply only_printed_trans; [apply say_printed|exact E].
Qed.

Lemma say_if_printed (b : bool) ps c c0 :
  only_printed c0 c → only_printed c0 (if b then say ps c else c).
Proof. intros Hc. destruct b; [|done]. eapply only_printed_trans; [exact Hc|apply say_printed]. Qed.

Lemma entry_info_printed magic addr c b c' : entry_info magic addr c = Some (b, c') → only_printed c c'.
Proof.
  unfold entry_info. cbv zeta. destruct (negb _).
  { intros [= _ <-]. eapply only_printed_trans; [apply clear_printed|apply say_printed]. }
  set (c1 := say _ (clear_screen c)).
  assert (only_printed c c1) as H1 by (eapply only_printed_trans; [apply clear_printed|apply say_printed]).
  clearbody c1. set (c2 := if CHECK_FLAG (mbi_field c1 _ 0) 0 then _ else _).
  pose proof (say_if_printed _ _ _ _ H1 : only_printed c c2) as H2. clearbody c2.
  set (c3 := if CHECK_FLAG (mbi_field c2 _ 0) 1 then _ else _).
  pose proof (say_if_printed _ _ _ _ H2 : only_printed c c3) as H3. clearbody c3.
  set (c4 := if CHECK_FLAG (mbi_field c3 _ 0) 2 then _ else _).
  pose proof (say_if_printed _ _ _ _ H3 : only_printed c c4) as H4. clearbody c4.
  destruct (if CHECK_FLAG _ 3 then _ else _) as [c5|] eqn:E5; [|done].
  assert (only_printed c c5) as H5.
  { destruct (CHECK_FLAG _ 3); [|injection E5 as <-; exact H4].
    eapply only_printed_trans; [exact H4|]. by eapply print_modules_printed. }
  clear E5. destruct (_ && _).
  { intros [= _ <-]. eapply only_printed_trans; [exact H5|apply say_printed]. }
  set (c6 := if CHECK_FLAG (mbi_field c5 _ 0) 5 then _ else _).
  pose proof (say_if_printed _ _ _ _ H5 : only_printed c c6) as H6. clearbody c6.
  destruct (CHECK_FLAG _ 6); [|by intros [= _ <-]].
  destruct (print_mmap _ _ _ _) as [c7|] eqn:E7; [|done]. intros [= _ <-].
  eapply only_printed_trans; [exact H6|]. eapply only_printed_trans; [apply say_printed|].
  by eapply print_mmap_printed.
Qed.
End printing.

(** ** The state the first shell starts in *)

Section boot.
Context {D : Type} `{Board D} `{Layout} `{Mmu}.
Implicit Types c : machine D.

(** The globals as the boot loader leaves them; devices and memory are in any
    state. *)
Record loaded_machine c : Prop := {
  lm_proc : kproc (mk c) = proc_statics; lm_kbd : kkbd (mk c) = kbd_statics;
  lm_rtc : krtc (mk c) = rtc_statics; lm_vm : kvm (mk c) = vm_statics;
  lm_screen : video_mem (mlib c) = VIDEO; lm_pit : mpit c = pit_statics;
  lm_idtr : idtr_loaded c = false; lm_irqs : length (mirqs c) = 16%nat }.

Lemma loaded_printed c c' : only_printed c c' → loaded_machine c → loaded_machine c'.
Proof. intros (m & st & -> & E) []. split; try done. simpl. congruence. Qed.

Lemma vga_if t s n a d : hw_if (obs (move_cursor t s n (set_vga_start a d))) = hw_if (obs d).
Proof.
  unfold move_cursor, set_vga_start. change (VGA_BASE + 1) with 0x3D5. change VGA_BASE with 0x3D4. by hw_step.
Qed.

Lemma install_irqs b idt irqs :
  length irqs = 16%nat → (isrs_install (stub_addr b) idt irqs).2 = replicate 16 irq_handler_default.
Proof. intros Hl. unfold isrs_install. cbn [snd]. by apply (for_z_fill_list irqs 16). Qed.

(** The drivers' start-up: handlers, tables and interrupt lines. *)
Definition driver_table : list irq_handler :=
  [pit_handler; keyboard_handler] ++ replicate 6 irq_handler_default ++ [rtc_handler]
  ++ replicate 7 irq_handler_default.

(** The stages one by one. *)
Lemma init_segments_spec b c :
  let c' := init_segments b c in
  (loaded_machine c → loaded_machine c') ∧ kmem (mk c') = kmem (mk c) ∧ kdev (mk c') = kdev (mk c) ∧
  (ktss_esp0 (mk c'), ktss_ss0 (mk c')) = (0x800000, KERNEL_DS).
Proof. split; [by intros []; split|done]. Qed.

Lemma init_memory_spec mods c :
  let c' := init_memory mods c in
  let k := mk c in let k' := mk c' in
  kproc k' = (fs_init mods (kmem k) (kproc k)).2 ∧ kkbd k' = kkbd k ∧ krtc k' = krtc k ∧
  kvm k' = virtualmem_init (kvm k) ∧ kboot k' = load32 (kmem k) mods ∧
  (ktss_esp0 k', ktss_ss0 k') = (ktss_esp0 k, ktss_ss0 k) ∧ kdev k' = i8259_init (kdev k) ∧
  mlib c' = mlib c ∧ mpit c' = mpit c ∧ mirqs c' = mirqs c ∧ idtr_loaded c' = idtr_loaded c.
Proof. split_and!; reflexivity. Qed.

Lemma init_devices_spec b c idt irqs irqs1 ps kb d irqs2 ps2 r irqs3 s d2 :
  let k := mk c in let c' := init_devices b c in let k' := mk c' in
  isrs_install (stub_addr b) (midt c) (mirqs c) = (idt, irqs) →
  kybd_init irqs (kproc k) (mlib c) (kkbd k) (kdev k) = (irqs1, ps, kb, d) →
  rtc_init irqs1 ps (krtc k) = (irqs2, ps2, r) → pit_init irqs2 (mpit c) d = (irqs3, s, d2) →
  kproc k' = ps2 ∧ kkbd k' = kb ∧ kvm k' = kvm k ∧ kboot k' = kboot k ∧
  (ktss_esp0 k', ktss_ss0 k') = (ktss_esp0 k, ktss_ss0 k) ∧ kdev k' = d2 ∧
  mlib c' = mlib c ∧ mpit c' = s ∧ mirqs c' = irqs3 ∧ idtr_loaded c' = idtr_loaded c.
Proof.
  intros k c' k' E1 E2 E3 E4. unfold k', c', init_devices. cbv zeta. fold k. rewrite E1, E2, E3, E4.
  split_and!; reflexivity.
Qed.

Lemma init_spec b mods c :
  loaded_machine c →
  let c' := init_devices b (init_memory mods (init_segments b c)) in
  kproc (mk c') = boot_proc ∧ current_terminal (kkbd (mk c')) = -1 ∧
  terminals (kkbd (mk c')) = replicate 3 (Term (Screen 0 0 VIDEO) (replicate 128 0) 0 0 0 0) ∧
  kvm (mk c') = virtualmem_init vm_statics ∧ kboot (mk c') = load32 (kmem (mk c)) mods ∧
  (ktss_esp0 (mk c'), ktss_ss0 (mk c')) = (0x800000, KERNEL_DS) ∧
  mpit c' = Pit 11931 0 ∧ mirqs c' = driver_table ∧ idtr_loaded c' = false ∧
  pics_ready (obs (kdev (mk c'))) ∧ hw_if (obs (kdev (mk c'))) = true ∧
  ∀ j, 0 ≤ j < 16 → irq_masked (obs (kdev (mk c'))) j = negb (bool_decide (j = 0 ∨ j = 1)).
Proof.
  intros Hl c'. destruct (init_segments_spec b c) as (Hl1 & Hm1 & Hd1 & Ht1). specialize (Hl1 Hl).
  set (c1 := init_segments b c) in *. destruct Hl1 as [L1 L2 L3 L4 L5 L6 L7 L8].
  destruct (init_memory_spec mods c1) as (A1 & A2 & A3 & A4 & A5 & A6 & A7 & A8 & A9 & A10 & A11).
  set (c2 := init_memory mods c1) in *. clearbody c1 c2.
  pose proof (install_irqs b (midt c2) (mirqs c2) ltac:(by rewrite A10)) as Hinst.
  destruct (isrs_install (stub_addr b) (midt c2) (mirqs c2)) as [idt irqs] eqn:E1. cbn [snd] in Hinst. subst irqs.
  destruct (kybd_init (replicate 16 irq_handler_default) (kproc (mk c2)) (mlib c2) (kkbd (mk c2)) (kdev (mk c2)))
    as [[[irqs1 ps] kb] d] eqn:E2.
  destruct (rtc_init irqs1 ps (krtc (mk c2))) as [[irqs2 ps2] r] eqn:E3.
  destruct (pit_init irqs2 (mpit c2) d) as [[irqs3 s] d2] eqn:E4.
  destruct (init_devices_spec b c2 _ _ _ _ _ _ _ _ _ _ _ _ E1 E2 E3 E4)
    as (B1 & B2 & B3 & B4 & B5 & B6 & B7 & B8 & B9 & B10).
  subst c'. rewrite B1, B2, B3, B4, B5, B6, B8, B9, B10.
  unfold kybd_init in E2. injection E2 as <- <- <- <-. unfold rtc_init in E3. injection E3 as <- <- <-.
  destruct (pic_init_and_eoi (kdev (mk c1))) as [(R1 & _ & _ & M1) _]. rewrite <- A7 in R1, M1.
  destruct (irq_rmw_spec _ _ KEYBOARD_IRQ_NUM (kdev (mk c2)) clear_forces_bit ltac:(unfold KEYBOARD_IRQ_NUM; lia) R1)
    as (R2 & _ & _ & M2). rewrite <- enable_irq_rmw in R2, M2.
  match type of E4 with pit_init ?l _ ?d = _ =>
    pose proof (pit_init_spec l (mpit c2) d ltac:(reflexivity) R2) as Hp end.
  rewrite E4 in Hp. destruct Hp as (-> & -> & R3 & F3 & M3). rewrite A9, L6.
  split; [by rewrite A1, L1|]. split; [by rewrite A2, L2|]. split; [by rewrite A2, L2, A8; unfold get_video_mem; rewrite L5|].
  split; [by rewrite A4, L4|]. split; [by rewrite A5, Hm1|]. split; [by rewrite A6|]. split; [done|].
  split; [done|]. split; [by rewrite A11|]. split; [done|]. split; [done|].
  intros j Hj. rewrite M3, M2, M1 by done. unfold KEYBOARD_IRQ_NUM.
  destruct (decide (j = 0)); [by rewrite !bool_decide_true by auto|].
  rewrite bool_decide_false by done. destruct (decide (j = 1)).
  - by rewrite !bool_decide_true by auto.
  - rewrite !bool_decide_false; [done|lia|lia].
Qed.

Lemma printed_fields c c' :
  only_printed c c' →
  kproc (mk c') = kproc (mk c) ∧ kkbd (mk c') = kkbd (mk c) ∧ kvm (mk c') = kvm (mk c) ∧
  kboot (mk c') = kboot (mk c) ∧ (ktss_esp0 (mk c'), ktss_ss0 (mk c')) = (ktss_esp0 (mk c), ktss_ss0 (mk c)) ∧
  kdev (mk c') = kdev (mk c) ∧ mpit c' = mpit c ∧ mirqs c' = mirqs c ∧ idtr_loaded c' = idtr_loaded c.
Proof. by intros (m & st & -> & _). Qed.

(** The empty terminals [kybd_init] leaves, and the first shell's request. *)
Definition blank_terminals : list terminal_t :=
  replicate 3 (Term (Screen 0 0 VIDEO) (replicate 128 0) 0 0 0 0).

Lemma first_terminal md (d : D) :
  start_terminal 0 (Kbd blank_terminals md (-1)) boot_proc d
  = Some (0, Kbd blank_terminals md 0,
          move_cursor 0 (Screen 0 0 VIDEO) PAGE_SIZE (set_vga_start (0 * PAGE_SIZE) d), Ta_execute_shell).
Proof.
  unfold start_terminal. change (u32 0) with 0. cbn [current_terminal].
  assert (free_procs boot_proc = true) as -> by (vm_compute; reflexivity). cbn [negb andb].
  replace (get_active_process 0 boot_proc) with (-1) by (symmetry; vm_compute; reflexivity).
  replace (get_active_process (-1) boot_proc) with (-1) by (symmetry; vm_compute; reflexivity).
  reflexivity.
Qed.

Lemma first_device (d : D) :
  let d' := move_cursor 0 (Screen 0 0 VIDEO) PAGE_SIZE (set_vga_start (0 * PAGE_SIZE) d) in
  hw_if (obs d') = hw_if (obs d) ∧ ∀ j, irq_masked (obs d') j = irq_masked (obs d) j.
Proof.
  intros d'. split; [apply vga_if|]. intros j. unfold irq_masked, d'.
  destruct (move_cursor_pics 0 (Screen 0 0 VIDEO) PAGE_SIZE (set_vga_start (0 * PAGE_SIZE) d)) as [-> ->].
  by destruct (set_vga_start_pics (0 * PAGE_SIZE) d) as [-> ->].
Qed.

(** The state in which [entry] executes the first shell; [v] is the paging
    state it has set up. *)
Record shell_ready (v : vm_state) (bootblock : Z) (k : kernel D) : Prop := {
  sr_proc : kproc k = boot_proc;
  sr_terms : terminals (kkbd k) = blank_terminals;
  sr_shown : current_terminal (kkbd k) = 0;
  sr_vm : kvm k = v;
  sr_boot : kboot k = bootblock;
  sr_tss : (ktss_esp0 k, ktss_ss0 k) = (0x800000, KERNEL_DS);
  sr_if : hw_if (obs (kdev k)) = true;
  sr_masks : ∀ j, 0 ≤ j < 16 → irq_masked (obs (kdev k)) j = negb (bool_decide (j = 0 ∨ j = 1)) }.

(** [lidt] and what follows it, up to the first [execute]. *)
Lemma entry_start_spec fuel b c v boot :
  kproc (mk c) = boot_proc → current_terminal (kkbd (mk c)) = -1 →
  terminals (kkbd (mk c)) = blank_terminals → kvm (mk c) = v → kboot (mk c) = boot →
  (ktss_esp0 (mk c), ktss_ss0 (mk c)) = (0x800000, KERNEL_DS) →
  (∀ j, 0 ≤ j < 16 → irq_masked (obs (kdev (mk c))) j = negb (bool_decide (j = 0 ∨ j = 1))) →
  ∃ k c', shell_ready v boot k ∧ mpit c' = mpit c ∧ mirqs c' = mirqs c ∧ idtr_loaded c' = idtr_loaded c ∧
    mk c' = k ∧ entry_start fuel b c = Boot_shell (shell_loop fuel (shell_frame b) (shell_addr b) k) c'.
Proof.
  intros P1 P2 P3 P4 P5 P6 P7. unfold entry_start. cbv zeta.
  set (c1 := say _ c). pose proof (say_printed (text "Enabling Interrupts" ++ nl) c) as Hp. fold c1 in Hp.
  apply printed_fields in Hp as (Q1 & Q2 & Q3 & Q4 & Q5 & Q6 & Q7 & Q8 & Q9). clearbody c1.
  rewrite <- Q1 in P1. rewrite <- Q2 in P2, P3. rewrite <- Q3 in P4. rewrite <- Q4 in P5.
  rewrite <- Q5 in P6. rewrite <- Q6 in P7. rewrite <- Q7, <- Q8, <- Q9. clear Q1 Q2 Q3 Q4 Q5 Q6 Q7 Q8 Q9 c.
  destruct c1 as [k1 st ld td sel l tt il idt irqs s]. cbn [mk mpit mirqs idtr_loaded] in *.
  set (c2 := with_kernel _ _).
  pose proof (clear_printed c2) as Hp. set (c3 := clear_screen c2) in *.
  apply printed_fields in Hp as (R1 & R2 & R3 & R4 & R5 & R6 & R7 & R8 & R9). clearbody c3.
  unfold c2, with_kernel in R1, R2, R3, R4, R5, R6, R7, R8, R9. clear c2.
  cbn [mk mpit mirqs idtr_loaded] in *. destruct k1 as [m ps pcbs kb r v1 esp ebp e0 s0 bb d].
  unfold set_kdev in *. cbn [kmem kproc kpcbs kkbd krtc kvm kesp kebp ktss_esp0 ktss_ss0 kboot kdev] in *.
  subst ps v1 bb. destruct kb as [terms md cur]. cbn [terminals current_terminal] in P2, P3. subst terms cur.
  rewrite R1, R2, R6, first_terminal.
  destruct (first_device (sti d)) as [F1 F2]. rewrite obs_sti in F1.
  eexists _, (with_kernel _ c3). cbn [with_kernel mk mpit mirqs idtr_loaded]. split; [|by rewrite R7, R8, R9].
  destruct c3 as [k3 ? ? ? ? ? ? ? ? ? ?]. cbn [mk] in *. destruct k3 as [m3 ps3 pcbs3 kb3 r3 v3 esp3 ebp3 e3 s3 b3 d3]. unfold set_kkbd.
  cbn [kmem kproc kpcbs kkbd krtc kvm kesp kebp ktss_esp0 ktss_ss0 kboot kdev] in *. subst.
  split; cbn [kmem kproc kpcbs kkbd krtc kvm kesp kebp ktss_esp0 ktss_ss0 kboot kdev]; try done.
  - by rewrite R5.
  - intros j Hj. rewrite F2, <- P7 by done. unfold irq_masked. by rewrite obs_sti.
Qed.

(** A wrong magic number stops [entry] before anything is set up. *)
Lemma entry_refuses fuel b magic addr c :
  u32 magic ≠ MULTIBOOT_BOOTLOADER_MAGIC → ∃ c1, entry fuel b magic addr c = Boot_returns c1 ∧ only_printed c c1.
Proof.
  intros Hm. assert (∃ c1, entry_info magic addr c = Some (false, c1)) as [c1 E].
  { unfold entry_info. cbv zeta. rewrite (proj2 (Z.eqb_neq _ _) Hm). by eexists. }
  exists c1. split; [unfold entry; by rewrite E|]. by eapply entry_info_printed.
Qed.

Lemma shell_powered v bb k s : shell_ready v bb k → powered (Cpu k s None).
Proof.
  intros []. unfold powered. cbn [ck crun]. rewrite sr_proc0. split; [|split; [|done]].
  - vm_compute. split; [reflexivity|split; reflexivity].
  - split; vm_compute; split_and?; done.
Qed.

(** The first shell is the first step of the model of the running machine. *)
Lemma shell_first_step v bb k s f command a u k' :
  shell_ready v bb k → execute f command k = Enter a u k' →
  orderly_step (Cpu k s None) (Cpu k' s (Some 1)) ∧ curr_terminal_running_process (kkbd k) (kproc k) = false.
Proof.
  intros Hr E. destruct Hr as [R1 _ R3 _ _ _ _ _].
  assert (curr_terminal_running_process (kkbd k) (kproc k) = false) as Hc.
  { unfold curr_terminal_running_process, get_current_terminal. rewrite R1, R3. vm_compute. reflexivity. }
  split; [|exact Hc].
  destruct (execute_enter f command k a u k' E) as (p & ps & Ep & Hp & Hen).
  assert (p = 1) as ->.
  { rewrite R1 in Ep. assert ((add_process boot_proc).1 = 1) as E1 by (vm_compute; reflexivity).
    rewrite Ep in E1. exact E1. }
  exists Ev_shell. split; [|by split]. refine (cpu_boot k s f command a u k' 1 Hc _ E _).
  - rewrite R3. unfold MAX_TERMINALS. lia.
  - destruct Hen as [_ _ _ _ _ _ _ _ _ _ _ [T _] _]. exact T.
Qed.
End boot.

(** ** Properties *)

(** C20: booting.  When the boot information is accepted, [entry] sets the
    kernel up and tries to execute the shell for terminal 0, until an attempt
    succeeds: at first no process exists, the four device types and the
    handlers of the timer, the keyboard and the clock are registered, the three
    terminals are blank, the directories are those of [virtualmem_init], the
    file system is the first module, the TSS holds the boot stack, [pit_rate]
    is 11931, the divisor of 100 Hz (which the timer does not get while pit.c
    has its two ports the wrong way round), with nothing scheduled, only the
    timer's line and the keyboard's are open (the clock's only once a process
    opens it, whatever the comment at [rtc_init]'s call says), and the IDT is
    loaded.  That is a power-on state
    of the machine model, and entering the shell is its first step and makes it
    process 1. *)
Theorem boot_starts_shell {D} `{Board D} `{Layout} `{Mmu} fuel b magic addr (c c1 : machine D) :
  loaded_machine c → entry_info magic addr c = Some (true, c1) →
  ∃ c', entry fuel b magic addr c = Boot_shell (shell_loop fuel (shell_frame b) (shell_addr b) (mk c')) c' ∧
    shell_ready (virtualmem_init vm_statics)
      (load32 (kmem (mk c1)) (load32 (kmem (mk c1)) (u32 addr + 24))) (mk c') ∧
    idtr_loaded c' = true ∧ mirqs c' = driver_table ∧ mpit c' = Pit 11931 0 ∧
    powered (Cpu (mk c') (mpit c') None) ∧
    ∀ a u k', execute (shell_frame b) (shell_addr b) (mk c') = Enter a u k' → (1 ≤ fuel)%nat →
      entry fuel b magic addr c = Boot_shell (inl (Enter a u k')) c' ∧
      orderly_step (Cpu (mk c') (mpit c') None) (Cpu k' (mpit c') (Some 1)).
Proof.
  intros Hl E. pose proof (loaded_printed _ _ (entry_info_printed _ _ _ _ _ E) Hl) as Hl1.
  destruct (init_spec b (mbi_field (init_segments b c1) (u32 addr) 24) c1 Hl1)
    as (I1 & I2 & I3 & I4 & I5 & I6 & I7 & I8 & _ & _ & _ & I12).
  unfold entry. rewrite E. cbv zeta. set (c2 := init_devices b _) in *. clearbody c2.
  destruct (entry_start_spec fuel b (lidt c2) _ _ I1 I2 I3 I4 I5 I6 I12)
    as (k & c' & Hr & P1 & P2 & P3 & <- & Ee).
  exists c'. rewrite Ee. split; [done|]. split; [exact Hr|]. split; [exact P3|].
  split; [by rewrite P2|]. split; [by rewrite P1|]. split; [by eapply shell_powered|].
  intros a u k' Ex Hf. destruct fuel as [|fuel]; [lia|]. cbn [shell_loop]. rewrite Ex.
  split; [done|]. by eapply shell_first_step.
Qed.

(** The segment descriptors.  Whatever the locals of [entry] held before,
    the eight bytes it writes for the LDT describe a present system segment of
    type 2 at the address of [ldt], 32 bytes long, and those for the TSS one of
    type 9 (an available 32-bit TSS) at the address of [tss], 104 bytes long;
    both are for ring 0 only. *)
Lemma boot_descriptors junk ldt tss :
  segment_of (seg_encode (make_ldt_desc junk ldt)) = Segment (u32 ldt) 31 2 true 0 true ∧
  segment_of (seg_encode (make_tss_desc junk tss)) = Segment (u32 tss) 103 9 true 0 true.
Proof.
  split; (etransitivity; [apply set_params_spec; done|reflexivity]).
Qed.

(** A machine as the boot loader leaves it, all memory zero but the shell's
    image and the flags. *)
Definition sample_machine : machine pc :=
  let seg := SegDesc 0 0 0 0 0 0 0 0 0 0 0 0 0 in
  Machine (Kernel ∅ proc_statics ∅ kbd_statics rtc_statics vm_statics 0 0 0 0 0 pc_reset)
    (Screen 0 0 VIDEO) seg seg 0 0 0 false [] (replicate 16 irq_handler_default) pit_statics.
Definition sample_layout : boot_layout :=
  let seg := SegDesc 1 2 3 4 1 0 0 5 1 0 1 0 7 in
  BootLayout 0x401000 0x402000 (λ _, 0x403000) seg seg 0x404000 sample_frame.

Lemma boot_starts_shell_witness :
  ∃ c' : machine pc, shell_ready (virtualmem_init vm_statics) 0 (mk c') ∧ idtr_loaded c' = true ∧
    powered (Cpu (mk c') (mpit c') None).
Proof.
  destruct (entry_info 0x2BADB002 0x10000 sample_machine) as [[r c1]|] eqn:E.
  - assert (fst <$> entry_info 0x2BADB002 0x10000 sample_machine = Some true) as E1 by (vm_compute; reflexivity).
    assert ((λ r, load32 (kmem (mk r.2)) (load32 (kmem (mk r.2)) (u32 0x10000 + 24)))
      <$> entry_info 0x2BADB002 0x10000 sample_machine = Some 0) as E2 by (vm_compute; reflexivity).
    rewrite E in E1, E2. apply some_inv in E1. apply some_inv in E2. cbn [fst snd] in E1, E2. subst r.
    destruct (boot_starts_shell 1 sample_layout 0x2BADB002 0x10000 sample_machine c1)
      as (c' & _ & H1 & H2 & _ & _ & H3 & _).
    + split; done.
    + exact E.
    + exists c'. rewrite E2 in H1. split; [exact H1|]. split; [exact H2|exact H3].
  - assert (is_Some (fst <$> entry_info 0x2BADB002 0x10000 sample_machine)) as [x Hx]
      by (vm_compute; by eexists).
    rewrite E in Hx. discriminate Hx.
Defined.
