(* ===== verification/UserLib.v ===== *)
(** * ece391support.c: the library of the user programs

    String routines over the memory of the process, as C writes them: pointers
    move, lengths are [uint32_t], characters are unsigned.  [None] is a loop
    that runs beyond all memory. *)
From S2P Require Import Prelude CMem LibString Screen Format.

Fixpoint ece391_strlen_loop (fuel : nat) (m : mem) (s len : Z) : option Z :=
  match fuel with
  | O => None
  | S fuel => if mget m s =? 0 then Some len else ece391_strlen_loop fuel m (s + 1) (u32 (len + 1))
  end.
Definition ece391_strlen (m : mem) (s : Z) : Z := default 0 (ece391_strlen_loop (S (size m)) m s 0).

Fixpoint ece391_strcpy_loop (fuel : nat) (m : mem) (dst src : Z) : option mem :=
  match fuel with
  | O => None
  | S fuel =>
      let c := mget m src in
      let m := mset m dst c in
      if c =? 0 then Some m else ece391_strcpy_loop fuel m (dst + 1) (src + 1)
  end.
Definition ece391_strcpy (m : mem) (dst src : Z) : option mem := ece391_strcpy_loop (S (size m)) m dst src.

Fixpoint ece391_strcmp_loop (fuel : nat) (m : mem) (s1 s2 : Z) : option Z :=
  match fuel with
  | O => None
  | S fuel =>
      if mget m s1 =? mget m s2 then
        if mget m s1 =? 0 then Some 0 else ece391_strcmp_loop fuel m (s1 + 1) (s2 + 1)
      else Some (mget m s1 - mget m s2)
  end.
Definition ece391_strcmp (m : mem) (s1 s2 : Z) : Z := default 0 (ece391_strcmp_loop (S (size m)) m s1 s2).

(** [n] counts the characters still to be compared, at least one. *)
Fixpoint ece391_strncmp_loop (n : nat) (m : mem) (s1 s2 : Z) : Z :=
  match n with
  | O => 0
  | S n =>
      if mget m s1 =? mget m s2 then
        if mget m s1 =? 0 then 0
        else match n with O => 0 | S _ => ece391_strncmp_loop n m (s1 + 1) (s2 + 1) end
      else mget m s1 - mget m s2
  end.
Definition ece391_strncmp (m : mem) (s1 s2 n : Z) : Z :=
  if u32 n =? 0 then 0 else ece391_strncmp_loop (Z.to_nat (u32 n)) m s1 s2.

Definition ece391_strrev (m : mem) (s : Z) : mem :=
  let end_ := s32 (ece391_strlen m s - 1) in
  if end_ <=? 0 then m else strrev_loop (Z.to_nat (ece391_strlen m s)) m s 0 end_.

(** The digits are produced by the same loop as in the kernel's [itoa]. *)
Definition ece391_itoa (m : mem) (value buf radix : Z) : option mem :=
  let value := u32 value in
  if value =? 0 then Some (mset (mset m buf 48) (buf + 1) 0)
  else
    match itoa_loop 33 m buf value (u32 radix) with
    | None => None
    | Some (m, newbuf) => Some (ece391_strrev (mset m newbuf 0) buf)
    end.

(** ** What they compute *)

(** The difference of the first characters in which two strings differ, where
    the end of a string counts as 0. *)
Fixpoint byte_diff (l k : list Z) : Z :=
  match l, k with
  | [], [] => 0
  | [], b :: _ => - b
  | a :: _, [] => a
  | a :: l, b :: k => if a =? b then byte_diff l k else a - b
  end.

Lemma byte_diff_zero l k :
  Forall (λ c, c ≠ 0) l → Forall (λ c, c ≠ 0) k → byte_diff l k = 0 ↔ l = k.
Proof.
  revert k. induction l as [|a l IH]; intros [|b k] Hl Hk; simpl; [done| | |].
  - apply Forall_cons in Hk as [Hb _]. split; [lia|done].
  - apply Forall_cons in Hl as [Ha _]. split; [lia|done].
  - apply Forall_cons in Hl as [Ha Hl], Hk as [Hb Hk].
    destruct (Z.eqb_spec a b) as [->|Hne].
    + rewrite IH by done. split; congruence.
    + split; [lia|]. intros [= -> _]. done.
Qed.

Lemma u32_add_l x y : u32 (u32 x + y) = u32 (x + y).
Proof. unfold u32. lia. Qed.

Lemma ece391_strlen_loop_cstr fuel m s len l :
  cstr m s l → (length l < fuel)%nat → word32 len →
  ece391_strlen_loop fuel m s len = Some (u32 (len + Z.of_nat (length l))).
Proof.
  revert s len l. induction fuel as [|fuel IH]; intros s len l Hl Hf Hw; [lia|]. cbn [ece391_strlen_loop].
  destruct l as [|v l].
  - apply cstr_nil in Hl. rewrite Hl. simpl. by rewrite Z.add_0_r, u32_small.
  - apply cstr_cons in Hl as (Hv & Hz & Hl). simpl in Hf.
    rewrite (proj2 (Z.eqb_neq _ _)) by congruence.
    rewrite (IH _ _ l Hl) by (lia || apply u32_range). rewrite u32_add_l. cbn [length]. do 2 f_equal. lia.
Qed.
Lemma ece391_strlen_cstr m s l : cstr m s l → ece391_strlen m s = u32 (Z.of_nat (length l)).
Proof.
  intros Hl. unfold ece391_strlen. pose proof (cstr_length_le _ _ _ Hl).
  by rewrite (ece391_strlen_loop_cstr _ _ _ _ l) by (done || lia).
Qed.

Lemma ece391_strcpy_loop_cstr fuel m dst src l :
  cstr m src l → (length l < fuel)%nat → dst ≤ src ∨ src + Z.of_nat (length l) < dst →
  ece391_strcpy_loop fuel m dst src = Some (store_bytes m dst (l ++ [0])).
Proof.
  revert m dst src l. induction fuel as [|fuel IH]; intros m dst src l Hl Hf Hd; [lia|].
  cbn [ece391_strcpy_loop]. cbv zeta. destruct l as [|v l].
  - apply cstr_nil in Hl. by rewrite Hl.
  - apply cstr_cons in Hl as (Hv & Hz & Hl). cbn [length] in *. rewrite Hv, (proj2 (Z.eqb_neq v 0)) by done.
    rewrite (IH _ _ _ l); [done| |lia|lia].
    apply (cstr_ext m); [|done]. intros i Hi. apply mget_mset_ne. lia.
Qed.
Lemma ece391_strcpy_cstr m dst src l :
  cstr m src l → dst ≤ src ∨ src + Z.of_nat (length l) < dst →
  ece391_strcpy m dst src = Some (store_bytes m dst (l ++ [0])).
Proof.
  intros Hl Hd. apply ece391_strcpy_loop_cstr; [done| |done]. pose proof (cstr_length_le _ _ _ Hl). lia.
Qed.

Lemma ece391_strcmp_loop_cstr fuel m s1 s2 l k :
  cstr m s1 l → cstr m s2 k → (length l < fuel)%nat →
  ece391_strcmp_loop fuel m s1 s2 = Some (byte_diff l k).
Proof.
  revert s1 s2 l k. induction fuel as [|fuel IH]; intros s1 s2 l k Hl Hk Hf; [lia|].
  cbn [ece391_strcmp_loop].
  destruct l as [|a l]; [apply cstr_nil in Hl|apply cstr_cons in Hl as (Ha & Hza & Hl)];
    (destruct k as [|b k]; [apply cstr_nil in Hk|apply cstr_cons in Hk as (Hb & Hzb & Hk)]);
    rewrite ?Hl, ?Hk, ?Ha, ?Hb; cbn [byte_diff].
  - done.
  - rewrite (proj2 (Z.eqb_neq 0 b)) by done. f_equal.
  - rewrite (proj2 (Z.eqb_neq a 0)) by done. f_equal. lia.
  - destruct (Z.eqb_spec a b) as [->|]; [|done]. rewrite (proj2 (Z.eqb_neq b 0)) by done.
    simpl in Hf. apply IH; [done|done|lia].
Qed.
Lemma ece391_strcmp_cstr m s1 s2 l k :
  cstr m s1 l → cstr m s2 k → ece391_strcmp m s1 s2 = byte_diff l k.
Proof.
  intros Hl Hk. unfold ece391_strcmp. pose proof (cstr_length_le _ _ _ Hl).
  by rewrite (ece391_strcmp_loop_cstr _ _ _ _ l k) by (done || lia).
Qed.

Lemma ece391_strncmp_loop_cstr n m s1 s2 l k :
  cstr m s1 l → cstr m s2 k →
  ece391_strncmp_loop n m s1 s2 = byte_diff (take n l) (take n k).
Proof.
  revert s1 s2 l k. induction n as [|n IH]; intros s1 s2 l k Hl Hk; [done|].
  cbn [ece391_strncmp_loop].
  destruct l as [|a l]; [apply cstr_nil in Hl|apply cstr_cons in Hl as (Ha & Hza & Hl)];
    (destruct k as [|b k]; [apply cstr_nil in Hk|apply cstr_cons in Hk as (Hb & Hzb & Hk)]);
    rewrite ?Hl, ?Hk, ?Ha, ?Hb; cbn [take byte_diff].
  - done.
  - rewrite (proj2 (Z.eqb_neq 0 b)) by done. lia.
  - rewrite (proj2 (Z.eqb_neq a 0)) by done. lia.
  - destruct (Z.eqb_spec a b) as [->|]; [|done]. rewrite (proj2 (Z.eqb_neq b 0)) by done.
    destruct n as [|n]; [done|]. by apply IH.
Qed.
Lemma ece391_strncmp_cstr m s1 s2 n l k :
  cstr m s1 l → cstr m s2 k → word32 n →
  ece391_strncmp m s1 s2 n = byte_diff (take (Z.to_nat n) l) (take (Z.to_nat n) k).
Proof.
  intros Hl Hk Hn. unfold ece391_strncmp. rewrite u32_small by done.
  destruct (Z.eqb_spec n 0) as [->|]; [done|]. by apply ece391_strncmp_loop_cstr.
Qed.

(** The reversal and the conversion agree with the kernel's. *)
Lemma ece391_strrev_strrev m s l :
  cstr m s l → Z.of_nat (length l) < 2 ^ 31 → ece391_strrev m s = strrev m s.
Proof.
  intros Hl Hlen. unfold ece391_strrev, strrev. rewrite (ece391_strlen_cstr _ _ _ Hl), (strlen_cstr _ _ _ Hl).
  rewrite u32_small, s32_small by lia. destruct (Z.leb_spec (Z.of_nat (length l) - 1) 0) as [H|H]; [|done].
  destruct (Z.to_nat (Z.of_nat (length l))); [done|]. cbn [strrev_loop].
  by rewrite (proj2 (Z.ltb_ge 0 _)).
Qed.
Lemma ece391_itoa_itoa m value buf radix :
  2 ≤ radix ≤ 36 → ece391_itoa m value buf radix = itoa m value buf radix.
Proof.
  intros Hr. pose proof (u32_range value) as Hv. unfold ece391_itoa, itoa. rewrite (u32_small radix) by lia.
  destruct (u32 value =? 0); [done|]. cbv zeta.
  rewrite (itoa_loop_spec radix Hr 33 32) by (simpl; lia). set (l := digits 32 radix (u32 value)).
  destruct (digits_spec radix Hr 32 (u32 value)) as (_ & Hl & _); [simpl; lia|]. fold l in Hl.
  pose proof (length_digits radix 32 (u32 value)) as Hlen. fold l in Hlen.
  by rewrite (ece391_strrev_strrev _ _ l (digits_cstr radix m buf l Hl)) by lia.
Qed.

(** ** Properties *)

(** C36: the user library.  [ece391_strlen] is the length of a string modulo
    2^32, [ece391_strcpy] copies it with its NUL to any place the copy does not
    overrun, [ece391_strcmp] and [ece391_strncmp] give the difference of the
    first differing characters (of the first [n]), hence 0 exactly for equal
    strings (prefixes), and [ece391_itoa] is the kernel's [itoa]. *)
Theorem user_strings m s1 s2 l k dst n v buf radix :
  cstr m s1 l → cstr m s2 k → word32 n → 2 ≤ radix ≤ 36 →
  dst ≤ s1 ∨ s1 + Z.of_nat (length l) < dst →
  ece391_strlen m s1 = u32 (Z.of_nat (length l)) ∧
  (∃ m', ece391_strcpy m dst s1 = Some m' ∧ cstr m' dst l ∧ frame dst (dst + Z.of_nat (length l) + 1) m m') ∧
  ece391_strcmp m s1 s2 = byte_diff l k ∧ (ece391_strcmp m s1 s2 = 0 ↔ l = k) ∧
  ece391_strncmp m s1 s2 n = byte_diff (take (Z.to_nat n) l) (take (Z.to_nat n) k) ∧
  (ece391_strncmp m s1 s2 n = 0 ↔ take (Z.to_nat n) l = take (Z.to_nat n) k) ∧
  ece391_itoa m v buf radix = itoa m v buf radix.
Proof.
  intros Hl Hk Hn Hr Hd. pose proof Hl as (_ & _ & Zl). pose proof Hk as (_ & _ & Zk).
  split; [by apply ece391_strlen_cstr|]. split.
  { exists (store_bytes m dst (l ++ [0])). split; [by apply ece391_strcpy_cstr|]. split.
    - apply cstr_store; [by eapply cstr_byte|done].
    - replace (dst + Z.of_nat (length l) + 1) with (dst + Z.of_nat (length (l ++ [0])))
        by (rewrite length_app; simpl; lia). apply frame_store_bytes. }
  rewrite (ece391_strcmp_cstr _ _ _ l k), (ece391_strncmp_cstr _ _ _ _ l k) by done.
  split; [done|]. split; [by apply byte_diff_zero|]. split; [done|].
  split; [apply byte_diff_zero; by apply Forall_take|]. by apply ece391_itoa_itoa.
Qed.

Lemma user_strings_witness :
  let m := store_bytes (store_bytes ∅ 100 [97; 98; 0]) 200 [97; 99; 0] in
  ece391_strcmp m 100 200 = -1 ∧ ece391_strncmp m 100 200 1 = 0 ∧ ece391_strlen m 100 = 2.
Proof.
  intros m. destruct (user_strings m 100 200 [97; 98] [97; 99] 300 1 7 400 10) as (H1 & _ & H2 & _ & H3 & _).
  - split; [vm_compute; reflexivity|]. split; [vm_compute; reflexivity|]. repeat constructor; discriminate.
  - split; [vm_compute; reflexivity|]. split; [vm_compute; reflexivity|]. repeat constructor; discriminate.
  - lia.
  - lia.
  - right. simpl. lia.
  - split; [exact H2|]. split; [exact H3|exact H1].
Defined.
