(* ===== verification/UserSys.v ===== *)
(** * ece391syscall.h: the system calls as a user program sees them

    A program is a computation over the states of some machine that offers the
    calls ([UserSys]); what the calls promise is an interface ([UserSpec]) in
    terms of an abstract [view] of the machine: the text on the terminal, what
    each open descriptor still has to deliver, the arguments and the files.
    Programs are verified against the interface (UserProg.v), the kernel
    implements it (UserKernel.v). *)
From S2P Require Import Prelude CMem LibString Screen Process Paging Kernel SysCalls Exec UserLib.

(** ** Computations *)

(** [None]: the program does not come back (a call never returns, or the fuel
    of a loop ran out). *)
Definition user (S A : Type) : Type := S → option (A * S).
#[export] Instance user_ret S : MRet (user S) := λ A a s, Some (a, s).
#[export] Instance user_bind S : MBind (user S) := λ A B f m s,
  match m s with None => None | Some (a, s) => f a s end.

Section sat.
Context {S : Type}.

(** From [s] the computation returns, and [Q] holds of result and state. *)
Definition sat {A} (m : user S A) (s : S) (Q : A → S → Prop) : Prop :=
  ∃ a s', m s = Some (a, s') ∧ Q a s'.

Lemma sat_ret {A} (a : A) s Q : Q a s → sat (mret a) s Q.
Proof. intros HQ. by exists a, s. Qed.
Lemma sat_bind {A B} (m : user S A) (f : A → user S B) s (R : A → S → Prop) Q :
  sat m s R → (∀ a s', R a s' → sat (f a) s' Q) → sat (m ≫= f) s Q.
Proof.
  intros (a & s1 & E & HR) Hf. destruct (Hf a s1 HR) as (b & s2 & E2 & HQ).
  exists b, s2. split; [|done]. unfold mbind, user_bind. by rewrite E.
Qed.
Lemma sat_map {A B} (m : user S A) (f : A → B) s (Q : A → S → Prop) :
  sat m s Q → sat (a ← m; mret (f a)) s (λ b s', ∃ a, b = f a ∧ Q a s').
Proof. intros Hm. eapply sat_bind; [exact Hm|]. intros a s' HQ. apply sat_ret. by exists a. Qed.
Lemma sat_mono {A} (m : user S A) s (R Q : A → S → Prop) :
  sat m s R → (∀ a s', R a s' → Q a s') → sat m s Q.
Proof. intros (a & s' & E & HR) HQ. exists a, s'. auto. Qed.
End sat.

(** ** The calls *)

(** ece391syscall.S, and [call_sys] of ece391syserr.c: a call by its number
    alone, whatever the other registers hold. *)
Class UserSys (S : Type) := {
  umem : S → mem;
  set_umem : mem → S → S;
  ece391_execute : Z → user S Z;
  ece391_read : Z → Z → Z → user S Z;
  ece391_write : Z → Z → Z → user S Z;
  ece391_open : Z → user S Z;
  ece391_close : Z → user S Z;
  ece391_getargs : Z → Z → user S Z;
  ece391_vidmap : Z → user S Z;
  ece391_set_handler : Z → Z → user S Z;
  call_sys : Z → user S Z }.

Section library.
Context {S : Type} `{UserSys S}.

(** Reading and writing the program's own memory. *)
Definition peek (a : Z) : user S Z := λ s, Some (mget (umem s) a, s).
Definition poke (a v : Z) : user S () := λ s, Some ((), set_umem (mset (umem s) a v) s).
Definition with_mem {A} (f : mem → A) : user S A := λ s, Some (f (umem s), s).
(** A library routine that changes memory, and may not come back. *)
Definition on_mem (f : mem → option mem) : user S () := λ s,
  match f (umem s) with None => None | Some m => Some ((), set_umem m s) end.

Definition ece391_fdputs (fd s : Z) : user S () :=
  n ← with_mem (λ m, ece391_strlen m s); _ ← ece391_write fd s (s32 n); mret ().
End library.

(** ** What a program sees of the machine *)

(** What an open descriptor still has to deliver; nothing is promised about a
    directory that was read past its last name, and a clock only ticks. *)
Inductive stream := Bytes (rest : list Z) | Names (rest : list (list Z)) | Past_end | Clock.
Inductive file := Regular (data : list Z) | Directory | Device.
Definition opened_stream (names : list (list Z)) (f : file) : stream :=
  match f with Regular data => Bytes data | Directory => Names names | Device => Clock end.

(** [v_input]: the lines that will be typed, none when nobody sits at the
    terminal. *)
Record view := View {
  v_screen : aterm; v_fds : gmap Z stream; v_args : list Z; v_names : list (list Z);
  v_files : gmap (list Z) file; v_input : list (list Z) }.
Definition v_print (l : list Z) (v : view) : view :=
  View (foldl (λ t c, a_putc c t) (v_screen v) l) (v_fds v) (v_args v) (v_names v) (v_files v) (v_input v).
Definition v_set_fd (fd : Z) (st : option stream) (v : view) : view :=
  View (v_screen v) (partial_alter (λ _, st) fd (v_fds v)) (v_args v) (v_names v) (v_files v) (v_input v).
Definition v_typed (lines : list (list Z)) (v : view) : view :=
  View (v_screen v) (v_fds v) (v_args v) (v_names v) (v_files v) lines.
Definition v_free (v : view) : Prop := ∃ fd, 2 ≤ fd < FILE_ARRAY_LEN ∧ v_fds v !! fd = None.
(** No open file has the descriptor. *)
Definition v_closed (v : view) (fd : Z) : Prop :=
  sword32 fd ∧ (fd < 0 ∨ FILE_ARRAY_LEN ≤ fd ∨ 2 ≤ fd ∧ v_fds v !! fd = None).

(** The program's memory: the page of 4 MB at [PROG_VM_START]. *)
Definition user_addr (a : Z) : Prop := PROG_VM_START ≤ a < PROG_VM_START + SPACE_4MB.
Definition in_user (a n : Z) : Prop := PROG_VM_START ≤ a ∧ a + n ≤ PROG_VM_START + SPACE_4MB.
Definition user_same (m m' : mem) : Prop := ∀ a, user_addr a → mget m' a = mget m a.
Definition system_same (m m' : mem) : Prop := ∀ a, ¬ user_addr a → mget m' a = mget m a.

(** What the machine promises, for states [s] of which the program sees [v]. *)
Section spec.
Context {S : Type} `{UserSys S} (sees : S → view → Prop).

(** The call comes back and memory is as in [m]; its result and what is seen
    satisfy [Q]. *)
Definition gives (c : user S Z) (s : S) (m : mem) (Q : Z → view → Prop) : Prop :=
  sat c s (λ r s', ∃ v', Q r v' ∧ sees s' v' ∧ user_same m (umem s')).
(** The call fails and nothing has changed. *)
Definition refused (c : user S Z) (s : S) (v : view) : Prop :=
  gives c s (umem s) (λ r v', r = -1 ∧ v' = v).

Class UserSpec := {
  umem_set m s : umem (set_umem m s) = m;
  sees_set m s v : sees s v → system_same (umem s) m → sees (set_umem m s) v;
  getargs_ok s v buf n :
    sees s v → Z.of_nat (length (v_args v)) < n < 2 ^ 31 → in_user buf n →
    gives (ece391_getargs buf n) s (store_bytes (umem s) buf (v_args v ++ [0])) (λ r v', r = 0 ∧ v' = v);
  open_ok s v p name f :
    sees s v → cstr (umem s) p name → in_user p (Z.of_nat (length name) + 1) →
    v_files v !! name = Some f → v_free v →
    gives (ece391_open p) s (umem s) (λ r v', 2 ≤ r < FILE_ARRAY_LEN ∧ v_fds v !! r = None ∧
      v' = v_set_fd r (Some (opened_stream (v_names v) f)) v);
  open_missing s v p name :
    sees s v → cstr (umem s) p name → in_user p (Z.of_nat (length name) + 1) → name ∉ v_names v → v_free v →
    refused (ece391_open p) s v;
  open_full s v p : sees s v → ¬ v_free v → refused (ece391_open p) s v;
  read_bytes_ok s v fd rest buf n :
    sees s v → v_fds v !! fd = Some (Bytes rest) → 0 ≤ n < 2 ^ 31 → in_user buf n →
    let l := take (Z.to_nat n) rest in
    gives (ece391_read fd buf n) s (store_bytes (umem s) buf l) (λ r v', r = Z.of_nat (length l) ∧
      v' = v_set_fd fd (Some (Bytes (drop (Z.to_nat n) rest))) v);
  read_name_ok s v fd name rest buf n :
    sees s v → v_fds v !! fd = Some (Names (name :: rest)) → Z.of_nat (length name) < n < 2 ^ 31 →
    in_user buf (n + 1) →
    gives (ece391_read fd buf n) s (store_bytes (umem s) buf (name ++ [10; 0])) (λ r v',
      r = Z.of_nat (length name) ∧ v' = v_set_fd fd (Some (Names rest)) v);
  read_names_end s v fd buf n :
    sees s v → v_fds v !! fd = Some (Names []) → 0 ≤ n < 2 ^ 31 →
    gives (ece391_read fd buf n) s (umem s) (λ r v', r = 0 ∧ v' = v_set_fd fd (Some Past_end) v);
  read_clock_ok s v fd buf n :
    sees s v → v_fds v !! fd = Some Clock →
    gives (ece391_read fd buf n) s (umem s) (λ r v', r = 0 ∧ v' = v);
  read_refused s v fd buf n :
    sees s v → v_closed v fd ∨ fd = 1 → refused (ece391_read fd buf n) s v;
  write_ok s v buf n :
    sees s v → 0 ≤ n < 2 ^ 31 → in_user buf n →
    gives (ece391_write 1 buf n) s (umem s) (λ r v', r = n ∧
      v' = v_print (load_bytes (umem s) buf (Z.to_nat n)) v);
  write_clock_ok s v fd buf n :
    sees s v → v_fds v !! fd = Some Clock →
    gives (ece391_write fd buf n) s (umem s) (λ _ v', v' = v);
  write_refused s v fd buf n :
    sees s v → v_closed v fd ∨ fd = 0 → refused (ece391_write fd buf n) s v;
  close_ok s v fd st :
    sees s v → v_fds v !! fd = Some st →
    gives (ece391_close fd) s (umem s) (λ r v', r = 0 ∧ v' = v_set_fd fd None v);
  close_refused s v fd :
    sees s v → v_closed v fd ∨ fd = 0 ∨ fd = 1 → refused (ece391_close fd) s v;
  vidmap_refused s v p :
    sees s v → sword32 p → ¬ user_addr p → refused (ece391_vidmap p) s v;
  set_handler_refused s v n h : sees s v → refused (ece391_set_handler n h) s v;
  number_refused s v n :
    sees s v → ¬ 1 ≤ u32 n ≤ 10 → refused (call_sys n) s v;
  execute_unknown s v p l :
    sees s v → cstr (umem s) p l → in_user p (Z.of_nat (length l) + 1) →
    Z.of_nat (length l) < ARGS_MAX → command_word l ∉ v_names v → refused (ece391_execute p) s v }.

(** A line is a text of at most 126 characters that print; a read from the
    terminal waits for one, which is echoed, and may overwrite what is left of
    the buffer. *)
Definition line_ok (l : list Z) : Prop := (length l ≤ 126)%nat ∧ Forall (λ c, 32 ≤ c ≤ 126) l.
Class UserInput := {
  read_line_ok s v l lines buf n :
    sees s v → v_input v = l :: lines → line_ok l → Z.of_nat (length l) < n < 2 ^ 31 → in_user buf n →
    ∃ pad, Z.of_nat (length l + 1 + length pad) ≤ n ∧
    gives (ece391_read 0 buf n) s (store_bytes (umem s) buf (l ++ [10] ++ pad)) (λ r v',
      r = Z.of_nat (length l) + 1 ∧ v' = v_typed lines (v_print (l ++ [10]) v)) }.
End spec.
#[global] Arguments UserSpec S {_} _.
#[global] Arguments UserInput S {_} _.
#[global] Arguments umem_set {S _ sees _}.
#[global] Arguments sees_set {S _ sees _}.
#[global] Arguments getargs_ok {S _ sees _}.
#[global] Arguments open_ok {S _ sees _}.
#[global] Arguments open_missing {S _ sees _}.
#[global] Arguments open_full {S _ sees _}.
#[global] Arguments read_bytes_ok {S _ sees _}.
#[global] Arguments read_name_ok {S _ sees _}.
#[global] Arguments read_names_end {S _ sees _}.
#[global] Arguments read_clock_ok {S _ sees _}.
#[global] Arguments read_refused {S _ sees _}.
#[global] Arguments write_ok {S _ sees _}.
#[global] Arguments write_clock_ok {S _ sees _}.
#[global] Arguments write_refused {S _ sees _}.
#[global] Arguments close_ok {S _ sees _}.
#[global] Arguments close_refused {S _ sees _}.
#[global] Arguments vidmap_refused {S _ sees _}.
#[global] Arguments set_handler_refused {S _ sees _}.
#[global] Arguments number_refused {S _ sees _}.
#[global] Arguments execute_unknown {S _ sees _}.
#[global] Arguments read_line_ok {S _ sees _}.
