(* ===== verification/Emulate.v ===== *)
(** * ece391emulate.c: the system calls under Linux

    For tests the programs are linked against an emulation of the kernel's
    calls.  It splits the command of [execute] into arguments for [execv],
    joins them again for [getargs], and shows a directory as the file system
    would.  What Linux and its C library do are the operations of [Host]. *)
From Stdlib Require Import Ascii String.
From S2P Require Import Prelude CMem LibString Screen Format UserLib UserSys.

(** ** Memory *)

(** [execute]: the loops over the copy of the command. *)
Definition separates (c : Z) : bool := (c =? 0) || (c =? 32) || (c =? 10).
Fixpoint to_separator (fuel : nat) (m : mem) (scan : Z) : option Z :=
  match fuel with
  | O => None
  | S fuel => if separates (mget m scan) then Some scan else to_separator fuel m (scan + 1)
  end.
Fixpoint skip_spaces (fuel : nat) (m : mem) (scan : Z) : option Z :=
  match fuel with
  | O => None
  | S fuel => if mget m scan =? 32 then skip_spaces fuel m (scan + 1) else Some scan
  end.
(** [rounds] and [fuel] bound the loop and those inside it. *)
Fixpoint parse_arguments (rounds fuel : nat) (args n_arg scan : Z) (m : mem) : option (Z * mem) :=
  match rounds with
  | O => None
  | S rounds =>
      scan ← skip_spaces fuel m scan;
      if (mget m scan =? 0) || (mget m scan =? 10) then Some (n_arg, mset m scan 0)
      else
        let m := store32 m (args + 4 * n_arg) scan in
        scan ← to_separator fuel m scan;
        if negb (mget m scan =? 0) then parse_arguments rounds fuel args (n_arg + 1) (scan + 1) (mset m scan 0)
        else parse_arguments rounds fuel args (n_arg + 1) scan m
  end.
Definition split_command (fuel : nat) (command buf args : Z) (m : mem) : option (Z * mem) :=
  let m := mset (mset m buf 46) (buf + 1) 47 in
  m ← ece391_strcpy m (buf + 2) command;
  scan ← to_separator fuel m (buf + 2);
  let m := store32 m args buf in
  '(n_arg, m) ←
    (if negb (mget m scan =? 0) then parse_arguments fuel fuel args 1 (scan + 1) (mset m scan 0) else Some (1, m));
  Some (n_arg, store32 m (args + 4 * n_arg) 0).

(** [getargs]; [argc] and [argv] are on the stack at [start_esp]. *)
Fixpoint join_arguments (rounds : nat) (argv argc idx buf nbytes : Z) (m : mem) : option (Z * mem) :=
  let finish buf nbytes m := if nbytes <? 1 then Some (-1, m) else Some (0, mset m buf 0) in
  match rounds with
  | O => None
  | S rounds =>
      if idx <? argc then
        let arg := load32 m (argv + 4 * idx) in
        let len := s32 (ece391_strlen m arg) in
        if len >? nbytes then Some (-1, m)
        else
          m ← ece391_strcpy m buf arg;
          let buf := buf + len in
          let nbytes := nbytes - len in
          if idx + 1 >=? argc then finish buf nbytes m
          else if nbytes <? 1 then Some (-1, m)
          else join_arguments rounds argv argc (idx + 1) (buf + 1) (nbytes - 1) (mset m buf 32)
      else finish buf nbytes m
  end.
Definition getargs_memory (start_esp buf nbytes : Z) (m : mem) : option (Z * mem) :=
  let argc := loads32 m start_esp in
  join_arguments (S (Z.to_nat argc)) (start_esp + 4) argc 1 buf nbytes m.

(** [read] of a directory: the name, then zeros; at most 32 bytes. *)
Fixpoint copy_name (fuel : nat) (nbytes copied to from : Z) (m : mem) : option (bool * Z * Z * mem) :=
  match fuel with
  | O => None
  | S fuel =>
      if mget m from =? 0 then Some (false, copied, to, m)
      else
        let m := mset m to (mget m from) in
        let copied := copied + 1 in
        if copied =? nbytes then Some (true, nbytes, to + 1, m)
        else if 32 =? copied then Some (true, 32, to + 1, m)
        else copy_name fuel nbytes copied (to + 1) (from + 1) m
  end.
Fixpoint pad_name (fuel : nat) (nbytes copied to : Z) (m : mem) : Z * mem :=
  match fuel with
  | O => (copied, m)
  | S fuel =>
      if (nbytes >? copied) && (32 >? copied) then pad_name fuel nbytes (copied + 1) (to + 1) (mset m to 0) else (copied, m)
  end.
Definition read_name (nbytes buf d_name : Z) (m : mem) : option (Z * mem) :=
  '(returned, copied, to, m) ← copy_name 33 nbytes 0 buf d_name m;
  if returned : bool then Some (copied, m) else Some (pad_name 32 nbytes copied to m).

(** ** The calls *)

Definition O_RDONLY := 0.
Definition O_RDWR := 2.
Definition PROT_READ := 1.
Definition PROT_WRITE := 2.
Definition MAP_SHARED := 1.
Definition MAP_FAILED := 4294967295.

(** How a child ended, as [wait] tells it. *)
Inductive wait_status := Exited (status : Z) | Signaled (signal : Z).
(** Linux and its C library; [run_child]: [fork], [execv] in the child, killed
    with 9 if that fails, and [wait] in the parent. *)
Class Host (H : Type) := {
  hmem : H → mem;
  set_hmem : mem → H → H;
  linux : Z → Z → Z → Z → user H Z;
  host_opendir : Z → user H Z;
  host_readdir : Z → user H Z;
  host_closedir : Z → user H Z;
  host_open : Z → Z → user H Z;
  host_close : Z → user H Z;
  host_mmap : Z → Z → Z → Z → Z → Z → user H Z;
  host_perror : Z → user H ();
  run_child : Z → Z → user H wait_status }.

(** The static variables, and the machine. *)
Record emulator (H : Type) := Emu { dir_fd : Z; dir : Z; mem_fd : Z; host : H }.
Arguments Emu {H} _ _ _ _.
Arguments dir_fd {H} _.
Arguments dir {H} _.
Arguments mem_fd {H} _.
Arguments host {H} _.

Section calls.
Context {H : Type} `{Host H} (lit : list Z → Z).
(** The stack at [_start], where the name stands in a [struct dirent], and
    what the registers hold that a call does not set. *)
Context (start_esp d_name raw_ecx raw_edx : Z).
Local Abbreviation emu := (emulator H).

Definition on_host {A} (f : user H A) : user emu A := λ e,
  '(a, h) ← f (host e); Some (a, Emu (dir_fd e) (dir e) (mem_fd e) h).
(** A routine on memory. *)
Definition on_memory (f : mem → option (Z * mem)) : user emu Z := on_host (λ h,
  '(r, m) ← f (hmem h); Some (r, set_hmem m h)).

Definition asks {A} (f : emu → A) : user emu A := λ e, Some (f e, e).
Definition set_dir (fd d : Z) : user emu () := λ e, Some ((), Emu fd d (mem_fd e) (host e)).
Definition set_mem_fd (fd : Z) : user emu () := λ e, Some ((), Emu (dir_fd e) (dir e) fd (host e)).

(** The result of Linux, of which the last 2^14 numbers are errors. *)
Definition linux_result (eax : Z) : Z := if u32 eax >? 0xFFFFC000 then -1 else s32 eax.
Definition DO_CALL (number ebx ecx edx : Z) : user emu Z :=
  eax ← on_host (linux number ebx ecx edx); mret (linux_result eax).

(** [buf] and [args]: the arrays on the stack; [fuel] bounds the loops. *)
Definition emu_execute (fuel : nat) (buf args command : Z) : user emu Z :=
  len ← asks (λ e, ece391_strlen (hmem (host e)) command);
  if 1023 <? len then mret (-1)
  else
    _ ← on_memory (split_command fuel command buf args);
    status ← on_host (run_child buf args);
    mret (match status with
          | Exited status => status
          | Signaled signal => if 9 =? signal then -1 else 256
          end).

Definition emu_open (filename : Z) : user emu Z :=
  dot ← asks (λ e, ece391_strcmp (hmem (host e)) filename (lit (chars ".")));
  if 0 =? dot then
    d ← on_host (host_opendir (lit (chars ".")));
    fd ← on_host (host_open (lit (chars "/dev/null")) O_RDONLY);
    _ ← set_dir fd d;
    mret fd
  else DO_CALL 5 filename O_RDONLY raw_edx.

Definition emu_getargs (buf nbytes : Z) : user emu Z := on_memory (getargs_memory start_esp buf nbytes).

Definition emu_vidmap (screen_start : Z) : user emu Z :=
  fd ← asks mem_fd;
  _ ← (if fd =? -1 then fd ← on_host (host_open (lit (chars "/dev/mem")) O_RDWR); set_mem_fd fd else mret ());
  fd ← asks mem_fd;
  mem_image ← on_host (host_mmap 0 (1024 * 1024) (Z.lor PROT_READ PROT_WRITE) MAP_SHARED fd 0);
  if u32 mem_image =? MAP_FAILED then _ ← on_host (host_perror (lit (chars "mmap low memory"))); mret (-1)
  else on_memory (λ m, Some (0, store32 m screen_start (u32 (mem_image + 0xb8000)))).

(** The descriptor is not that of the directory. *)
Definition foreign (fd : Z) : user emu bool := asks (λ e, (dir e =? 0) || negb (dir_fd e =? fd)).
Definition emu_read (fd buf nbytes : Z) : user emu Z :=
  other ← foreign fd;
  if other : bool then DO_CALL 3 fd buf nbytes
  else
    d ← asks dir;
    de ← on_host (host_readdir d);
    if de =? 0 then mret 0 else on_memory (read_name nbytes buf (de + d_name)).
Definition emu_write (fd buf nbytes : Z) : user emu Z :=
  other ← foreign fd;
  if other : bool then DO_CALL 4 fd buf nbytes else mret (-1).
Definition emu_close (fd : Z) : user emu Z :=
  other ← foreign fd;
  if other : bool then DO_CALL 6 fd raw_ecx raw_edx
  else
    d ← asks dir;
    _ ← on_host (host_closedir d);
    fd ← asks dir_fd;
    _ ← set_dir fd 0;
    _ ← on_host (host_close fd);
    _ ← set_dir (-1) 0;
    mret 0.
End calls.

(** ** The arguments of a command *)

(** Words end at a space or a newline; a newline where a word could start ends
    the command.  [cur]: the word that has begun. *)
Fixpoint words (cur : option (list Z)) (l : list Z) : list (list Z) :=
  match l with
  | [] => match cur with None => [] | Some w => [w] end
  | c :: l =>
      match cur with
      | None => if c =? 32 then words None l else if c =? 10 then [] else words (Some [c]) l
      | Some w => if (c =? 32) || (c =? 10) then w :: words None l else words (Some (w ++ [c])) l
      end
  end.
(** The program is a file here; an empty name is one, too. *)
Definition command_words (l : list Z) : list (list Z) := words (Some (chars "./")) l.
Lemma length_words l :
  (2 * length (words None l) ≤ length l + 1)%nat ∧ ∀ w, (2 * length (words (Some w) l) ≤ length l + 2)%nat.
Proof.
  induction l as [|c l [IHn IHs]]; [split; [simpl; lia|intros w; simpl; lia]|]. split; [|intros w]; cbn [words].
  - destruct (c =? 32); [cbn [length]; lia|]. destruct (c =? 10); [cbn [length]; lia|].
    specialize (IHs [c]). cbn [length]. lia.
  - destruct ((c =? 32) || (c =? 10)); [cbn [length]; lia|]. specialize (IHs (w ++ [c])). cbn [length]. lia.
Qed.
Fixpoint joined (ws : list (list Z)) : list Z :=
  match ws with [] => [] | [w] => w | w :: ws => w ++ 32 :: joined ws end.

Definition plain (w : list Z) : Prop := Forall (λ c, separates c = false) w.
Lemma words_plain w l : ∀ cur, plain w → words (Some cur) (w ++ l) = words (Some (cur ++ w)) l.
Proof.
  induction w as [|c w IH]; intros cur Hw; [by rewrite app_nil_r|].
  apply Forall_cons in Hw as [Hc Hw]. unfold separates in Hc. apply orb_false_iff in Hc as [Hc H10]. apply orb_false_iff in Hc as [_ H32].
  cbn [words app]. rewrite H32, H10. cbn [orb]. rewrite IH by done. by rewrite <- app_assoc.
Qed.
Lemma words_start w l : plain w → w ≠ [] → words None (w ++ l) = words (Some w) l.
Proof.
  intros Hw Hne. destruct w as [|c w]; [done|]. apply Forall_cons in Hw as [Hc Hw]. unfold separates in Hc.
  apply orb_false_iff in Hc as [Hc H10]. apply orb_false_iff in Hc as [_ H32]. cbn [app words]. rewrite H32, H10. by rewrite words_plain.
Qed.
(** Arguments joined and split again. *)
Lemma words_joined ws : Forall (λ w, plain w ∧ w ≠ []) ws → words None (joined ws) = ws.
Proof.
  induction ws as [|w ws IH]; intros Hws; [done|]. apply Forall_cons in Hws as [[Hw Hne] Hws].
  destruct ws as [|w' ws].
  - cbn [joined]. rewrite <- (app_nil_r w) at 1. by rewrite words_start.
  - change (joined (w :: w' :: ws)) with (w ++ 32 :: joined (w' :: ws)). rewrite words_start by done.
    cbn [words]. rewrite (IH Hws). done.
Qed.

(** Splitting off a word, and the spaces before one. *)
Lemma span_word l : ∃ w r, l = w ++ r ∧ plain w ∧ match r with [] => True | c :: _ => c = 0 ∨ c = 32 ∨ c = 10 end.
Proof.
  induction l as [|c l (w & r & -> & Hw & Hr)]; [exists [], []; split; [done|split; [constructor|done]]|].
  destruct (separates c) eqn:E.
  - exists [], (c :: w ++ r). split; [done|]. split; [constructor|]. unfold separates in E.
    apply orb_true_iff in E as [E|E]; [apply orb_true_iff in E as [E|E]|]; apply Z.eqb_eq in E; tauto.
  - exists (c :: w), r. split; [done|]. split; [by constructor|done].
Qed.
Lemma span_spaces l : ∃ k r, l = replicate k 32 ++ r ∧ match r with [] => True | c :: _ => c ≠ 32 end ∧ words None l = words None r.
Proof.
  induction l as [|c l (k & r & -> & Hr & E)]; [by exists 0%nat, []|].
  destruct (Z.eq_dec c 32) as [->|Hne].
  - exists (S k), r. split; [done|]. split; [done|]. cbn [words]. exact E.
  - by exists 0%nat, (c :: replicate k 32 ++ r).
Qed.

(** ** Strings in memory *)

(** Reading up to a byte that stops. *)
Lemma to_separator_ok w : ∀ fuel m a, load_bytes m a (length w) = w → plain w → separates (mget m (a + Z.of_nat (length w))) = true →
  (length w < fuel)%nat → to_separator fuel m a = Some (a + Z.of_nat (length w)).
Proof.
  induction w as [|c w IH]; intros [|fuel] m a Hl Hw Hs Hf; try (cbn [length] in Hf; lia); cbn [to_separator].
  - cbn [length] in *. rewrite Z.add_0_r in *. by rewrite Hs.
  - cbn [length load_bytes] in *. injection Hl as Hc Hl. apply Forall_cons in Hw as [Hc' Hw]. rewrite Hc, Hc'.
    rewrite Nat2Z.inj_succ in *. rewrite IH; [f_equal; lia|done|done| |lia].
    by replace (a + 1 + Z.of_nat (length w)) with (a + Z.succ (Z.of_nat (length w))) by lia.
Qed.
Lemma skip_spaces_ok k : ∀ fuel m a l, cstr m a (replicate k 32 ++ l) → match l with [] => True | c :: _ => c ≠ 32 end →
  (k < fuel)%nat → skip_spaces fuel m a = Some (a + Z.of_nat k) ∧ cstr m (a + Z.of_nat k) l.
Proof.
  induction k as [|k IH]; intros [|fuel] m a l Hc Hl Hf; try lia; cbn [skip_spaces].
  - rewrite Z.add_0_r. split; [|done]. destruct l as [|c l].
    + apply cstr_nil in Hc. by rewrite Hc.
    + apply cstr_cons in Hc as (-> & _ & _). by rewrite (proj2 (Z.eqb_neq c 32)).
  - cbn [replicate app] in Hc. apply cstr_cons in Hc as (-> & _ & Hc). change (32 =? 32) with true. cbn iota.
    destruct (IH fuel m (a + 1) l Hc Hl ltac:(lia)) as [E Hc']. replace (a + Z.of_nat (S k)) with (a + 1 + Z.of_nat k) by lia. done.
Qed.
(** The first part of a string, cut off. *)
Lemma cstr_cut m a w r : cstr m a (w ++ r) → cstr (mset m (a + Z.of_nat (length w)) 0) a w.
Proof.
  intros (Hl & _ & Hz). apply Forall_app in Hz as [Hz _]. rewrite length_app, load_bytes_app in Hl.
  apply app_inj_1 in Hl as [Hl _]; [|by rewrite length_load_bytes].
  split; [|split; [apply mget_mset_eq|done]]. transitivity (load_bytes m a (length w)); [|done]. apply load_bytes_ext. intros i Hi. apply mget_mset_ne. lia.
Qed.

(** [ws] are the strings of the array of pointers at [a], all in [lo, hi). *)
Fixpoint argv (m : mem) (lo hi a : Z) (ws : list (list Z)) : Prop :=
  match ws with
  | [] => True
  | w :: ws =>
      (lo ≤ load32 m a ∧ load32 m a + Z.of_nat (length w) + 1 ≤ hi) ∧ cstr m (load32 m a) w ∧ argv m lo hi (a + 4) ws
  end.
Lemma argv_ext m m' lo hi lo' hi' ws : ∀ a, lo' ≤ lo → hi ≤ hi' → (∀ b, lo ≤ b < hi → mget m' b = mget m b) →
  (∀ b, a ≤ b < a + 4 * Z.of_nat (length ws) → mget m' b = mget m b) → argv m lo hi a ws → argv m' lo' hi' a ws.
Proof.
  induction ws as [|w ws IH]; intros a Hlo Hhi H1 H2 Hw; [done|]. cbn [argv length] in *. destruct Hw as ((B1 & B2) & Hc & Hw).
  assert (load32 m' a = load32 m a) as -> by (unfold load32; rewrite !H2 by lia; done).
  split; [lia|]. split; [|apply IH; [done|done|done| |done]; intros b Hb; apply H2; lia].
  apply (cstr_ext m); [|done]. intros i Hi. apply H1. lia.
Qed.

Lemma parse_stop rounds fuel args n scan m : (0 < rounds)%nat → (0 < fuel)%nat → mget m scan = 0 ∨ mget m scan = 10 →
  parse_arguments rounds fuel args n scan m = Some (n, mset m scan 0).
Proof.
  intros Hr Hf Hc. destruct rounds as [|rounds]; [lia|]. cbn [parse_arguments].
  assert (skip_spaces fuel m scan = Some scan) as -> by (destruct fuel; [lia|]; cbn [skip_spaces]; by destruct Hc as [-> | ->]).
  cbn [mbind option_bind]. by destruct Hc as [-> | ->].
Qed.

(** What the loop leaves in memory for the words [ws]. *)
Record parsed (args n scan end_ : Z) (m m' : mem) (ws : list (list Z)) : Prop := {
  pa_argv : argv m' scan end_ (args + 4 * n) ws;
  pa_count : scan + 2 * Z.of_nat (length ws) ≤ end_;
  pa_rest b : ¬ scan ≤ b < end_ → ¬ args + 4 * n ≤ b < args + 4 * (n + Z.of_nat (length ws)) → mget m' b = mget m b }.

Lemma parsed_nil args n scan k end_ m : 0 ≤ k → scan + k < end_ → parsed args n scan end_ m (mset m (scan + k) 0) [].
Proof. intros Hk He. split; [done|simpl; lia|]. intros b Hb _. apply mget_mset_ne. lia. Qed.
(** One more word in front: it stands at [p] and ends before [q]. *)
Lemma parsed_cons args n scan end_ p q m m1 m' w ws :
  scan ≤ p → p + Z.of_nat (length w) < q → q ≤ end_ → w ≠ [] → word32 p →
  args + 4 * (n + 1 + Z.of_nat (length ws)) ≤ scan ∨ end_ ≤ args + 4 * n →
  (∀ b, ¬ scan ≤ b < end_ → ¬ args + 4 * n ≤ b < args + 4 * (n + 1) → mget m1 b = mget m b) →
  load32 m1 (args + 4 * n) = p → cstr m1 p w → parsed args (n + 1) q end_ m1 m' ws → parsed args n scan end_ m m' (w :: ws).
Proof.
  intros H1 H2 H3 Hne Hp Ha Hm El Hc [P1 P2 P3].
  assert (1 ≤ Z.of_nat (length w)) as Hw1 by (destruct w; [done|]; simpl; lia).
  assert (load32 m' (args + 4 * n) = p) as Ep by (rewrite <- El; unfold load32; rewrite !P3 by lia; done).
  split; cbn [argv length] in *.
  - rewrite Ep. split; [lia|]. split.
    + apply (cstr_ext m1); [|done]. intros i Hi. apply P3; lia.
    + replace (args + 4 * n + 4) with (args + 4 * (n + 1)) by lia. eapply argv_ext; [..|exact P1]; [lia|lia|done|done].
  - lia.
  - intros b N1 N2. rewrite P3 by lia. apply Hm; lia.
Qed.

(** A word that was cut off the rest of the string. *)
Lemma parsed_cut args n scan end_ p m m1 m' w c r ws :
  let q := p + Z.of_nat (length w) in
  scan ≤ p → q + Z.of_nat (length r) + 2 = end_ → w ≠ [] → word32 p →
  args + 4 * (n + 1 + Z.of_nat (length ws)) ≤ scan ∨ end_ ≤ args + 4 * n → cstr m1 p (w ++ c :: r) → load32 m1 (args + 4 * n) = p →
  (∀ b, ¬ scan ≤ b < end_ → ¬ args + 4 * n ≤ b < args + 4 * (n + 1) → mget m1 b = mget m b) →
  parsed args (n + 1) (q + 1) end_ (mset m1 q 0) m' ws → parsed args n scan end_ m m' (w :: ws).
Proof.
  intros q Hp He Hne Hp32 Ha Hc El Hfr Hp'. apply (parsed_cons args n scan end_ p (q + 1) m (mset m1 q 0)); try done; try (unfold q in *; lia).
  - intros b N1 N2. rewrite mget_mset_ne by (unfold q in *; lia). by apply Hfr.
  - unfold load32 in *. by rewrite !mget_mset_ne by (unfold q in *; lia).
  - by apply cstr_cut with (c :: r).
Qed.
(** The rest of the round from a word on; [Hrec]: the rounds after it. *)
Lemma parse_word rounds fuel args n scan p m m1 w r :
  let end_ := p + Z.of_nat (length w) + Z.of_nat (length r) + 1 in
  (∀ l scan m, cstr m scan l → p + 2 ≤ scan → scan + Z.of_nat (length l) + 1 = end_ →
    ∃ m', parse_arguments rounds fuel args (n + 1) scan m = Some (n + 1 + Z.of_nat (length (words None l)), m') ∧
      parsed args (n + 1) scan end_ m m' (words None l)) →
  (length w < fuel)%nat → (0 < rounds)%nat → scan ≤ p → word32 p → w ≠ [] → plain w →
  match r with [] => True | c :: _ => c = 0 ∨ c = 32 ∨ c = 10 end →
  args + 4 * n + 2 * (Z.of_nat (length w + length r) + 1) ≤ scan ∨ end_ ≤ args + 4 * n →
  cstr m1 p (w ++ r) → load32 m1 (args + 4 * n) = p → (∀ b, ¬ args + 4 * n ≤ b < args + 4 * (n + 1) → mget m1 b = mget m b) →
  let ws := words (Some w) r in
  ∃ m', (scan ← to_separator fuel m1 p;
         if negb (mget m1 scan =? 0) then parse_arguments rounds fuel args (n + 1) (scan + 1) (mset m1 scan 0)
         else parse_arguments rounds fuel args (n + 1) scan m1) = Some (n + Z.of_nat (length ws), m') ∧
    parsed args n scan end_ m m' ws.
Proof.
  intros end_ Hrec Hf Hr Hsp Hp Hne Hw Hsep Ha Hc El Hfr ws. pose proof (cstr_drop_app _ _ _ _ Hc) as Hcr.
  assert (1 ≤ Z.of_nat (length w)) as Hw1 by (destruct w; [done|]; simpl; lia).
  pose proof Hc as (Hlw & _ & Hz). rewrite length_app, load_bytes_app in Hlw.
  apply app_inj_1 in Hlw as [Hlw _]; [|by rewrite length_load_bytes].
  rewrite (to_separator_ok w fuel m1 p Hlw Hw); [|destruct r as [|c r]|done].
  2:{ apply cstr_nil in Hcr. by rewrite Hcr. }
  2:{ apply cstr_cons in Hcr as (-> & _ & _). unfold separates. by destruct Hsep as [-> | [-> | ->]]. }
  cbn [mbind option_bind]. destruct r as [|c r].
  - pose proof (proj1 (cstr_nil _ _) Hcr) as H0. rewrite H0. cbn [negb Z.eqb]. rewrite parse_stop by (lia || by left).
    eexists. split; [reflexivity|]. subst ws. cbn [length words] in *. rewrite app_nil_r in Hc.
    apply (parsed_cons args n scan end_ p end_ m m1 _ w []); try done; try (unfold end_; cbn [length] in *; lia).
    { intros b _ N. by apply Hfr. }
    split; [done|simpl; lia|]. intros b _ _. rewrite mget_mset. case_decide as Eb; [|done]. by rewrite <- Eb, H0.
  - pose proof (proj1 (cstr_cons _ _ _ _) Hcr) as (Ec & Hnz & Hcr'). rewrite Ec, (proj2 (Z.eqb_neq c 0)) by done. cbn [negb].
    set (q := p + Z.of_nat (length w)) in *. cbn [length] in *.
    destruct (Hrec r (q + 1) (mset m1 q 0)) as (m' & E & Hp').
    { apply (cstr_ext m1); [|done]. intros i Hi. apply mget_mset_ne. lia. }
    { lia. } { unfold end_. lia. }
    assert (ws = w :: words None r) as -> by (unfold ws; cbn [words]; by destruct Hsep as [-> | [-> | ->]]).
    exists m'. split; [rewrite E; cbn [length]; do 2 f_equal; lia|]. pose proof (pa_count _ _ _ _ _ _ _ Hp') as Hcount.
    apply (parsed_cut args n scan end_ p m m1 m' w c r); try done; try (unfold q, end_ in *; lia).
    intros b _ N. by apply Hfr.
Qed.

Lemma parse_ok rounds : ∀ fuel l args n scan m, cstr m scan l → (length l < rounds)%nat → (length l < fuel)%nat →
  let end_ := scan + Z.of_nat (length l) + 1 in
  let ws := words None l in
  0 ≤ n → 0 ≤ scan → end_ ≤ 2 ^ 32 → args + 4 * n + 2 * (Z.of_nat (length l) + 1) ≤ scan ∨ end_ ≤ args + 4 * n →
  ∃ m', parse_arguments rounds fuel args n scan m = Some (n + Z.of_nat (length ws), m') ∧ parsed args n scan end_ m m' ws.
Proof.
  induction rounds as [|rounds IH]; intros fuel l args n scan m Hc Hr Hf end_ ws Hn Hs He Ha; [lia|].
  destruct (span_spaces l) as (k & r & -> & Hh & Ew). subst ws end_. rewrite Ew. clear Ew.
  rewrite length_app, length_replicate in *.
  destruct (skip_spaces_ok k fuel m scan r Hc Hh ltac:(lia)) as [Ek Hr1]. clear Hc.
  destruct r as [|c r].
  { pose proof (proj1 (cstr_nil _ _) Hr1) as H0. cbn [parse_arguments]. rewrite Ek. cbn [mbind option_bind]. rewrite H0.
    change ((0 =? 0) || (0 =? 10)) with true. cbn iota. eexists. split; [by rewrite Z.add_0_r|]. apply parsed_nil; simpl; lia. }
  pose proof (proj1 (cstr_cons _ _ _ _) Hr1) as (Ec & Hnz & _). cbn [parse_arguments]. rewrite Ek. cbn [mbind option_bind]. rewrite Ec.
  rewrite (proj2 (Z.eqb_neq c 0)) by done. destruct (Z.eqb_spec c 10) as [->|H10]; cbn [orb].
  { eexists. split; [by rewrite Z.add_0_r|]. apply parsed_nil; simpl; lia. }
  destruct (span_word (c :: r)) as (w & r' & E & Hw & Hsep).
  assert (w ≠ []) as Hne by (intros ->; cbn [app] in E; rewrite <- E in Hsep; lia).
  assert (1 ≤ length w)%nat as Hw1 by (destruct w; [done|]; simpl; lia).
  rewrite E in *. clear E Ec Hh H10 Hnz. rewrite length_app in *. set (p := scan + Z.of_nat k) in *.
  rewrite words_start by done. set (m1 := store32 m (args + 4 * n) p).
  replace (scan + Z.of_nat (k + (length w + length r')) + 1) with (p + Z.of_nat (length w) + Z.of_nat (length r') + 1) by lia.
  destruct (parse_word rounds fuel args n scan p m m1 w r') as (m' & E' & Hp'); try done; try lia.
  - intros l scan' m0 Hc0 Hp0 He0.
    destruct (IH fuel l args (n + 1) scan' m0 Hc0) as (m' & E & Hp'); [lia..|]. rewrite He0 in Hp'. by exists m'.
  - apply (cstr_ext m); [|done]. intros i Hi. rewrite length_app in Hi. apply frame_store32. lia.
  - unfold m1. rewrite load32_store32. apply u32_small. lia.
  - intros b Hb. apply frame_store32. lia.
  - exists m'. split; [exact E'|exact Hp'].
Qed.

(** The arrays of [execute] lie apart from each other and from the command. *)
Record execute_arrays (command buf args : Z) (l : list Z) : Prop := {
  ea_buf : 0 ≤ buf ∧ buf + 1026 ≤ 2 ^ 32;
  ea_args : buf + 1026 ≤ args ∨ args + 4096 ≤ buf;
  ea_command : command + Z.of_nat (length l) < buf ∨ buf + 1026 ≤ command }.

(** The last word, when nothing follows. *)
Lemma parsed_one args n p m m1 w : w ≠ [] → word32 p →
  (∀ b, ¬ p ≤ b < p + Z.of_nat (length w) + 1 → ¬ args + 4 * n ≤ b < args + 4 * (n + 1) → mget m1 b = mget m b) →
  load32 m1 (args + 4 * n) = p → cstr m1 p w → args + 4 * (n + 1) ≤ p ∨ p + Z.of_nat (length w) + 1 ≤ args + 4 * n →
  parsed args n p (p + Z.of_nat (length w) + 1) m m1 [w].
Proof.
  intros Hne Hp Hm El Hc Ha. apply (parsed_cons args n p _ p (p + Z.of_nat (length w) + 1) m m1); try done; try lia.
  { cbn [length]. lia. } split; [done|simpl; lia|done].
Qed.
(** The first word and the loop, if there is more. *)
Lemma first_word fuel args p m m1 w r :
  let end_ := p + Z.of_nat (length w) + Z.of_nat (length r) + 1 in
  let q := p + Z.of_nat (length w) in
  let ws := words (Some w) r in
  (length w + length r < fuel)%nat → 0 ≤ p → end_ ≤ 2 ^ 32 → w ≠ [] → plain w →
  match r with [] => True | c :: _ => c = 0 ∨ c = 32 ∨ c = 10 end →
  args + 2 * (Z.of_nat (length w + length r) + 1) ≤ p ∨ end_ ≤ args →
  cstr m1 p (w ++ r) → load32 m1 args = p → (∀ b, ¬ p ≤ b < end_ → ¬ args ≤ b < args + 4 → mget m1 b = mget m b) →
  ∃ m', (if negb (mget m1 q =? 0) then parse_arguments fuel fuel args 1 (q + 1) (mset m1 q 0) else Some (1, m1)) =
      Some (Z.of_nat (length ws), m') ∧ parsed args 0 p end_ m m' ws.
Proof.
  intros end_ q ws Hf Hp He Hne Hw Hsep Ha Hc El Hfr. pose proof (cstr_drop_app _ _ _ _ Hc) as Hcr. fold q in Hcr.
  assert (1 ≤ Z.of_nat (length w)) as Hw1 by (destruct w; [done|]; simpl; lia).
  destruct r as [|c r].
  - pose proof (proj1 (cstr_nil _ _) Hcr) as ->. cbn [negb Z.eqb]. exists m1. split; [done|].
    replace end_ with (p + Z.of_nat (length w) + 1) by (unfold end_; simpl; lia). rewrite app_nil_r in Hc. cbn [length] in *.
    apply parsed_one; try done; try (rewrite ?Z.mul_0_r, ?Z.add_0_r; unfold end_ in *; lia || done).
    intros b N1 N2. apply Hfr; unfold end_; lia.
  - pose proof (proj1 (cstr_cons _ _ _ _) Hcr) as (-> & Hnz & Hcr'). rewrite (proj2 (Z.eqb_neq c 0)) by done. cbn [negb]. cbn [length] in *.
    destruct (parse_ok fuel fuel r args 1 (q + 1) (mset m1 q 0)) as (m' & E & Hp').
    { apply (cstr_ext m1); [|done]. intros i Hi. apply mget_mset_ne. lia. }
    { lia. } { lia. } { lia. } { unfold q. lia. } { unfold q, end_ in *. lia. } { unfold q, end_ in *. lia. }
    assert (ws = w :: words None r) as -> by (unfold ws; cbn [words]; by destruct Hsep as [-> | [-> | ->]]).
    exists m'. split; [rewrite E; cbn [length]; do 2 f_equal; lia|]. pose proof (pa_count _ _ _ _ _ _ _ Hp') as Hcount.
    replace (q + 1 + Z.of_nat (length r) + 1) with end_ in * by (unfold q, end_; lia).
    apply (parsed_cut args 0 p end_ p m m1 m' w c r); try done; try (unfold q, end_ in *; lia).
    + by rewrite Z.mul_0_r, Z.add_0_r.
    + intros b N1 N2. apply Hfr; lia.
Qed.

Lemma split_command_ok fuel command buf args m l :
  execute_arrays command buf args l → cstr m command l → (length l ≤ 1023)%nat → (1026 < fuel)%nat →
  let ws := command_words l in
  ∃ m', split_command fuel command buf args m = Some (Z.of_nat (length ws), m') ∧
    argv m' buf (buf + Z.of_nat (length l) + 3) args ws ∧ load32 m' (args + 4 * Z.of_nat (length ws)) = 0 ∧
    2 * Z.of_nat (length ws) ≤ Z.of_nat (length l) + 3 ∧
    ∀ b, ¬ buf ≤ b < buf + Z.of_nat (length l) + 3 → ¬ args ≤ b < args + 4 * (Z.of_nat (length ws) + 1) → mget m' b = mget m b.
Proof.
  intros [[B1 B2] HA HC] Hc Hl Hf ws. unfold split_command.
  set (m0 := mset (mset m buf 46) (buf + 1) 47).
  assert (cstr m0 command l) as Hc0.
  { apply (cstr_ext m); [|done]. intros i Hi. unfold m0. rewrite !mget_mset_ne by lia. done. }
  rewrite (ece391_strcpy_cstr m0 (buf + 2) command l Hc0) by lia. cbn [mbind option_bind].
  set (m2 := store_bytes m0 (buf + 2) (l ++ [0])). destruct (span_word l) as (w & r & -> & Hw & Hsep). rewrite length_app in *.
  pose proof (cstr_byte _ _ _ Hc) as Hby. pose proof Hc as (_ & _ & Hz).
  assert (cstr m2 (buf + 2) (w ++ r)) as Hc2 by (by apply cstr_store).
  set (m3 := store32 m2 args buf).
  assert (∀ b, buf ≤ b < buf + 1026 → mget m3 b = mget m2 b) as Hm3 by (intros b Hb; apply frame_store32; lia).
  assert (plain ([46; 47] ++ w)) as Hw' by (by repeat constructor).
  assert (cstr m3 buf (([46; 47] ++ w) ++ r)) as Hc3.
  { cbn [app]. apply cstr_cons. split; [|split; [done|apply cstr_cons; split; [|split; [done|]]]].
    - rewrite Hm3 by lia. unfold m2. rewrite mget_store_bytes_out by lia. unfold m0. rewrite mget_mset_ne by lia. apply mget_mset_eq.
    - rewrite Hm3 by lia. unfold m2. rewrite mget_store_bytes_out by lia. apply mget_mset_eq.
    - replace (buf + 1 + 1) with (buf + 2) by lia. apply (cstr_ext m2); [|done]. intros i Hi. rewrite length_app in Hi. apply Hm3. lia. }
  set (w1 := [46; 47] ++ w) in *. assert (Z.of_nat (length w1) = Z.of_nat (length w) + 2) as Hl1 by (unfold w1; simpl; lia).
  set (end_ := buf + Z.of_nat (length w + length r) + 3).
  assert (word32 buf) as Hb32 by lia. assert (w1 ≠ []) as Hne by done.
  assert (load32 m3 args = buf) as El by (unfold m3; rewrite load32_store32; by apply u32_small).
  assert (∀ b, ¬ buf ≤ b < end_ → ¬ args ≤ b < args + 4 → mget m3 b = mget m b) as Hfr.
  { intros b N1 N2. unfold m3. rewrite (frame_store32 m2 args buf b) by lia. unfold m2.
    rewrite mget_store_bytes_out by (rewrite !length_app; simpl; unfold end_ in *; lia). unfold m0. rewrite !mget_mset_ne by (unfold end_ in *; lia). done. }
  assert (load_bytes m2 (buf + 2) (length w) = w) as Hlw.
  { destruct Hc2 as (E & _). rewrite length_app, load_bytes_app in E. apply app_inj_1 in E as [E _]; [exact E|by rewrite length_load_bytes]. }
  pose proof (cstr_drop_app _ _ _ _ Hc2) as Hcr. clearbody m0. set (q := buf + 2 + Z.of_nat (length w)) in *.
  assert (separates (mget m2 q) = true) as Hsq.
  { destruct r as [|c r]; [apply cstr_nil in Hcr; by rewrite Hcr|]. apply cstr_cons in Hcr as (-> & _ & _).
    unfold separates. by destruct Hsep as [-> | [-> | ->]]. }
  rewrite (to_separator_ok w fuel m2 (buf + 2) Hlw Hw Hsq) by lia. fold q. cbn [mbind option_bind].
  assert (ws = words (Some w1) r) as -> by (unfold ws, command_words; by rewrite words_plain).
  destruct (first_word fuel args buf m m3 w1 r) as (m' & E & [P1 P2 P3]); try done; try lia.
  { intros b N1 N2. apply Hfr; unfold end_; lia. }
  replace (buf + Z.of_nat (length w1) + Z.of_nat (length r) + 1) with end_ in * by (unfold end_; lia).
  replace (buf + Z.of_nat (length w1)) with q in E by (unfold q; lia). rewrite E. cbn [mbind option_bind].
  set (ws := words (Some w1) r) in *. set (m'' := store32 m' (args + 4 * Z.of_nat (length ws)) 0).
  exists m''. rewrite Z.mul_0_r, Z.add_0_r in P1. split; [done|]. split; [|split; [|split]].
  - apply (argv_ext m' m'' buf end_); try lia; [intros b Hb; apply frame_store32; unfold end_ in *; lia| |exact P1].
    intros b Hb. apply frame_store32. lia.
  - unfold m''. by rewrite load32_store32.
  - unfold end_ in *. lia.
  - intros b N1 N2. unfold m''. rewrite (frame_store32 m' _ 0 b) by lia. apply P3; lia.
Qed.

(** ** Joining them again *)

(** The arguments fit with their NUL. *)
Definition fits (ws : list (list Z)) (n : Z) : bool := Z.of_nat (length (joined ws)) + 1 <=? n.
Lemma joined_cons w w' ws : joined (w :: w' :: ws) = w ++ 32 :: joined (w' :: ws).
Proof. done. Qed.

Record joined_at (buf nbytes r : Z) (m m' : mem) (ws : list (list Z)) : Prop := {
  ja_result : r = if fits ws nbytes then 0 else -1;
  ja_string : fits ws nbytes = true → cstr m' buf (joined ws);
  ja_rest b : ¬ buf ≤ b < buf + Z.max 0 nbytes + 1 → mget m' b = mget m b;
  ja_bound b : fits ws nbytes = true → ¬ buf ≤ b < buf + nbytes → mget m' b = mget m b }.

Lemma joined_nil buf nbytes m : 
  ∃ r m', (if nbytes <? 1 then Some (-1, m) else Some (0, mset m buf 0)) = Some (r, m') ∧ joined_at buf nbytes r m m' [].
Proof.
  destruct (Z.ltb_spec nbytes 1) as [Hn|Hn]; eexists _, _; (split; [reflexivity|]); split; unfold fits; cbn [joined length].
  - by rewrite (proj2 (Z.leb_gt _ _)) by lia.
  - rewrite (proj2 (Z.leb_gt _ _)) by lia. done.
  - done.
  - done.
  - by rewrite (proj2 (Z.leb_le _ _)) by lia.
  - intros _. apply cstr_nil, mget_mset_eq.
  - intros b Hb. apply mget_mset_ne. lia.
  - intros b _ Hb. apply mget_mset_ne. lia.
Qed.
(** A word in front, after which the rest was joined from [m1] on. *)
Lemma cstr_word m1 m' buf w k : load_bytes m1 buf (length w) = w → Forall (λ c, c ≠ 0) w →
  (∀ b, buf ≤ b < buf + Z.of_nat (length w) → mget m' b = mget m1 b) → cstr m' (buf + Z.of_nat (length w)) k → cstr m' buf (w ++ k).
Proof.
  intros Hl Hw Hm (K1 & K2 & K3). split; [|split; [|by apply Forall_app]].
  - rewrite length_app, load_bytes_app. f_equal; [|done]. rewrite <- Hl at 2. apply load_bytes_ext. intros i Hi. apply Hm. lia.
  - rewrite length_app, Nat2Z.inj_add, Z.add_assoc. exact K2.
Qed.

(** A word that does not fit, and one that does, with a space behind it. *)
Lemma joined_refused buf nbytes w ws m m' : nbytes < Z.of_nat (length w) + 1 ∨ (nbytes < Z.of_nat (length w) + 2 ∧ ws ≠ []) →
  (∀ b, ¬ buf ≤ b < buf + Z.max 0 nbytes + 1 → mget m' b = mget m b) → joined_at buf nbytes (-1) m m' (w :: ws).
Proof.
  intros Hn Hm. assert (fits (w :: ws) nbytes = false) as E.
  { unfold fits. apply Z.leb_gt. destruct ws as [|w' ws]; [cbn [joined]; destruct Hn as [Hn|[_ Hn]]; [lia|done]|].
    rewrite joined_cons, length_app. cbn [length]. lia. }
  split; rewrite ?E; done.
Qed.
Lemma joined_word buf nbytes r w w' ws m m' : Forall (λ c, word8 c) w → Forall (λ c, c ≠ 0) w → Z.of_nat (length w) < nbytes →
  let q := buf + Z.of_nat (length w) in
  let m2 := mset (store_bytes m buf (w ++ [0])) q 32 in
  joined_at (q + 1) (nbytes - Z.of_nat (length w) - 1) r m2 m' (w' :: ws) → joined_at buf nbytes r m m' (w :: w' :: ws).
Proof.
  intros Hby Hz Hn q m2 [J1 J2 J3 J4].
  assert (fits (w :: w' :: ws) nbytes = fits (w' :: ws) (nbytes - Z.of_nat (length w) - 1)) as E.
  { unfold fits. rewrite joined_cons, length_app. cbn [length].
    destruct (Z.leb_spec (Z.of_nat (length (joined (w' :: ws))) + 1) (nbytes - Z.of_nat (length w) - 1)); [apply Z.leb_le|apply Z.leb_gt]; lia. }
  assert (∀ b, ¬ buf ≤ b < q + 1 → mget m2 b = mget m b) as Hm2.
  { intros b Hb. unfold m2. rewrite mget_mset_ne by lia. apply mget_store_bytes_out. rewrite length_app. simpl. lia. }
  split; rewrite ?E.
  - done.
  - intros Hf. rewrite joined_cons. apply (cstr_word m2); [|done| |].
    + unfold m2. rewrite store_bytes_app. transitivity (load_bytes (store_bytes m buf w) buf (length w)); [|by apply load_store_bytes].
      apply load_bytes_ext. intros i Hi. cbn [store_bytes]. by rewrite !mget_mset_ne by lia.
    + intros b Hb. apply J3. lia.
    + fold q. apply cstr_cons. split; [|split; [done|by apply J2]]. rewrite J3 by lia. apply mget_mset_eq.
  - intros b Hb. rewrite J3 by lia. apply Hm2. lia.
  - intros b Hf Hb. rewrite J4 by (done || lia). apply Hm2. lia.
Qed.
Lemma joined_last buf nbytes w m : Forall (λ c, word8 c) w → Forall (λ c, c ≠ 0) w → Z.of_nat (length w) ≤ nbytes →
  let q := buf + Z.of_nat (length w) in
  let m1 := store_bytes m buf (w ++ [0]) in
  ∃ r m', (if nbytes - Z.of_nat (length w) <? 1 then Some (-1, m1) else Some (0, mset m1 q 0)) = Some (r, m') ∧ joined_at buf nbytes r m m' [w].
Proof.
  intros Hby Hz Hn q m1. assert (∀ b, ¬ buf ≤ b < q + 1 → mget m1 b = mget m b) as Hm1.
  { intros b Hb. apply mget_store_bytes_out. rewrite length_app. simpl. lia. }
  destruct (Z.ltb_spec (nbytes - Z.of_nat (length w)) 1) as [Hl|Hl]; eexists _, _; (split; [reflexivity|]).
  - apply joined_refused; [lia|]. intros b Hb. apply Hm1. lia.
  - assert (fits [w] nbytes = true) as E by (unfold fits; cbn [joined]; apply Z.leb_le; lia).
    split; rewrite ?E; [done| | |].
    + intros _. cbn [joined]. apply (cstr_ext m1); [|by apply cstr_store]. intros i Hi. rewrite mget_mset. case_decide as Ei; [|done].
      replace (buf + i) with q by lia. symmetry. exact (cstr_end _ _ _ (cstr_store m buf w Hby Hz)).
    + intros b Hb. rewrite mget_mset_ne by lia. apply Hm1. lia.
    + intros b _ Hb. rewrite mget_mset_ne by lia. apply Hm1. lia.
Qed.

Lemma join_ok ws : ∀ rounds base lo hi argc idx buf nbytes m,
  argv m lo hi (base + 4 * idx) ws → argc = idx + Z.of_nat (length ws) → (length ws < rounds)%nat → 0 ≤ idx →
  nbytes < 2 ^ 31 → hi < lo + 2 ^ 31 → 
  (buf + Z.max 0 nbytes + 1 ≤ lo ∨ hi ≤ buf) → (buf + Z.max 0 nbytes + 1 ≤ base ∨ base + 4 * argc ≤ buf) →
  ∃ r m', join_arguments rounds base argc idx buf nbytes m = Some (r, m') ∧ joined_at buf nbytes r m m' ws.
Proof.
  induction ws as [|w ws IH]; intros rounds base lo hi argc idx buf nbytes m Hv Hargc Hr Hi Hn Hh Hbl Hba;
    (destruct rounds as [|rounds]; [simpl in Hr; lia|]); cbn [join_arguments].
  { rewrite (proj2 (Z.ltb_ge _ _)) by (simpl in Hargc; lia). apply joined_nil. }
  cbn [argv length] in *. destruct Hv as ([V1 V2] & Hc & Hv). rewrite (proj2 (Z.ltb_lt _ _)) by lia.
  set (p := load32 m (base + 4 * idx)) in *. pose proof Hc as (_ & _ & Hz). pose proof (cstr_byte _ _ _ Hc) as Hby.
  rewrite (ece391_strlen_cstr m p w Hc). rewrite s32_u32, s32_small by lia.
  rewrite Z.gtb_ltb. destruct (Z.ltb_spec nbytes (Z.of_nat (length w))) as [Hs|Hs].
  { eexists _, _. split; [reflexivity|]. apply joined_refused; [lia|done]. }
  rewrite (ece391_strcpy_cstr m buf p w Hc) by lia. cbn [mbind option_bind].
  destruct ws as [|w' ws].
  { rewrite Z.geb_leb, (proj2 (Z.leb_le _ _)) by (simpl in Hargc; lia). by apply joined_last. }
  rewrite Z.geb_leb, (proj2 (Z.leb_gt _ _)) by (cbn [length] in Hargc; lia).
  destruct (Z.ltb_spec (nbytes - Z.of_nat (length w)) 1) as [Hl|Hl].
  { eexists _, _. split; [reflexivity|]. apply joined_refused; [by right; split; [lia|]|].
    intros b Hb. apply mget_store_bytes_out. rewrite length_app. simpl. lia. }
  set (q := buf + Z.of_nat (length w)). set (m2 := mset (store_bytes m buf (w ++ [0])) q 32).
  assert (∀ b, ¬ buf ≤ b < q + 1 → mget m2 b = mget m b) as Hm2.
  { intros b Hb. unfold m2. rewrite mget_mset_ne by lia. apply mget_store_bytes_out. rewrite length_app. simpl. lia. }
  destruct (IH rounds base lo hi argc (idx + 1) (q + 1) (nbytes - Z.of_nat (length w) - 1) m2) as (r & m' & E & Hj); try (cbn [length] in *; lia).
  { replace (base + 4 * (idx + 1)) with (base + 4 * idx + 4) by lia. apply (argv_ext m m2 lo hi lo hi); [lia|lia| | |exact Hv];
      intros b Hb; apply Hm2; cbn [length] in *; lia. }
  exists r, m'. split; [exact E|]. apply joined_word; [done|done|lia|exact Hj].
Qed.

(** ** A directory entry *)

Lemma copy_name_ok l : ∀ fuel n copied to from m, cstr m from l → 0 ≤ copied < n → n ≤ 32 → (Z.to_nat (33 - copied) ≤ fuel)%nat →
  to + 32 - copied ≤ from ∨ from + Z.of_nat (length l) + 1 ≤ to → ∀ nbytes, n = Z.min nbytes 32 →
  copy_name fuel nbytes copied to from m =
    if Z.of_nat (length l) <? n - copied then Some (false, copied + Z.of_nat (length l), to + Z.of_nat (length l), store_bytes m to l)
    else Some (true, n, to + (n - copied), store_bytes m to (take (Z.to_nat (n - copied)) l)).
Proof.
  induction l as [|c l IH]; intros [|fuel] n copied to from m Hc Hn Hn32 Hf Ha nbytes En; try lia; cbn [copy_name].
  - apply cstr_nil in Hc. rewrite Hc. cbn [length]. rewrite (proj2 (Z.ltb_lt _ _)) by lia. by rewrite !Z.add_0_r.
  - apply cstr_cons in Hc as (Ec & Hz & Hc). rewrite Ec, (proj2 (Z.eqb_neq c 0)) by done. cbn [length] in *.
    replace (Z.to_nat (n - copied)) with (S (Z.to_nat (n - (copied + 1)))) by lia.
    destruct (decide (copied + 1 = n)) as [E|E].
    + rewrite (proj2 (Z.ltb_ge _ _)) by lia. replace (n - (copied + 1)) with 0 by lia. change (Z.to_nat 0) with 0%nat. cbn [firstn store_bytes].
      replace (n - copied) with 1 by lia. destruct (Z.eqb_spec (copied + 1) nbytes) as [E'|E']; [by replace nbytes with n by lia|].
      rewrite (proj2 (Z.eqb_eq 32 _)) by lia. by replace n with 32 by lia.
    + rewrite !(proj2 (Z.eqb_neq _ _)) by lia. rewrite (IH fuel n) with (nbytes := nbytes); try lia.
      2:{ apply (cstr_ext m); [|done]. intros i Hi. apply mget_mset_ne. lia. }
      cbn [store_bytes firstn]. replace (n - copied) with (n - (copied + 1) + 1) by lia.
      destruct (Z.ltb_spec (Z.of_nat (length l)) (n - (copied + 1)));
        [rewrite (proj2 (Z.ltb_lt _ _)) by lia|rewrite (proj2 (Z.ltb_ge _ _)) by lia]; do 2 f_equal; [|f_equal; lia].
      f_equal; [f_equal; lia|lia].
Qed.
Lemma pad_name_ok fuel : ∀ copied to m nbytes, let n := Z.min nbytes 32 in 0 ≤ copied → copied ≤ n → (Z.to_nat (n - copied) ≤ fuel)%nat →
  pad_name fuel nbytes copied to m = (n, store_bytes m to (replicate (Z.to_nat (n - copied)) 0)).
Proof.
  induction fuel as [|fuel IH]; intros copied to m nbytes n H0 Hc Hf; cbn [pad_name].
  - replace (n - copied) with 0 by lia. cbn. f_equal. lia.
  - rewrite !Z.gtb_ltb. destruct (decide (copied = n)) as [E|E].
    + replace ((copied <? nbytes) && (copied <? 32)) with false.
      * replace (n - copied) with 0 by lia. cbn. f_equal. lia.
      * symmetry. apply andb_false_iff. destruct (Z.le_gt_cases nbytes 32); [left|right]; apply Z.ltb_ge; lia.
    + rewrite (proj2 (Z.ltb_lt copied nbytes)), (proj2 (Z.ltb_lt copied 32)) by lia. cbn [andb].
      rewrite IH by lia. fold n. replace (Z.to_nat (n - copied)) with (S (Z.to_nat (n - (copied + 1)))) by lia. done.
Qed.
(** The name and zeros after it, as far as the buffer and 32 bytes go. *)
Lemma read_name_ok nbytes buf d_name m l : cstr m d_name l → 1 ≤ nbytes → buf + 32 ≤ d_name ∨ d_name + Z.of_nat (length l) + 1 ≤ buf →
  let n := Z.to_nat (Z.min nbytes 32) in
  read_name nbytes buf d_name m = Some (Z.of_nat n, store_bytes m buf (take n (l ++ replicate n 0))).
Proof.
  intros Hc Hn Ha n. unfold read_name. rewrite (copy_name_ok l 33 (Z.min nbytes 32)) with (nbytes := nbytes) by (done || lia).
  rewrite Z.sub_0_r. fold n. destruct (Z.ltb_spec (Z.of_nat (length l)) (Z.min nbytes 32)) as [Hl|Hl]; cbn [mbind option_bind].
  - rewrite pad_name_ok by lia. rewrite Z.add_0_l. rewrite take_app_ge, take_replicate by lia.
    rewrite <- store_bytes_app. f_equal. f_equal; [lia|]. do 3 f_equal. lia.
  - rewrite take_app_le by lia. f_equal. f_equal. lia.
Qed.

(** ** Properties *)

(** What [execute] makes of the end of the child. *)
Definition exit_code (status : wait_status) : Z :=
  match status with Exited status => status | Signaled signal => if 9 =? signal then -1 else 256 end.

(** C35: [execute] of the emulation refuses a command of more than 1023
    characters.  Any other is split in place: the child is started with a
    NULL-terminated array of pointers to the words of "./" and the command, all
    inside [buf], which together with the NULL take at most 513 of the 1024
    entries of [args]; nothing outside the two arrays has changed, and the
    result is the child's status, -1 for one killed with signal 9 and 256 for
    any other signal. *)
Theorem execute_builds_argv {H} `{Host H} fuel buf args command (e : emulator H) l :
  cstr (hmem (host e)) command l → Z.of_nat (length l) < 2 ^ 32 → execute_arrays command buf args l → (1026 < fuel)%nat →
  if decide (length l ≤ 1023)%nat then
    ∃ m', let ws := command_words l in
      argv m' buf (buf + 1026) args ws ∧ load32 m' (args + 4 * Z.of_nat (length ws)) = 0 ∧ Z.of_nat (length ws) + 1 ≤ 513 ∧
      (∀ b, ¬ buf ≤ b < buf + 1026 → ¬ args ≤ b < args + 4096 → mget m' b = mget (hmem (host e)) b) ∧
      emu_execute fuel buf args command e =
        ('(status, h) ← run_child buf args (set_hmem m' (host e)); Some (exit_code status, Emu (dir_fd e) (dir e) (mem_fd e) h))
  else emu_execute fuel buf args command e = Some (-1, e).
Proof.
  intros Hc Hl Ha Hf. pose proof (ece391_strlen_cstr _ _ _ Hc) as El. rewrite u32_small in El by lia.
  unfold emu_execute, asks, mbind, user_bind. rewrite El. case_decide as Hd.
  - rewrite (proj2 (Z.ltb_ge _ _)) by lia. destruct (split_command_ok fuel command buf args _ l Ha Hc Hd Hf) as (m' & E & V & N & B & F).
    cbv zeta. pose proof (proj2 (length_words l) (chars "./")) as Hw. fold (command_words l) in Hw.
    exists m'. split; [|split; [done|split; [lia|split]]].
    + apply (argv_ext m' m' buf (buf + Z.of_nat (length l) + 3)); try done; lia.
    + intros b N1 N2. apply F; lia.
    + unfold on_memory, on_host, mbind, option_bind. rewrite E. cbn [host dir_fd dir mem_fd].
      by destruct (run_child buf args _) as [[[] ?]|].
  - by rewrite (proj2 (Z.ltb_lt _ _)) by lia.
Qed.

(** C34: what [execute] splits the child's [getargs] puts together again: for a
    command of a name and words between single spaces, a child whose stack
    has the words at [start_esp], as [execv] promises, gets the text after the
    name, with its NUL, if that fits into [nbytes] and then nothing beyond is
    touched; otherwise it gets -1, and one byte behind the buffer at most. *)
Theorem arguments_roundtrip m start_esp lo hi buf nbytes name ws :
  plain name → Forall (λ w, plain w ∧ w ≠ []) ws →
  let command := command_words (name ++ 32 :: joined ws) in
  argv m lo hi (start_esp + 4) command → loads32 m start_esp = Z.of_nat (length command) →
  nbytes < 2 ^ 31 → hi < lo + 2 ^ 31 → buf + Z.max 0 nbytes + 1 ≤ lo ∨ hi ≤ buf →
  buf + Z.max 0 nbytes + 1 ≤ start_esp ∨ start_esp + 4 + 4 * Z.of_nat (length command) ≤ buf →
  ∃ r m', getargs_memory start_esp buf nbytes m = Some (r, m') ∧
    if Z.of_nat (length (joined ws)) + 1 <=? nbytes
    then r = 0 ∧ cstr m' buf (joined ws) ∧ frame buf (buf + nbytes) m m'
    else r = -1 ∧ frame buf (buf + Z.max 0 nbytes + 1) m m'.
Proof.
  intros Hname Hws command Hv Hargc Hn Hh H1 H2.
  assert (command = (chars "./" ++ name) :: ws) as Ec.
  { unfold command, command_words. rewrite words_plain by done. cbn [words]. change ((32 =? 32) || (32 =? 10)) with true. cbn iota.
    by rewrite words_joined. }
  rewrite Ec in *. clear command Ec. cbn [argv length] in *. destruct Hv as (_ & _ & Hv). unfold getargs_memory. rewrite Hargc.
  destruct (join_ok ws (S (Z.to_nat (Z.of_nat (S (length ws))))) (start_esp + 4) lo hi (Z.of_nat (S (length ws))) 1 buf nbytes m)
    as (r & m' & E & [J1 J2 J3 J4]); try lia.
  { by replace (start_esp + 4 + 4 * 1) with (start_esp + 4 + 4) by lia. }
  exists r, m'. split; [exact E|]. unfold fits in *. destruct (Z.leb_spec (Z.of_nat (length (joined ws)) + 1) nbytes).
  - split; [done|]. split; [by apply J2|]. intros b Hb. apply J4; [done|lia].
  - split; [done|]. intros b Hb. apply J3. lia.
Qed.

(** ** Examples *)

(** A machine on which every child ends with status 3. *)
Definition sample_host : Host mem := {|
  hmem m := m; set_hmem m _ := m;
  linux _ _ _ _ := λ m, Some (0, m); host_opendir _ := λ m, Some (0, m); host_readdir _ := λ m, Some (0, m);
  host_closedir _ := λ m, Some (0, m); host_open _ _ := λ m, Some (3, m); host_close _ := λ m, Some (0, m);
  host_mmap _ _ _ _ _ _ := λ m, Some (0, m); host_perror _ := λ m, Some ((), m);
  run_child _ _ := λ m, Some (Exited 3, m) |}.
Definition sample_command : mem := store_bytes ∅ 0x1000 (chars "cat  a b" ++ [10; 0]).

Lemma execute_builds_argv_witness :
  ∃ m', argv m' 0x2000 (0x2000 + 1026) 0x4000 [chars "./cat"; chars "a"; chars "b"] ∧ load32 m' (0x4000 + 4 * 3) = 0 ∧
    @emu_execute mem sample_host 1027 0x2000 0x4000 0x1000 (Emu (-1) 0 (-1) sample_command) = Some (3, Emu (-1) 0 (-1) m').
Proof.
  pose proof (@execute_builds_argv mem sample_host 1027 0x2000 0x4000 0x1000 (Emu (-1) 0 (-1) sample_command) (chars "cat  a b" ++ [10])) as Hx.
  rewrite decide_True in Hx by (vm_compute; lia).
  destruct Hx as (m' & V & N & _ & _ & E).
  - split; [vm_compute; reflexivity|]. split; [vm_compute; reflexivity|]. vm_compute. repeat constructor; discriminate.
  - vm_compute. reflexivity.
  - split; [lia|lia|left; vm_compute; reflexivity].
  - lia.
  - exists m'. split; [exact V|]. split; [exact N|exact E].
Defined.

(** The stack of a child: three pointers to "./cat", "a" and "b". *)
Definition sample_stack : mem :=
  store32 (store32 (store32 (store32 (store_bytes (store_bytes (store_bytes ∅ 0x7000 (chars "./cat" ++ [0]))
    0x7010 [97; 0]) 0x7020 [98; 0]) 0x6000 3) 0x6004 0x7000) 0x6008 0x7010) 0x600c 0x7020.
Lemma arguments_roundtrip_witness :
  ∃ m', getargs_memory 0x6000 0x5000 4 sample_stack = Some (0, m') ∧ cstr m' 0x5000 [97; 32; 98].
Proof.
  pose proof (arguments_roundtrip sample_stack 0x6000 0x7000 0x7030 0x5000 4 (chars "cat") [[97]; [98]]) as Hx.
  assert (∀ w, Forall (λ c, c ≠ 0) w → ∀ a, load_bytes sample_stack a (length w) = w → mget sample_stack (a + Z.of_nat (length w)) = 0 →
    cstr sample_stack a w) as Hc by (intros w H1 a H2 H3; by split_and!).
  destruct Hx as (r & m' & E & Hr & Hs & _).
  - repeat constructor.
  - repeat constructor; discriminate.
  - vm_compute command_words. cbn [argv]. assert (load32 sample_stack (0x6000 + 4) = 0x7000) as -> by (vm_compute; reflexivity).
    assert (load32 sample_stack (0x6000 + 4 + 4) = 0x7010) as -> by (vm_compute; reflexivity).
    assert (load32 sample_stack (0x6000 + 4 + 4 + 4) = 0x7020) as -> by (vm_compute; reflexivity).
    split_and!; try (simpl; lia); try done; apply Hc; try (vm_compute; reflexivity); repeat constructor; discriminate.
  - vm_compute. reflexivity.
  - lia.
  - lia.
  - lia.
  - left. lia.
  - subst r. exists m'. split; [exact E|exact Hs].
Defined.
