(* ===== verification/UserProg.v ===== *)
(** * The user programs

    [main] of the programs in src/syscalls, over the calls of UserSys.v.  The
    addresses of a program's string literals are given by [lit]; its arrays
    are at addresses of its stack. *)
From Stdlib Require Import Ascii String.
From S2P Require Import Prelude CMem LibString Screen Format Process Paging Kernel SysCalls UserLib UserSys.

Section programs.
Context {S : Type} `{UserSys S} (lit : list Z → Z).

Definition line (t : string) : list Z := chars t ++ [10].
Definition put (l : list Z) : user S () := ece391_fdputs 1 (lit l).
Definition puts_line (l : string) : user S () := ece391_fdputs 1 (lit (chars l ++ [10])).

(** ece391testprint.c, ece391cat.c, ece391ls.c *)
Definition testprint : user S Z := _ ← puts_line "Hello, if this ran, the program was correct. Yay!"; mret 0.

Fixpoint cat_loop (fuel : nat) (fd buf : Z) : user S Z :=
  match fuel with
  | O => λ _, None
  | Datatypes.S fuel =>
      cnt ← ece391_read fd buf 1024;
      if 0 =? cnt then mret 0
      else if -1 =? cnt then _ ← puts_line "file read failed"; mret 3
      else
        r ← ece391_write 1 buf cnt;
        if -1 =? r then mret 3 else cat_loop fuel fd buf
  end.
Definition cat (fuel : nat) (buf : Z) : user S Z :=
  r ← ece391_getargs buf 1024;
  if negb (0 =? r) then _ ← puts_line "could not read arguments"; mret 3
  else
    fd ← ece391_open buf;
    if -1 =? fd then _ ← puts_line "file not found"; mret 2
    else cat_loop fuel fd buf.

Definition SBUFSIZE := 33.
Fixpoint ls_loop (fuel : nat) (fd buf : Z) : user S Z :=
  match fuel with
  | O => λ _, None
  | Datatypes.S fuel =>
      cnt ← ece391_read fd buf (SBUFSIZE - 1);
      if 0 =? cnt then mret 0
      else if -1 =? cnt then _ ← puts_line "directory entry read failed"; mret 3
      else
        _ ← poke (buf + cnt) 10;
        r ← ece391_write 1 buf (cnt + 1);
        if -1 =? r then mret 3 else ls_loop fuel fd buf
  end.
Definition ls (fuel : nat) (buf : Z) : user S Z :=
  fd ← ece391_open (lit (chars "."));
  if -1 =? fd then _ ← puts_line "directory open failed"; mret 2
  else ls_loop fuel fd buf.
End programs.

(** ** Memory and views *)

Lemma user_same_refl m : user_same m m.
Proof. by intros a Ha. Qed.
Lemma user_same_trans m1 m2 m3 : user_same m1 m2 → user_same m2 m3 → user_same m1 m3.
Proof. intros H1 H2 a Ha. by rewrite H2, H1. Qed.
Lemma user_same_load m m' a n : user_same m m' → in_user a (Z.of_nat n) → load_bytes m' a n = load_bytes m a n.
Proof. intros Hs [H1 H2]. apply load_bytes_ext. intros b Hb. apply Hs. unfold user_addr. lia. Qed.
Lemma user_same_cstr m m' a l :
  user_same m m' → in_user a (Z.of_nat (length l) + 1) → cstr m a l → cstr m' a l.
Proof. intros Hs [H1 H2]. apply cstr_ext. intros i Hi. apply Hs. unfold user_addr. lia. Qed.

Lemma v_print_app l k v : v_print (l ++ k) v = v_print k (v_print l v).
Proof. unfold v_print. by rewrite foldl_app. Qed.
Lemma v_print_nil v : v_print [] v = v.
Proof. by destruct v. Qed.
Lemma v_print_set l fd st v : v_print l (v_set_fd fd st v) = v_set_fd fd st (v_print l v).
Proof. done. Qed.
Lemma v_print_typed l lines v : v_print l (v_typed lines v) = v_typed lines (v_print l v).
Proof. done. Qed.
Lemma v_set_set fd s1 s2 v : v_set_fd fd s1 (v_set_fd fd s2 v) = v_set_fd fd s1 v.
Proof. unfold v_set_fd. f_equal. apply partial_alter_partial_alter_eq. Qed.
Lemma v_set_lookup fd st v : v_fds (v_set_fd fd st v) !! fd = st.
Proof. apply lookup_partial_alter_eq. Qed.
Lemma v_set_same fd st v : v_fds v !! fd = st → v_set_fd fd st v = v.
Proof. intros <-. unfold v_set_fd. rewrite partial_alter_self. by destruct v. Qed.

(** Nothing of the program changes outside the [n] bytes at [a]. *)
Definition outside (a n : Z) (m m' : mem) : Prop :=
  ∀ b, user_addr b → ¬ a ≤ b < a + n → mget m' b = mget m b.
Lemma outside_refl a n m : outside a n m m.
Proof. by intros b. Qed.
Lemma outside_trans a n m1 m2 m3 : outside a n m1 m2 → outside a n m2 m3 → outside a n m1 m3.
Proof. intros H1 H2 b Hb Hn. by rewrite H2, H1. Qed.
Lemma outside_same a n m m' : user_same m m' → outside a n m m'.
Proof. intros Hs b Hb _. by apply Hs. Qed.
Lemma outside_store a n m m' i l : 0 ≤ i → i + Z.of_nat (length l) ≤ n →
  user_same (store_bytes m (a + i) l) m' → outside a n m m'.
Proof. intros Hi Hl Hs b Hb Hn. rewrite Hs by done. apply mget_store_bytes_out. lia. Qed.
Lemma outside_mset a n m i x : 0 ≤ i < n → outside a n m (mset m (a + i) x).
Proof. intros Hi b _ Hn. apply mget_mset_ne. lia. Qed.

(** ** What the programs do *)

Section behaviour.
Context {S : Type} {sys : UserSys S} {sees : S → view → Prop} {spec : UserSpec S sees}.
Context (lit : list Z → Z).
Implicit Types (s : S) (v : view).

(** A literal of the program, and that it stays there. *)
Definition literal (m : mem) (l : list Z) : Prop :=
  cstr m (lit l) l ∧ in_user (lit l) (Z.of_nat (length l) + 1).
Lemma literal_same m m' l : user_same m m' → literal m l → literal m' l.
Proof using. intros Hs [Hc Hu]. split; [|done]. by eapply user_same_cstr. Qed.

(** A literal and an array of [n] bytes at [a]. *)
Definition apart (l : list Z) (a n : Z) : Prop := lit l + Z.of_nat (length l) + 1 ≤ a ∨ a + n ≤ lit l.
Lemma literal_store m a k l :
  literal m l → apart l a (Z.of_nat (length k)) → literal (store_bytes m a k) l.
Proof using.
  intros [Hc Hu] Ha. split; [|done]. apply (cstr_ext m); [|done]. intros i Hi.
  apply mget_store_bytes_out. unfold apart in Ha. lia.
Qed.

Lemma literal_outside m m' a n l : outside a n m m' → apart l a n → literal m l → literal m' l.
Proof using.
  intros Ho Ha [Hc [U1 U2]]. split; [|done]. apply (cstr_ext m); [|done]. unfold apart in Ha.
  intros i Hi. apply Ho; [unfold user_addr; lia|lia].
Qed.

Lemma fdputs_ok s v a l :
  sees s v → cstr (umem s) a l → in_user a (Z.of_nat (length l) + 1) →
  sat (ece391_fdputs 1 a) s (λ _ s', sees s' (v_print l v) ∧ user_same (umem s) (umem s')).
Proof using lit spec.
  intros Hs Hc Hu. pose proof Hu as [Hu1 Hu2]. unfold PROG_VM_START, SPACE_4MB in *.
  unfold ece391_fdputs. apply sat_bind with (λ n s', s' = s ∧ n = Z.of_nat (length l)).
  { exists (ece391_strlen (umem s) a), s. split; [done|]. split; [done|].
    rewrite (ece391_strlen_cstr _ _ _ Hc). apply u32_small. lia. }
  intros n s' [-> ->]. rewrite s32_small by lia.
  eapply sat_bind; [apply (write_ok s v); [done|lia|unfold in_user, PROG_VM_START, SPACE_4MB; lia]|].
  intros r s' (v' & (_ & ->) & Hs' & Hsame). apply sat_ret. split; [|done]. rewrite Nat2Z.id in Hs'.
  by rewrite (proj1 Hc) in Hs'.
Qed.
Lemma puts_line_ok s v t :
  sees s v → literal (umem s) (chars t ++ [10]) →
  sat (puts_line lit t) s (λ _ s', sees s' (v_print (chars t ++ [10]) v) ∧ user_same (umem s) (umem s')).
Proof using lit spec. intros Hs [Hc Hu]. by apply fdputs_ok. Qed.

(** The computation comes back with [r] and what is seen is [v']. *)
Definition ends {A} (c : user S A) s (r : A) v' : Prop :=
  sat c s (λ r' s', r' = r ∧ sees s' v' ∧ user_same (umem s) (umem s')).
Lemma ends_ret {A} (r : A) s v : sees s v → ends (mret r) s r v.
Proof using. intros Hs. by apply sat_ret. Qed.
Lemma ends_bind {A B} (c : user S A) (f : A → user S B) s r v r' v' :
  ends c s r v → (∀ s', sees s' v → user_same (umem s) (umem s') → ends (f r) s' r' v') → ends (c ≫= f) s r' v'.
Proof using.
  intros Hc Hf. eapply sat_bind; [exact Hc|]. intros r0 s' (-> & Hs & Hm).
  eapply sat_mono; [apply (Hf s' Hs Hm)|]. intros r1 s2 (-> & Hs2 & Hm2).
  split; [done|]. split; [done|]. by eapply user_same_trans.
Qed.

Lemma put_ok s v l : sees s v → literal (umem s) l → ends (put lit l) s () (v_print l v).
Proof using lit spec.
  intros Hs [Hc Hu]. eapply sat_mono; [by apply (fdputs_ok s v (lit l) l)|]. by intros [] s' [].
Qed.

(** [cat] prints what the descriptor has left. *)
Lemma cat_loop_ok fuel fd buf s v rest :
  sees s v → v_fds v !! fd = Some (Bytes rest) → in_user buf 1024 → Forall (λ c, word8 c) rest →
  (length rest + 1024 ≤ 1024 * fuel)%nat →
  sat (cat_loop lit fuel fd buf) s (λ r s', r = 0 ∧ sees s' (v_set_fd fd (Some (Bytes [])) (v_print rest v))).
Proof using lit spec.
  revert s v rest. induction fuel as [|fuel IH]; intros s v rest Hs Hfd Hu Hb Hf; [lia|].
  cbn [cat_loop]. eapply sat_bind; [by apply (read_bytes_ok s v fd rest buf 1024); [..|lia|]|].
  intros r s1 (v1 & (-> & ->) & Hs1 & Hm1). change (Z.to_nat 1024) with 1024%nat in *. cbv zeta.
  destruct rest as [|c rest].
  { simpl. apply sat_ret. split; [done|]. by rewrite v_print_nil. }
  set (l := take 1024 (c :: rest)) in *.
  assert (1 ≤ length l ≤ 1024)%nat as Hl by (unfold l; rewrite length_take; cbn [length]; lia).
  rewrite (proj2 (Z.eqb_neq 0 _)), (proj2 (Z.eqb_neq (-1) _)) by lia.
  destruct Hu as [Hu1 Hu2].
  eapply sat_bind; [apply (write_ok s1 _ buf (Z.of_nat (length l)) Hs1); [lia|split; lia]|].
  intros r s2 (v2 & (-> & ->) & Hs2 & Hm2). rewrite (proj2 (Z.eqb_neq (-1) _)) by lia.
  assert (load_bytes (umem s1) buf (length l) = l) as El.
  { rewrite (user_same_load _ _ buf (length l) Hm1) by (split; lia).
    apply load_store_bytes. by apply Forall_take. }
  rewrite Nat2Z.id, El, v_print_set in Hs2.
  eapply sat_mono; [apply (IH s2 _ (drop 1024 (c :: rest)) Hs2)|].
  - apply v_set_lookup.
  - by split.
  - by apply Forall_drop.
  - rewrite length_drop. cbn [length] in *. lia.
  - intros r s3 [-> Hs3]. split; [done|]. rewrite v_print_set, v_set_set, <- v_print_app in Hs3.
    unfold l in Hs3. by rewrite take_drop in Hs3.
Qed.

Lemma cat_ok fuel buf s v data :
  sees s v → v_files v !! v_args v = Some (Regular data) → v_free v → in_user buf 1024 →
  Forall (λ c, word8 c) (v_args v) → Forall (λ c, c ≠ 0) (v_args v) → Z.of_nat (length (v_args v)) < 1024 →
  Forall (λ c, word8 c) data → (length data + 1024 ≤ 1024 * fuel)%nat →
  sat (cat lit fuel buf) s (λ r s', r = 0 ∧ ∃ fd, v_fds v !! fd = None ∧
    sees s' (v_set_fd fd (Some (Bytes [])) (v_print data v))).
Proof using lit spec.
  intros Hs Hfile Hfree Hu Ha8 Ha0 Hlen Hb Hf. unfold cat. pose proof Hu as [Hu1 Hu2].
  eapply sat_bind; [apply (getargs_ok s v buf 1024 Hs); [lia|done]|]. intros r s1 (v1 & (-> & ->) & Hs1 & Hm1). change (negb (0 =? 0)) with false. cbn iota.
  assert (cstr (umem s1) buf (v_args v)) as Hc.
  { apply (user_same_cstr _ _ buf (v_args v) Hm1); [split; lia|]. by apply cstr_store. }
  eapply sat_bind; [apply (open_ok s1 v buf _ (Regular data) Hs1 Hc); [split; lia|done..]|].
  intros fd s2 (v2 & (Hfd & Hno & ->) & Hs2 & _). unfold FILE_ARRAY_LEN in Hfd.
  rewrite (proj2 (Z.eqb_neq (-1) _)) by lia.
  eapply sat_mono; [apply (cat_loop_ok fuel fd buf s2 _ data Hs2); [apply v_set_lookup|done..]|].
  intros r s3 [-> Hs3]. split; [done|]. exists fd. split; [done|].
  by rewrite v_print_set, v_set_set in Hs3.
Qed.

(** A name that no file has. *)
Lemma cat_missing fuel buf s v :
  sees s v → v_args v ∉ v_names v → v_free v → in_user buf 1024 →
  Forall (λ c, word8 c) (v_args v) → Forall (λ c, c ≠ 0) (v_args v) → Z.of_nat (length (v_args v)) < 1024 →
  let msg := chars "file not found" ++ [10] in
  literal (umem s) msg → apart msg buf 1024 →
  sat (cat lit fuel buf) s (λ r s', r = 2 ∧ sees s' (v_print msg v)).
Proof using lit spec.
  intros Hs Hfile Hfree Hu Ha8 Ha0 Hlen msg Hlit Hd. unfold cat. pose proof Hu as [Hu1 Hu2].
  eapply sat_bind; [apply (getargs_ok s v buf 1024 Hs); [lia|done]|]. intros r s1 (v1 & (-> & ->) & Hs1 & Hm1). change (negb (0 =? 0)) with false. cbn iota.
  assert (cstr (umem s1) buf (v_args v)) as Hc.
  { apply (user_same_cstr _ _ buf (v_args v) Hm1); [split; lia|]. by apply cstr_store. }
  eapply sat_bind; [apply (open_missing s1 v buf _ Hs1 Hc); [split; lia|done..]|].
  intros r s2 (v2 & (-> & ->) & Hs2 & Hm2). change (-1 =? -1) with true. cbn iota.
  eapply sat_bind; [apply (puts_line_ok s2 v _ Hs2)|].
  - apply (literal_same _ _ _ (user_same_trans _ _ _ Hm1 Hm2)), literal_store; [done|].
    fold msg. unfold apart in *. rewrite (length_app (v_args v)). cbn [length]. lia.
  - intros _ s3 [Hs3 _]. by apply sat_ret.
Qed.

Lemma poke_ok s v a x :
  sees s v → user_addr a → sat (poke a x) s (λ _ s', sees s' v ∧ umem s' = mset (umem s) a x).
Proof using lit spec.
  intros Hs Ha. exists (), (set_umem (mset (umem s) a x) s). split; [done|]. split; [|apply umem_set].
  apply sees_set; [done|]. intros b Hb. apply mget_mset_ne. intros ->. done.
Qed.

(** [ls] prints the names, one to a line. *)
Definition listing (names : list (list Z)) : list Z := concat ((λ n, n ++ [10]) <$> names).
Definition name_ok (n : list Z) : Prop := (0 < length n < 32)%nat ∧ Forall (λ c, word8 c) n.

Lemma ls_loop_ok names fuel fd buf s v :
  sees s v → v_fds v !! fd = Some (Names names) → in_user buf 33 → Forall name_ok names →
  (length names < fuel)%nat →
  sat (ls_loop lit fuel fd buf) s
    (λ r s', r = 0 ∧ sees s' (v_set_fd fd (Some Past_end) (v_print (listing names) v))).
Proof using lit spec.
  revert fuel s v. induction names as [|n names IH]; intros fuel s v Hs Hfd Hu Hn Hf;
    (destruct fuel as [|fuel]; [simpl in Hf; lia|]); cbn [ls_loop]; unfold SBUFSIZE.
  { eapply sat_bind; [apply (read_names_end s v fd buf (33 - 1) Hs Hfd); lia|]. intros r s1 (v1 & (-> & ->) & Hs1 & _).
    change (0 =? 0) with true. cbn iota. apply sat_ret. split; [done|].
    change (listing []) with (@nil Z). by rewrite v_print_nil. }
  apply Forall_cons in Hn as [[Hl H8] Hn]. destruct Hu as [Hu1 Hu2].
  eapply sat_bind; [apply (read_name_ok s v fd n names buf (33 - 1) Hs Hfd); [lia|split; lia]|].
  intros r s1 (v1 & (-> & ->) & Hs1 & Hm1). rewrite (proj2 (Z.eqb_neq 0 _)), (proj2 (Z.eqb_neq (-1) _)) by lia.
  eapply sat_bind; [apply (poke_ok s1 _ (buf + Z.of_nat (length n)) 10 Hs1); unfold user_addr; lia|].
  intros _ s2 [Hs2 Em2].
  eapply sat_bind; [apply (write_ok s2 _ buf (Z.of_nat (length n) + 1) Hs2); [lia|split; lia]|].
  intros r s3 (v3 & (-> & ->) & Hs3 & Hm3). rewrite (proj2 (Z.eqb_neq (-1) _)) by lia.
  assert (load_bytes (umem s2) buf (Z.to_nat (Z.of_nat (length n) + 1)) = n ++ [10]) as El.
  { rewrite Em2. replace (Z.to_nat (Z.of_nat (length n) + 1)) with (length n + 1)%nat by lia.
    rewrite load_bytes_app. cbn [load_bytes]. rewrite mget_mset_eq. f_equal.
    transitivity (load_bytes (umem s1) buf (length n)).
    - apply load_bytes_ext. intros b Hb. apply mget_mset_ne. lia.
    - rewrite (user_same_load _ _ buf (length n) Hm1) by (split; lia).
      rewrite store_bytes_app, load_store_bytes_out by (cbn [length]; lia). by apply load_store_bytes. }
  rewrite El, v_print_set in Hs3.
  eapply sat_mono; [apply (IH fuel s3 _ Hs3); [apply v_set_lookup|by split|done|cbn [length] in Hf; lia]|].
  intros r s4 [-> Hs4]. split; [done|].
  rewrite v_print_set, v_set_set, <- v_print_app in Hs4. exact Hs4.
Qed.

Lemma ls_ok fuel buf s v :
  let dot := chars "." in
  sees s v → v_files v !! dot = Some Directory → v_free v → in_user buf 33 → Forall name_ok (v_names v) →
  literal (umem s) dot → (length (v_names v) < fuel)%nat →
  sat (ls lit fuel buf) s (λ r s', r = 0 ∧ ∃ fd, v_fds v !! fd = None ∧
    sees s' (v_set_fd fd (Some Past_end) (v_print (listing (v_names v)) v))).
Proof using lit spec.
  intros dot Hs Hf Hfree Hu Hn [Hc Hlu] Hfuel. unfold ls.
  eapply sat_bind; [by apply (open_ok s v (lit dot) dot Directory Hs Hc)|].
  intros fd s1 (v1 & (Hfd & Hno & ->) & Hs1 & _). unfold FILE_ARRAY_LEN in Hfd. cbv beta.
  rewrite (proj2 (Z.eqb_neq (-1) _)) by lia.
  eapply sat_mono; [apply (ls_loop_ok (v_names v) fuel fd buf s1 _ Hs1); [apply v_set_lookup|done..]|].
  intros r s2 [-> Hs2]. split; [done|]. exists fd. split; [done|].
  by rewrite v_print_set, v_set_set in Hs2.
Qed.
End behaviour.
