(* ===== verification/Blink.v ===== *)
(** * fish/blink.S and the allocator of fish.c: the list of blinking characters

    The program keeps the characters that blink in a linked list of structures
    in a static array; a free structure has location 0.  The assembly routines
    are modelled instruction by instruction over memory, and proved against
    lists of records ([blink]). *)
From S2P Require Import Prelude CMem.

(** ** 16-bit words *)

Definition load16 (m : mem) (a : Z) : Z := mget m a + 256 * mget m (a + 1).
Definition store16 (m : mem) (a v : Z) : mem := mset (mset m a v) (a + 1) (v `div` 256).

Lemma load16_range m a : word16 (load16 m a).
Proof. unfold load16. pose proof (mget_range m a). pose proof (mget_range m (a + 1)). lia. Qed.
Lemma load16_store16 m a v : load16 (store16 m a v) a = u16 v.
Proof. unfold load16, store16. rewrite !mget_mset. repeat (case_decide; try lia). word. Qed.
Lemma frame_store16 m a v : frame a (a + 2) m (store16 m a v).
Proof. intros b Hb. unfold store16. rewrite !mget_mset. repeat (case_decide; try lia). Qed.
Lemma load16_ext m m' a b : mget m' b = mget m a → mget m' (b + 1) = mget m (a + 1) → load16 m' b = load16 m a.
Proof. intros E1 E2. unfold load16. by rewrite E1, E2. Qed.
Lemma load16_frame lo hi m m' a : frame lo hi m m' → a + 2 ≤ lo ∨ hi ≤ a → load16 m' a = load16 m a.
Proof. intros Hf Ha. apply load16_ext; apply Hf; lia. Qed.
Lemma load16_store16_out m a v b : b + 2 ≤ a ∨ a + 2 ≤ b → load16 (store16 m a v) b = load16 m b.
Proof. apply load16_frame, frame_store16. Qed.
Lemma load32_ext m m' a b : (∀ i, 0 ≤ i < 4 → mget m' (b + i) = mget m (a + i)) → load32 m' b = load32 m a.
Proof.
  intros E. pose proof (E 0 ltac:(lia)) as E0. rewrite !Z.add_0_r in E0. unfold load32. by rewrite E0, !E by lia.
Qed.

(** ** The code *)

(** struct mp1_blink_struct *)
Definition LOCATION := 0.
Definition ON_CHAR := 2.
Definition OFF_CHAR := 3.
Definition ON_LENGTH := 4.
Definition OFF_LENGTH := 6.
Definition COUNTDOWN := 8.
Definition STATUS := 10.
Definition NEXT := 12.
Definition STRUCT_SIZE := 16.
Definition RTC_ADD := 0.
Definition RTC_REMOVE := 1.
Definition RTC_FIND := 2.
Definition RTC_SYNC := 3.
(** The size of [blink_array]. *)
Definition CELLS : nat := 80 * 25.

Fixpoint memcpy_loop (n : nat) (i : Z) (m : mem) (dest src : Z) : mem :=
  match n with O => m | S n => memcpy_loop n (i + 1) (mset m (dest + i) (mget m (src + i))) dest src end.
Definition ece391_memcpy (m : mem) (dest src n : Z) : Z * mem := (0, memcpy_loop (Z.to_nat n) 0 m dest src).
Fixpoint memset_loop (n : nat) (i : Z) (m : mem) (memory c : Z) : mem :=
  match n with O => m | S n => memset_loop n (i + 1) (mset m (memory + i) c) memory c end.
Definition ece391_memset (m : mem) (memory c n : Z) : mem := memset_loop (Z.to_nat n) 0 m memory c.

Section code.
(** The addresses of [mp1_list_head], [blink_array] and [vmem_base_addr]. *)
Context (list_head blink_array vmem_base_addr : Z).

Fixpoint malloc_loop (n : nat) (i : Z) (m : mem) : Z :=
  match n with
  | O => 0
  | S n =>
      if load16 m (blink_array + STRUCT_SIZE * i + LOCATION) =? 0 then blink_array + STRUCT_SIZE * i
      else malloc_loop n (i + 1) m
  end.
Definition mp1_malloc (m : mem) : Z := malloc_loop CELLS 0 m.
Definition mp1_free (memory : Z) (m : mem) : mem := ece391_memset m memory 0 STRUCT_SIZE.

Definition mp1_poke (eax cl : Z) (m : mem) : mem := mset m (u32 (load32 m vmem_base_addr + eax)) cl.

(** One round of [tasklet_loop]. *)
Definition tasklet_body (ebx : Z) (m : mem) : mem :=
  let m := store16 m (ebx + COUNTDOWN) (load16 m (ebx + COUNTDOWN) - 1) in
  if s16 (load16 m (ebx + COUNTDOWN)) >? 0 then m
  else
    let eax := Z.shiftl (load16 m (ebx + LOCATION)) 1 in
    let '(m, dx) :=
      if negb (Z.land (load16 m (ebx + STATUS)) 1 =? 0) then
        let m := mp1_poke eax (mget m (ebx + OFF_CHAR)) m in (m, load16 m (ebx + OFF_LENGTH))
      else
        let m := mp1_poke eax (mget m (ebx + ON_CHAR)) m in (m, load16 m (ebx + ON_LENGTH)) in
    let m := store16 m (ebx + COUNTDOWN) dx in
    store16 m (ebx + STATUS) (Z.lxor (load16 m (ebx + STATUS)) 1).
Fixpoint tasklet_loop (fuel : nat) (ebx : Z) (m : mem) : option mem :=
  match fuel with
  | O => None
  | S fuel =>
      if ebx =? 0 then Some m
      else let m := tasklet_body ebx m in tasklet_loop fuel (load32 m (ebx + NEXT)) m
  end.
Definition mp1_rtc_tasklet (fuel : nat) (m : mem) : option mem := tasklet_loop fuel (load32 m list_head) m.

Fixpoint find_loop (fuel : nat) (ax ebx : Z) (m : mem) : option Z :=
  match fuel with
  | O => None
  | S fuel =>
      if ebx =? 0 then Some 0
      else if load16 m (ebx + LOCATION) =? ax then Some ebx
      else find_loop fuel ax (load32 m (ebx + NEXT)) m
  end.
Definition mp1_find_helper (fuel : nat) (ax : Z) (m : mem) : option Z :=
  find_loop fuel (u16 ax) (load32 m list_head) m.

(** [tmp]: the structure on the stack. *)
Definition mp1_ioctl_add (tmp arg : Z) (m : mem) : Z * mem :=
  let '(eax, m) := ece391_memcpy m tmp arg STRUCT_SIZE in
  if negb (eax =? 0) then (-1, m)
  else if load16 m (tmp + LOCATION) >=? 80 * 25 then (-1, m)
  else
    let m := store16 m (tmp + STATUS) 1 in
    let m := store16 m (tmp + COUNTDOWN) (load16 m (tmp + ON_LENGTH)) in
    let eax := mp1_malloc m in
    if eax =? 0 then (-1, m)
    else
      let '(_, m) := ece391_memcpy m eax tmp STRUCT_SIZE in
      let edx := eax in
      let m := store32 m (edx + NEXT) (load32 m list_head) in
      let m := store32 m list_head edx in
      let m := mp1_poke (Z.shiftl (load16 m (edx + LOCATION)) 1) (mget m (edx + ON_CHAR)) m in
      (0, m).

(** The cell that points to [eax]. *)
Fixpoint find_prev (fuel : nat) (eax edx : Z) (m : mem) : option Z :=
  match fuel with
  | O => None
  | S fuel =>
      if load32 m edx =? eax then Some edx
      else find_prev fuel eax (load32 m edx + NEXT) m
  end.
Definition mp1_ioctl_remove (fuel : nat) (arg : Z) (m : mem) : option (Z * mem) :=
  eax ← mp1_find_helper fuel arg m;
  if eax =? 0 then Some (-1, m)
  else
    edx ← find_prev fuel eax list_head m;
    let m := store32 m edx (load32 m (eax + NEXT)) in
    Some (0, mp1_free eax m).

(** [cmovl] after [testb $1]: the sign of the result decides. *)
Definition mp1_ioctl_sync (fuel : nat) (arg : Z) (m : mem) : option (Z * mem) :=
  esi ← mp1_find_helper fuel (Z.shiftr arg 16) m;
  if esi =? 0 then Some (-1, m)
  else
    edi ← mp1_find_helper fuel (Z.land arg 0xFFFF) m;
    if edi =? 0 then Some (-1, m)
    else
      let m := store16 m (edi + ON_LENGTH) (load16 m (esi + ON_LENGTH)) in
      let m := store16 m (edi + OFF_LENGTH) (load16 m (esi + OFF_LENGTH)) in
      let m := store16 m (edi + COUNTDOWN) (load16 m (esi + COUNTDOWN)) in
      let m := store16 m (edi + STATUS) (load16 m (esi + STATUS)) in
      let eax := Z.shiftl (load16 m (edi + LOCATION)) 1 in
      let ecx := mget m (edi + OFF_CHAR) in
      let ebx := mget m (edi + ON_CHAR) in
      let flags := Z.land (mget m (edi + STATUS)) 1 in
      let ecx := if s8 flags <? 0 then ebx else ecx in
      Some (0, mp1_poke eax ecx m).

(** [tmp]: two bytes on the stack. *)
Definition mp1_ioctl_find (fuel : nat) (tmp arg : Z) (m : mem) : option (Z * mem) :=
  let '(eax, m) := ece391_memcpy m tmp arg 2 in
  if negb (eax =? 0) then Some (-1, m)
  else
    eax ← mp1_find_helper fuel (load16 m tmp) m;
    if eax =? 0 then Some (-1, m)
    else
      let '(eax, m) := ece391_memcpy m arg eax STRUCT_SIZE in
      if eax =? 0 then Some (0, m) else Some (-1, m).

(** [call_table]; [tmp] is the local structure of the routine. *)
Definition mp1_ioctl (fuel : nat) (tmp arg cmd : Z) (m : mem) : option (Z * mem) :=
  if cmd =? RTC_ADD then Some (mp1_ioctl_add tmp arg m)
  else if cmd =? RTC_REMOVE then mp1_ioctl_remove fuel arg m
  else if cmd =? RTC_FIND then mp1_ioctl_find fuel tmp arg m
  else if cmd =? RTC_SYNC then mp1_ioctl_sync fuel arg m
  else None.
End code.

Lemma elem_delete {A} (l : list A) i x y : NoDup l → l !! i = Some x → y ∈ delete i l ↔ y ∈ l ∧ y ≠ x.
Proof.
  intros Hnd Hi. pose proof (delete_Permutation l i x Hi) as Hp.
  assert (NoDup (x :: delete i l)) as [Hn _]%NoDup_cons by (by rewrite <- Hp).
  assert (y ∈ l ↔ y = x ∨ y ∈ delete i l) as -> by (rewrite <- elem_of_cons; by rewrite <- Hp).
  split; [|tauto]. intros Hy. split; [by right|]. by intros ->.
Qed.

(** ** Blinks *)

Record blink := Bl {
  location : Z; on_char : Z; off_char : Z; on_length : Z; off_length : Z; countdown : Z; status : Z }.
#[export] Instance blink_eq_dec : EqDecision blink.
Proof. solve_decision. Defined.

Definition get_blink (m : mem) (p : Z) : blink :=
  Bl (load16 m p) (mget m (p + 2)) (mget m (p + 3)) (load16 m (p + 4)) (load16 m (p + 6)) (load16 m (p + 8)) (load16 m (p + 10)).
(** What is on the screen of a blink, and what one tick of the clock does. *)
Definition is_on (b : blink) : bool := negb (Z.land (status b) 1 =? 0).
Definition expires (b : blink) : bool := negb (s16 (u16 (countdown b - 1)) >? 0).
Definition tick (b : blink) : blink :=
  let c := if expires b then (if is_on b then off_length b else on_length b) else u16 (countdown b - 1) in
  Bl (location b) (on_char b) (off_char b) (on_length b) (off_length b) c
    (if expires b then Z.lxor (status b) 1 else status b).
(** The characters drawn: cells of the screen and what goes there. *)
Definition redraw (b : blink) : list (Z * Z) :=
  if expires b then [(location b, if is_on b then off_char b else on_char b)] else [].

Lemma get_blink_ext m m' p q : (∀ i, 0 ≤ i < 12 → mget m' (q + i) = mget m (p + i)) → get_blink m' q = get_blink m p.
Proof.
  intros E. pose proof (E 0 ltac:(lia)) as E0. rewrite !Z.add_0_r in E0. unfold get_blink, load16.
  rewrite <- !Z.add_assoc. by rewrite E0, !E by lia.
Qed.

(** ** The memory of the list *)

Section list.
Context (list_head blink_array vmem_base_addr base : Z).
Local Abbreviation head := list_head.
Local Abbreviation arr := blink_array.
Local Abbreviation vptr := vmem_base_addr.

Definition slot (p : Z) : Prop := ∃ i, 0 ≤ i < 2000 ∧ p = arr + 16 * i.
(** The array, the two pointers and the video page lie apart. *)
Record placed : Prop := {
  pl_array : 0 < arr ∧ arr + 32000 ≤ 2 ^ 32;
  pl_head : 0 ≤ head ∧ (head + 4 ≤ arr ∨ arr + 32000 ≤ head);
  pl_vptr : vptr + 4 ≤ arr ∨ arr + 32000 ≤ vptr;
  pl_cells : head + 4 ≤ vptr ∨ vptr + 4 ≤ head;
  pl_video : 0 ≤ base ∧ base + 4000 ≤ 2 ^ 32;
  pl_video_apart : (base + 4000 ≤ arr ∨ arr + 32000 ≤ base) ∧ (base + 4000 ≤ head ∨ head + 4 ≤ base) ∧
    (base + 4000 ≤ vptr ∨ vptr + 4 ≤ base) }.

Fixpoint chain (m : mem) (p : Z) (ss : list Z) : Prop :=
  match ss with [] => p = 0 | q :: ss => p = q ∧ chain m (load32 m (q + NEXT)) ss end.
(** The list has the structures [ss], the others are free. *)
Record blink_list (m : mem) (ss : list Z) : Prop := {
  bl_chain : chain m (load32 m head) ss;
  bl_nodup : NoDup ss;
  bl_used p : p ∈ ss → slot p ∧ 0 < load16 m p < 2000;
  bl_free p : slot p → p ∉ ss → load16 m p = 0;
  bl_base : load32 m vptr = base }.
Definition blinks (m : mem) (ss : list Z) : list blink := get_blink m <$> ss.

(** Characters drawn into the video page. *)
Definition draw (m : mem) (d : Z * Z) : mem := mset m (base + 2 * d.1) d.2.
Definition drawn (ds : list (Z * Z)) (m : mem) : mem := foldl draw m ds.

Lemma drawn_ext ds m m' a : mget m' a = mget m a → mget (drawn ds m') a = mget (drawn ds m) a.
Proof using.
  revert m m'. induction ds as [|d ds IH]; intros m m' E; [done|]. apply IH. unfold draw. rewrite !mget_mset. by case_decide.
Qed.
Lemma drawn_app ds ds' m : drawn (ds ++ ds') m = drawn ds' (drawn ds m).
Proof using. apply foldl_app. Qed.
Lemma drawn_out ds m a : Forall (λ d, 0 ≤ d.1 < 2000) ds → ¬ base ≤ a < base + 4000 → mget (drawn ds m) a = mget m a.
Proof using.
  intros Hd Ha. revert m. induction Hd as [|d ds Hd1 Hd IH]; intros m; [done|].
  change (drawn (d :: ds) m) with (drawn ds (draw m d)). rewrite IH. apply mget_mset_ne. lia.
Qed.

Lemma slot_range p : slot p → arr ≤ p ∧ p + 16 ≤ arr + 32000.
Proof using. intros (i & Hi & ->). lia. Qed.
Lemma slots_apart p q : slot p → slot q → p ≠ q → p + 16 ≤ q ∨ q + 16 ≤ p.
Proof using. intros (i & Hi & ->) (j & Hj & ->) Hne. assert (i ≠ j) by congruence. lia. Qed.

Lemma chain_ext m m' p ss : (∀ q, q ∈ ss → load32 m' (q + NEXT) = load32 m (q + NEXT)) → chain m p ss → chain m' p ss.
Proof using.
  revert p. induction ss as [|q ss IH]; intros p Hq; [done|]. cbn [chain]. intros [-> Hc]. split; [done|].
  rewrite Hq by left. apply IH; [|done]. intros r Hr. apply Hq. by right.
Qed.

Lemma poke_draw m p x : load32 m vptr = base → placed → 0 ≤ p < 2000 →
  mp1_poke vmem_base_addr (Z.shiftl p 1) x m = draw m (p, x).
Proof using.
  intros Hb [_ _ _ _ Hv _] Hp. unfold mp1_poke, draw. cbn [fst snd]. rewrite Hb, Z.shiftl_mul_pow2 by lia.
  by rewrite u32_small by lia; replace (p * 2 ^ 1) with (2 * p) by lia.
Qed.

(** ** The tasklet *)

Ltac fields := unfold LOCATION, ON_CHAR, OFF_CHAR, ON_LENGTH, OFF_LENGTH, COUNTDOWN, STATUS, NEXT in *; rewrite ?Z.add_0_r in *.

Lemma tasklet_body_ok m p : placed → slot p → load16 m p < 2000 → load32 m vptr = base →
  let b := get_blink m p in
  let m' := tasklet_body vmem_base_addr p m in
  get_blink m' p = tick b ∧ ∀ a, ¬ p ≤ a < p + 12 → mget m' a = mget (drawn (redraw b) m) a.
Proof using.
  intros Hpl Hs Hloc Hb b. pose proof (slot_range p Hs) as Hr. unfold tasklet_body. fields.
  pose proof (load16_range m p) as Hl0. pose proof Hpl as [[? ?] ? ? ? [? ?] (? & ? & ?)].
  set (m1 := store16 m (p + 8) (load16 m (p + 8) - 1)).
  assert (load16 m1 (p + 8) = u16 (countdown b - 1)) as E8 by apply load16_store16.
  assert (frame (p + 8) (p + 8 + 2) m m1) as F1 by apply frame_store16.
  rewrite E8. assert ((s16 (u16 (countdown b - 1)) >? 0) = negb (expires b)) as ->
    by (unfold expires; by rewrite negb_involutive).
  unfold redraw. destruct (expires b) eqn:Ex.
  2:{ cbn [negb]. split; [|intros a Ha; by apply F1; lia].
      unfold tick, get_blink. rewrite Ex, E8, !(load16_frame _ _ _ _ _ F1), !F1 by lia. done. }
  cbn [negb].
  assert (∀ i, 0 ≤ i < 12 → i ≠ 8 → i ≠ 9 → mget m1 (p + i) = mget m (p + i)) as F1' by (intros; apply F1; lia).
  assert (load16 m1 p = location b) as El by (apply load16_ext; apply F1; lia).
  assert (load16 m1 (p + 10) = status b) as Es by (apply load16_ext; apply F1; lia).
  rewrite El, Es. fold (is_on b). set (c := if is_on b then off_char b else on_char b).
  set (m2 := draw m1 (location b, c)). set (dx := if is_on b then off_length b else on_length b).
  assert (∀ a, p ≤ a < p + 16 → mget m2 a = mget m1 a) as F2.
  { intros a Ha. apply mget_mset_ne. cbn [fst location b get_blink]. lia. }
  match goal with |- context [if is_on b then ?x else ?y] => assert ((if is_on b then x else y) = (m2, dx)) as -> end.
  { unfold m2, c, dx. assert (load32 m1 vptr = base) as Hb1 by (rewrite <- Hb; apply load32_ext; intros i Hi; apply F1; lia).
    destruct (is_on b); rewrite poke_draw by (done || (cbn [location b get_blink]; lia)); rewrite !F1 by lia; f_equal;
      apply load16_ext; (etransitivity; [|apply F1; lia]); apply mget_mset_ne; cbn [fst location b get_blink]; lia. }
  set (m3 := store16 m2 (p + 8) dx).
  assert (∀ a, ¬ p + 8 ≤ a < p + 8 + 2 → mget m3 a = mget m2 a) as F3 by apply frame_store16.
  assert (load16 m3 (p + 10) = status b) as Es3.
  { rewrite <- Es. apply load16_ext; rewrite F3, F2 by lia; done. }
  rewrite Es3. set (m4 := store16 m3 (p + 10) (Z.lxor (status b) 1)).
  assert (∀ a, ¬ p + 10 ≤ a < p + 10 + 2 → mget m4 a = mget m3 a) as F4 by apply frame_store16.
  assert (∀ i, 0 ≤ i < 8 → mget m4 (p + i) = mget m (p + i)) as F by (intros i Hi; rewrite F4, F3, F2, F1 by lia; done).
  split.
  - assert (word16 (status b)) as Hst by apply load16_range. unfold get_blink, tick. rewrite Ex.
    assert (load16 m4 (p + 8) = dx) as ->.
    { transitivity (load16 m3 (p + 8)); [apply load16_ext; apply F4; lia|]. unfold m3. rewrite load16_store16.
      apply u16_small. unfold dx. destruct (is_on b); apply load16_range. }
    assert (load16 m4 (p + 10) = Z.lxor (status b) 1) as ->.
    { unfold m4. rewrite load16_store16. apply u16_small. split; [apply Z.lxor_nonneg; lia|].
      destruct (decide (Z.lxor (status b) 1 = 0)) as [->|Hne]; [lia|].
      assert (0 < Z.lxor (status b) 1) as Hpos by (pose proof (proj2 (Z.lxor_nonneg (status b) 1)); lia).
      apply Z.log2_lt_pow2 with (b := 16); [lia|]. eapply Z.le_lt_trans; [apply Z.log2_lxor; lia|].
      apply Z.max_lub_lt; [|reflexivity]. destruct (decide (status b = 0)) as [->|]; [reflexivity|].
      apply Z.log2_lt_pow2; lia. }
    assert (∀ i, 0 ≤ i < 7 → load16 m4 (p + i) = load16 m (p + i)) as F'.
    { intros i Hi. apply load16_ext; rewrite <- ?Z.add_assoc; apply F; lia. }
    pose proof (F' 0 ltac:(lia)) as F0'. rewrite Z.add_0_r in F0'. by rewrite !F, F0', !F' by lia.
  - intros a Ha. rewrite F4, F3 by lia. apply (drawn_ext [_]). apply F1. lia.
Qed.

Lemma redraw_cells b : 0 ≤ location b < 2000 → Forall (λ d, 0 ≤ d.1 < 2000) (redraw b).
Proof using. intros Hb. unfold redraw. destruct (expires b); [by apply Forall_singleton|constructor]. Qed.
Lemma redraws_cells m ss : (∀ q, q ∈ ss → slot q ∧ load16 m q < 2000) →
  Forall (λ d, 0 ≤ d.1 < 2000) (concat (redraw <$> blinks m ss)).
Proof using.
  intros Hs. apply Forall_concat, Forall_fmap, Forall_fmap, Forall_forall. intros q Hq. apply redraw_cells.
  cbn [location get_blink]. pose proof (load16_range m q). destruct (Hs q Hq). lia.
Qed.

(** The structures of other slots are kept. *)
Lemma slot_kept m m' q r : slot q → slot r → q ≠ r →
  (∀ a, arr ≤ a < arr + 32000 → ¬ q ≤ a < q + 16 → mget m' a = mget m a) →
  get_blink m' r = get_blink m r ∧ load16 m' r = load16 m r ∧ load32 m' (r + NEXT) = load32 m (r + NEXT).
Proof using.
  intros Hq Hr Hne Hm. pose proof (slots_apart _ _ Hq Hr Hne). pose proof (slot_range r Hr). fields.
  split; [apply get_blink_ext; intros i Hi; apply Hm; lia|].
  split; [apply load16_ext; apply Hm; lia|apply load32_ext; intros i Hi; apply Hm; lia].
Qed.

Lemma tasklet_loop_ok ss : ∀ m p fuel,
  placed → chain m p ss → NoDup ss → (∀ q, q ∈ ss → slot q ∧ load16 m q < 2000) → load32 m vptr = base →
  (length ss < fuel)%nat →
  ∃ m', tasklet_loop vmem_base_addr fuel p m = Some m' ∧ blinks m' ss = tick <$> blinks m ss ∧
    ∀ a, (∀ q, q ∈ ss → ¬ q ≤ a < q + 12) → mget m' a = mget (drawn (concat (redraw <$> blinks m ss)) m) a.
Proof using.
  induction ss as [|q ss IH]; intros m p fuel Hpl Hc Hnd Hs Hb Hf; (destruct fuel as [|fuel]; [simpl in Hf; lia|]).
  { cbn [chain] in Hc. subst p. exists m. by split_and!. }
  cbn [chain] in Hc. destruct Hc as [-> Hc]. apply NoDup_cons in Hnd as [Hnin Hnd].
  destruct (Hs q ltac:(left)) as [Hq Hlq]. pose proof (slot_range q Hq) as Hr. pose proof Hpl as [[A1 A2] _ V _ _ (W1 & W2 & W3)].
  cbn [tasklet_loop]. rewrite (proj2 (Z.eqb_neq q 0)) by lia.
  destruct (tasklet_body_ok m q Hpl Hq Hlq Hb) as [Eb Hm1]. set (m1 := tasklet_body vmem_base_addr q m) in *. set (b := get_blink m q) in *.
  assert (0 ≤ location b < 2000) as Hlb by (cbn [location b get_blink]; pose proof (load16_range m q); lia).
  pose proof (redraw_cells b Hlb) as Hcells.
  assert (∀ a, ¬ base ≤ a < base + 4000 → ¬ q ≤ a < q + 12 → mget m1 a = mget m a) as Hk.
  { intros a Ha Hn. rewrite Hm1 by done. by apply drawn_out. }
  assert (∀ r, r ∈ ss → get_blink m1 r = get_blink m r ∧ load16 m1 r = load16 m r ∧ load32 m1 (r + NEXT) = load32 m (r + NEXT)) as Hkeep.
  { intros r Hin. apply (slot_kept _ _ q); [done|by apply (Hs r); right|by intros ->|]. intros a Ha Hn. apply Hk; lia. }
  assert (load32 m1 (q + NEXT) = load32 m (q + NEXT)) as En by (apply load32_ext; intros i Hi; apply Hk; unfold NEXT; lia).
  assert (blinks m1 ss = blinks m ss) as Ebs by (apply list_fmap_ext; intros i r Hi; apply Hkeep; by eapply list_elem_of_lookup_2).
  destruct (IH m1 (load32 m1 (q + NEXT)) fuel) as (m' & E & Et & Hm'); try done.
  { rewrite En. eapply chain_ext; [|exact Hc]. intros r Hin. by apply Hkeep. }
  { intros r Hin. destruct (Hkeep r Hin) as (_ & -> & _). apply Hs. by right. }
  { rewrite <- Hb. apply load32_ext. intros i Hi. apply Hk; lia. }
  { cbn [length] in Hf. lia. }
  rewrite Ebs in *. exists m'. split; [exact E|].
  pose proof (redraws_cells m ss ltac:(intros r Hin; apply Hs; by right)) as Hcs.
  change (blinks m (q :: ss)) with (b :: blinks m ss). change (blinks m' (q :: ss)) with (get_blink m' q :: blinks m' ss).
  rewrite !fmap_cons, concat_cons. split.
  - rewrite Et. f_equal. rewrite <- Eb. apply get_blink_ext. intros i Hi.
    rewrite Hm'; [by apply drawn_out; [|lia]|]. intros r Hin.
    assert (q ≠ r) as Hne by (by intros ->). pose proof (slots_apart q r Hq (proj1 (Hs r ltac:(by right))) Hne). lia.
  - intros a Ha. rewrite Hm' by (intros r Hin; apply Ha; by right). rewrite drawn_app. apply drawn_ext.
    apply Hm1, Ha. left.
Qed.

(** The shape of the list is in its links and the locations. *)
Lemma blink_list_ext m m' ss :
  (∀ p, slot p → load16 m' p = load16 m p) → (∀ p, p ∈ ss → load32 m' (p + NEXT) = load32 m (p + NEXT)) →
  load32 m' head = load32 m head → load32 m' vptr = load32 m vptr → blink_list m ss → blink_list m' ss.
Proof using.
  intros Hl Hn Hh Hv [B1 B2 B3 B4 B5]. split; [|done| | |congruence].
  - rewrite Hh. by eapply chain_ext.
  - intros p Hp. destruct (B3 p Hp). split; [done|]. by rewrite Hl.
  - intros p Hs Hp. rewrite Hl by done. by apply B4.
Qed.

(** The tasklet is one tick of every blink of the list. *)
Lemma tasklet_ok m ss fuel : placed → blink_list m ss → (length ss < fuel)%nat →
  ∃ m', mp1_rtc_tasklet list_head vmem_base_addr fuel m = Some m' ∧ blink_list m' ss ∧
    blinks m' ss = tick <$> blinks m ss ∧
    ∀ a, ¬ arr ≤ a < arr + 32000 → mget m' a = mget (drawn (concat (redraw <$> blinks m ss)) m) a.
Proof using.
  intros Hpl Hbl Hf. pose proof Hbl as [B1 B2 B3 B4 B5].
  assert (∀ q, q ∈ ss → slot q ∧ load16 m q < 2000) as Hs by (intros q Hq; destruct (B3 q Hq); lia || (split; [done|lia])).
  destruct (tasklet_loop_ok ss m _ fuel Hpl B1 B2 Hs B5 Hf) as (m' & E & Eb & Hm').
  pose proof (redraws_cells m ss Hs) as Hcs. pose proof Hpl as [[A1 A2] (Hd1 & Hd2) V _ _ (W1 & W2 & W3)].
  exists m'. split; [exact E|]. split; [|split; [exact Eb|]].
  2:{ intros a Ha. apply Hm'. intros q Hq. pose proof (slot_range q (proj1 (Hs q Hq))). lia. }
  assert (∀ a, ¬ base ≤ a < base + 4000 → (∀ q, q ∈ ss → ¬ q ≤ a < q + 12) → mget m' a = mget m a) as Hk.
  { intros a Ha Hq. rewrite Hm' by done. by apply drawn_out. }
  apply (blink_list_ext m); [| | | |done].
  - intros p Hp. destruct (decide (p ∈ ss)) as [Hin|Hnin].
    + change (location (get_blink m' p) = location (get_blink m p)). apply list_elem_of_lookup in Hin as [i Hi].
      apply (f_equal (lookup i)) in Eb. unfold blinks in Eb. rewrite !list_lookup_fmap, Hi in Eb. cbn in Eb.
      apply some_inv in Eb. by rewrite Eb.
    + pose proof (slot_range p Hp). apply load16_ext; (apply Hk; [lia|]); intros q Hq;
        pose proof (slots_apart p q Hp (proj1 (Hs q Hq)) ltac:(by intros ->)); lia.
  - intros p Hp. pose proof (slot_range p (proj1 (Hs p Hp))). apply load32_ext. unfold NEXT. intros i Hi. apply Hk; [lia|].
    intros q Hq. destruct (decide (p = q)) as [->|Hne]; [lia|].
    pose proof (slots_apart p q (proj1 (Hs p Hp)) (proj1 (Hs q Hq)) Hne). lia.
  - apply load32_ext. intros i Hi. apply Hk; [lia|]. intros q Hq. pose proof (slot_range q (proj1 (Hs q Hq))). lia.
  - apply load32_ext. intros i Hi. apply Hk; [lia|]. intros q Hq. pose proof (slot_range q (proj1 (Hs q Hq))). lia.
Qed.

(** ** Copies and the allocator *)

Lemma memcpy_loop_ok n : ∀ i m dest src, dest + i + Z.of_nat n ≤ src + i ∨ src + i + Z.of_nat n ≤ dest + i →
  let m' := memcpy_loop n i m dest src in
  frame (dest + i) (dest + i + Z.of_nat n) m m' ∧
  ∀ j, i ≤ j < i + Z.of_nat n → mget m' (dest + j) = mget m (src + j).
Proof using.
  induction n as [|n IH]; intros i m dest src Ha; cbn [memcpy_loop]; [split; [done|lia]|].
  destruct (IH (i + 1) (mset m (dest + i) (mget m (src + i))) dest src ltac:(lia)) as [F E]. split.
  - intros a Hn. rewrite F by lia. apply mget_mset_ne. lia.
  - intros j Hj. destruct (decide (j = i)) as [->|Hne].
    + rewrite F, mget_mset_eq by lia. apply u8_small, mget_range.
    + rewrite E by lia. apply mget_mset_ne. lia.
Qed.
Lemma ece391_memcpy_ok m dest src n : 0 ≤ n → dest + n ≤ src ∨ src + n ≤ dest →
  ∃ m', ece391_memcpy m dest src n = (0, m') ∧ frame dest (dest + n) m m' ∧
    ∀ j, 0 ≤ j < n → mget m' (dest + j) = mget m (src + j).
Proof using.
  intros Hn Ha. destruct (memcpy_loop_ok (Z.to_nat n) 0 m dest src ltac:(lia)) as [F E].
  rewrite Z2Nat.id, !Z.add_0_r, Z.add_0_l in * by lia. eexists. split; [reflexivity|]. by split.
Qed.
Lemma memset_loop_ok n : ∀ i m a c, let m' := memset_loop n i m a c in
  frame (a + i) (a + i + Z.of_nat n) m m' ∧ ∀ j, i ≤ j < i + Z.of_nat n → mget m' (a + j) = u8 c.
Proof using.
  induction n as [|n IH]; intros i m a c; cbn [memset_loop]; [split; [done|lia]|].
  destruct (IH (i + 1) (mset m (a + i) c) a c) as [F E]. split.
  - intros b Hb. rewrite F by lia. apply mget_mset_ne. lia.
  - intros j Hj. destruct (decide (j = i)) as [->|Hne]; [by rewrite F, mget_mset_eq by lia|apply E; lia].
Qed.

Lemma ece391_memset_ok m a c n : 0 ≤ n → let m' := ece391_memset m a c n in
  frame a (a + n) m m' ∧ ∀ j, 0 ≤ j < n → mget m' (a + j) = u8 c.
Proof using.
  intros Hn. destruct (memset_loop_ok (Z.to_nat n) 0 m a c) as [F E]. rewrite Z2Nat.id, Z.add_0_r in F by lia.
  rewrite Z2Nat.id in E by lia. by split.
Qed.

Definition all_slots : list Z := (λ i, arr + 16 * i) <$> seqZ 0 2000.
Lemma elem_all_slots p : p ∈ all_slots ↔ slot p.
Proof using.
  unfold all_slots, slot. rewrite list_elem_of_fmap. split.
  - intros (i & -> & Hi). apply elem_of_seqZ in Hi. exists i. split; [lia|done].
  - intros (i & Hi & ->). exists i. split; [done|]. apply elem_of_seqZ. lia.
Qed.
Lemma malloc_loop_ok n : ∀ i m, 0 ≤ i → let p := malloc_loop blink_array n i m in
  (p = 0 ∧ ∀ j, i ≤ j < i + Z.of_nat n → load16 m (arr + 16 * j) ≠ 0) ∨
  ∃ j, i ≤ j < i + Z.of_nat n ∧ p = arr + 16 * j ∧ load16 m p = 0.
Proof using.
  induction n as [|n IH]; intros i m Hi; cbn [malloc_loop]; [left; split; [done|lia]|].
  unfold STRUCT_SIZE, LOCATION. rewrite Z.add_0_r. destruct (Z.eqb_spec (load16 m (arr + 16 * i)) 0) as [E|E].
  { right. exists i. split; [lia|done]. }
  destruct (IH (i + 1) m ltac:(lia)) as [[-> Hp]|(j & Hj & Hp)]; [left|right].
  - split; [done|]. intros j Hj. destruct (decide (j = i)) as [->|]; [done|]. apply Hp. lia.
  - exists j. split; [lia|done].
Qed.
(** A free structure is found unless all 2000 are in use. *)
Lemma mp1_malloc_ok m ss : blink_list m ss →
  (mp1_malloc blink_array m = 0 ∧ length ss = 2000%nat) ∨
  slot (mp1_malloc blink_array m) ∧ (mp1_malloc blink_array m ∉ ss) ∧ (length ss < 2000)%nat.
Proof using.
  intros [B1 B2 B3 B4 B5].
  assert (length all_slots = 2000%nat) as Hlen by (unfold all_slots; rewrite length_fmap, length_seqZ; lia).
  assert (NoDup all_slots) as Hnd by (apply NoDup_fmap_2; [intros i j; lia|apply NoDup_seqZ]).
  assert (ss ⊆+ all_slots) as Hsub.
  { apply NoDup_submseteq; [done|]. intros p Hp. apply elem_all_slots, B3, Hp. }
  apply submseteq_length in Hsub as Hle. destruct (malloc_loop_ok CELLS 0 m ltac:(lia)) as [[E Hp]|(j & Hj & E & Hz)].
  - left. split; [done|]. enough (all_slots ⊆+ ss) as Hl by (apply submseteq_length in Hl; lia).
    apply NoDup_submseteq; [done|]. intros p Hs. apply elem_all_slots in Hs. destruct (decide (p ∈ ss)) as [|Hn]; [done|].
    destruct Hs as (i & Hi & ->). exfalso. apply (Hp i); [unfold CELLS; lia|]. apply B4; [by exists i|done].
  - right. fold (mp1_malloc blink_array m) in E, Hz. assert (slot (mp1_malloc blink_array m)) as Hs.
    { rewrite E. exists j. split; [unfold CELLS in Hj; lia|done]. }
    assert (mp1_malloc blink_array m ∉ ss) as Hn by (intros Hin; apply B3 in Hin as [_ Hin]; lia).
    split; [done|]. split; [done|]. enough (mp1_malloc blink_array m :: ss ⊆+ all_slots) as Hl by (apply submseteq_length in Hl; simpl in Hl; lia).
    apply NoDup_submseteq; [by apply NoDup_cons|]. intros p Hp. apply elem_of_cons in Hp as [->|Hp]; apply elem_all_slots; [done|by apply B3].
Qed.

(** ** Adding *)

(** The structure of a new blink. *)
Definition started (b : blink) : blink :=
  Bl (location b) (on_char b) (off_char b) (on_length b) (off_length b) (on_length b) 1.
(** [n] bytes that are not the list's, nor the screen's. *)
Definition off_list (a n : Z) : Prop :=
  (a + n ≤ arr ∨ arr + 32000 ≤ a) ∧ (a + n ≤ head ∨ head + 4 ≤ a) ∧ (a + n ≤ vptr ∨ vptr + 4 ≤ a) ∧
  (a + n ≤ base ∨ base + 4000 ≤ a).
Lemma list_kept m m' ss : (∀ a, arr ≤ a < arr + 32000 → mget m' a = mget m a) →
  (∀ i, 0 ≤ i < 4 → mget m' (head + i) = mget m (head + i)) → (∀ i, 0 ≤ i < 4 → mget m' (vptr + i) = mget m (vptr + i)) →
  blink_list m ss → blink_list m' ss ∧ blinks m' ss = blinks m ss.
Proof using.
  intros Ha Hh Hv Hbl. assert (∀ p, slot p → ∀ i, 0 ≤ i < 16 → mget m' (p + i) = mget m (p + i)) as Hk.
  { intros p Hp i Hi. pose proof (slot_range p Hp). apply Ha. lia. }
  assert (∀ p, p ∈ ss → slot p) as Hs by (intros p Hp; by apply Hbl).
  split.
  - apply (blink_list_ext m); [| |by apply load32_ext|by apply load32_ext|done].
    + intros p Hp. pose proof (Hk p Hp 0 ltac:(lia)) as E. rewrite !Z.add_0_r in E. apply load16_ext; [done|]. apply Hk; [done|lia].
    + intros p Hp. apply load32_ext. intros i Hi. unfold NEXT. rewrite <- Z.add_assoc. apply Hk; [by apply Hs|lia].
  - apply list_fmap_ext. intros i p Hp. apply get_blink_ext. intros j Hj. apply Hk; [|lia].
    apply Hs. by eapply list_elem_of_lookup_2.
Qed.
Lemma off_list_kept m m' a n ss : placed → off_list a n → frame a (a + n) m m' → blink_list m ss →
  blink_list m' ss ∧ blinks m' ss = blinks m ss.
Proof using.
  intros Hpl (O1 & O2 & O3 & O4) Hf. apply list_kept; [intros b Hb|intros i Hi..]; apply Hf; lia.
Qed.

Lemma malloc_loop_ext m m' n : (∀ p, slot p → load16 m' p = load16 m p) →
  ∀ i, 0 ≤ i → i + Z.of_nat n ≤ 2000 → malloc_loop blink_array n i m' = malloc_loop blink_array n i m.
Proof using.
  intros Hm. induction n as [|n IH]; intros i Hi Hn; cbn [malloc_loop]; [done|]. unfold STRUCT_SIZE, LOCATION.
  rewrite Z.add_0_r, Hm by (exists i; split; [lia|done]). by rewrite IH by lia.
Qed.
Lemma malloc_ext m m' : (∀ p, slot p → load16 m' p = load16 m p) → mp1_malloc blink_array m' = mp1_malloc blink_array m.
Proof using. intros Hm. unfold mp1_malloc. refine (malloc_loop_ext m m' CELLS Hm 0 _ _); unfold CELLS; lia. Qed.

Lemma get_blink_copy m m' p q : (∀ j, 0 ≤ j < 16 → mget m' (q + j) = mget m (p + j)) → get_blink m' q = get_blink m p.
Proof using. intros E. apply get_blink_ext. intros i Hi. apply E. lia. Qed.

(** The local copy that [mp1_ioctl_add] prepares. *)
Lemma add_prepares m tmp b : get_blink m tmp = b →
  let m1 := store16 m (tmp + STATUS) 1 in
  let m' := store16 m1 (tmp + COUNTDOWN) (load16 m1 (tmp + ON_LENGTH)) in
  get_blink m' tmp = started b ∧ frame tmp (tmp + 16) m m'.
Proof using.
  intros <- m1 m'. fields. assert (frame (tmp + 10) (tmp + 10 + 2) m m1) as F1 by apply frame_store16.
  assert (frame (tmp + 8) (tmp + 8 + 2) m1 m') as F2 by apply frame_store16. split.
  - assert (load16 m' (tmp + 8) = load16 m1 (tmp + 4)) as E8.
    { unfold m'. rewrite load16_store16. apply u16_small, load16_range. }
    assert (load16 m' (tmp + 10) = 1) as E10.
    { rewrite (load16_frame _ _ _ _ _ F2) by lia. unfold m1. by rewrite load16_store16. }
    unfold get_blink at 1, started. rewrite E8, E10.
    rewrite !(load16_frame _ _ _ _ _ F2), !(load16_frame _ _ _ _ _ F1), !F2, !F1 by lia. reflexivity.
  - intros a Ha. by rewrite F2, F1 by lia.
Qed.

Lemma add_slot tmp arg m :
  placed → load32 m vptr = base → off_list tmp 16 → tmp + 16 ≤ arg ∨ arg + 16 ≤ tmp →
  let b := get_blink m arg in let p := mp1_malloc blink_array m in location b < 2000 → slot p →
  ∃ m', mp1_ioctl_add list_head blink_array vmem_base_addr tmp arg m = (0, m') ∧
    get_blink m' p = started b ∧ load32 m' (p + NEXT) = load32 m head ∧ load32 m' head = p ∧
    ∀ a, ¬ p ≤ a < p + 16 → ¬ head ≤ a < head + 4 → ¬ tmp ≤ a < tmp + 16 → mget m' a = mget (draw m (location b, on_char b)) a.
Proof using.
  intros Hpl Hbase Ho Harg b p Hloc Hs. unfold mp1_ioctl_add, STRUCT_SIZE.
  destruct (ece391_memcpy_ok m tmp arg 16) as (m1 & -> & F1 & C1); [lia|lia|]. cbn iota beta. change (negb (0 =? 0)) with false. cbn iota.
  assert (get_blink m1 tmp = b) as Eb1 by (by apply get_blink_copy).
  change (LOCATION) with 0. rewrite Z.add_0_r, Z.geb_leb. change (load16 m1 tmp) with (location (get_blink m1 tmp)). rewrite Eb1.
  rewrite (proj2 (Z.leb_gt _ _)) by lia.
  destruct (add_prepares m1 tmp b Eb1) as [Eb3 F3].
  set (m3 := store16 _ (tmp + COUNTDOWN) _) in *. pose proof (frame_trans _ _ _ _ _ F1 F3) as F13.
  pose proof Hpl as [[A1 A2] (Hd1 & Hd2) Hv Hc [V1 V2] (W1 & W2 & W3)]. destruct Ho as (O1 & O2 & O3 & O4).
  assert (mp1_malloc blink_array m3 = mp1_malloc blink_array m) as Em.
  { apply malloc_ext. intros q Hq. pose proof (slot_range q Hq). apply (load16_frame _ _ _ _ _ F13). lia. }
  rewrite Em. fold p.
  pose proof (slot_range p Hs) as Hr. rewrite (proj2 (Z.eqb_neq p 0)) by lia.
  destruct (ece391_memcpy_ok m3 p tmp 16) as (m4 & -> & F4 & C4); [lia|lia|]. cbn iota beta zeta.
  set (m5 := store32 m4 (p + NEXT) (load32 m4 head)). set (m6 := store32 m5 head p). unfold NEXT in *.
  assert (frame (p + 12) (p + 12 + 4) m4 m5) as F5 by apply frame_store32.
  assert (frame head (head + 4) m5 m6) as F6 by apply frame_store32.
  assert (∀ i, 0 ≤ i < 12 → mget m6 (p + i) = mget m3 (tmp + i)) as C6 by (intros i Hi; rewrite F6, F5 by lia; apply C4; lia).
  assert (get_blink m6 p = started b) as Eb6 by (rewrite <- Eb3; by apply get_blink_ext).
  assert (location b = load16 m6 p) as El6 by (by apply (f_equal location) in Eb6).
  assert (on_char b = mget m6 (p + 2)) as Eo6 by (by apply (f_equal on_char) in Eb6).
  assert (0 ≤ location b) as Hl0 by (rewrite El6; apply load16_range).
  assert (load32 m6 vptr = base) as Hb6.
  { rewrite <- Hbase. apply load32_ext. intros i Hi. rewrite F6, F5, F4, F13 by lia. done. }
  rewrite Z.add_0_r. change ON_CHAR with 2. rewrite <- El6, <- Eo6, (poke_draw m6) by (done || lia).
  set (m7 := draw m6 _). assert (∀ a, a ≠ base + 2 * location b → mget m7 a = mget m6 a) as F7 by (intros a Ha; by apply mget_mset_ne).
  exists m7. split; [reflexivity|].
  split; [rewrite <- Eb6; apply get_blink_ext; intros i Hi; apply F7; lia|].
  split; [|split].
  - transitivity (load32 m5 (p + 12)).
    + apply load32_ext. intros i Hi. rewrite F7, F6 by lia. done.
    + unfold m5. rewrite load32_store32. rewrite u32_small by apply load32_range. apply load32_ext.
      intros i Hi. rewrite F4, F13 by lia. done.
  - transitivity (load32 m6 head); [apply load32_ext; intros i Hi; rewrite F7 by lia; done|].
    unfold m6. rewrite load32_store32. apply u32_small. lia.
  - intros a N1 N2 N3. unfold m7, draw. rewrite !mget_mset. case_decide; [done|]. by rewrite F6, F5, F4, F13 by lia.
Qed.

(** A structure put in front of the list. *)
Lemma push_ok m m' ss p b :
  blink_list m ss → slot p → p ∉ ss → get_blink m' p = b → 0 < location b < 2000 →
  load32 m' (p + NEXT) = load32 m head → load32 m' head = p → load32 m' vptr = load32 m vptr →
  (∀ a, arr ≤ a < arr + 32000 → ¬ p ≤ a < p + 16 → mget m' a = mget m a) →
  blink_list m' (p :: ss) ∧ blinks m' (p :: ss) = b :: blinks m ss.
Proof using.
  intros [B1 B2 B3 B4 B5] Hs Hn Hb Hloc Hnext Hhead Hv Hk.
  assert (∀ q, slot q → q ≠ p → get_blink m' q = get_blink m q ∧ load16 m' q = load16 m q ∧
    load32 m' (q + NEXT) = load32 m (q + NEXT)) as Hkeep by (intros q Hq Hne; by apply (slot_kept _ _ p)).
  split; [split|].
  - cbn [chain]. split; [done|]. rewrite Hnext. eapply chain_ext; [|exact B1]. intros q Hq. apply Hkeep; [by apply B3|by intros ->].
  - by apply NoDup_cons.
  - intros q Hq. apply elem_of_cons in Hq as [->|Hq].
    + split; [done|]. by rewrite <- Hb in Hloc.
    + destruct (B3 q Hq) as [Hsq Hlq]. split; [done|]. destruct (Hkeep q Hsq ltac:(by intros ->)) as (_ & -> & _). done.
  - intros q Hq Hnq. apply not_elem_of_cons in Hnq as [Hne Hnq]. destruct (Hkeep q Hq Hne) as (_ & -> & _). by apply B4.
  - congruence.
  - unfold blinks. rewrite fmap_cons, Hb. f_equal. apply list_fmap_ext. intros i q Hq. apply list_elem_of_lookup_2 in Hq.
    apply Hkeep; [by apply B3|by intros ->].
Qed.

Definition add_result (b : blink) (n : nat) : Z := if decide (location b < 2000 ∧ (n < 2000)%nat) then 0 else -1.
(** [mp1_ioctl_add] puts the new blink in front and draws it, or refuses: it
    lies outside the screen or there is no room. *)
Lemma mp1_ioctl_add_ok tmp arg m ss :
  placed → blink_list m ss → off_list tmp 16 → tmp + 16 ≤ arg ∨ arg + 16 ≤ tmp →
  let b := get_blink m arg in location b ≠ 0 →
  ∃ m' ss', mp1_ioctl_add list_head blink_array vmem_base_addr tmp arg m = (add_result b (length ss), m') ∧
    blink_list m' ss' ∧
    (if decide (location b < 2000 ∧ (length ss < 2000)%nat)
     then blinks m' ss' = started b :: blinks m ss else blinks m' ss' = blinks m ss) ∧
    ∀ a, ¬ arr ≤ a < arr + 32000 → ¬ head ≤ a < head + 4 → ¬ tmp ≤ a < tmp + 16 →
      mget m' a = mget (if decide (location b < 2000 ∧ (length ss < 2000)%nat) then draw m (location b, on_char b) else m) a.
Proof using.
  intros Hpl Hbl Ho Harg b Hnz. unfold add_result. case_decide as Hd.
  - destruct Hd as [Hloc Hlen]. destruct (mp1_malloc_ok m ss Hbl) as [[_ He]|(Hs & Hn & _)]; [lia|].
    destruct (add_slot tmp arg m Hpl (bl_base _ _ Hbl) Ho Harg Hloc Hs) as (m' & E & Eb & En & Eh & Hm').
    set (p := mp1_malloc blink_array m) in *.
    pose proof Hpl as [[A1 A2] (Hd1 & Hd2) Hv Hc [V1 V2] (W1 & W2 & W3)]. destruct Ho as (O1 & O2 & O3 & O4).
    assert (0 ≤ location b) as Hl0 by apply load16_range. pose proof (slot_range p Hs) as Hr.
    assert (∀ a, ¬ p ≤ a < p + 16 → ¬ head ≤ a < head + 4 → ¬ tmp ≤ a < tmp + 16 → ¬ base ≤ a < base + 4000 → mget m' a = mget m a) as Hk.
    { intros a N1 N2 N3 N4. rewrite Hm' by done. apply mget_mset_ne. change (base + 2 * location b ≠ a). lia. }
    destruct (push_ok m m' ss p (started b) Hbl Hs Hn Eb) as [Hbl' Ebs]; try done.
    + cbn [location started]. lia.
    + apply load32_ext. intros i Hi. apply Hk; lia.
    + intros a Ha Hna. apply Hk; lia.
    + exists m', (p :: ss). split; [exact E|]. split; [done|]. split; [done|]. intros a N1 N2 N3. apply Hm'; lia.
  - unfold mp1_ioctl_add, STRUCT_SIZE. destruct (ece391_memcpy_ok m tmp arg 16) as (m1 & -> & F1 & C1); [lia|lia|].
    cbn iota beta. change (negb (0 =? 0)) with false. cbn iota. change LOCATION with 0. rewrite Z.add_0_r, Z.geb_leb.
    assert (get_blink m1 tmp = b) as Eb1 by (by apply get_blink_copy).
    change (load16 m1 tmp) with (location (get_blink m1 tmp)). rewrite Eb1.
    destruct (Z.leb_spec (80 * 25) (location b)) as [Hge|Hlt].
    + destruct (off_list_kept m m1 tmp 16 ss Hpl Ho F1 Hbl) as [H1 H2]. exists m1, ss.
      split_and!; try done. intros a _ _ Ha. by apply F1.
    + destruct (add_prepares m1 tmp b Eb1) as [_ F3]. set (m3 := store16 _ (tmp + COUNTDOWN) _) in *.
      pose proof (frame_trans _ _ _ _ _ F1 F3) as F13. destruct (off_list_kept m m3 tmp 16 ss Hpl Ho F13 Hbl) as [H1 H2].
      destruct (mp1_malloc_ok m3 ss H1) as [[-> _]|(_ & _ & Hl)]; [|lia]. exists m3, ss.
      split_and!; try done. intros a _ _ Ha. by apply F13.
Qed.

(** ** Finding and removing *)

(** The first blink at a cell. *)
Definition at_cell (x : Z) (b : blink) : Prop := location b = x.
#[local] Instance at_cell_dec x b : Decision (at_cell x b) := Z.eq_dec _ _.
Definition find_cell (x : Z) (bs : list blink) : option (nat * blink) := list_find (at_cell x) bs.

Lemma find_loop_ok ax m : ∀ ss p fuel, placed → chain m p ss → (∀ q, q ∈ ss → slot q) → (length ss < fuel)%nat →
  find_loop fuel ax p m = Some (match find_cell ax (blinks m ss) with Some (i, _) => ss !!! i | None => 0 end).
Proof using.
  intros ss. induction ss as [|q ss IH]; intros p fuel Hpl Hc Hs Hf; (destruct fuel as [|fuel]; [simpl in Hf; lia|]); cbn [find_loop].
  { cbn [chain] in Hc. subst p. reflexivity. }
  cbn [chain] in Hc. destruct Hc as [-> Hc]. pose proof (slot_range q (Hs q ltac:(left))). pose proof (pl_array Hpl) as [? ?].
  rewrite (proj2 (Z.eqb_neq q 0)) by lia. change LOCATION with 0. rewrite Z.add_0_r.
  unfold find_cell. change (blinks m (q :: ss)) with (get_blink m q :: blinks m ss). cbn [list_find].
  change (load16 m q) with (location (get_blink m q)).
  destruct (Z.eqb_spec (location (get_blink m q)) ax) as [E|E].
  { by rewrite decide_True by done. }
  rewrite decide_False by done. rewrite (IH _ fuel) by (done || (intros; apply Hs; by right) || (cbn [length] in Hf; lia)).
  fold (find_cell ax (blinks m ss)). by destruct (find_cell ax (blinks m ss)) as [[i b]|].
Qed.
Lemma mp1_find_helper_ok ax m ss fuel : placed → blink_list m ss → (length ss < fuel)%nat →
  mp1_find_helper list_head fuel ax m =
    Some (match find_cell (u16 ax) (blinks m ss) with Some (i, _) => ss !!! i | None => 0 end).
Proof using. intros Hpl Hbl Hf. apply find_loop_ok; [done|apply Hbl|intros q Hq; by apply Hbl|done]. Qed.
Lemma find_cell_slot x m ss i b : find_cell x (blinks m ss) = Some (i, b) →
  ∃ q, ss !! i = Some q ∧ ss !!! i = q ∧ get_blink m q = b ∧ q ∈ ss.
Proof using.
  intros E. apply list_find_Some in E as (Hi & _). unfold blinks in Hi. rewrite list_lookup_fmap in Hi.
  destruct (ss !! i) as [q|] eqn:Eq; [|done]. apply some_inv in Hi. exists q.
  split; [done|]. split; [by apply list_lookup_total_correct|]. split; [done|]. by eapply list_elem_of_lookup_2.
Qed.

(** Taking a structure out of a chain that starts in the cell [edx]. *)
Lemma find_prev_ok m q : ∀ ss edx i fuel,
  placed → chain m (load32 m edx) ss → NoDup ss → (∀ r, r ∈ ss → slot r) → ss !! i = Some q → (length ss < fuel)%nat →
  (∀ r, r ∈ ss → edx + 4 ≤ r + NEXT ∨ r + NEXT + 4 ≤ edx) →
  ∃ cell, find_prev fuel q edx m = Some cell ∧ (cell = edx ∨ ∃ r, r ∈ ss ∧ r ≠ q ∧ cell = r + NEXT) ∧
    let m' := store32 m cell (load32 m (q + NEXT)) in chain m' (load32 m' edx) (delete i ss).
Proof using.
  intros ss. induction ss as [|s ss IH]; intros edx i fuel Hpl Hc Hnd Hs Hi Hf He; [done|].
  destruct fuel as [|fuel]; [simpl in Hf; lia|]. cbn [chain] in Hc. destruct Hc as [Es Hc]. apply NoDup_cons in Hnd as [Hn Hnd].
  cbn [find_prev]. rewrite Es. destruct i as [|i].
  - apply some_inv in Hi as ->. rewrite Z.eqb_refl. exists edx. split; [done|]. split; [by left|]. cbv zeta.
    rewrite load32_store32, u32_small by apply load32_range. cbn [delete list_delete].
    eapply chain_ext; [|exact Hc]. intros r Hr. apply load32_store32_out. destruct (He r ltac:(by right)); lia.
  - cbn in Hi. assert (q ∈ ss) as Hq by (by eapply list_elem_of_lookup_2).
    assert (s ≠ q) as Hne by (by intros ->). rewrite (proj2 (Z.eqb_neq s q)) by done.
    assert (∀ r, r ∈ ss → s + NEXT + 4 ≤ r + NEXT ∨ r + NEXT + 4 ≤ s + NEXT) as Hap.
    { intros r Hr. pose proof (slots_apart s r (Hs s ltac:(left)) (Hs r ltac:(by right)) ltac:(by intros ->)). lia. }
    destruct (IH (s + NEXT) i fuel Hpl Hc Hnd ltac:(intros r Hr; apply Hs; by right) Hi ltac:(cbn [length] in Hf; lia) Hap)
      as (cell & E & Hcell & Hch).
    exists cell. split; [exact E|]. split.
    { right. destruct Hcell as [->|(r & Hr & Hrq & ->)]; [exists s; split; [left|done]|exists r; split; [by right|done]]. }
    cbv zeta in Hch |- *. set (m' := store32 m cell _) in *.
    assert (load32 m' edx = s) as ->.
    { rewrite <- Es. apply load32_store32_out. destruct Hcell as [->|(r & Hr & _ & ->)].
      - destruct (He s ltac:(left)); lia.
      - destruct (He r ltac:(by right)); lia. }
    cbn [delete list_delete chain]. by split.
Qed.

Lemma mp1_free_ok p m : let m' := mp1_free p m in
  frame p (p + 16) m m' ∧ load16 m' p = 0.
Proof using.
  unfold mp1_free, ece391_memset, STRUCT_SIZE. destruct (memset_loop_ok (Z.to_nat 16) 0 m p 0) as [F E].
  rewrite Z2Nat.id, !Z.add_0_r in * by lia. split; [done|]. cbv zeta. unfold load16.
  pose proof (E 0 ltac:(lia)) as E0. rewrite Z.add_0_r in E0. rewrite E0, E by lia. reflexivity.
Qed.

(** [mp1_ioctl_remove] drops the first blink at the cell; the screen stays. *)
Lemma mp1_ioctl_remove_ok arg m ss fuel : placed → blink_list m ss → (length ss < fuel)%nat →
  match find_cell (u16 arg) (blinks m ss) with
  | None => mp1_ioctl_remove list_head fuel arg m = Some (-1, m)
  | Some (i, _) => ∃ m', mp1_ioctl_remove list_head fuel arg m = Some (0, m') ∧ blink_list m' (delete i ss) ∧
      blinks m' (delete i ss) = delete i (blinks m ss) ∧
      ∀ a, ¬ arr ≤ a < arr + 32000 → ¬ head ≤ a < head + 4 → mget m' a = mget m a
  end.
Proof using.
  intros Hpl Hbl Hf. unfold mp1_ioctl_remove. rewrite (mp1_find_helper_ok _ _ ss) by done. cbn [mbind option_bind].
  destruct (find_cell (u16 arg) (blinks m ss)) as [[i b]|] eqn:Ef; [|by rewrite Z.eqb_refl].
  destruct (find_cell_slot _ _ _ _ _ Ef) as (q & Hi & -> & _ & Hq). pose proof Hbl as [B1 B2 B3 B4 B5].
  assert (∀ r, r ∈ ss → slot r) as Hs by (intros r Hr; by apply B3). pose proof (slot_range q (Hs q Hq)) as Hr.
  pose proof Hpl as [[A1 A2] (Hd1 & Hd2) Hv Hc [V1 V2] (W1 & W2 & W3)]. rewrite (proj2 (Z.eqb_neq q 0)) by lia.
  destruct (find_prev_ok m q ss head i fuel Hpl B1 B2 Hs Hi Hf) as (cell & -> & Hcell & Hch).
  { intros r Hr'. pose proof (slot_range r (Hs r Hr')). unfold NEXT. lia. }
  cbn [mbind option_bind]. cbv zeta in Hch. set (m1 := store32 m cell _) in *.
  assert (frame cell (cell + 4) m m1) as F1 by apply frame_store32.
  destruct (mp1_free_ok q m1) as [F2 Z2]. set (m2 := mp1_free q m1) in *.
  (* the cell lies in the head or in a link of another structure *)
  assert (∀ r, slot r → r ≠ q → ∀ j, 0 ≤ j < 12 → mget m2 (r + j) = mget m (r + j)) as Hk.
  { intros r Hsr Hne j Hj. pose proof (slots_apart r q Hsr (Hs q Hq) Hne). pose proof (slot_range r Hsr). rewrite F2, F1; [done| |lia].
    destruct Hcell as [->|(s & Hss & _ & ->)]; [lia|]. unfold NEXT. destruct (decide (s = r)) as [->|Hn]; [lia|].
    pose proof (slots_apart s r (Hs s Hss) Hsr Hn). lia. }
  assert (∀ r, slot r → r ≠ q → load32 m2 (r + NEXT) = load32 m1 (r + NEXT)) as Hlink.
  { intros r Hsr Hne. pose proof (slots_apart r q Hsr (Hs q Hq) Hne). apply load32_ext. unfold NEXT. intros j Hj. apply F2. lia. }
  assert (cell + 4 ≤ vptr ∨ vptr + 4 ≤ cell) as Hcv.
  { destruct Hcell as [->|(s & Hss & _ & ->)]; [done|]. pose proof (slot_range s (Hs s Hss)). unfold NEXT. lia. }
  pose proof (λ r, elem_delete ss i q r B2 Hi) as Hdel.
  exists m2. split; [reflexivity|]. split; [split|split].
  - assert (load32 m2 head = load32 m1 head) as -> by (apply load32_ext; intros j Hj; apply F2; lia).
    eapply chain_ext; [|exact Hch]. intros r Hin. apply Hdel in Hin as [Hin Hne]. by apply Hlink; [apply Hs|].
  - eapply sublist_NoDup; [done|apply sublist_delete].
  - intros r Hin. apply Hdel in Hin as [Hin Hne]. destruct (B3 r Hin) as [Hsr Hl]. split; [done|].
    pose proof (Hk r Hsr Hne 0 ltac:(lia)) as E0. rewrite !Z.add_0_r in E0.
    rewrite (load16_ext m m2 r r E0); [done|]. apply Hk; [done|done|lia].
  - intros r Hsr Hn. destruct (decide (r = q)) as [->|Hne]; [done|]. pose proof (Hk r Hsr Hne 0 ltac:(lia)) as E0.
    rewrite !Z.add_0_r in E0. rewrite (load16_ext m m2 r r E0 (Hk r Hsr Hne 1 ltac:(lia))). apply B4; [done|].
    intros Hin. apply Hn, Hdel. done.
  - rewrite <- B5. apply load32_ext. intros j Hj. rewrite F2, F1 by lia. done.
  - unfold blinks. rewrite <- (list_fmap_delete (get_blink m)). apply list_fmap_ext. intros j r Hr'.
    apply list_elem_of_lookup_2, Hdel in Hr' as [Hin Hne]. apply get_blink_ext. apply Hk; [by apply Hs|done].
  - intros a N1 N2. rewrite F2, F1; [done| |lia]. destruct Hcell as [->|(s & Hss & _ & ->)]; [lia|].
    pose proof (slot_range s (Hs s Hss)). unfold NEXT. lia.
Qed.

(** ** Synchronising *)

Definition synced (a b : blink) : blink :=
  Bl (location b) (on_char b) (off_char b) (on_length a) (off_length a) (countdown a) (status a).

(** One structure of the list changes, not where it stands. *)
Lemma update_ok m m' ss j q : blink_list m ss → ss !! j = Some q →
  (∀ a, arr ≤ a < arr + 32000 → ¬ q ≤ a < q + 12 → mget m' a = mget m a) → load16 m' q = load16 m q →
  load32 m' head = load32 m head → load32 m' vptr = load32 m vptr →
  blink_list m' ss ∧ blinks m' ss = <[j := get_blink m' q]> (blinks m ss).
Proof using.
  intros Hbl Hj Hk Hl Hh Hv. pose proof Hbl as [B1 B2 B3 B4 B5].
  assert (q ∈ ss) as Hq by (by eapply list_elem_of_lookup_2). assert (slot q) as Hsq by (by apply B3).
  assert (∀ r, slot r → r ≠ q → get_blink m' r = get_blink m r ∧ load16 m' r = load16 m r ∧
    load32 m' (r + NEXT) = load32 m (r + NEXT)) as Hkeep.
  { intros r Hr Hne. apply (slot_kept _ _ q); [done|done|done|]. intros a Ha Hn. apply Hk; [done|lia]. }
  split.
  - apply (blink_list_ext m); [| |done|done|done].
    + intros r Hr. destruct (decide (r = q)) as [->|Hne]; [done|]. by apply Hkeep.
    + intros r Hr. destruct (decide (r = q)) as [->|Hne]; [|by apply Hkeep; [apply B3|]].
      pose proof (slot_range q Hsq). apply load32_ext. unfold NEXT. intros i Hi. apply Hk; lia.
  - unfold blinks. apply list_eq. intros i. destruct (decide (i = j)) as [->|Hne].
    + rewrite list_lookup_insert_eq by (rewrite length_fmap; by eapply lookup_lt_Some). by rewrite list_lookup_fmap, Hj.
    + rewrite list_lookup_insert_ne, !list_lookup_fmap by done. destruct (ss !! i) as [r|] eqn:Er; [|done].
      apply (f_equal Some), Hkeep; [apply B3; by eapply list_elem_of_lookup_2|]. intros ->.
      by pose proof (NoDup_lookup _ _ _ _ B2 Er Hj).
Qed.

(** The copies of [mp1_ioctl_sync], between two structures or within one. *)
Lemma sync_copies m p q : p = q ∨ p + 16 ≤ q ∨ q + 16 ≤ p →
  let m1 := store16 m (q + ON_LENGTH) (load16 m (p + ON_LENGTH)) in
  let m2 := store16 m1 (q + OFF_LENGTH) (load16 m1 (p + OFF_LENGTH)) in
  let m3 := store16 m2 (q + COUNTDOWN) (load16 m2 (p + COUNTDOWN)) in
  let m4 := store16 m3 (q + STATUS) (load16 m3 (p + STATUS)) in
  get_blink m4 q = synced (get_blink m p) (get_blink m q) ∧ frame (q + 4) (q + 12) m m4.
Proof using.
  intros Hpq m1 m2 m3 m4. fields.
  assert (frame (q + 4) (q + 4 + 2) m m1) as F1 by apply frame_store16.
  assert (frame (q + 6) (q + 6 + 2) m1 m2) as F2 by apply frame_store16.
  assert (frame (q + 8) (q + 8 + 2) m2 m3) as F3 by apply frame_store16.
  assert (frame (q + 10) (q + 10 + 2) m3 m4) as F4 by apply frame_store16.
  assert (load16 m4 (q + 4) = load16 m (p + 4)) as E4.
  { rewrite (load16_frame _ _ _ _ _ F4), (load16_frame _ _ _ _ _ F3), (load16_frame _ _ _ _ _ F2) by lia.
    unfold m1. rewrite load16_store16. apply u16_small, load16_range. }
  assert (load16 m4 (q + 6) = load16 m (p + 6)) as E6.
  { rewrite (load16_frame _ _ _ _ _ F4), (load16_frame _ _ _ _ _ F3) by lia. unfold m2.
    rewrite load16_store16, (load16_frame _ _ _ _ _ F1) by lia. apply u16_small, load16_range. }
  assert (load16 m4 (q + 8) = load16 m (p + 8)) as E8.
  { rewrite (load16_frame _ _ _ _ _ F4) by lia. unfold m3.
    rewrite load16_store16, (load16_frame _ _ _ _ _ F2), (load16_frame _ _ _ _ _ F1) by lia. apply u16_small, load16_range. }
  assert (load16 m4 (q + 10) = load16 m (p + 10)) as E10.
  { unfold m4. rewrite load16_store16, (load16_frame _ _ _ _ _ F3), (load16_frame _ _ _ _ _ F2), (load16_frame _ _ _ _ _ F1) by lia.
    apply u16_small, load16_range. }
  assert (frame (q + 4) (q + 12) m m4) as F by (intros a Ha; rewrite F4, F3, F2, F1 by lia; done).
  split; [|exact F]. unfold get_blink at 1. rewrite E4, E6, E8, E10, !F by lia.
  by rewrite (load16_frame _ _ _ _ _ F) by lia.
Qed.

(** [mp1_ioctl_sync] gives the blink at the second cell the lengths and the
    phase of the one at the first; whatever the phase, what it draws is the
    character for "off". *)
Lemma mp1_ioctl_sync_ok arg m ss fuel : placed → blink_list m ss → (length ss < fuel)%nat →
  match find_cell (u16 (Z.shiftr arg 16)) (blinks m ss), find_cell (u16 (Z.land arg 0xFFFF)) (blinks m ss) with
  | Some (_, a), Some (j, b) => ∃ m', mp1_ioctl_sync list_head vmem_base_addr fuel arg m = Some (0, m') ∧
      blink_list m' ss ∧ blinks m' ss = <[j := synced a b]> (blinks m ss) ∧
      ∀ x, ¬ arr ≤ x < arr + 32000 → mget m' x = mget (draw m (location b, off_char b)) x
  | _, _ => mp1_ioctl_sync list_head vmem_base_addr fuel arg m = Some (-1, m)
  end.
Proof using.
  intros Hpl Hbl Hf. unfold mp1_ioctl_sync. rewrite !(mp1_find_helper_ok _ _ ss) by done. cbn [mbind option_bind].
  destruct (find_cell (u16 (Z.shiftr arg 16)) _) as [[i a]|] eqn:E1; [|by rewrite Z.eqb_refl].
  destruct (find_cell_slot _ _ _ _ _ E1) as (p & Hi & -> & Ea & Hp). pose proof Hbl as [B1 B2 B3 B4 B5].
  pose proof (slot_range p (proj1 (B3 p Hp))) as Hrp. pose proof Hpl as [[A1 A2] (Hd1 & Hd2) Hv Hc [V1 V2] (W1 & W2 & W3)].
  rewrite (proj2 (Z.eqb_neq p 0)) by lia.
  destruct (find_cell (u16 (Z.land arg 0xFFFF)) _) as [[j b]|] eqn:E2; [|by rewrite Z.eqb_refl].
  destruct (find_cell_slot _ _ _ _ _ E2) as (q & Hj & -> & Eb & Hq). pose proof (slot_range q (proj1 (B3 q Hq))) as Hrq.
  rewrite (proj2 (Z.eqb_neq q 0)) by lia.
  assert (p = q ∨ p + 16 ≤ q ∨ q + 16 ≤ p) as Hpq.
  { destruct (decide (p = q)); [by left|]. right. apply slots_apart; [by apply B3|by apply B3|done]. }
  destruct (sync_copies m p q Hpq) as [E4 F4]. rewrite Ea, Eb in E4.
  set (m4 := store16 _ (q + STATUS) _) in *. cbv zeta. change LOCATION with 0. rewrite Z.add_0_r.
  assert (load16 m4 q = location b) as El by (change (location (get_blink m4 q) = location b); by rewrite E4).
  assert (mget m4 (q + OFF_CHAR) = off_char b) as Eo by (change (off_char (get_blink m4 q) = off_char b); by rewrite E4).
  assert ((s8 (Z.land (mget m4 (q + STATUS)) 1) <? 0) = false) as ->.
  { apply Z.ltb_ge. rewrite (land_low _ 1) by lia. unfold s8. lia. }
  destruct (B3 q Hq) as [Hsq Hlq]. assert (load16 m q = location b) as Elm by (by rewrite <- Eb).
  rewrite El, Eo, poke_draw; [|rewrite <- B5; apply load32_ext; intros o Ho; apply F4; lia|done|lia].
  set (m5 := draw m4 _). assert (∀ x, ¬ base ≤ x < base + 4000 → mget m5 x = mget m4 x) as F5.
  { intros x Hx. apply mget_mset_ne. cbn [fst]. lia. }
  assert (get_blink m5 q = synced a b) as E5 by (rewrite <- E4; apply get_blink_ext; intros o Ho; apply F5; lia).
  destruct (update_ok m m5 ss j q Hbl Hj) as [X Y].
  - intros x Hx Hn. by rewrite F5, F4 by lia.
  - rewrite Elm. change (location (get_blink m5 q) = location b). by rewrite E5.
  - apply load32_ext. intros o Ho. by rewrite F5, F4 by lia.
  - apply load32_ext. intros o Ho. by rewrite F5, F4 by lia.
  - exists m5. split; [reflexivity|]. split; [exact X|]. split; [by rewrite Y, E5|].
    intros x Hx. unfold m5, draw. rewrite !mget_mset. case_decide; [done|]. apply F4. lia.
Qed.

(** ** A blink at cell 0 *)

Lemma cycle_never_ends p fuel : placed → slot p → ∀ m,
  load16 m p < 2000 → load32 m vptr = base → load32 m (p + NEXT) = p → tasklet_loop vmem_base_addr fuel p m = None.
Proof using.
  intros Hpl Hs. pose proof (slot_range p Hs) as Hr. pose proof Hpl as [[A1 A2] _ Hv _ _ (W1 & W2 & W3)].
  induction fuel as [|fuel IH]; intros m Hl Hb Hn; cbn [tasklet_loop]; [done|]. rewrite (proj2 (Z.eqb_neq p 0)) by lia.
  destruct (tasklet_body_ok m p Hpl Hs Hl Hb) as [E F]. set (m1 := tasklet_body vmem_base_addr p m) in *.
  pose proof (redraw_cells (get_blink m p) ltac:(cbn [location get_blink]; pose proof (load16_range m p); lia)) as Hc.
  assert (∀ a, ¬ base ≤ a < base + 4000 → ¬ p ≤ a < p + 12 → mget m1 a = mget m a) as Hk.
  { intros a Ha Hna. rewrite F by done. by apply drawn_out. }
  assert (load32 m1 (p + NEXT) = p) as En.
  { rewrite <- Hn at 2. apply load32_ext. unfold NEXT. intros i Hi. apply Hk; lia. }
  rewrite En. apply IH; [|rewrite <- Hb; apply load32_ext; intros i Hi; apply Hk; lia|done].
  change (location (get_blink m1 p) < 2000). by rewrite E.
Qed.

(** A structure at cell 0 counts as free: the next addition takes it again
    and links it to itself, and the tasklet does not come back. *)
Lemma cell_zero_loops tmp arg m ss fuel :
  placed → blink_list m ss → (length ss < 2000)%nat → off_list tmp 16 → off_list arg 16 →
  tmp + 16 ≤ arg ∨ arg + 16 ≤ tmp → location (get_blink m arg) = 0 →
  let add m := mp1_ioctl_add list_head blink_array vmem_base_addr tmp arg m in
  ∃ m1 m2, add m = (0, m1) ∧ add m1 = (0, m2) ∧ mp1_rtc_tasklet list_head vmem_base_addr fuel m2 = None.
Proof using.
  intros Hpl Hbl Hlen Ht Ha Hd Hz. cbv zeta. destruct (mp1_malloc_ok m ss Hbl) as [[_ He]|(Hs & Hn & _)]; [lia|].
  pose proof (bl_free _ _ Hbl _ Hs Hn) as Hfree. pose proof (bl_base _ _ Hbl) as Hb.
  destruct (add_slot tmp arg m Hpl Hb Ht Hd ltac:(lia) Hs) as (m1 & E1 & G1 & N1 & H1 & F1).
  remember (mp1_malloc blink_array m) as p eqn:Ep. pose proof (slot_range p Hs) as Hr.
  remember (get_blink m arg) as b eqn:Eq.
  pose proof Hpl as [[A1 A2] (Hd1 & Hd2) Hv Hc [V1 V2] (W1 & W2 & W3)]. pose proof Ha as (O1 & O2 & O3 & O4).
  destruct Ht as (T1 & T2 & T3 & T4).
  assert (∀ a, ¬ p ≤ a < p + 16 → ¬ head ≤ a < head + 4 → ¬ tmp ≤ a < tmp + 16 → ¬ base ≤ a < base + 4000 → mget m1 a = mget m a) as K1.
  { intros a X1 X2 X3 X4. rewrite F1 by done. apply mget_mset_ne. change (base + 2 * location b ≠ a). rewrite Hz. clear -X4. lia. }
  assert (get_blink m1 arg = b) as Eb.
  { rewrite Eq. apply get_blink_ext. intros i Hi.
    apply K1; [clear -O1 Hr Hi|clear -O2 Hi|clear -Hd Hi|clear -O4 Hi]; lia. }
  assert (load16 m1 p = 0) as Z1 by (change (location (get_blink m1 p) = 0); by rewrite G1).
  assert (mp1_malloc blink_array m1 = p) as Em.
  { rewrite Ep. apply malloc_ext. intros q Hq. destruct (decide (q = p)) as [->|Hne]; [exact (eq_trans Z1 (eq_sym Hfree))|].
    pose proof (slots_apart q p Hq Hs Hne) as Hap. pose proof (slot_range q Hq) as Hrq.
    apply load16_ext; (apply K1; [clear -Hap|clear -Hd2 Hrq|clear -T1 Hrq|clear -W1 Hrq]; lia). }
  assert (load32 m1 vptr = base) as Hb1 by (rewrite <- Hb; apply load32_ext; intros i Hi; apply K1;
    [clear -Hv Hi Hr|clear -Hc Hi|clear -T3 Hi|clear -W3 Hi]; lia).
  destruct (add_slot tmp arg m1 Hpl Hb1 (conj T1 (conj T2 (conj T3 T4))) Hd) as (m2 & E2 & G2 & N2 & H2 & F2);
    [rewrite Eb; lia|by rewrite Em|]. rewrite Em, Eb in *.
  exists m1, m2. split; [exact E1|]. split; [exact E2|]. unfold mp1_rtc_tasklet. rewrite H2.
  apply cycle_never_ends; [done|done| | |congruence].
  - change (location (get_blink m2 p) < 2000). rewrite G2. change (location b < 2000). lia.
  - rewrite <- Hb1. apply load32_ext. intros i Hi.
    rewrite F2; [apply mget_mset_ne|clear -Hv Hi Hr; lia|clear -Hc Hi; lia|clear -T3 Hi; lia].
    change (base + 2 * location b ≠ vptr + i). rewrite Hz. clear -W3 Hi. lia.
Qed.

(** [mp1_ioctl_find] hands out a copy of the first blink at the cell. *)
Lemma mp1_ioctl_find_ok tmp arg m ss fuel :
  placed → blink_list m ss → (length ss < fuel)%nat → off_list tmp 2 → off_list arg 16 → tmp + 2 ≤ arg ∨ arg + 16 ≤ tmp →
  match find_cell (load16 m arg) (blinks m ss) with
  | None => ∃ m', mp1_ioctl_find list_head fuel tmp arg m = Some (-1, m') ∧ frame tmp (tmp + 2) m m'
  | Some (_, b) => ∃ m', mp1_ioctl_find list_head fuel tmp arg m = Some (0, m') ∧ get_blink m' arg = b ∧
      blink_list m' ss ∧ blinks m' ss = blinks m ss ∧
      ∀ a, ¬ arg ≤ a < arg + 16 → ¬ tmp ≤ a < tmp + 2 → mget m' a = mget m a
  end.
Proof using.
  intros Hpl Hbl Hf Ht Ha Hd. unfold mp1_ioctl_find.
  destruct (ece391_memcpy_ok m tmp arg 2) as (m1 & -> & F1 & C1); [lia|lia|]. cbn iota beta. change (negb (0 =? 0)) with false. cbn iota.
  destruct (off_list_kept m m1 tmp 2 ss Hpl Ht F1 Hbl) as [Hbl1 Eb1].
  assert (load16 m1 tmp = load16 m arg) as E.
  { pose proof (C1 0 ltac:(lia)) as C0. rewrite !Z.add_0_r in C0. apply load16_ext; [done|]. apply C1. lia. }
  rewrite (mp1_find_helper_ok _ _ ss), Eb1, E, u16_small by (done || apply load16_range). cbn [mbind option_bind].
  destruct (find_cell (load16 m arg) (blinks m ss)) as [[i b]|] eqn:Ef; [|by exists m1].
  destruct (find_cell_slot _ _ _ _ _ Ef) as (q & Hi & -> & Eb & Hq). destruct (bl_used _ _ Hbl q Hq) as [Hsq _].
  pose proof (slot_range q Hsq) as Hr. pose proof (pl_array Hpl) as [A1 A2]. rewrite (proj2 (Z.eqb_neq q 0)) by lia.
  pose proof Ha as (O1 & _). unfold STRUCT_SIZE.
  destruct (ece391_memcpy_ok m1 arg q 16) as (m2 & -> & F2 & C2); [lia|lia|]. cbn iota beta. change (0 =? 0) with true. cbn iota.
  destruct (off_list_kept m1 m2 arg 16 ss Hpl Ha F2 Hbl1) as [Hbl2 Eb2].
  exists m2. split; [reflexivity|]. split.
  - rewrite (get_blink_copy m1 m2 q arg C2), <- Eb. apply get_blink_ext. intros j Hj. apply F1. destruct Ht as (T1 & _). lia.
  - split; [done|]. split; [by rewrite Eb2|]. intros a N1 N2. by rewrite F2, F1.
Qed.
End list.

(** ** The phases of a blink *)

(** What the screen shows at the cell after [n] ticks, when nothing else
    draws there. *)
Fixpoint displayed (n : nat) (b : blink) (c : Z) : Z :=
  match n with
  | O => c
  | S n => displayed n (tick b) (default c (snd <$> head (redraw b)))
  end.
Definition phase (b : blink) (n : Z) : Z := n `mod` (on_length b + off_length b).
(** A blink [r] ticks into its period. *)
Definition at_phase (b : blink) (r : Z) : blink :=
  if r <? on_length b
  then Bl (location b) (on_char b) (off_char b) (on_length b) (off_length b) (on_length b - r) 1
  else Bl (location b) (on_char b) (off_char b) (on_length b) (off_length b) (on_length b + off_length b - r) 0.

Lemma tick_phase b r : 0 < on_length b ≤ 32768 → 0 < off_length b ≤ 32768 →
  0 ≤ r < on_length b + off_length b →
  let r' := if r + 1 =? on_length b + off_length b then 0 else r + 1 in
  tick (at_phase b r) = at_phase b r' ∧
  default (if r <? on_length b then on_char b else off_char b) (snd <$> head (redraw (at_phase b r))) =
    (if r' <? on_length b then on_char b else off_char b).
Proof.
  intros Ha Hb Hr r'. unfold tick, redraw, expires, at_phase, is_on.
  assert (∀ c, 0 < c ≤ 32768 → s16 (u16 (c - 1)) = c - 1) as Hs by (intros c Hc; unfold s16, u16; lia).
  destruct (Z.ltb_spec r (on_length b)) as [Hlt|Hge]; cbn [countdown status on_length off_length location on_char off_char].
  - rewrite Hs by lia. change (Z.land 1 1 =? 0) with false. cbn [negb]. unfold r'. rewrite (proj2 (Z.eqb_neq _ _)) by lia.
    destruct (decide (r + 1 = on_length b)) as [E|E].
    + replace (on_length b - r - 1 >? 0) with false by (rewrite Z.gtb_ltb; symmetry; apply Z.ltb_ge; lia).
      rewrite (proj2 (Z.ltb_ge (r + 1) _)) by lia. cbn [negb]. split; [|done]. f_equal; lia.
    + replace (on_length b - r - 1 >? 0) with true by (rewrite Z.gtb_ltb; symmetry; apply Z.ltb_lt; lia).
      rewrite (proj2 (Z.ltb_lt (r + 1) _)) by lia. cbn [negb]. split; [|done]. rewrite u16_small by lia. f_equal; lia.
  - rewrite Hs by lia. change (Z.land 0 1 =? 0) with true. cbn [negb]. unfold r'.
    destruct (Z.eqb_spec (r + 1) (on_length b + off_length b)) as [E|E].
    + replace (on_length b + off_length b - r - 1 >? 0) with false by (rewrite Z.gtb_ltb; symmetry; apply Z.ltb_ge; lia).
      rewrite (proj2 (Z.ltb_lt 0 _)) by lia. cbn [negb]. split; [|done]. f_equal; lia.
    + replace (on_length b + off_length b - r - 1 >? 0) with true by (rewrite Z.gtb_ltb; symmetry; apply Z.ltb_lt; lia).
      rewrite (proj2 (Z.ltb_ge (r + 1) _)) by lia. cbn [negb]. split; [|done]. rewrite u16_small by lia. f_equal; lia.
Qed.
Lemma phase_step b n : 0 < on_length b → 0 < off_length b → 0 ≤ n →
  phase b (n + 1) = if phase b n + 1 =? on_length b + off_length b then 0 else phase b n + 1.
Proof.
  intros Ha Hb Hn. unfold phase. set (p := on_length b + off_length b) in *. assert (0 < p) as Hp by lia. clearbody p.
  pose proof (Z.mod_pos_bound n p Hp). rewrite <- Zplus_mod_idemp_l. destruct (Z.eqb_spec (n `mod` p + 1) p) as [->|E].
  - apply Z_mod_same_full.
  - apply Z.mod_small. lia.
Qed.
Lemma displayed_phase b : 0 < on_length b ≤ 32768 → 0 < off_length b ≤ 32768 → ∀ n i, 0 ≤ i →
  Nat.iter n tick (at_phase b (phase b i)) = at_phase b (phase b (i + Z.of_nat n)) ∧
  displayed n (at_phase b (phase b i)) (if phase b i <? on_length b then on_char b else off_char b) =
    (if phase b (i + Z.of_nat n) <? on_length b then on_char b else off_char b).
Proof.
  intros Ha Hb n. induction n as [|n IH]; intros i Hi; [by rewrite Z.add_0_r|].
  pose proof (Z.mod_pos_bound i (on_length b + off_length b) ltac:(lia)) as Hr. fold (phase b i) in Hr.
  destruct (tick_phase b (phase b i) Ha Hb Hr) as [E1 E2]. rewrite <- (phase_step b i) in E1, E2 by lia.
  destruct (IH (i + 1) ltac:(lia)) as [IH1 IH2]. replace (i + Z.of_nat (S n)) with (i + 1 + Z.of_nat n) by lia.
  rewrite Nat.iter_succ_r, E1. cbn [displayed]. by rewrite E1, E2.
Qed.
