(* ===== verification/Pond.v ===== *)
(** * The blinking characters, command after command

    The list of blinks as a program uses it: from one call of blink.S to the
    next.  The specification is a list of blinks and the characters drawn so
    far ([pond]); any sequence of calls does to memory what it says, and what
    the screen shows of one blink follows from it. *)
From S2P Require Import Prelude CMem Blink.

(** The list of blinks, and what was drawn so far. *)
Record pond := Pond { p_blinks : list blink; p_drawn : list (Z * Z) }.
Definition a_add (b : blink) (p : pond) : pond :=
  if decide (location b < 2000 ∧ (length (p_blinks p) < 2000)%nat)
  then Pond (started b :: p_blinks p) (p_drawn p ++ [(location b, on_char b)]) else p.
Definition a_tick (p : pond) : pond := Pond (tick <$> p_blinks p) (p_drawn p ++ concat (redraw <$> p_blinks p)).
Definition a_remove (x : Z) (p : pond) : pond :=
  match find_cell x (p_blinks p) with Some (i, _) => Pond (delete i (p_blinks p)) (p_drawn p) | None => p end.
Definition a_sync (x y : Z) (p : pond) : pond :=
  match find_cell x (p_blinks p), find_cell y (p_blinks p) with
  | Some (_, a), Some (j, b) => Pond (<[j := synced a b]> (p_blinks p)) (p_drawn p ++ [(location b, off_char b)])
  | _, _ => p
  end.

(** The bytes of a structure, but for its link. *)
Definition blink_bytes (b : blink) : list Z :=
  [location b `mod` 256; location b `div` 256; on_char b; off_char b; on_length b `mod` 256; on_length b `div` 256;
   off_length b `mod` 256; off_length b `div` 256; countdown b `mod` 256; countdown b `div` 256;
   status b `mod` 256; status b `div` 256].
Lemma blink_bytes_at m a i : 0 ≤ i < 12 → blink_bytes (get_blink m a) !! Z.to_nat i = Some (mget m (a + i)).
Proof.
  intros Hi. assert (∀ x, load16 m x `mod` 256 = mget m x ∧ load16 m x `div` 256 = mget m (x + 1)) as Hw.
  { intros x. unfold load16. pose proof (mget_range m x). pose proof (mget_range m (x + 1)). lia. }
  destruct (Z.to_nat i) as [|[|[|[|[|[|[|[|[|[|[|[|n]]]]]]]]]]]] eqn:E; [..|lia];
    [assert (i = 0) as -> by lia|assert (i = 1) as -> by lia|assert (i = 2) as -> by lia|assert (i = 3) as -> by lia
    |assert (i = 4) as -> by lia|assert (i = 5) as -> by lia|assert (i = 6) as -> by lia|assert (i = 7) as -> by lia
    |assert (i = 8) as -> by lia|assert (i = 9) as -> by lia|assert (i = 10) as -> by lia|assert (i = 11) as -> by lia];
    cbn; rewrite ?(proj1 (Hw _)), ?(proj2 (Hw _)); do 2 f_equal; lia.
Qed.

Section commands.
Context (list_head blink_array vmem_base_addr base tmp : Z) (fuel : nat).
Local Abbreviation arr := blink_array.

(** A call, with its argument as it is passed. *)
Inductive command := Add (arg : Z) | Remove (arg : Z) | Find (arg : Z) | Sync (arg : Z) | Tick.
Definition run_command (c : command) (m : mem) : option (Z * mem) :=
  let ioctl := mp1_ioctl list_head blink_array vmem_base_addr fuel tmp in
  match c with
  | Add arg => ioctl arg RTC_ADD m
  | Remove arg => ioctl arg RTC_REMOVE m
  | Find arg => ioctl arg RTC_FIND m
  | Sync arg => ioctl arg RTC_SYNC m
  | Tick => m ← mp1_rtc_tasklet list_head vmem_base_addr fuel m; Some (0, m)
  end.
Fixpoint run_commands (cs : list command) (m : mem) : option (list Z * mem) :=
  match cs with
  | [] => Some ([], m)
  | c :: cs => '(r, m) ← run_command c m; '(rs, m) ← run_commands cs m; Some (r :: rs, m)
  end.

(** What the call means for the list and for the memory [w_args] in which the
    structures are passed: [Find] writes there what it finds. *)
Record world := World { w_pond : pond; w_args : mem }.
Definition is_found (o : option (nat * blink)) : bool := match o with Some _ => true | None => false end.
Definition meant (c : command) (w : world) : Z * world :=
  let p := w_pond w in
  match c with
  | Add arg => let b := get_blink (w_args w) arg in (add_result b (length (p_blinks p)), World (a_add b p) (w_args w))
  | Remove arg =>
      (if is_found (find_cell (u16 arg) (p_blinks p)) then 0 else -1, World (a_remove (u16 arg) p) (w_args w))
  | Find arg =>
      match find_cell (load16 (w_args w) arg) (p_blinks p) with
      | Some (_, b) => (0, World p (store_bytes (w_args w) arg (blink_bytes b)))
      | None => (-1, w)
      end
  | Sync arg =>
      let x := u16 (Z.shiftr arg 16) in
      let y := u16 (Z.land arg 0xFFFF) in
      (if is_found (find_cell x (p_blinks p)) && is_found (find_cell y (p_blinks p)) then 0 else -1,
       World (a_sync x y p) (w_args w))
  | Tick => (0, World (a_tick p) (w_args w))
  end.
Fixpoint meant_all (cs : list command) (w : world) : list Z * world :=
  match cs with
  | [] => ([], w)
  | c :: cs => let '(r, w) := meant c w in let '(rs, w) := meant_all cs w in (r :: rs, w)
  end.

(** Where [Find] leaves a pointer of the list: the last field of the copy. *)
Definition finds (cs : list command) : list Z := omap (λ c, match c with Find arg => Some arg | _ => None end) cs.
Context (fs : list Z).
Definition link_field (a : Z) : Prop := ∃ x, x ∈ fs ∧ x + NEXT ≤ a < x + STRUCT_SIZE.

(** The list is in memory, and the rest of memory is [w_args] with the drawn
    characters on the page. *)
Record at_work (m : mem) (w : world) : Prop := {
  aw_list : ∃ ss, blink_list list_head arr vmem_base_addr base m ss ∧ blinks m ss = p_blinks (w_pond w);
  aw_drawn : Forall (λ d, 0 ≤ d.1 < 2000) (p_drawn (w_pond w));
  aw_rest a : ¬ arr ≤ a < arr + 32000 → ¬ list_head ≤ a < list_head + 4 → ¬ tmp ≤ a < tmp + 16 → ¬ link_field a →
    mget m a = mget (drawn base (p_drawn (w_pond w)) (w_args w)) a }.
(** A structure passed is apart from everything and no field of it is such a
    pointer; one that is added has a place. *)
Definition passed (arg : Z) : Prop :=
  off_list list_head arr vmem_base_addr base arg 16 ∧ (tmp + 16 ≤ arg ∨ arg + 16 ≤ tmp) ∧
  Forall (λ x, arg ≤ x ∨ x + STRUCT_SIZE ≤ arg) fs.
Definition command_ok (w : world) (c : command) : Prop :=
  match c with
  | Add arg => passed arg ∧ location (get_blink (w_args w) arg) ≠ 0
  | Find arg => passed arg ∧ arg ∈ fs
  | _ => True
  end.
Fixpoint commands_ok (cs : list command) (w : world) : Prop :=
  match cs with [] => True | c :: cs => command_ok w c ∧ commands_ok cs (meant c w).2 end.

Context (Hpl : placed list_head arr vmem_base_addr base) (Ht : off_list list_head arr vmem_base_addr base tmp 16).
Context (Hfuel : (2000 < fuel)%nat).

Lemma at_work_length m ss p : blink_list list_head arr vmem_base_addr base m ss → blinks m ss = p_blinks p →
  length ss = length (p_blinks p) ∧ (length ss < fuel)%nat.
Proof using Hfuel.
  intros Hbl <-. unfold blinks. rewrite length_fmap. destruct (mp1_malloc_ok _ _ _ _ m ss Hbl) as [[_ ->]|(_ & _ & ?)]; lia.
Qed.
(** A structure passed is what [w_args] says. *)
Lemma at_work_arg m w arg : at_work m w → passed arg → get_blink m arg = get_blink (w_args w) arg.
Proof using.
  clear Hpl Ht Hfuel. intros [_ Hd Hr] ((O1 & O2 & O3 & O4) & Ha & Hfs). apply get_blink_ext. intros i Hi.
  rewrite Hr; [apply drawn_out; [done|lia]|lia|lia|lia|].
  intros (x & Hx & Hin). pose proof (proj1 (Forall_forall _ _) Hfs x Hx) as Hax.
  unfold NEXT, STRUCT_SIZE in *. lia.
Qed.
(** One call: the list is as described, and [ds] is drawn. *)
Lemma at_work_step m m' w p' ds : at_work m w → p_drawn p' = p_drawn (w_pond w) ++ ds →
  (∃ ss, blink_list list_head arr vmem_base_addr base m' ss ∧ blinks m' ss = p_blinks p') →
  Forall (λ d, 0 ≤ d.1 < 2000) ds →
  (∀ a, ¬ arr ≤ a < arr + 32000 → ¬ list_head ≤ a < list_head + 4 → ¬ tmp ≤ a < tmp + 16 → mget m' a = mget (drawn base ds m) a) →
  at_work m' (World p' (w_args w)).
Proof using.
  intros [_ Hd Hr] E Hl Hds Hm. split; cbn [w_pond w_args]; [done|rewrite E; by apply Forall_app|].
  intros a N1 N2 N3 N4. rewrite E, drawn_app, Hm by done. apply drawn_ext. by apply Hr.
Qed.

Lemma add_step m w arg : at_work m w → command_ok w (Add arg) →
  ∃ m', run_command (Add arg) m = Some ((meant (Add arg) w).1, m') ∧ at_work m' (meant (Add arg) w).2.
Proof using Hpl Ht.
  clear Hfuel. intros Haw (Ho & Hnz). pose proof (at_work_arg _ _ _ Haw Ho) as Eb. destruct (aw_list _ _ Haw) as (ss & Hbl & Ebs).
  destruct Ho as (_ & Ha & _). set (p := w_pond w) in *.
  assert (length ss = length (p_blinks p)) as El by (rewrite <- Ebs; unfold blinks; by rewrite length_fmap).
  rewrite <- Eb in Hnz.
  destruct (mp1_ioctl_add_ok _ _ _ _ tmp arg m ss Hpl Hbl Ht Ha Hnz) as (m' & ss' & E & Hbl' & Ebs' & Hm).
  cbn [run_command meant fst snd]. fold p. unfold mp1_ioctl. change (RTC_ADD =? RTC_ADD) with true. cbn iota. rewrite Eb, El in *.
  exists m'. split; [by rewrite E|]. set (b := get_blink (w_args w) arg) in *.
  assert (0 ≤ location b) as Hl0 by apply load16_range.
  unfold a_add. case_decide as Hd.
  - apply (at_work_step m m' w _ [(location b, on_char b)] Haw); [done| | |].
    + exists ss'. split; [done|]. by rewrite Ebs', Ebs.
    + apply Forall_singleton. cbn [fst]. lia.
    + intros a N1 N2 N3. by rewrite Hm.
  - apply (at_work_step m m' w _ [] Haw); [by rewrite app_nil_r| |constructor|].
    + exists ss'. split; [done|]. by rewrite Ebs', Ebs.
    + intros a N1 N2 N3. by rewrite Hm.
Qed.
Lemma remove_step m w arg : at_work m w →
  ∃ m', run_command (Remove arg) m = Some ((meant (Remove arg) w).1, m') ∧ at_work m' (meant (Remove arg) w).2.
Proof using Hpl Hfuel.
  intros Haw. destruct (aw_list _ _ Haw) as (ss & Hbl & Ebs). destruct (at_work_length _ _ _ Hbl Ebs) as [_ Hf].
  pose proof (mp1_ioctl_remove_ok _ _ _ _ arg m ss fuel Hpl Hbl Hf) as Hrem. rewrite Ebs in Hrem.
  change (run_command (Remove arg) m) with (mp1_ioctl_remove list_head fuel arg m). cbn [meant fst snd]. unfold a_remove.
  destruct (find_cell (u16 arg) (p_blinks (w_pond w))) as [[i b]|]; cbn [is_found].
  - destruct Hrem as (m' & E & Hbl' & Eb & Hm). exists m'. split; [done|].
    apply (at_work_step m m' w _ [] Haw); [by rewrite app_nil_r|by exists (delete i ss)|constructor|].
    intros a N1 N2 _. by apply Hm.
  - exists m. split; [done|]. by destruct w.
Qed.
(** [Find] copies the first blink at the cell named in the structure, and the
    pointer behind it, over the structure. *)
Lemma find_step m w arg : at_work m w → command_ok w (Find arg) →
  ∃ m', run_command (Find arg) m = Some ((meant (Find arg) w).1, m') ∧ at_work m' (meant (Find arg) w).2.
Proof using Hpl Ht Hfuel.
  intros Haw (Ho & Hin). pose proof (at_work_arg _ _ _ Haw Ho) as Ea. destruct (aw_list _ _ Haw) as (ss & Hbl & Ebs).
  destruct (at_work_length _ _ _ Hbl Ebs) as [_ Hf]. destruct Ho as (Ho & Ha & _).
  assert (off_list list_head arr vmem_base_addr base tmp 2) as Ht2 by (unfold off_list in *; clear -Ht; lia).
  assert (tmp + 2 ≤ arg ∨ arg + 16 ≤ tmp) as Ha2 by lia.
  pose proof (mp1_ioctl_find_ok _ _ _ _ tmp arg m ss fuel Hpl Hbl Hf Ht2 Ho Ha2) as Hfind.
  apply (f_equal location) in Ea. cbn [location get_blink] in Ea. rewrite Ea, Ebs in Hfind.
  change (run_command (Find arg) m) with (mp1_ioctl_find list_head fuel tmp arg m). cbn [meant].
  destruct (find_cell (load16 (w_args w) arg) (p_blinks (w_pond w))) as [[i b]|]; cbn [fst snd].
  - destruct Hfind as (m' & E & Eb & Hbl' & Ebs' & Hm). exists m'. split; [done|]. destruct Haw as [_ Hd Hr].
    split; cbn [w_pond w_args]; [exists ss; by rewrite Ebs'|done|]. intros a N1 N2 N3 N4. unfold NEXT, STRUCT_SIZE in *.
    destruct (decide (arg ≤ a < arg + 12)) as [Hb|Hb].
    + rewrite drawn_out by (done || destruct Ho as (_ & _ & _ & O4); clear -O4 Hb; lia).
      rewrite mget_store_bytes, decide_True by lia.
      rewrite <- Eb, blink_bytes_at by lia. rewrite Z.add_sub_assoc, Z.add_simpl_l. symmetry. apply u8_small, mget_range.
    + assert (¬ arg ≤ a < arg + 16) as Hna.
      { intros Hb'. apply N4. exists arg. split; [done|]. unfold NEXT, STRUCT_SIZE. lia. }
      rewrite Hm, Hr by (done || lia). apply drawn_ext. symmetry. apply mget_store_bytes_out. cbn. lia.
  - destruct Hfind as (m' & E & Hfr). exists m'. split; [done|].
    destruct (off_list_kept _ _ _ _ m m' tmp 2 ss Hpl Ht2 Hfr Hbl) as [Hbl' Ebs']. destruct Haw as [_ Hd Hr].
    split; [exists ss; by rewrite Ebs'|done|]. intros a N1 N2 N3 N4. rewrite Hfr by lia. by apply Hr.
Qed.
Lemma sync_step m w arg : at_work m w →
  ∃ m', run_command (Sync arg) m = Some ((meant (Sync arg) w).1, m') ∧ at_work m' (meant (Sync arg) w).2.
Proof using Hpl Hfuel.
  intros Haw. destruct (aw_list _ _ Haw) as (ss & Hbl & Ebs). destruct (at_work_length _ _ _ Hbl Ebs) as [_ Hf].
  pose proof (mp1_ioctl_sync_ok _ _ _ _ arg m ss fuel Hpl Hbl Hf) as Hsync. rewrite Ebs in Hsync.
  change (run_command (Sync arg) m) with (mp1_ioctl_sync list_head vmem_base_addr fuel arg m). cbn [meant fst snd]. unfold a_sync.
  assert (at_work m (World (w_pond w) (w_args w))) as Hsame by by destruct w.
  destruct (find_cell (u16 (Z.shiftr arg 16)) (p_blinks (w_pond w))) as [[i a]|]; cbn [is_found andb]; [|by exists m].
  destruct (find_cell (u16 (Z.land arg 0xFFFF)) (p_blinks (w_pond w))) as [[j b]|] eqn:Ef; cbn [is_found]; [|by exists m].
  destruct Hsync as (m' & E & Hbl' & Eb & Hm). exists m'. split; [done|].
  apply (at_work_step m m' w _ [(location b, off_char b)] Haw); [done|by exists ss| |intros x N1 _ _; by apply Hm].
  rewrite <- Ebs in Ef. destruct (find_cell_slot _ _ _ _ _ Ef) as (q & _ & _ & Eq & Hq).
  destruct (bl_used _ _ _ _ _ _ Hbl q Hq) as [_ Hl]. apply Forall_singleton. cbn [fst]. rewrite <- Eq. cbn [location get_blink]. lia.
Qed.
Lemma tick_step m w : at_work m w →
  ∃ m', run_command Tick m = Some (0, m') ∧ at_work m' (World (a_tick (w_pond w)) (w_args w)).
Proof using Hpl Hfuel.
  intros Haw. destruct (aw_list _ _ Haw) as (ss & Hbl & Ebs). destruct (at_work_length _ _ _ Hbl Ebs) as [_ Hf].
  destruct (tasklet_ok _ _ _ _ m ss fuel Hpl Hbl Hf) as (m' & E & Hbl' & Et & Hm). rewrite Ebs in *.
  exists m'. split; [cbn [run_command]; by rewrite E|].
  apply (at_work_step m m' w _ (concat (redraw <$> p_blinks (w_pond w))) Haw); [done|by exists ss| |].
  - rewrite <- Ebs. apply (redraws_cells arr). intros q Hq. destruct (bl_used _ _ _ _ _ _ Hbl q Hq). split; [done|lia].
  - intros a N1 _ _. by apply Hm.
Qed.

Lemma command_step m w c : at_work m w → command_ok w c →
  ∃ m', run_command c m = Some ((meant c w).1, m') ∧ at_work m' (meant c w).2.
Proof using Hpl Ht Hfuel.
  destruct c; intros Haw Hc; [by apply add_step|by apply remove_step|by apply find_step|by apply sync_step|by apply tick_step].
Qed.
Lemma commands_step cs : ∀ m w, at_work m w → commands_ok cs w →
  ∃ m', run_commands cs m = Some ((meant_all cs w).1, m') ∧ at_work m' (meant_all cs w).2.
Proof using Hpl Ht Hfuel.
  induction cs as [|c cs IH]; intros m w Haw Hcs; [by exists m|]. destruct Hcs as [Hc Hcs].
  destruct (command_step m w c Haw Hc) as (m1 & E1 & Haw1). cbn [run_commands meant_all]. rewrite E1.
  destruct (meant c w) as [r w1]. cbn [fst snd mbind option_bind] in *. destruct (IH m1 w1 Haw1 Hcs) as (m' & E & Haw').
  rewrite E. destruct (meant_all cs w1) as [rs w']. cbn [fst snd mbind option_bind] in *. by exists m'.
Qed.
(** At first nothing is drawn. *)
Lemma at_work_start m ss : blink_list list_head arr vmem_base_addr base m ss → at_work m (World (Pond (blinks m ss) []) m).
Proof using. intros Hbl. split; [by exists ss|constructor|done]. Qed.
Lemma ticks_ok n w : commands_ok (replicate n Tick) w.
Proof using. revert w. induction n as [|n IH]; intros w; [done|]. split; [done|apply IH]. Qed.
End commands.

(** ** One blink among others *)

(** The character at cell [x] after the drawing. *)
Definition displays (ds : list (Z * Z)) (x c : Z) : Z := foldl (λ c d, if d.1 =? x then u8 d.2 else c) c ds.
Lemma displays_app ds ds' x c : displays (ds ++ ds') x c = displays ds' x (displays ds x c).
Proof. apply foldl_app. Qed.
Lemma displays_elsewhere ds x c : Forall (λ d, d.1 ≠ x) ds → displays ds x c = c.
Proof.
  intros Hd. revert c. induction Hd as [|d ds Hd1 Hd IH]; intros c; [done|]. cbn [displays foldl].
  rewrite (proj2 (Z.eqb_neq _ _)) by done. apply IH.
Qed.
Lemma mget_drawn base ds x m : mget (drawn base ds m) (base + 2 * x) = displays ds x (mget m (base + 2 * x)).
Proof.
  revert m. induction ds as [|d ds IH]; intros m; [done|]. change (drawn base (d :: ds) m) with (drawn base ds (draw base m d)).
  rewrite IH. cbn [displays foldl]. unfold displays. f_equal. unfold draw. rewrite mget_mset.
  destruct (Z.eqb_spec d.1 x) as [->|Hne]; [by rewrite decide_True|by rewrite decide_False by lia].
Qed.
Lemma redraw_location b : Forall (λ d, d.1 = location b) (redraw b).
Proof. unfold redraw. by case_match; repeat constructor. Qed.
Lemma redraws_elsewhere x bs : Forall (λ b, location b ≠ x) bs → Forall (λ d, d.1 ≠ x) (concat (redraw <$> bs)).
Proof.
  intros Hb. apply Forall_concat, Forall_fmap. eapply Forall_impl; [exact Hb|]. intros b Hne.
  eapply Forall_impl; [apply redraw_location|]. by intros d ->.
Qed.
Lemma displays_redraw b c : word8 (on_char b) → word8 (off_char b) →
  displays (redraw b) (location b) c = default c (snd <$> head (redraw b)).
Proof.
  intros H1 H2. unfold redraw. case_match; [|done]. cbn. rewrite Z.eqb_refl. case_match; by apply u8_small.
Qed.

(** What cell [location b] shows [n] ticks after the blink came. *)
Definition blink_char (b : blink) (n : Z) : Z := if phase b n <? on_length b then on_char b else off_char b.
(** It is first in the list, and nobody else draws there. *)
Record blinking (b : blink) (n : Z) (p : pond) : Prop := {
  bk_list : ∃ bs, p_blinks p = at_phase b (phase b n) :: bs ∧ Forall (λ b', location b' ≠ location b) bs;
  bk_shows c : displays (p_drawn p) (location b) c = blink_char b n }.

Lemma blinking_add b p : 0 < on_length b → 0 < off_length b → word8 (on_char b) → location b < 2000 → (length (p_blinks p) < 2000)%nat →
  Forall (λ b', location b' ≠ location b) (p_blinks p) → blinking b 0 (a_add b p).
Proof.
  intros Ha Hb Hc Hl Hn Hne. unfold a_add. rewrite decide_True by done.
  assert (phase b 0 = 0) as E0 by (apply Z.mod_0_l; lia).
  split; cbn [p_blinks p_drawn].
  - exists (p_blinks p). split; [|done]. rewrite E0. unfold at_phase. rewrite (proj2 (Z.ltb_lt _ _)) by done.
    unfold started. by rewrite Z.sub_0_r.
  - intros c. rewrite displays_app. cbn. rewrite Z.eqb_refl, u8_small by done. unfold blink_char. by rewrite E0, (proj2 (Z.ltb_lt _ _)).
Qed.
Lemma at_phase_fields b r : location (at_phase b r) = location b ∧ on_char (at_phase b r) = on_char b ∧ off_char (at_phase b r) = off_char b.
Proof. unfold at_phase. by case_match. Qed.
Lemma blinking_tick b n p : 0 < on_length b ≤ 32768 → 0 < off_length b ≤ 32768 → word8 (on_char b) → word8 (off_char b) → 0 ≤ n →
  blinking b n p → blinking b (n + 1) (a_tick p).
Proof.
  intros Ha Hb Hc Hd Hn [(bs & E & Hne) Hs].
  pose proof (Z.mod_pos_bound n (on_length b + off_length b) ltac:(lia)) as Hr. fold (phase b n) in Hr.
  destruct (tick_phase b (phase b n) Ha Hb Hr) as [E1 E2]. rewrite <- (phase_step b n) in E1, E2 by lia.
  destruct (at_phase_fields b (phase b n)) as (F1 & F2 & F3).
  split; unfold a_tick; rewrite E; cbn [p_blinks p_drawn fmap list_fmap concat].
  - exists (tick <$> bs). rewrite E1. split; [done|]. by apply Forall_fmap.
  - intros c. rewrite displays_app, Hs, displays_app.
    rewrite (displays_elsewhere (concat _)) by (by apply redraws_elsewhere).
    rewrite <- F1, displays_redraw by (by rewrite ?F2, ?F3). unfold blink_char. by rewrite E2.
Qed.
Lemma blinking_ticks b p n : 0 < on_length b ≤ 32768 → 0 < off_length b ≤ 32768 → word8 (on_char b) → word8 (off_char b) →
  blinking b 0 p → blinking b (Z.of_nat n) (Nat.iter n a_tick p).
Proof.
  intros Ha Hb Hc Hd H0. induction n as [|n IH]; [done|]. rewrite Nat2Z.inj_succ. by apply blinking_tick; [..|lia|].
Qed.
Lemma meant_ticks n p u : meant_all (replicate n Tick) (World p u) = (replicate n 0, World (Nat.iter n a_tick p) u).
Proof.
  revert p. induction n as [|n IH]; intros p; [done|]. cbn [replicate meant_all meant w_pond w_args]. rewrite IH.
  by rewrite Nat.iter_succ_r.
Qed.

(** A phase of more than 32768 ticks is over at the next one. *)
Lemma long_phase_expires b : 32768 < countdown b < 65536 → expires b = true.
Proof.
  intros Hc. unfold expires. assert (s16 (u16 (countdown b - 1)) <= 0) as Hs by (unfold s16, u16; lia).
  by rewrite Z.gtb_ltb, (proj2 (Z.ltb_ge _ _)).
Qed.

(** ** Properties *)

Section properties.
Context (list_head blink_array vmem_base_addr base tmp : Z) (fuel : nat).
Local Abbreviation arr := blink_array.

(** C9: the assembly of blink.S against lists: whatever commands of the call
    table (add, remove, find, sync) [mp1_ioctl] is given, and ticks
    [mp1_rtc_tasklet], in any order and number, as long as no structure added
    names cell 0 (which the code takes for a free structure: then the list ends
    in a cycle, [Blink.cell_zero_loops]) and the structures passed lie apart
    from the code's own memory and from the link another find leaves: they
    return what
    the operations on the list of blinks return, the linked list in the array
    then has exactly the blinks of that list, free structures are free again,
    and the rest of memory is as before but for the structures found, copied
    over the arguments of the finds (their links are not specified), and the
    characters the list
    operations say were drawn, in their order, on the mapped page. *)
Theorem commands_refine_list m ss cs :
  placed list_head arr vmem_base_addr base → off_list list_head arr vmem_base_addr base tmp 16 → (2000 < fuel)%nat →
  blink_list list_head arr vmem_base_addr base m ss →
  let w := World (Pond (blinks m ss) []) m in
  commands_ok list_head arr vmem_base_addr base tmp (finds cs) cs w →
  let '(rs, w') := meant_all cs w in
  ∃ m' ss', run_commands list_head arr vmem_base_addr tmp fuel cs m = Some (rs, m') ∧
    blink_list list_head arr vmem_base_addr base m' ss' ∧ blinks m' ss' = p_blinks (w_pond w') ∧
    ∀ a, ¬ arr ≤ a < arr + 32000 → ¬ list_head ≤ a < list_head + 4 → ¬ tmp ≤ a < tmp + 16 → ¬ link_field (finds cs) a →
      mget m' a = mget (drawn base (p_drawn (w_pond w')) (w_args w')) a.
Proof.
  intros Hpl Ht Hf Hbl w Hcs.
  destruct (commands_step _ _ _ _ _ fuel _ Hpl Ht Hf cs m w (at_work_start _ _ _ _ _ _ m ss Hbl) Hcs)
    as (m' & E & [(ss' & H1 & H2) _ H3]).
  destruct (meant_all cs w) as [rs w']. cbn [fst snd] in *. by exists m', ss'.
Qed.

(** C11: a blink added with [RTC_ADD] at a cell of its own on the screen (not cell 0), to a
    list that is not full, with both lengths from 1 to 32768 (they are unsigned,
    but the countdown is compared signed: a longer phase is over at the next tick,
    [long_phase_expires]): after any number [n] of ticks its cell in video
    memory shows the
    character for on during the first [on_length] ticks of each period of
    [on_length + off_length], and the character for off during the others,
    whatever the other blinks do. *)
Theorem blink_period m ss arg n :
  let b := get_blink m arg in
  placed list_head arr vmem_base_addr base → off_list list_head arr vmem_base_addr base tmp 16 → (2000 < fuel)%nat →
  blink_list list_head arr vmem_base_addr base m ss → (length ss < 2000)%nat →
  off_list list_head arr vmem_base_addr base arg 16 → tmp + 16 ≤ arg ∨ arg + 16 ≤ tmp →
  0 < location b < 2000 → 0 < on_length b ≤ 32768 → 0 < off_length b ≤ 32768 →
  Forall (λ b', location b' ≠ location b) (blinks m ss) →
  ∃ m', run_commands list_head arr vmem_base_addr tmp fuel (Add arg :: replicate n Tick) m = Some (replicate (S n) 0, m') ∧
    mget m' (base + 2 * location b) = if Z.of_nat n `mod` (on_length b + off_length b) <? on_length b then on_char b else off_char b.
Proof.
  intros b Hpl Ht Hf Hbl Hlen Ho Ha Hl H1 H2 Hne.
  assert (commands_ok list_head arr vmem_base_addr base tmp [] (Add arg :: replicate n Tick) (World (Pond (blinks m ss) []) m)) as Hcs.
  { split; [|apply ticks_ok]. split; [by split_and!|]. cbn [w_args]. fold b. lia. }
  destruct (commands_step _ _ _ _ _ fuel _ Hpl Ht Hf _ m _ (at_work_start _ _ _ _ _ _ m ss Hbl) Hcs) as (m' & E & [_ Hd H3]).
  cbn [meant_all meant w_pond w_args p_blinks] in *. rewrite meant_ticks in *. cbn [fst snd w_pond w_args] in *. fold b in E, H3.
  assert (length (blinks m ss) = length ss) as El by (unfold blinks; by rewrite length_fmap).
  assert (blinking b (Z.of_nat n) (Nat.iter n a_tick (a_add b (Pond (blinks m ss) [])))) as [_ Hs].
  { apply blinking_ticks; try done; try apply mget_range. apply blinking_add; [lia|lia|apply mget_range|lia|cbn [p_blinks]; by rewrite El|done]. }
  exists m'. split.
  - rewrite E. unfold add_result. rewrite El, decide_True by (split; lia). reflexivity.
  - pose proof Hpl as [_ _ _ _ [V1 V2] (W1 & W2 & W3)]. destruct Ht as (_ & _ & _ & T4).
    rewrite H3, mget_drawn; [apply Hs|lia|lia|lia|]. intros (x & Hx & _). by apply not_elem_of_nil in Hx.
Qed.
End properties.

(** ** Examples *)

(** An empty list; the structure of "I" and "M" lies at 0x8220100. *)
Definition sample_blink : list Z := [28; 2; 73; 77; 7; 0; 6; 0].
Definition sample_blinks : mem := store_bytes (store32 ∅ 0x8210100 0x8400000) 0x8220100 sample_blink.
Lemma sample_placed : placed 0x8210000 0x8200000 0x8210100 0x8400000.
Proof. split; lia. Qed.
Lemma sample_blink_list : blink_list 0x8210000 0x8200000 0x8210100 0x8400000 sample_blinks [].
Proof.
  split; [vm_compute; reflexivity|constructor|intros p Hp; by apply not_elem_of_nil in Hp| |vm_compute; reflexivity].
  intros p (i & Hi & ->) _. unfold load16, sample_blinks.
  rewrite !mget_store_bytes_out by (cbn [length sample_blink]; lia).
  unfold store32. rewrite !mget_mset_ne by lia. reflexivity.
Qed.

(** "I" is added and found: its copy lands at 0x8220200, where the cell asked
    for, 540, was. *)
Definition sample_finds : mem := store_bytes sample_blinks 0x8220200 [28; 2].
Definition sample_commands : list command := [Add 0x8220100; Tick; Find 0x8220200; Sync 540; Remove 540; Tick].
Lemma sample_finds_list : blink_list 0x8210000 0x8200000 0x8210100 0x8400000 sample_finds [].
Proof.
  apply (off_list_kept 0x8210000 0x8200000 0x8210100 0x8400000 sample_blinks _ 0x8220200 2);
    [exact sample_placed|unfold off_list; lia|exact (frame_store_bytes _ _ [28; 2])|exact sample_blink_list].
Qed.
Lemma commands_refine_list_witness :
  ∃ m' ss', run_commands 0x8210000 0x8200000 0x8210100 0x8220000 2001 sample_commands sample_finds =
      Some ([0; 0; 0; -1; 0; 0], m') ∧
    blink_list 0x8210000 0x8200000 0x8210100 0x8400000 m' ss' ∧ blinks m' ss' = [] ∧
    mget m' (0x8400000 + 2 * 540) = 73 ∧ load16 m' 0x8220208 = 6.
Proof.
  pose proof (commands_refine_list 0x8210000 0x8200000 0x8210100 0x8400000 0x8220000 2001 sample_finds []
    sample_commands sample_placed ltac:(unfold off_list; lia) ltac:(lia) sample_finds_list) as Hc. cbv zeta in Hc.
  assert (finds sample_commands = [0x8220200]) as Ef by (vm_compute; reflexivity). rewrite Ef in Hc.
  destruct (meant_all sample_commands (World (Pond (blinks sample_finds []) []) sample_finds)) as [rs w'] eqn:Ew.
  assert (rs = [0; 0; 0; -1; 0; 0] ∧ p_blinks (w_pond w') = [] ∧
    (∀ a, mget (drawn 0x8400000 (p_drawn (w_pond w')) (w_args w')) a =
          mget (drawn 0x8400000 [(540, 73)] (w_args w')) a) ∧ w_args w' = store_bytes sample_finds 0x8220200 [28; 2; 73; 77; 7; 0; 6; 0; 6; 0; 1; 0])
    as (-> & Eb & Ed & Ea).
  { vm_compute in Ew. injection Ew as <- <-. split; [reflexivity|]. split; [reflexivity|]. split; [reflexivity|].
    vm_compute. reflexivity. }
  destruct Hc as (m' & ss' & H1 & H2 & H3 & H4).
  - split; [|split; [exact I|split; [|split; [exact I|split; [exact I|split; [exact I|exact I]]]]]].
    + split; [|vm_compute; congruence]. split; [unfold off_list; lia|]. split; [lia|].
      apply Forall_singleton. left. lia.
    + split; [|apply list_elem_of_singleton; reflexivity]. split; [unfold off_list; lia|]. split; [lia|].
      apply Forall_singleton. left. lia.
  - assert (∀ a, 0x8400000 ≤ a ∨ a = 0x8220208 ∨ a = 0x8220209 → ¬ link_field [0x8220200] a) as Hl.
    { intros a Ha (x & Hx & Hin). apply list_elem_of_singleton in Hx as ->. unfold NEXT, STRUCT_SIZE in Hin. lia. }
    exists m', ss'. split; [exact H1|]. split; [exact H2|]. split; [by rewrite H3, Eb|]. split.
    + rewrite H4, Ed, Ea; [vm_compute; reflexivity|lia|lia|lia|apply Hl; lia].
    + unfold load16. rewrite (H4 0x8220208), (H4 (0x8220208 + 1)), !Ed, Ea;
        [vm_compute; reflexivity|lia|lia|lia|apply Hl; lia|lia|lia|lia|apply Hl; lia].
Defined.

(** 7 ticks on, 6 off: "M" after 20 ticks. *)
Lemma blink_period_witness :
  ∃ m', run_commands 0x8210000 0x8200000 0x8210100 0x8220000 2001 (Add 0x8220100 :: replicate 20 Tick) sample_blinks =
      Some (replicate 21 0, m') ∧
    mget m' (0x8400000 + 2 * 540) = 77.
Proof.
  apply (blink_period 0x8210000 0x8200000 0x8210100 0x8400000 0x8220000 2001 sample_blinks [] 0x8220100 20 sample_placed).
  - unfold off_list. lia.
  - lia.
  - exact sample_blink_list.
  - simpl. lia.
  - unfold off_list. lia.
  - lia.
  - vm_compute. split; congruence.
  - vm_compute. split; congruence.
  - vm_compute. split; congruence.
  - apply Forall_nil_2.
Defined.
