(* ===== verification/UserErr.v ===== *)
(** * ece391syserr.c: the tests of the error behaviour of the calls

    The eight tests and the menu that runs them, over the calls of UserSys.v;
    the local arrays are at addresses of the stack.  On a machine that keeps
    the laws every test passes, and leaves no descriptor open. *)
From Stdlib Require Import Ascii String.
From S2P Require Import Prelude CMem LibString Screen Format Process Paging Kernel SysCalls Exec UserLib.
From S2P Require Import UserSys UserProg.

Definition NEG_FD := -1073741823.
Definition BIG_FD := 1073741823.
Definition BIG_NUM := 1073741823.
Definition NEG_NUM := -1073741823.

Section tests.
Context {S : Type} `{UserSys S} (lit : list Z → Z).

(** [if (-1 != call) { fail = 2; print msg }] *)
Definition expect_error (c : user S Z) (msg : string) (fail : Z) : user S Z :=
  r ← c; if negb (-1 =? r) then _ ← put lit (line msg); mret 2 else mret fail.
Definition verdict (name : string) (fail : Z) : user S Z :=
  _ ← (if negb (fail =? 0) then put lit (chars name ++ line ": FAIL") else put lit (chars name ++ line ": PASS"));
  mret fail.
(** [for (i = lo; i < lo + n; i++)] over a test. *)
Fixpoint for_each (n : nat) (i : Z) (body : Z → Z → user S Z) (acc : Z) : user S Z :=
  match n with
  | O => mret acc
  | Datatypes.S n => acc ← body i acc; for_each n (i + 1) body acc
  end.

Definition err_bad_fd (name : string) (fd buf : Z) : user S Z :=
  fail ← expect_error (ece391_read fd buf 31) "read fail" 0;
  fail ← expect_error (ece391_write fd buf 31) "write fail" fail;
  fail ← expect_error (ece391_close fd) "close fail" fail;
  verdict name fail.
Definition err_neg_fd (buf : Z) : user S Z := err_bad_fd "err_neg_fd" NEG_FD buf.
Definition err_big_fd (buf : Z) : user S Z := err_bad_fd "err_big_fd" BIG_FD buf.

Definition err_open_lots : user S Z :=
  cnt ← for_each 7 0 (λ _ cnt, r ← ece391_open (lit (chars ".")); mret (if -1 =? r then cnt + 1 else cnt)) 0;
  _ ← for_each 6 2 (λ i acc, _ ← ece391_close i; mret acc) 0;
  if cnt =? 1 then _ ← put lit (line "err_open_lots: PASS"); mret 0
  else _ ← put lit (line "err_open_lots: FAIL"); mret 2.

Definition err_open : user S Z :=
  fail ← expect_error (ece391_open (lit (chars "helloo"))) "'helloo' fail" 0;
  fail ← expect_error (ece391_open (lit (chars "shel"))) "'shel' fail" fail;
  fail ← expect_error (ece391_open (lit [])) "empty string fail" fail;
  verdict "err_open" fail.

Definition err_unopened (buf : Z) : user S Z :=
  fail ← for_each 8 0 (λ i, expect_error (ece391_close i) "close unopened or invalid fd fail") 0;
  fail ← for_each 6 2 (λ i, expect_error (ece391_read i buf 31) "read from unopened fd fail") fail;
  fail ← for_each 6 2 (λ i, expect_error (ece391_write i buf 31) "write to unopened fd fail") fail;
  verdict "err_unopened" fail.

Definition err_vidmap : user S Z :=
  fail ← expect_error (ece391_vidmap 0x0) "Null pointer fail" 0;
  fail ← expect_error (ece391_vidmap 0x400000) "Kernel pointer fail fail" fail;
  verdict "err_vidmap" fail.

Definition err_stdin_out (buf : Z) : user S Z :=
  fail ← expect_error (ece391_write 0 buf 31) "write to stdin fail" 0;
  fail ← expect_error (ece391_read 1 buf 31) "read from stdout fail" fail;
  verdict "err_stdin_out" fail.

Definition err_syscall_num : user S Z :=
  fail ← expect_error (call_sys BIG_NUM) "syscall 0 fail" 0;
  fail ← expect_error (call_sys NEG_NUM) "big num syscall fail" fail;
  fail ← expect_error (call_sys 0) "neg num syscall fail" fail;
  verdict "err_syscall_num" fail.

(** Test [i] of the menu; [tbuf] is the array of the test. *)
Definition syserr_test (tbuf i : Z) : user S Z :=
  if i =? 1 then err_neg_fd tbuf else if i =? 2 then err_big_fd tbuf else if i =? 3 then err_open_lots
  else if i =? 4 then err_open else if i =? 5 then err_unopened tbuf else if i =? 6 then err_vidmap
  else if i =? 7 then err_stdin_out tbuf else err_syscall_num.
Definition syserr (buf tbuf : Z) : user S Z :=
  _ ← put lit (chars "Choose from tests 1-8. 0 to run all: ");
  cnt ← ece391_read 0 buf 127;
  if -1 =? cnt then _ ← put lit (line "Can't read test #"); mret 2
  else
    c ← peek buf;
    let select := c - 48 in
    if select =? 0 then
      fail ← for_each 8 1 (λ i fail, r ← syserr_test tbuf i; mret (fail + r)) 0;
      _ ← (if negb (fail =? 0) then put lit ([10] ++ line "Overall Tests: FAIL")
           else put lit ([10] ++ line "Overall Tests: PASS"));
      mret fail
    else if (1 <=? select) && (select <=? 8) then syserr_test tbuf select
    else _ ← put lit (chars "Invalid test number. Choose from tests 1-8 or 0"); mret 0.
End tests.

(** ** Opening all descriptors *)

Definition all_fds : gset Z := list_to_set (seqZ 2 6).
Definition free_fds (v : view) : gset Z := all_fds ∖ dom (v_fds v).
Lemma elem_all_fds fd : fd ∈ all_fds ↔ 2 ≤ fd < FILE_ARRAY_LEN.
Proof. unfold all_fds, FILE_ARRAY_LEN. rewrite elem_of_list_to_set, elem_of_seqZ. lia. Qed.
Lemma free_fds_free (v : view) : v_free v ↔ (0 < size (free_fds v))%nat.
Proof.
  split.
  - intros (fd & Hr & Hn). apply elem_all_fds in Hr.
    assert (fd ∈ free_fds v) as Hin by (unfold free_fds; rewrite elem_of_difference, not_elem_of_dom; done).
    destruct (size (free_fds v)) eqn:E; [|lia]. apply size_empty_inv in E. by apply E, not_elem_of_empty in Hin.
  - intros Hs. destruct (size_pos_elem_of _ Hs) as [fd Hin]. unfold free_fds in Hin.
    rewrite elem_of_difference, not_elem_of_dom, elem_all_fds in Hin. by exists fd.
Qed.
Lemma free_fds_open fd st (v : view) : 2 ≤ fd < FILE_ARRAY_LEN → v_fds v !! fd = None →
  size (free_fds (v_set_fd fd (Some st) v)) = (size (free_fds v) - 1)%nat.
Proof.
  intros Hr Hn. apply elem_all_fds in Hr. rewrite <- not_elem_of_dom in Hn. unfold free_fds.
  cbn [v_fds v_set_fd]. change (partial_alter (λ _, Some st) fd (v_fds v)) with (<[fd := st]> (v_fds v)).
  assert (all_fds ∖ dom (<[fd := st]> (v_fds v)) = all_fds ∖ dom (v_fds v) ∖ {[fd]}) as ->.
  { apply set_eq. intros j. rewrite !elem_of_difference, dom_insert_L, elem_of_union, elem_of_singleton. tauto. }
  rewrite size_difference, size_singleton; [done|]. by apply singleton_subseteq_l, elem_of_difference.
Qed.
Lemma closing l (v : view) :
  foldl (λ v fd, v_set_fd fd None v) v l =
  View (v_screen v) (filter (λ x, x.1 ∉ l) (v_fds v)) (v_args v) (v_names v) (v_files v) (v_input v).
Proof.
  revert v. induction l as [|fd l IH]; intros v; cbn [foldl].
  - rewrite map_filter_id; [by destruct v|]. intros i x _. apply not_elem_of_nil.
  - rewrite IH. unfold v_set_fd. cbn [v_screen v_fds v_args v_names v_files v_input]. f_equal.
    apply map_eq. intros i. destruct (decide (i = fd)) as [->|Hne].
    + rewrite !(proj2 (map_lookup_filter_None _ _ _)); [done|right; intros x _ Hx; apply Hx; left|].
      left. apply lookup_partial_alter_eq.
    + rewrite !map_lookup_filter, lookup_partial_alter_ne by done. destruct (v_fds v !! i); [|done]. simpl.
      repeat case_guard; try done; cbn [fst] in *; exfalso; set_solver.
Qed.

(** ** What the tests do *)

Section behaviour.
Context {S : Type} {sys : UserSys S} {sees : S → view → Prop} {spec : UserSpec S sees} {inp : UserInput S sees}.
Context (lit : list Z → Z).
Implicit Types (s : S) (v : view).
Local Abbreviation ends := (UserProg.ends (sees := sees)).

Lemma refused_ends c s v : refused sees c s v → ends c s (-1) v.
Proof using. intros Hr. eapply sat_mono; [exact Hr|]. by intros r s' (v' & (-> & ->) & Hs & Hm). Qed.
Lemma expect_ok c s v msg fail : refused sees c s v → ends (expect_error lit c msg fail) s fail v.
Proof using.
  intros Hr. eapply ends_bind; [by apply refused_ends|]. intros s' Hs Hm.
  change (negb (-1 =? -1)) with false. cbn iota. by apply ends_ret.
Qed.
Lemma verdict_ok s v name :
  let l := chars name ++ line ": PASS" in
  sees s v → literal lit (umem s) l → ends (verdict lit name 0) s 0 (v_print l v).
Proof using spec.
  intros l Hs Hl. unfold verdict. change (negb (0 =? 0)) with false. cbn iota.
  eapply ends_bind; [by apply put_ok|]. intros s' Hs' _. by apply ends_ret.
Qed.

(** A loop whose body keeps the accumulator and the view. *)
Lemma for_each_same (P : S → Prop) n i body acc s v :
  (∀ s s', P s → user_same (umem s) (umem s') → P s') → P s → sees s v →
  (∀ j s, i ≤ j < i + Z.of_nat n → P s → sees s v → ends (body j acc) s acc v) →
  ends (for_each n i body acc) s acc v.
Proof using.
  intros HP. revert i s. induction n as [|n IH]; intros i s Hp Hs Hb; [by apply ends_ret|].
  cbn [for_each]. eapply ends_bind; [apply Hb; [lia|done..]|]. intros s' Hs' Hm.
  apply IH; [by eapply HP|done|]. intros j s2 Hj. apply Hb. lia.
Qed.
Lemma expect_each n i (c : Z → user S Z) msg s v :
  sees s v → (∀ j s, i ≤ j < i + Z.of_nat n → sees s v → refused sees (c j) s v) →
  ends (for_each n i (λ j, expect_error lit (c j) msg) 0) s 0 v.
Proof using.
  intros Hs Hc. apply (for_each_same (λ _, True)); try done. intros j s' Hj _ Hs'. by apply expect_ok, Hc.
Qed.

(** ** The tests *)

Definition dir_stream v : option stream := Some (Names (v_names v)).
(** Opening and closing all descriptors. *)
Lemma open_lots_ok n i cnt s v :
  let dot := chars "." in
  sees s v → v_files v !! dot = Some Directory → literal lit (umem s) dot →
  (∀ fd, is_Some (v_fds v !! fd) → 2 ≤ fd < FILE_ARRAY_LEN) →
  sat (for_each n i (λ _ cnt, r ← ece391_open (lit dot); mret (if -1 =? r then cnt + 1 else cnt)) cnt) s
    (λ r s', r = cnt + Z.of_nat (n - size (free_fds v)) ∧ user_same (umem s) (umem s') ∧
      ∃ fds, sees s' (View (v_screen v) fds (v_args v) (v_names v) (v_files v) (v_input v)) ∧
        ∀ fd, is_Some (fds !! fd) → 2 ≤ fd < FILE_ARRAY_LEN).
Proof using spec.
  intros dot. revert i cnt s v. induction n as [|n IH]; intros i cnt s v Hs Hf Hl Hr.
  { apply sat_ret. split; [simpl; lia|]. split; [apply user_same_refl|]. exists (v_fds v). by destruct v. }
  cbn [for_each]. destruct (decide (0 < size (free_fds v))%nat) as [Hfree|Hfull].
  - destruct Hl as [Hc Hu]. apply free_fds_free in Hfree as Hvf.
    eapply sat_bind; [eapply sat_map; by apply (open_ok s v (lit dot) dot Directory Hs Hc)|].
    intros c s1 (r & -> & v1 & (Hfd & Hno & ->) & Hs1 & Hm1). cbv beta.
    rewrite (proj2 (Z.eqb_neq (-1) r)) by lia.
    eapply sat_mono; [apply (IH (i + 1) cnt s1 _ Hs1); [done|by eapply literal_same|]|].
    { intros fd [st Hst]. destruct (decide (fd = r)) as [->|Hne]; [done|]. cbn [v_fds v_set_fd] in Hst.
      rewrite lookup_partial_alter_ne in Hst by done. by apply Hr; exists st. }
    intros r' s2 (-> & Hm2 & fds & Hs2 & Hfds). rewrite free_fds_open by done.
    split; [lia|]. split; [by eapply user_same_trans|]. by exists fds.
  - assert (¬ v_free v) as Hnf by (by rewrite free_fds_free).
    eapply sat_bind; [eapply sat_map; apply (open_full s v (lit dot) Hs Hnf)|].
    intros c s1 (r & -> & v1 & [-> ->] & Hs1 & Hm1). cbv beta. change (-1 =? -1) with true. cbn iota.
    eapply sat_mono; [apply (IH (i + 1) (cnt + 1) s1 v Hs1); [done|by eapply literal_same|done]|].
    intros r' s2 (-> & Hm2 & fds & Hs2 & Hfds).
    split; [lia|]. split; [by eapply user_same_trans|]. by exists fds.
Qed.
Lemma close_lots_ok n i s v :
  sees s v → 2 ≤ i → i + Z.of_nat n ≤ FILE_ARRAY_LEN →
  ends (for_each n i (λ i acc, _ ← ece391_close i; mret acc) 0) s 0
    (foldl (λ v fd, v_set_fd fd None v) v (seqZ i (Z.of_nat n))).
Proof using spec.
  revert i s v. induction n as [|n IH]; intros i s v Hs Hi Hn; [by apply ends_ret|].
  rewrite seqZ_cons by lia. replace (Z.pred (Z.of_nat (Datatypes.S n))) with (Z.of_nat n) by lia.
  cbn [for_each foldl]. eapply ends_bind; [|intros s' Hs' Hm; apply (IH (i + 1)); [exact Hs'|lia|lia]].
  destruct (v_fds v !! i) as [st|] eqn:E.
  - eapply sat_bind; [by apply (close_ok s v i st)|]. intros r s1 (v1 & (-> & ->) & Hs1 & Hm1). by apply sat_ret.
  - rewrite (v_set_same i None) by done.
    eapply sat_bind; [apply (close_refused s v i Hs); left; split; [unfold FILE_ARRAY_LEN in *; lia|right; right; by split]|].
    intros r s1 (v1 & (-> & ->) & Hs1 & Hm1). by apply sat_ret.
Qed.

(** What the program has to say. *)
Definition pass_line (name : string) : list Z := chars name ++ line ": PASS".
Definition test_line (i : Z) : list Z :=
  pass_line (nth (Z.to_nat (i - 1)) ["err_neg_fd"; "err_big_fd"; "err_open_lots"; "err_open"; "err_unopened";
    "err_vidmap"; "err_stdin_out"; "err_syscall_num"]%string EmptyString).
Definition prompt : list Z := chars "Choose from tests 1-8. 0 to run all: ".
Definition overall : list Z := [10] ++ line "Overall Tests: PASS".
Definition invalid : list Z := chars "Invalid test number. Choose from tests 1-8 or 0".
Definition syserr_literals : list (list Z) :=
  [prompt; chars "."; chars "helloo"; chars "shel"; []; overall; invalid] ++ (test_line <$> seqZ 1 8).
(** The lines printed for the choice [c]. *)
Definition report (c : Z) : list Z :=
  if c =? 48 then concat (test_line <$> seqZ 1 8) ++ overall
  else if (1 <=? c - 48) && (c - 48 <=? 8) then test_line (c - 48) else invalid.

(** No file is open, and the files are those of the disk the tests expect. *)
Record testable v : Prop := {
  tst_fds : v_fds v = ∅;
  tst_dir : v_files v !! chars "." = Some Directory;
  tst_names : Forall (λ n, n ∉ v_names v) [chars "helloo"; chars "shel"; []] }.
Lemma testable_print l v : testable v → testable (v_print l v).
Proof using. by intros [H1 H2 H3]. Qed.
Definition literals_ok s : Prop := Forall (literal lit (umem s)) syserr_literals.
Lemma literals_same s s' : literals_ok s → user_same (umem s) (umem s') → literals_ok s'.
Proof using. intros Hl Hs. eapply Forall_impl; [exact Hl|]. intros l. by apply literal_same. Qed.
Lemma literals_in s l : literals_ok s → l ∈ syserr_literals → literal lit (umem s) l.
Proof using. intros Hl Hin. unfold literals_ok in Hl. rewrite Forall_forall in Hl. by apply Hl. Qed.
Ltac literal_tac := eapply literals_in; [eassumption|]; vm_compute; repeat constructor.

Lemma no_fd v fd : testable v → sword32 fd → fd ≠ 0 → fd ≠ 1 → v_closed v fd.
Proof using.
  intros Ht Hs H0 H1. split; [done|]. destruct (decide (fd < 0)); [by left|]. right. right.
  split; [lia|]. by rewrite (tst_fds _ Ht).
Qed.

(** A test made of calls that are refused. *)
Lemma err_bad_fd_ok s v name fd buf :
  sees s v → v_closed v fd → literal lit (umem s) (pass_line name) →
  ends (err_bad_fd lit name fd buf) s 0 (v_print (pass_line name) v).
Proof using spec.
  intros Hs Hc Hl. unfold err_bad_fd.
  eapply ends_bind; [apply expect_ok, read_refused; eauto|]. intros s1 Hs1 Hm1.
  eapply ends_bind; [apply expect_ok, write_refused; eauto|]. intros s2 Hs2 Hm2.
  eapply ends_bind; [apply expect_ok, close_refused; eauto|]. intros s3 Hs3 Hm3.
  apply verdict_ok; [done|]. do 3 (eapply literal_same; [eassumption|]). exact Hl.
Qed.

Lemma err_open_lots_ok s v :
  sees s v → testable v → literals_ok s → ends (err_open_lots lit) s 0 (v_print (test_line 3) v).
Proof using spec.
  intros Hs Ht Hl. unfold err_open_lots.
  eapply sat_bind; [apply (open_lots_ok 7 0 0 s v Hs (tst_dir _ Ht)); [literal_tac|]|].
  { rewrite (tst_fds _ Ht). intros fd [st Hst]. by rewrite lookup_empty in Hst. }
  intros cnt s1 (-> & Hm1 & fds & Hs1 & Hfds).
  assert (size (free_fds v) = 6%nat) as -> by (unfold free_fds; rewrite (tst_fds _ Ht); vm_compute; reflexivity).
  change (0 + Z.of_nat (7 - 6) =? 1) with true. cbn iota.
  eapply sat_bind; [apply (close_lots_ok 6 2 s1 _ Hs1); unfold FILE_ARRAY_LEN; lia|].
  intros r s2 (_ & Hs2 & Hm2). pose proof (user_same_trans _ _ _ Hm1 Hm2) as Hm.
  match type of Hs2 with sees _ ?w => assert (w = v) as Hw; [|rewrite Hw in Hs2] end.
  { rewrite closing. cbn [v_screen v_fds v_args v_names v_files v_input]. destruct v as [sc f a n fl lines].
    pose proof (tst_fds _ Ht) as Hf. cbn [v_fds] in Hf. subst f. f_equal. apply map_empty. intros fd.
    apply map_lookup_filter_None. destruct (fds !! fd) as [st|] eqn:E; [right|by left].
    intros st' _ Hout. apply Hout. specialize (Hfds fd (ex_intro _ st E)). unfold FILE_ARRAY_LEN in Hfds.
    cbn [fst]. apply elem_of_seqZ. lia. }
  eapply sat_mono; [apply (ends_bind (sees := sees) _ _ _ () (v_print (test_line 3) v) 0 (v_print (test_line 3) v))|].
  - apply put_ok; [done|]. eapply literals_in; [by eapply literals_same|]. vm_compute. repeat constructor.
  - intros s' Hs' _. by apply ends_ret.
  - intros r' s3 (-> & Hs3 & Hm3). split; [done|]. split; [done|]. by eapply user_same_trans.
Qed.

Lemma free_view v : testable v → v_free v.
Proof using. intros Ht. exists 2. rewrite (tst_fds _ Ht). by split. Qed.
Lemma missing_refused s v name :
  sees s v → testable v → literal lit (umem s) name → name ∉ v_names v → refused sees (ece391_open (lit name)) s v.
Proof using spec. intros Hs Ht [Hc Hu] Hn. by apply (open_missing s v _ name Hs Hc Hu Hn), free_view. Qed.

Lemma err_open_ok s v :
  sees s v → testable v → literals_ok s → ends (err_open lit) s 0 (v_print (test_line 4) v).
Proof using spec.
  intros Hs Ht Hl. unfold err_open. pose proof (tst_names _ Ht) as Hn. rewrite !Forall_cons in Hn.
  destruct Hn as (N1 & N2 & N3 & _).
  eapply ends_bind; [apply expect_ok, missing_refused; [exact Hs|done|literal_tac|done]|]. intros s1 Hs1 Hm1.
  pose proof (literals_same _ _ Hl Hm1) as Hl1.
  eapply ends_bind; [apply expect_ok, missing_refused; [exact Hs1|done|literal_tac|done]|]. intros s2 Hs2 Hm2.
  pose proof (literals_same _ _ Hl1 Hm2) as Hl2.
  eapply ends_bind; [apply expect_ok, missing_refused; [exact Hs2|done|literal_tac|done]|]. intros s3 Hs3 Hm3.
  pose proof (literals_same _ _ Hl2 Hm3) as Hl3. apply verdict_ok; [done|]. change (literal lit (umem s3) (test_line 4)). literal_tac.
Qed.
Lemma err_unopened_ok s v buf :
  sees s v → testable v → literals_ok s → ends (err_unopened lit buf) s 0 (v_print (test_line 5) v).
Proof using spec.
  intros Hs Ht Hl. unfold err_unopened.
  eapply ends_bind; [apply expect_each; [exact Hs|]; intros j s' Hj Hs'; apply close_refused; [done|]|].
  { destruct (decide (j = 0)); [auto|]. destruct (decide (j = 1)); [auto|]. left. apply no_fd; lia || done. }
  intros s1 Hs1 Hm1.
  eapply ends_bind; [apply expect_each; [exact Hs1|]; intros j s' Hj Hs'; apply read_refused; [done|]|].
  { left. apply no_fd; lia || done. }
  intros s2 Hs2 Hm2.
  eapply ends_bind; [apply expect_each; [exact Hs2|]; intros j s' Hj Hs'; apply write_refused; [done|]|].
  { left. apply no_fd; lia || done. }
  intros s3 Hs3 Hm3. pose proof (literals_same _ _ (literals_same _ _ (literals_same _ _ Hl Hm1) Hm2) Hm3) as Hl3.
  apply verdict_ok; [done|]. change (literal lit (umem s3) (test_line 5)). literal_tac.
Qed.
Lemma err_vidmap_ok s v :
  sees s v → literals_ok s → ends (err_vidmap lit) s 0 (v_print (test_line 6) v).
Proof using spec.
  intros Hs Hl. unfold err_vidmap.
  eapply ends_bind; [apply expect_ok, vidmap_refused; [exact Hs|lia|unfold user_addr, PROG_VM_START; lia]|]. intros s1 Hs1 Hm1.
  eapply ends_bind; [apply expect_ok, vidmap_refused; [exact Hs1|lia|unfold user_addr, PROG_VM_START; lia]|]. intros s2 Hs2 Hm2.
  pose proof (literals_same _ _ (literals_same _ _ Hl Hm1) Hm2) as Hl2.
  apply verdict_ok; [done|]. change (literal lit (umem s2) (test_line 6)). literal_tac.
Qed.
Lemma err_stdin_out_ok s v buf :
  sees s v → literals_ok s → ends (err_stdin_out lit buf) s 0 (v_print (test_line 7) v).
Proof using spec.
  intros Hs Hl. unfold err_stdin_out.
  eapply ends_bind; [apply expect_ok, write_refused; [exact Hs|by right]|]. intros s1 Hs1 Hm1.
  eapply ends_bind; [apply expect_ok, read_refused; [exact Hs1|by right]|]. intros s2 Hs2 Hm2.
  pose proof (literals_same _ _ (literals_same _ _ Hl Hm1) Hm2) as Hl2.
  apply verdict_ok; [done|]. change (literal lit (umem s2) (test_line 7)). literal_tac.
Qed.
Lemma err_syscall_num_ok s v :
  sees s v → literals_ok s → ends (err_syscall_num lit) s 0 (v_print (test_line 8) v).
Proof using spec.
  intros Hs Hl. unfold err_syscall_num.
  eapply ends_bind; [apply expect_ok, number_refused; [exact Hs|unfold u32, BIG_NUM, NEG_NUM; lia]|]. intros s1 Hs1 Hm1.
  eapply ends_bind; [apply expect_ok, number_refused; [exact Hs1|unfold u32, BIG_NUM, NEG_NUM; lia]|]. intros s2 Hs2 Hm2.
  eapply ends_bind; [apply expect_ok, number_refused; [exact Hs2|unfold u32, BIG_NUM, NEG_NUM; lia]|]. intros s3 Hs3 Hm3.
  pose proof (literals_same _ _ (literals_same _ _ (literals_same _ _ Hl Hm1) Hm2) Hm3) as Hl3.
  apply verdict_ok; [done|]. change (literal lit (umem s3) (test_line 8)). literal_tac.
Qed.

Lemma syserr_test_ok i s v buf :
  1 ≤ i ≤ 8 → sees s v → testable v → literals_ok s →
  ends (syserr_test lit buf i) s 0 (v_print (test_line i) v).
Proof using spec.
  intros Hi Hs Ht Hl. assert (i = 1 ∨ i = 2 ∨ i = 3 ∨ i = 4 ∨ i = 5 ∨ i = 6 ∨ i = 7 ∨ i = 8) as Hc by lia.
  destruct_or! Hc; subst i.
  - apply err_bad_fd_ok; [done|apply no_fd; unfold NEG_FD; lia || done|].
    change (literal lit (umem s) (test_line 1)). literal_tac.
  - apply err_bad_fd_ok; [done|apply no_fd; unfold BIG_FD; lia || done|].
    change (literal lit (umem s) (test_line 2)). literal_tac.
  - by apply err_open_lots_ok.
  - by apply err_open_ok.
  - by apply err_unopened_ok.
  - by apply err_vidmap_ok.
  - by apply err_stdin_out_ok.
  - by apply err_syscall_num_ok.
Qed.

(** The run of all tests, from test [i] on. *)
Lemma run_all_ok n i s v buf :
  1 ≤ i → i + Z.of_nat n ≤ 9 → sees s v → testable v → literals_ok s →
  ends (for_each n i (λ i fail, r ← syserr_test lit buf i; mret (fail + r)) 0) s 0
    (v_print (concat (test_line <$> seqZ i (Z.of_nat n))) v).
Proof using spec.
  revert i s v. induction n as [|n IH]; intros i s v Hi Hn Hs Ht Hl.
  { rewrite v_print_nil. by apply ends_ret. }
  rewrite seqZ_cons by lia. replace (Z.pred (Z.of_nat (Datatypes.S n))) with (Z.of_nat n) by lia.
  cbn [for_each fmap list_fmap concat]. rewrite v_print_app.
  eapply ends_bind; [eapply ends_bind; [apply syserr_test_ok; [lia|done..]|]|].
  { intros s1 Hs1 _. by apply ends_ret. }
  intros s1 Hs1 Hm1. change (0 + 0) with 0. apply IH; [lia|lia|done|by apply testable_print|by eapply literals_same].
Qed.

(** The whole program, when [l] is typed. *)
Lemma syserr_ok buf tbuf s v l lines :
  sees s v → v_input v = l :: lines → line_ok l → testable v → literals_ok s → in_user buf 127 →
  Forall (λ x, apart lit x buf 127) syserr_literals →
  sat (syserr lit buf tbuf) s (λ r s', r = 0 ∧
    sees s' (v_typed lines (v_print (prompt ++ l ++ [10] ++ report (default 10 (head l))) v))).
Proof using spec inp.
  intros Hs Hin Hl Ht Hlit Hu Ha. unfold syserr. pose proof Hl as [Hlen Hlc].
  eapply sat_bind; [apply put_ok; [done|literal_tac]|]. intros _ s1 (_ & Hs1 & Hm1).
  destruct (@read_line_ok _ _ _ inp s1 (v_print prompt v) l lines buf 127 Hs1 Hin Hl) as (pad & Hpad & Hread); [lia|done|].
  eapply sat_bind; [exact Hread|]. intros cnt s2 (v2 & (-> & ->) & Hs2 & Hm2).
  rewrite (proj2 (Z.eqb_neq (-1) _)) by lia.
  set (v2 := v_typed lines (v_print (l ++ [10]) (v_print prompt v))) in *.
  assert (literals_ok s2) as Hl2.
  { pose proof (literals_same _ _ Hlit Hm1) as Hl1. unfold literals_ok in *. rewrite Forall_forall in *.
    intros x Hx. eapply literal_same; [exact Hm2|]. apply literal_store; [by apply Hl1|].
    specialize (Ha x Hx). unfold apart in *. rewrite !length_app in *. simpl in *. lia. }
  assert (testable v2) as Ht2 by (by destruct Ht).
  assert (mget (umem s2) buf = default 10 (head l)) as Ec.
  { destruct Hu as [U1 U2]. rewrite Hm2 by (unfold user_addr; lia).
    replace buf with (buf + Z.of_nat 0) at 2 by lia. rewrite (mget_store_bytes_in _ _ _ _ (default 10 (head l))).
    - apply u8_small. destruct Hlc; simpl; lia.
    - by destruct l. }
  assert (∀ out, v_print out v2 = v_typed lines (v_print (prompt ++ l ++ [10] ++ out) v)) as Hout.
  { intros out. unfold v2. rewrite v_print_typed, !v_print_app. reflexivity. }
  rewrite <- Hout.
  assert (∀ c w, ends c s2 0 w → sat c s2 (λ r s', r = 0 ∧ sees s' w)) as Hend.
  { intros c w Hc. eapply sat_mono; [exact Hc|]. by intros r s3 (-> & Hs3 & _). }
  eapply (sat_bind _ _ _ (λ c s', c = default 10 (head l) ∧ s' = s2)).
  { eexists _, s2. split; [reflexivity|]. by split. }
  intros c s' [-> ->]. cbv zeta. set (c := default 10 (head l)) in *. apply Hend. unfold report.
  destruct (Z.eqb_spec (c - 48) 0) as [Hc|Hc].
  - rewrite (proj2 (Z.eqb_eq c 48)) by lia. rewrite v_print_app.
    eapply ends_bind; [by apply (run_all_ok 8 1)|]. intros s3 Hs3 Hm3. change (negb (0 =? 0)) with false. cbn iota.
    eapply ends_bind; [apply put_ok; [done|]|intros s4 Hs4 _; by apply ends_ret].
    eapply literals_in; [by eapply literals_same|]. vm_compute. repeat constructor.
  - rewrite (proj2 (Z.eqb_neq c 48)) by lia.
    destruct ((1 <=? c - 48) && (c - 48 <=? 8)) eqn:E.
    + apply andb_true_iff in E as [E1 E2]. apply Z.leb_le in E1, E2. by apply syserr_test_ok.
    + eapply ends_bind; [apply put_ok; [done|literal_tac]|]. intros s3 Hs3 _. by apply ends_ret.
Qed.
End behaviour.
