(* ===== verification/UserGrep.v ===== *)
(** * ece391grep.c: the lines of all files that contain a text

    [do_one_file] reads a file through an array of 1024 bytes, searches every
    complete line and moves an unfinished one down to the start of the array;
    [grep] applies it to the files of the directory.  What it prints is
    specified on the lines of the file, whatever the size of the pieces. *)
From Stdlib Require Import Ascii String.
From S2P Require Import Prelude CMem LibString Screen Format Process Paging Kernel SysCalls Exec UserLib.
From S2P Require Import UserSys UserProg.

Definition BUFSIZE := 1024.

(** [while (line_end < last && '\n' != data[line_end]) line_end++] *)
Fixpoint end_of_line (n : nat) (m : mem) (data last i : Z) : Z :=
  match n with
  | O => i
  | S n => if (i <? last) && negb (mget m (data + i) =? 10) then end_of_line n m data last (i + 1) else i
  end.
(** The loop over [check]; the first character of [s] is a signed [char]. *)
Fixpoint search_line (n : nat) (m : mem) (s s_len data check line_end : Z) : bool :=
  match n with
  | O => false
  | S n =>
      if check <? line_end then
        if (s8 (mget m s) =? mget m (data + check)) && (0 =? ece391_strncmp m (data + check) s s_len) then true
        else search_line n m s s_len data (check + 1) line_end
      else false
  end.

Section grep.
Context {S : Type} `{UserSys S} (lit : list Z → Z).

(** The inner loop; the result is the new value of [last]. *)
Fixpoint grep_lines (fuel : nat) (s s_len fname data cnt last line_start : Z) : user S Z :=
  match fuel with
  | O => λ _, None
  | Datatypes.S fuel =>
      line_end ← with_mem (λ m, end_of_line (Z.to_nat (last - line_start)) m data last line_start);
      c ← peek (data + line_end);
      if negb (10 =? c) && negb (0 =? cnt) && negb (line_start =? 0) then
        _ ← poke (data + line_end) 0;
        _ ← on_mem (λ m, ece391_strcpy m data (data + line_start));
        mret (last - line_start)
      else
        _ ← poke (data + line_end) 0;
        found ← with_mem (λ m, search_line (Z.to_nat (line_end - line_start)) m s s_len data line_start line_end);
        _ ← (if found : bool then
               _ ← ece391_fdputs 1 fname; _ ← ece391_fdputs 1 (lit (chars ":"));
               _ ← ece391_fdputs 1 (data + line_start); ece391_fdputs 1 (lit [10])
             else mret ());
        let line_start := line_end + 1 in
        if line_start >=? last then mret 0 else grep_lines fuel s s_len fname data cnt last line_start
  end.

(** The outer loop: [false] is a failed read. *)
Fixpoint grep_reads (fuel : nat) (fd s s_len fname data last : Z) : user S bool :=
  match fuel with
  | O => λ _, None
  | Datatypes.S fuel =>
      cnt ← ece391_read fd (data + last) (BUFSIZE - last);
      if -1 =? cnt then _ ← puts_line lit "file read failed"; mret false
      else
        last ← grep_lines (Z.to_nat (BUFSIZE + 2)) s s_len fname data cnt (last + cnt) 0;
        if 0 =? cnt then mret true else grep_reads fuel fd s s_len fname data last
  end.

Definition do_one_file (fuel : nat) (s fname data : Z) : user S Z :=
  s_len ← with_mem (λ m, s32 (ece391_strlen m s));
  fd ← ece391_open fname;
  if -1 =? fd then _ ← puts_line lit "file open failed"; mret (-1)
  else
    ok ← grep_reads fuel fd s s_len fname data 0;
    if negb ok then mret (-1)
    else
      r ← ece391_close fd;
      if -1 =? r then _ ← puts_line lit "file close failed"; mret (-1) else mret 0.

(** [main]: [buf], [search] and the array [data] of [do_one_file] are on the
    stack; [fuel] bounds the names and the reads of one file. *)
Fixpoint grep_loop (names fuel : nat) (fd search buf data : Z) : user S Z :=
  match names with
  | O => λ _, None
  | Datatypes.S names =>
      cnt ← ece391_read fd buf (SBUFSIZE - 1);
      if 0 =? cnt then mret 0
      else if -1 =? cnt then _ ← puts_line lit "directory entry read failed"; mret 3
      else
        c ← peek buf;
        if 46 =? c then grep_loop names fuel fd search buf data
        else
          _ ← poke (buf + cnt) 0;
          r ← do_one_file fuel search buf data;
          if negb (0 =? r) then mret 3 else grep_loop names fuel fd search buf data
  end.
Definition grep (names fuel : nat) (search buf data : Z) : user S Z :=
  r ← ece391_getargs search BUFSIZE;
  if negb (0 =? r) then _ ← puts_line lit "could not read argument"; mret 3
  else
    fd ← ece391_open (lit (chars "."));
    if -1 =? fd then _ ← puts_line lit "directory open failed"; mret 2
    else grep_loop names fuel fd search buf data.
End grep.

(** ** Lines *)

(** The lines of a text; the last one has no newline. *)
Fixpoint split_lines (l : list Z) : list (list Z) :=
  match l with
  | [] => [[]]
  | c :: l =>
      if c =? 10 then [] :: split_lines l
      else match split_lines l with h :: t => (c :: h) :: t | [] => [[c]] end
  end.
(** [s] is a part of [l], and not empty. *)
Fixpoint occurs (s l : list Z) : bool :=
  match l with
  | [] => false
  | c :: l' => match s with [] => false | _ => bool_decide (take (length s) l = s) || occurs s l' end
  end.
(** What the program finds: nothing that starts with a byte from 128 on. *)
Definition matches (s l : list Z) : bool := match s with p :: _ => (p <? 128) && occurs s l | [] => false end.
(** What [grep] prints of a file: the lines that match, each as a block. *)
Definition block (name l : list Z) : list Z := name ++ chars ":" ++ l ++ [10].
Definition blocks (name : list Z) (ps : list (list Z)) : list Z := concat (block name <$> ps).
Definition hit (s name l : list Z) : list Z := if matches s l then block name l else [].
Definition hits (s name : list Z) (ls : list (list Z)) : list Z := concat (hit s name <$> ls).

Lemma split_lines_snoc l : ∃ ls frag, split_lines l = ls ++ [frag].
Proof.
  induction l as [|c l (ls & frag & IH)]; [by exists [], []|]. simpl. rewrite IH.
  destruct (c =? 10); [by exists ([] :: ls), frag|].
  destruct ls as [|h t]; [by exists [], (c :: frag)|by exists ((c :: h) :: t), frag].
Qed.
Lemma split_lines_app a b ls frag :
  split_lines a = ls ++ [frag] → split_lines (a ++ b) = ls ++ split_lines (frag ++ b).
Proof.
  revert ls frag. induction a as [|c a IH]; intros ls frag Ha.
  { destruct ls as [|? ls]; simpl in Ha; [injection Ha as <-; done|]. injection Ha as _ Ha. by destruct ls. }
  simpl in Ha |- *. destruct (split_lines_snoc a) as (ls' & frag' & E). rewrite (IH _ _ E). rewrite E in Ha.
  destruct (c =? 10) eqn:Ec.
  - destruct ls as [|l0 ls]; simpl in Ha; [injection Ha as _ Ha; by destruct ls'|].
    injection Ha as <- Ha. apply app_inj_2 in Ha as [-> Ha]; [|done]. injection Ha as ->. done.
  - destruct ls' as [|h t]; simpl in Ha |- *.
    + destruct ls as [|l0 ls]; simpl in Ha; [injection Ha as <-|injection Ha as _ Ha; by destruct ls].
      simpl. by rewrite Ec.
    + destruct ls as [|l0 ls]; simpl in Ha; [injection Ha as _ Ha; by destruct t|].
      injection Ha as <- Ha. apply app_inj_2 in Ha as [-> Ha]; [|done]. injection Ha as ->. done.
Qed.
Lemma split_lines_none l : Forall (λ c, c ≠ 10) l → split_lines l = [l].
Proof. induction 1 as [|c l Hc Hl IH]; [done|]. simpl. rewrite (proj2 (Z.eqb_neq c 10)) by done. by rewrite IH. Qed.
Lemma split_lines_cons a b : Forall (λ c, c ≠ 10) a → split_lines (a ++ 10 :: b) = a :: split_lines b.
Proof.
  induction 1 as [|c a Hc Ha IH]; [done|]. simpl. rewrite (proj2 (Z.eqb_neq c 10)) by done. by rewrite IH.
Qed.
Lemma split_lines_frag l ls frag : split_lines l = ls ++ [frag] → Forall (λ c, c ≠ 10) frag.
Proof.
  revert ls frag. induction l as [|c l IH]; intros ls frag E; simpl in E.
  { destruct ls as [|? ls]; [injection E as <-; constructor|]. injection E as _ E. by destruct ls. }
  destruct (split_lines_snoc l) as (ls' & frag' & E'). specialize (IH _ _ E'). rewrite E' in E.
  destruct (Z.eqb_spec c 10) as [|Hc].
  - rewrite app_comm_cons in E. apply app_inj_2 in E as [_ E]; [|done]. by injection E as <-.
  - destruct ls' as [|h t]; simpl in E.
    + change [c :: frag'] with ([] ++ [c :: frag']) in E. apply app_inj_2 in E as [_ E]; [|done].
      injection E as <-. by constructor.
    + rewrite app_comm_cons in E. apply app_inj_2 in E as [_ E]; [|done]. by injection E as <-.
Qed.

Lemma split_lines_one l frag : split_lines l = [frag] → l = frag.
Proof.
  revert frag. induction l as [|c l IH]; intros frag E; simpl in E; [by injection E|].
  destruct (split_lines_snoc l) as (ls & f & El). rewrite El in E, IH.
  destruct (c =? 10); [by injection E; destruct ls|].
  destruct ls as [|h t]; simpl in E; [|by injection E; destruct t]. injection E as <-. f_equal. by apply IH.
Qed.
Lemma split_lines_head a b : Forall (λ c, c ≠ 10) a → ∃ b' t, split_lines (a ++ b) = (a ++ b') :: t.
Proof.
  induction 1 as [|c a Hc Ha (b' & t & IH)].
  - cbn [app]. destruct (split_lines_snoc b) as ([|h t] & f & E); rewrite E; eauto.
  - exists b', t. simpl. by rewrite (proj2 (Z.eqb_neq c 10)), IH by done.
Qed.
Lemma length_split_lines l : (length (split_lines l) ≤ Datatypes.S (length l))%nat.
Proof.
  induction l as [|c l IH]; [done|]. simpl. destruct (c =? 10); [simpl; lia|].
  destruct (split_lines l); simpl in *; lia.
Qed.
Lemma split_lines_forall (P : Z → Prop) l : Forall P l → Forall (Forall P) (split_lines l).
Proof.
  induction 1 as [|c l Hc Hl IH]; [repeat constructor|]. simpl. destruct (c =? 10); [by constructor|].
  destruct (split_lines l); [by repeat constructor|]. apply Forall_cons in IH as [? ?]. by repeat constructor.
Qed.
Lemma split_lines_first l l0 ls : split_lines l = l0 :: ls → ls ≠ [] →
  ∃ l', l = l0 ++ 10 :: l' ∧ Forall (λ c, c ≠ 10) l0 ∧ split_lines l' = ls.
Proof.
  revert l0. induction l as [|c l IH]; intros l0 E Hne; simpl in E; [by injection E as _ <-|].
  destruct (Z.eqb_spec c 10) as [->|Hc]; [injection E as <- <-; by exists l|].
  destruct (split_lines l) as [|h t] eqn:El; [by injection E as _ <-|]. injection E as <- <-.
  destruct (IH h eq_refl Hne) as (l' & -> & Hf & Hs). exists l'. split; [done|]. split; [by constructor|done].
Qed.
Lemma hits_app s name ls ls' : hits s name (ls ++ ls') = hits s name ls ++ hits s name ls'.
Proof. unfold hits. by rewrite fmap_app, concat_app. Qed.
Lemma hits_cons s name l ls : hits s name (l :: ls) = hit s name l ++ hits s name ls.
Proof. done. Qed.

(** ** Searching a line *)

Lemma search_line_low m s pat data check l line_end :
  cstr m s pat → default 0 (head pat) < 128 → Z.of_nat (length pat) < 2 ^ 31 →
  cstr m (data + check) l → line_end = check + Z.of_nat (length l) →
  search_line (length l) m s (Z.of_nat (length pat)) data check line_end = occurs pat l.
Proof.
  intros Hs Hp Hlen. revert check. induction l as [|c l IH]; intros check Hl ->; [done|].
  pose proof Hl as Hl'. apply cstr_cons in Hl as (Hc & Hz & Hl). rewrite <- Z.add_assoc in Hl. cbn [length search_line] in IH |- *.
  rewrite (proj2 (Z.ltb_lt _ _)) by (cbn [length]; lia). rewrite Hc.
  rewrite (IH (check + 1) Hl) by (cbn [length]; lia). cbn [occurs].
  rewrite (ece391_strncmp_cstr _ _ _ _ _ _ Hl' Hs) by lia. rewrite Nat2Z.id, (take_ge pat) by lia.
  destruct pat as [|p pat].
  { apply cstr_nil in Hs. rewrite Hs. change (s8 0) with 0. rewrite (proj2 (Z.eqb_neq 0 c)) by done. by destruct l. }
  pose proof Hs as Hs'. apply cstr_cons in Hs as (Hps & Hpz & _). rewrite Hps.
  pose proof (cstr_byte _ _ _ Hs') as Hp8. apply Forall_cons in Hp8 as [Hp1 _]. cbn [head default from_option id] in Hp.
  assert (s8 p = p) as -> by (unfold s8; lia). destruct Hs' as (_ & _ & Hpnz).
  set (pt := p :: pat) in *. set (ct := take (length pt) (c :: l)).
  pose proof (byte_diff_zero ct pt) as Hbd. destruct Hl' as (_ & _ & Hnz).
  assert (Forall (λ c, c ≠ 0) ct) as Hct by (by apply Forall_take).
  specialize (Hbd Hct Hpnz). destruct (Z.eqb_spec p c) as [->|Hne]; cbn [andb].
  - destruct (Z.eqb_spec 0 (byte_diff ct pt)) as [E|E].
    + symmetry in E. apply Hbd in E. by rewrite bool_decide_eq_true_2.
    + rewrite bool_decide_eq_false_2; [done|]. intros Hx. apply E. by symmetry; apply Hbd.
  - rewrite bool_decide_eq_false_2; [done|]. unfold ct, pt. cbn [length take]. congruence.
Qed.

Lemma search_line_high n m s s_len data check line_end :
  s8 (mget m s) < 0 → search_line n m s s_len data check line_end = false.
Proof.
  intros Hs. revert check. induction n as [|n IH]; intros check; [done|]. cbn [search_line].
  pose proof (mget_range m (data + check)). rewrite (proj2 (Z.eqb_neq (s8 _) _)) by lia. rewrite IH. by case_match.
Qed.
Lemma occurs_nil l : occurs [] l = false.
Proof. by destruct l. Qed.
Lemma search_line_ok m s pat data check l line_end :
  cstr m s pat → Z.of_nat (length pat) < 2 ^ 31 →
  cstr m (data + check) l → line_end = check + Z.of_nat (length l) →
  search_line (length l) m s (Z.of_nat (length pat)) data check line_end = matches pat l.
Proof.
  intros Hs Hlen Hl He. unfold matches. destruct pat as [|p pat].
  { rewrite (search_line_low m s [] data check l line_end) by (done || (simpl; lia)). apply occurs_nil. }
  destruct (Z.ltb_spec p 128) as [Hp|Hp]; cbn [andb]; [by apply search_line_low|].
  apply search_line_high. pose proof (cstr_byte _ _ _ Hs) as Hp8. apply Forall_cons in Hp8 as [Hp1 _].
  apply cstr_cons in Hs as (-> & _). unfold s8. lia.
Qed.

Lemma end_of_line_range n m data last i : i ≤ last → i ≤ end_of_line n m data last i ≤ last.
Proof.
  revert i. induction n as [|n IH]; intros i Hi; cbn [end_of_line]; [lia|].
  destruct (Z.ltb_spec i last); cbn [andb]; [|lia]. case_match; [|lia]. pose proof (IH (i + 1) ltac:(lia)). lia.
Qed.
Lemma end_of_line_ok n m data last i l :
  (∀ j c, l !! j = Some c → mget m (data + i + Z.of_nat j) = c) → Forall (λ c, c ≠ 10) l →
  i + Z.of_nat (length l) ≤ last → (length l ≤ n)%nat →
  (i + Z.of_nat (length l) = last ∨ mget m (data + i + Z.of_nat (length l)) = 10) →
  end_of_line n m data last i = i + Z.of_nat (length l).
Proof.
  revert i l. induction n as [|n IH]; intros i l Hm Hl Hle Hn Hend.
  { destruct l; [simpl; lia|simpl in Hn; lia]. }
  cbn [end_of_line]. destruct l as [|c l].
  - cbn [length] in *. destruct Hend as [Hend|Hend].
    + rewrite (proj2 (Z.ltb_ge _ _)) by lia. simpl. lia.
    + rewrite Z.add_0_r in Hend. rewrite Hend. rewrite andb_false_r. lia.
  - apply Forall_cons in Hl as [Hc Hl]. cbn [length] in *. rewrite (proj2 (Z.ltb_lt _ _)) by lia.
    pose proof (Hm 0%nat c eq_refl) as Hm0. rewrite Z.add_0_r in Hm0. rewrite Hm0, (proj2 (Z.eqb_neq c 10)) by done.
    cbn [andb negb]. rewrite (IH (i + 1) l); [lia| |done|lia|lia|].
    + intros j x Hj. rewrite <- (Hm (Datatypes.S j) x Hj). f_equal. lia.
    + destruct Hend as [Hend|Hend]; [left; lia|right]. rewrite <- Hend. f_equal. lia.
Qed.

(** ** The array *)

Section behaviour.
Context (data : Z).

(** Nothing outside the array changes. *)
Local Abbreviation outside := (UserProg.outside data 1025).

(** A string outside the array. *)
Definition string_at (m : mem) (a : Z) (l : list Z) : Prop :=
  cstr m a l ∧ in_user a (Z.of_nat (length l) + 1) ∧
  (a + Z.of_nat (length l) + 1 ≤ data ∨ data + 1025 ≤ a).
Lemma string_outside m m' a l : outside m m' → string_at m a l → string_at m' a l.
Proof using.
  intros Ho (Hc & [U1 U2] & Hd). split; [|done]. apply (cstr_ext m); [|done].
  intros i Hi. apply Ho; [unfold user_addr; lia|lia].
Qed.

Definition holds (m : mem) (i : Z) (l : list Z) : Prop := load_bytes m (data + i) (length l) = l.
Lemma holds_lookup m i l j c : holds m i l → l !! j = Some c → mget m (data + i + Z.of_nat j) = c.
Proof using.
  intros Hh Hj. pose proof (lookup_lt_Some _ _ _ Hj). rewrite <- Hh in Hj.
  rewrite lookup_load_bytes in Hj by done. congruence.
Qed.
Lemma holds_app m i l k : holds m i (l ++ k) ↔ holds m i l ∧ holds m (i + Z.of_nat (length l)) k.
Proof using.
  unfold holds. rewrite length_app, load_bytes_app, Z.add_assoc. split.
  - intros E. by apply app_inj_1 in E; [|by rewrite length_load_bytes].
  - by intros [-> ->].
Qed.

Lemma holds_mset m i l j x : j < i ∨ i + Z.of_nat (length l) ≤ j → holds m i l → holds (mset m (data + j) x) i l.
Proof using.
  intros Hj Hh. unfold holds. rewrite <- Hh at 2. apply load_bytes_ext. intros o Ho. apply mget_mset_ne. lia.
Qed.
Lemma holds_same m m' i l : user_same m m' → in_user (data + i) (Z.of_nat (length l)) → holds m i l → holds m' i l.
Proof using. intros Hs Hu Hh. unfold holds. by rewrite (user_same_load m m'). Qed.

Context {S : Type} {sys : UserSys S} {sees : S → view → Prop} {spec : UserSpec S sees}.
Context (lit : list Z → Z) (search fname : Z) (pat name : list Z).
Implicit Types (s : S) (v : view).

(** What the loops rely on: the strings, and that the byte behind the array
    does not happen to be a newline. *)
Record ready (m : mem) : Prop := {
  rd_array : in_user data 1025;
  rd_search : string_at m search pat;
  rd_name : string_at m fname name;
  rd_colon : string_at m (lit (chars ":")) (chars ":");
  rd_newline : string_at m (lit [10]) [10];
  rd_guard : mget m (data + 1024) ≠ 10 }.
Lemma ready_outside m m' : outside m m' → mget m' (data + 1024) ≠ 10 → ready m → ready m'.
Proof using. intros Ho Hg [R1 R2 R3 R4 R5 R6]. split; try done; by eapply string_outside. Qed.

Hypothesis (Hplen : Z.of_nat (length pat) < 2 ^ 31).

(** One line, of which the array holds the text and then a NUL. *)
Definition print_match (found : bool) (i : Z) : user S () :=
  if found then
    _ ← ece391_fdputs 1 fname; _ ← ece391_fdputs 1 (lit (chars ":"));
    _ ← ece391_fdputs 1 (data + i); ece391_fdputs 1 (lit [10])
  else mret ().
Lemma print_match_ok s v i l found :
  sees s v → ready (umem s) → 0 ≤ i → i + Z.of_nat (length l) ≤ 1024 → cstr (umem s) (data + i) l →
  sat (print_match found i) s
    (λ _ s', sees s' (v_print (if found then block name l else []) v) ∧ user_same (umem s) (umem s')).
Proof using spec.
  intros Hs [[A1 A2] _ (N1 & N2 & _) (C1 & C2 & _) (L1 & L2 & _) _] Hi Hle Hl. unfold print_match.
  destruct found; [|apply sat_ret; rewrite v_print_nil; split; [done|apply user_same_refl]].
  assert (in_user (data + i) (Z.of_nat (length l) + 1)) as Hu by (split; lia).
  eapply sat_bind; [by apply (fdputs_ok lit s v fname name)|]. intros _ s1 [Hs1 M1].
  eapply sat_bind; [apply (fdputs_ok lit s1 _ _ (chars ":") Hs1); [by eapply user_same_cstr|done]|]. intros _ s2 [Hs2 M2].
  pose proof (user_same_trans _ _ _ M1 M2) as M12.
  eapply sat_bind; [apply (fdputs_ok lit s2 _ _ l Hs2); [by eapply user_same_cstr|done]|]. intros _ s3 [Hs3 M3].
  pose proof (user_same_trans _ _ _ M12 M3) as M13.
  eapply sat_mono; [apply (fdputs_ok lit s3 _ _ [10] Hs3); [by eapply user_same_cstr|done]|].
  intros _ s4 [Hs4 M4]. rewrite <- !v_print_app in Hs4.
  split; [done|]. by eapply user_same_trans.
Qed.

Lemma poke_array s v j x : sees s v → ready (umem s) → 0 ≤ j ≤ 1024 → x ≠ 10 → word8 x →
  sat (poke (data + j) x) s (λ _ s', sees s' v ∧ ready (umem s') ∧ umem s' = mset (umem s) (data + j) x).
Proof using spec.
  intros Hs Hr Hj Hx Hx8. pose proof (rd_array _ Hr) as [A1 A2].
  eapply sat_mono; [apply (poke_ok lit s v (data + j) x Hs); unfold user_addr; lia|].
  intros _ s' [Hs' E]. split; [done|]. split; [|done]. rewrite E.
  apply (ready_outside (umem s)); [|destruct (decide (j = 1024)) as [->|]|done].
  - intros a _ Ha. apply mget_mset_ne. lia.
  - rewrite mget_mset_eq. by rewrite u8_small.
  - rewrite mget_mset_ne by lia. apply Hr.
Qed.
(** The end of a line is found and marked, and the line printed if it has the
    text. *)
Lemma line_printed s v i j l last (k : Z → user S Z) Q :
  sees s v → ready (umem s) → holds (umem s) i l → Forall (λ c, c ≠ 0) l → 0 ≤ i → i + Z.of_nat (length l) ≤ 1024 →
  j = i + Z.of_nat (length l) →
  (∀ s', sees s' (v_print (hit pat name l) v) → ready (umem s') → outside (umem s) (umem s') →
     (∀ o rest, j < o → o + Z.of_nat (length rest) ≤ 1024 → holds (umem s) o rest → holds (umem s') o rest) →
     sat (k last) s' Q) →
  sat (_ ← poke (data + j) 0;
       found ← with_mem (λ m, search_line (Z.to_nat (j - i)) m search (Z.of_nat (length pat)) data i j);
       _ ← print_match found i; k last) s Q.
Proof using spec Hplen.
  intros Hs Hr Hh Hnz Hi Hle Hj Hk. pose proof (rd_array _ Hr) as [A1 A2].
  eapply sat_bind; [apply (poke_array s v j 0 Hs Hr); lia|]. intros _ s1 (Hs1 & Hr1 & E1).
  assert (cstr (umem s1) (data + i) l) as Hc.
  { rewrite E1. split; [apply holds_mset; [lia|done]|]. split; [|done]. rewrite Hj, Z.add_assoc. apply mget_mset_eq. }
  apply sat_bind with (λ found s', found = matches pat l ∧ s' = s1).
  { eexists _, s1. split; [reflexivity|]. split; [|done]. replace (Z.to_nat (j - i)) with (length l) by lia.
    apply search_line_ok; try done. apply (rd_search _ Hr1). }
  intros found s' [-> ->].
  eapply sat_bind; [by apply (print_match_ok s1 v i l (matches pat l))|]. intros _ s2 [Hs2 M2].
  assert (outside (umem s) (umem s1)) as O1 by (rewrite E1; intros a _ Ha; apply mget_mset_ne; lia).
  apply Hk; [done| |eapply outside_trans; [exact O1|by apply outside_same]|].
  - apply (ready_outside (umem s1)); [by apply outside_same| |done].
    rewrite M2 by (unfold user_addr; lia). apply Hr1.
  - intros o rest Ho Hro Hrest. apply (holds_same (umem s1)); [done|split; lia|]. rewrite E1. apply holds_mset; [lia|done].
Qed.

(** What the inner loop leaves of a buffer with the lines [ls] and the last
    piece [frag]: the piece moved to the start, or nothing, when the piece
    was searched like a line. *)
Definition lines_left (i cnt last : Z) (R : list Z) (ls : list (list Z)) (frag left out : list Z) : Prop :=
  left = frag ∧ out = hits pat name ls ∧ Z.of_nat (length frag) < 1024 ∧ cnt ≠ 0 ∨
  left = [] ∧ out = hits pat name (ls ++ [frag]) ∧
    (cnt = 0 ∨ frag = [] ∨ (i = 0 ∧ frag = R) ∨ last < 1024).
Definition lines_post s v i cnt last R ls frag (r : Z) s' : Prop :=
  ∃ left out, r = Z.of_nat (length left) ∧ sees s' (v_print out v) ∧ ready (umem s') ∧
    outside (umem s) (umem s') ∧ holds (umem s') 0 left ∧ lines_left i cnt last R ls frag left out.

Lemma hit_nil : hit pat name [] = [].
Proof using. clear Hplen. unfold hit, matches. destruct pat; [done|]. by rewrite andb_false_r. Qed.

Lemma hits_empty : hits pat name [[]] = [].
Proof using. clear Hplen. by rewrite hits_cons, hit_nil. Qed.

(** The last piece. *)
Lemma grep_frag_ok fuel s v i cnt last frag :
  sees s v → ready (umem s) → 0 ≤ i → i + Z.of_nat (length frag) = last → last ≤ 1024 →
  holds (umem s) i frag → Forall (λ c, c ≠ 0) frag → Forall (λ c, c ≠ 10) frag → Forall (λ c, word8 c) frag →
  sat (grep_lines lit (Datatypes.S fuel) search (Z.of_nat (length pat)) fname data cnt last i) s
    (lines_post s v i cnt last frag [] frag).
Proof using spec Hplen.
  intros Hs Hr Hi Hlast Hle Hh Hnz Hnl H8. pose proof (rd_array _ Hr) as [A1 A2]. cbn [grep_lines].
  apply sat_bind with (λ j s', j = last ∧ s' = s).
  { eexists _, s. split; [reflexivity|]. split; [|done]. rewrite (end_of_line_ok _ _ _ _ _ frag); try done; try lia.
    intros j c Hj. by apply (holds_lookup _ _ frag). }
  intros j s' [-> ->].
  apply sat_bind with (λ c s', c = mget (umem s) (data + last) ∧ s' = s); [by eexists _, s|]. intros c s' [-> ->].
  destruct (negb (10 =? _) && negb (0 =? cnt) && negb (i =? 0)) eqn:E.
  - apply andb_true_iff in E as [E E3]. apply andb_true_iff in E as [E1 E2].
    apply negb_true_iff, Z.eqb_neq in E1, E2, E3.
    eapply sat_bind; [apply (poke_array s v last 0 Hs Hr); lia|]. intros _ s1 (Hs1 & Hr1 & Em1).
    assert (cstr (umem s1) (data + i) frag) as Hc.
    { rewrite Em1. split; [apply holds_mset; [lia|done]|]. split; [|done].
      replace (data + i + Z.of_nat (length frag)) with (data + last) by lia. apply mget_mset_eq. }
    pose proof (ece391_strcpy_cstr (umem s1) data (data + i) frag Hc ltac:(lia)) as Ecpy.
    set (m2 := store_bytes (umem s1) data (frag ++ [0])) in *.
    assert (length (frag ++ [0%Z]) = length frag + 1)%nat as Hlen by (rewrite length_app; done).
    set (s2 := set_umem m2 s1). assert (umem s2 = m2) as Em2 by apply umem_set.
    apply sat_bind with (λ _ s', s' = s2); [exists (), s2; split; [by unfold on_mem; rewrite Ecpy|done]|]. intros _ s' ->.
    apply sat_ret. exists frag, []. split; [lia|].
    assert (outside (umem s1) (umem s2)) as O2.
    { rewrite Em2. intros a _ Ha. apply mget_store_bytes_out. lia. }
    split; [rewrite v_print_nil; apply sees_set; [done|]; intros a Ha; apply mget_store_bytes_out; unfold user_addr in Ha; lia|].
    split; [apply (ready_outside (umem s1)); [done| |done]; rewrite Em2; unfold m2;
            rewrite mget_store_bytes_out by lia; apply Hr1|].
    split; [eapply outside_trans; [|exact O2]; rewrite Em1; intros a _ Ha; apply mget_mset_ne; lia|].
    split; [|left; split; [done|]; split; [done|]; split; [lia|done]].
    rewrite Em2. unfold holds, m2. rewrite Z.add_0_r, store_bytes_app, load_store_bytes_out by (simpl; lia).
    by apply load_store_bytes.
  - eapply (line_printed s v i last frag last (λ last, let line_start := last + 1 in
      if line_start >=? last then mret 0 else
        grep_lines lit fuel search (Z.of_nat (length pat)) fname data cnt last line_start)); try done; try lia.
    intros s1 Hs1 Hr1 Ho Hk. cbv zeta. rewrite Z.geb_leb, (proj2 (Z.leb_le _ _)) by lia.
    apply sat_ret. exists [], (hit pat name frag). split; [done|]. split; [done|]. split; [done|]. split; [done|].
    split; [done|]. right. split; [done|]. split; [unfold hits; simpl; by rewrite app_nil_r|].
    apply andb_false_iff in E as [E|E]; [apply andb_false_iff in E as [E|E]|]; apply negb_false_iff, Z.eqb_eq in E.
    + right. right. right. destruct (decide (last = 1024)) as [->|]; [by destruct (rd_guard _ Hr)|lia].
    + by left.
    + right. right. left. done.
Qed.

Lemma grep_lines_ok ls fuel s v i cnt last R frag :
  sees s v → ready (umem s) → 0 ≤ i → i + Z.of_nat (length R) = last → last ≤ 1024 →
  holds (umem s) i R → Forall (λ c, c ≠ 0) R → Forall (λ c, word8 c) R →
  split_lines R = ls ++ [frag] → (length ls < fuel)%nat →
  sat (grep_lines lit fuel search (Z.of_nat (length pat)) fname data cnt last i) s
    (lines_post s v i cnt last R ls frag).
Proof using spec Hplen.
  revert fuel s v i R. induction ls as [|l ls IH]; intros fuel s v i R Hs Hr Hi Hlast Hle Hh Hnz H8 Hsp Hf;
    (destruct fuel as [|fuel]; [simpl in Hf; lia|]).
  { apply split_lines_one in Hsp as Hfr. subst R. apply grep_frag_ok; try done. by apply (split_lines_frag frag []). }
  destruct (split_lines_first R l (ls ++ [frag]) Hsp) as (R' & -> & Hl & Hsp'); [by destruct ls|].
  rewrite length_app in Hlast. cbn [length] in Hlast, Hf. pose proof (rd_array _ Hr) as [A1 A2].
  apply holds_app in Hh as [Hh1 Hh2]. apply Forall_app in Hnz as [Hnz1 Hnz2], H8 as [H81 H82].
  apply Forall_cons in Hnz2 as [_ Hnz2], H82 as [_ H82].
  set (j := i + Z.of_nat (length l)) in *.
  change (10 :: R') with ([10] ++ R') in Hh2. apply holds_app in Hh2 as [Hh2 Hh3].
  assert (mget (umem s) (data + j) = 10) as Hnl.
  { rewrite <- (Z.add_0_r (data + j)). by apply (holds_lookup _ j [10] 0 10). }
  cbn [grep_lines].
  apply sat_bind with (λ x s', x = j ∧ s' = s).
  { eexists _, s. split; [reflexivity|]. split; [|done]. apply end_of_line_ok; try done; try lia.
    - intros o c Ho. by apply (holds_lookup _ i l).
    - right. by rewrite <- Z.add_assoc. }
  intros x s' [-> ->].
  apply sat_bind with (λ c s', c = 10 ∧ s' = s); [eexists _, s; split; [reflexivity|]; by split|]. intros c s' [-> ->].
  change (negb (10 =? 10)) with false. cbn [andb].
  eapply (line_printed s v i j l last (λ last, let line_start := j + 1 in
      if line_start >=? last then mret 0 else
        grep_lines lit fuel search (Z.of_nat (length pat)) fname data cnt last line_start)); try done; try lia.
  intros s1 Hs1 Hr1 Ho1 Hk1. cbv zeta. rewrite Z.geb_leb. destruct (Z.leb_spec last (j + 1)) as [Hend|Hmore].
  - assert (R' = []) as -> by (destruct R'; [done|cbn [length] in *; lia]).
    change (split_lines []) with ([] ++ [@nil Z]) in Hsp'. apply app_inj_2 in Hsp' as [<- Hfr]; [|done].
    injection Hfr as <-. apply sat_ret. exists [], (hit pat name l). split; [done|]. split; [done|]. split; [done|].
    split; [done|]. split; [done|]. right. split; [done|]. split; [|by right; left].
    rewrite hits_app, !hits_cons, hit_nil. unfold hits. simpl. by rewrite !app_nil_r.
  - eapply sat_mono; [apply (IH fuel s1 _ (j + 1) R' Hs1 Hr1)|]; try done; try lia.
    { apply Hk1; [lia|lia|done]. }
    intros r s2 (left & out & -> & Hs2 & Hr2 & Ho2 & Hh & Hleft). exists left, (hit pat name l ++ out).
    split; [done|]. split; [by rewrite v_print_app|]. split; [done|]. split; [by eapply outside_trans|].
    split; [done|]. destruct Hleft as [(-> & -> & Hlen & Hc)|(-> & -> & Hwhy)]; [by left|right].
    split; [done|]. split; [done|]. destruct Hwhy as [Hw|[Hw|[Hw|Hw]]]; [by left|by right; left|lia|by right; right; right].
Qed.

(** The text that is left to be read, and its lines. *)
Definition text_ok (l : list Z) : Prop :=
  Forall (λ c, 0 < c < 256) l ∧ Forall (λ x, (length x < 1024)%nat) (split_lines l).

#[export] Instance text_ok_dec l : Decision (text_ok l).
Proof using. unfold text_ok. apply _. Defined.

Lemma grep_reads_ok fuel fd s v p rest :
  sees s v → v_fds v !! fd = Some (Bytes rest) → ready (umem s) → holds (umem s) 0 p → (length p < 1024)%nat →
  text_ok (p ++ rest) → (length rest < fuel)%nat →
  sat (grep_reads lit fuel fd search (Z.of_nat (length pat)) fname data (Z.of_nat (length p))) s
    (λ r s', r = true ∧ ready (umem s') ∧ outside (umem s) (umem s') ∧
      sees s' (v_set_fd fd (Some (Bytes [])) (v_print (hits pat name (split_lines (p ++ rest))) v))).
Proof using spec Hplen.
  revert s v p rest. induction fuel as [|fuel IH]; intros s v p rest Hs Hfd Hr Hh Hp [Ht Hlines] Hf; [lia|].
  cbn [grep_reads]. unfold BUFSIZE. pose proof (rd_array _ Hr) as [A1 A2].
  eapply sat_bind; [apply (read_bytes_ok s v fd rest (data + Z.of_nat (length p)) (1024 - Z.of_nat (length p)) Hs Hfd);
    [lia|split; lia]|].
  intros cnt s1 (v1 & (-> & ->) & Hs1 & M1). set (n := Z.to_nat (1024 - Z.of_nat (length p))) in *.
  set (chunk := take n rest) in *. set (rest' := drop n rest) in *.
  rewrite (proj2 (Z.eqb_neq (-1) _)) by lia.
  assert (length chunk = n `min` length rest)%nat as Hcl by (unfold chunk; apply length_take).
  assert (rest = chunk ++ rest') as Erest by (unfold chunk, rest'; by rewrite take_drop).
  assert (length p + length chunk ≤ 1024)%nat as Hle by lia.
  assert (outside (umem s) (umem s1)) as O1 by (eapply (outside_store _ _ _ _ (Z.of_nat (length p)) chunk); [| |exact M1]; lia).
  rewrite Erest, app_assoc in Ht, Hlines. set (R := p ++ chunk) in *.
  assert (length R = length p + length chunk)%nat as HRl by (unfold R; by rewrite length_app).
  apply Forall_app in Ht as Ht'. destruct Ht' as [HtR Htr].
  assert (Forall (λ c, word8 c) R) as HR8 by (eapply Forall_impl; [exact HtR|]; simpl; lia).
  assert (holds (umem s1) 0 R) as HhR.
  { apply holds_app. split.
    - unfold holds. rewrite <- Hh at 2. apply load_bytes_ext. intros o Ho. rewrite M1 by (unfold user_addr; lia).
      apply mget_store_bytes_out. lia.
    - rewrite Z.add_0_l. apply (holds_same (store_bytes (umem s) (data + Z.of_nat (length p)) chunk)); [done|split; lia|].
      apply load_store_bytes. by apply Forall_app in HR8 as []. }
  assert (ready (umem s1)) as Hr1.
  { apply (ready_outside (umem s)); [done| |done]. rewrite M1 by (unfold user_addr; lia).
    rewrite mget_store_bytes_out by lia. apply Hr. }
  destruct (split_lines_snoc R) as (ls & frag & Esp). pose proof (length_split_lines R) as Hll.
  rewrite Esp, length_app in Hll. cbn [length] in Hll. rewrite (split_lines_app _ _ _ _ Esp) in Hlines.
  apply Forall_app in Hlines as [_ Hlines].
  eapply sat_bind; [apply (grep_lines_ok ls _ s1 _ 0 _ _ R frag Hs1 Hr1); try done; try lia|].
  { eapply Forall_impl; [exact HtR|]. simpl. lia. }
  intros r s2 (left & out & -> & Hs2 & Hr2 & O2 & Hh2 & Hleft). pose proof (outside_trans _ _ _ _ _ O1 O2) as O12.
  rewrite Erest, app_assoc. fold R. rewrite (split_lines_app _ _ _ _ Esp), hits_app.
  destruct (Z.eqb_spec 0 (Z.of_nat (length chunk))) as [Hz|Hnz].
  - destruct Hleft as [(_ & _ & _ & Hc)|(-> & -> & _)]; [lia|]. apply sat_ret. split; [done|]. split; [done|]. split; [done|].
    assert (rest = []) as Er by (destruct rest; [done|cbn [length] in Hcl; lia]).
    assert (rest' = []) as Er' by (unfold rest'; rewrite Er; apply drop_nil). fold rest' in Hs2. rewrite Er' in Hs2 |- *.
    rewrite app_nil_r, split_lines_none by (by eapply split_lines_frag). rewrite <- hits_app. exact Hs2.
  - rewrite v_print_set in Hs2.
    assert (∃ tl, tl = split_lines (left ++ rest') ∧ Forall (λ x, (length x < 1024)%nat) tl ∧
      hits pat name ls ++ hits pat name (split_lines (frag ++ rest')) = out ++ hits pat name tl ∧ (length left < 1024)%nat)
      as (tl & -> & Htl & Eout & Hlft).
    { eexists. split; [reflexivity|]. destruct Hleft as [(-> & -> & Hlen & Hc)|(-> & -> & Hwhy)].
      { split; [done|]. split; [done|]. lia. }
      rewrite app_nil_l. rewrite hits_app, <- app_assoc.
      assert (frag = [] ∨ rest' = []) as [->|Er'].
      { destruct (decide (length R < 1024)%nat) as [Hlt|Hge].
        { right. apply drop_ge. lia. }
        left. destruct Hwhy as [Hw|[Hw|[[_ Hw]|Hw]]]; [lia|done| |lia]. subst frag.
        destruct (split_lines_head R rest' (split_lines_frag _ _ _ Esp)) as (b' & t & E). rewrite E in Hlines.
        apply Forall_cons in Hlines as [Hx _]. rewrite length_app in Hx. lia. }
      - split; [done|]. split; [|simpl; lia]. by rewrite hits_cons, hit_nil.
      - rewrite Er' in *. split; [repeat constructor|]. split; [|simpl; lia].
        rewrite app_nil_r, split_lines_none by (by eapply split_lines_frag).
        change (split_lines []) with [@nil Z]. by rewrite hits_empty, app_nil_r. }
    assert (length rest' < fuel)%nat as Hf' by (unfold rest'; rewrite length_drop; lia).
    assert (Forall (λ c, 0 < c < 256) (left ++ rest')) as Htxt.
    { apply Forall_app. split; [|done]. apply split_lines_forall in HtR. rewrite Esp in HtR.
      apply Forall_app in HtR as [_ HtR]. apply Forall_cons in HtR as [HtR _]. by destruct Hleft as [(-> & _)|(-> & _)]. }
    eapply sat_mono; [apply (IH s2 _ left rest' Hs2); try done; apply v_set_lookup|].
    intros r s3 (-> & Hr3 & O3 & Hs3). split; [done|]. split; [done|]. split; [by eapply outside_trans|].
    rewrite v_print_set, v_set_set, <- v_print_app in Hs3. by rewrite Eout.
Qed.

(** A device has no text. *)
Lemma grep_clock_ok fuel fd s v :
  sees s v → v_fds v !! fd = Some Clock → ready (umem s) → (0 < fuel)%nat →
  sat (grep_reads lit fuel fd search (Z.of_nat (length pat)) fname data 0) s
    (λ r s', r = true ∧ ready (umem s') ∧ outside (umem s) (umem s') ∧ sees s' v).
Proof using spec Hplen.
  intros Hs Hfd Hr Hf. destruct fuel as [|fuel]; [lia|]. cbn [grep_reads].
  eapply sat_bind; [by apply (read_clock_ok s v fd)|]. intros cnt s1 (v1 & (-> & ->) & Hs1 & M1).
  change (-1 =? 0) with false. cbn iota.
  assert (ready (umem s1)) as Hr1.
  { pose proof (rd_array _ Hr) as [A1 A2]. apply (ready_outside (umem s)); [by apply outside_same| |done].
    rewrite M1 by (unfold user_addr; lia). apply Hr. }
  eapply sat_bind; [apply (grep_lines_ok [] _ s1 v 0 0 0 [] [] Hs1 Hr1); try done; unfold BUFSIZE; cbn [length]; lia|].
  intros r s2 (left & out & -> & Hs2 & Hr2 & O2 & Hh2 & Hleft).
  destruct Hleft as [(_ & _ & _ & Hc)|(-> & -> & _)]; [lia|]. change (0 =? 0) with true. cbn iota. apply sat_ret.
  split; [done|]. split; [done|]. split; [eapply outside_trans; [by apply outside_same|done]|].
  rewrite app_nil_l, hits_empty in Hs2. by rewrite v_print_nil in Hs2.
Qed.

(** ** A file that is no such text

    The array may then hold NULs, and old bytes behind a piece that [strcpy]
    moved only in part; what is printed is still blocks of some pieces, and the
    loops come to their end. *)
Definition prints_blocks s v s' : Prop := ∃ ps, sees s' (v_print (blocks name ps) v).
Lemma blocks_app ps qs : blocks name (ps ++ qs) = blocks name ps ++ blocks name qs.
Proof using. unfold blocks. by rewrite fmap_app, concat_app. Qed.
Lemma prints_nothing s v : sees s v → prints_blocks s v s.
Proof using. intros Hs. exists []. by rewrite v_print_nil. Qed.

(** What lies before a NUL in the array is a string. *)
Lemma string_before m i j : i ≤ j → mget m (data + j) = 0 → ∃ l, cstr m (data + i) l ∧ Z.of_nat (length l) ≤ j - i.
Proof using.
  clear Hplen spec. clear pat lit. intros Hij H0. destruct (cstr_exists m (data + i)) as (l & Hl & _). exists l. split; [done|].
  destruct (decide (Z.of_nat (length l) ≤ j - i)) as [|Hlt]; [done|exfalso].
  destruct (lookup_lt_is_Some_2 l (Z.to_nat (j - i)) ltac:(lia)) as [c Hc].
  pose proof (cstr_lookup _ _ _ _ _ Hl Hc) as [Hm Hnz]. revert Hm.
  replace (data + i + Z.of_nat (Z.to_nat (j - i))) with (data + j) by lia. congruence.
Qed.
Lemma print_piece s v i j found :
  sees s v → ready (umem s) → 0 ≤ i ≤ j → j ≤ 1024 → mget (umem s) (data + j) = 0 →
  sat (print_match found i) s (λ _ s', prints_blocks s v s' ∧ user_same (umem s) (umem s')).
Proof using spec.
  intros Hs Hr Hi Hj H0. destruct (string_before (umem s) i j ltac:(lia) H0) as (l & Hl & Hlen).
  eapply sat_mono; [apply (print_match_ok s v i l found Hs Hr); [lia|lia|done]|]. intros _ s' [Hs' Hm]. split; [|done].
  exists (if found then [l] else []). destruct found; [|exact Hs'].
  unfold blocks. cbn [fmap list_fmap concat]. by rewrite app_nil_r.
Qed.

Lemma grep_lines_any fuel s v i cnt last :
  sees s v → ready (umem s) → 0 ≤ i ≤ last → last ≤ 1024 → 1025 - i < Z.of_nat fuel →
  sat (grep_lines lit fuel search (Z.of_nat (length pat)) fname data cnt last i) s
    (λ r s', 0 ≤ r < 1024 ∧ prints_blocks s v s' ∧ ready (umem s') ∧ outside (umem s) (umem s')).
Proof using spec Hplen.
  revert s v i. induction fuel as [|fuel IH]; intros s v i Hs Hr Hi Hle Hf; [lia|]. pose proof (rd_array _ Hr) as [A1 A2].
  cbn [grep_lines]. set (j := end_of_line (Z.to_nat (last - i)) (umem s) data last i).
  assert (i ≤ j ≤ last) as Hj by (apply end_of_line_range; lia).
  apply sat_bind with (λ x s', x = j ∧ s' = s); [by eexists _, s|]. intros x s' [-> ->].
  apply sat_bind with (λ _ s', s' = s); [by eexists _, s|]. intros c s' ->.
  assert (sat (poke (data + j) 0) s (λ _ s', sees s' v ∧ ready (umem s') ∧ outside (umem s) (umem s') ∧
    mget (umem s') (data + j) = 0)) as Hpoke.
  { eapply sat_mono; [apply (poke_array s v j 0 Hs Hr); lia|]. intros _ s1 (Hs1 & Hr1 & E1). split; [done|]. split; [done|].
    rewrite E1. split; [intros a _ Ha; apply mget_mset_ne; lia|apply mget_mset_eq]. }
  destruct (negb (10 =? c) && negb (0 =? cnt) && negb (i =? 0)) eqn:E.
  - apply andb_true_iff in E as [_ E]. apply negb_true_iff, Z.eqb_neq in E.
    eapply sat_bind; [exact Hpoke|]. intros _ s1 (Hs1 & Hr1 & O1 & H0).
    destruct (string_before (umem s1) i j ltac:(lia) H0) as (l & Hl & Hlen).
    pose proof (ece391_strcpy_cstr (umem s1) data (data + i) l Hl ltac:(lia)) as Ecpy.
    set (m2 := store_bytes (umem s1) data (l ++ [0])) in *.
    assert (length (l ++ [0%Z]) = length l + 1)%nat as Hl1 by (by rewrite length_app).
    assert (∀ a, ¬ data ≤ a < data + 1024 → mget m2 a = mget (umem s1) a) as Hm2
      by (intros a Ha; apply mget_store_bytes_out; lia).
    set (s2 := set_umem m2 s1). assert (umem s2 = m2) as Em2 by apply umem_set.
    apply sat_bind with (λ _ s', s' = s2); [exists (), s2; split; [by unfold on_mem; rewrite Ecpy|done]|]. intros _ s' ->.
    apply sat_ret. split; [lia|].
    assert (outside (umem s1) (umem s2)) as O2 by (rewrite Em2; intros a _ Ha; apply Hm2; lia).
    split.
    { exists []. change (blocks name []) with (@nil Z). rewrite v_print_nil. apply sees_set; [done|]. intros a Ha. apply Hm2.
      unfold user_addr in Ha. lia. }
    split; [|by eapply outside_trans].
    apply (ready_outside (umem s1)); [done| |done]. rewrite Em2, Hm2 by lia. apply Hr1.
  - eapply sat_bind; [exact Hpoke|]. intros _ s1 (Hs1 & Hr1 & O1 & H0).
    apply sat_bind with (λ _ s', s' = s1); [by eexists _, s1|]. intros found s' ->.
    change (if found : bool then _ else _) with (print_match found i).
    eapply sat_bind; [apply (print_piece s1 v i j found Hs1 Hr1); [lia|lia|done]|]. intros _ s2 [(ps & Hs2) M2].
    assert (outside (umem s) (umem s2)) as O2 by (eapply outside_trans; [exact O1|by apply outside_same]).
    assert (ready (umem s2)) as Hr2.
    { apply (ready_outside (umem s1)); [by apply outside_same| |done]. rewrite M2 by (unfold user_addr; lia). apply Hr1. }
    cbv zeta. rewrite Z.geb_leb. destruct (Z.leb_spec last (j + 1)) as [Hend|Hmore].
    + apply sat_ret. split; [lia|]. split; [by exists ps|done].
    + eapply sat_mono; [apply (IH s2 _ (j + 1) Hs2 Hr2); lia|]. intros r s3 (Hr' & (qs & Hs3) & Hr3 & O3).
      split; [done|]. split; [|split; [done|by eapply outside_trans]]. exists (ps ++ qs). by rewrite blocks_app, v_print_app.
Qed.

Lemma grep_reads_any fuel fd s v last rest :
  sees s v → v_fds v !! fd = Some (Bytes rest) → ready (umem s) → 0 ≤ last < 1024 → (length rest < fuel)%nat →
  sat (grep_reads lit fuel fd search (Z.of_nat (length pat)) fname data last) s
    (λ r s', r = true ∧ ready (umem s') ∧ outside (umem s) (umem s') ∧
      ∃ ps, sees s' (v_set_fd fd (Some (Bytes [])) (v_print (blocks name ps) v))).
Proof using spec Hplen.
  revert s v last rest. induction fuel as [|fuel IH]; intros s v last rest Hs Hfd Hr Hlast Hf; [lia|].
  cbn [grep_reads]. unfold BUFSIZE. pose proof (rd_array _ Hr) as [A1 A2].
  eapply sat_bind; [apply (read_bytes_ok s v fd rest (data + last) (1024 - last) Hs Hfd); [lia|split; lia]|].
  intros cnt s1 (v1 & (-> & ->) & Hs1 & M1). set (n := Z.to_nat (1024 - last)) in *.
  set (chunk := take n rest) in *. set (rest' := drop n rest) in *. rewrite (proj2 (Z.eqb_neq (-1) _)) by lia.
  assert (length chunk = n `min` length rest)%nat as Hcl by (unfold chunk; apply length_take).
  assert (outside (umem s) (umem s1)) as O1 by (eapply (outside_store _ _ _ _ last chunk); [| |exact M1]; lia).
  assert (ready (umem s1)) as Hr1.
  { apply (ready_outside (umem s)); [done| |done]. rewrite M1 by (unfold user_addr; lia).
    rewrite mget_store_bytes_out by lia. apply Hr. }
  eapply sat_bind; [apply (grep_lines_any _ s1 _ 0 _ _ Hs1 Hr1); lia|]. intros r s2 (Hr' & (ps & Hs2) & Hr2 & O2).
  pose proof (outside_trans _ _ _ _ _ O1 O2) as O12. rewrite v_print_set in Hs2.
  destruct (Z.eqb_spec 0 (Z.of_nat (length chunk))) as [Hz|Hnz].
  - apply sat_ret. split; [done|]. split; [done|]. split; [done|]. exists ps.
    assert (rest' = []) as Er' by (unfold rest'; destruct rest; [apply drop_nil|cbn [length] in Hcl; lia]).
    fold rest' in Hs2. by rewrite Er' in Hs2.
  - assert (length rest' < fuel)%nat as Hf' by (unfold rest'; rewrite length_drop; lia).
    eapply sat_mono; [apply (IH s2 _ r rest' Hs2); [apply v_set_lookup|done|done|done]|].
    intros r' s3 (-> & Hr3 & O3 & qs & Hs3). split; [done|]. split; [done|]. split; [by eapply outside_trans|].
    exists (ps ++ qs). rewrite v_print_set, v_set_set, <- v_print_app in Hs3. by rewrite blocks_app.
Qed.

(** What [grep] prints of a file of the view: of a text the lines that match. *)
Definition file_prints (f : file) (out : list Z) : Prop :=
  match f with
  | Regular l =>
      (text_ok l → out = hits pat name (split_lines l)) ∧ ∃ ps, out = blocks name ps
  | _ => out = []
  end.
Definition greppable (fuel : nat) (f : file) : Prop :=
  match f with Regular l => (length l < fuel)%nat | Device => (0 < fuel)%nat | Directory => False end.
Lemma hits_blocks ls : ∃ ps, hits pat name ls = blocks name ps.
Proof using.
  exists (filter (λ l, matches pat l = true) ls). induction ls as [|l ls IH]; [done|]. rewrite hits_cons, IH. unfold hit.
  rewrite filter_cons. destruct (matches pat l); [by rewrite decide_True|by rewrite decide_False].
Qed.

Lemma do_one_file_ok fuel s v f :
  sees s v → ready (umem s) → v_files v !! name = Some f → v_free v → greppable fuel f →
  sat (do_one_file lit fuel search fname data) s
    (λ r s', r = 0 ∧ ready (umem s') ∧ outside (umem s) (umem s') ∧ ∃ out, file_prints f out ∧ sees s' (v_print out v)).
Proof using spec Hplen.
  intros Hs Hr Hf Hfree Hg. unfold do_one_file. pose proof (rd_array _ Hr) as [A1 A2].
  apply sat_bind with (λ n s', n = Z.of_nat (length pat) ∧ s' = s).
  { eexists _, s. split; [reflexivity|]. split; [|done]. destruct (rd_search _ Hr) as [Hc _].
    rewrite (ece391_strlen_cstr _ _ _ Hc), u32_small, s32_small by lia. done. }
  intros n s' [-> ->]. destruct (rd_name _ Hr) as (Hnc & Hnu & _).
  eapply sat_bind; [by apply (open_ok s v fname name f Hs Hnc)|]. intros fd s1 (v1 & (Hfd & Hno & ->) & Hs1 & M1).
  rewrite (proj2 (Z.eqb_neq (-1) _)) by lia.
  assert (ready (umem s1)) as Hr1.
  { apply (ready_outside (umem s)); [by apply outside_same| |done]. rewrite M1 by (unfold user_addr; lia). apply Hr. }
  apply sat_bind with (λ ok s', ok = true ∧ ready (umem s') ∧ outside (umem s1) (umem s') ∧
    ∃ st out, file_prints f out ∧ sees s' (v_set_fd fd (Some st) (v_print out v))).
  { destruct f as [l| |]; [|done|].
    - destruct (decide (text_ok l)) as [Ht|Ht].
      + eapply sat_mono; [apply (grep_reads_ok fuel fd s1 _ [] l Hs1)|];
          [apply v_set_lookup|done|done|simpl; lia|done|done|].
        intros r s2 (-> & Hr2 & O2 & Hs2). split; [done|]. split; [done|]. split; [done|].
        exists (Bytes []), (hits pat name (split_lines l)). split; [split; [done|apply hits_blocks]|].
        by rewrite v_print_set, v_set_set in Hs2.
      + eapply sat_mono; [apply (grep_reads_any fuel fd s1 _ 0 l Hs1); [apply v_set_lookup|done|lia|done]|].
        intros r s2 (-> & Hr2 & O2 & ps & Hs2). split; [done|]. split; [done|]. split; [done|].
        exists (Bytes []), (blocks name ps). split; [split; [done|by exists ps]|].
        by rewrite v_print_set, v_set_set in Hs2.
    - eapply sat_mono; [apply (grep_clock_ok fuel fd s1 _ Hs1); [apply v_set_lookup|done|done]|].
      intros r s2 (-> & Hr2 & O2 & Hs2). split; [done|]. split; [done|]. split; [done|].
      exists Clock, []. split; [done|]. by rewrite v_print_nil. }
  intros ok s2 (-> & Hr2 & O2 & st & out & Hout & Hs2). cbn [negb]. cbn iota.
  eapply sat_bind; [apply (close_ok s2 _ fd st Hs2), v_set_lookup|]. intros r s3 (v3 & (-> & ->) & Hs3 & M3).
  change (-1 =? 0) with false. cbn iota. apply sat_ret. split; [done|].
  assert (outside (umem s2) (umem s3)) as O3 by (by apply outside_same).
  split; [apply (ready_outside (umem s2)); [done| |done]; rewrite M3 by (unfold user_addr; lia); apply Hr2|].
  split; [eapply outside_trans; [by apply outside_same|by eapply outside_trans]|].
  exists out. split; [done|]. rewrite v_set_set, v_set_same in Hs3; [done|exact Hno].
Qed.
End behaviour.

(** ** The whole program *)

Section program.
Context {S : Type} {sys : UserSys S} {sees : S → view → Prop} {spec : UserSpec S sees}.
Context (lit : list Z → Z) (search buf data : Z).
Implicit Types (s : S) (v : view).

(** The arrays and the literals lie apart, and the byte behind [data] is not a
    newline by accident. *)
Definition off (a n b k : Z) : Prop := a + n ≤ b ∨ b + k ≤ a.
Record grep_frame (m : mem) : Prop := {
  gf_search : in_user search 1024;
  gf_buf : in_user buf 33;
  gf_data : in_user data 1025;
  gf_apart : off search 1024 buf 33 ∧ off search 1024 data 1025 ∧ off buf 33 data 1025;
  gf_literals : Forall (λ l, literal lit m l ∧ apart lit l search 1024 ∧ apart lit l buf 33 ∧ apart lit l data 1025)
    [chars "."; chars ":"; [10]];
  gf_guard : mget m (data + 1024) ≠ 10 }.

(** Only the arrays change. *)
Definition arrays (lo : Z) (m m' : mem) : Prop := ∀ a, user_addr a →
  ¬ search ≤ a < search + lo → ¬ buf ≤ a < buf + 33 → ¬ data ≤ a < data + 1025 → mget m' a = mget m a.
Lemma grep_frame_step lo m m' : lo ≤ 1024 → arrays lo m m' → mget m' (data + 1024) ≠ 10 → grep_frame m → grep_frame m'.
Proof using.
  intros Hlo Ho Hg [F1 F2 F3 F4 F5 F6]. split; try done. eapply Forall_impl; [exact F5|].
  intros l ([Hc [U1 U2]] & A1 & A2 & A3). split; [|done]. split; [|done]. apply (cstr_ext m); [|done].
  unfold apart in *. intros i Hi. apply Ho; [unfold user_addr; lia|lia..].
Qed.

(** The arguments are in [search]. *)
Definition pattern (m : mem) (pat : list Z) : Prop := cstr m search pat ∧ (length pat < 1024)%nat.
Lemma pattern_step m m' pat : grep_frame m → arrays 0 m m' → pattern m pat → pattern m' pat.
Proof using.
  intros [[S1 S2] _ _ (O1 & O2 & _) _ _] Ho [Hc Hl]. split; [|done]. apply (cstr_ext m); [|done].
  unfold off in *. intros i Hi. apply Ho; [unfold user_addr; lia|lia..].
Qed.
Lemma ready_file m pat n :
  grep_frame m → pattern m pat → cstr m buf n → (length n < 33)%nat → ready data lit search buf pat n m.
Proof using.
  intros [[S1 S2] [B1 B2] F3 (O1 & O2 & O3) F5 F6] [Hc Hl] Hn Hnl. rewrite !Forall_cons in F5.
  destruct F5 as (_ & ([L1 L1u] & _ & _ & A1) & ([L2 L2u] & _ & _ & A2) & _). unfold off, apart in *.
  split; [done| | | | |done]; (split; [done|]; split; [done || (split; lia)|lia]).
Qed.

(** What is printed for a name of the directory. *)
Definition name_prints (v : view) (pat n out : list Z) : Prop :=
  if decide (head n = Some 46) then out = []
  else ∃ f, v_files v !! n = Some f ∧ file_prints pat n f out.
Definition grep_name (fuel : nat) (v : view) (n : list Z) : Prop :=
  name_ok n ∧ Forall (λ c, c ≠ 0) n ∧ (head n = Some 46 ∨ ∃ f, v_files v !! n = Some f ∧ greppable fuel f).

Lemma v_free_set fd st st' v : v_free v → v_fds v !! fd = Some st → v_free (v_set_fd fd (Some st') v).
Proof using.
  intros (g & Hg & Hn) Hfd. exists g. split; [done|]. cbn [v_fds v_set_fd].
  rewrite lookup_partial_alter_ne by congruence. done.
Qed.

Lemma grep_loop_ok ns pat names fuel fd s v :
  sees s v → v_fds v !! fd = Some (Names ns) → v_free v → grep_frame (umem s) → pattern (umem s) pat →
  Forall (grep_name fuel v) ns → (length ns < names)%nat →
  sat (grep_loop lit names fuel fd search buf data) s
    (λ r s', r = 0 ∧ ∃ outs, Forall2 (name_prints v pat) ns outs ∧
      sees s' (v_set_fd fd (Some Past_end) (v_print (concat outs) v))).
Proof using spec.
  revert names s v. induction ns as [|n ns IH]; intros names s v Hs Hfd Hfree Hgf Hpat Hns Hf;
    (destruct names as [|names]; [simpl in Hf; lia|]); cbn [grep_loop]; unfold SBUFSIZE.
  { eapply sat_bind; [apply (read_names_end s v fd buf (33 - 1) Hs Hfd); lia|]. intros r s1 (v1 & (-> & ->) & Hs1 & _).
    change (0 =? 0) with true. cbn iota. apply sat_ret. split; [done|].
    exists []. split; [constructor|]. cbn [concat]. by rewrite v_print_nil. }
  apply Forall_cons in Hns as [([Hl H8] & Hnz & Hn) Hns]. pose proof Hgf as [_ [B1 B2] [D1 D2] (O1 & O2 & O3) _ _].
  unfold off in *. cbn [length] in Hf.
  eapply sat_bind; [apply (read_name_ok s v fd n ns buf (33 - 1) Hs Hfd); [lia|split; lia]|].
  intros r s1 (v1 & (-> & ->) & Hs1 & M1). rewrite (proj2 (Z.eqb_neq 0 _)), (proj2 (Z.eqb_neq (-1) _)) by lia.
  assert (length (n ++ [10%Z; 0%Z]) = length n + 2)%nat as Hl2 by (by rewrite length_app).
  assert (arrays 0 (umem s) (umem s1)) as A1.
  { intros a Ha _ Hb _. rewrite M1 by done. apply mget_store_bytes_out. lia. }
  assert (grep_frame (umem s1)) as G1.
  { eapply (grep_frame_step 0); [lia|exact A1| |exact Hgf]. rewrite M1 by (unfold user_addr; lia).
    rewrite mget_store_bytes_out by lia. apply Hgf. }
  assert (pattern (umem s1) pat) as P1 by (by apply (pattern_step (umem s))).
  apply sat_bind with (λ c s', Some c = head n ∧ s' = s1).
  { eexists _, s1. split; [reflexivity|]. split; [|done]. destruct n as [|c n]; [simpl in Hl; lia|].
    rewrite M1 by (unfold user_addr; lia). replace buf with (buf + Z.of_nat 0) at 2 by lia.
    rewrite (mget_store_bytes_in _ _ _ _ c) by done. apply Forall_cons in H8 as [Hc _].
    simpl. f_equal. by apply u8_small. }
  intros c s' [Hc ->].
  set (v1 := v_set_fd fd (Some (Names ns)) v) in *.
  assert (v_free v1) as Hfree1 by (by eapply v_free_set).
  assert (Forall (grep_name fuel v1) ns) as Hns1 by exact Hns.
  destruct (Z.eqb_spec 46 c) as [<-|Hdot].
  { eapply sat_mono; [apply (IH names s1 v1 Hs1); try done; [apply v_set_lookup|lia]|].
    intros r s2 (-> & outs & Ho & Hs2). split; [done|]. exists ([] :: outs).
    split; [constructor; [unfold name_prints; by rewrite decide_True|exact Ho]|].
    unfold v1 in Hs2. by rewrite v_print_set, v_set_set in Hs2. }
  destruct Hn as [Hn|(f & Hfile & Hg)]; [congruence|].
  eapply sat_bind; [apply (poke_ok lit s1 v1 (buf + Z.of_nat (length n)) 0 Hs1); unfold user_addr; lia|].
  intros _ s2 [Hs2 E2].
  assert (cstr (umem s2) buf n) as Hcn.
  { rewrite E2. split; [|split; [apply mget_mset_eq|done]].
    transitivity (load_bytes (store_bytes (umem s) buf (n ++ [10; 0])) buf (length n)).
    - apply load_bytes_ext. intros i Hi. rewrite mget_mset_ne by lia. apply M1. unfold user_addr. lia.
    - rewrite store_bytes_app, load_store_bytes_out by (simpl; lia). by apply load_store_bytes. }
  assert (arrays 0 (umem s1) (umem s2)) as A2 by (rewrite E2; intros a _ _ Hb _; apply mget_mset_ne; lia).
  assert (grep_frame (umem s2)) as G2.
  { eapply (grep_frame_step 0); [lia|exact A2| |exact G1]. rewrite E2, mget_mset_ne by lia. apply G1. }
  assert (pattern (umem s2) pat) as P2 by (by apply (pattern_step (umem s1))).
  pose proof (ready_file _ _ _ G2 P2 Hcn ltac:(lia)) as R2.
  eapply sat_bind; [apply (do_one_file_ok data lit search buf pat n ltac:(destruct P2; lia) fuel s2 v1 f Hs2 R2); done|].
  intros r s3 (-> & R3 & O & out & Hout & Hs3). change (negb (0 =? 0)) with false. cbn iota.
  assert (arrays 0 (umem s2) (umem s3)) as A3 by (intros a Ha _ _ Hd; by apply O).
  assert (grep_frame (umem s3)) as G3.
  { eapply (grep_frame_step 0); [lia|exact A3|apply (rd_guard _ _ _ _ _ _ _ R3)|exact G2]. }
  assert (pattern (umem s3) pat) as P3 by (by apply (pattern_step (umem s2))).
  eapply sat_mono; [apply (IH names s3 _ Hs3); try done; [apply v_set_lookup|lia]|].
  intros r s4 (-> & outs & Ho & Hs4). split; [done|]. exists (out :: outs).
  split; [constructor; [unfold name_prints; rewrite decide_False by congruence; by exists f|exact Ho]|].
  cbn [concat]. unfold v1 in Hs4.
  by rewrite !v_print_set, v_set_set, <- v_print_app in Hs4.
Qed.

(** [grep] with the text as its arguments; two descriptors have to be free. *)
Lemma grep_ok names fuel s v :
  sees s v → Forall (λ c, 0 < c < 256) (v_args v) → (length (v_args v) < 1024)%nat →
  v_files v !! chars "." = Some Directory → v_free v → (∀ fd st, v_free (v_set_fd fd (Some st) v)) →
  grep_frame (umem s) → Forall (grep_name fuel v) (v_names v) → (length (v_names v) < names)%nat →
  sat (grep lit names fuel search buf data) s (λ r s', r = 0 ∧ ∃ fd outs, v_fds v !! fd = None ∧
    Forall2 (name_prints v (v_args v)) (v_names v) outs ∧ sees s' (v_set_fd fd (Some Past_end) (v_print (concat outs) v))).
Proof using spec.
  intros Hs Hp Hpl Hdot Hfree Hfree2 Hgf Hns Hf. unfold grep, BUFSIZE.
  pose proof Hgf as [[S1 S2] _ [D1 D2] (_ & O2 & _) _ _]. unfold off in *.
  assert (length (v_args v ++ [0%Z]) = length (v_args v) + 1)%nat as Hl1 by (by rewrite length_app).
  eapply sat_bind; [apply (getargs_ok s v search 1024 Hs); [lia|split; lia]|].
  intros r s1 (v1 & (-> & ->) & Hs1 & M1). change (negb (0 =? 0)) with false. cbn iota.
  assert (grep_frame (umem s1)) as G1.
  { eapply (grep_frame_step 1024); [lia| | |exact Hgf].
    - intros a Ha Hn _ _. rewrite M1 by done. apply mget_store_bytes_out. lia.
    - rewrite M1 by (unfold user_addr; lia). rewrite mget_store_bytes_out by lia. apply Hgf. }
  assert (pattern (umem s1) (v_args v)) as P1.
  { split; [|done]. apply (user_same_cstr _ _ search (v_args v) M1); [split; lia|].
    apply cstr_store; eapply Forall_impl; [exact Hp| |exact Hp|]; simpl; lia. }
  pose proof (gf_literals _ G1) as Hlit. rewrite !Forall_cons in Hlit. destruct Hlit as [[[Hc Hu] _] _].
  eapply sat_bind; [by apply (open_ok s1 v _ _ Directory Hs1 Hc)|]. intros fd s2 (v2 & (Hfd & Hno & ->) & Hs2 & M2).
  rewrite (proj2 (Z.eqb_neq (-1) _)) by lia.
  assert (arrays 0 (umem s1) (umem s2)) as A2 by (intros a Ha _ _ _; by apply M2).
  assert (grep_frame (umem s2)) as G2.
  { eapply (grep_frame_step 0); [lia|exact A2| |exact G1]. rewrite M2 by (unfold user_addr; lia). apply G1. }
  eapply sat_mono; [apply (grep_loop_ok (v_names v) (v_args v) names fuel fd s2 _ Hs2)|];
    [apply v_set_lookup|apply Hfree2|done|by apply (pattern_step (umem s1))|exact Hns|done|].
  intros r s3 (-> & outs & Ho & Hs3). split; [done|]. exists fd, outs. split; [done|]. split; [exact Ho|].
  by rewrite v_print_set, v_set_set in Hs3.
Qed.
End program.
