(* ===== verification/Fish.v ===== *)
(** * fish/fish.c: the animation of two frames

    [main] maps the screen, adds one blinking character for every place where
    one of the two frames is not blank, and lets them blink while the clock
    ticks.  The list of blinks is Blink.v's; what the program does is stated
    with lists of blinks and of drawn characters, the files by their lines. *)
From Stdlib Require Import Ascii String.
From S2P Require Import Prelude CMem LibString Screen Format Process Paging Kernel SysCalls Exec UserLib.
From S2P Require Import UserSys UserProg Blink Pond UserGrep.

Definition WAIT := 200.
Definition LIST_FUEL : nat := Datatypes.S CELLS.

Section program.
Context {S : Type} `{UserSys S} (lit : list Z → Z).
(** The static variables. *)
Context (mp1_list_head blink_array vmem_base_addr : Z).

Definition poke16 (a v : Z) : user S () := on_mem (λ m, Some (store16 m a v)).
(** [tmp]: the local structure of the routine. *)
Definition ioctl (tmp arg cmd : Z) : user S Z := λ s,
  match mp1_ioctl mp1_list_head blink_array vmem_base_addr LIST_FUEL tmp arg cmd (umem s) with
  | None => None
  | Some (r, m) => Some (r, set_umem m s)
  end.
Definition rtc_tasklet : user S () := on_mem (mp1_rtc_tasklet mp1_list_head vmem_base_addr LIST_FUEL).

Definition mp1_set_video_mode : user S Z :=
  r ← ece391_vidmap vmem_base_addr;
  if r =? -1 then mret 0 else with_mem (λ m, load32 m vmem_base_addr).

(** [if (c != '\n') { read one character; at the end of the file ... }] *)
Definition next_char (fd c eof : Z) : user S Z :=
  x ← peek c;
  if negb (x =? 10) then
    num_bytes ← ece391_read fd c 1;
    if num_bytes =? 0 then _ ← poke c 10; mret 1 else mret eof
  else mret eof.
(** One character of a frame that is not blank, or of the other. *)
Definition draw_spot (bs tmp row col x0 x1 : Z) : user S () :=
  if negb (x0 =? 32) && negb (x0 =? 10) || negb (x1 =? 32) && negb (x1 =? 10) then
    _ ← poke (bs + ON_CHAR) (if x0 =? 10 then 32 else x0);
    _ ← poke (bs + OFF_CHAR) (if x1 =? 10 then 32 else x1);
    _ ← poke16 (bs + LOCATION) (row * 80 + col + 40);
    _ ← ioctl tmp bs RTC_ADD;
    mret ()
  else mret ().
(** The inner loop; [bs] is [blink_struct].  The result are the two flags. *)
Fixpoint frame_row (fuel : nat) (fd0 fd1 c0 c1 bs tmp row col eof0 eof1 : Z) : user S (Z * Z) :=
  match fuel with
  | O => λ _, None
  | Datatypes.S fuel =>
      eof0 ← next_char fd0 c0 eof0;
      eof1 ← next_char fd1 c1 eof1;
      x0 ← peek c0;
      x1 ← peek c1;
      if (x0 =? 10) && (x1 =? 10) then mret (eof0, eof1)
      else
        _ ← draw_spot bs tmp row col x0 x1;
        frame_row fuel fd0 fd1 c0 c1 bs tmp row (col + 1) eof0 eof1
  end.
Definition end_of_row (fd c eof : Z) : user S () :=
  if negb (eof =? 0) then _ ← poke c 10; _ ← ece391_close fd; mret () else poke c 48.
Fixpoint frame_rows (rows fuel : nat) (fd0 fd1 c0 c1 bs tmp row eof0 eof1 : Z) : user S () :=
  match rows with
  | O => λ _, None
  | Datatypes.S rows =>
      if (eof0 =? 0) || (eof1 =? 0) then
        '(eof0, eof1) ← frame_row fuel fd0 fd1 c0 c1 bs tmp row 0 eof0 eof1;
        _ ← end_of_row fd0 c0 eof0;
        _ ← end_of_row fd1 c1 eof1;
        frame_rows rows fuel fd0 fd1 c0 c1 bs tmp (row + 1) eof0 eof1
      else mret ()
  end.
(** [Some] status: the process has halted. *)
Definition add_frames (rows fuel : nat) (f0 f1 c0 c1 bs tmp : Z) : user S (option Z) :=
  _ ← poke c0 48;
  _ ← poke c1 48;
  _ ← poke16 (bs + ON_LENGTH) 15;
  _ ← poke16 (bs + OFF_LENGTH) 15;
  fd0 ← ece391_open f0;
  if fd0 <? 0 then mret (Some (-1))
  else
    fd1 ← ece391_open f1;
    if fd1 <? 0 then mret (Some (-1))
    else _ ← frame_rows rows fuel fd0 fd1 c0 c1 bs tmp 0 0 0; mret None.

(** [for (i = 0; i < n; i++) { ece391_read; mp1_rtc_tasklet; }] *)
Fixpoint wait_loop (n : nat) (rtc_fd garbage : Z) : user S () :=
  match n with
  | O => mret ()
  | Datatypes.S n => _ ← ece391_read rtc_fd garbage 4; _ ← rtc_tasklet; wait_loop n rtc_fd garbage
  end.

(** The blink of [main]'s own. *)
Definition add_own (blink_struct tmp : Z) : user S Z :=
  _ ← poke (blink_struct + ON_CHAR) 73;
  _ ← poke (blink_struct + OFF_CHAR) 77;
  _ ← poke16 (blink_struct + ON_LENGTH) 7;
  _ ← poke16 (blink_struct + OFF_LENGTH) 6;
  _ ← poke16 (blink_struct + LOCATION) (6 * 80 + 60);
  ioctl tmp blink_struct RTC_ADD.
(** [main] once the frames are there. *)
Definition animate (rtc_fd ret_val garbage blink_struct tmp : Z) : user S Z :=
  _ ← on_mem (λ m, Some (store32 m ret_val 32));
  r ← ece391_write rtc_fd ret_val 4;
  _ ← on_mem (λ m, Some (store32 m ret_val r));
  _ ← wait_loop (Z.to_nat WAIT) rtc_fd garbage;
  _ ← add_own blink_struct tmp;
  _ ← wait_loop (Z.to_nat WAIT) rtc_fd garbage;
  _ ← ioctl tmp (Z.lor (Z.shiftl 40 16) (6 * 80 + 60)) RTC_SYNC;
  _ ← wait_loop (Z.to_nat WAIT) rtc_fd garbage;
  _ ← poke16 (blink_struct + LOCATION) 60;
  _ ← ioctl tmp WAIT RTC_REMOVE;
  _ ← wait_loop CELLS rtc_fd garbage;
  _ ← ece391_close rtc_fd;
  mret 0.
(** [rows] and [fuel] bound the loops of [add_frames]. *)
Definition fish (rows fuel : nat) (file0 file1 ret_val garbage blink_struct c0 c1 bs tmp : Z) : user S Z :=
  _ ← on_mem (λ m, Some (ece391_memset m blink_array 0 (STRUCT_SIZE * 80 * 25)));
  r ← mp1_set_video_mode;
  if r =? 0 then mret (-1)
  else
    rtc_fd ← ece391_open (lit (chars "rtc"));
    halted ← add_frames rows fuel file0 file1 c0 c1 bs tmp;
    match halted with
    | Some status => mret status
    | None => animate rtc_fd ret_val garbage blink_struct tmp
    end.
End program.

(** ** What is animated *)

(** The blink of a place in the frames; a line may have ended there. *)
Definition shown_char (x : option Z) : Z := default 32 x.
Definition spot (row col : Z) (x0 x1 : option Z) : list blink :=
  if (shown_char x0 =? 32) && (shown_char x1 =? 32) then []
  else [Bl (row * 80 + col + 40) (shown_char x0) (shown_char x1) 15 15 15 1].
Fixpoint row_spots1 (row col : Z) (l1 : list Z) : list blink :=
  match l1 with [] => [] | x1 :: l1 => spot row col None (Some x1) ++ row_spots1 row (col + 1) l1 end.
Fixpoint row_spots (row col : Z) (l0 l1 : list Z) : list blink :=
  match l0 with
  | [] => row_spots1 row col l1
  | x0 :: l0 => spot row col (Some x0) (head l1) ++ row_spots row (col + 1) l0 (tail l1)
  end.
Fixpoint frames1 (row : Z) (ls1 : list (list Z)) : list blink :=
  match ls1 with [] => [] | l1 :: ls1 => row_spots row 0 [] l1 ++ frames1 (row + 1) ls1 end.
Fixpoint frames (row : Z) (ls0 ls1 : list (list Z)) : list blink :=
  match ls0 with
  | [] => frames1 row ls1
  | l0 :: ls0 => row_spots row 0 l0 (default [] (head ls1)) ++ frames (row + 1) ls0 (tail ls1)
  end.
Definition add_all (bs : list blink) (p : pond) : pond := foldl (λ p b, a_add b p) p bs.

Lemma add_all_app bs bs' p : add_all (bs ++ bs') p = add_all bs' (add_all bs p).
Proof. apply foldl_app. Qed.

(** ** One file, as the loops of [add_frames] see it *)

Record side := Side { s_rest : list Z; s_char : Z; s_eof : Z; s_open : bool }.
Definition side_next (a : side) : side :=
  if s_char a =? 10 then a
  else match s_rest a with [] => Side [] 10 1 (s_open a) | x :: r => Side r x (s_eof a) (s_open a) end.
Definition side_end (a : side) : side :=
  if s_eof a =? 0 then Side (s_rest a) 48 (s_eof a) (s_open a) else Side (s_rest a) 10 (s_eof a) false.

(** In the middle of a row: [l] is left of the line; [k] is what follows its
    newline, or nothing. *)
Definition line_done (a : side) (k : option (list Z)) : Prop :=
  s_char a = 10 ∧ match k with
                  | Some r => s_rest a = r ∧ s_eof a = 0 ∧ s_open a = true
                  | None => s_rest a = [] ∧ s_eof a = 1
                  end.
Definition in_line (a : side) (l : list Z) (k : option (list Z)) : Prop :=
  (s_char a ≠ 10 ∧ s_rest a = l ++ match k with Some r => 10 :: r | None => [] end ∧ s_eof a = 0 ∧ s_open a = true) ∨
  (l = [] ∧ line_done a k).
Lemma side_next_line a x l k : in_line a (x :: l) k → x ≠ 10 → in_line (side_next a) l k ∧ s_char (side_next a) = x.
Proof.
  intros [(Hc & Hr & He & Ho)|[? _]] Hx; [|done]. unfold side_next. rewrite (proj2 (Z.eqb_neq _ _)) by done.
  rewrite Hr. cbn [app]. split; [|done]. left. cbn [s_char s_rest s_eof s_open]. done.
Qed.
Lemma side_next_done a k : in_line a [] k → line_done (side_next a) k.
Proof.
  intros [(Hc & Hr & He & Ho)|[_ Hd]]; unfold side_next.
  - rewrite (proj2 (Z.eqb_neq _ _)) by done. rewrite Hr. by destruct k.
  - by rewrite (proj1 Hd).
Qed.

(** The loops over the two sides. *)
Definition cell_of (x : Z) : option Z := if x =? 10 then None else Some x.
Fixpoint row_steps (fuel : nat) (row col : Z) (a b : side) (p : pond) : option (side * side * pond) :=
  match fuel with
  | O => None
  | Datatypes.S fuel =>
      let a := side_next a in
      let b := side_next b in
      if (s_char a =? 10) && (s_char b =? 10) then Some (a, b, p)
      else row_steps fuel row (col + 1) a b (add_all (spot row col (cell_of (s_char a)) (cell_of (s_char b))) p)
  end.
Fixpoint rows_steps (rows fuel : nat) (row : Z) (a b : side) (p : pond) : option (side * side * pond) :=
  match rows with
  | O => None
  | Datatypes.S rows =>
      if (s_eof a =? 0) || (s_eof b =? 0) then
        '(a, b, p) ← row_steps fuel row 0 a b p;
        rows_steps rows fuel (row + 1) (side_end a) (side_end b) p
      else Some (a, b, p)
  end.

Lemma row_steps_ok l0 : ∀ l1 k0 k1 fuel row col a b p,
  in_line a l0 k0 → in_line b l1 k1 → Forall (λ x, x ≠ 10) l0 → Forall (λ x, x ≠ 10) l1 →
  (length l0 < fuel)%nat → (length l1 < fuel)%nat →
  ∃ a' b', row_steps fuel row col a b p = Some (a', b', add_all (row_spots row col l0 l1) p) ∧
    line_done a' k0 ∧ line_done b' k1.
Proof.
  assert (∀ x, x ≠ 10 → cell_of x = Some x) as Hcell by (intros x Hx; unfold cell_of; by rewrite (proj2 (Z.eqb_neq x 10))).
  induction l0 as [|x0 l0 IH]; intros l1.
  - induction l1 as [|x1 l1 IH1]; intros k0 k1 fuel row col a b p Ha Hb H0 H1 F0 F1;
      (destruct fuel as [|fuel]; [simpl in F0; lia|]); cbn [row_steps]; pose proof (side_next_done _ _ Ha) as Da.
    + pose proof (side_next_done _ _ Hb) as Db. rewrite (proj1 Da), (proj1 Db). by exists (side_next a), (side_next b).
    + apply Forall_cons in H1 as [Hx H1]. destruct (side_next_line _ _ _ _ Hb Hx) as [Hb' Ec].
      rewrite (proj1 Da), Ec, (Hcell x1 Hx). rewrite (proj2 (Z.eqb_neq x1 10)) by done. cbn [andb Z.eqb].
      destruct (IH1 k0 k1 fuel row (col + 1) (side_next a) (side_next b) (add_all (spot row col (cell_of 10) (Some x1)) p))
        as (a' & b' & E & Da' & Db'); [by right|done|done|done|cbn [length] in *; lia|cbn [length] in *; lia|].
      exists a', b'. split; [|done]. cbn [row_spots row_spots1]. rewrite add_all_app. exact E.
  - intros k0 k1 fuel row col a b p Ha Hb H0 H1 F0 F1. destruct fuel as [|fuel]; [lia|]. cbn [row_steps].
    apply Forall_cons in H0 as [Hx H0]. destruct (side_next_line _ _ _ _ Ha Hx) as [Ha' Ec].
    rewrite Ec, (Hcell x0 Hx), (proj2 (Z.eqb_neq x0 10)) by done. cbn [andb].
    assert (∃ b1, b1 = side_next b ∧ in_line b1 (tail l1) k1 ∧ cell_of (s_char b1) = head l1) as (b1 & <- & Hb1 & Eb1).
    { exists (side_next b). split; [done|]. destruct l1 as [|x1 l1].
      - pose proof (side_next_done _ _ Hb) as Db. split; [by right|]. by rewrite (proj1 Db).
      - apply Forall_cons in H1 as [Hx1 H1]. destruct (side_next_line _ _ _ _ Hb Hx1) as [Hb' ->]. split; [done|]. by apply Hcell. }
    rewrite Eb1. destruct (IH (tail l1) k0 k1 fuel row (col + 1) (side_next a) b1
      (add_all (spot row col (Some x0) (head l1)) p)) as (a' & b' & E & Da' & Db'); try done.
    { by destruct l1; [|apply Forall_cons in H1 as [_ H1]]. }
    { cbn [length] in *. lia. } { destruct l1; cbn [length tail] in *; lia. }
    exists a', b'. split; [|done]. cbn [row_spots]. rewrite add_all_app. exact E.
Qed.

(** A file of which the lines [ls] are left. *)
Fixpoint join (ls : list (list Z)) : list Z :=
  match ls with [] => [] | [l] => l | l :: ls => l ++ 10 :: join ls end.
Definition file_side (ls : list (list Z)) : side :=
  match ls with [] => Side [] 10 1 false | _ => Side (join ls) 48 0 true end.
Definition after_line (ls : list (list Z)) : option (list Z) := match ls with [] => None | _ => Some (join ls) end.

Lemma in_line_file ls : in_line (file_side ls) (default [] (head ls)) (after_line (tail ls)).
Proof.
  destruct ls as [|l [|l' ls]]; [by right; split_and!|left..]; cbn [file_side head tail after_line default from_option id s_char s_rest s_eof s_open join].
  - by rewrite app_nil_r.
  - done.
Qed.
Lemma side_end_file a ls : line_done a (after_line ls) → side_end a = file_side ls.
Proof.
  intros [Hc Hk]. unfold side_end. destruct ls as [|l ls].
  - destruct Hk as [-> ->]. done.
  - destruct Hk as (-> & -> & ->). done.
Qed.
Lemma frames_step row ls0 ls1 : (ls0 ≠ [] ∨ ls1 ≠ []) →
  frames row ls0 ls1 = row_spots row 0 (default [] (head ls0)) (default [] (head ls1)) ++ frames (row + 1) (tail ls0) (tail ls1).
Proof. intros Hne. destruct ls0 as [|l0 ls0]; [|done]. destruct ls1 as [|l1 ls1]; [|done]. by destruct Hne. Qed.
Lemma join_split d : join (split_lines d) = d.
Proof.
  induction d as [|c d IH]; [done|]. cbn [split_lines]. destruct (split_lines_snoc d) as (ls & f & E).
  destruct (Z.eqb_spec c 10) as [->|Hc].
  - assert (join ([] :: split_lines d) = 10 :: join (split_lines d)) as -> by (rewrite E; by destruct ls). by rewrite IH.
  - rewrite <- IH at 2. rewrite E. destruct ls as [|h [|h' t]]; done.
Qed.
Lemma split_lines_no_newline d : Forall (Forall (λ x, x ≠ 10)) (split_lines d).
Proof.
  induction d as [|c d IH]; [by repeat constructor|]. cbn [split_lines]. destruct (Z.eqb_spec c 10) as [->|Hc]; [by constructor|].
  destruct (split_lines d) as [|h t]; [by repeat constructor|]. apply Forall_cons in IH as [Hh Ht]. by repeat constructor.
Qed.

Definition lines_ok (fuel : nat) (ls : list (list Z)) : Prop :=
  Forall (λ l, Forall (λ x, x ≠ 10) l ∧ (length l < fuel)%nat) ls.
Lemma lines_head fuel ls : (0 < fuel)%nat → lines_ok fuel ls →
  Forall (λ x, x ≠ 10) (default [] (head ls)) ∧ (length (default [] (head ls)) < fuel)%nat ∧ lines_ok fuel (tail ls).
Proof. intros Hf Hl. destruct ls as [|l ls]; [done|]. by apply Forall_cons in Hl as [[? ?] ?]. Qed.

Lemma rows_steps_ok rows fuel : ∀ row ls0 ls1 p,
  lines_ok fuel ls0 → lines_ok fuel ls1 → (0 < fuel)%nat → (length ls0 < rows)%nat → (length ls1 < rows)%nat →
  rows_steps rows fuel row (file_side ls0) (file_side ls1) p =
    Some (file_side [], file_side [], add_all (frames row ls0 ls1) p).
Proof.
  induction rows as [|rows IH]; intros row ls0 ls1 p H0 H1 Hf R0 R1; [lia|]. cbn [rows_steps].
  destruct (decide (ls0 = [] ∧ ls1 = [])) as [[-> ->]|Hne]; [done|].
  assert ((s_eof (file_side ls0) =? 0) || (s_eof (file_side ls1) =? 0) = true) as ->.
  { destruct ls0 as [|? ?]; [|done]. destruct ls1 as [|? ?]; [by destruct Hne|done]. }
  destruct (lines_head _ _ Hf H0) as (N0 & L0 & T0). destruct (lines_head _ _ Hf H1) as (N1 & L1 & T1).
  destruct (row_steps_ok _ _ _ _ fuel row 0 _ _ p (in_line_file ls0) (in_line_file ls1) N0 N1 L0 L1) as (a & b & -> & Da & Db).
  assert (0 < rows)%nat as Hrows by (destruct ls0, ls1; cbn [length] in *; try lia; by destruct Hne).
  cbn [mbind option_bind]. rewrite (side_end_file _ _ Da), (side_end_file _ _ Db), IH; try done.
  - rewrite (frames_step row ls0 ls1), add_all_app; [reflexivity|]. destruct ls0 as [|? ?]; [right; by intros ->; destruct Hne|left; discriminate].
  - destruct ls0; cbn [length tail] in *; lia.
  - destruct ls1; cbn [length tail] in *; lia.
Qed.

(** ** The screen a program has mapped *)

Definition a_paint (d : Z * Z) (t : aterm) : aterm :=
  Aterm (a_x t) (a_y t) (alter (λ c, (u8 d.2, c.2)) (Z.to_nat d.1) (a_cells t)).
Definition v_paint (ds : list (Z * Z)) (v : view) : view :=
  View (foldl (λ t d, a_paint d t) (v_screen v) ds) (v_fds v) (v_args v) (v_names v) (v_files v) (v_input v).
Lemma v_paint_app ds ds' v : v_paint (ds ++ ds') v = v_paint ds' (v_paint ds v).
Proof. unfold v_paint. by rewrite foldl_app. Qed.
Lemma v_paint_nil v : v_paint [] v = v.
Proof. by destruct v. Qed.

(** [vidmap] gives the page at [base]; what is drawn there is seen. *)
Class UserVideo (S : Type) `{UserSys S} (sees : S → view → Prop) (base : Z) := {
  vidmap_ok s v p :
    sees s v → in_user p 4 →
    gives sees (ece391_vidmap p) s (store32 (umem s) p base) (λ r v', r = base ∧ v' = v);
  video_ok s v m ds :
    sees s v → Forall (λ d, 0 ≤ d.1 < 2000) ds → (∀ a, ¬ user_addr a → mget m a = mget (drawn base ds (umem s)) a) →
    sees (set_umem m s) (v_paint ds v) }.

Lemma v_set_comm fd fd' x y v : fd ≠ fd' → v_set_fd fd x (v_set_fd fd' y v) = v_set_fd fd' y (v_set_fd fd x v).
Proof. intros Hne. unfold v_set_fd. f_equal. by apply partial_alter_partial_alter_ne. Qed.
Lemma v_lookup_ne fd fd' x v : fd ≠ fd' → v_fds (v_set_fd fd x v) !! fd' = v_fds v !! fd'.
Proof. intros Hne. by apply lookup_partial_alter_ne. Qed.
Lemma a_add_started b p : a_add (started b) p = a_add b p.
Proof. done. Qed.

(** ** What the program does *)

Section behaviour.
Context {S : Type} {sys : UserSys S} {sees : S → view → Prop} {spec : UserSpec S sees}.
Context {base : Z} {vid : UserVideo S sees base} (head arr vptr : Z).
Implicit Types (s : S) (v : view) (p : pond).

(** The static variables are the program's, the page is not. *)
Record fish_data : Prop := {
  fd_placed : placed head arr vptr base;
  fd_array : in_user arr 32000;
  fd_head : in_user head 4;
  fd_vptr : in_user vptr 4;
  fd_page : base + 4000 ≤ PROG_VM_START ∨ PROG_VM_START + SPACE_4MB ≤ base }.
Context (data : fish_data).
Local Abbreviation off := (off_list head arr vptr base).

Definition list_at (m : mem) p : Prop := ∃ ss, blink_list head arr vptr base m ss ∧ blinks m ss = p_blinks p.
Lemma list_at_kept m m' p : (∀ a, user_addr a → arr ≤ a < arr + 32000 ∨ head ≤ a < head + 4 ∨ vptr ≤ a < vptr + 4 → mget m' a = mget m a) →
  list_at m p → list_at m' p.
Proof using data.
  intros Hm (ss & Hbl & Eb). destruct data as [Hpl [U1 U2] [U3 U4] [U5 U6] _]. exists ss. rewrite <- Eb.
  apply (list_kept head arr vptr base); [intros a Ha; apply Hm; [unfold user_addr; lia|by left]|intros i Hi; apply Hm; [unfold user_addr; lia|]..|done];
    [right; left; lia|right; right; lia].
Qed.
Lemma list_at_same m m' p : user_same m m' → list_at m p → list_at m' p.
Proof using data. intros Hs. apply list_at_kept. intros a Ha _. by apply Hs. Qed.
Lemma list_at_outside m m' a n p : off a n → outside a n m m' → list_at m p → list_at m' p.
Proof using data.
  intros (O1 & O2 & O3 & _) Ho. apply list_at_kept. intros b Hb Hr. apply Ho; [done|]. lia.
Qed.
Lemma list_at_length m p : list_at m p → (length (p_blinks p) ≤ 2000)%nat.
Proof using.
  intros (ss & Hbl & <-). unfold blinks. rewrite length_fmap. destruct (mp1_malloc_ok _ _ _ _ m ss Hbl) as [[_ ->]|(_ & _ & ?)]; lia.
Qed.

(** A change of the static variables, of the locals and of the screen. *)
Lemma set_mem_sees s v m ds : sees s v → Forall (λ d, 0 ≤ d.1 < 2000) ds →
  (∀ a, ¬ user_addr a → mget m a = mget (drawn base ds (umem s)) a) → sees (set_umem m s) (v_paint ds v) ∧ umem (set_umem m s) = m.
Proof using spec vid. intros Hs Hd Hm. split; [by apply video_ok|apply umem_set]. Qed.

Lemma page_not_user a : base ≤ a < base + 4000 → ¬ user_addr a.
Proof using data. intros Ha [H1 H2]. destruct (fd_page data); lia. Qed.

Lemma in_user_addr a n b : in_user a n → a ≤ b < a + n → user_addr b.
Proof using. intros [? ?] ?. unfold user_addr. lia. Qed.

(** [mp1_ioctl] with [RTC_ADD]. *)
Lemma ioctl_add_ok s v p tmp arg :
  sees s v → list_at (umem s) p → off tmp 16 → in_user tmp 16 → tmp + 16 ≤ arg ∨ arg + 16 ≤ tmp →
  let b := get_blink (umem s) arg in location b ≠ 0 →
  sat (ioctl head arr vptr tmp arg RTC_ADD) s (λ _ s', ∃ ds, p_drawn (a_add b p) = p_drawn p ++ ds ∧
    sees s' (v_paint ds v) ∧ list_at (umem s') (a_add b p) ∧
    ∀ a, user_addr a → ¬ arr ≤ a < arr + 32000 → ¬ head ≤ a < head + 4 → ¬ tmp ≤ a < tmp + 16 → mget (umem s') a = mget (umem s) a).
Proof using data spec vid.
  intros Hs (ss & Hbl & Eb) Ho Hu Hd b Hb. destruct data as [Hpl Ua Uh Uv Up].
  destruct (mp1_ioctl_add_ok head arr vptr base tmp arg (umem s) ss Hpl Hbl Ho Hd Hb) as (m' & ss' & E & Hbl' & Ebs & Hm).
  fold b in E, Ebs, Hm. unfold ioctl, mp1_ioctl. change (RTC_ADD =? RTC_ADD) with true. cbn iota.
  exists (add_result b (length ss)), (set_umem m' s). split; [by rewrite E|].
  assert (length ss = length (p_blinks p)) as El by (rewrite <- Eb; unfold blinks; by rewrite length_fmap). rewrite El in *.
  set (ds := if decide (location b < 2000 ∧ (length (p_blinks p) < 2000)%nat) then [(location b, on_char b)] else []).
  assert (0 ≤ location b) as Hl0 by apply load16_range.
  assert (∀ a, ¬ arr ≤ a < arr + 32000 → ¬ head ≤ a < head + 4 → ¬ tmp ≤ a < tmp + 16 →
    mget m' a = mget (drawn base ds (umem s)) a) as Hm'.
  { intros a N1 N2 N3. rewrite Hm by done. unfold ds. by case_decide. }
  assert (Forall (λ d, 0 ≤ d.1 < 2000) ds) as Hds by (unfold ds; case_decide; [apply Forall_singleton; cbn [fst]; lia|constructor]).
  destruct (set_mem_sees s v m' ds Hs Hds) as [Hs' Em].
  { intros a Ha. apply Hm'; intros Hn; apply Ha; eauto using in_user_addr. }
  exists ds. rewrite Em. split; [|split; [done|split]].
  - unfold a_add, ds. case_decide; cbn [p_drawn]; [done|by rewrite app_nil_r].
  - exists ss'. split; [done|]. rewrite Eb in Ebs. revert Ebs. unfold a_add. case_decide; by intros ->.
  - intros a Hua N1 N2 N3. rewrite Hm' by done. apply drawn_out; [done|]. intros Hn. by apply (page_not_user a Hn).
Qed.

(** ** The characters of a file *)

Definition side_stream (a : side) : option stream := if s_open a then Some (Bytes (s_rest a)) else None.
Definition side_ok (a : side) : Prop :=
  (s_open a = false → s_char a = 10 ∧ s_eof a ≠ 0) ∧ Forall (λ c, word8 c) (s_rest a) ∧ word8 (s_char a).
Lemma side_next_ok a : side_ok a → side_ok (side_next a).
Proof using.
  intros (Ho & Hr & Hc). unfold side_next. destruct (Z.eqb_spec (s_char a) 10) as [E|E]; [done|].
  destruct (s_rest a) as [|x r] eqn:Er.
  - by split_and!.
  - apply Forall_cons in Hr as [Hx Hr]. split; [|done]. cbn [s_open s_char s_eof]. intros Hf. by destruct (Ho Hf).
Qed.
Lemma side_end_ok a : side_ok a → side_ok (side_end a).
Proof using.
  intros (Ho & Hr & Hc). unfold side_end. destruct (Z.eqb_spec (s_eof a) 0) as [E|E]; (split; [|by split]); cbn [s_open s_char s_eof].
  - intros Hf. by destruct (Ho Hf).
  - done.
Qed.

Lemma next_char_ok s v fd c a :
  sees s v → v_fds v !! fd = side_stream a → mget (umem s) c = s_char a → side_ok a → in_user c 1 →
  sat (next_char fd c (s_eof a)) s (λ r s', r = s_eof (side_next a) ∧ sees s' (v_set_fd fd (side_stream (side_next a)) v) ∧
    mget (umem s') c = s_char (side_next a) ∧ outside c 1 (umem s) (umem s')).
Proof using spec.
  intros Hs Hfd Hc (Ho & Hr & Hw) Hu. pose proof Hu as [U1 U2]. unfold next_char.
  apply sat_bind with (λ x s', x = s_char a ∧ s' = s); [by eexists _, s|]. intros x s' [-> ->].
  unfold side_next. destruct (Z.eqb_spec (s_char a) 10) as [E|E]; cbn [negb].
  { apply sat_ret. rewrite v_set_same by done. by split_and!. }
  assert (s_open a = true) as Hop by (destruct (s_open a); [done|]; by destruct (Ho eq_refl)).
  unfold side_stream in Hfd. rewrite Hop in Hfd.
  eapply sat_bind; [apply (read_bytes_ok s v fd _ c 1 Hs Hfd); [lia|split; lia]|].
  intros r s1 (v1 & (-> & ->) & Hs1 & M1). change (Z.to_nat 1) with 1%nat in *.
  destruct (s_rest a) as [|x r] eqn:Er; cbn [take drop length] in *.
  - change (Z.of_nat 0 =? 0) with true. cbn iota.
    eapply sat_bind; [apply (poke_ok (λ _, 0) s1 _ c 10 Hs1); unfold user_addr; lia|]. intros _ s2 [Hs2 E2]. apply sat_ret.
    unfold side_stream. cbn [s_open s_rest s_eof s_char]. rewrite Hop. split; [done|]. split; [exact Hs2|].
    rewrite E2. split; [by rewrite mget_mset_eq|]. apply (outside_trans _ _ _ (umem s1)); [by apply outside_same|].
    rewrite <- (Z.add_0_r c) at 2. apply outside_mset. lia.
  - change (Z.of_nat 1 =? 0) with false. cbn iota. apply sat_ret.
    rewrite take_0, drop_0 in *. apply Forall_cons in Hr as [Hx Hr].
    unfold side_stream. cbn [s_open s_rest s_eof s_char]. rewrite Hop. split; [done|]. split; [exact Hs1|]. split.
    + rewrite M1 by (unfold user_addr; lia). cbn [store_bytes]. rewrite mget_mset_eq. by apply u8_small.
    + eapply (outside_store c 1 _ _ 0 [x]); [done|done|]. rewrite Z.add_0_r. exact M1.
Qed.
Lemma end_of_row_ok s v fd c a :
  sees s v → v_fds v !! fd = side_stream a → 2 ≤ fd < FILE_ARRAY_LEN → side_ok a → in_user c 1 →
  sat (end_of_row fd c (s_eof a)) s (λ _ s', sees s' (v_set_fd fd (side_stream (side_end a)) v) ∧
    mget (umem s') c = s_char (side_end a) ∧ outside c 1 (umem s) (umem s')).
Proof using spec.
  intros Hs Hfd Hr (Ho & _) [U1 U2]. unfold end_of_row, side_end. destruct (Z.eqb_spec (s_eof a) 0) as [E|E]; cbn [negb].
  - eapply sat_mono; [apply (poke_ok (λ _, 0) s v c 48 Hs); unfold user_addr; lia|]. intros ? s1 [Hs1 E1].
    unfold side_stream. cbn [s_open s_rest s_char]. fold (side_stream a). rewrite v_set_same by done. split; [done|].
    rewrite E1, mget_mset_eq. split; [done|]. rewrite <- (Z.add_0_r c) at 2. apply outside_mset. lia.
  - eapply sat_bind; [apply (poke_ok (λ _, 0) s v c 10 Hs); unfold user_addr; lia|]. intros _ s1 [Hs1 E1].
    assert (sat (ece391_close fd) s1 (λ _ s', sees s' (v_set_fd fd None v) ∧ user_same (umem s1) (umem s'))) as Hcl.
    { unfold side_stream in Hfd. destruct (s_open a).
      - eapply sat_mono; [exact (close_ok s1 v fd _ Hs1 Hfd)|]. intros ? s2 (v2 & (_ & ->) & Hs2 & M2). by split.
      - eapply sat_mono; [apply (close_refused s1 v fd Hs1); left|].
        + split; [unfold FILE_ARRAY_LEN in Hr; lia|right; right]. unfold FILE_ARRAY_LEN in *. split; [lia|done].
        + intros ? s2 (v2 & (_ & ->) & Hs2 & M2). split; [|done]. by rewrite v_set_same. }
    eapply sat_bind; [exact Hcl|]. intros _ s2 [Hs2 M2]. apply sat_ret. unfold side_stream. cbn [s_open s_rest s_char].
    split; [done|]. split; [rewrite M2 by (unfold user_addr; lia); by rewrite E1, mget_mset_eq|].
    apply (outside_trans _ _ _ (umem s1)); [|by apply outside_same]. rewrite E1. rewrite <- (Z.add_0_r c) at 2. apply outside_mset. lia.
Qed.

Lemma poke16_ok s v a x : sees s v → in_user a 2 →
  sat (poke16 a x) s (λ _ s', sees s' v ∧ umem s' = store16 (umem s) a x).
Proof using spec.
  intros Hs [U1 U2]. exists (), (set_umem (store16 (umem s) a x) s). split; [done|]. rewrite umem_set. split; [|done].
  apply sees_set; [done|]. intros b Hb. apply frame_store16. unfold user_addr in Hb. lia.
Qed.

(** ** The loops of [add_frames] *)

Section loops.
Context (c0 c1 bs tmp : Z).
Record frame_locals : Prop := {
  fl_c0 : in_user c0 1 ∧ off c0 1;
  fl_c1 : in_user c1 1 ∧ off c1 1;
  fl_bs : in_user bs 16 ∧ off bs 16;
  fl_tmp : in_user tmp 16 ∧ off tmp 16;
  fl_apart : c0 ≠ c1 ∧ (c0 + 1 ≤ bs ∨ bs + 16 ≤ c0) ∧ (c1 + 1 ≤ bs ∨ bs + 16 ≤ c1) ∧
    (c0 + 1 ≤ tmp ∨ tmp + 16 ≤ c0) ∧ (c1 + 1 ≤ tmp ∨ tmp + 16 ≤ c1) ∧ (bs + 16 ≤ tmp ∨ tmp + 16 ≤ bs) }.
Context (locs : frame_locals) (fd0 fd1 : Z) (Hfds : fd0 ≠ fd1).
Context (Hfd0 : 2 ≤ fd0 < FILE_ARRAY_LEN) (Hfd1 : 2 ≤ fd1 < FILE_ARRAY_LEN).

(** The state between two steps. *)
Definition world v a b p : view :=
  v_set_fd fd0 (side_stream a) (v_set_fd fd1 (side_stream b) (v_paint (p_drawn p) v)).
Record between (v : view) (s : S) (a b : side) p : Prop := {
  bt_sees : sees s (world v a b p);
  bt_c0 : mget (umem s) c0 = s_char a;
  bt_c1 : mget (umem s) c1 = s_char b;
  bt_lengths : load16 (umem s) (bs + 4) = 15 ∧ load16 (umem s) (bs + 6) = 15;
  bt_list : list_at (umem s) p }.

Lemma world_fd0 v a b p : v_fds (world v a b p) !! fd0 = side_stream a.
Proof using. apply v_set_lookup. Qed.
Lemma world_fd1 v a b p : v_fds (world v a b p) !! fd1 = side_stream b.
Proof using Hfds. unfold world. rewrite v_lookup_ne by done. apply v_set_lookup. Qed.
Lemma world_set0 v a b p a' : v_set_fd fd0 (side_stream a') (world v a b p) = world v a' b p.
Proof using. apply v_set_set. Qed.
Lemma world_set1 v a b p b' : v_set_fd fd1 (side_stream b') (world v a b p) = world v a b' p.
Proof using Hfds. unfold world. rewrite (v_set_comm fd1 fd0), v_set_set by done. done. Qed.

(** What an access to one of the characters keeps. *)
Lemma char_kept m m' c p : c = c0 ∨ c = c1 → outside c 1 m m' →
  load16 m (bs + 4) = 15 ∧ load16 m (bs + 6) = 15 → list_at m p →
  (load16 m' (bs + 4) = 15 ∧ load16 m' (bs + 6) = 15) ∧ list_at m' p.
Proof using locs data.
  intros Hc Ho [L4 L6] Hl. destruct locs as [[? ?] [? ?] [[U1 U2] ?] _ (_ & A1 & A2 & _)].
  split; [|eapply (list_at_outside m m' c 1); [by destruct Hc; subst c|done|done]].
  split; [rewrite <- L4|rewrite <- L6]; apply load16_ext; (apply Ho; [unfold user_addr; lia|destruct Hc; subst c; lia]).
Qed.

Lemma next_sides v s a b p : between v s a b p → side_ok a → side_ok b →
  sat (eof0 ← next_char fd0 c0 (s_eof a); eof1 ← next_char fd1 c1 (s_eof b); mret (eof0, eof1)) s
    (λ r s', r = (s_eof (side_next a), s_eof (side_next b)) ∧ between v s' (side_next a) (side_next b) p).
Proof using Hfds locs data spec.
  intros [B1 B2 B3 B4 B5] Ha Hb. pose proof locs as [[U0 _] [U1 _] _ _ (Hne & _)].
  eapply sat_bind; [apply (next_char_ok s _ fd0 c0 a B1 (world_fd0 _ _ _ _) B2 Ha U0)|].
  intros e0 s1 (-> & S1 & C1 & O1). rewrite world_set0 in S1. destruct (char_kept _ _ c0 p (or_introl eq_refl) O1 B4 B5) as [L1 P1].
  assert (mget (umem s1) c1 = s_char b) as B3' by (rewrite O1; [done|unfold user_addr; destruct U1; lia|lia]).
  eapply sat_bind; [apply (next_char_ok s1 _ fd1 c1 b S1 (world_fd1 _ _ _ _) B3' Hb U1)|].
  intros e1 s2 (-> & S2 & C2 & O2). rewrite world_set1 in S2. destruct (char_kept _ _ c1 p (or_intror eq_refl) O2 L1 P1) as [L2 P2].
  apply sat_ret. split; [done|]. split; try done. rewrite O2; [done|unfold user_addr; destruct U0; lia|lia].
Qed.
Lemma end_sides v s a b p : between v s a b p → side_ok a → side_ok b →
  sat (_ ← end_of_row fd0 c0 (s_eof a); end_of_row fd1 c1 (s_eof b)) s
    (λ _ s', between v s' (side_end a) (side_end b) p).
Proof using Hfds Hfd0 Hfd1 locs data spec.
  intros [B1 B2 B3 B4 B5] Ha Hb. pose proof locs as [[U0 _] [U1 _] _ _ (Hne & _)].
  eapply sat_bind; [apply (end_of_row_ok s _ fd0 c0 a B1 (world_fd0 _ _ _ _) Hfd0 Ha U0)|].
  intros e0 s1 (S1 & C1 & O1). rewrite world_set0 in S1. destruct (char_kept _ _ c0 p (or_introl eq_refl) O1 B4 B5) as [L1 P1].
  assert (mget (umem s1) c1 = s_char b) as B3' by (rewrite O1; [done|unfold user_addr; destruct U1; lia|lia]).
  eapply sat_mono; [apply (end_of_row_ok s1 _ fd1 c1 b S1 (world_fd1 _ _ _ _) Hfd1 Hb U1)|].
  intros ? s2 (S2 & C2 & O2). rewrite world_set1 in S2. destruct (char_kept _ _ c1 p (or_intror eq_refl) O2 L1 P1) as [L2 P2].
  split; try done. rewrite O2; [done|unfold user_addr; destruct U0; lia|lia].
Qed.

Lemma draw_spot_ok v s a b p row col : between v s a b p → side_ok a → side_ok b → 0 ≤ row * 80 + col →
  row * 80 + col + 40 < 65536 →
  sat (draw_spot head arr vptr bs tmp row col (s_char a) (s_char b)) s
    (λ _ s', between v s' a b (add_all (spot row col (cell_of (s_char a)) (cell_of (s_char b))) p)).
Proof using locs data spec vid.
  intros [B1 B2 B3 [L4 L6] B5] (_ & _ & Wa) (_ & _ & Wb) Hl Hh. unfold draw_spot, spot.
  assert (∀ x, shown_char (cell_of x) = if x =? 10 then 32 else x) as Ex by (intros x; unfold cell_of; by destruct (x =? 10)).
  rewrite !Ex. set (x0 := if s_char a =? 10 then 32 else s_char a). set (x1 := if s_char b =? 10 then 32 else s_char b).
  assert ((negb (s_char a =? 32) && negb (s_char a =? 10) || negb (s_char b =? 32) && negb (s_char b =? 10)) =
    negb ((x0 =? 32) && (x1 =? 32))) as ->.
  { unfold x0, x1. destruct (Z.eqb_spec (s_char a) 10) as [->|], (Z.eqb_spec (s_char b) 10) as [->|]; try done;
      by destruct (s_char a =? 32), (s_char b =? 32). }
  destruct ((x0 =? 32) && (x1 =? 32)); cbn [negb]; [by apply sat_ret|].
  pose proof locs as [[U0 _] [U1 _] [[U2 U3] Ob] [Ut Ot] (_ & A1 & A2 & A3 & A4 & A5)].
  assert (word8 x0) as W0 by (unfold x0; case_match; lia). assert (word8 x1) as W1 by (unfold x1; case_match; lia).
  unfold ON_CHAR, OFF_CHAR, LOCATION. rewrite Z.add_0_r.
  eapply sat_bind; [apply (poke_ok (λ _, 0) s _ (bs + 2) x0 B1); unfold user_addr; lia|]. intros _ s1 [S1 E1].
  eapply sat_bind; [apply (poke_ok (λ _, 0) s1 _ (bs + 3) x1 S1); unfold user_addr; lia|]. intros _ s2 [S2 E2].
  eapply sat_bind; [apply (poke16_ok s2 _ bs _ S2); split; lia|]. intros _ s3 [S3 E3].
  assert (∀ y, ¬ bs ≤ y < bs + 4 → mget (umem s3) y = mget (umem s) y) as F.
  { intros y Hy. rewrite E3, frame_store16, E2, mget_mset_ne, E1, mget_mset_ne by lia. done. }
  assert (get_blink (umem s3) bs = Bl (row * 80 + col + 40) x0 x1 15 15 (load16 (umem s3) (bs + 8)) (load16 (umem s3) (bs + 10))) as Eb.
  { unfold get_blink. f_equal.
    - rewrite E3, load16_store16. apply u16_small. lia.
    - rewrite E3, frame_store16, E2, mget_mset_ne, E1, mget_mset_eq by lia. by apply u8_small.
    - rewrite E3, frame_store16, E2, mget_mset_eq by lia. by apply u8_small.
    - rewrite <- L4. apply load16_ext; apply F; lia.
    - rewrite <- L6. apply load16_ext; apply F; lia. }
  assert (list_at (umem s3) p) as P3.
  { apply (list_at_outside (umem s) _ bs 16); [done| |done]. intros y _ Hy. apply F. lia. }
  eapply sat_bind; [apply (ioctl_add_ok s3 _ p tmp bs S3 P3 Ot Ut); [lia|rewrite Eb; cbn [location]; lia]|].
  rewrite Eb. rewrite <- a_add_started. unfold started. cbn [location on_char off_char on_length off_length countdown].
  intros r s4 (ds & Ed & S4 & P4 & F4). apply sat_ret.
  assert (∀ y, user_addr y → off y 1 → (y + 1 ≤ tmp ∨ tmp + 16 ≤ y) → mget (umem s4) y = mget (umem s3) y) as F4'.
  { intros y Hy (O1 & O2 & _) Hyt. apply F4; [done|lia..]. }
  destruct locs as [[_ O0] [_ O1] _ _ _].
  cbn [add_all foldl]. split.
  - unfold world in *. rewrite Ed, v_paint_app. exact S4.
  - rewrite F4', F; [done|lia|unfold user_addr; destruct U0; lia|done|lia].
  - rewrite F4', F; [done|lia|unfold user_addr; destruct U1; lia|done|lia].
  - assert (∀ y, bs + 4 ≤ y < bs + 8 → mget (umem s4) y = mget (umem s) y) as F8.
    { intros y Hy. destruct Ob as (O1' & O2' & O3' & O4'). rewrite F4', F; [done|lia|unfold user_addr; lia|unfold off_list; lia|lia]. }
    split; [rewrite <- L4|rewrite <- L6]; apply load16_ext; apply F8; lia.
  - exact P4.
Qed.

Lemma row_loop fuel : ∀ row col v s a b p r, between v s a b p → side_ok a → side_ok b →
  row_steps fuel row col a b p = Some r → 0 ≤ row * 80 + col → row * 80 + col + Z.of_nat fuel + 40 < 65536 →
  let '(a', b', p') := r in
  sat (frame_row head arr vptr fuel fd0 fd1 c0 c1 bs tmp row col (s_eof a) (s_eof b)) s
    (λ e s', e = (s_eof a', s_eof b') ∧ between v s' a' b' p' ∧ side_ok a' ∧ side_ok b').
Proof using Hfds locs data spec vid.
  induction fuel as [|fuel IH]; intros row col v s a b p [[a' b'] p'] Hbt Ha Hb E Hl Hh; [done|].
  cbn [row_steps] in E. cbn [frame_row].
  destruct (next_sides v s a b p Hbt Ha Hb) as (e & s2 & E2 & -> & Hbt2).
  pose proof (side_next_ok a Ha) as Ha2. pose proof (side_next_ok b Hb) as Hb2.
  set (a2 := side_next a) in *. set (b2 := side_next b) in *.
  assert (∀ {B} (f : Z → Z → user S B) Q, sat (f (s_eof a2) (s_eof b2)) s2 Q →
    sat (eof0 ← next_char fd0 c0 (s_eof a); eof1 ← next_char fd1 c1 (s_eof b); f eof0 eof1) s Q) as Hstep.
  { intros B f Q (x & s' & Ef & HQ). exists x, s'. split; [|done]. unfold mbind, user_bind, mret, user_ret in E2 |- *.
    destruct (next_char fd0 c0 (s_eof a) s) as [[e0 s0]|]; [|done].
    destruct (next_char fd1 c1 (s_eof b) s0) as [[e1 s1]|]; [|done]. apply some_inv, pair_inv in E2 as [E3 ->].
    apply pair_inv in E3 as [-> ->]. exact Ef. }
  apply (Hstep _ (λ eof0 eof1, _)). clear Hstep E2.
  apply sat_bind with (λ x s', x = s_char a2 ∧ s' = s2); [eexists _, s2; split; [reflexivity|]; by rewrite (bt_c0 _ _ _ _ _ Hbt2)|]. intros x s' [-> ->].
  apply sat_bind with (λ x s', x = s_char b2 ∧ s' = s2); [eexists _, s2; split; [reflexivity|]; by rewrite (bt_c1 _ _ _ _ _ Hbt2)|]. intros x s' [-> ->].
  destruct ((s_char a2 =? 10) && (s_char b2 =? 10)).
  { apply some_inv, pair_inv in E as [E <-]. apply pair_inv in E as [<- <-]. by apply sat_ret. }
  eapply sat_bind; [apply (draw_spot_ok v s2 a2 b2 p row col); [done|done|done|lia|lia]|]. intros ? s3 Hbt3.
  apply (IH row (col + 1) v s3 a2 b2 _ (a', b', p') Hbt3 Ha2 Hb2 E); lia.
Qed.

Lemma rows_loop rows fuel : ∀ row v s a b p r, between v s a b p → side_ok a → side_ok b →
  rows_steps rows fuel row a b p = Some r → 0 ≤ row → (row + Z.of_nat rows) * 80 + Z.of_nat fuel + 40 < 65536 →
  let '(a', b', p') := r in
  sat (frame_rows head arr vptr rows fuel fd0 fd1 c0 c1 bs tmp row (s_eof a) (s_eof b)) s
    (λ _ s', between v s' a' b' p').
Proof using Hfds Hfd0 Hfd1 locs data spec vid.
  induction rows as [|rows IH]; intros row v s a b p [[a' b'] p'] Hbt Ha Hb E Hl Hh; [done|].
  cbn [rows_steps] in E. cbn [frame_rows]. destruct ((s_eof a =? 0) || (s_eof b =? 0)).
  2:{ apply some_inv, pair_inv in E as [E <-]. apply pair_inv in E as [<- <-]. by apply sat_ret. }
  destruct (row_steps fuel row 0 a b p) as [[[a1 b1] p1]|] eqn:Er; [|done]. cbn [mbind option_bind] in E.
  eapply sat_bind; [apply (row_loop fuel row 0 v s a b p _ Hbt Ha Hb Er); lia|].
  intros e s1 (-> & Hbt1 & Ha1 & Hb1). cbn iota beta.
  destruct (end_sides v s1 a1 b1 p1 Hbt1 Ha1 Hb1) as (u & s2 & E2 & Hbt2).
  assert (∀ {B} (m : user S B) Q, sat m s2 Q →
    sat (_ ← end_of_row fd0 c0 (s_eof a1); _ ← end_of_row fd1 c1 (s_eof b1); m) s1 Q) as Hstep.
  { intros B m Q (x & s' & Ef & HQ). exists x, s'. split; [|done]. unfold mbind, user_bind in E2 |- *.
    destruct (end_of_row fd0 c0 (s_eof a1) s1) as [[u0 s0]|]; [|done]. by rewrite E2. }
  apply Hstep. assert (∀ a, s_eof (side_end a) = s_eof a) as Ee by (intros a0; unfold side_end; by destruct (s_eof a0 =? 0)).
  rewrite <- (Ee a1), <- (Ee b1).
  apply (IH (row + 1) v s2 _ _ p1 (a', b', p') Hbt2 (side_end_ok _ Ha1) (side_end_ok _ Hb1) E); lia.
Qed.
End loops.

(** ** [add_frames] *)

(** What is seen and the list of blinks, as [p] says. *)
Definition at_pond v s p : Prop := sees s (v_paint (p_drawn p) v) ∧ list_at (umem s) p.

Lemma at_pond_step v s s' p a n : at_pond v s p → sees s' (v_paint (p_drawn p) v) → off a n →
  outside a n (umem s) (umem s') → at_pond v s' p.
Proof using data. intros [_ Hl] Hs Ho Hout. split; [done|]. by apply (list_at_outside (umem s) _ a n). Qed.

Lemma open_pair s v0 f0 f1 name0 name1 d0 d1 :
  sees s v0 → literal (λ _, f0) (umem s) name0 → literal (λ _, f1) (umem s) name1 →
  v_files v0 !! name0 = Some (Regular d0) → v_files v0 !! name1 = Some (Regular d1) →
  v_free v0 → (∀ fd st, v_free (v_set_fd fd (Some st) v0)) →
  ∃ fd0 fd1 s1 s2, ece391_open f0 s = Some (fd0, s1) ∧ ece391_open f1 s1 = Some (fd1, s2) ∧ fd0 ≠ fd1 ∧
    2 ≤ fd0 < FILE_ARRAY_LEN ∧ 2 ≤ fd1 < FILE_ARRAY_LEN ∧ v_fds v0 !! fd0 = None ∧ v_fds v0 !! fd1 = None ∧
    sees s2 (v_set_fd fd0 (Some (Bytes d0)) (v_set_fd fd1 (Some (Bytes d1)) v0)) ∧ user_same (umem s) (umem s2).
Proof using spec.
  intros Hs [C0 U0] L1 F0 F1 Hfree Hfree2.
  destruct (open_ok s v0 f0 name0 (Regular d0) Hs C0 U0 F0 Hfree) as (fd0 & s1 & E0 & v1 & (R0 & N0 & ->) & S1 & M1).
  destruct (literal_same (λ _, f1) _ _ _ M1 L1) as [C1 U1].
  destruct (open_ok s1 (v_set_fd fd0 (Some (Bytes d0)) v0) f1 name1 (Regular d1) S1 C1 U1 F1 (Hfree2 _ _)) as (fd1 & s2 & E1 & v2 & (R1 & N1 & ->) & S2 & M2).
  assert (fd0 ≠ fd1) as Hne by (intros ->; by rewrite v_set_lookup in N1).
  exists fd0, fd1, s1, s2. rewrite v_lookup_ne in N1 by done. cbn [opened_stream] in *.
  rewrite v_set_comm in S2 by congruence.
  repeat (split; [assumption|]). by eapply user_same_trans.
Qed.

(** The places of the two frames' characters. *)
Definition frame_spots (d0 d1 : list Z) : list blink := frames 0 (split_lines d0) (split_lines d1).
Record frame_text (rows fuel : nat) (d : list Z) : Prop := {
  ft_bytes : Forall (λ c, word8 c) d;
  ft_rows : (length (split_lines d) < rows)%nat;
  ft_lines : Forall (λ l, length l < fuel)%nat (split_lines d) }.
Lemma frame_text_side rows fuel d : frame_text rows fuel d →
  file_side (split_lines d) = Side d 48 0 true ∧ side_ok (Side d 48 0 true) ∧ lines_ok fuel (split_lines d).
Proof using.
  intros [H1 H2 H3]. split; [|split].
  - destruct (split_lines_snoc d) as (ls & f & E). unfold file_side. rewrite join_split, E. by destruct ls.
  - split; [done|]. split; [done|]. cbn [s_char]. lia.
  - pose proof (split_lines_no_newline d) as Hn. apply Forall_and. by split.
Qed.

Lemma add_frames_ok rows fuel s v p f0 f1 name0 name1 d0 d1 c0 c1 bs tmp :
  frame_locals c0 c1 bs tmp → at_pond v s p →
  Forall (λ r, apart (λ _, f0) name0 r.1 r.2 ∧ apart (λ _, f1) name1 r.1 r.2) [(c0, 1); (c1, 1); (bs, 16)] →
  literal (λ _, f0) (umem s) name0 → literal (λ _, f1) (umem s) name1 →
  v_files v !! name0 = Some (Regular d0) → v_files v !! name1 = Some (Regular d1) →
  v_free v → (∀ fd st, v_free (v_set_fd fd (Some st) v)) →
  frame_text rows fuel d0 → frame_text rows fuel d1 → (0 < fuel)%nat → Z.of_nat rows * 80 + Z.of_nat fuel + 40 < 65536 →
  sat (add_frames head arr vptr rows fuel f0 f1 c0 c1 bs tmp) s (λ r s', r = None ∧ at_pond v s' (add_all (frame_spots d0 d1) p)).
Proof using data spec vid.
  intros locs Hp Hap L0 L1 F0 F1 Hfree Hfree2 T0 T1 Hfuel Hb. unfold add_frames, ON_LENGTH, OFF_LENGTH.
  rewrite !Forall_cons in Hap. destruct Hap as ((A00 & A10) & (A01 & A11) & (A02 & A12) & _). cbn [fst snd] in *.
  pose proof locs as [[[U01 U02] O0] [[U11 U12] O1] [[U21 U22] O2] _ (Hne & N1 & N2 & _)].
  pose proof Hp as [Hs Hl].
  eapply sat_bind; [apply (poke_ok (λ _, 0) s _ c0 48 Hs); unfold user_addr; lia|]. intros _ s1 [S1 E1].
  eapply sat_bind; [apply (poke_ok (λ _, 0) s1 _ c1 48 S1); unfold user_addr; lia|]. intros _ s2 [S2 E2].
  eapply sat_bind; [apply (poke16_ok s2 _ (bs + 4) 15 S2); split; lia|]. intros _ s3 [S3 E3].
  eapply sat_bind; [apply (poke16_ok s3 _ (bs + 6) 15 S3); split; lia|]. intros _ s4 [S4 E4].
  assert (outside c0 1 (umem s) (umem s1)) as W1 by (rewrite E1; intros y _ Hy; apply mget_mset_ne; lia).
  assert (outside c1 1 (umem s1) (umem s2)) as W2 by (rewrite E2; intros y _ Hy; apply mget_mset_ne; lia).
  assert (outside bs 16 (umem s2) (umem s4)) as W3.
  { intros y _ Hy. rewrite E4, frame_store16, E3, frame_store16 by lia. done. }
  assert (at_pond v s4 p) as P4.
  { apply (at_pond_step v s2 s4 p bs 16); [|done..]. apply (at_pond_step v s1 s2 p c1 1); [|done..].
    by apply (at_pond_step v s s1 p c0 1). }
  assert (literal (λ _, f0) (umem s4) name0) as L04.
  { eapply (literal_outside (λ _, f0)); [exact W3|done|]. eapply (literal_outside (λ _, f0)); [exact W2|done|].
    by eapply (literal_outside (λ _, f0)). }
  assert (literal (λ _, f1) (umem s4) name1) as L14.
  { eapply (literal_outside (λ _, f1)); [exact W3|done|]. eapply (literal_outside (λ _, f1)); [exact W2|done|].
    by eapply (literal_outside (λ _, f1)). }
  destruct (open_pair s4 _ f0 f1 name0 name1 d0 d1 (proj1 P4) L04 L14 F0 F1) as
    (fd0 & fd1 & s5 & s6 & Eo0 & Eo1 & Hfds & R0 & R1 & V0 & V1 & S6 & M6); [done|exact Hfree2|].
  apply sat_bind with (λ r s', r = fd0 ∧ s' = s5); [by eexists _, _|]. intros r s' [-> ->].
  rewrite (proj2 (Z.ltb_ge fd0 0)) by lia.
  apply sat_bind with (λ r s', r = fd1 ∧ s' = s6); [by eexists _, _|]. intros r s' [-> ->].
  rewrite (proj2 (Z.ltb_ge fd1 0)) by lia.
  destruct (frame_text_side _ _ _ T0) as (X0 & K0 & Y0). destruct (frame_text_side _ _ _ T1) as (X1 & K1 & Y1).
  pose proof (rows_steps_ok rows fuel 0 _ _ p Y0 Y1 Hfuel (ft_rows _ _ _ T0) (ft_rows _ _ _ T1)) as Er. rewrite X0, X1 in Er.
  assert (∀ y, user_addr y → mget (umem s6) y = mget (umem s4) y) as M by exact M6.
  assert (between c0 c1 bs fd0 fd1 v s6 (Side d0 48 0 true) (Side d1 48 0 true) p) as Hbt.
  { split; cbn [s_char].
    - exact S6.
    - rewrite M by (unfold user_addr; lia). rewrite E4, frame_store16, E3, frame_store16, E2, mget_mset_ne, E1 by lia. apply mget_mset_eq.
    - rewrite M by (unfold user_addr; lia). rewrite E4, frame_store16, E3, frame_store16, E2 by lia. apply mget_mset_eq.
    - split; (etransitivity; [apply load16_ext; apply M; unfold user_addr; lia|]); rewrite E4.
      + by rewrite load16_store16_out, E3, load16_store16 by lia.
      + by rewrite load16_store16.
    - by apply (list_at_same (umem s4)), P4. }
  eapply sat_bind; [apply (rows_loop c0 c1 bs tmp locs fd0 fd1 Hfds R0 R1 rows fuel 0 v s6 _ _ p _ Hbt K0 K1 Er); lia|].
  intros ? s7 [B1 _ _ _ B5]. apply sat_ret. split; [done|]. split; [|exact B5].
  unfold world, side_stream in B1. cbn [file_side s_open] in B1. rewrite !v_set_same in B1; [exact B1|exact V1|].
  rewrite v_lookup_ne by congruence. exact V0.
Qed.

(** ** [main] *)

(** Memory changed in the static variables and on the screen only. *)
Lemma change_at_pond v s p p' m ds :
  at_pond v s p → list_at m p' → p_drawn p' = p_drawn p ++ ds → Forall (λ d, 0 ≤ d.1 < 2000) ds →
  (∀ a, ¬ user_addr a → mget m a = mget (drawn base ds (umem s)) a) → at_pond v (set_umem m s) p'.
Proof using spec vid.
  intros [Hs _] Hl Ed Hd Hm. destruct (set_mem_sees s _ m ds Hs Hd Hm) as [Hs' Em].
  split; [by rewrite Ed, v_paint_app|by rewrite Em].
Qed.
Lemma list_length m ss p : blink_list head arr vptr base m ss → blinks m ss = p_blinks p → (length ss < LIST_FUEL)%nat.
Proof using.
  intros Hbl Eb. pose proof (list_at_length m p (ex_intro _ ss (conj Hbl Eb))) as Hl. rewrite <- Eb in Hl.
  unfold blinks in Hl. rewrite length_fmap in Hl. unfold LIST_FUEL, CELLS. lia.
Qed.
Lemma out_of_user a : ¬ user_addr a → ¬ arr ≤ a < arr + 32000 ∧ ¬ head ≤ a < head + 4.
Proof using data. intros Ha. destruct data as [_ Ua Uh _ _]. split; intros Hr; apply Ha; eauto using in_user_addr. Qed.

Lemma rtc_tasklet_ok v s p : at_pond v s p →
  sat (rtc_tasklet head vptr) s (λ _ s', at_pond v s' (a_tick p)).
Proof using data spec vid.
  intros Hp. destruct (proj2 Hp) as (ss & Hbl & Eb). pose proof (fd_placed data) as Hpl.
  destruct (tasklet_ok head arr vptr base (umem s) ss LIST_FUEL Hpl Hbl (list_length _ _ _ Hbl Eb)) as (m' & E & Hbl' & Et & Hm).
  rewrite Eb in *. exists (), (set_umem m' s). split; [unfold rtc_tasklet, on_mem; by rewrite E|].
  apply (change_at_pond v s p _ m' (concat (redraw <$> p_blinks p)) Hp); [by exists ss|done| |].
  - rewrite <- Eb. eapply (redraws_cells arr). intros q Hq. destruct (bl_used _ _ _ _ _ _ Hbl q Hq). split; [done|lia].
  - intros a Ha. apply Hm. by apply out_of_user.
Qed.
Lemma wait_loop_ok n v s p rtc_fd garbage : at_pond v s p → v_fds v !! rtc_fd = Some Clock →
  sat (wait_loop head vptr n rtc_fd garbage) s (λ _ s', at_pond v s' (Nat.iter n a_tick p)).
Proof using data spec vid.
  revert s p. induction n as [|n IH]; intros s p Hp Hc; [by apply sat_ret|]. cbn [wait_loop].
  eapply sat_bind; [by apply (read_clock_ok s _ rtc_fd garbage 4 (proj1 Hp))|]. intros r s1 (v1 & (_ & ->) & S1 & M1).
  assert (at_pond v s1 p) as P1 by (split; [done|]; by eapply list_at_same, Hp).
  eapply sat_bind; [by apply (rtc_tasklet_ok v s1 p)|]. intros ? s2 P2.
  rewrite Nat.iter_succ_r. by apply IH.
Qed.

(** The jump through [call_table]. *)
Lemma ioctl_sync fuel tmp arg m : mp1_ioctl head arr vptr fuel tmp arg RTC_SYNC m = mp1_ioctl_sync head vptr fuel arg m.
Proof using. reflexivity. Qed.
Lemma ioctl_remove fuel tmp arg m : mp1_ioctl head arr vptr fuel tmp arg RTC_REMOVE m = mp1_ioctl_remove head fuel arg m.
Proof using. reflexivity. Qed.
Lemma ioctl_sync_ok v s p tmp arg : at_pond v s p →
  sat (ioctl head arr vptr tmp arg RTC_SYNC) s (λ _ s', at_pond v s' (a_sync (u16 (Z.shiftr arg 16)) (u16 (Z.land arg 0xFFFF)) p)).
Proof using data spec vid.
  intros Hp. destruct (proj2 Hp) as (ss & Hbl & Eb). pose proof (fd_placed data) as Hpl.
  pose proof (mp1_ioctl_sync_ok head arr vptr base arg (umem s) ss LIST_FUEL Hpl Hbl (list_length _ _ _ Hbl Eb)) as Hsync.
  assert (∀ r m, mp1_ioctl_sync head vptr LIST_FUEL arg (umem s) = Some (r, m) →
    ioctl head arr vptr tmp arg RTC_SYNC s = Some (r, set_umem m s)) as Hrun by (intros r m E; unfold ioctl; by rewrite ioctl_sync, E).
  assert (at_pond v (set_umem (umem s) s) p) as Hsame.
  { apply (change_at_pond v s p p (umem s) []); [done|apply Hp|by rewrite app_nil_r|constructor|done]. }
  rewrite Eb in Hsync. unfold a_sync. destruct (find_cell (u16 (Z.shiftr arg 16)) (p_blinks p)) as [[i a]|].
  2:{ eexists _, _. split; [by apply Hrun|exact Hsame]. }
  destruct (find_cell (u16 (Z.land arg 0xFFFF)) (p_blinks p)) as [[j b]|] eqn:Ef.
  2:{ eexists _, _. split; [by apply Hrun|exact Hsame]. }
  destruct Hsync as (m' & E & Hbl' & Ebs & Hm). eexists _, _. split; [by apply Hrun|].
  apply (change_at_pond v s p _ m' [(location b, off_char b)] Hp); [by exists ss|done| |].
  - rewrite <- Eb in Ef. destruct (find_cell_slot _ _ _ _ _ Ef) as (q & _ & _ & Eq & Hq).
    destruct (bl_used _ _ _ _ _ _ Hbl q Hq) as [_ Hl]. apply Forall_singleton. cbn [fst]. rewrite <- Eq. cbn [location get_blink]. lia.
  - intros x Hx. apply Hm. by apply out_of_user.
Qed.
Lemma ioctl_remove_ok v s p tmp arg : at_pond v s p →
  sat (ioctl head arr vptr tmp arg RTC_REMOVE) s (λ _ s', at_pond v s' (a_remove (u16 arg) p)).
Proof using data spec vid.
  intros Hp. destruct (proj2 Hp) as (ss & Hbl & Eb). pose proof (fd_placed data) as Hpl.
  pose proof (mp1_ioctl_remove_ok head arr vptr base arg (umem s) ss LIST_FUEL Hpl Hbl (list_length _ _ _ Hbl Eb)) as Hrem.
  assert (∀ r m, mp1_ioctl_remove head LIST_FUEL arg (umem s) = Some (r, m) →
    ioctl head arr vptr tmp arg RTC_REMOVE s = Some (r, set_umem m s)) as Hrun by (intros r m E; unfold ioctl; by rewrite ioctl_remove, E).
  rewrite Eb in Hrem. unfold a_remove. destruct (find_cell (u16 arg) (p_blinks p)) as [[i b]|].
  2:{ eexists _, _. split; [by apply Hrun|]. apply (change_at_pond v s p p (umem s) []); [done|apply Hp|by rewrite app_nil_r|constructor|done]. }
  destruct Hrem as (m' & E & Hbl' & Ebs & Hm). eexists _, _. split; [by apply Hrun|].
  apply (change_at_pond v s p _ m' [] Hp); [by exists (delete i ss)|by rewrite app_nil_r|constructor|].
  intros x Hx. apply Hm; by apply out_of_user.
Qed.

(** A store into the locals of [main]. *)
Lemma local_at_pond v s s' p a n m : at_pond v s p → off a n → in_user a n → frame a (a + n) (umem s) m →
  s' = set_umem m s → at_pond v s' p.
Proof using data spec.
  intros Hp Ho [U1 U2] Hf ->. apply (at_pond_step v s _ p a n Hp); [|done|].
  - apply sees_set; [apply Hp|]. intros b Hb. apply Hf. unfold user_addr in Hb. lia.
  - rewrite umem_set. intros b _ Hb. by apply Hf.
Qed.

(** The second kind of blink, put into [blink_struct] field by field. *)
Definition own_blink : blink := started (Bl 540 73 77 7 6 0 0).
Lemma own_blink_ok v s p blink_struct tmp :
  at_pond v s p → in_user blink_struct 16 → off blink_struct 16 → in_user tmp 16 → off tmp 16 →
  tmp + 16 ≤ blink_struct ∨ blink_struct + 16 ≤ tmp →
  sat (add_own head arr vptr blink_struct tmp) s (λ _ s', at_pond v s' (a_add own_blink p)).
Proof using data spec vid.
  intros Hp [U1 U2] Ob Ut Ot Hd. set (b := blink_struct) in *. unfold add_own, ON_CHAR, OFF_CHAR, ON_LENGTH, OFF_LENGTH, LOCATION. rewrite Z.add_0_r.
  eapply sat_bind; [apply (poke_ok (λ _, 0) s _ (b + 2) 73 (proj1 Hp)); unfold user_addr; lia|]. intros _ s1 [S1 E1].
  eapply sat_bind; [apply (poke_ok (λ _, 0) s1 _ (b + 3) 77 S1); unfold user_addr; lia|]. intros _ s2 [S2 E2].
  eapply sat_bind; [apply (poke16_ok s2 _ (b + 4) _ S2); split; lia|]. intros _ s3 [S3 E3].
  eapply sat_bind; [apply (poke16_ok s3 _ (b + 6) _ S3); split; lia|]. intros _ s4 [S4 E4].
  eapply sat_bind; [apply (poke16_ok s4 _ b _ S4); split; lia|]. intros _ s5 [S5 E5].
  assert (at_pond v s5 p) as P5.
  { apply (at_pond_step v s s5 p b 16); [done..|]. intros y _ Hy.
    rewrite E5, frame_store16, E4, frame_store16, E3, frame_store16, E2, mget_mset_ne, E1, mget_mset_ne by lia. done. }
  assert (started (get_blink (umem s5) b) = own_blink) as Eb.
  { unfold get_blink, started, own_blink. cbn [location on_char off_char on_length off_length].
    assert (load16 (umem s5) b = 540) as -> by (rewrite E5; apply load16_store16).
    assert (mget (umem s5) (b + 2) = 73) as ->.
    { rewrite E5, frame_store16, E4, frame_store16, E3, frame_store16, E2, mget_mset_ne, E1 by lia. apply mget_mset_eq. }
    assert (mget (umem s5) (b + 3) = 77) as ->.
    { rewrite E5, frame_store16, E4, frame_store16, E3, frame_store16, E2 by lia. apply mget_mset_eq. }
    assert (load16 (umem s5) (b + 4) = 7) as -> by (rewrite E5, load16_store16_out, E4, load16_store16_out, E3 by lia; apply load16_store16).
    by assert (load16 (umem s5) (b + 6) = 6) as -> by (rewrite E5, load16_store16_out, E4 by lia; apply load16_store16). }
  eapply sat_mono; [apply (ioctl_add_ok s5 _ p tmp b (proj1 P5) (proj2 P5) Ot Ut Hd)|].
  - change (location (get_blink (umem s5) b)) with (location (started (get_blink (umem s5) b))). rewrite Eb. cbn. lia.
  - rewrite <- a_add_started, Eb. intros r s6 (ds & Ed & S6 & P6 & _). split; [|done]. rewrite Ed, v_paint_app. exact S6.
Qed.

(** The array is cleared and the screen mapped: the list is empty. *)
Lemma start_ok s v : sees s v → load32 (umem s) head = 0 → base ≠ 0 →
  sat (_ ← on_mem (λ m, Some (ece391_memset m arr 0 (STRUCT_SIZE * 80 * 25))); mp1_set_video_mode vptr) s
    (λ r s', r = base ∧ at_pond v s' (Pond [] []) ∧
      ∀ a, user_addr a → ¬ arr ≤ a < arr + 32000 → ¬ vptr ≤ a < vptr + 4 → mget (umem s') a = mget (umem s) a).
Proof using data spec vid.
  intros Hs Hh Hb. pose proof data as [Hpl [A1 A2] [H1 H2] [V1 V2] _]. pose proof Hpl as [[P1 P2] [_ P3] P4 P5 [P6 P7] _].
  destruct (ece391_memset_ok (umem s) arr 0 (STRUCT_SIZE * 80 * 25)) as [F Z]; [unfold STRUCT_SIZE; lia|].
  change (STRUCT_SIZE * 80 * 25) with 32000 in *. cbv zeta in F, Z. set (m1 := ece391_memset (umem s) arr 0 32000) in *.
  apply sat_bind with (λ _ s', s' = set_umem m1 s); [by eexists _, _|]. intros _ s1 ->.
  assert (sees (set_umem m1 s) v) as S1.
  { apply sees_set; [done|]. intros a Ha. apply F. unfold user_addr in Ha. lia. }
  assert (umem (set_umem m1 s) = m1) as E1 by apply umem_set. clearbody m1.
  unfold mp1_set_video_mode. eapply sat_bind; [apply (vidmap_ok _ v vptr S1); split; lia|].
  intros r s2 (v2 & (-> & ->) & S2 & M2). rewrite E1 in M2. rewrite (proj2 (Z.eqb_neq base (-1))) by lia.
  assert (load32 (umem s2) vptr = base) as Ev.
  { transitivity (load32 (store32 m1 vptr base) vptr); [apply load32_ext; intros i Hi; apply M2; unfold user_addr; lia|].
    rewrite load32_store32. apply u32_small. lia. }
  eexists _, s2. split; [reflexivity|]. split; [done|].
  assert (∀ a, user_addr a → ¬ vptr ≤ a < vptr + 4 → mget (umem s2) a = mget m1 a) as K.
  { intros a Ha Hn. rewrite M2 by done. by apply frame_store32. }
  split; [|intros a Ha N1 N2; rewrite K by done; apply F; lia].
  split; [by rewrite v_paint_nil|]. exists []. split; [|done]. split; [|constructor| |intros p (i & Hi & ->) _|done].
  - cbn [chain]. rewrite <- Hh. apply load32_ext. intros i Hi. rewrite K by (unfold user_addr; lia). apply F. lia.
  - intros p Hp. by apply not_elem_of_nil in Hp.
  - unfold load16. rewrite !K by (unfold user_addr; lia). rewrite <- Z.add_assoc, !Z by lia. reflexivity.
Qed.

(** The way of the blinks once the frames are there. *)
Definition animated (p : pond) : pond :=
  let wait := Nat.iter (Z.to_nat WAIT) a_tick in
  Nat.iter CELLS a_tick (a_remove 200 (wait (a_sync 40 540 (wait (a_add own_blink (wait p)))))).
Lemma animate_ok v s p rtc_fd ret_val garbage blink_struct tmp :
  at_pond v s p → v_fds v !! rtc_fd = Some Clock →
  in_user ret_val 4 → off ret_val 4 → in_user blink_struct 16 → off blink_struct 16 → in_user tmp 16 → off tmp 16 →
  tmp + 16 ≤ blink_struct ∨ blink_struct + 16 ≤ tmp →
  sat (animate head arr vptr rtc_fd ret_val garbage blink_struct tmp) s (λ r s', r = 0 ∧
    sees s' (v_set_fd rtc_fd None (v_paint (p_drawn (animated p)) v))).
Proof using data spec vid.
  intros P Hclk Ur Or Us Os Ut Ot Ds. unfold animate, animated. generalize (Z.to_nat WAIT) as wait. intros wait.
  assert (∀ s0 p0 x, at_pond v s0 p0 → sat (on_mem (λ m, Some (store32 m ret_val x))) s0 (λ _ s', at_pond v s' p0)) as Hret.
  { intros s0 p0 x P0. eexists _, _. split; [reflexivity|]. eapply (local_at_pond v s0 _ p0 ret_val 4); [done..|apply frame_store32|reflexivity]. }
  eapply sat_bind; [by apply Hret|]. intros ? s1 P1. cbv beta in P1.
  eapply sat_bind; [apply (write_clock_ok (sees := sees) s1 _ rtc_fd ret_val 4 (proj1 P1) Hclk)|]. intros r s2 (v2 & -> & S2 & M2).
  assert (at_pond v s2 p) as P2 by (split; [exact S2|]; eapply list_at_same; [exact M2|apply P1]).
  eapply sat_bind; [by apply Hret|]. intros ? s3 P3. cbv beta in P3.
  eapply sat_bind; [exact (wait_loop_ok wait v s3 _ rtc_fd garbage P3 Hclk)|]. intros ? s4 P4. cbv beta in P4.
  eapply sat_bind; [exact (own_blink_ok v s4 _ blink_struct tmp P4 Us Os Ut Ot Ds)|]. intros ? s5 P5. cbv beta in P5.
  eapply sat_bind; [exact (wait_loop_ok wait v s5 _ rtc_fd garbage P5 Hclk)|]. intros ? s6 P6. cbv beta in P6.
  eapply sat_bind; [exact (ioctl_sync_ok v s6 _ tmp _ P6)|]. intros ? s7 P7. cbv beta in P7.
  eapply sat_bind; [exact (wait_loop_ok wait v s7 _ rtc_fd garbage P7 Hclk)|]. intros ? s8 P8. cbv beta in P8.
  eapply sat_bind; [apply (poke16_ok s8 _ (blink_struct + LOCATION) 60 (proj1 P8)); destruct Us; unfold LOCATION; split; lia|]. intros ? s9 [S9 E9].
  assert (outside blink_struct 16 (umem s8) (umem s9)) as W9.
  { rewrite E9. intros y _ Hy. apply frame_store16. unfold LOCATION. lia. }
  pose proof (at_pond_step v s8 s9 _ blink_struct 16 P8 S9 Os W9) as P9.
  eapply sat_bind; [exact (ioctl_remove_ok v s9 _ tmp WAIT P9)|]. intros ? s10 P10. cbv beta in P10.
  eapply sat_bind; [exact (wait_loop_ok CELLS v s10 _ rtc_fd garbage P10 Hclk)|]. intros ? s11 [S11 _].
  eapply sat_bind; [exact (close_ok (sees := sees) s11 _ rtc_fd Clock S11 Hclk)|]. intros ? s12 (v12 & (_ & ->) & S12 & _).
  apply sat_ret. split; [reflexivity|].
  change (u16 (Z.shiftr (Z.lor (Z.shiftl 40 16) (6 * 80 + 60)) 16)) with 40 in S12.
  change (u16 (Z.land (Z.lor (Z.shiftl 40 16) (6 * 80 + 60)) 65535)) with 540 in S12. exact S12.
Qed.

(** The locals of [main], and the strings. *)
Record main_locals (lit : list Z → Z) (m : mem) (file0 file1 ret_val blink_struct c0 c1 bs tmp : Z) (name0 name1 : list Z) : Prop := {
  ml_frame : frame_locals c0 c1 bs tmp;
  ml_struct : in_user blink_struct 16 ∧ off blink_struct 16 ∧ (tmp + 16 ≤ blink_struct ∨ blink_struct + 16 ≤ tmp);
  ml_ret_val : in_user ret_val 4 ∧ off ret_val 4;
  ml_strings : literal lit m (chars "rtc") ∧ literal (λ _, file0) m name0 ∧ literal (λ _, file1) m name1;
  ml_rtc : apart lit (chars "rtc") arr 32000 ∧ apart lit (chars "rtc") vptr 4;
  ml_names : Forall (λ r, apart (λ _, file0) name0 r.1 r.2 ∧ apart (λ _, file1) name1 r.1 r.2)
    [(arr, 32000); (vptr, 4); (c0, 1); (c1, 1); (bs, 16)] }.

Lemma fish_ok lit rows fuel s v file0 file1 ret_val garbage blink_struct c0 c1 bs tmp name0 name1 d0 d1 :
  sees s v → load32 (umem s) head = 0 → base ≠ 0 →
  main_locals lit (umem s) file0 file1 ret_val blink_struct c0 c1 bs tmp name0 name1 →
  v_files v !! chars "rtc" = Some Device → v_files v !! name0 = Some (Regular d0) → v_files v !! name1 = Some (Regular d1) →
  v_free v → (∀ fd st, v_free (v_set_fd fd (Some st) v)) →
  (∀ fd st fd' st', v_free (v_set_fd fd (Some st) (v_set_fd fd' (Some st') v))) →
  frame_text rows fuel d0 → frame_text rows fuel d1 → (0 < fuel)%nat → Z.of_nat rows * 80 + Z.of_nat fuel + 40 < 65536 →
  sat (fish lit head arr vptr rows fuel file0 file1 ret_val garbage blink_struct c0 c1 bs tmp) s
    (λ r s', r = 0 ∧ sees s' (v_paint (p_drawn (animated (add_all (frame_spots d0 d1) (Pond [] [])))) v)).
Proof using data spec vid.
  intros Hs Hh Hb [Hloc (Us & Os & Ds) (Ur & Or) (L & L0 & L1) (Ap1 & Ap2) Hap] Frtc F0 F1 Fr1 Fr2 Fr3 T0 T1 Hfuel Hbound.
  apply Forall_cons in Hap as [[Aa0 Aa1] Hap]. apply Forall_cons in Hap as [[Av0 Av1] Hap]. cbn [fst snd] in Aa0, Aa1, Av0, Av1.
  destruct (start_ok s v Hs Hh Hb) as (r & s2 & E & -> & P2 & K2).
  assert (∀ lt l, literal lt (umem s) l → apart lt l arr 32000 → apart lt l vptr 4 → literal lt (umem s2) l) as Hlit.
  { intros lt l [Hc [X1 X2]] Y1 Y2. split; [|done]. apply (cstr_ext (umem s)); [|done]. unfold apart in Y1, Y2.
    intros i Hi. apply K2; [unfold user_addr; lia|lia|lia]. }
  unfold fish. assert (∀ {B} (f : Z → user S B) Q, sat (f base) s2 Q →
    sat (_ ← on_mem (λ m, Some (ece391_memset m arr 0 (STRUCT_SIZE * 80 * 25))); r ← mp1_set_video_mode vptr; f r) s Q) as Hstart.
  { intros B f Q (x & s' & Ef & HQ). exists x, s'. split; [|done]. unfold mbind, user_bind in E |- *.
    destruct (on_mem _ s) as [[u sx]|]; [|done]. by rewrite E. }
  apply Hstart. clear Hstart E. rewrite (proj2 (Z.eqb_neq base 0)) by done.
  destruct (Hlit lit _ L Ap1 Ap2) as [Cl Ul].
  eapply sat_bind; [apply (open_ok (sees := sees) s2 _ _ (chars "rtc") Device (proj1 P2) Cl Ul Frtc Fr1)|].
  intros rtc_fd s3 (v3 & (R3 & N3 & ->) & S3 & M3). set (w := v_set_fd rtc_fd (Some Clock) v).
  assert (at_pond w s3 (Pond [] [])) as P3 by (split; [exact S3|]; by eapply list_at_same, P2).
  assert (v_fds w !! rtc_fd = Some Clock) as Hclk by apply v_set_lookup.
  eapply sat_bind; [apply (add_frames_ok rows fuel s3 w (Pond [] []) file0 file1 name0 name1 d0 d1 c0 c1 bs tmp Hloc P3 Hap); try done|].
  { eapply literal_same; [exact M3|]. by apply Hlit. }
  { eapply literal_same; [exact M3|]. by apply Hlit. }
  { apply Fr2. }
  { intros fd st. apply Fr3. }
  intros halted s4 (-> & P4). destruct (fl_tmp _ _ _ _ Hloc) as [Ut Ot].
  pose proof (animate_ok w s4 _ rtc_fd ret_val garbage blink_struct tmp P4 Hclk Ur Or Us Os Ut Ot Ds) as Hend.
  revert Hend. generalize (animated (add_all (frame_spots d0 d1) (Pond [] []))). intros q Hend.
  eapply sat_mono; [exact Hend|]. intros r s5 [-> S5]. split; [reflexivity|]. unfold w in S5.
  change (v_paint (p_drawn q) (v_set_fd rtc_fd (Some Clock) v)) with (v_set_fd rtc_fd (Some Clock) (v_paint (p_drawn q) v)) in S5.
  rewrite v_set_set, v_set_same in S5; [exact S5|exact N3].
Qed.
End behaviour.
