(* ===== verification/UserTalk.v ===== *)
(** * ece391hello.c, ece391counter.c, ece391shell.c, ece391pingpong.c

    The programs that read the keyboard and the one that follows the clock,
    over the calls of UserSys.v.  [buf] is the array on the stack.  The shell's
    loop takes fuel; [pingpong] never ends and is cut after a number of
    rounds. *)
From Stdlib Require Import Ascii String.
From S2P Require Import Prelude CMem LibString Screen Format Process Paging Kernel SysCalls Exec UserLib.
From S2P Require Import UserSys UserProg.

Definition LINESIZE := 1024.
Definition SCREENWIDTH := 79.
Definition ENDING := 2.
Definition BUFMAX := SCREENWIDTH + ENDING.
Definition START := 1.
Definition STARTLOOP := START + 1.
Definition LOOPMAX := BUFMAX - ENDING - 1.
Definition STARTCHAR := 65.
Definition ENDCHAR := 90.

Section programs.
Context {S : Type} `{UserSys S} (lit : list Z → Z).

Definition hello (buf : Z) : user S Z :=
  _ ← put lit (chars "Hi, what's your name? ");
  cnt ← ece391_read 0 buf (LINESIZE - 1);
  if -1 =? cnt then _ ← puts_line lit "Can't read name from keyboard."; mret 3
  else
    _ ← poke (buf + cnt) 0;
    _ ← put lit (chars "Hello, ");
    _ ← ece391_fdputs 1 buf;
    mret 0.

(** [for (i = 0; i < max; i++)], with [n] rounds left. *)
Fixpoint count_loop (n : nat) (i buf : Z) : user S () :=
  match n with
  | O => mret ()
  | Datatypes.S n =>
      _ ← on_mem (λ m, ece391_itoa m (i + 1) buf 10);
      _ ← ece391_fdputs 1 buf;
      _ ← put lit [10];
      count_loop n (i + 1) buf
  end.
Definition counter (buf : Z) : user S Z :=
  _ ← puts_line lit "Enter the Test Number: (0): 100, (1): 10000, (2): 100000";
  cnt ← ece391_read 0 buf (LINESIZE - 1);
  let cnt := u32 cnt in
  if u32 (-1) =? cnt then _ ← puts_line lit "Can't read the number from keyboard."; mret 3
  else
    _ ← poke (buf + cnt) 0;
    len ← with_mem (λ m, ece391_strlen m buf);
    c ← peek buf;
    if (len >? 2) || ((len =? 2) && ((c <? 48) || (c >? 50))) then _ ← puts_line lit "Wrong Choice!"; mret 0
    else
      let max := if c =? 48 then 100 else if c =? 49 then 10000 else if c =? 50 then 100000 else 0 in
      _ ← count_loop (Z.to_nat max) 0 buf; mret 0.

Fixpoint shell_loop (fuel : nat) (buf : Z) : user S Z :=
  match fuel with
  | O => λ _, None
  | Datatypes.S fuel =>
      _ ← put lit (chars "391OS> ");
      cnt ← ece391_read 0 buf (LINESIZE - 1);
      if -1 =? cnt then _ ← puts_line lit "read from keyboard failed"; mret 3
      else
        c ← peek (buf + (cnt - 1));
        let cnt := if (cnt >? 0) && (10 =? c) then cnt - 1 else cnt in
        _ ← poke (buf + cnt) 0;
        r ← with_mem (λ m, ece391_strcmp m buf (lit (chars "exit")));
        if 0 =? r then mret 0
        else
          c ← peek buf;
          if 0 =? c then shell_loop fuel buf
          else
            rval ← ece391_execute buf;
            _ ← (if -1 =? rval then puts_line lit "no such command"
                 else if 256 =? rval then puts_line lit "program terminated by exception"
                 else if negb (0 =? rval) then puts_line lit "program terminated abnormally"
                 else mret ());
            shell_loop fuel buf
  end.
Definition shell (fuel : nat) (buf : Z) : user S Z :=
  _ ← puts_line lit "Starting 391 Shell"; shell_loop fuel buf.

(** [for (i = lo; i < hi; i++) buf[i] = c], with [n] rounds left. *)
Fixpoint fill (n : nat) (a c : Z) : user S () :=
  match n with O => mret () | Datatypes.S n => _ ← poke a c; fill n (a + 1) c end.
(** One picture: clear the inside, draw the character, wait for the clock. *)
Definition draw (rtc_fd buf garbage j curchar : Z) : user S () :=
  _ ← fill (Z.to_nat (LOOPMAX - STARTLOOP)) (buf + STARTLOOP) 32;
  _ ← poke (buf + j) curchar;
  _ ← ece391_fdputs 1 buf;
  _ ← ece391_read rtc_fd garbage 4;
  mret ().
Fixpoint move_out (n : nat) (rtc_fd buf garbage j curchar : Z) : user S () :=
  match n with
  | O => mret ()
  | Datatypes.S n => _ ← draw rtc_fd buf garbage j curchar; move_out n rtc_fd buf garbage (j + 1) curchar
  end.
Fixpoint bounce_back (n : nat) (rtc_fd buf garbage j curchar : Z) : user S () :=
  match n with
  | O => mret ()
  | Datatypes.S n => _ ← draw rtc_fd buf garbage j curchar; bounce_back n rtc_fd buf garbage (j - 1) curchar
  end.
(** The endless loop, cut after [rounds] rounds; the result is [curchar]. *)
Fixpoint ping_loop (rounds : nat) (rtc_fd buf garbage curchar : Z) : user S Z :=
  match rounds with
  | O => mret curchar
  | Datatypes.S rounds =>
      _ ← move_out (Z.to_nat (LOOPMAX - STARTLOOP)) rtc_fd buf garbage STARTLOOP curchar;
      _ ← bounce_back (Z.to_nat (LOOPMAX - STARTLOOP)) rtc_fd buf garbage (LOOPMAX - 1) curchar;
      ping_loop rounds rtc_fd buf garbage (if curchar =? ENDCHAR then STARTCHAR else u8 (curchar + 1))
  end.
Definition pingpong (rounds : nat) (buf ret_val garbage : Z) : user S Z :=
  _ ← fill (Z.to_nat BUFMAX) buf 32;
  _ ← poke (buf + (BUFMAX - 1)) 0;
  _ ← poke (buf + (BUFMAX - 2)) 10;
  _ ← poke (buf + (BUFMAX - 3)) 124;
  _ ← poke (buf + START) 124;
  rtc_fd ← ece391_open (lit (chars "rtc"));
  _ ← on_mem (λ m, Some (store32 m ret_val 32));
  r ← ece391_write rtc_fd ret_val 4;
  _ ← on_mem (λ m, Some (store32 m ret_val r));
  ping_loop rounds rtc_fd buf garbage STARTCHAR.
End programs.

(** ** The calls a program makes *)

(** A machine that also logs the calls: what is opened and as what, and which
    descriptors are read and written. *)
Inductive io := Opens (name fd : Z) | Reads (fd : Z) | Writes (fd : Z) | Calls (number : Z).

Section log.
Context {S : Type} `{UserSys S}.
Local Abbreviation logged := (S * list io)%type.

Definition logging (c : user S Z) (entry : Z → io) : user logged Z := λ sl,
  match c sl.1 with Some (r, s) => Some (r, (s, sl.2 ++ [entry r])) | None => None end.
#[local] Instance logged_sys : UserSys logged := {|
  umem sl := umem sl.1;
  set_umem m sl := (set_umem m sl.1, sl.2);
  ece391_execute p := logging (ece391_execute p) (λ _, Calls 2);
  ece391_read fd buf n := logging (ece391_read fd buf n) (λ _, Reads fd);
  ece391_write fd buf n := logging (ece391_write fd buf n) (λ _, Writes fd);
  ece391_open p := logging (ece391_open p) (Opens p);
  ece391_close fd := logging (ece391_close fd) (λ _, Calls 6);
  ece391_getargs buf n := logging (ece391_getargs buf n) (λ _, Calls 7);
  ece391_vidmap p := logging (ece391_vidmap p) (λ _, Calls 8);
  ece391_set_handler n h := logging (ece391_set_handler n h) (λ _, Calls 9);
  call_sys n := logging (call_sys n) (λ _, Calls n) |}.

(** [m'] on the logging machine does what [m] does, and logs a [T]. *)
Definition traces {A} (m' : user logged A) (m : user S A) (T : A → list io → Prop) : Prop :=
  ∀ s l, match m s with
         | None => m' (s, l) = None
         | Some (a, s') => ∃ t, m' (s, l) = Some (a, (s', l ++ t)) ∧ T a t
         end.
Lemma traces_ret {A} (a : A) (T : A → list io → Prop) : T a [] → traces (mret a) (mret a) T.
Proof. intros HT s l. exists []. by rewrite app_nil_r. Qed.
Lemma traces_bind {A B} m' m (f' : A → user logged B) f T (U : B → list io → Prop) :
  traces m' m T → (∀ a t, T a t → traces (f' a) (f a) (λ b u, U b (t ++ u))) → traces (m' ≫= f') (m ≫= f) U.
Proof.
  intros Hm Hf s l. specialize (Hm s l). unfold mbind, user_bind. destruct (m s) as [[a s1]|]; [|by rewrite Hm].
  destruct Hm as (t & -> & HT). specialize (Hf a t HT s1 (l ++ t)). destruct (f a s1) as [[b s2]|]; [|done].
  destruct Hf as (u & -> & HU). exists (t ++ u). by rewrite app_assoc.
Qed.
Lemma traces_mono {A} m' (m : user S A) (T U : A → list io → Prop) :
  traces m' m T → (∀ a t, T a t → U a t) → traces m' m U.
Proof.
  intros Hm HT s l. specialize (Hm s l). destruct (m s) as [[a s']|]; [|done]. destruct Hm as (t & E & Ht).
  exists t. auto.
Qed.
Lemma traces_call c entry : traces (logging c entry) c (λ r t, t = [entry r]).
Proof. intros s l. unfold logging. cbn [fst snd]. destruct (c s) as [[r s']|]; [|done]. by exists [entry r]. Qed.
Lemma traces_poke a x : traces (poke a x) (poke a x) (λ _ t, t = []).
Proof. intros s l. exists []. by rewrite app_nil_r. Qed.
Lemma traces_mem f : traces (on_mem f) (on_mem f) (λ _ t, t = []).
Proof.
  intros s l. unfold on_mem. change (umem (s, l)) with (umem s). destruct (f (umem s)); [|done]. exists [].
  by rewrite app_nil_r.
Qed.
Lemma traces_fdputs fd a : traces (ece391_fdputs fd a) (ece391_fdputs fd a) (λ _ t, t = [Writes fd]).
Proof.
  unfold ece391_fdputs. apply (traces_bind _ _ _ _ (λ _ t, t = [])).
  { intros s l. exists []. by rewrite app_nil_r. }
  intros n t ->. eapply traces_bind; [apply traces_call|]. intros r t ->. by apply traces_ret.
Qed.
End log.

(** ** What they do *)

(** A string in the array. *)
Lemma string_marked m buf l n : load_bytes m buf (length l + n) = l ++ replicate n 10 → Forall (λ c, c ≠ 0) l →
  cstr (mset m (buf + Z.of_nat (length l)) 0) buf l.
Proof.
  intros Hl Hnz. split; [|split; [apply mget_mset_eq|done]].
  rewrite load_bytes_app in Hl. apply app_inj_1 in Hl as [Hl _]; [|by rewrite length_load_bytes].
  transitivity (load_bytes m buf (length l)); [|done]. apply load_bytes_ext. intros i Hi. apply mget_mset_ne. lia.
Qed.

Section behaviour.
Context {S : Type} {sys : UserSys S} {sees : S → view → Prop} {spec : UserSpec S sees} {inp : UserInput S sees}.
Context (lit : list Z → Z) (buf : Z).
Implicit Types (s : S) (v : view).
Local Abbreviation ends := (UserProg.ends (sees := sees)).
Local Abbreviation off := (outside buf 1024).

(** Literals that stay when the array changes. *)
Definition literals_apart (ls : list (list Z)) s : Prop :=
  in_user buf 1024 ∧ Forall (λ l, literal lit (umem s) l ∧ apart lit l buf 1024) ls.
Lemma literals_apart_off ls s s' : literals_apart ls s → off (umem s) (umem s') → literals_apart ls s'.
Proof using.
  intros [Hu Hl] Ho. split; [done|]. eapply Forall_impl; [exact Hl|]. intros l [Hlit Ha].
  split; [|done]. by eapply literal_outside.
Qed.
Lemma literals_apart_same ls s s' : literals_apart ls s → user_same (umem s) (umem s') → literals_apart ls s'.
Proof using. intros Hl Hs. eapply literals_apart_off; [done|]. by apply outside_same. Qed.
Lemma literals_apart_in ls s l : literals_apart ls s → l ∈ ls → literal lit (umem s) l.
Proof using. intros [_ Hl] Hin. rewrite Forall_forall in Hl. by apply Hl. Qed.

(** Reading a line into the array. *)
Lemma array_line s v l lines ls :
  sees s v → v_input v = l :: lines → line_ok l → literals_apart ls s →
  sat (ece391_read 0 buf (LINESIZE - 1)) s (λ r s', r = Z.of_nat (length l) + 1 ∧
    sees s' (v_typed lines (v_print (l ++ [10]) v)) ∧ literals_apart ls s' ∧
    load_bytes (umem s') buf (length l + 1) = l ++ [10] ∧ off (umem s) (umem s')).
Proof using inp.
  intros Hs Hin Hl Hlit. pose proof Hlit as [[U1 U2] _]. pose proof Hl as [Hlen Hc].
  destruct (@read_line_ok _ _ _ inp s v l lines buf (LINESIZE - 1) Hs Hin Hl) as (pad & Hpad & Hread);
    [unfold LINESIZE; lia|unfold LINESIZE; split; lia|]. unfold LINESIZE in *.
  eapply sat_mono; [exact Hread|]. intros r s' (v' & (-> & ->) & Hs' & Hm). split; [done|]. split; [done|].
  assert (length (l ++ [10%Z]) = length l + 1)%nat as Hll by (by rewrite length_app).
  assert (off (umem s) (umem s')) as Ho.
  { rewrite <- (Z.add_0_r buf) in Hm. eapply (outside_store _ _ _ _ 0 (l ++ [10] ++ pad)); [lia| |exact Hm]. rewrite !length_app. simpl. lia. }
  split; [by eapply literals_apart_off|]. split; [|done].
  rewrite (user_same_load _ _ _ _ Hm) by (split; lia). rewrite app_assoc, store_bytes_app.
  rewrite load_store_bytes_out by lia. rewrite <- Hll. apply load_store_bytes. apply Forall_app.
  split; [eapply Forall_impl; [exact Hc|]; simpl; lia|repeat constructor; lia].
Qed.

(** Poking into the array. *)
Lemma poke_off s v ls i x :
  sees s v → literals_apart ls s → 0 ≤ i < 1024 →
  sat (poke (buf + i) x) s (λ _ s', sees s' v ∧ literals_apart ls s' ∧ umem s' = mset (umem s) (buf + i) x).
Proof using spec.
  intros Hs Hl Hi. pose proof Hl as [[U1 U2] _].
  eapply sat_mono; [apply (poke_ok lit s v (buf + i) x Hs); unfold user_addr; lia|].
  intros _ s' [Hs' E]. split; [done|]. split; [|done]. eapply literals_apart_off; [done|]. rewrite E.
  by apply outside_mset.
Qed.
(** ** hello *)

Definition greeting : list Z := chars "Hi, what's your name? ".
Definition hello_literals : list (list Z) := [greeting; chars "Hello, "].
Lemma hello_ok s v l lines :
  sees s v → v_input v = l :: lines → line_ok l → literals_apart hello_literals s →
  sat (hello lit buf) s (λ r s', r = 0 ∧
    sees s' (v_typed lines (v_print (greeting ++ l ++ [10] ++ chars "Hello, " ++ l ++ [10]) v))).
Proof using spec inp.
  intros Hs Hin Hl Hlit. unfold hello. pose proof Hl as [Hlen Hc].
  eapply sat_bind; [apply (put_ok lit s v); [done|]; apply (literals_apart_in _ _ _ Hlit); set_solver|].
  intros _ s1 (_ & Hs1 & M1). pose proof (literals_apart_same _ _ _ Hlit M1) as Hl1.
  eapply sat_bind; [apply (array_line s1 (v_print greeting v) l lines _ Hs1 Hin Hl Hl1)|].
  intros cnt s2 (-> & Hs2 & Hl2 & Hb2 & _). rewrite (proj2 (Z.eqb_neq (-1) _)) by lia.
  set (v2 := v_typed lines (v_print (l ++ [10]) (v_print greeting v))) in *.
  eapply sat_bind; [apply (poke_off s2 v2 _ (Z.of_nat (length l) + 1) 0 Hs2 Hl2); lia|].
  intros _ s3 (Hs3 & Hl3 & E3).
  assert (cstr (umem s3) buf (l ++ [10])) as Hc3.
  { rewrite E3. replace (Z.of_nat (length l) + 1) with (Z.of_nat (length (l ++ [10]))) by (rewrite length_app; simpl; lia).
    apply (string_marked _ _ _ 0).
    - rewrite length_app, Nat.add_0_r, app_nil_r. exact Hb2.
    - apply Forall_app. split; [eapply Forall_impl; [exact Hc|]; simpl; lia|repeat constructor; lia]. }
  eapply sat_bind; [apply (put_ok lit s3 v2); [done|]; apply (literals_apart_in _ _ _ Hl3); set_solver|].
  intros _ s4 (_ & Hs4 & M4). destruct Hl3 as [[U1 U2] _].
  assert (in_user buf (Z.of_nat (length (l ++ [10])) + 1)) as Hu by (rewrite length_app; simpl; split; lia).
  eapply sat_bind; [apply (fdputs_ok lit s4 _ buf (l ++ [10]) Hs4); [by apply (user_same_cstr (umem s3))|done]|].
  intros _ s5 [Hs5 _]. apply sat_ret. split; [done|]. unfold v2 in Hs5.
  rewrite !v_print_typed, <- !v_print_app in Hs5. rewrite !app_assoc in *. exact Hs5.
Qed.

(** ** shell *)

Definition shell_prompt : list Z := chars "391OS> ".
Definition exit_command : list Z := chars "exit".
Definition unknown : list Z := line "no such command".
Definition shell_literals : list (list Z) := [line "Starting 391 Shell"; shell_prompt; exit_command; unknown].
(** The dialogue for a line that is blank or names no program. *)
Definition dialogue (l : list Z) : list Z :=
  shell_prompt ++ l ++ [10] ++ match l with [] => [] | _ => unknown end.
Definition not_a_program v (l : list Z) : Prop :=
  line_ok l ∧ l ≠ exit_command ∧ (l = [] ∨ command_word l ∉ v_names v).

Lemma exit_line_ok : line_ok exit_command.
Proof using. change exit_command with [101; 120; 105; 116]. split; [simpl; lia|repeat constructor; lia]. Qed.

(** A prompt and the line read after it, as a string in the array. *)
Lemma prompt_line s v l lines (k : Z → user S Z) Q :
  sees s v → v_input v = l :: lines → line_ok l → literals_apart shell_literals s →
  (∀ s', sees s' (v_typed lines (v_print (shell_prompt ++ l ++ [10]) v)) → literals_apart shell_literals s' →
    cstr (umem s') buf l → sat (k (byte_diff l exit_command)) s' Q) →
  sat (_ ← put lit shell_prompt; cnt ← ece391_read 0 buf (LINESIZE - 1);
       if -1 =? cnt then _ ← puts_line lit "read from keyboard failed"; mret 3
       else
         c ← peek (buf + (cnt - 1));
         let cnt := if (cnt >? 0) && (10 =? c) then cnt - 1 else cnt in
         _ ← poke (buf + cnt) 0;
         r ← with_mem (λ m, ece391_strcmp m buf (lit exit_command)); k r) s Q.
Proof using spec inp.
  intros Hs Hin Hl Hlit Hk. pose proof Hl as [Hlen Hc].
  eapply sat_bind; [apply (put_ok lit s v); [done|]; apply (literals_apart_in _ _ _ Hlit); set_solver|].
  intros _ s1 (_ & Hs1 & M1). pose proof (literals_apart_same _ _ _ Hlit M1) as Hl1.
  eapply sat_bind; [apply (array_line s1 (v_print shell_prompt v) l lines _ Hs1 Hin Hl Hl1)|].
  intros cnt s2 (-> & Hs2 & Hl2 & Hb2 & _). rewrite (proj2 (Z.eqb_neq (-1) _)) by lia.
  assert (mget (umem s2) (buf + (Z.of_nat (length l) + 1 - 1)) = 10) as H10.
  { assert (load_bytes (umem s2) buf (length l + 1) !! length l = Some 10) as E
      by (rewrite Hb2; by apply list_lookup_middle).
    rewrite lookup_load_bytes in E by lia. apply some_inv in E. rewrite <- E. do 2 f_equal. lia. }
  apply sat_bind with (λ c s', c = 10 ∧ s' = s2); [eexists _, s2; split; [reflexivity|]; by split|]. intros c s' [-> ->].
  rewrite Z.gtb_ltb, (proj2 (Z.ltb_lt 0 _)) by lia. change (true && (10 =? 10)) with true. cbv zeta. cbn iota.
  replace (Z.of_nat (length l) + 1 - 1) with (Z.of_nat (length l)) by lia.
  eapply sat_bind; [apply (poke_off s2 _ _ (Z.of_nat (length l)) 0 Hs2 Hl2); lia|]. intros _ s3 (Hs3 & Hl3 & E3).
  assert (cstr (umem s3) buf l) as Hcl.
  { rewrite E3. apply (string_marked _ _ _ 1); [exact Hb2|]. eapply Forall_impl; [exact Hc|]. simpl. lia. }
  assert (cstr (umem s3) (lit exit_command) exit_command) as He
    by (apply (literals_apart_in _ _ _ Hl3); set_solver).
  apply sat_bind with (λ r s', r = byte_diff l exit_command ∧ s' = s3).
  { eexists _, s3. split; [reflexivity|]. split; [|done]. by apply ece391_strcmp_cstr. }
  intros r s' [-> ->]. apply Hk; [|done|done]. by rewrite <- v_print_app in Hs3.
Qed.

Lemma shell_loop_ok ls fuel s v rest :
  sees s v → v_input v = ls ++ exit_command :: rest → Forall (not_a_program v) ls →
  literals_apart shell_literals s → (length ls < fuel)%nat →
  sat (shell_loop lit fuel buf) s (λ r s', r = 0 ∧
    sees s' (v_typed rest (v_print (concat (dialogue <$> ls) ++ shell_prompt ++ exit_command ++ [10]) v))).
Proof using spec inp.
  revert fuel s v. induction ls as [|l ls IH]; intros fuel s v Hs Hin Hls Hlit Hf;
    (destruct fuel as [|fuel]; [simpl in Hf; lia|]); cbn [shell_loop].
  { apply (prompt_line s v exit_command rest); [done|exact Hin|exact exit_line_ok|done|].
    intros s' Hs' _ _. change (0 =? byte_diff exit_command exit_command) with true. cbn iota. by apply sat_ret. }
  apply Forall_cons in Hls as [(Hl & Hne & Hcmd) Hls]. pose proof Hl as [Hlen Hc].
  assert (Forall (λ c, c ≠ 0) l) as Hnz by (eapply Forall_impl; [exact Hc|]; simpl; lia).
  apply (prompt_line s v l (ls ++ exit_command :: rest)); [done|exact Hin|done|done|].
  intros s1 Hs1 Hl1 Hcl. cbn [length] in Hf. set (v1 := v_typed _ _) in *.
  destruct (Z.eqb_spec 0 (byte_diff l exit_command)) as [E|_].
  { symmetry in E. apply byte_diff_zero in E; [done|done|]. eapply Forall_impl; [exact (proj2 exit_line_ok)|]. simpl. lia. }
  rewrite fmap_cons, concat_cons, <- app_assoc. unfold dialogue at 1.
  assert (Forall (not_a_program v1) ls) as Hls1 by exact Hls.
  apply sat_bind with (λ c s', (0 =? c) = (if decide (l = []) then true else false) ∧ s' = s1).
  { eexists _, s1. split; [reflexivity|]. split; [|done]. destruct l as [|c l].
    - apply cstr_nil in Hcl. by rewrite Hcl.
    - apply cstr_cons in Hcl as (-> & Hz & _). rewrite decide_False by done. by apply Z.eqb_neq. }
  intros c s' [-> ->]. destruct (decide (l = [])) as [->|Hl0].
  - eapply sat_mono; [apply (IH fuel s1 v1); try done; lia|]. intros r s2 [-> Hs2]. split; [done|].
    unfold v1 in Hs2. rewrite v_print_typed, <- v_print_app in Hs2. rewrite !app_nil_l, !app_nil_r in *. exact Hs2.
  - destruct Hcmd as [|Hcmd]; [done|]. pose proof Hl1 as [[U1 U2] _].
    eapply sat_bind; [apply (execute_unknown s1 v1 buf l Hs1 Hcl)|]; [split; lia|unfold ARGS_MAX; lia|exact Hcmd|].
    intros rv s2 (v2 & (-> & ->) & Hs2 & M2). change (-1 =? -1) with true. cbn iota.
    pose proof (literals_apart_same _ _ _ Hl1 M2) as Hl2.
    eapply sat_bind; [apply (puts_line_ok lit s2 v1 _ Hs2)|].
    { apply (literals_apart_in _ _ _ Hl2). unfold shell_literals, unknown. set_solver. }
    intros _ s3 [Hs3 M3]. pose proof (literals_apart_same _ _ _ Hl2 M3) as Hl3.
    eapply sat_mono; [apply (IH fuel s3 _ Hs3); try done; lia|]. intros r s4 [-> Hs4]. split; [done|].
    unfold v1 in Hs4. rewrite !v_print_typed, <- !v_print_app in Hs4.
    destruct l as [|x l]; [done|]. change (chars "no such command" ++ [10]) with unknown in Hs4.
    rewrite <- !app_assoc in *. exact Hs4.
Qed.

Lemma shell_ok fuel s v ls rest :
  sees s v → v_input v = ls ++ exit_command :: rest → Forall (not_a_program v) ls →
  literals_apart shell_literals s → (length ls < fuel)%nat →
  sat (shell lit fuel buf) s (λ r s', r = 0 ∧
    sees s' (v_typed rest (v_print (line "Starting 391 Shell" ++ concat (dialogue <$> ls) ++
      shell_prompt ++ exit_command ++ [10]) v))).
Proof using spec inp.
  intros Hs Hin Hls Hlit Hf. unfold shell.
  eapply sat_bind; [apply (puts_line_ok lit s v _ Hs)|].
  { apply (literals_apart_in _ _ _ Hlit). unfold shell_literals, line. set_solver. }
  intros _ s1 [Hs1 M1].
  eapply sat_mono; [apply (shell_loop_ok ls fuel s1 _ rest Hs1); try done; by eapply literals_apart_same|].
  intros r s2 [-> Hs2]. split; [done|]. rewrite <- v_print_app in Hs2. exact Hs2.
Qed.

(** ** counter *)

Definition menu : list Z := line "Enter the Test Number: (0): 100, (1): 10000, (2): 100000".
Definition wrong : list Z := line "Wrong Choice!".
Definition counter_literals : list (list Z) := [menu; wrong; [10]].
(** How far the choice makes it count. *)
Definition choice (l : list Z) : option Z :=
  match l with
  | [] => Some 0
  | [c] => if c =? 48 then Some 100 else if c =? 49 then Some 10000 else if c =? 50 then Some 100000 else None
  | _ => None
  end.
Definition counting (i n : Z) : list Z := concat ((λ j, numeral 10 j ++ [10]) <$> seqZ (i + 1) n).

Lemma length_numeral x : (length (numeral 10 x) ≤ 32)%nat.
Proof using.
  unfold numeral. destruct (x =? 0); [simpl; lia|]. rewrite length_reverse. apply (length_digits 10).
Qed.
Lemma count_loop_ok n i s v ls :
  sees s v → literals_apart ls s → [10] ∈ ls → 0 ≤ i → i + Z.of_nat n < 2 ^ 32 →
  sat (count_loop lit n i buf) s (λ _ s', sees s' (v_print (counting i (Z.of_nat n)) v)).
Proof using spec.
  revert i s v. induction n as [|n IH]; intros i s v Hs Hl Hin Hi Hn.
  { unfold counting. apply sat_ret. by rewrite v_print_nil. }
  pose proof Hl as [[U1 U2] _]. cbn [count_loop].
  destruct (itoa_spec 10 ltac:(lia) (umem s) (i + 1) buf) as (m' & E & Hc & Hfr). rewrite u32_small in Hc, Hfr by lia.
  pose proof (length_numeral (i + 1)) as Hlen. set (num := numeral 10 (i + 1)) in *.
  set (s1 := set_umem m' s). assert (umem s1 = m') as E1 by apply umem_set.
  apply sat_bind with (λ _ s', s' = s1).
  { exists (), s1. split; [|done]. unfold on_mem. by rewrite ece391_itoa_itoa, E by lia. }
  intros _ s' ->.
  assert (sees s1 v) as Hs1.
  { apply sees_set; [done|]. intros a Ha. apply Hfr. unfold user_addr in Ha. lia. }
  assert (literals_apart ls s1) as Hl1.
  { eapply literals_apart_off; [done|]. rewrite E1. intros a _ Ha. apply Hfr. lia. }
  rewrite <- E1 in Hc. assert (in_user buf (Z.of_nat (length num) + 1)) as Hu by (split; lia).
  eapply sat_bind; [by apply (fdputs_ok lit s1 v buf num Hs1)|]. intros _ s2 [Hs2 M2].
  pose proof (literals_apart_same _ _ _ Hl1 M2) as Hl2.
  eapply sat_bind; [apply (put_ok lit s2 _ [10] Hs2); by apply (literals_apart_in _ _ _ Hl2)|]. intros _ s3 (_ & Hs3 & M3).
  pose proof (literals_apart_same _ _ _ Hl2 M3) as Hl3.
  eapply sat_mono; [apply (IH (i + 1) s3 _ Hs3 Hl3 Hin); lia|]. intros ? s4 Hs4.
  unfold counting. rewrite seqZ_cons by lia. rewrite fmap_cons, concat_cons. fold num.
  replace (Z.succ (i + 1)) with (i + 1 + 1) by lia. replace (Z.pred (Z.of_nat (Datatypes.S n))) with (Z.of_nat n) by lia.
  rewrite <- !v_print_app in Hs4. rewrite <- !app_assoc in *. exact Hs4.
Qed.

Lemma counter_ok s v l lines :
  sees s v → v_input v = l :: lines → line_ok l → literals_apart counter_literals s →
  sat (counter lit buf) s (λ r s', r = 0 ∧
    sees s' (v_typed lines (v_print (menu ++ l ++ [10] ++
      match choice l with Some n => counting 0 n | None => wrong end) v))).
Proof using spec inp.
  intros Hs Hin Hl Hlit. unfold counter. pose proof Hl as [Hlen Hc].
  eapply sat_bind; [apply (puts_line_ok lit s v _ Hs); apply (literals_apart_in _ _ _ Hlit); unfold counter_literals, menu, line; set_solver|].
  intros _ s1 (Hs1 & M1). pose proof (literals_apart_same _ _ _ Hlit M1) as Hl1.
  fold (line "Enter the Test Number: (0): 100, (1): 10000, (2): 100000") menu in Hs1.
  eapply sat_bind; [apply (array_line s1 (v_print menu v) l lines _ Hs1 Hin Hl Hl1)|].
  intros cnt s2 (-> & Hs2 & Hl2 & Hb2 & _). rewrite (u32_small (_ + 1)) by lia. cbv zeta.
  change (u32 (-1)) with 4294967295. rewrite (proj2 (Z.eqb_neq _ _)) by lia.
  set (v2 := v_typed lines (v_print (l ++ [10]) (v_print menu v))) in *.
  eapply sat_bind; [apply (poke_off s2 v2 _ (Z.of_nat (length l) + 1) 0 Hs2 Hl2); lia|].
  intros _ s3 (Hs3 & Hl3 & E3).
  assert (cstr (umem s3) buf (l ++ [10])) as Hc3.
  { rewrite E3. replace (Z.of_nat (length l) + 1) with (Z.of_nat (length (l ++ [10]))) by (rewrite length_app; simpl; lia).
    apply (string_marked _ _ _ 0).
    - rewrite length_app, Nat.add_0_r, app_nil_r. exact Hb2.
    - apply Forall_app. split; [eapply Forall_impl; [exact Hc|]; simpl; lia|repeat constructor; lia]. }
  apply sat_bind with (λ n s', n = Z.of_nat (length l) + 1 ∧ s' = s3).
  { eexists _, s3. split; [reflexivity|]. split; [|done]. rewrite (ece391_strlen_cstr _ _ _ Hc3), length_app.
    rewrite u32_small by (simpl; lia). simpl. lia. }
  intros n s' [-> ->].
  apply sat_bind with (λ c s', c = default 10 (head l) ∧ s' = s3).
  { eexists _, s3. split; [reflexivity|]. split; [|done].
    destruct l as [|c l]; apply cstr_cons in Hc3 as (Hc0 & _ & _); exact Hc0. }
  intros c s' [-> ->].
  assert (∀ out, v_print out v2 = v_typed lines (v_print (menu ++ l ++ [10] ++ out) v)) as Hout.
  { intros out. unfold v2. rewrite v_print_typed, !v_print_app. reflexivity. }
  rewrite <- Hout.
  assert (∀ max, 0 ≤ max ≤ 100000 → sat (_ ← count_loop lit (Z.to_nat max) 0 buf; mret 0) s3
    (λ r s', r = 0 ∧ sees s' (v_print (counting 0 max) v2))) as Hcount.
  { intros max Hmax. eapply sat_bind; [apply (count_loop_ok (Z.to_nat max) 0 s3 v2 _ Hs3 Hl3); [|lia|lia]|].
    - by right; right; left.
    - rewrite Z2Nat.id by lia. intros ? s4 Hs4. by apply sat_ret. }
  assert (sat (_ ← puts_line lit "Wrong Choice!"; mret 0) s3 (λ r s', r = 0 ∧ sees s' (v_print wrong v2))) as Hwrong.
  { eapply sat_bind; [apply (puts_line_ok lit s3 v2 _ Hs3)|].
    - apply (literals_apart_in _ _ _ Hl3). unfold counter_literals, wrong, line. set_solver.
    - intros _ s4 [Hs4 _]. by apply sat_ret. }
  destruct l as [|c [|c' l]]; cbn [length head from_option id choice].
  - exact (Hcount 0 ltac:(lia)).
  - change (Z.of_nat 1 + 1 >? 2) with false. change (Z.of_nat 1 + 1 =? 2) with true.
    cbn [orb andb from_option id].
    destruct (Z.eqb_spec c 48) as [->|N0]; [exact (Hcount 100 ltac:(lia))|].
    destruct (Z.eqb_spec c 49) as [->|N1]; [exact (Hcount 10000 ltac:(lia))|].
    destruct (Z.eqb_spec c 50) as [->|N2]; [exact (Hcount 100000 ltac:(lia))|].
    assert ((c <? 48) || (c >? 50) = true) as ->; [|exact Hwrong].
    apply orb_true_iff. rewrite Z.ltb_lt, Z.gtb_lt. lia.
  - rewrite Z.gtb_ltb, (proj2 (Z.ltb_lt 2 _)) by lia. exact Hwrong.
Qed.

(** ** pingpong *)

(** The line of 80 characters with [c] at column [j]. *)
Definition pixel (j c i : Z) : Z :=
  if i =? j then c else if (i =? 1) || (i =? 78) then 124 else if i =? 79 then 10 else 32.
Definition picture (c j : Z) : list Z := (λ i, pixel j c i) <$> seqZ 0 80.
Definition inside : list Z := seqZ 2 76.
Definition flight (c : Z) : list Z := concat (picture c <$> inside ++ reverse inside).
Definition next_char (c : Z) : Z := if c =? 90 then 65 else c + 1.
Fixpoint flights (n : nat) (c : Z) : list Z :=
  match n with O => [] | Datatypes.S n => flight c ++ flights n (next_char c) end.

(** What the drawing leaves as it is: the walls, and the end of the line. *)
Definition walls (m : mem) : Prop :=
  in_user buf 81 ∧ mget m (buf + 80) = 0 ∧ ∀ i, 0 ≤ i < 80 → i < 2 ∨ 78 ≤ i → mget m (buf + i) = pixel (-1) 0 i.
Lemma walls_ext m m' : (∀ i, 0 ≤ i ≤ 80 → mget m' (buf + i) = mget m (buf + i)) → walls m → walls m'.
Proof using.
  intros Hs (Hu & H0 & Hw). split; [done|]. split; [by rewrite Hs by lia|].
  intros i Hi Hr. rewrite Hs by lia. by apply Hw.
Qed.
Lemma walls_same m m' : user_same m m' → walls m → walls m'.
Proof using.
  intros Hs Hw. apply (walls_ext m); [|done]. destruct Hw as ([U1 U2] & _). intros i Hi. apply Hs. unfold user_addr. lia.
Qed.

Lemma fill_ok n a x s v :
  sees s v → in_user a (Z.of_nat n) →
  sat (fill n a x) s (λ _ s', sees s' v ∧ umem s' = store_bytes (umem s) a (replicate n x)).
Proof using lit spec.
  revert a s. induction n as [|n IH]; intros a s Hs [U1 U2]; [by apply sat_ret|]. cbn [fill].
  eapply sat_bind; [apply (poke_ok lit s v a x Hs); unfold user_addr; lia|]. intros _ s1 [Hs1 E1].
  eapply sat_mono; [apply (IH (a + 1) s1 Hs1); split; lia|]. intros ? s2 [Hs2 E2]. split; [done|]. by rewrite E2, E1.
Qed.

Lemma picture_string m j c :
  walls m → 2 ≤ j < 78 → 0 < c → mget m (buf + j) = c → (∀ i, 2 ≤ i < 78 → i ≠ j → mget m (buf + i) = 32) →
  cstr m buf (picture c j).
Proof using.
  intros (_ & H0 & Hw) Hj Hc Hm Hin.
  assert (length (picture c j) = 80%nat) as Hlen by (unfold picture; by rewrite length_fmap).
  split; [|rewrite Hlen; split; [exact H0|]].
  - rewrite Hlen. apply list_eq. intros i. destruct (decide (i < 80)%nat) as [Hi|Hi].
    2: { rewrite !lookup_ge_None_2; [done|lia|rewrite length_load_bytes; lia]. }
    rewrite lookup_load_bytes by done. unfold picture. rewrite list_lookup_fmap, lookup_seqZ_lt by lia. cbn [fmap option_fmap option_map].
    f_equal. rewrite Z.add_0_l. set (z := Z.of_nat i) in *. assert (0 ≤ z < 80) as Hz by lia. unfold pixel.
    destruct (Z.eqb_spec z j) as [->|Hne]; [done|].
    destruct (decide (2 ≤ z < 78)) as [Hr|Hr].
    + rewrite Hin by done. rewrite !(proj2 (Z.eqb_neq z _)) by lia. done.
    + rewrite Hw by lia. unfold pixel. by rewrite (proj2 (Z.eqb_neq z (-1))) by lia.
  - unfold picture. apply Forall_fmap, Forall_true. intros i. unfold compose, pixel. repeat case_match; lia.
Qed.

Lemma draw_ok s v rtc_fd garbage j c :
  sees s v → v_fds v !! rtc_fd = Some Clock → walls (umem s) → 2 ≤ j < 78 → 0 < c < 256 →
  sat (draw rtc_fd buf garbage j c) s (λ _ s', sees s' (v_print (picture c j) v) ∧ walls (umem s')).
Proof using lit spec.
  intros Hs Hfd Hw Hj Hc. pose proof Hw as ([U1 U2] & W0 & W1). unfold draw.
  change (Z.to_nat (LOOPMAX - STARTLOOP)) with 76%nat. change (buf + STARTLOOP) with (buf + 2).
  eapply sat_bind; [apply (fill_ok 76 (buf + 2) 32 s v Hs); split; lia|]. intros _ s1 [Hs1 E1].
  eapply sat_bind; [apply (poke_ok lit s1 v (buf + j) c Hs1); unfold user_addr; lia|]. intros _ s2 [Hs2 E2].
  assert (∀ i, 0 ≤ i ≤ 80 → i < 2 ∨ 78 ≤ i → mget (umem s2) (buf + i) = mget (umem s) (buf + i)) as Hout.
  { intros i Hi Hr. rewrite E2, mget_mset_ne, E1 by lia. apply mget_store_bytes_out. rewrite length_replicate. lia. }
  assert (walls (umem s2)) as Hw2.
  { split; [done|]. split; [rewrite Hout; [exact W0|lia|lia]|]. intros i Hi Hr. rewrite Hout by lia. by apply W1. }
  assert (cstr (umem s2) buf (picture c j)) as Hp.
  { apply picture_string; [done|done|lia|rewrite E2, mget_mset_eq; apply u8_small; lia|].
    intros i Hi Hne. rewrite E2, mget_mset_ne, E1 by lia.
    replace (buf + i) with (buf + 2 + Z.of_nat (Z.to_nat (i - 2))) by lia.
    rewrite (mget_store_bytes_in _ _ _ _ 32); [done|]. apply lookup_replicate. split; [done|lia]. }
  assert (length (picture c j) = 80%nat) as Hlen by (unfold picture; by rewrite length_fmap).
  eapply sat_bind; [apply (fdputs_ok lit s2 v buf _ Hs2 Hp); rewrite Hlen; exact (conj U1 U2)|]. intros _ s3 [Hs3 M3].
  eapply sat_bind; [by apply (read_clock_ok s3 _ rtc_fd garbage 4 Hs3)|]. intros r s4 (v4 & (_ & ->) & Hs4 & M4).
  apply sat_ret. split; [done|]. eapply walls_same; [|exact Hw2]. by eapply user_same_trans.
Qed.

Lemma move_out_ok n s v rtc_fd garbage j c :
  sees s v → v_fds v !! rtc_fd = Some Clock → walls (umem s) → 2 ≤ j → j + Z.of_nat n ≤ 78 → 0 < c < 256 →
  sat (move_out n rtc_fd buf garbage j c) s
    (λ _ s', sees s' (v_print (concat (picture c <$> seqZ j (Z.of_nat n))) v) ∧ walls (umem s')).
Proof using lit spec.
  revert s v j. induction n as [|n IH]; intros s v j Hs Hfd Hw Hj Hn Hc.
  { apply sat_ret. by rewrite v_print_nil. }
  cbn [move_out]. eapply sat_bind; [apply (draw_ok s v rtc_fd garbage j c); done || lia|]. intros _ s1 [Hs1 Hw1].
  eapply sat_mono; [apply (IH s1 _ (j + 1) Hs1); done || lia|]. intros ? s2 [Hs2 Hw2]. split; [|done].
  rewrite seqZ_cons by lia. replace (Z.pred (Z.of_nat (Datatypes.S n))) with (Z.of_nat n) by lia.
  rewrite fmap_cons, concat_cons. rewrite <- v_print_app in Hs2. exact Hs2.
Qed.
Lemma bounce_back_ok n s v rtc_fd garbage j c :
  sees s v → v_fds v !! rtc_fd = Some Clock → walls (umem s) → 2 ≤ j - Z.of_nat n + 1 → j < 78 → 0 < c < 256 →
  sat (bounce_back n rtc_fd buf garbage j c) s
    (λ _ s', sees s' (v_print (concat (picture c <$> reverse (seqZ (j - Z.of_nat n + 1) (Z.of_nat n)))) v) ∧ walls (umem s')).
Proof using lit spec.
  revert s v j. induction n as [|n IH]; intros s v j Hs Hfd Hw Hj Hn Hc.
  { apply sat_ret. by rewrite v_print_nil. }
  cbn [bounce_back]. eapply sat_bind; [apply (draw_ok s v rtc_fd garbage j c); done || lia|]. intros _ s1 [Hs1 Hw1].
  eapply sat_mono; [apply (IH s1 _ (j - 1) Hs1); done || lia|]. intros ? s2 [Hs2 Hw2]. split; [|done].
  replace (Z.of_nat (Datatypes.S n)) with (Z.of_nat n + 1) by lia. rewrite seqZ_app by lia.
  replace (j - (Z.of_nat n + 1) + 1 + Z.of_nat n) with j by lia.
  replace (seqZ j 1) with [j] by (by rewrite seqZ_cons by lia; rewrite seqZ_nil by lia).
  rewrite reverse_app, fmap_app, concat_app, reverse_singleton, fmap_cons, fmap_nil, concat_cons. cbn [concat]. rewrite app_nil_r.
  rewrite <- v_print_app in Hs2. replace (j - (Z.of_nat n + 1) + 1) with (j - 1 - Z.of_nat n + 1) by lia. exact Hs2.
Qed.

Lemma ping_loop_ok n s v rtc_fd garbage c :
  sees s v → v_fds v !! rtc_fd = Some Clock → walls (umem s) → 65 ≤ c ≤ 90 →
  sat (ping_loop n rtc_fd buf garbage c) s
    (λ r s', r = Nat.iter n next_char c ∧ sees s' (v_print (flights n c) v) ∧ walls (umem s')).
Proof using lit spec.
  revert s v c. induction n as [|n IH]; intros s v c Hs Hfd Hw Hc.
  { apply sat_ret. by rewrite v_print_nil. }
  cbn [ping_loop]. change (Z.to_nat (LOOPMAX - STARTLOOP)) with 76%nat. change STARTLOOP with 2.
  change (LOOPMAX - 1) with 77. change ENDCHAR with 90. change STARTCHAR with 65.
  eapply sat_bind; [apply (move_out_ok 76 s v rtc_fd garbage 2 c); done || lia|]. intros _ s1 [Hs1 Hw1].
  eapply sat_bind; [apply (bounce_back_ok 76 s1 _ rtc_fd garbage 77 c Hs1); done || lia|]. intros _ s2 [Hs2 Hw2].
  rewrite u8_small by lia. fold (next_char c).
  eapply sat_mono; [apply (IH s2 _ (next_char c) Hs2); [done|done|unfold next_char; destruct (Z.eqb_spec c 90); lia]|].
  intros r s3 (-> & Hs3 & Hw3). split; [by rewrite Nat.iter_succ_r|]. split; [|done].
  rewrite <- !v_print_app in Hs3. cbn [flights]. unfold flight, inside. rewrite fmap_app, concat_app. exact Hs3.
Qed.

Lemma pingpong_ok n s v ret_val garbage :
  let rtc := chars "rtc" in
  sees s v → v_files v !! rtc = Some Device → v_free v → in_user buf 81 → in_user ret_val 4 →
  literal lit (umem s) rtc → apart lit rtc buf 81 → apart lit rtc ret_val 4 → buf + 81 ≤ ret_val ∨ ret_val + 4 ≤ buf →
  sat (pingpong lit n buf ret_val garbage) s (λ r s', r = Nat.iter n next_char 65 ∧ ∃ fd, v_fds v !! fd = None ∧
    sees s' (v_set_fd fd (Some Clock) (v_print (flights n 65) v))).
Proof using spec.
  intros rtc Hs Hf Hfree [U1 U2] [R1 R2] Hlit Ha1 Ha2 Hd. unfold pingpong.
  change (Z.to_nat BUFMAX) with 81%nat. change (BUFMAX - 1) with 80. change (BUFMAX - 2) with 79.
  change (BUFMAX - 3) with 78. change START with 1.
  eapply sat_bind; [apply (fill_ok 81 buf 32 s v Hs); split; lia|]. intros _ s1 [Hs1 E1].
  eapply sat_bind; [apply (poke_ok lit s1 v _ 0 Hs1); unfold user_addr; lia|]. intros _ s2 [Hs2 E2].
  eapply sat_bind; [apply (poke_ok lit s2 v _ 10 Hs2); unfold user_addr; lia|]. intros _ s3 [Hs3 E3].
  eapply sat_bind; [apply (poke_ok lit s3 v _ 124 Hs3); unfold user_addr; lia|]. intros _ s4 [Hs4 E4].
  eapply sat_bind; [apply (poke_ok lit s4 v _ 124 Hs4); unfold user_addr; lia|]. intros _ s5 [Hs5 E5].
  assert (walls (umem s5)) as Hw5.
  { split; [done|]. rewrite E5, E4, E3, E2, E1. split.
    { rewrite !(mget_mset_ne _ (buf + 1)), !(mget_mset_ne _ (buf + 78)), !(mget_mset_ne _ (buf + 79)) by lia. apply mget_mset_eq. }
    intros i Hi Hr. unfold pixel. rewrite (proj2 (Z.eqb_neq i (-1))) by lia.
    destruct (decide (i = 0 ∨ i = 1 ∨ i = 78 ∨ i = 79)) as [Hc|Hc]; [|lia].
    destruct_or! Hc; subst i; repeat (rewrite mget_mset_eq || rewrite mget_mset_ne by lia); try reflexivity.
    rewrite (mget_store_bytes_in _ buf _ 0 32) by reflexivity. reflexivity. }
  assert (outside buf 81 (umem s) (umem s5)) as O5.
  { intros a _ Ha. rewrite E5, E4, E3, E2, E1, !mget_mset_ne by lia. apply mget_store_bytes_out. rewrite length_replicate. lia. }
  destruct (literal_outside lit _ _ _ _ _ O5 Ha1 Hlit) as [Hc Hu].
  eapply sat_bind; [by apply (open_ok s5 v _ rtc Device Hs5 Hc)|]. intros fd s6 (v6 & (Hfd & Hno & ->) & Hs6 & M6).
  set (m7 := store32 (umem s6) ret_val 32). set (s7 := set_umem m7 s6). assert (umem s7 = m7) as E7 by apply umem_set.
  apply sat_bind with (λ _ s', s' = s7); [by exists (), s7|]. intros _ s' ->.
  assert (∀ a, ¬ ret_val ≤ a < ret_val + 4 → mget m7 a = mget (umem s6) a) as Hm7.
  { intros a Ha. apply frame_store32. lia. }
  assert (sees s7 (v_set_fd fd (Some Clock) v)) as Hs7.
  { apply sees_set; [done|]. intros a Ha. apply Hm7. unfold user_addr in Ha. lia. }
  assert (walls (umem s7)) as Hw7.
  { apply (walls_ext (umem s6)); [|by apply (walls_same (umem s5))]. intros i Hi. rewrite E7. apply Hm7. lia. }
  eapply sat_bind; [apply (write_clock_ok s7 _ fd ret_val 4 Hs7), v_set_lookup|]. intros r s8 (v8 & -> & Hs8 & M8).
  set (m9 := store32 (umem s8) ret_val r). set (s9 := set_umem m9 s8). assert (umem s9 = m9) as E9 by apply umem_set.
  apply sat_bind with (λ _ s', s' = s9); [by exists (), s9|]. intros _ s' ->.
  assert (∀ a, ¬ ret_val ≤ a < ret_val + 4 → mget m9 a = mget (umem s8) a) as Hm9 by (intros a Ha; by apply frame_store32).
  assert (sees s9 (v_set_fd fd (Some Clock) v)) as Hs9.
  { apply sees_set; [done|]. intros a Ha. apply Hm9. unfold user_addr in Ha. lia. }
  assert (walls (umem s9)) as Hw9.
  { apply (walls_ext (umem s8)); [|by apply (walls_same (umem s7))]. intros i Hi. rewrite E9. apply Hm9. lia. }
  eapply sat_mono; [apply (ping_loop_ok n s9 _ fd garbage 65 Hs9); [apply v_set_lookup|done|lia]|].
  intros r' s10 (-> & Hs10 & _). split; [done|]. exists fd. split; [done|]. by rewrite v_print_set in Hs10.
Qed.
End behaviour.

(** ** The calls of pingpong *)

(** The calls of a picture, and of all of them. *)
Definition shows (fd : Z) : list io := [Writes 1; Reads fd].
Definition shows_all (n : nat) (fd : Z) : list io := concat (replicate n (shows fd)).
Lemma shows_all_add a b fd : shows_all (a + b) fd = shows_all a fd ++ shows_all b fd.
Proof. unfold shows_all. by rewrite replicate_add, concat_app. Qed.

Section calls.
Context {S : Type} {sys : UserSys S} (lit : list Z → Z) (buf : Z).
(** A program on the logging machine, against itself. *)
Local Abbreviation logs m T := (traces (m (S * list io)%type logged_sys) (m S sys) T).

Lemma fill_logs n a c : logs (λ S sys, @fill S sys n a c) (λ _ t, t = []).
Proof.
  revert a. induction n as [|n IH]; intros a; [by apply traces_ret|]. cbn [fill].
  eapply traces_bind; [apply traces_poke|]. intros _ t ->. apply IH.
Qed.
Lemma draw_logs fd garbage j c : logs (λ S sys, @draw S sys fd buf garbage j c) (λ _ t, t = shows fd).
Proof.
  unfold draw. eapply traces_bind; [apply fill_logs|]. intros _ t ->.
  eapply traces_bind; [apply traces_poke|]. intros _ t ->. eapply traces_bind; [apply traces_fdputs|]. intros _ t ->.
  eapply traces_bind; [apply traces_call|]. intros r t ->. by apply traces_ret.
Qed.
Lemma move_out_logs n fd garbage j c :
  logs (λ S sys, @move_out S sys n fd buf garbage j c) (λ _ t, t = shows_all n fd).
Proof.
  revert j. induction n as [|n IH]; intros j; [by apply traces_ret|]. cbn [move_out].
  eapply traces_bind; [apply draw_logs|]. intros _ t ->. eapply traces_mono; [apply IH|]. by intros _ t ->.
Qed.
Lemma bounce_back_logs n fd garbage j c :
  logs (λ S sys, @bounce_back S sys n fd buf garbage j c) (λ _ t, t = shows_all n fd).
Proof.
  revert j. induction n as [|n IH]; intros j; [by apply traces_ret|]. cbn [bounce_back].
  eapply traces_bind; [apply draw_logs|]. intros _ t ->. eapply traces_mono; [apply IH|]. by intros _ t ->.
Qed.
Lemma ping_loop_logs n fd garbage c :
  logs (λ S sys, @ping_loop S sys n fd buf garbage c) (λ _ t, t = shows_all (152 * n) fd).
Proof.
  revert c. induction n as [|n IH]; intros c; [by apply traces_ret|]. cbn [ping_loop].
  eapply traces_bind; [apply move_out_logs|]. intros _ t ->. eapply traces_bind; [apply bounce_back_logs|]. intros _ t ->.
  eapply traces_mono; [apply IH|]. intros _ t ->. rewrite <- !shows_all_add. f_equal.
  change (Z.to_nat (LOOPMAX - STARTLOOP)) with 76%nat. lia.
Qed.
Lemma pingpong_logs n ret_val garbage :
  logs (λ S sys, @pingpong S sys lit n buf ret_val garbage)
    (λ _ t, ∃ fd, t = [Opens (lit (chars "rtc")) fd; Writes fd] ++ shows_all (152 * n) fd).
Proof.
  unfold pingpong. eapply traces_bind; [apply fill_logs|]. intros _ t ->.
  do 4 (eapply traces_bind; [apply traces_poke|]; intros _ t ->).
  eapply traces_bind; [apply traces_call|]. intros fd t ->.
  eapply traces_bind; [apply traces_mem|]. intros _ t ->.
  eapply traces_bind; [apply traces_call|]. intros r t ->.
  eapply traces_bind; [apply traces_mem|]. intros _ t ->.
  eapply traces_mono; [apply ping_loop_logs|]. intros _ t ->. by exists fd.
Qed.
End calls.
