(* ===== verification/UserSig.v ===== *)
(** * ece391sigtest.c

    The program that asks for signal handlers and stores through a null
    pointer.  [charbuf] and [badbuf] are the addresses of the static variables;
    a store outside the program's memory ends the run with its address. *)
From Stdlib Require Import Ascii String.
From S2P Require Import Prelude CMem LibString Screen Format Process Paging Kernel SysCalls Exec UserLib.
From S2P Require Import UserSys UserProg UserTalk.

Definition BUFSIZE := 1024.
Definition SEGFAULT := 1.
Definition ALARM := 3.

(** How the program ends. *)
Inductive ending := Returns (status : Z) | Faults (a : Z).

Section program.
Context {S : Type} `{UserSys S} (lit : list Z → Z) (charbuf badbuf : Z).

(** The [switch] of the handlers. *)
Definition print_signum (signum : Z) : user S () :=
  if signum =? 0 then puts_line lit "0"
  else if signum =? 1 then puts_line lit "1"
  else if signum =? 2 then puts_line lit "2"
  else if signum =? 3 then puts_line lit "3"
  else puts_line lit "invalid".
(** [signum]: the address of the argument; [eax] is seven words above it. *)
Definition segfault_sighandler (signum buf : Z) : user S () :=
  _ ← put lit (chars "Segfault signal handler called, signum: ");
  n ← with_mem (λ m, loads32 m signum);
  _ ← print_signum n;
  _ ← puts_line lit "Press enter to continue...";
  _ ← ece391_read 0 buf 1;
  _ ← on_mem (λ m, Some (store32 m badbuf charbuf));
  _ ← on_mem (λ m, Some (store32 m (signum + 7 * 4) charbuf));
  puts_line lit "Signal handler returning".
Definition alarm_sighandler (signum : Z) : user S () :=
  _ ← put lit (chars "Alarm signal handler called, signum: ");
  n ← with_mem (λ m, loads32 m signum);
  print_signum n.

(** [segfault_handler] and [alarm_handler]: the addresses of the two. *)
Definition install (segfault_handler alarm_handler : Z) : user S () :=
  _ ← puts_line lit "Installing signal handlers";
  _ ← ece391_set_handler SEGFAULT segfault_handler;
  _ ← ece391_set_handler ALARM alarm_handler;
  mret ().
(** [main] after the store. *)
Definition greet (buf cnt : Z) : user S ending :=
  _ ← poke (buf + cnt) 0;
  _ ← put lit (chars "Hello, ");
  _ ← ece391_fdputs 1 buf;
  c ← peek charbuf;
  _ ← (if c =? 1 then puts_line lit "success" else puts_line lit "failure");
  mret (Returns 0).
Definition sigtest (segfault_handler alarm_handler buf : Z) : user S ending :=
  r ← ece391_getargs buf BUFSIZE;
  if negb (0 =? r) then _ ← puts_line lit "could not read argument"; mret (Returns 3)
  else
    c ← peek buf;
    _ ← (if c =? 49 then install segfault_handler alarm_handler else mret ());
    _ ← put lit (chars "Hi, what's your name? ");
    cnt ← ece391_read 0 buf (BUFSIZE - 1);
    if -1 =? cnt then _ ← puts_line lit "Can't read name from keyboard."; mret (Returns 3)
    else
      a ← with_mem (λ m, load32 m badbuf);
      if (PROG_VM_START <=? a) && (a <? PROG_VM_START + SPACE_4MB) then _ ← poke a 1; greet buf cnt
      else mret (Faults a).
End program.

(** ** What the program does *)

Section behaviour.
Context {S : Type} {sys : UserSys S} {sees : S → view → Prop} {spec : UserSpec S sees} {inp : UserInput S sees}.
Context (lit : list Z → Z) (charbuf badbuf buf : Z).
Implicit Types (s : S) (v : view).
Local Abbreviation off := (outside buf 1024).

Definition installing : list Z := line "Installing signal handlers".
Definition success : list Z := line "success".
Definition sig_literals : list (list Z) := [installing; greeting; chars "Hello, "; success; line "failure"].
Definition announced (args : list Z) : list Z := match args with 49 :: _ => installing | _ => [] end.
(** The variables lie apart from the array and from each other. *)
Record sig_data : Prop := {
  sg_bad : in_user badbuf 4 ∧ (badbuf + 4 ≤ buf ∨ buf + 1024 ≤ badbuf);
  sg_char : user_addr charbuf ∧ (charbuf + 1 ≤ buf ∨ buf + 1024 ≤ charbuf) }.

Lemma install_ok s v h1 h2 : sees s v → literal lit (umem s) installing →
  sat (install lit h1 h2) s (λ _ s', sees s' (v_print installing v) ∧ user_same (umem s) (umem s')).
Proof using spec.
  intros Hs Hl. unfold install.
  eapply sat_bind; [apply (puts_line_ok lit s v); [done|exact Hl]|]. intros _ s1 [S1 M1].
  eapply sat_bind; [apply (set_handler_refused (sees := sees) s1 _ SEGFAULT h1 S1)|]. intros r s2 (v2 & (_ & ->) & S2 & M2).
  eapply sat_bind; [apply (set_handler_refused (sees := sees) s2 _ ALARM h2 S2)|]. intros r' s3 (v3 & (_ & ->) & S3 & M3).
  apply sat_ret. split; [exact S3|]. intros a Ha. by rewrite M3, M2, M1.
Qed.

(** The first character of the argument decides. *)
Lemma first_char m args : Forall (λ c, 0 < c < 256) args → mget (store_bytes m buf (args ++ [0])) buf = default 0 (head args).
Proof using.
  clear lit charbuf badbuf. intros Ha. destruct args as [|c args].
  - rewrite mget_store_bytes, decide_True by (simpl; lia). by rewrite Z.sub_diag.
  - apply Forall_cons in Ha as [Hc _]. rewrite mget_store_bytes, decide_True by (cbn [app length]; lia).
    rewrite Z.sub_diag. cbn. apply u8_small. lia.
Qed.
Lemma announce_ok s v h1 h2 args : sees s v → literals_apart lit buf sig_literals s → mget (umem s) buf = default 0 (head args) →
  sat (c ← peek buf; if c =? 49 then install lit h1 h2 else mret ()) s
    (λ _ s', sees s' (v_print (announced args) v) ∧ user_same (umem s) (umem s')).
Proof using spec inp.
  intros Hs Hl Hc. apply sat_bind with (λ c s', c = default 0 (head args) ∧ s' = s); [by exists (mget (umem s) buf), s|].
  intros c s' [-> ->]. unfold announced. destruct args as [|c args]; cbn [head default from_option id].
  - change (0 =? 49) with false. cbn iota. apply sat_ret. split; [by destruct v|done].
  - destruct (Z.eqb_spec c 49) as [->|Hne].
    + apply install_ok; [done|]. apply (literals_apart_in _ _ _ _ _ Hl). clear. unfold sig_literals. set_solver.
    + apply sat_ret. assert (announced (c :: args) = []) as E by (unfold announced; by repeat case_match).
      unfold announced in E. rewrite E. split; [by destruct v|done].
Qed.

(** Everything up to the store through [badbuf]. *)
Definition after_line (cnt : Z) : user S ending :=
  a ← with_mem (λ m, load32 m badbuf);
  if (PROG_VM_START <=? a) && (a <? PROG_VM_START + SPACE_4MB) then _ ← poke a 1; greet lit charbuf buf cnt else mret (Faults a).
Lemma sigtest_before s v h1 h2 l lines Q :
  sees s v → v_input v = l :: lines → line_ok l → literals_apart lit buf sig_literals s →
  Forall (λ c, 0 < c < 256) (v_args v) → Z.of_nat (length (v_args v)) < 1024 →
  (∀ s', sees s' (v_typed lines (v_print (announced (v_args v) ++ greeting ++ l ++ [10]) v)) →
    literals_apart lit buf sig_literals s' → load_bytes (umem s') buf (length l + 1) = l ++ [10] →
    off (umem s) (umem s') → sat (after_line (Z.of_nat (length l) + 1)) s' Q) →
  sat (sigtest lit charbuf badbuf h1 h2 buf) s Q.
Proof using spec inp.
  intros Hs Hin Hl Hlit Ha Hla Hend. unfold sigtest, BUFSIZE. pose proof Hlit as [[U1 U2] _].
  eapply sat_bind; [apply (getargs_ok s v buf 1024 Hs); [lia|split; lia]|]. intros r s1 (v1 & (-> & ->) & S1 & M1).
  change (negb (0 =? 0)) with false. cbn iota.
  assert (off (umem s) (umem s1)) as O1.
  { rewrite <- (Z.add_0_r buf) in M1. eapply (outside_store _ _ _ _ 0 (v_args v ++ [0])); [lia| |exact M1]. rewrite length_app. simpl. lia. }
  pose proof (literals_apart_off _ _ _ _ _ Hlit O1) as L1.
  assert (mget (umem s1) buf = default 0 (head (v_args v))) as Hc.
  { rewrite M1 by (unfold user_addr; lia). by apply first_char. }
  assert (∀ {B} (k : user S B) Q', sat (_ ← (c ← peek buf; if c =? 49 then install lit h1 h2 else mret ()); k) s1 Q' →
    sat (c ← peek buf; _ ← (if c =? 49 then install lit h1 h2 else mret ()); k) s1 Q') as Hassoc by (intros B k Q' Hk; exact Hk).
  apply Hassoc. clear Hassoc.
  eapply sat_bind; [exact (announce_ok s1 v h1 h2 _ S1 L1 Hc)|]. intros _ s2 [S2 M2].
  pose proof (literals_apart_same _ _ _ _ _ L1 M2) as L2.
  eapply sat_bind; [apply (put_ok lit s2 _ greeting S2), (literals_apart_in _ _ _ _ _ L2); clear; unfold sig_literals; set_solver|].
  intros _ s3 (_ & S3 & M3). pose proof (literals_apart_same _ _ _ _ _ L2 M3) as L3.
  eapply sat_bind; [apply (array_line (sees := sees) lit buf s3 _ l lines _ S3 Hin Hl L3)|].
  intros cnt s4 (-> & S4 & L4 & B4 & O4). rewrite (proj2 (Z.eqb_neq (-1) _)) by lia.
  apply Hend; [|done|done|].
  - rewrite <- !v_print_app in S4. exact S4.
  - eapply outside_trans; [exact O1|]. eapply outside_trans; [apply outside_same, M2|].
    eapply outside_trans; [apply outside_same, M3|]. exact O4.
Qed.

(** Signals are not delivered: the null pointer ends the program. *)
Lemma sigtest_faults_ok s v h1 h2 l lines :
  sig_data → sees s v → v_input v = l :: lines → line_ok l → literals_apart lit buf sig_literals s →
  Forall (λ c, 0 < c < 256) (v_args v) → Z.of_nat (length (v_args v)) < 1024 → load32 (umem s) badbuf = 0 →
  sat (sigtest lit charbuf badbuf h1 h2 buf) s (λ r s', r = Faults 0 ∧
    sees s' (v_typed lines (v_print (announced (v_args v) ++ greeting ++ l ++ [10]) v))).
Proof using spec inp.
  intros [[[B1 B2] Bo] _] Hs Hin Hl Hlit Ha Hla Hz. apply (sigtest_before s v h1 h2 l lines); [done..|].
  intros s' S' _ _ O'. unfold after_line.
  assert (load32 (umem s') badbuf = 0) as E by (rewrite <- Hz; unfold load32; rewrite !O' by (unfold user_addr; lia); done).
  exists (Faults 0), s'. split; [|done]. unfold with_mem, mbind, user_bind. rewrite E. reflexivity.
Qed.

(** With [badbuf] repaired the store is seen. *)
Lemma greet_ok s v l : sig_data → sees s v → line_ok l → literals_apart lit buf sig_literals s →
  Forall (λ l, apart lit l charbuf 1) sig_literals → load_bytes (umem s) buf (length l + 1) = l ++ [10] →
  load32 (umem s) badbuf = charbuf → 0 ≤ charbuf →
  sat (after_line (Z.of_nat (length l) + 1)) s (λ r s', r = Returns 0 ∧
    sees s' (v_print (chars "Hello, " ++ l ++ [10] ++ success) v)).
Proof using spec inp.
  intros [_ [C1 Co]] Hs [Hlen Hc] Hlit Hap Hb Hbad H0. pose proof Hlit as [[U1 U2] Hls]. unfold after_line.
  apply sat_bind with (λ a s', a = charbuf ∧ s' = s); [exists charbuf, s; split; [unfold with_mem; by rewrite Hbad|done]|].
  intros a s' [-> ->]. rewrite (proj2 (Z.leb_le _ _)), (proj2 (Z.ltb_lt _ _)) by (destruct C1; lia). cbn [andb].
  eapply sat_bind; [apply (poke_ok lit s v charbuf 1 Hs C1)|]. intros _ s1 [S1 E1].
  assert (literals_apart lit buf sig_literals s1) as L1.
  { split; [done|]. rewrite Forall_forall in Hls, Hap. apply Forall_forall. intros x Hx. destruct (Hls x Hx) as [[Hcx Hux] Hax].
    split; [|done]. split; [|done]. apply (cstr_ext (umem s)); [|done]. specialize (Hap x Hx). unfold apart in Hap.
    intros i Hi. rewrite E1. apply mget_mset_ne. lia. }
  assert (load_bytes (umem s1) buf (length l + 1) = l ++ [10]) as Hb1.
  { rewrite <- Hb. apply load_bytes_ext. intros i Hi. rewrite E1. apply mget_mset_ne. lia. }
  unfold greet. eapply sat_bind; [apply (poke_off (sees := sees) lit buf s1 v _ (Z.of_nat (length l) + 1) 0 S1 L1); lia|].
  intros _ s2 (S2 & L2 & E2).
  assert (cstr (umem s2) buf (l ++ [10])) as Hc2.
  { rewrite E2. replace (Z.of_nat (length l) + 1) with (Z.of_nat (length (l ++ [10]))) by (rewrite length_app; simpl; lia).
    apply (string_marked _ _ _ 0).
    - rewrite length_app, Nat.add_0_r, app_nil_r. exact Hb1.
    - apply Forall_app. split; [eapply Forall_impl; [exact Hc|]; simpl; lia|repeat constructor; lia]. }
  eapply sat_bind; [apply (put_ok lit s2 v _ S2), (literals_apart_in _ _ _ _ _ L2); clear; unfold sig_literals; set_solver|].
  intros _ s3 (_ & S3 & M3).
  assert (in_user buf (Z.of_nat (length (l ++ [10])) + 1)) as Hu by (rewrite length_app; simpl; split; lia).
  eapply sat_bind; [apply (fdputs_ok lit s3 _ buf (l ++ [10]) S3); [by apply (user_same_cstr (umem s2))|done]|].
  intros _ s4 [S4 M4]. pose proof (literals_apart_same _ _ _ _ _ (literals_apart_same _ _ _ _ _ L2 M3) M4) as L4.
  apply sat_bind with (λ c s', c = 1 ∧ s' = s4).
  { exists (mget (umem s4) charbuf), s4. split; [done|]. split; [|done]. rewrite (M4 _ C1), (M3 _ C1), E2, mget_mset_ne, E1 by lia. apply mget_mset_eq. }
  intros c s' [-> ->]. change (1 =? 1) with true. cbn iota.
  eapply sat_bind; [apply (puts_line_ok lit s4 _ "success" S4), (literals_apart_in _ _ _ _ _ L4); clear; unfold sig_literals; set_solver|].
  intros _ s5 [S5 _]. apply sat_ret. split; [done|]. rewrite <- !v_print_app, <- !app_assoc in S5. exact S5.
Qed.
End behaviour.
