(* ===== verification/UserKernel.v ===== *)
(** * The kernel implements the interface of the user programs

    The system calls of sys_calls.c, made by the running process, keep the
    promises of UserSys.v; so what UserProg.v proves of a program holds of it
    on this kernel, down to the characters in video memory. *)
From Stdlib Require Import Ascii String.
From S2P Require Import Prelude CMem LibString Ports Screen Format Process FileSys Paging Idt Rtc KeyTable.
From S2P Require Import Keyboard Kernel SysCalls Exec UserLib UserSys UserProg.

(** The stack frame of a call, and what the registers hold that the caller
    does not set. *)
Record call_locals := CallLocals { call_frame : exec_frame; raw_ebx : Z; raw_ecx : Z; raw_edx : Z }.

Section kernel.
Context {D : Type} `{Board D} `{Layout} `{Mmu} (loc : call_locals).
Implicit Types (k : kernel D) (v : view).

Local Abbreviation stk := (call_frame loc).
Local Abbreviation dentry := (exec_dentry (call_frame loc)).

(** The clock interrupts that end the wait of [rtc_read]. *)
Definition after_ticks k : option (kernel D) :=
  let p := pid (cur_pcb k) in
  let n := Z.to_nat (curr_count (proc_of (krtc k) p)) in
  let '(s, d) := Nat.iter n (λ sd, rtc_handler_main sd.1 sd.2) (krtc k, kdev k) in
  if rtc_read_done p s then Some (set_kdev d (set_krtc s k)) else None.

Definition returned (o : outcome D) : option (Z * kernel D) :=
  match o with Ret r k => Some (r, k) | _ => None end.
(** A call that waits for the keyboard or faults does not come back here. *)
Definition call (f : kernel D → outcome D) : user (kernel D) Z :=
  λ k, match f k with
       | Wait_rtc k => k ← after_ticks k; returned (read_rtc_finish k)
       | o => returned o
       end.
Definition int80 (eax ebx ecx edx : Z) : user (kernel D) Z := call (handle_syscall stk eax ebx ecx edx).

(** The stubs of ece391syscall.S, over the trap that takes the number. *)
Definition stubs {S} (um : S → mem) (sum : mem → S → S) (trap : Z → Z → Z → Z → user S Z) : UserSys S := {|
  umem := um;
  set_umem := sum;
  ece391_execute p := trap 2 p (raw_ecx loc) (raw_edx loc);
  ece391_read fd buf n := trap 3 fd buf n;
  ece391_write fd buf n := trap 4 fd buf n;
  ece391_open p := trap 5 p (raw_ecx loc) (raw_edx loc);
  ece391_close fd := trap 6 fd (raw_ecx loc) (raw_edx loc);
  ece391_getargs buf n := trap 7 buf n (raw_edx loc);
  ece391_vidmap p := trap 8 p (raw_ecx loc) (raw_edx loc);
  ece391_set_handler n h := trap 9 n h (raw_edx loc);
  call_sys n := trap n (raw_ebx loc) (raw_ecx loc) (raw_edx loc) |}.
#[export] Instance kernel_sys : UserSys (kernel D) := stubs kmem set_kmem int80.

(** ** What the running process sees *)

Definition args_addr k : Z := cur_addr k + PCB_ARGS.

(** Kernel data that is not the program's: the file system lies above the
    video pages and below the program, and meets neither the PCB nor the
    frame of the call. *)
Definition apart_from k (a n : Z) : Prop :=
  VIDEO + 4 * PAGE_SIZE ≤ a ∧ a + n ≤ PROG_VM_START ∧ outside_image (kmem k) (kboot k) a n.
Record layout_ok k : Prop := {
  lay_image : VIDEO + 4 * PAGE_SIZE ≤ kboot k ∧ image_end (kmem k) (kboot k) ≤ PROG_VM_START;
  lay_inodes : 1 ≤ inode_cnt (kmem k) (kboot k);
  lay_args : apart_from k (args_addr k) ARGS_MAX;
  lay_frame : frame_ok stk (kmem k) (kboot k) PROG_VM_START [];
  lay_frame_args : Forall (λ b, disjoint b.1 b.2 (args_addr k) ARGS_MAX) (locals stk) }.

(** What a descriptor delivers. *)
Definition fd_shows k (names : list (list Z)) (f : fd_t) (st : option stream) : Prop :=
  match st with
  | None => flags f = 0
  | Some (Bytes rest) =>
      flags f = FD_LIVE ∧ fops f = Some fs_fops ∧ file_ok (kmem k) (kboot k) (inode_num f) ∧
      0 ≤ pos f ≤ file_length (kmem k) (kboot k) (inode_num f) ∧
      rest = drop (Z.to_nat (pos f)) (file_contents (kmem k) (kboot k) (inode_num f))
  | Some (Names rest) =>
      flags f = FD_LIVE ∧ fops f = Some dir_fops ∧ 0 ≤ pos f ≤ Z.of_nat (length names) ∧
      rest = drop (Z.to_nat (pos f)) names
  | Some Past_end => flags f = FD_LIVE ∧ fops f = Some dir_fops ∧ 0 ≤ pos f
  | Some Clock => flags f = FD_LIVE ∧ fops f = Some rtc_fops
  end.

(** A file of the image. *)
Definition file_shows k (name : list Z) (f : file) : Prop :=
  ∃ i, names_file (kmem k) (kboot k) i name ∧ Z.of_nat (length name) < ARGS_MAX ∧
    let d := dentry_addr (kboot k) i in
    match f with
    | Regular data =>
        let ino := u32 (dentry_inode (kmem k) d) in
        dentry_ftype (kmem k) d = FILE_FTYPE ∧ file_ok (kmem k) (kboot k) ino ∧
        file_contents (kmem k) (kboot k) ino = data
    | Directory => dentry_ftype (kmem k) d = DIR_FTYPE
    | Device => dentry_ftype (kmem k) d = RTC_FTYPE
    end.

(** Somebody sits at the process's terminal and has typed nothing yet. *)
Definition attended k (t : terminal_t) : Prop :=
  term_num (cur_pcb k) = current_terminal (kkbd k) ∧ current_terminal (kkbd k) < MAX_TERMINALS ∧
  buf_count t = 0 ∧ input_len t = 0.
Definition terminal_shows k v : Prop :=
  ∃ t, get_terminal (term_num (cur_pcb k)) (kkbd k) = Some t ∧ term_ok t ∧
    video_mem (screen t) = VIDEO ∧ v_screen v = abs_screen (kmem k) (screen t) ∧
    (v_input v ≠ [] → attended k t).

(** The waits of the clock are 32-bit numbers. *)
Definition clock_ok (s : rtc_state) : Prop :=
  length (rtc_procs s) = 6%nat ∧ Forall (λ p, sword32 (max_count p)) (rtc_procs s).

Record kview k v : Prop := {
  kv_fds : fds_ok (files (cur_pcb k));
  kv_std fd : 0 ≤ fd < 2 → ops_live (cur_fd fd k) = (Some term_fops, FD_LIVE);
  kv_image : image_ok (kmem k) (kboot k);
  kv_layout : layout_ok k;
  kv_term : terminal_shows k v;
  kv_args : cstr (kmem k) (args_addr k) (v_args v) ∧
    args_len (cur_pcb k) = Z.of_nat (length (v_args v)) ∧ Z.of_nat (length (v_args v)) < ARGS_MAX;
  kv_range fd st : v_fds v !! fd = Some st → 2 ≤ fd < FILE_ARRAY_LEN;
  kv_streams fd : 2 ≤ fd < FILE_ARRAY_LEN → fd_shows k (v_names v) (cur_fd fd k) (v_fds v !! fd);
  kv_count : Z.of_nat (length (v_names v)) = dir_entries_cnt (kmem k) (kboot k);
  kv_names i name : v_names v !! i = Some name →
    dir_has (kmem k) (kboot k) (Z.of_nat i) name ∧ (length name ≤ 32)%nat;
  kv_files name f : v_files v !! name = Some f → file_shows k name f;
  kv_clock : 1 ≤ pid (cur_pcb k) ≤ MAX_PROCESSES ∧ clock_ok (krtc k);
  kv_devices : get_device_fops RTC_FTYPE (kproc k) = Some rtc_fops ∧
    get_device_fops DIR_FTYPE (kproc k) = Some dir_fops ∧
    get_device_fops FILE_FTYPE (kproc k) = Some fs_fops }.

(** The locals, from the layout. *)
Lemma layout_local k a n : layout_ok k → (a, n) ∈ locals stk →
  apart_from k a n ∧ disjoint a n (args_addr k) ARGS_MAX.
Proof using.
  intros Hl Hin. pose proof (lay_frame _ Hl) as [H1' H2' _ _ _ _]. pose proof (lay_frame_args _ Hl) as H3'.
  rewrite Forall_forall in H1', H2', H3'. specialize (H1' _ Hin). specialize (H2' _ Hin). specialize (H3' _ Hin).
  cbn [fst snd] in *. split; [|done]. unfold apart_from, in_kernel, KERNEL_LOC, SPACE_4MB, VIDEO, PAGE_SIZE, PROG_VM_START in *.
  split; [lia|]. split; [lia|done].
Qed.
Lemma layout_dentry k : layout_ok k →
  apart_from k dentry BYTES_DENTRY ∧ disjoint dentry BYTES_DENTRY (args_addr k) ARGS_MAX.
Proof using. intros Hl. apply layout_local; [done|]. unfold locals. set_solver. Qed.
Lemma lay_inode k : image_ok (kmem k) (kboot k) → layout_ok k →
  kboot k + 2 * BLOCK_SIZE ≤ image_end (kmem k) (kboot k).
Proof using. intros Hi Hl. pose proof (lay_inodes _ Hl). pose proof (img_blocks _ _ Hi). unfold image_end, BLOCK_SIZE. lia. Qed.

(** ** What a call keeps *)

(** The kernel data in memory [m'] is that of [k]. *)
Record data_same k (m' : mem) : Prop := {
  ds_image b : kboot k ≤ b < image_end (kmem k) (kboot k) → mget m' b = mget (kmem k) b;
  ds_args b : args_addr k ≤ b < args_addr k + ARGS_MAX → mget m' b = mget (kmem k) b }.

Lemma fd_shows_same k k' names f st :
  image_ok (kmem k) (kboot k) → kboot k' = kboot k → data_same k (kmem k') →
  fd_shows k names f st → fd_shows k' names f st.
Proof using.
  intros Hi Hb [Hs _]. unfold fd_shows. rewrite Hb. destruct st as [[rest|rest| |]|]; try done.
  intros (H1' & H2' & Hf & Hp & ->). destruct (file_same _ _ _ _ Hi Hf Hs) as (F1 & F2 & F3).
  rewrite F2, F3. done.
Qed.

Lemma dentry_words_same m m' bb i :
  (∀ b, bb ≤ b < bb + 4096 → mget m' b = mget m b) → 0 ≤ i < NUM_INODES →
  dentry_ftype m' (dentry_addr bb i) = dentry_ftype m (dentry_addr bb i) ∧
  dentry_inode m' (dentry_addr bb i) = dentry_inode m (dentry_addr bb i).
Proof using.
  intros Hs Hi. unfold dentry_ftype, dentry_inode, loads32, load32, dentry_addr, FNAME_LEN, NUM_INODES, BYTES_DENTRY in *.
  by rewrite !Hs by lia.
Qed.

Lemma file_shows_same k k' name f :
  image_ok (kmem k) (kboot k) → layout_ok k → kboot k' = kboot k → data_same k (kmem k') →
  file_shows k name f → file_shows k' name f.
Proof using.
  intros Hi Hl Hb [Hs _] (i & Hn & Hlen & Hf). exists i. rewrite Hb. pose proof (lay_inode _ Hi Hl) as Hin.
  split; [by apply (names_file_same (kmem k))|]. split; [done|]. cbv zeta in *.
  assert (0 ≤ i < NUM_INODES) as Hr.
  { destruct Hn as [[Hr _] _]. pose proof (img_dirs _ _ Hi). lia. }
  unfold BLOCK_SIZE in Hin.
  destruct (dentry_words_same (kmem k) (kmem k') (kboot k) i) as [-> ->]; [intros b Hb'; apply Hs; lia|done|].
  destruct f; [|done..]. destruct Hf as (H1' & H2' & H3').
  destruct (file_same _ _ _ _ Hi H2' Hs) as (F1 & _ & F3). by rewrite F3.
Qed.

Lemma apart_same k k' a n :
  image_ok (kmem k) (kboot k) → kboot k' = kboot k → data_same k (kmem k') →
  apart_from k a n → apart_from k' a n.
Proof using.
  intros Hi Hb [Hs _] (H1' & H2' & H3'). split; [done|]. split; [done|].
  destruct (image_same _ _ _ Hi Hs) as (_ & E1 & E2 & _). unfold outside_image, image_end in *. by rewrite Hb, E1, E2.
Qed.

Lemma frame_ok_same f m m' bb command l :
  image_ok m bb → (∀ b, bb ≤ b < image_end m bb → mget m' b = mget m b) →
  frame_ok f m bb command l → frame_ok f m' bb command l.
Proof using.
  intros Hi Hs [H1' H2' H3' H4' H5' H6']. destruct (image_same _ _ _ Hi Hs) as (_ & E1 & E2 & _).
  split; [|done..]. eapply Forall_impl; [exact H1'|]. intros [a n]. unfold outside_image, image_end. by rewrite E1, E2.
Qed.
Lemma layout_same k k' :
  image_ok (kmem k) (kboot k) → kboot k' = kboot k → kesp k' = kesp k → data_same k (kmem k') →
  layout_ok k → layout_ok k'.
Proof using.
  intros Hi Hb He Hs [H1' H2' H3' H4' H5'].
  assert (args_addr k' = args_addr k) as Ea by (unfold args_addr, cur_addr; by rewrite He).
  destruct (image_same _ _ _ Hi (ds_image _ _ Hs)) as (_ & E1 & E2 & _).
  assert (image_end (kmem k') (kboot k') = image_end (kmem k) (kboot k)) as Ei
    by (unfold image_end; by rewrite Hb, E1, E2).
  split; rewrite ?Ea, ?Ei, ?Hb, ?E1; try done; [by apply (apart_same k)|].
  apply (frame_ok_same _ (kmem k)); [done|apply (ds_image _ _ Hs)|done].
Qed.

(** The terminal after a change that is not a change of it. *)
Lemma terminal_kept k k' v v' :
  terminal_shows k v → kkbd k' = kkbd k → term_num (cur_pcb k') = term_num (cur_pcb k) →
  (∀ b, VIDEO ≤ b < VIDEO + 4000 → mget (kmem k') b = mget (kmem k) b) →
  v_screen v' = v_screen v → v_input v' = v_input v → terminal_shows k' v'.
Proof using.
  intros (t & H1' & H2' & H3' & H4' & H5') Hk Ht Hm Es Ei. exists t. rewrite Hk, Ht, Es, Ei, H4'.
  split; [done|]. split; [done|]. split; [done|]. split.
  - symmetry. apply abs_screen_ext. by rewrite H3'.
  - intros Hi. unfold attended. rewrite Hk, Ht. by apply H5'.
Qed.

Lemma kview_step k k' v v' :
  kview k v → kesp k' = kesp k → kproc k' = kproc k → kboot k' = kboot k → data_same k (kmem k') →
  cur_pcb k' = pcb_set_files (files (cur_pcb k')) (cur_pcb k) → fds_ok (files (cur_pcb k')) →
  (∀ fd, 0 ≤ fd < 2 → ops_live (cur_fd fd k') = ops_live (cur_fd fd k)) →
  terminal_shows k' v' → clock_ok (krtc k') →
  v_args v' = v_args v → v_names v' = v_names v → v_files v' = v_files v →
  (∀ fd st, v_fds v' !! fd = Some st → 2 ≤ fd < FILE_ARRAY_LEN) →
  (∀ fd, 2 ≤ fd < FILE_ARRAY_LEN → fd_shows k (v_names v) (cur_fd fd k') (v_fds v' !! fd)) →
  kview k' v'.
Proof using.
  intros [K1 K2 K3 K4 K5 (A1 & A2 & A3) _ _ K9 K10 K11 K12 K13] He Hp Hb Hs Hc Hf Ho Ht Hck Ea En Ef Hr Hst.
  destruct (image_same _ _ _ K3 (ds_image _ _ Hs)) as (Ed & _ & _ & Hi').
  pose proof (lay_inode _ K3 K4) as Hin.
  split; rewrite ?Ea, ?En, ?Ef, ?Hp, ?Hb, ?Ed; try done.
  - intros fd Hfd. rewrite Ho by done. by apply K2.
  - by apply (layout_same k).
  - rewrite Hc. unfold args_addr, cur_addr in *. rewrite He. split; [|done].
    eapply cstr_ext; [|exact A1]. intros i Hi. apply (ds_args _ _ Hs). unfold args_addr, cur_addr. lia.
  - intros fd Hfd. eapply fd_shows_same; eauto.
  - intros i name Hn. destruct (K10 i name Hn) as [Hd Hl]. split; [|done].
    apply (dir_has_same (kmem k)); [done|apply (ds_image _ _ Hs)|done| |done]. unfold ARGS_MAX. lia.
  - intros name f Hnf. by apply (file_shows_same k), K11.
  - rewrite Hc. split; [apply K12|done].
Qed.

(** A change of memory that leaves the kernel data and the screen alone. *)
Definition memory_same k (m' : mem) : Prop :=
  data_same k m' ∧ ∀ b, VIDEO ≤ b < VIDEO + 4000 → mget m' b = mget (kmem k) b.

(** A change of memory and devices. *)
Lemma kview_same k k' v :
  kview k v → kesp k' = kesp k → kproc k' = kproc k → kpcbs k' = kpcbs k → kboot k' = kboot k →
  kkbd k' = kkbd k → clock_ok (krtc k') → memory_same k (kmem k') → kview k' v.
Proof using.
  intros Hv He Hp Hc Hb Hk Hck [Hd Hm].
  assert (cur_pcb k' = cur_pcb k) as Ec by (unfold cur_pcb, cur_addr; by rewrite He, Hc).
  apply (kview_step k k' v v Hv); try done; rewrite ?Ec; try apply Hv.
  - by destruct (cur_pcb k).
  - intros fd _. unfold cur_fd. by rewrite Ec.
  - apply (terminal_kept k k' v v); try done; [apply Hv|by rewrite Ec].
  - intros fd Hfd. unfold cur_fd. rewrite Ec. by apply (kv_streams _ _ Hv).
Qed.
Lemma kview_mem k v m' : kview k v → memory_same k m' → kview (set_kmem m' k) v.
Proof using. intros Hv Hm. apply (kview_same k); try done. apply (kv_clock _ _ Hv). Qed.

(** A store into the program's memory is such a change. *)
Lemma low_memory_same k m' :
  layout_ok k → (∀ b, VIDEO ≤ b < PROG_VM_START → mget m' b = mget (kmem k) b) → memory_same k m'.
Proof using.
  intros Hl Hs. destruct (lay_image _ Hl) as [L1 L2]. destruct (lay_args _ Hl) as (A1 & A2 & _).
  unfold VIDEO, ARGS_MAX, PAGE_SIZE, PROG_VM_START in *.
  split; [split|]; intros b Hb; apply Hs; unfold VIDEO, ARGS_MAX, PROG_VM_START in *; lia.
Qed.
Lemma system_memory_same k m' : layout_ok k → system_same (kmem k) m' → memory_same k m'.
Proof using.
  intros Hl Hs. apply low_memory_same; [done|]. intros b Hb. apply Hs. unfold user_addr. lia.
Qed.
Lemma user_store_same m buf l : in_user buf (Z.of_nat (length l)) → system_same m (store_bytes m buf l).
Proof using.
  intros [H1' H2'] a Ha. apply mget_store_bytes_out. unfold user_addr in Ha. lia.
Qed.

(** A local of the kernel. *)
Lemma local_memory_same k d n m' :
  layout_ok k → apart_from k d n → disjoint d n (args_addr k) ARGS_MAX →
  frame d (d + n) (kmem k) m' → memory_same k m' ∧ user_same (kmem k) m'.
Proof using.
  intros Hl (A1 & A2 & A3) Hd Hf. destruct (lay_image _ Hl) as [L1 L2].
  unfold disjoint, outside_image, PAGE_SIZE in *.
  split; [split; [split|]|]; intros b Hb; apply Hf; unfold user_addr in *; lia.
Qed.

(** The locals of a call. *)
Lemma locals_memory_same k m' :
  layout_ok k → (∀ b, (∀ a n, (a, n) ∈ locals stk → ¬ a ≤ b < a + n) → mget m' b = mget (kmem k) b) →
  memory_same k m' ∧ user_same (kmem k) m'.
Proof using.
  intros Hl Hs. destruct (lay_image _ Hl) as [L1 L2]. destruct (lay_args _ Hl) as (A1 & A2 & _).
  split; [split; [split|]|]; intros b Hb; apply Hs; intros a n Hin;
    destruct (layout_local k a n Hl Hin) as [(P1 & P2 & P3) P4];
    unfold disjoint, outside_image, user_addr, PAGE_SIZE in *; lia.
Qed.

(** Changing one descriptor. *)
Lemma kview_set_fd k k' v fd f st :
  kview k v → same_frame (set_cur_fd fd f k) k' → clock_ok (krtc k') → 2 ≤ fd < FILE_ARRAY_LEN → fd_ok f →
  fd_shows k (v_names v) f st → kview k' (v_set_fd fd st v).
Proof using.
  intros Hv Hk Hck Hfd Hf Hst. pose proof (same_frame_cur _ _ Hk) as [Hc _].
  destruct Hk as (Em & Ep & _ & Ek & _ & Ee & Eb).
  pose proof (kv_fds _ _ Hv) as Hfds. assert (length (files (cur_pcb k)) = 8%nat) as Hlen by apply Hfds.
  assert (∀ j, 0 ≤ j < 8 → cur_fd j k' = if decide (j = fd) then f else cur_fd j k) as Hj.
  { intros j Hj. unfold cur_fd at 1. rewrite Hc. apply cur_fd_set; lia. }
  unfold FILE_ARRAY_LEN in *.
  assert (cur_pcb k' = pcb_set_files (files (cur_pcb k')) (cur_pcb k)) as Hcur.
  { unfold set_cur_fd in Hc. rewrite cur_pcb_set_kpcb in Hc. rewrite Hc. by destruct (cur_pcb k). }
  apply (kview_step k k' v); rewrite ?Ep, ?Eb; try done.
  - by rewrite Em.
  - rewrite Hc, files_set_cur_fd. by apply fds_insert.
  - intros j Hj'. by rewrite Hj, decide_False by lia.
  - apply (terminal_kept k k' v); try done; [apply Hv|by rewrite Hcur|by rewrite Em].
  - intros j st'. destruct (decide (j = fd)) as [->|Hne]; [done|]. simpl.
    rewrite lookup_partial_alter_ne by done. apply (kv_range _ _ Hv).
  - intros j Hjr. rewrite Hj by (unfold FILE_ARRAY_LEN in *; lia). simpl. destruct (decide (j = fd)) as [->|Hne].
    + by rewrite lookup_partial_alter_eq.
    + rewrite lookup_partial_alter_ne by done. by apply (kv_streams _ _ Hv).
Qed.

(** ** The clock *)

Lemma clock_write m buf p s (d : D) : clock_ok s → clock_ok (rtc_write m buf p s d).1.2.
Proof using.
  intros Hc. unfold rtc_write. do 3 (case_match; [done|]). cbv zeta.
  assert (clock_ok (Rtc (rtc_rate s) (rtc_users s) (upd_proc p (λ q,
    set_max_count (s32 (Z.quot (rtc_rate s) (loads32 m buf))) (set_rate_field (loads32 m buf) q)) (rtc_procs s)))) as Hu.
  { destruct Hc as [Hl Hf]. unfold clock_ok. cbn [rtc_procs]. unfold upd_proc. rewrite length_insert. split; [done|].
    apply Forall_insert; [done|]. apply s32_range. }
  case_match; [|exact Hu]. destruct Hu as [Hl Hf]. unfold clock_ok, update_rtc_processes. cbn [fst snd rtc_procs] in *.
  rewrite length_fmap. split; [done|]. apply Forall_fmap, Forall_true. intros q. apply s32_range.
Qed.
Lemma clock_upd s p f : clock_ok s → (∀ q, max_count (f q) = max_count q) →
  clock_ok (Rtc (rtc_rate s) (rtc_users s) (upd_proc p f (rtc_procs s))).
Proof using.
  intros [Hl Hf] Hm. unfold clock_ok, upd_proc. cbn [rtc_procs]. rewrite length_insert. split; [done|].
  destruct (decide (Z.to_nat (p - 1) < length (rtc_procs s))%nat).
  - apply Forall_insert; [done|]. rewrite Hm. rewrite Forall_lookup in Hf. by eapply Hf, list_lookup_lookup_total_lt.
  - by rewrite list_insert_ge by lia.
Qed.
Lemma clock_close p s (d : D) : clock_ok s → clock_ok (rtc_close p s d).1.2.
Proof using.
  intros Hc. pose proof (clock_upd s p (set_rate_field RATE_MIN) Hc ltac:(done)) as [Hl Hf]. cbn [rtc_procs] in *.
  unfold rtc_close. cbv zeta. case_match; [done|].
  unfold clock_ok, update_rtc_processes. cbn [fst snd rtc_procs] in *.
  rewrite length_fmap. split; [done|]. apply Forall_fmap, Forall_true. intros q. apply s32_range.
Qed.

Lemma fops_open_clock ops k k' : fops_open ops k = Some k' → clock_ok (krtc k) → clock_ok (krtc k').
Proof using.
  unfold fops_open. intros E Hc. destruct ops as [[]|]; [|apply some_inv in E as <-; done..|done].
  unfold rtc_open in E. destruct (rtc_users (krtc k) =? 0); apply some_inv in E as <-; exact Hc.
Qed.
Lemma fops_close_clock ops k k' : fops_close ops k = Some k' → clock_ok (krtc k) → clock_ok (krtc k').
Proof using.
  unfold fops_close. intros E Hc. destruct ops as [[]|]; [|apply some_inv in E as <-; done..|done].
  pose proof (clock_close (pid (cur_pcb k)) (krtc k) (kdev k) Hc) as Hx.
  destruct (rtc_close _ _ _) as [[? ?] ?]. apply some_inv in E as <-. exact Hx.
Qed.

(** The interrupts end the wait, and change nothing but the counts. *)
Lemma ticks_end n p s (d : D) :
  clock_ok s → 1 ≤ p ≤ MAX_PROCESSES → curr_count (proc_of s p) < 2147483648 →
  Z.of_nat n ≤ Z.max 0 (curr_count (proc_of s p)) →
  let s' := (Nat.iter n (λ sd : rtc_state * D, rtc_handler_main sd.1 sd.2) (s, d)).1 in
  clock_ok s' ∧ curr_count (proc_of s' p) = curr_count (proc_of s p) - Z.of_nat n.
Proof using.
  unfold MAX_PROCESSES. intros Hc Hp Hm Hn. induction n as [|n IH]; [split; [done|]; simpl; lia|].
  destruct IH as [IH1 IH2]; [lia|]. rewrite Nat.iter_succ.
  destruct (Nat.iter n _ (s, d)) as [s1 d1]. cbn [fst snd] in *.
  destruct IH1 as [Hl Hf]. unfold rtc_handler_main. cbn [fst]. unfold clock_ok, proc_of in *. cbn [rtc_procs].
  rewrite length_fmap, (list_lookup_total_fmap _ _ (Z.to_nat (p - 1))) by lia. simpl. rewrite IH2.
  split; [split; [done|]|rewrite s32_small by lia; lia]. by apply Forall_fmap.
Qed.
Lemma after_ticks_total k :
  let s := rtc_read_begin (pid (cur_pcb k)) (krtc k) in
  clock_ok (krtc k) → 1 ≤ pid (cur_pcb k) ≤ MAX_PROCESSES →
  ∃ s' d', after_ticks (set_krtc s k) = Some (set_kdev d' (set_krtc s' k)) ∧ clock_ok s'.
Proof using.
  intros s Hc Hp. pose proof Hc as [Hl Hf]. assert (clock_ok s) as Hs by (by apply clock_upd).
  assert (curr_count (proc_of s (pid (cur_pcb k))) = max_count (proc_of (krtc k) (pid (cur_pcb k)))) as Hcc.
  { unfold proc_of, s, rtc_read_begin. cbn [rtc_procs]. unfold upd_proc, MAX_PROCESSES in *.
    by rewrite list_lookup_total_insert_eq by lia. }
  assert (sword32 (max_count (proc_of (krtc k) (pid (cur_pcb k))))) as Hr.
  { rewrite Forall_lookup in Hf. unfold proc_of, MAX_PROCESSES in *. eapply Hf, list_lookup_lookup_total_lt. lia. }
  unfold after_ticks. change (cur_pcb (set_krtc s k)) with (cur_pcb k). cbn [krtc set_krtc kdev].
  set (p := pid (cur_pcb k)) in *. set (c := curr_count (proc_of s p)) in *.
  pose proof (ticks_end (Z.to_nat c) p s (kdev k) Hs Hp ltac:(fold c; lia) ltac:(fold c; lia)) as Ht.
  cbv zeta in Ht. fold c in Ht. destruct (Nat.iter _ _ _) as [s' d']. cbn [fst] in Ht. destruct Ht as [Ht1 Ht2].
  unfold rtc_read_done. fold (proc_of s' p). rewrite Ht2.
  destruct (Z.gtb_spec (c - Z.of_nat (Z.to_nat c)) 0); [lia|]. cbn [negb].
  exists s', d'. by split.
Qed.

(** ** The calls, one by one *)

Lemma call_returns (f : kernel D → outcome D) k m r k' v' (Q : Z → view → Prop) :
  f k = Ret r k' → Q r v' → kview k' v' → user_same m (kmem k') → gives kview (call f) k m Q.
Proof using.
  intros E HQ Hv Hm. exists r, k'. split; [by unfold call; rewrite E|]. by exists v'.
Qed.
Lemma call_refused (f : kernel D → outcome D) k v :
  f k = Ret (-1) k → kview k v → refused kview (call f) k v.
Proof using. intros E Hv. by eapply call_returns. Qed.

(** The dispatcher hands the registers on. *)
Lemma dispatch_execute p c x k : handle_syscall stk 2 p c x k = execute stk p k.
Proof using. reflexivity. Qed.
Lemma dispatch_read fd buf n k : handle_syscall stk 3 fd buf n k = read (s32 fd) buf (s32 n) dentry k.
Proof using. reflexivity. Qed.
Lemma dispatch_write fd buf n k : handle_syscall stk 4 fd buf n k = write (s32 fd) buf (s32 n) k.
Proof using. reflexivity. Qed.
Lemma dispatch_open p c x k : handle_syscall stk 5 p c x k = open p dentry k.
Proof using. reflexivity. Qed.
Lemma dispatch_close fd c x k : handle_syscall stk 6 fd c x k = close (s32 fd) k.
Proof using. reflexivity. Qed.
Lemma dispatch_getargs buf n x k : handle_syscall stk 7 buf n x k = getargs buf (s32 n) k.
Proof using. reflexivity. Qed.
Lemma dispatch_vidmap p c x k : handle_syscall stk 8 p c x k = vidmap p k.
Proof using. reflexivity. Qed.

Lemma kernel_getargs k v buf n :
  kview k v → Z.of_nat (length (v_args v)) < n < 2 ^ 31 → in_user buf n →
  gives kview (ece391_getargs buf n) k (store_bytes (kmem k) buf (v_args v ++ [0])) (λ r v', r = 0 ∧ v' = v).
Proof using H H0 H1.
  intros Hv Hn [U1 U2]. destruct (kv_args _ _ Hv) as (A1 & A2 & A3). destruct (lay_args _ (kv_layout _ _ Hv)) as (L1 & L2 & _).
  eapply call_returns.
  - rewrite dispatch_getargs, s32_small by lia.
    apply (getargs_stores k buf n (v_args v)); try done; [lia| |lia]. unfold args_addr in *. right. lia.
  - split; reflexivity.
  - apply kview_mem; [done|]. apply system_memory_same; [apply Hv|].
    apply user_store_same. rewrite length_app. split; simpl; lia.
  - done.
Qed.

Lemma find_free k v :
  kview k v → v_free v → ∃ fd, find_fd 6 2 (files (cur_pcb k)) = Some fd ∧
    2 ≤ fd < FILE_ARRAY_LEN ∧ v_fds v !! fd = None ∧ flags (cur_fd fd k) = 0 ∧ pos (cur_fd fd k) = 0.
Proof using.
  intros Hv (j & Hj & Hno). unfold FILE_ARRAY_LEN in *.
  pose proof (find_fd_spec 6 2 (files (cur_pcb k)) ltac:(lia)) as Hfind.
  pose proof (kv_streams _ _ Hv j Hj) as Hz. rewrite Hno in Hz.
  destruct (find_fd 6 2 _) as [fd|]; [|by destruct (Hfind j ltac:(lia))].
  destruct Hfind as (Hr & Hz' & _). exists fd. split; [done|]. split; [lia|].
  pose proof (kv_streams _ _ Hv fd ltac:(unfold FILE_ARRAY_LEN; lia)) as Hs.
  pose proof (fds_lookup _ fd (kv_fds _ _ Hv) ltac:(lia)) as Hok. fold (cur_fd fd k) in Hz', Hok.
  split.
  { destruct (v_fds v !! fd) as [[?|?| |]|]; [..|done]; destruct Hs as (Hfl & _); by rewrite Hz' in Hfl. }
  split; [done|]. destruct Hok as [(_ & _ & ?)|(Hfl & _)]; [done|by rewrite Hz' in Hfl].
Qed.

Lemma open_clock p d k r k' : open p d k = Ret r k' → clock_ok (krtc k) → clock_ok (krtc k').
Proof using.
  unfold open. destruct (find_fd _ _ _); [|intros E; by apply ret_inv in E as [_ <-]].
  destruct (read_dentry_by_name _ _ _ _) as [q m]. cbv zeta.
  destruct (q =? -1); [intros E; by apply ret_inv in E as [_ <-]|].
  match goal with |- context [fops_open ?o ?q] => destruct (fops_open o q) as [k2|] eqn:Eo end; [|done].
  intros E Hc. apply ret_inv in E as [_ <-]. by eapply fops_open_clock.
Qed.

(** The directory entry of a file of the view, and the operations on it. *)
Definition file_type (f : file) : Z :=
  match f with Regular _ => FILE_FTYPE | Directory => DIR_FTYPE | Device => RTC_FTYPE end.
Definition file_ops (f : file) : fops_t :=
  match f with Regular _ => fs_fops | Directory => dir_fops | Device => rtc_fops end.
Lemma kview_ops k v f : kview k v → get_device_fops (file_type f) (kproc k) = Some (file_ops f).
Proof using. intros Hv. destruct (kv_devices _ _ Hv) as (? & ? & ?). by destruct f. Qed.

Lemma kernel_open k v p name f :
  kview k v → cstr (kmem k) p name → v_files v !! name = Some f → v_free v →
  gives kview (ece391_open p) k (kmem k) (λ r v', 2 ≤ r < FILE_ARRAY_LEN ∧ v_fds v !! r = None ∧
    v' = v_set_fd r (Some (opened_stream (v_names v) f)) v).
Proof using H H0 H1.
  intros Hv Hc Hfile Hfree. destruct (find_free k v Hv Hfree) as (fd & Efd & Hr & Hno & Hz & Hpos).
  destruct (kv_files _ _ Hv name f Hfile) as (i & Hn & Hlen & Hf). pose proof (kv_layout _ _ Hv) as Hl.
  destruct (layout_dentry _ Hl) as [Hap Hda].
  destruct (lookup_named _ _ _ dentry _ _ (kv_image _ _ Hv) Hc (proj2 (proj2 Hap)) Hn)
    as (m' & E & Et & Ei & Hfr).
  destruct (local_memory_same k _ _ m' Hl Hap Hda Hfr) as [Hsame Hu].
  assert (dentry_ftype m' dentry = file_type f) as Eft by (rewrite Et; cbv zeta in Hf; destruct f; apply Hf).
  destruct (open_unfold p dentry k fd m' Efd E) as (k' & Ek & Hk').
  { rewrite Eft. destruct f; auto. }
  { by rewrite Eft, (kview_ops _ _ f Hv). }
  pose proof (kview_mem k v m' Hv Hsame) as Hv'. rewrite Eft, (kview_ops _ _ f Hv) in Hk'.
  eapply call_returns; [rewrite dispatch_open; exact Ek| |eapply (kview_set_fd (set_kmem m' k) k' v fd); try done|].
  - split; [done|]. split; [done|]. reflexivity.
  - apply (open_clock _ _ _ _ _ Ek), (kv_clock _ _ Hv).
  - right. unfold opened. cbn [flags fops pos]. rewrite Hpos. split; [done|]. split; [|done]. by destruct f.
  - destruct f as [data| |]; cbv zeta in Hf; unfold opened; cbn [fd_shows opened_stream flags fops inode_num pos file_ops].
    + destruct Hf as (Ht & Hfok & Hdata).
      rewrite Hpos, Ei. destruct (file_same _ m' _ _ (kv_image _ _ Hv) Hfok (ds_image _ _ (proj1 Hsame))) as (F1 & _ & F3).
      split; [done|]. split; [done|]. split; [exact F1|].
      change (kmem (set_kmem m' k)) with m'. change (kboot (set_kmem m' k)) with (kboot k).
      split; [|by rewrite F3, drop_0].
      pose proof (load32_range m' (kboot k + BLOCK_SIZE * (u32 (dentry_inode (kmem k) (dentry_addr (kboot k) i)) + 1))).
      unfold file_length, inode_length. lia.
    + rewrite Hpos, drop_0. split_and!; try done. lia.
    + done.
  - intros b Hb. rewrite (proj1 Hk'). by apply Hu.
Qed.

Lemma unknown_name k v name : kview k v → name ∉ v_names v → ∀ i, ¬ dir_has (kmem k) (kboot k) i name.
Proof using.
  intros Hv Hno i [Hi Hci]. destruct Hno. pose proof (kv_count _ _ Hv) as Hcnt.
  destruct (lookup_lt_is_Some_2 (v_names v) (Z.to_nat i)) as [n' Hn']; [lia|].
  destruct (kv_names _ _ Hv _ _ Hn') as [[_ Hc'] _]. rewrite Z2Nat.id in Hc' by lia.
  rewrite (cstr_det _ _ _ _ Hci Hc'). by eapply list_elem_of_lookup_2.
Qed.
Lemma kernel_open_missing k v p name :
  kview k v → cstr (kmem k) p name → name ∉ v_names v → v_free v → refused kview (ece391_open p) k v.
Proof using H H0 H1.
  intros Hv Hc Hno Hfree. destruct (find_free k v Hv Hfree) as (fd & Efd & _).
  pose proof (proj1 (layout_dentry _ (kv_layout _ _ Hv))) as Hap.
  pose proof (read_dentry_by_name_spec _ _ p dentry _ (kv_image _ _ Hv) Hc (proj2 (proj2 Hap))) as Hx.
  destruct (read_dentry_by_name _ _ _ _) as [r m'] eqn:E.
  destruct Hx as [(_ & i & Hd & _)|(-> & -> & _)]; [by destruct (unknown_name k v name Hv Hno i)|].
  eapply (call_returns _ k _ (-1) (set_kmem (kmem k) k)).
  - rewrite dispatch_open. unfold open. change (Z.to_nat (FILE_ARRAY_LEN - 2)) with 6%nat. rewrite Efd, E. reflexivity.
  - split; reflexivity.
  - by apply kview_mem.
  - done.
Qed.
Lemma kernel_open_full k v p : kview k v → ¬ v_free v → refused kview (ece391_open p) k v.
Proof using H H0 H1.
  intros Hv Hfull. apply call_refused; [|done]. rewrite dispatch_open. unfold open, FILE_ARRAY_LEN.
  change (Z.to_nat (8 - 2)) with 6%nat.
  pose proof (find_fd_spec 6 2 (files (cur_pcb k)) ltac:(lia)) as Hfind.
  destruct (find_fd 6 2 _) as [fd|]; [|done]. destruct Hfull. destruct Hfind as (Hr & Hz & _).
  exists fd. unfold FILE_ARRAY_LEN. split; [lia|].
  pose proof (kv_streams _ _ Hv fd ltac:(unfold FILE_ARRAY_LEN; lia)) as Hs. fold (cur_fd fd k) in Hz.
  destruct (v_fds v !! fd) as [[?|?| |]|]; [..|done]; destruct Hs as (Hfl & _); by rewrite Hz in Hfl.
Qed.

Lemma same_frame_refl k : same_frame k k.
Proof using. by split_and!. Qed.

Lemma kernel_read_bytes k v fd rest buf n :
  kview k v → v_fds v !! fd = Some (Bytes rest) → 0 ≤ n < 2 ^ 31 → in_user buf n →
  let l := take (Z.to_nat n) rest in
  gives kview (ece391_read fd buf n) k (store_bytes (kmem k) buf l) (λ r v', r = Z.of_nat (length l) ∧
    v' = v_set_fd fd (Some (Bytes (drop (Z.to_nat n) rest))) v).
Proof using H H0 H1.
  intros Hv Hfd Hn [U1 U2]. pose proof (kv_range _ _ Hv _ _ Hfd) as Hr. pose proof (kv_image _ _ Hv) as Hi.
  pose proof (kv_streams _ _ Hv fd Hr) as Hst. rewrite Hfd in Hst.
  destruct Hst as (Hfl & Hop & Hf & Hpos & ->). set (f := cur_fd fd k) in *.
  set (m := kmem k) in *. set (bb := kboot k) in *. set (ino := inode_num f) in *.
  pose proof (file_len _ _ _ Hf) as Hmax. change (inode_length _ _) with (file_length m bb ino) in Hmax.
  unfold BLOCKS_PER_INODE, BLOCK_SIZE in Hmax. cbv zeta. fold (file_slice m bb ino (pos f) n).
  set (l := file_slice m bb ino (pos f) n).
  assert (Z.of_nat (length l) = Z.min n (file_length m bb ino - pos f)) as Hlen
    by (unfold l; rewrite file_slice_length by lia; lia).
  destruct (lay_image _ (kv_layout _ _ Hv)) as [_ L2]. fold m bb in L2.
  assert (fs_read m bb f buf n
    = (Z.of_nat (length l), store_bytes m buf l, fd_set_pos (u32 (pos f + Z.of_nat (length l))) f)) as E.
  { unfold fs_read. fold ino. rewrite (u32_small n) by lia.
    rewrite read_data_spec by (try done; try lia; fold l; right; lia). done. }
  eapply call_returns; [rewrite dispatch_read, !s32_small by (unfold FILE_ARRAY_LEN in *; lia);
    apply read_file; [lia|lia|fold f; by rewrite Hfl|exact Hop|exact E]|split; reflexivity| |done].
  assert (memory_same k (store_bytes m buf l)) as Hsame.
  { apply system_memory_same; [apply Hv|]. apply user_store_same. split; lia. }
  destruct (file_same _ (store_bytes m buf l) _ _ Hi Hf (ds_image _ _ (proj1 Hsame))) as (F1 & F2 & F3).
  eapply (kview_set_fd (set_kmem (store_bytes m buf l) k) _ v fd); [by apply kview_mem|apply same_frame_refl|apply (kv_clock _ _ Hv)|done| |].
  - right. cbn [fd_set_pos flags fops pos]. rewrite Hfl, Hop. pose proof (u32_range (pos f + Z.of_nat (length l))). split_and!; [done|done|lia].
  - unfold fd_shows. cbn [fd_set_pos flags fops pos inode_num kmem set_kmem kboot]. fold bb ino.
    rewrite F2, F3, u32_small by lia. split; [done|]. split; [done|]. split; [done|]. split; [lia|].
    rewrite drop_drop. destruct (decide (n ≤ file_length m bb ino - pos f)).
    + f_equal. lia.
    + rewrite !drop_ge; [done|..]; unfold file_contents; rewrite length_fmap, length_seqZ; lia.
Qed.

Lemma read_dir fd buf n dentry k r m f :
  2 ≤ fd < FILE_ARRAY_LEN → flags (cur_fd fd k) ≠ 0 → fops (cur_fd fd k) = Some dir_fops →
  dir_read (kmem k) (kboot k) dentry (cur_fd fd k) buf n = Some (r, m, f) →
  read fd buf n dentry k = Ret r (set_cur_fd fd f (set_kmem m k)).
Proof using.
  intros Hr Hl Ho E. unfold read, FILE_ARRAY_LEN in *.
  rewrite (proj2 (Z.ltb_ge _ _)), (proj2 (Z.eqb_neq fd 1)) by lia.
  rewrite Z.geb_leb, (proj2 (Z.leb_gt _ _)), (proj2 (Z.eqb_neq _ 0)) by (done || lia).
  rewrite Ho. simpl. by rewrite E.
Qed.

Lemma kernel_read_name k v fd name rest buf n :
  kview k v → v_fds v !! fd = Some (Names (name :: rest)) → Z.of_nat (length name) < n < 2 ^ 31 →
  in_user buf (n + 1) →
  gives kview (ece391_read fd buf n) k (store_bytes (kmem k) buf (name ++ [10; 0])) (λ r v',
    r = Z.of_nat (length name) ∧ v' = v_set_fd fd (Some (Names rest)) v).
Proof using H H0 H1.
  intros Hv Hfd Hn [U1 U2]. pose proof (kv_range _ _ Hv _ _ Hfd) as Hr. pose proof (kv_image _ _ Hv) as Hi.
  pose proof (kv_streams _ _ Hv fd Hr) as Hst. rewrite Hfd in Hst.
  destruct Hst as (Hfl & Hop & Hpos & Hrest). set (f := cur_fd fd k) in *.
  assert (v_names v !! Z.to_nat (pos f) = Some name) as Hname.
  { rewrite <- (Nat.add_0_r (Z.to_nat (pos f))), <- lookup_drop, <- Hrest. done. }
  destruct (kv_names _ _ Hv _ _ Hname) as [Hd Hl32]. rewrite Z2Nat.id in Hd by lia.
  pose proof (kv_layout _ _ Hv) as Hlay. destruct (layout_dentry _ Hlay) as [(D1 & D2 & D3) Da].
  pose proof (img_dirs _ _ Hi) as Hdirs. pose proof Hd as [Hdr _]. unfold NUM_INODES in Hdirs.
  destruct (read_directory_entry_spec (kmem k) (kboot k) dentry (pos f) buf n name Hi Hd)
    as (m' & E & El & Hm'); [lia|lia|exact D3|right; lia|].
  rewrite Z.min_l in E, El, Hm' by lia. rewrite Nat2Z.id, take_ge in El by lia.
  set (f' := fd_set_pos (u32 (pos f + 1)) f) in *.
  assert (read fd buf n dentry k = Ret (Z.of_nat (length name)) (set_cur_fd fd f' (set_kmem m' k))) as Er.
  { rewrite <- (s32_small (Z.of_nat (length name))) by lia.
    apply read_dir; [done|fold f; by rewrite Hfl|exact Hop|].
    unfold dir_read. fold f. rewrite u32_small by lia. by rewrite E. }
  assert (∀ a, ¬ (buf ≤ a < buf + Z.of_nat (length name) + 2) →
      ¬ (dentry ≤ a < dentry + BYTES_DENTRY) → mget m' a = mget (kmem k) a) as Hkeep by done.
  destruct (lay_image _ Hlay) as [I1 I2].
  destruct (lay_args _ Hlay) as (A1 & A2 & _). unfold disjoint, outside_image in *.
  assert (memory_same k m') as Hsame.
  { split; [split|]; intros b Hb; apply Hkeep; unfold VIDEO, PAGE_SIZE, PROG_VM_START in *; lia. }
  eapply call_returns; [rewrite dispatch_read, !s32_small by (unfold FILE_ARRAY_LEN in *; lia); exact Er|split; reflexivity| |].
  - eapply (kview_set_fd (set_kmem m' k) _ v fd); [by apply kview_mem|apply same_frame_refl|apply (kv_clock _ _ Hv)|done| |].
    + right. unfold f'; cbn [fd_set_pos flags fops pos]. rewrite Hfl, Hop. pose proof (u32_range (pos f + 1)). split_and!; [done|done|lia].
    + unfold fd_shows. unfold f'; cbn [fd_set_pos flags fops pos]. rewrite u32_small by lia.
        apply lookup_lt_Some in Hname. split; [done|]. split; [done|]. split; [lia|].
        replace (Z.to_nat (pos f + 1)) with (S (Z.to_nat (pos f))) by lia.
        erewrite drop_S in Hrest; [by injection Hrest|]. apply list_lookup_lookup_total_lt. lia.
  - intros a Ha. change (kmem (set_cur_fd fd f' (set_kmem m' k))) with m'. set (l := name ++ [10; 0]) in *.
      assert (length l = length name + 2)%nat as Hll by (unfold l; rewrite length_app; done).
      destruct (decide (buf ≤ a < buf + Z.of_nat (length name) + 2)) as [Hin|Hout].
    + assert (load_bytes (store_bytes (kmem k) buf l) buf (length name + 2) = l) as Es.
        { rewrite <- Hll. apply load_store_bytes. unfold l. apply Forall_app. split; [|repeat constructor; lia].
          eapply cstr_byte. apply Hd. }
        replace (Z.to_nat (Z.of_nat (length name)) + 2)%nat with (length name + 2)%nat in El by lia.
        replace a with (buf + (a - buf)) by lia.
        apply (load_bytes_eq_mget (store_bytes (kmem k) buf l) m' buf buf (length name + 2)); [congruence|lia].
    + rewrite mget_store_bytes_out by lia. apply Hkeep; [done|]. unfold user_addr in Ha. lia.
Qed.

Lemma kernel_read_end k v fd buf n :
  kview k v → v_fds v !! fd = Some (Names []) → 0 ≤ n < 2 ^ 31 →
  gives kview (ece391_read fd buf n) k (kmem k) (λ r v', r = 0 ∧ v' = v_set_fd fd (Some Past_end) v).
Proof using H H0 H1.
  intros Hv Hfd Hn. pose proof (kv_range _ _ Hv _ _ Hfd) as Hr. pose proof (kv_image _ _ Hv) as Hi.
  pose proof (kv_streams _ _ Hv fd Hr) as Hst. rewrite Hfd in Hst.
  destruct Hst as (Hfl & Hop & Hpos & Hrest). set (f := cur_fd fd k) in *.
  pose proof (kv_count _ _ Hv) as Hcnt. pose proof (img_dirs _ _ Hi) as Hdirs. pose proof (img_inodes _ _ Hi) as Hino.
  assert (pos f = dir_entries_cnt (kmem k) (kboot k)) as Hend.
  { apply (f_equal length) in Hrest. rewrite length_drop in Hrest. cbn [length] in Hrest. lia. }
  destruct (fs_rejects (kmem k) (kboot k) (inode_cnt (kmem k) (kboot k)) 0 buf (u32 n) (pos f) dentry 0)
    as (_ & _ & E & _).
  { pose proof (loads32_range (kmem k) (kboot k + 4)). unfold inode_cnt in *. lia. }
  { done. } { lia. } { lia. }
  eapply (call_returns _ k); [|split; reflexivity| |].
  - rewrite dispatch_read, !s32_small by (unfold FILE_ARRAY_LEN in *; lia).
    apply (read_dir fd buf n dentry k 0 (kmem k) (fd_set_pos (u32 (pos f + 1)) f));
      [done|fold f; by rewrite Hfl|exact Hop|].
    unfold dir_read. fold f. by rewrite E.
  - pose proof (u32_range (pos f + 1)).
    eapply (kview_set_fd k _ v fd); [done|by destruct k|apply (kv_clock _ _ Hv)|done| |];
      [right|unfold fd_shows]; cbn [fd_set_pos flags fops pos]; rewrite Hfl, Hop;
      (split_and!; [done|done|lia]).
  - done.
Qed.

(** A descriptor no file has. *)
Lemma closed_refused k v fd : kview k v → v_closed v fd →
  s32 fd = fd ∧ (fd < 0 ∨ FILE_ARRAY_LEN ≤ fd ∨ flags (cur_fd fd k) = 0).
Proof using.
  intros Hv [Hs Hc]. split; [by apply s32_small|]. destruct Hc as [Hc|[Hc|[Hc1 Hc2]]]; [by left|by right; left|].
  destruct (decide (FILE_ARRAY_LEN ≤ fd)) as [|Hlt]; [by right; left|]. right. right.
  pose proof (kv_streams _ _ Hv fd ltac:(lia)) as Hst. by rewrite Hc2 in Hst.
Qed.
Lemma kernel_read_refused k v fd buf n :
  kview k v → v_closed v fd ∨ fd = 1 → refused kview (ece391_read fd buf n) k v.
Proof using H H0 H1.
  intros Hv Hb. apply call_refused; [|done]. rewrite dispatch_read.
  destruct (descriptors_refused k (s32 fd) buf (s32 n) dentry) as (E & _). apply E.
  destruct Hb as [Hb|Hb]; [left|subst; by right]. destruct (closed_refused _ _ _ Hv Hb) as [-> Hc]. exact Hc.
Qed.
Lemma kernel_write_refused k v fd buf n :
  kview k v → v_closed v fd ∨ fd = 0 → refused kview (ece391_write fd buf n) k v.
Proof using H H0 H1.
  intros Hv Hb. apply call_refused; [|done]. rewrite dispatch_write.
  destruct (descriptors_refused k (s32 fd) buf (s32 n) dentry) as (_ & E & _). apply E.
  destruct Hb as [Hb|Hb]; [left|subst; by right]. destruct (closed_refused _ _ _ Hv Hb) as [-> Hc]. exact Hc.
Qed.
Lemma kernel_close_refused k v fd :
  kview k v → v_closed v fd ∨ fd = 0 ∨ fd = 1 → refused kview (ece391_close fd) k v.
Proof using H H0 H1.
  intros Hv Hb. apply call_refused; [|done]. rewrite dispatch_close.
  destruct (descriptors_refused k (s32 fd) 0 0 0) as (_ & _ & E). apply E.
  destruct Hb as [Hb|[Hb|Hb]]; [left|subst; by right; left|subst; by right; right].
  destruct (closed_refused _ _ _ Hv Hb) as [-> Hc]. exact Hc.
Qed.

(** The clock: a read waits for its ticks, a write sets the rate. *)
Lemma kernel_clock k v fd : kview k v → v_fds v !! fd = Some Clock →
  2 ≤ fd < FILE_ARRAY_LEN ∧ s32 fd = fd ∧ flags (cur_fd fd k) = FD_LIVE ∧ fops (cur_fd fd k) = Some rtc_fops.
Proof using.
  intros Hv Hfd. pose proof (kv_range _ _ Hv _ _ Hfd) as Hr. pose proof (kv_streams _ _ Hv fd Hr) as Hst.
  rewrite Hfd in Hst. unfold FILE_ARRAY_LEN in *. split; [done|]. split; [apply s32_small; lia|done].
Qed.
Lemma kernel_read_clock k v fd buf n :
  kview k v → v_fds v !! fd = Some Clock →
  gives kview (ece391_read fd buf n) k (kmem k) (λ r v', r = 0 ∧ v' = v).
Proof using H H0 H1.
  intros Hv Hfd. destruct (kernel_clock _ _ _ Hv Hfd) as (Hr & Es & Hfl & Hop).
  destruct (kv_clock _ _ Hv) as [Hp Hck]. destruct (after_ticks_total k Hck Hp) as (s' & d' & E & Hs').
  exists 0, (set_kdev d' (set_krtc s' k)). split.
  - cbn [ece391_read kernel_sys stubs]. unfold int80, call. rewrite dispatch_read, Es. unfold read, FILE_ARRAY_LEN in *.
    rewrite (proj2 (Z.ltb_ge _ _)), (proj2 (Z.eqb_neq fd 1)) by lia.
    rewrite Z.geb_leb, (proj2 (Z.leb_gt _ _)) by lia. rewrite Hfl, Hop. cbn [negb orb Z.eqb FD_LIVE fops_read].
    rewrite E. reflexivity.
  - exists v. split; [by split|]. split; [|done]. by apply (kview_same k).
Qed.
Lemma kernel_write_clock k v fd buf n :
  kview k v → v_fds v !! fd = Some Clock →
  gives kview (ece391_write fd buf n) k (kmem k) (λ _ v', v' = v).
Proof using H H0 H1.
  intros Hv Hfd. destruct (kernel_clock _ _ _ Hv Hfd) as (Hr & Es & Hfl & Hop).
  pose proof (clock_write (kmem k) buf (pid (cur_pcb k)) (krtc k) (kdev k) (proj2 (kv_clock _ _ Hv))) as Hck.
  destruct (rtc_write (kmem k) buf (pid (cur_pcb k)) (krtc k) (kdev k)) as [[r s'] d'] eqn:E. cbn [fst snd] in Hck.
  eapply (call_returns _ k _ r (set_kdev d' (set_krtc s' k))); [|reflexivity| |done].
  - rewrite dispatch_write, Es. unfold write, FILE_ARRAY_LEN in *.
    rewrite (proj2 (Z.ltb_ge _ _)), (proj2 (Z.eqb_neq fd 0)) by lia.
    rewrite Z.geb_leb, (proj2 (Z.leb_gt _ _)) by lia. rewrite Hfl, Hop. cbn [negb orb Z.eqb FD_LIVE fops_write].
    by rewrite E.
  - by apply (kview_same k).
Qed.

(** Calls that are always refused. *)
Lemma kernel_vidmap_refused k v p :
  kview k v → sword32 p → ¬ user_addr p → refused kview (ece391_vidmap p) k v.
Proof using H H0 H1.
  intros Hv Hs Hp. apply call_refused; [|done]. rewrite dispatch_vidmap. unfold vidmap, user_addr in *.
  rewrite s32_small by done. destruct (Z.ltb_spec p PROG_VM_START); [done|].
  rewrite Z.geb_leb. destruct (Z.leb_spec (PROG_VM_START + SPACE_4MB) p); [done|lia].
Qed.
Lemma kernel_set_handler_refused k v n h : kview k v → refused kview (ece391_set_handler n h) k v.
Proof using H H0 H1. intros Hv. by apply call_refused. Qed.
Lemma kernel_number_refused k v n :
  kview k v → ¬ 1 ≤ u32 n ≤ 10 → refused kview (call_sys n) k v.
Proof using H H0 H1.
  intros Hv Hn. apply call_refused; [|done]. unfold handle_syscall.
  destruct (Z.ltb_spec (u32 n) 1); [done|]. rewrite Z.gtb_ltb. destruct (Z.ltb_spec 10 (u32 n)); [done|lia].
Qed.

Lemma frame_ok_command m bb p l : frame_ok stk m bb PROG_VM_START [] →
  in_user p (Z.of_nat (length l) + 1) → frame_ok stk m bb p l.
Proof using.
  intros [H1' H2' _ H4' H5' H6'] [U1 U2]. split; try done. eapply Forall_impl; [exact H2'|].
  intros [a n]. unfold in_kernel, disjoint, KERNEL_LOC, SPACE_4MB, PROG_VM_START in *. cbn [fst snd]. lia.
Qed.
Lemma kernel_execute_unknown k v p l :
  kview k v → cstr (kmem k) p l → in_user p (Z.of_nat (length l) + 1) → Z.of_nat (length l) < ARGS_MAX →
  command_word l ∉ v_names v → refused kview (ece391_execute p) k v.
Proof using H H0 H1.
  intros Hv Hc Hu Hlen Hno. pose proof (kv_layout _ _ Hv) as Hl. pose proof (kv_image _ _ Hv) as Hi.
  pose proof (length_command_word l) as Hw.
  assert (length (command_args l) ≤ length l)%nat as Ha.
  { unfold command_args. destruct (drop_spaces_suffix (drop (length (command_word l)) l)) as (x & _ & ->).
    rewrite !length_drop. lia. }
  assert (command_ok stk k p l) as Hco.
  { split; [done|apply Hl|done| |lia|lia]. apply frame_ok_command; [apply Hl|done]. }
  assert (memory_same k (parsed (kmem k) l stk) ∧ user_same (kmem k) (parsed (kmem k) l stk)) as Hsame.
  { apply locals_memory_same; [done|]. intros b Hb. unfold ARGS_MAX in *.
    pose proof (Hb (command_buf stk) ARGS_MAX ltac:(unfold locals; set_solver)).
    pose proof (Hb (args stk) ARGS_MAX ltac:(unfold locals; set_solver)). unfold ARGS_MAX, parsed in *.
    rewrite !mget_store_bytes_out; [done|rewrite length_app; simpl; lia..]. }
  eapply (call_returns _ k); [rewrite dispatch_execute; apply (execute_unnamed _ _ l); [done|by apply (unknown_name k v)]
    |split; reflexivity| |].
  - apply (kview_same k); try done; [apply (kv_clock _ _ Hv)|]. apply Hsame.
  - apply Hsame.
Qed.

(** What [terminal_write] prints. *)
Lemma write_loop m buf s lo n :
  screen_ok s → buf + n ≤ video_mem s ∨ video_mem s + 4000 ≤ buf → 0 ≤ lo ≤ n →
  for_z lo n (λ i '(m, s), putc_in_terminal (mget m (buf + i)) m s) (m, s)
  = print_all (load_bytes m (buf + lo) (Z.to_nat (n - lo))) m s.
Proof using.
  intros Hok Hd Hlo. remember (Z.to_nat (n - lo)) as j eqn:Ej. revert lo m s Hok Hd Hlo Ej.
  induction j as [|j IH]; intros lo m s Hok Hd Hlo Ej.
  - by rewrite for_z_stop by lia.
  - rewrite for_z_step by lia. cbn [load_bytes]. rewrite print_all_cons.
    destruct (putc_in_terminal_abs (mget m (buf + lo)) m s Hok) as (_ & P2 & P3 & P4).
    destruct (putc_in_terminal (mget m (buf + lo)) m s) as [m1 s1]. cbn [fst snd] in *.
    rewrite IH by (try done; try lia; rewrite P3; lia). f_equal.
    rewrite <- Z.add_assoc. apply load_bytes_ext. intros b Hb. apply P4. lia.
Qed.
Lemma foldl_putc_u8 l t :
  Forall (λ c, word8 c) l → foldl (λ t c, a_putc (u8 c) t) t l = foldl (λ t c, a_putc c t) t l.
Proof using.
  intros Hl. revert t. induction Hl as [|c l Hc Hl IH]; intros t; [done|]. cbn [foldl]. by rewrite u8_small.
Qed.

(** The terminal after its screen changed. *)
Lemma term_ok_screen t s : term_ok t → screen_ok s → term_ok (set_screen s t).
Proof using. intros [T1 T2 T3 T4 T5 _] Hs. by split. Qed.
Lemma get_put_terminal i t t' b : get_terminal i b = Some t → get_terminal i (put_terminal i t' b) = Some t'.
Proof using.
  unfold get_terminal, put_terminal. destruct (i <? 0); [done|]. intros Hl. apply lookup_lt_Some in Hl.
  by apply list_lookup_insert_eq.
Qed.

Lemma kernel_write k v buf n :
  kview k v → 0 ≤ n < 2 ^ 31 → in_user buf n →
  gives kview (ece391_write 1 buf n) k (kmem k) (λ r v', r = n ∧
    v' = v_print (load_bytes (kmem k) buf (Z.to_nat n)) v).
Proof using H H0 H1.
  intros Hv Hn [U1 U2]. destruct (kv_term _ _ Hv) as (t & Ht & Htok & Hvid & Hscr & Hatt).
  pose proof (tok_screen _ Htok) as Hok. pose proof (kv_std _ _ Hv 1 ltac:(lia)) as Hout.
  apply pair_inv in Hout as [Hop Hfl].
  unfold VIDEO, PROG_VM_START in *.
  pose proof (write_loop (kmem k) buf (screen t) 0 n Hok ltac:(rewrite Hvid; lia) ltac:(lia)) as E.
  rewrite Z.add_0_r, Z.sub_0_r in E. set (l := load_bytes (kmem k) buf (Z.to_nat n)) in *.
  destruct (print_all_abs l (kmem k) (screen t) Hok) as (P1 & P2 & P3 & P4).
  rewrite foldl_putc_u8 in P1 by apply load_bytes_byte.
  destruct (print_all l (kmem k) (screen t)) as [m' s'] eqn:Ep. cbn [fst snd] in *. rewrite Hvid in P3, P4.
  set (term := term_num (cur_pcb k)) in *.
  set (d' := if term =? current_terminal (kkbd k) then move_cursor term s' PAGE_SIZE (kdev k) else kdev k).
  set (k' := set_kdev d' (set_kkbd (put_terminal term (set_screen s' t) (kkbd k)) (set_kmem m' k))).
  assert (handle_syscall stk 4 1 buf n k = Ret n k') as Ew.
  { rewrite dispatch_write, (s32_small n) by lia. change (s32 1) with 1.
    unfold write. change ((1 <? 0) || (1 =? 0) || (1 >=? FILE_ARRAY_LEN)) with false. cbn iota.
    rewrite Hfl. change (negb (FD_LIVE =? 0)) with true. cbn iota. rewrite Hop. cbn [fops_write].
    unfold terminal_write. rewrite (proj2 (Z.eqb_neq buf 0)) by lia. fold term. rewrite Ht, E. reflexivity. }
  destruct (lay_image _ (kv_layout _ _ Hv)) as [I1 I2]. destruct (lay_args _ (kv_layout _ _ Hv)) as (A1 & A2 & _).
  unfold VIDEO, PAGE_SIZE, PROG_VM_START in *.
  eapply call_returns; [exact Ew|split; reflexivity| |].
  2: { intros a Ha. unfold user_addr, PROG_VM_START in Ha. apply P4. lia. }
  assert (cur_pcb k' = cur_pcb k) as Ec by done.
  apply (kview_step k k' v); try done; try apply Hv.
  - split; intros b Hb; apply P4; lia.
  - rewrite Ec. by destruct (cur_pcb k).
  - exists (set_screen s' t). change (kkbd k') with (put_terminal term (set_screen s' t) (kkbd k)).
    rewrite Ec. fold term. split; [by eapply get_put_terminal|]. split; [by apply term_ok_screen|].
    split; [exact P3|]. split; [|exact Hatt]. cbn [v_print v_screen]. rewrite Hscr, <- P1. reflexivity.
Qed.

Lemma kernel_close k v fd st :
  kview k v → v_fds v !! fd = Some st →
  gives kview (ece391_close fd) k (kmem k) (λ r v', r = 0 ∧ v' = v_set_fd fd None v).
Proof using H H0 H1.
  intros Hv Hfd. pose proof (kv_range _ _ Hv _ _ Hfd) as Hr. unfold FILE_ARRAY_LEN in Hr.
  pose proof (kv_streams _ _ Hv fd Hr) as Hst. rewrite Hfd in Hst.
  assert (flags (cur_fd fd k) = FD_LIVE ∧ fops (cur_fd fd k) ≠ None) as [Hfl Hop]
    by (destruct st as [?|?| |]; [destruct Hst as (Hl & Ho & _)..|destruct Hst as [Hl Ho]]; by rewrite Ho).
  destruct (fops_close_total _ k Hop) as [k1 Hcl]. pose proof (fops_close_frame _ _ _ Hcl) as Hfr.
  set (f' := Fd None 0 (inode_num (cur_fd fd k)) 0 0).
  eapply (call_returns _ k _ 0 (set_cur_fd fd f' k1)); [|split; reflexivity| |].
  - rewrite dispatch_close, s32_small by lia.
    unfold close, FILE_ARRAY_LEN. rewrite (proj2 (Z.ltb_ge _ _)), Z.geb_leb, (proj2 (Z.leb_gt _ _)) by lia.
    cbv zeta. rewrite Hfl, Hcl. reflexivity.
  - destruct (same_frame_cur _ _ Hfr) as [Ec Ea]. destruct Hfr as (F1 & F2 & F3 & F4 & F5 & F6 & F7).
    eapply (kview_set_fd k _ v fd f'); [done| |by eapply (fops_close_clock _ _ _ Hcl), kv_clock|done|by left|done].
    unfold set_cur_fd, same_frame, tables. rewrite Ec, Ea.
    cbn [kmem kproc kpcbs kkbd kvm ktss_esp0 kesp kboot set_kpcb]. rewrite F3. by split_and!.
  - intros b _. change (kmem (set_cur_fd fd f' k1)) with (kmem k1). by rewrite (proj1 Hfr).
Qed.

(** ** The interface *)

Lemma kernel_spec : UserSpec (kernel D) kview.
Proof using H H0 H1.
  split.
  - done.
  - intros k m v Hv Hs. apply kview_mem; [done|]. apply system_memory_same; [apply Hv|done].
  - apply kernel_getargs.
  - intros k v p name f Hv Hc _. by apply kernel_open.
  - intros k v p name Hv Hc _. by apply kernel_open_missing.
  - apply kernel_open_full.
  - apply kernel_read_bytes.
  - apply kernel_read_name.
  - apply kernel_read_end.
  - apply kernel_read_clock.
  - apply kernel_read_refused.
  - apply kernel_write.
  - apply kernel_write_clock.
  - apply kernel_write_refused.
  - apply kernel_close.
  - apply kernel_close_refused.
  - apply kernel_vidmap_refused.
  - apply kernel_set_handler_refused.
  - apply kernel_number_refused.
  - apply kernel_execute_unknown.
Qed.
End kernel.

(** The text on the terminal of the running process. *)
Definition shown {D} (k : kernel D) : aterm :=
  match get_terminal (term_num (cur_pcb k)) (kkbd k) with
  | Some t => abs_screen (kmem k) (screen t)
  | None => abs_screen (kmem k) (Screen 0 0 VIDEO)
  end.
Lemma kview_shown {D} `{Board D} loc (k : kernel D) v : kview loc k v → shown k = v_screen v.
Proof. intros Hv. destruct (kv_term _ _ _ Hv) as (t & Ht & _ & _ & -> & _). unfold shown. by rewrite Ht. Qed.

(** What a file of the view is made of. *)
Lemma kview_bytes {D} `{Board D} loc (k : kernel D) v :
  kview loc k v →
  Forall (λ c, word8 c) (v_args v) ∧ Forall (λ c, c ≠ 0) (v_args v) ∧ Z.of_nat (length (v_args v)) < ARGS_MAX ∧
  ∀ name data, v_files v !! name = Some (Regular data) → Forall (λ c, word8 c) data.
Proof.
  intros Hv. destruct (kv_args _ _ _ Hv) as (A1 & _ & A3). pose proof A1 as (_ & _ & Anz).
  split; [by eapply cstr_byte|]. split; [done|]. split; [done|].
  intros name data Hf. destruct (kv_files _ _ _ Hv _ _ Hf) as (i & _ & _ & _ & _ & <-). apply file_contents_byte.
Qed.

(** ** Properties *)

(** C3: the system calls keep what they promise to programs.  Between the
    states of the kernel and what the running process sees of them ([kview]:
    the text of its terminal, what its open files have left, its arguments,
    the names and the files of the disk) every call of the interface is
    simulated, [execute], [vidmap], [set_handler] and calls by number in the
    cases where they are refused, and reading the keyboard apart
    (Console.v): reads deliver the next bytes or the next name into the buffer
    and nothing else of the program's memory changes, writes appear on the
    terminal, [open] takes a free descriptor, unknown names are refused, and
    [close] gives the descriptor back. *)
Theorem kernel_refines_calls {D} `{Board D} `{Layout} `{Mmu} (loc : call_locals) :
  @UserSpec (kernel D) (kernel_sys loc) (kview loc).
Proof. apply kernel_spec. Qed.

(** C12: [cat] on this kernel.  Run with the name of a file as its argument,
    it comes back with 0 and has printed on its terminal the bytes of the file,
    all of them and in order, for a file of any length; with a name the
    directory does not hold it prints "file not found" and comes back with 2. *)
Theorem cat_prints_file {D} `{Board D} `{Layout} `{Mmu} loc lit fuel buf (k : kernel D) v :
  kview loc k v → v_free v → in_user buf 1024 →
  (∀ data, v_files v !! v_args v = Some (Regular data) → (length data + 1024 ≤ 1024 * fuel)%nat →
     ∃ k', @cat _ (kernel_sys loc) lit fuel buf k = Some (0, k') ∧
       shown k' = foldl (λ t c, a_putc c t) (shown k) data) ∧
  (let msg := chars "file not found" ++ [10] in
   v_args v ∉ v_names v → literal lit (kmem k) msg → apart lit msg buf 1024 →
     ∃ k', @cat _ (kernel_sys loc) lit fuel buf k = Some (2, k') ∧
       shown k' = foldl (λ t c, a_putc c t) (shown k) msg).
Proof.
  intros Hv Hfree Hu. destruct (kview_bytes _ _ _ Hv) as (A1 & A2 & A3 & Hdata). unfold ARGS_MAX in A3.
  pose proof (kernel_spec loc) as spec. rewrite (kview_shown _ _ _ Hv). split.
  - intros data Hfile Hf.
    destruct (cat_ok (spec := spec) lit fuel buf k v data) as (r & k' & E & -> & fd & _ & Hv'); try done; [lia|by eapply Hdata|].
    exists k'. split; [done|]. by rewrite (kview_shown _ _ _ Hv').
  - intros msg Hno Hl Ha.
    destruct (cat_missing (spec := spec) lit fuel buf k v) as (r & k' & E & -> & Hv'); try done; [lia|].
    exists k'. split; [done|]. by rewrite (kview_shown _ _ _ Hv').
Qed.

(** C16: [ls] on this kernel prints the name of every directory entry, in
    order, each on a line of its own, and comes back with 0, when every name
    has from 1 to 31 characters. *)
Theorem ls_lists_directory {D} `{Board D} `{Layout} `{Mmu} loc lit fuel buf (k : kernel D) v :
  let dot := chars "." in
  kview loc k v → v_free v → in_user buf 33 → v_files v !! dot = Some Directory →
  Forall (λ n, 0 < length n < 32)%nat (v_names v) → literal lit (kmem k) dot →
  (length (v_names v) < fuel)%nat →
  ∃ k', @ls _ (kernel_sys loc) lit fuel buf k = Some (0, k') ∧
    shown k' = foldl (λ t c, a_putc c t) (shown k) (concat ((λ n, n ++ [10]) <$> v_names v)).
Proof.
  intros dot Hv Hfree Hu Hd Hn Hl Hf. pose proof (kernel_spec loc) as spec. rewrite (kview_shown _ _ _ Hv).
  destruct (ls_ok (spec := spec) lit fuel buf k v) as (r & k' & E & -> & fd & _ & Hv'); try done.
  { apply Forall_lookup. intros i n Hi. rewrite Forall_lookup in Hn. split; [by eapply Hn|].
    destruct (kv_names _ _ _ Hv i n Hi) as [[_ Hc] _]. by eapply cstr_byte. }
  exists k'. split; [done|]. by rewrite (kview_shown _ _ _ Hv').
Qed.

(** Process 1 with the argument "a", and a disk with ".", a file "a" that says
    "ha", and the clock. *)
Definition sample_disk : mem :=
  store_bytes (store_bytes (store_bytes (store_bytes (store_bytes (store_bytes ∅
    0x500000 [3; 0; 0; 0; 1; 0; 0; 0; 1; 0; 0; 0])
    0x500040 ([46] ++ replicate 31 0 ++ [1; 0; 0; 0; 0; 0; 0; 0]))
    0x500080 ([97] ++ replicate 31 0 ++ [2; 0; 0; 0; 0; 0; 0; 0]))
    0x5000c0 ([114; 116; 99] ++ replicate 37 0))
    0x501000 [3; 0; 0; 0; 0; 0; 0; 0])
    0x502000 [104; 97; 10].
Definition sample_program : kernel pc :=
  let m := store_bytes (store_bytes sample_disk 0x7fc0a0 [97; 0]) 0x8000200 [46; 0] in
  let p := Pcb (files sample_pcb) 1 1 0 (context sample_pcb) 0 0 (PdProc 0) 0 in
  Kernel m sample_proc {[ pcb_of_pid 1 := p ]}
    (Kbd (replicate 3 (Term (Screen 0 0 VIDEO) (replicate 128 0) 0 0 0 0)) mods_statics 0) rtc_statics
    vm_statics (esp0_of_pid 1 - 100) (esp0_of_pid 1 - 60) (esp0_of_pid 1) KERNEL_DS 0x500000 pc_reset.
Definition sample_locals : call_locals :=
  CallLocals (ExecFrame 0x7fd200 0x7fd300 0x7fd400 0x7fd500 0 0 0) 0 0 0.
Definition sample_view (lines : list (list Z)) : view :=
  View (abs_screen (kmem sample_program) (Screen 0 0 VIDEO)) ∅ [97] [[46]; [97]; [114; 116; 99]]
    {[ [46] := Directory; [97] := Regular [104; 97; 10]; [114; 116; 99] := Device ]} lines.

Lemma sample_named i c :
  v_names (sample_view []) !! i = Some c → dir_has (kmem sample_program) 0x500000 (Z.of_nat i) c.
Proof.
  destruct i as [|[|[|i]]]; cbn [v_names sample_view lookup list_lookup]; intros E; [..|discriminate E];
    apply some_inv in E as <-; (split; [vm_compute; split; congruence|]); (split; [vm_compute; reflexivity|]);
    (split; [vm_compute; reflexivity|]); repeat constructor; discriminate.
Qed.
Lemma sample_names_file i c :
  v_names (sample_view []) !! i = Some c → names_file (kmem sample_program) 0x500000 (Z.of_nat i) c.
Proof.
  intros Hi. split; [by apply sample_named|]. intros j Hj [Hr Hc]. destruct Hr as [Hr _].
  rewrite <- (Z2Nat.id j) in Hc by lia. set (n := Z.to_nat j) in *. assert (n < i)%nat as Hn by lia.
  apply lookup_lt_Some in Hi as Hl. simpl in Hl.
  destruct (lookup_lt_is_Some_2 (v_names (sample_view [])) n ltac:(simpl; lia)) as [c' Hc'].
  destruct (sample_named n c' Hc') as [_ Hcs]. pose proof (cstr_det _ _ _ _ Hc Hcs) as ->.
  assert (NoDup (v_names (sample_view []))) as Hnd by (vm_decide).
  pose proof (NoDup_lookup _ _ _ _ Hnd Hi Hc'). lia.
Qed.

Lemma sample_program_file : file_ok (kmem sample_program) 0x500000 0.
Proof.
  split; [vm_compute; split_and?; congruence|vm_compute; congruence|].
  intros k Hk Hl. assert (inode_length (kmem sample_program) (0x500000 + BLOCK_SIZE * (0 + 1)) = 3) as E
    by (vm_compute; reflexivity).
  rewrite E in Hl. unfold BLOCK_SIZE in Hl. assert (k = 0) as -> by lia.
  vm_compute. split_and?; congruence.
Qed.

Lemma sample_kview lines : kview sample_locals sample_program (sample_view lines).
Proof.
  assert (image_end (kmem sample_program) 0x500000 = 0x503000) as Hend by (vm_compute; reflexivity).
  split.
  - vm_decide.
  - intros fd Hfd. assert (fd = 0 ∨ fd = 1) as [-> | ->] by lia; vm_compute; reflexivity.
  - split; vm_compute; split_and?; congruence.
  - split; [| |unfold apart_from|split|]; unfold locals; repeat apply Forall_cons_2; try apply Forall_nil_2;
      unfold outside_image, disjoint, in_kernel; change (kboot sample_program) with 0x500000; rewrite ?Hend;
      change (args_addr sample_program) with 0x7fc0a0; try (vm_compute; congruence);
      unfold VIDEO, PROG_VM_START, ARGS_MAX, ELF_HEADER_LEN, BYTES_DENTRY, KERNEL_LOC, SPACE_4MB, PAGE_SIZE; simpl; lia.
  - exists (Term (Screen 0 0 VIDEO) (replicate 128 0) 0 0 0 0). split; [vm_compute; reflexivity|].
    split; [split; [reflexivity|simpl; lia|simpl; lia|reflexivity|apply Forall_replicate; lia|split; simpl; lia]|]. split; [reflexivity|]. split; [reflexivity|].
    intros _. vm_compute. split_and!; congruence.
  - split; [|split; vm_compute; reflexivity]. split; [vm_compute; reflexivity|].
    split; [vm_compute; reflexivity|]. repeat constructor; discriminate.
  - done.
  - intros fd Hfd. assert (v_fds (sample_view lines) !! fd = None) as -> by done. unfold fd_shows.
    unfold FILE_ARRAY_LEN in Hfd.
    assert (fd = 2 ∨ fd = 3 ∨ fd = 4 ∨ fd = 5 ∨ fd = 6 ∨ fd = 7) as Hc by lia.
    by destruct_or! Hc; rewrite Hc; vm_compute.
  - vm_compute. reflexivity.
  - intros i name E. split; [by apply sample_named|]. revert E.
    destruct i as [|[|[|i]]]; cbn [v_names sample_view lookup list_lookup]; intros E; [..|discriminate E];
      apply some_inv in E as <-; simpl; lia.
  - intros name f Hf. cbn [v_files sample_view] in Hf.
    destruct (decide (name = [46])) as [->|Hne].
    { rewrite lookup_insert_eq in Hf. apply some_inv in Hf as <-. exists 0.
      refine (conj (sample_names_file 0 [46] eq_refl) (conj _ _)); vm_compute; reflexivity. }
    rewrite lookup_insert_ne in Hf by done. destruct (decide (name = [97])) as [->|Hne'].
    { rewrite lookup_insert_eq in Hf. apply some_inv in Hf as <-. exists 1.
      refine (conj (sample_names_file 1 [97] eq_refl) (conj _ (conj _ (conj sample_program_file _))));
        vm_compute; reflexivity. }
    rewrite lookup_insert_ne, lookup_singleton_Some in Hf by done. destruct Hf as [<- <-]. exists 2.
    refine (conj (sample_names_file 2 [114; 116; 99] eq_refl) (conj _ _)); vm_compute; reflexivity.
  - split; [vm_compute; split; congruence|]. split; [reflexivity|]. repeat constructor; simpl; lia.
  - split; [vm_compute; reflexivity|]. split; vm_compute; reflexivity.
Qed.

Lemma cat_prints_file_witness :
  ∃ k', @cat _ (kernel_sys sample_locals) (λ _, 0) 2 0x8100000 sample_program = Some (0, k') ∧
    shown k' = foldl (λ t c, a_putc c t) (shown sample_program) [104; 97; 10].
Proof.
  apply (cat_prints_file sample_locals (λ _, 0) 2 0x8100000 sample_program (sample_view [])).
  - exact (sample_kview []).
  - exists 2. split; [unfold FILE_ARRAY_LEN; lia|done].
  - split; vm_compute; congruence.
  - vm_compute. reflexivity.
  - simpl. lia.
Defined.

Lemma ls_lists_directory_witness :
  ∃ k', @ls _ (kernel_sys sample_locals) (λ _, 0x8000200) 4 0x8100000 sample_program = Some (0, k') ∧
    shown k' = foldl (λ t c, a_putc c t) (shown sample_program) [46; 10; 97; 10; 114; 116; 99; 10].
Proof.
  apply (ls_lists_directory sample_locals (λ _, 0x8000200) 4 0x8100000 sample_program (sample_view [])).
  - exact (sample_kview []).
  - exists 2. split; [unfold FILE_ARRAY_LEN; lia|done].
  - split; vm_compute; congruence.
  - vm_compute. reflexivity.
  - repeat apply Forall_cons_2; try apply Forall_nil_2; simpl; lia.
  - split; [|split; vm_compute; congruence]. split; [vm_compute; reflexivity|].
    split; [vm_compute; reflexivity|]. repeat constructor; discriminate.
  - simpl. lia.
Defined.
