(* ===== verification/Console.v ===== *)
(** * The terminal as a program reads it

    A kernel and the lines that will be typed at its terminal while a process
    waits in [terminal_read].  Each key is the keyboard interrupt's [update]
    (Keyboard.v); what it draws is seen at the process's video address, the
    same frame.  The lines reach the programs as [UserInput] promises. *)
From S2P Require Import Prelude CMem LibString Ports Screen Format Process FileSys Paging Idt Rtc KeyTable.
From S2P Require Import Keyboard Kernel SysCalls Exec UserLib UserSys UserProg UserKernel.

Record console {D : Type} := Con { con_kernel : kernel D; con_lines : list (list Z) }.
Arguments console : clear implicits.
#[global] Arguments Con {_} _ _.

Section console.
Context {D : Type} `{Board D} `{Layout} `{Mmu} (loc : call_locals).
Implicit Types (k : kernel D) (v : view).
#[local] Instance this_kernel : UserSys (kernel D) := kernel_sys loc.

(** In the directory of a process of terminal [t], the video address and the
    page of terminal [t] are one frame ([Paging.terminal_video_pages]): a
    change of one is a change of the other. *)
Definition video_to_page (t : Z) (m : mem) : mem :=
  store_bytes m (VIDEO + PAGE_SIZE * (t + 1)) (load_bytes m VIDEO (Z.to_nat PAGE_SIZE)).
Definition page_to_video (t : Z) (m : mem) : mem :=
  store_bytes m VIDEO (load_bytes m (VIDEO + PAGE_SIZE * (t + 1)) (Z.to_nat PAGE_SIZE)).

(** A key is typed while the process waits. *)
Definition type_key (key : Z) k : option (kernel D) :=
  let t := term_num (cur_pcb k) in
  match update key (video_to_page t (kmem k)) (kkbd k) (kdev k) with
  | None => None
  | Some (m, b, d) => Some (set_kdev d (set_kkbd b (set_kmem (page_to_video t m) k)))
  end.
Fixpoint type_keys (keys : list Z) k : option (kernel D) :=
  match keys with [] => Some k | key :: keys => k ← type_key key k; type_keys keys k end.

(** A call; one that waits for the keyboard takes the next line. *)
Definition console_call (f : kernel D → outcome D) : user (console D) Z := λ c,
  match f (con_kernel c) with
  | Wait_terminal buf n k =>
      match con_lines c with
      | [] => None
      | l :: lines =>
          k ← type_keys (l ++ [KEY_RETURN]) k;
          if terminal_read_ready (term_num (cur_pcb k)) (kkbd k) then
            '(r, k) ← returned (read_terminal_finish buf n k); Some (r, Con k lines)
          else None
      end
  | _ => '(r, k) ← call f (con_kernel c); Some (r, Con k (con_lines c))
  end.
Definition console_int80 (eax ebx ecx edx : Z) : user (console D) Z :=
  console_call (handle_syscall (call_frame loc) eax ebx ecx edx).
Definition set_con_mem (m : mem) (c : console D) : console D := Con (set_kmem m (con_kernel c)) (con_lines c).
#[export] Instance console_sys : UserSys (console D) :=
  stubs loc (λ c, kmem (con_kernel c)) set_con_mem console_int80.

Definition cview (c : console D) v : Prop := kview loc (con_kernel c) v ∧ v_input v = con_lines c.

(** ** The calls that do not wait for the keyboard *)

Lemma gives_lift f k lines m (Q : Z → view → Prop) :
  gives (kview loc) (call f) k m Q → (∀ r v, Q r v → v_input v = lines) →
  gives cview (console_call f) (Con k lines) m Q.
Proof using.
  intros (r & k' & E & v' & HQ & Hv & Hm) Hin. exists r, (Con k' lines). split.
  - unfold console_call. cbn [con_kernel con_lines]. unfold call in E |- *.
    destruct (f k) as [r0 k0|?? k0|k0| | | |]; try discriminate E; rewrite E; reflexivity.
  - exists v'. split; [done|]. split; [|done]. split; [done|]. by apply (Hin r).
Qed.

(** A law of the kernel is a law of the console. *)
#[local] Instance this_spec : UserSpec (kernel D) (kview loc) := kernel_spec loc.
Ltac lift law :=
  intros [? ?] v; intros; match goal with Hc : cview _ _ |- _ => destruct Hc as [Hv Hi] end;
  eapply gives_lift; [by eapply law|]; cbn [con_lines] in *; intros ? ? HQ; destruct_and? HQ; by subst.

Lemma console_spec : UserSpec (console D) cview.
Proof using H H0 H1.
  split.
  - done.
  - intros m [k lines] v [Hv Hi] Hs. split; [|done].
    exact (@sees_set _ _ _ this_spec m k v Hv Hs).
  - lift getargs_ok.
  - lift open_ok.
  - lift open_missing.
  - lift open_full.
  - lift read_bytes_ok.
  - lift read_name_ok.
  - lift read_names_end.
  - lift read_clock_ok.
  - lift read_refused.
  - lift write_ok.
  - lift write_clock_ok.
  - lift write_refused.
  - lift close_ok.
  - lift close_refused.
  - lift vidmap_refused.
  - lift set_handler_refused.
  - lift number_refused.
  - lift execute_unknown.
Qed.

(** ** Typing a line *)

Definition outside_video (b : Z) : Prop := ¬ VIDEO ≤ b < VIDEO + 4 * PAGE_SIZE.

(** [k1] is [k] after keys were typed: the text waits in the buffer, the
    screen shows [scr]. *)
Record typing k k1 (ln : Keyboard.line) (scr : aterm) (hit : Z) : Prop := {
  ty_same : kesp k1 = kesp k ∧ kproc k1 = kproc k ∧ kpcbs k1 = kpcbs k ∧ kboot k1 = kboot k ∧ krtc k1 = krtc k;
  ty_mem b : outside_video b → mget (kmem k1) b = mget (kmem k) b;
  ty_current : current_terminal (kkbd k1) = term_num (cur_pcb k);
  ty_term : ∃ t, get_terminal (term_num (cur_pcb k)) (kkbd k1) = Some t ∧ term_ok t ∧
    video_mem (screen t) = VIDEO ∧ scr = abs_screen (kmem k1) (screen t) ∧ line_of t = ln ∧
    reading t ≠ 0 ∧ hit_enter t = hit }.

Lemma typing_cur k k1 ln scr hit : typing k k1 ln scr hit → cur_pcb k1 = cur_pcb k.
Proof using. intros [(E1 & _ & E2 & _) _ _ _]. unfold cur_pcb, cur_addr. by rewrite E1, E2. Qed.

Lemma mget_copy m a b n o : 0 ≤ o < Z.of_nat n → mget (store_bytes m a (load_bytes m b n)) (a + o) = mget m (b + o).
Proof using.
  intros Ho. replace o with (Z.of_nat (Z.to_nat o)) at 1 by lia.
  rewrite (mget_store_bytes_in _ _ _ _ (mget m (b + o))); [apply u8_small, mget_range|].
  rewrite lookup_load_bytes by lia. by rewrite Z2Nat.id by lia.
Qed.
(** One screen in two places. *)
Lemma screen_moved m m' x y a a' :
  (∀ o, 0 ≤ o < 4000 → mget m' (a' + o) = mget m (a + o)) →
  abs_screen m' (Screen x y a') = abs_screen m (Screen x y a).
Proof using.
  intros Hm. unfold abs_screen. cbn [scr_x scr_y video_mem]. f_equal. apply cells_eq; [apply length_cells|].
  intros i Hi. rewrite lookup_cells by lia. rewrite Z2Nat.id by lia. unfold cell.
  rewrite <- !Z.add_assoc. by rewrite !Hm by lia.
Qed.
Lemma video_to_page_screen t m s : video_mem s = VIDEO → page_of t (video_to_page t m) s = abs_screen m s.
Proof using.
  intros Hv. unfold page_of. destruct s as [x y v]. cbn [scr_x scr_y video_mem] in *. subst v.
  apply screen_moved. intros o Ho. unfold video_to_page.
  rewrite mget_copy by (unfold PAGE_SIZE; lia). reflexivity.
Qed.
Lemma page_to_video_screen t m s : video_mem s = VIDEO → abs_screen (page_to_video t m) s = page_of t m s.
Proof using.
  intros Hv. unfold page_of. destruct s as [x y v]. cbn [scr_x scr_y video_mem] in *. subst v.
  apply screen_moved. intros o Ho. unfold page_to_video.
  rewrite mget_copy by (unfold PAGE_SIZE; lia). reflexivity.
Qed.

Lemma type_key_step k k1 ln scr hit key :
  typing k k1 ln scr hit → 0 ≤ term_num (cur_pcb k) < MAX_TERMINALS → word8 key → key ≠ KEY_BACKSPACE →
  (length (text ln) < 126)%nat ∨ key = KEY_RETURN ∧ (length (text ln) < 128)%nat →
  ∃ k2, type_key key k1 = Some k2 ∧
    typing k k2 (edit_key true key ln) (a_putc key scr) (if key =? KEY_RETURN then 1 else hit).
Proof using.
  intros Ht Hr Hkey Hnb Hroom. pose proof (typing_cur _ _ _ _ _ Ht) as Ec.
  destruct Ht as [Hsame Hm Hcur (t & Hg & Hok & Hvid & -> & <- & Hread & <-)].
  set (r := term_num (cur_pcb k)) in *. unfold MAX_TERMINALS in Hr.
  pose proof (tok_count _ Hok) as Hcnt. pose proof (tok_len _ Hok) as Hlen.
  assert (length (typed t) = Z.to_nat (buf_count t)) as Hty by (unfold typed; rewrite length_take; lia).
  change (text (line_of t)) with (typed t) in Hroom. rewrite Hty in Hroom.
  destruct (update_spec key (video_to_page r (kmem k1)) (kkbd k1) (kdev k1) t)
    as (m' & b' & d' & t' & E & Hts & Hcur' & Hok' & Hln & Hrd & Hhit & Hvid' & Hpage & Hfr);
    [by rewrite Hcur|done|lia|done|done|].
  rewrite Hcur in *. rewrite Hvid in *. specialize (Hpage Hnb).
  unfold type_key. rewrite Ec. fold r. rewrite E. eexists. split; [reflexivity|].
  assert (∀ b, outside_video b → mget (page_to_video r m') b = mget (kmem k) b) as Hm'.
  { intros b Hb. unfold outside_video, PAGE_SIZE in *. unfold page_to_video.
    rewrite mget_store_bytes_out by (rewrite length_load_bytes; unfold PAGE_SIZE; lia).
    rewrite Hfr by (unfold PAGE_SIZE; lia). unfold video_to_page.
    rewrite mget_store_bytes_out by (rewrite length_load_bytes; unfold PAGE_SIZE; lia). by apply Hm. }
  split.
  - exact Hsame.
  - exact Hm'.
  - exact Hcur'.
  - exists t'. cbn [kkbd set_kdev set_kkbd kmem set_kmem]. fold r. split.
    { unfold get_terminal in *. rewrite Hts. destruct (r <? 0); [done|]. apply lookup_lt_Some in Hg.
      by apply list_lookup_insert_eq. }
    split; [done|]. split; [congruence|]. rewrite page_to_video_screen by congruence. rewrite Hpage.
    rewrite video_to_page_screen by done. rewrite Hln, Hrd, Hhit. rewrite (proj2 (Z.eqb_neq _ _) Hread).
    split; [|by split]. destruct (Z.eqb_spec key KEY_RETURN); [reflexivity|].
    rewrite bool_decide_eq_true_2 by lia. reflexivity.
Qed.

Lemma type_keys_app l l' k : type_keys (l ++ l') k = (type_keys l k ≫= type_keys l').
Proof using. revert k. induction l as [|key l IH]; intros k; [done|]. simpl. destruct (type_key key k); [apply IH|done]. Qed.

Lemma type_text k k1 l0 n scr hit l :
  typing k k1 (Line l0 n) scr hit → 0 ≤ term_num (cur_pcb k) < MAX_TERMINALS →
  Forall (λ c, 32 ≤ c ≤ 126) l → (length l0 + length l ≤ 126)%nat →
  ∃ k2, type_keys l k1 = Some k2 ∧
    typing k k2 (Line (l0 ++ l) (n + Z.of_nat (length l))) (foldl (λ t c, a_putc c t) scr l) hit.
Proof using.
  intros Ht Hr Hl Hlen. revert k1 l0 n scr Ht Hlen. induction Hl as [|c l Hc Hl IH]; intros k1 l0 n scr Ht Hlen.
  { exists k1. split; [done|]. rewrite app_nil_r, Z.add_0_r. exact Ht. }
  cbn [length] in Hlen. unfold KEY_BACKSPACE in *.
  destruct (type_key_step k k1 _ scr hit c Ht Hr) as (k2 & E & Ht2);
    [lia|unfold KEY_BACKSPACE; lia|left; cbn [text]; lia|].
  assert (edit_key true c (Line l0 n) = Line (l0 ++ [c]) (n + 1)) as Ee.
  { unfold edit_key, KEY_RETURN, KEY_BACKSPACE. rewrite (proj2 (Z.eqb_neq c 13)), (proj2 (Z.eqb_neq c 8)) by lia.
    cbn [text editable]. by rewrite decide_True by lia. }
  rewrite Ee in Ht2. unfold KEY_RETURN in Ht2. rewrite (proj2 (Z.eqb_neq c 13)) in Ht2 by lia.
  destruct (IH k2 _ _ _ Ht2) as (k3 & E3 & Ht3); [rewrite length_app; simpl; lia|].
  exists k3. split; [cbn [type_keys]; by rewrite E|].
  rewrite <- app_assoc in Ht3. replace (n + Z.of_nat (length (c :: l))) with (n + 1 + Z.of_nat (length l)) by (cbn [length]; lia).
  exact Ht3.
Qed.

Lemma type_line k k1 scr l :
  typing k k1 (Line [] 0) scr 0 → 0 ≤ term_num (cur_pcb k) < MAX_TERMINALS → line_ok l →
  ∃ k2, type_keys (l ++ [KEY_RETURN]) k1 = Some k2 ∧
    typing k k2 (Line (l ++ [10]) 0) (foldl (λ t c, a_putc c t) scr (l ++ [10])) 1.
Proof using.
  intros Ht Hr [Hl Hc]. destruct (type_text k k1 [] 0 scr 0 l Ht Hr Hc) as (k2 & E & Ht2); [simpl; lia|].
  destruct (type_key_step k k2 _ _ _ KEY_RETURN Ht2 Hr) as (k3 & E3 & Ht3);
    [unfold KEY_RETURN; lia|done|right; split; [done|]; cbn [text app]; lia|].
  exists k3. split; [rewrite type_keys_app, E; simpl; by rewrite E3|].
  rewrite foldl_app. exact Ht3.
Qed.

(** [read] on the terminal of a kernel at which somebody sits. *)
Lemma read_begin_typing k v buf n :
  kview loc k v → v_input v ≠ [] → buf ≠ 0 →
  ∃ k1, handle_syscall (call_frame loc) 3 0 buf n k = Wait_terminal buf (s32 n) k1 ∧
    0 ≤ term_num (cur_pcb k) < MAX_TERMINALS ∧ typing k k1 (Line [] 0) (v_screen v) 0.
Proof using.
  intros Hv Hin Hb. destruct (kv_term _ _ _ Hv) as (t & Hg & Hok & Hvid & Hscr & Hatt).
  destruct (Hatt Hin) as (A1 & A2 & A3 & A4).
  pose proof (kv_std _ _ _ Hv 0 ltac:(lia)) as Hstd. apply pair_inv in Hstd as [Hop Hfl].
  set (r := term_num (cur_pcb k)) in *.
  set (b := put_terminal r (Term (screen t) (line_buf t) (buf_count t) (input_len t) 0 1) (kkbd k)).
  exists (set_kkbd b k). split; [|split].
  - rewrite dispatch_read. change (s32 0) with 0. unfold read.
    change ((0 <? 0) || (0 =? 1) || (0 >=? FILE_ARRAY_LEN)) with false. cbn iota.
    rewrite Hfl. change (negb (FD_LIVE =? 0)) with true. cbn iota. rewrite Hop. cbn [fops_read].
    rewrite (proj2 (Z.eqb_neq buf 0)) by done. fold r. unfold terminal_read_begin.
    rewrite (proj2 (Z.eqb_neq buf 0)) by done. by rewrite Hg.
  - fold r. split; [|by rewrite A1]. unfold get_terminal in Hg. destruct (Z.ltb_spec r 0); [done|lia].
  - split; [done|done|exact (eq_sym A1)|].
    exists (Term (screen t) (line_buf t) (buf_count t) (input_len t) 0 1).
    change (kkbd (set_kkbd b k)) with b. fold r. split; [by eapply get_put_terminal|].
    destruct Hok as [T1 T2 T3 T4 T5 T6].
    split; [by split|]. split; [done|]. split; [done|]. split; [|done].
    unfold line_of, typed. cbn [buf_count input_len]. by rewrite A3, A4.
Qed.

(** The bytes [terminal_read] stores: the line and zeros. *)
Lemma line_stored t n l : term_ok t → typed t = l ++ [10] → (length l < n ≤ 128)%nat →
  take n (line_buf t) = l ++ [10] ++ replicate (n - length l - 1) 0.
Proof using.
  intros Hok Hty Hn. pose proof (tok_count _ Hok). pose proof (tok_len _ Hok).
  assert (Z.to_nat (buf_count t) = length l + 1)%nat as Hc.
  { apply (f_equal length) in Hty. unfold typed in Hty. rewrite length_take, length_app in Hty. simpl in Hty. lia. }
  rewrite <- (take_drop (Z.to_nat (buf_count t)) (line_buf t)). fold (typed t). rewrite Hty, (tok_tail _ Hok).
  rewrite take_app, take_ge by (rewrite length_app; simpl; lia).
  rewrite <- app_assoc. do 2 f_equal. rewrite take_replicate. f_equal. rewrite length_app. simpl. lia.
Qed.

(** The end of the read, in the state the keys left. *)
Lemma read_finish_view k v k2 lines buf n l scr :
  kview loc k v → attended k (Term (Screen 0 0 0) [] 0 0 0 0) →
  typing k k2 (Line (l ++ [10]) 0) scr 1 → line_ok l → Z.of_nat (length l) < n < 2 ^ 31 → in_user buf n →
  let pad := replicate (Z.to_nat (Z.min n 128) - length l - 1) 0 in
  ∃ k3, read_terminal_finish buf n k2 = Ret (Z.of_nat (length l) + 1) k3 ∧
    kview loc k3 (View scr (v_fds v) (v_args v) (v_names v) (v_files v) lines) ∧
    user_same (store_bytes (kmem k) buf (l ++ [10] ++ pad)) (kmem k3).
Proof using.
  intros Hv (A1 & A2 & _ & _) Hty [Hl _] Hn [U1 U2] pad. pose proof (typing_cur _ _ _ _ _ Hty) as Ec.
  destruct Hty as [(E1 & E2 & E3 & E4 & E5) Hm Hcur (t & Hg & Hok & Hvid & -> & Hln & Hread & Hhit)].
  set (r := term_num (cur_pcb k)) in *.
  assert (typed t = l ++ [10]) as Ht by (by apply (f_equal text) in Hln).
  assert (input_len t = 0) as Hi by (by apply (f_equal editable) in Hln).
  pose proof (tok_count _ Hok). pose proof (tok_len _ Hok).
  assert (Z.to_nat (buf_count t) = length l + 1)%nat as Hc.
  { apply (f_equal length) in Ht. unfold typed in Ht. rewrite length_take, length_app in Ht. simpl in Ht. lia. }
  destruct (terminal_read_finish_spec buf n r (kmem k2) (kkbd k2) (kdev k2) t Hg Hok) as (lb & d' & E & F1 & F2 & F3); [lia|].
  set (n' := Z.to_nat (Z.min n 128)) in *.
  rewrite (line_stored t n' l Hok Ht) in E by lia. fold pad in E. set (bytes := l ++ [10] ++ pad) in *.
  assert (Z.of_nat (length bytes) ≤ n) as Hlen.
  { unfold bytes, pad. rewrite !length_app, length_replicate. simpl. lia. }
  replace (Z.max 0 (buf_count t - Z.min n 128)) with 0 in * by lia.
  replace (Z.min (Z.min n 128) (buf_count t)) with (Z.of_nat (length l) + 1) in E by lia.
  set (t' := Term (screen t) lb 0 (input_len t) 0 0) in *.
  set (k3 := set_kdev d' (set_kkbd (put_terminal r t' (kkbd k2)) (set_kmem (store_bytes (kmem k2) buf bytes) k2))).
  assert (∀ b, outside_video b → ¬ buf ≤ b < buf + n → mget (kmem k3) b = mget (kmem k) b) as Hm3.
  { intros b Hb Hbuf. change (kmem k3) with (store_bytes (kmem k2) buf bytes).
    rewrite mget_store_bytes_out by lia. by apply Hm. }
  exists k3. split.
  { unfold read_terminal_finish. rewrite Ec. fold r. rewrite E. reflexivity. }
  destruct (lay_image _ _ (kv_layout _ _ _ Hv)) as [I1 I2]. destruct (lay_args _ _ (kv_layout _ _ _ Hv)) as (P1 & P2 & _).
  assert (cur_pcb k3 = cur_pcb k) as Ec3 by exact Ec.
  split.
  - apply (kview_step loc k k3 v); try done; rewrite ?Ec3; try apply Hv.
    + split; intros b Hb; apply Hm3; unfold outside_video, VIDEO, PAGE_SIZE, PROG_VM_START in *; lia.
    + by destruct (cur_pcb k).
    + intros fd _. unfold cur_fd. by rewrite Ec3.
    + exists t'. rewrite Ec3. fold r. change (kkbd k3) with (put_terminal r t' (kkbd k2)).
      split; [by eapply get_put_terminal|]. destruct Hok as [T1 T2 T3 T4 T5 T6].
      split; [|split; [exact Hvid|split; [|]]].
      * change (Z.to_nat 0) with 0%nat in F3. rewrite drop_0 in F3. subst lb.
        split; cbn [line_buf buf_count input_len screen t']; rewrite ?Hi; try done; try lia.
        apply Forall_replicate. lia.
      * cbn [v_screen]. symmetry. apply abs_screen_ext. intros b Hb.
        change (kmem k3) with (store_bytes (kmem k2) buf bytes).
        apply mget_store_bytes_out. cbn [t' screen] in Hb. rewrite Hvid in Hb.
        unfold VIDEO, PROG_VM_START in *. lia.
      * intros _. unfold attended. rewrite Ec3. fold r. change (kkbd k3) with (put_terminal r t' (kkbd k2)).
        change (current_terminal (put_terminal r t' (kkbd k2))) with (current_terminal (kkbd k2)). rewrite Hcur.
        split; [done|]. split; [by rewrite A1|]. by split.
    + change (krtc k3) with (krtc k2). rewrite E5. apply (kv_clock _ _ _ Hv).
    + intros fd Hfd. unfold cur_fd. rewrite Ec3. by apply (kv_streams _ _ _ Hv).
  - intros b Hb. change (kmem k3) with (store_bytes (kmem k2) buf bytes). rewrite !mget_store_bytes.
    case_match; [done|]. apply Hm. unfold user_addr, outside_video, VIDEO, PAGE_SIZE, PROG_VM_START in *. lia.
Qed.

Lemma console_input : UserInput (console D) cview.
Proof using H H0 H1.
  split. intros [k lines0] v l lines buf n [Hv Hi] Hin Hl Hn Hu. cbn [con_kernel con_lines] in *.
  assert (v_input v ≠ []) as Hne by (by rewrite Hin).
  destruct (kv_term _ _ _ Hv) as (t & _ & _ & _ & _ & Hatt). destruct (Hatt Hne) as (A1 & A2 & A3 & A4).
  destruct (read_begin_typing k v buf n Hv Hne) as (k1 & E1 & Hr & Ht1).
  { destruct Hu as [U1 _]. unfold PROG_VM_START in U1. lia. }
  destruct (type_line k k1 _ l Ht1 Hr Hl) as (k2 & E2 & Ht2).
  destruct (read_finish_view k v k2 lines buf n l _ Hv (conj A1 (conj A2 (conj eq_refl eq_refl))) Ht2 Hl Hn Hu)
    as (k3 & E3 & Hv3 & Hm3).
  exists (replicate (Z.to_nat (Z.min n 128) - length l - 1) 0). split.
  { destruct Hl as [Hl _]. rewrite length_replicate. lia. }
  exists (Z.of_nat (length l) + 1), (Con k3 lines). split.
  - cbn [ece391_read console_sys stubs]. unfold console_int80, console_call. cbn [con_kernel con_lines].
    rewrite E1, <- Hi, Hin. rewrite E2. cbn [mbind option_bind].
    assert (terminal_read_ready (term_num (cur_pcb k2)) (kkbd k2) = true) as ->.
    { rewrite (typing_cur _ _ _ _ _ Ht2). destruct Ht2 as [_ _ _ (t2 & Hg2 & _ & _ & _ & _ & _ & Hh)].
      unfold terminal_read_ready. by rewrite Hg2, Hh. }
    rewrite s32_small by lia. rewrite E3. reflexivity.
  - eexists. split; [split; reflexivity|]. split; [|exact Hm3]. split; [exact Hv3|reflexivity].
Qed.
End console.
