(* ===== verification/Video.v ===== *)
(** * A process that has mapped the screen

    [vidmap] puts the page of the process's terminal at [PROG_VIDMEM_ADDR]
    (SysCalls.vidmap_maps_page): that page and the video memory are one frame.
    Memory is indexed by linear addresses, so the two are made equal when the
    kernel is entered and when it is left; between two calls the program's
    stores into its page are what the screen shows. *)
From S2P Require Import Prelude CMem LibString Ports Screen Format Process FileSys Paging Idt Rtc KeyTable.
From S2P Require Import Keyboard Kernel SysCalls Exec UserLib UserSys UserProg UserKernel Blink Fish.

Section video.
Context {D : Type} `{Board D} `{Layout} `{Mmu} (loc : call_locals).
Implicit Types (k : kernel D) (v : view).

Definition copy_page (from to : Z) (m : mem) : mem := store_bytes m to (load_bytes m from (Z.to_nat PAGE_SIZE)).
(** What the process stored is on the screen. *)
Definition show_page k : kernel D := set_kmem (copy_page PROG_VIDMEM_ADDR VIDEO (kmem k)) k.
Lemma kmem_show_page k : kmem (show_page k) = copy_page PROG_VIDMEM_ADDR VIDEO (kmem k).
Proof using. done. Qed.
(** What the kernel wrote is in the process's page. *)
Definition map_page k : kernel D := set_kmem (copy_page VIDEO PROG_VIDMEM_ADDR (kmem k)) k.
Definition video_int80 (eax ebx ecx edx : Z) : user (kernel D) Z := λ k,
  '(r, k) ← int80 loc eax ebx ecx edx (show_page k); Some (r, map_page k).
Definition video_sys : UserSys (kernel D) := stubs loc kmem set_kmem video_int80.
Definition vview k v : Prop := kview loc (show_page k) v.
#[local] Existing Instance video_sys.

Lemma mget_copy_page from to m a :
  mget (copy_page from to m) a = if decide (to ≤ a < to + PAGE_SIZE) then mget m (from + (a - to)) else mget m a.
Proof using.
  unfold copy_page. rewrite mget_store_bytes. unfold PAGE_SIZE. repeat case_decide; try lia.
  - rewrite lookup_load_bytes by lia. rewrite Z2Nat.id by lia. apply u8_small, mget_range.
  - rewrite lookup_ge_None_2 by (rewrite length_load_bytes; lia). done.
Qed.
Lemma user_off_pages a : user_addr a → ¬ VIDEO ≤ a < VIDEO + PAGE_SIZE ∧ ¬ PROG_VIDMEM_ADDR ≤ a < PROG_VIDMEM_ADDR + PAGE_SIZE.
Proof using. unfold user_addr, VIDEO, PAGE_SIZE, PROG_VIDMEM_ADDR, PROG_VM_START, SPACE_4MB. lia. Qed.
Lemma show_page_user k : user_same (kmem k) (kmem (show_page k)).
Proof using. intros a Ha. change (kmem (show_page k)) with (copy_page PROG_VIDMEM_ADDR VIDEO (kmem k)). rewrite mget_copy_page. destruct (user_off_pages a Ha). by rewrite decide_False. Qed.
Lemma map_page_user k : user_same (kmem k) (kmem (map_page k)).
Proof using. intros a Ha. change (kmem (map_page k)) with (copy_page VIDEO PROG_VIDMEM_ADDR (kmem k)). rewrite mget_copy_page. destruct (user_off_pages a Ha). by rewrite decide_False. Qed.

(** A change of the memory behind the program's. *)
Lemma low_same_kview k k' v m : kview loc k v → k' = set_kmem m k →
  (∀ b, VIDEO ≤ b < PROG_VM_START → mget m b = mget (kmem k) b) → kview loc k' v.
Proof using. intros Hv -> Hm. apply kview_mem; [done|]. eapply low_memory_same; [apply (kv_layout _ _ _ Hv)|done]. Qed.
Lemma map_page_vview k v : kview loc k v → vview (map_page k) v.
Proof using.
  intros Hv. unfold vview. eapply (low_same_kview k _ v); [done|reflexivity|]. intros b Hb.
  change (kmem (map_page k)) with (copy_page VIDEO PROG_VIDMEM_ADDR (kmem k)). rewrite !mget_copy_page.
  unfold VIDEO, PAGE_SIZE, PROG_VIDMEM_ADDR, PROG_VM_START, SPACE_4MB in *. repeat case_decide; try lia; f_equal; lia.
Qed.

(** A law of the kernel, for the process that has mapped the screen. *)
Lemma video_lift eax ebx ecx edx k m m0 (Q : Z → view → Prop) :
  @gives _ (kernel_sys loc) (kview loc) (int80 loc eax ebx ecx edx) (show_page k) m0 Q → user_same m m0 →
  @gives _ video_sys vview (video_int80 eax ebx ecx edx) k m Q.
Proof using.
  intros (r & k' & E & v' & HQ & Hv & Hm) Hs. exists r, (map_page k'). split; [unfold video_int80; by rewrite E|].
  exists v'. split; [done|]. split; [by apply map_page_vview|].
  intros a Ha. etransitivity; [exact (map_page_user k' a Ha)|]. etransitivity; [exact (Hm a Ha)|]. by apply Hs.
Qed.

Lemma user_same_store m m' a l : user_same m m' → user_same (store_bytes m a l) (store_bytes m' a l).
Proof using. intros Hs b Hb. rewrite !mget_store_bytes. case_match; [done|by apply Hs]. Qed.
Lemma user_same_store32 m m' a x : user_same m m' → user_same (store32 m a x) (store32 m' a x).
Proof using. intros Hs b Hb. unfold store32. rewrite !mget_mset. repeat case_decide; try done. by apply Hs. Qed.

#[local] Instance this_spec : @UserSpec (kernel D) (kernel_sys loc) (kview loc) := kernel_spec loc.
Lemma show_page_set m k : show_page (set_kmem m k) = set_kmem (kmem (show_page (set_kmem m k))) (show_page k).
Proof using.
  rewrite kmem_show_page. unfold show_page. generalize (copy_page PROG_VIDMEM_ADDR VIDEO (kmem (set_kmem m k))).
  generalize (copy_page PROG_VIDMEM_ADDR VIDEO (kmem k)). reflexivity.
Qed.
(** A law of the kernel, carried over; [m]: the memory the program expects. *)
Ltac lift n k m law :=
  let Hg := fresh in pose proof law as Hg;
  refine (video_lift n _ _ _ k m _ _ Hg _); first [exact (show_page_user k)|exact (user_same_store _ _ _ _ (show_page_user k))].
Lemma show_cstr k p l : in_user p (Z.of_nat (length l) + 1) → cstr (kmem k) p l → cstr (kmem (show_page k)) p l.
Proof using. intros Hu. apply user_same_cstr; [apply show_page_user|done]. Qed.

#[local] Opaque copy_page show_page map_page.
Lemma video_spec : @UserSpec (kernel D) video_sys vview.
Proof using H H0 H1.
  split.
  - done.
  - intros m k v Hv Hs. unfold vview in *. eapply (low_same_kview (show_page k) _ v); [exact Hv|apply show_page_set|]. intros b Hb.
    rewrite !kmem_show_page, !mget_copy_page. change (kmem (set_umem m k)) with m. change (umem k) with (kmem k) in Hs.
    assert (¬ user_addr b) by (unfold user_addr; lia). case_decide; apply Hs; [|done].
    unfold user_addr, PROG_VIDMEM_ADDR, VIDEO, PAGE_SIZE, PROG_VM_START, SPACE_4MB in *. lia.
  - intros k v buf n Hv Hl Hu. lift 7 k (store_bytes (kmem k) buf (v_args v ++ [0])) (@getargs_ok _ _ _ this_spec (show_page k) v buf n Hv Hl Hu).
  - intros k v p name f Hv Hc Hu Hf Hfree. lift 5 k (kmem k) (@open_ok _ _ _ this_spec (show_page k) v p name f Hv (show_cstr k p name Hu Hc) Hu Hf Hfree).
  - intros k v p name Hv Hc Hu Hn Hfree. lift 5 k (kmem k) (@open_missing _ _ _ this_spec (show_page k) v p name Hv (show_cstr k p name Hu Hc) Hu Hn Hfree).
  - intros k v p Hv Hfree. lift 5 k (kmem k) (@open_full _ _ _ this_spec (show_page k) v p Hv Hfree).
  - intros k v fd rest buf n Hv Hfd Hn Hu. lift 3 k (store_bytes (kmem k) buf (take (Z.to_nat n) rest)) (@read_bytes_ok _ _ _ this_spec (show_page k) v fd rest buf n Hv Hfd Hn Hu).
  - intros k v fd name rest buf n Hv Hfd Hn Hu. lift 3 k (store_bytes (kmem k) buf (name ++ [10; 0])) (@read_name_ok _ _ _ this_spec (show_page k) v fd name rest buf n Hv Hfd Hn Hu).
  - intros k v fd buf n Hv Hfd Hn. lift 3 k (kmem k) (@read_names_end _ _ _ this_spec (show_page k) v fd buf n Hv Hfd Hn).
  - intros k v fd buf n Hv Hfd. lift 3 k (kmem k) (@read_clock_ok _ _ _ this_spec (show_page k) v fd buf n Hv Hfd).
  - intros k v fd buf n Hv Hb. lift 3 k (kmem k) (@read_refused _ _ _ this_spec (show_page k) v fd buf n Hv Hb).
  - intros k v buf n Hv Hn Hu.
    assert (load_bytes (kmem (show_page k)) buf (Z.to_nat n) = load_bytes (kmem k) buf (Z.to_nat n)) as E.
    { apply (user_same_load (kmem k)); [apply show_page_user|rewrite Z2Nat.id by lia; done]. }
    pose proof (@write_ok _ _ _ this_spec (show_page k) v buf n Hv Hn Hu) as Hw.
    change (@umem _ (kernel_sys loc) (show_page k)) with (kmem (show_page k)) in Hw. rewrite E in Hw.
    change (@umem _ video_sys k) with (kmem k). clear E. revert Hw. generalize (load_bytes (kmem k) buf (Z.to_nat n)). intros l Hw.
    lift 4 k (kmem k) Hw.
  - intros k v fd buf n Hv Hfd. lift 4 k (kmem k) (@write_clock_ok _ _ _ this_spec (show_page k) v fd buf n Hv Hfd).
  - intros k v fd buf n Hv Hb. lift 4 k (kmem k) (@write_refused _ _ _ this_spec (show_page k) v fd buf n Hv Hb).
  - intros k v fd st Hv Hfd. lift 6 k (kmem k) (@close_ok _ _ _ this_spec (show_page k) v fd st Hv Hfd).
  - intros k v fd Hv Hb. lift 6 k (kmem k) (@close_refused _ _ _ this_spec (show_page k) v fd Hv Hb).
  - intros k v p Hv Hp Hn. lift 8 k (kmem k) (@vidmap_refused _ _ _ this_spec (show_page k) v p Hv Hp Hn).
  - intros k v n h Hv. lift 9 k (kmem k) (@set_handler_refused _ _ _ this_spec (show_page k) v n h Hv).
  - intros k v n Hv Hn. lift n k (kmem k) (@number_refused _ _ _ this_spec (show_page k) v n Hv Hn).
  - intros k v p l Hv Hc Hu Hl Hn. lift 2 k (kmem k) (@execute_unknown _ _ _ this_spec (show_page k) v p l Hv (show_cstr k p l Hu Hc) Hu Hl Hn).
Qed.
#[local] Transparent copy_page show_page map_page.

(** ** What is drawn is seen *)

Lemma cells_draw m d : 0 ≤ d.1 < 2000 →
  cells (draw VIDEO m d) VIDEO = alter (λ c, (u8 d.2, c.2)) (Z.to_nat d.1) (cells m VIDEO).
Proof using.
  intros Hd. apply cells_eq; [by rewrite length_alter, length_cells|]. intros i Hi.
  rewrite list_lookup_alter, lookup_cells by lia. rewrite Z2Nat.id by lia. unfold cell, draw.
  case_decide as Ej.
  - replace d.1 with i by lia. cbn. by rewrite mget_mset_eq, mget_mset_ne by lia.
  - rewrite lookup_cells by lia. rewrite Z2Nat.id by lia. unfold cell. by rewrite !mget_mset_ne by lia.
Qed.
Lemma abs_drawn ds m x y : Forall (λ d, 0 ≤ d.1 < 2000) ds →
  abs_screen (drawn VIDEO ds m) (Screen x y VIDEO) = foldl (λ t d, a_paint d t) (abs_screen m (Screen x y VIDEO)) ds.
Proof using.
  intros Hd. revert m. induction Hd as [|d ds Hd1 Hd IH]; intros m; [done|].
  change (drawn VIDEO (d :: ds) m) with (drawn VIDEO ds (draw VIDEO m d)). rewrite IH. cbn [foldl]. f_equal.
  unfold abs_screen, a_paint. cbn [scr_x scr_y video_mem a_x a_y a_cells]. by rewrite cells_draw.
Qed.
(** The copy of a page on which was drawn. *)
Lemma copy_drawn ds m b : Forall (λ d, 0 ≤ d.1 < 2000) ds → VIDEO ≤ b < PROG_VM_START →
  mget (copy_page PROG_VIDMEM_ADDR VIDEO (drawn PROG_VIDMEM_ADDR ds m)) b =
  mget (drawn VIDEO ds (copy_page PROG_VIDMEM_ADDR VIDEO m)) b.
Proof using.
  intros Hd Hb. rewrite mget_copy_page. assert (PROG_VIDMEM_ADDR = 0x8400000 ∧ VIDEO = 0xb8000 ∧ PROG_VM_START = 0x8000000 ∧ PAGE_SIZE = 4096) as (P1 & P2 & P3 & P4) by done.
  case_decide as Hp.
  - assert (mget (copy_page PROG_VIDMEM_ADDR VIDEO m) b = mget m (PROG_VIDMEM_ADDR + (b - VIDEO))) as E
      by (rewrite mget_copy_page; by rewrite decide_True).
    revert E. generalize (copy_page PROG_VIDMEM_ADDR VIDEO m). revert m.
    induction Hd as [|d ds Hd1 Hd IH]; intros m m' E; [by symmetry|].
    change (mget (drawn PROG_VIDMEM_ADDR ds (draw PROG_VIDMEM_ADDR m d)) (PROG_VIDMEM_ADDR + (b - VIDEO)) = mget (drawn VIDEO ds (draw VIDEO m' d)) b).
    apply IH. unfold draw. rewrite !mget_mset. repeat case_decide; [done|lia|lia|done].
  - rewrite !drawn_out, mget_copy_page by (done || lia). by rewrite decide_False.
Qed.
Lemma kview_drawn k v m ds : kview loc k v → Forall (λ d, 0 ≤ d.1 < 2000) ds →
  (∀ b, VIDEO ≤ b < PROG_VM_START → mget m b = mget (drawn VIDEO ds (kmem k)) b) →
  kview loc (set_kmem m k) (v_paint ds v).
Proof using.
  intros Hv Hd Hm. destruct (lay_image _ _ (kv_layout _ _ _ Hv)) as [I1 I2]. destruct (lay_args _ _ (kv_layout _ _ _ Hv)) as (A1 & A2 & _).
  unfold VIDEO, PAGE_SIZE, PROG_VM_START in *.
  assert (∀ b, 753664 + 4000 ≤ b < 134217728 → mget m b = mget (kmem k) b) as Hout
    by (intros b Hb; rewrite Hm by lia; apply drawn_out; [done|unfold VIDEO; lia]).
  apply (kview_step loc k _ v); try done; try apply Hv.
  - cbn [kmem set_kmem]. unfold ARGS_MAX in *. split; intros b Hb; apply Hout; unfold ARGS_MAX in *; lia.
  - change (cur_pcb (set_kmem m k)) with (cur_pcb k). by destruct (cur_pcb k).
  - destruct (kv_term _ _ _ Hv) as (t & Ht & Htok & Hvid & Hscr & Hatt). exists t. split; [exact Ht|]. split; [done|].
    split; [done|]. split; [|exact Hatt]. cbn [v_paint v_screen kmem set_kmem]. rewrite Hscr. symmetry.
    destruct (screen t) as [x y vm]. cbn [video_mem] in Hvid. subst vm. rewrite <- abs_drawn by done.
    apply abs_screen_ext. intros b Hb. apply Hm. cbn [video_mem] in Hb. unfold VIDEO in *. lia.
Qed.

#[export] Instance video_video : @UserVideo (kernel D) video_sys vview PROG_VIDMEM_ADDR.
Proof using H H0 H1.
  split.
  - intros k v p Hv [U1 U2]. refine (video_lift 8 _ _ _ k (store32 (kmem k) p PROG_VIDMEM_ADDR) (store32 (kmem (show_page k)) p PROG_VIDMEM_ADDR) _ _ _);
      [|apply user_same_store32, show_page_user].
    assert (PROG_VM_START = 0x8000000 ∧ SPACE_4MB = 0x400000) as [P1 P2] by done.
    unfold vview in Hv. revert Hv. generalize (show_page k). clear k. intros k Hv.
    eapply (call_returns loc _ k _ PROG_VIDMEM_ADDR); [rewrite dispatch_vidmap; unfold vidmap|split; reflexivity| |].
    + rewrite s32_small by lia. rewrite (proj2 (Z.ltb_ge _ _)), Z.geb_leb, (proj2 (Z.leb_gt _ _)) by lia. cbn [orb]. reflexivity.
    + apply (kview_same loc k); try done; [apply (kv_clock _ _ _ Hv)|]. cbn [kmem set_kvm set_kmem].
      apply (system_memory_same loc); [apply (kv_layout _ _ _ Hv)|]. intros b Hb. apply frame_store32. unfold user_addr in Hb. lia.
    + done.
  - intros k v m ds Hv Hd Hm. unfold vview in *. change (set_umem m k) with (set_kmem m k).
    rewrite show_page_set. apply kview_drawn; [done..|]. intros b Hb.
    rewrite !kmem_show_page. change (kmem (set_kmem m k)) with m. rewrite <- copy_drawn by done.
    assert (PROG_VIDMEM_ADDR = 0x8400000 ∧ VIDEO = 0xb8000 ∧ PROG_VM_START = 0x8000000 ∧ PAGE_SIZE = 4096 ∧ SPACE_4MB = 0x400000) as (P1 & P2 & P3 & P4 & P5) by done.
    rewrite !mget_copy_page. case_decide; apply Hm; unfold user_addr; lia.
Qed.
End video.
