(* ===== verification/UserRun.v ===== *)
(** * The programs on this kernel

    The kernel and the console satisfy the interface the programs were
    verified against (UserKernel.v, Console.v); what each program does on them
    follows.  The sample machine has the strings of a program in the memory of
    the process that runs it. *)
From Stdlib Require Import Ascii String.
From S2P Require Import Prelude CMem LibString Ports Screen Format Process FileSys Paging Idt Rtc KeyTable.
From S2P Require Import Keyboard Kernel SysCalls Exec UserLib UserSys UserProg UserErr UserGrep UserTalk UserSig.
From S2P Require Import Blink Pond Fish UserKernel Console Video.

(** The text on the terminal of the running process. *)
Definition con_shown {D} (c : console D) : aterm := shown (con_kernel c).
(** The terminal [t] after [l] was printed. *)
Definition printed (l : list Z) (t : aterm) : aterm := foldl (λ t c, a_putc c t) t l.

Section run.
Context {D : Type} `{Board D} `{Layout} `{Mmu} (loc : call_locals).
Implicit Types (v : view) (k : kernel D) (c : console D).

Lemma cview_shown c v : cview loc c v → con_shown c = v_screen v.
Proof using H H0 H1. intros [Hv _]. apply (kview_shown _ _ _ Hv). Qed.
Lemma cview_input c v : cview loc c v → con_lines c = v_input v.
Proof using H H0 H1. by intros [_ Hi]. Qed.

(** A program that ends with a view, as seen on the screen. *)
Lemma run_shown {A} (prog : user (console D) A) c v r lines out :
  cview loc c v →
  sat prog c (λ r' c', r' = r ∧ cview loc c' (v_typed lines (v_print out v))) →
  ∃ c', prog c = Some (r, c') ∧ con_shown c' = printed out (con_shown c) ∧ con_lines c' = lines ∧
    cview loc c' (v_typed lines (v_print out v)).
Proof using H H0 H1.
  intros Hv (r' & c' & E & -> & Hv'). exists c'. split; [exact E|].
  rewrite (cview_shown _ _ Hv), (cview_shown _ _ Hv'), (cview_input _ _ Hv'). done.
Qed.

(** No descriptor but the standard ones is open. *)
Lemma no_descriptor_open c v fd :
  cview loc c v → v_fds v = ∅ → 2 ≤ fd < FILE_ARRAY_LEN → flags (cur_fd fd (con_kernel c)) = 0.
Proof using H H0 H1.
  intros [Hv _] He Hr. pose proof (kv_streams _ _ _ Hv fd Hr) as Hst. by rewrite He in Hst.
Qed.

(** A program with no open file can open three. *)
Lemma descriptors_free v : v_fds v = ∅ →
  v_free v ∧ (∀ fd st, v_free (v_set_fd fd (Some st) v)) ∧
  ∀ fd st fd' st', v_free (v_set_fd fd (Some st) (v_set_fd fd' (Some st') v)).
Proof using.
  intros He. assert (∀ fd fd', ∃ x, 2 ≤ x < FILE_ARRAY_LEN ∧ x ≠ fd ∧ x ≠ fd') as Hx.
  { intros fd fd'. unfold FILE_ARRAY_LEN.
    destruct (decide (fd = 2 ∨ fd' = 2)) as [H2|]; [|exists 2; lia].
    destruct (decide (fd = 3 ∨ fd' = 3)) as [H3|]; [|exists 3; lia]. exists 4. lia. }
  split; [|split]; intros; [destruct (Hx 0 0) as (x & Hr & N1 & N2)|destruct (Hx fd 0) as (x & Hr & N1 & N2)|
    destruct (Hx fd fd') as (x & Hr & N1 & N2)]; exists x; (split; [done|]);
    cbn [v_fds v_set_fd]; rewrite ?lookup_partial_alter_ne by done; by rewrite He.
Qed.

(** A process that mapped the screen, and what the screen shows then. *)
Lemma map_page_literal lit l k : literal lit (kmem k) l → literal lit (kmem (map_page k)) l.
Proof using. apply literal_same, map_page_user. Qed.
Lemma main_locals_mapped {base head arr vptr} lit k f0 f1 rv bst (c0 c1 : Z) bs tmp n0 n1 :
  @main_locals base head arr vptr lit (kmem k) f0 f1 rv bst c0 c1 bs tmp n0 n1 →
  @main_locals base head arr vptr lit (kmem (map_page k)) f0 f1 rv bst c0 c1 bs tmp n0 n1.
Proof using. intros [M1 M2 M3 (M4 & M5 & M6) M7 M8]. split; try done. split; [|split]; by apply map_page_literal. Qed.
Lemma vview_shown k v : vview loc k v → shown (show_page k) = v_screen v.
Proof using H H0 H1. apply kview_shown. Qed.
Lemma mapped_run_shown (prog : user (kernel D) Z) k v r ds : kview loc k v →
  sat prog (map_page k) (λ r' k', r' = r ∧ vview loc k' (v_paint ds v)) →
  ∃ k', prog (map_page k) = Some (r, k') ∧ shown (show_page k') = foldl (λ t d, a_paint d t) (shown k) ds.
Proof using H H0 H1.
  intros Hv (r' & k' & E & -> & Hv'). exists k'. split; [exact E|].
  by rewrite (vview_shown _ _ Hv'), (kview_shown _ _ _ Hv).
Qed.
End run.

(** The cells that the animation of two frames writes, in order. *)
Definition animation (d0 d1 : list Z) : list (Z * Z) := p_drawn (animated (add_all (frame_spots d0 d1) (Pond [] []))).
Definition painted (ds : list (Z * Z)) (t : aterm) : aterm := foldl (λ t d, a_paint d t) t ds.

(** ** Properties *)

Section properties.
Context {D : Type} `{Board D} `{Layout} `{Mmu} (loc : call_locals).

(** C14: a line typed at the terminal reaches the program that waits for it.
    [read] on standard input, for at least as many bytes as the line and its
    newline have, comes back when Return is pressed with the characters of
    the line and a newline in the buffer, and their number; they have been
    echoed on the screen; of the rest of the program's memory only what is
    left of the buffer may have changed. *)
Theorem typed_line_is_read c v l lines buf n :
  cview loc c v → con_lines c = l :: lines → line_ok l → Z.of_nat (length l) < n < 2 ^ 31 → in_user buf n →
  ∃ c' pad, @ece391_read _ (console_sys loc) 0 buf n c = Some (Z.of_nat (length l) + 1, c') ∧
    con_shown c' = printed (l ++ [10]) (con_shown c) ∧ con_lines c' = lines ∧
    Z.of_nat (length l + 1 + length pad) ≤ n ∧
    user_same (store_bytes (kmem (con_kernel c)) buf (l ++ [10] ++ pad)) (kmem (con_kernel c')).
Proof using H H0 H1.
  intros Hv Hin Hl Hn Hu. pose proof (console_input loc) as inp. rewrite (cview_input _ _ _ Hv) in Hin.
  destruct (@read_line_ok _ _ _ inp c v l lines buf n Hv Hin Hl Hn Hu) as (pad & Hp & r & c' & E & v' & (-> & ->) & Hv' & Hm).
  exists c', pad. split; [exact E|]. rewrite (cview_shown _ _ _ Hv), (cview_shown _ _ _ Hv'), (cview_input _ _ _ Hv').
  by split_and!.
Qed.

(** C4: the tests of ece391syserr.c pass on this kernel.  Whatever line is
    typed at the prompt, the program comes back with 0; for a digit from 1 to
    8 it has printed that its test passed, for 0 that all eight and the
    overall test did, else that the number is invalid; and no descriptor is
    left open. *)
Theorem syserr_passes lit buf tbuf c v l lines :
  cview loc c v → con_lines c = l :: lines → line_ok l → testable v →
  Forall (λ x, literal lit (kmem (con_kernel c)) x ∧ apart lit x buf 127) syserr_literals → in_user buf 127 →
  ∃ c', @syserr _ (console_sys loc) lit buf tbuf c = Some (0, c') ∧
    con_shown c' = printed (prompt ++ l ++ [10] ++ report (default 10 (head l))) (con_shown c) ∧
    ∀ fd, 2 ≤ fd < FILE_ARRAY_LEN → flags (cur_fd fd (con_kernel c')) = 0.
Proof using H H0 H1.
  intros Hv Hin Hl Ht Hlit Hu. rewrite (cview_input _ _ _ Hv) in Hin. apply Forall_and in Hlit as [Hlit Ha].
  destruct (run_shown loc _ c v _ _ _ Hv
    (syserr_ok (spec := console_spec loc) (inp := console_input loc) lit buf tbuf c v l lines Hv Hin Hl Ht Hlit Hu Ha))
    as (c' & E & Hs & _ & Hv').
  exists c'. split; [exact E|]. split; [exact Hs|]. intros fd. apply (no_descriptor_open _ _ _ _ Hv'). apply Ht.
Qed.

(** C13: [grep] on this kernel.  With any text as its argument it goes through
    the directory in its order, skips the names that start with a dot, and
    comes back with 0.  Of a regular file that is a text, without NULs and with
    lines of less than 1024 characters, it prints exactly the lines that match,
    after the name of the file and a colon, found whole although the file is
    read in pieces; a line matches when it contains the argument, which is
    found only if it is not empty and starts with a byte below 128.  Of any
    other regular file (the programs themselves, say) it prints some blocks of
    that form; of a device nothing.  The names have 1 to 31 characters and can
    be opened, two descriptors are free, and the byte behind the array, which
    the program reads before it stores there, is no newline at first. *)
Theorem grep_prints_matches lit names fuel search buf data (k : kernel D) v :
  kview loc k v → v_files v !! chars "." = Some Directory →
  v_free v → (∀ fd st, v_free (v_set_fd fd (Some st) v)) → grep_frame lit search buf data (kmem k) →
  Forall (grep_name fuel v) (v_names v) → (length (v_names v) < names)%nat →
  ∃ k' outs, @grep _ (kernel_sys loc) lit names fuel search buf data k = Some (0, k') ∧
    Forall2 (name_prints v (v_args v)) (v_names v) outs ∧ shown k' = printed (concat outs) (shown k).
Proof using H H0 H1.
  intros Hv Hdot Hf1 Hf2 Hgf Hns Hn. destruct (kview_bytes _ _ _ Hv) as (A1 & A2 & A3 & _). unfold ARGS_MAX in A3.
  assert (Forall (λ c, 0 < c < 256) (v_args v)) as Hp.
  { apply Forall_forall. intros c Hc. rewrite Forall_forall in A1, A2. specialize (A1 c Hc). specialize (A2 c Hc).
    simpl in *. lia. }
  destruct (grep_ok (spec := kernel_spec loc) lit search buf data names fuel k v Hv Hp ltac:(lia) Hdot Hf1 Hf2 Hgf Hns Hn)
    as (r & k' & E & -> & fd & outs & _ & Ho & Hv').
  exists k', outs. split; [exact E|]. split; [exact Ho|]. by rewrite (kview_shown _ _ _ Hv), (kview_shown _ _ _ Hv').
Qed.

(** [hello] greets the user by the line that was typed. *)
Lemma hello_greets lit buf c v l lines :
  cview loc c v → con_lines c = l :: lines → line_ok l → in_user buf 1024 →
  Forall (λ x, literal lit (kmem (con_kernel c)) x ∧ apart lit x buf 1024) hello_literals →
  ∃ c', @hello _ (console_sys loc) lit buf c = Some (0, c') ∧ con_lines c' = lines ∧
    con_shown c' = printed (greeting ++ l ++ [10] ++ chars "Hello, " ++ l ++ [10]) (con_shown c).
Proof using H H0 H1.
  intros Hv Hin Hl Hu Hlit. rewrite (cview_input _ _ _ Hv) in Hin.
  destruct (run_shown loc _ c v _ _ _ Hv (hello_ok (spec := console_spec loc) (inp := console_input loc)
    lit buf c v l lines Hv Hin Hl (conj Hu Hlit))) as (c' & E & Hs & Hi & _).
  by exists c'.
Qed.

(** [sigtest] asks for handlers, which this kernel refuses, and reads a name;
    its store through the null pointer then ends it before it greets. *)
Lemma sigtest_faults lit charbuf badbuf h1 h2 buf c v l lines :
  cview loc c v → con_lines c = l :: lines → line_ok l → sig_data charbuf badbuf buf → in_user buf 1024 →
  Forall (λ x, literal lit (kmem (con_kernel c)) x ∧ apart lit x buf 1024) sig_literals →
  Forall (λ x, 0 < x < 256) (v_args v) → Z.of_nat (length (v_args v)) < 1024 → load32 (kmem (con_kernel c)) badbuf = 0 →
  ∃ c', @sigtest _ (console_sys loc) lit charbuf badbuf h1 h2 buf c = Some (Faults 0, c') ∧ con_lines c' = lines ∧
    con_shown c' = printed (announced (v_args v) ++ greeting ++ l ++ [10]) (con_shown c).
Proof using H H0 H1.
  intros Hv Hin Hl Hd Hu Hlit Ha Hla Hz. rewrite (cview_input _ _ _ Hv) in Hin.
  destruct (run_shown loc _ c v _ _ _ Hv (sigtest_faults_ok (spec := console_spec loc) (inp := console_input loc)
    lit charbuf badbuf buf c v h1 h2 l lines Hd Hv Hin Hl (conj Hu Hlit) Ha Hla Hz)) as (c' & E & Hs & Hi & _).
  by exists c'.
Qed.

(** C17: [counter] always ends.  Whatever line is typed, it comes back with 0;
    for the lines "0", "1" and "2" it has printed the numbers from 1 to 100,
    10000 and 100000, each on a line of its own, for an empty line none of
    them, for every other line "Wrong Choice!". *)
Theorem counter_counts lit buf c v l lines :
  cview loc c v → con_lines c = l :: lines → line_ok l → in_user buf 1024 →
  Forall (λ x, literal lit (kmem (con_kernel c)) x ∧ apart lit x buf 1024) counter_literals →
  ∃ c', @counter _ (console_sys loc) lit buf c = Some (0, c') ∧ con_lines c' = lines ∧
    con_shown c' = printed (menu ++ l ++ [10] ++
      match choice l with Some n => counting 0 n | None => wrong end) (con_shown c).
Proof using H H0 H1.
  intros Hv Hin Hl Hu Hlit. rewrite (cview_input _ _ _ Hv) in Hin.
  destruct (run_shown loc _ c v _ _ _ Hv (counter_ok (spec := console_spec loc) (inp := console_input loc)
    lit buf c v l lines Hv Hin Hl (conj Hu Hlit))) as (c' & E & Hs & Hi & _).
  by exists c'.
Qed.

(** C15: the dialogue of the shell.  It prompts for each line; to a line
    whose first word names no file it answers "no such command", to an empty
    one nothing, and at "exit" it comes back with 0, having taken no line
    more. *)
Theorem shell_answers lit fuel buf c v ls rest :
  cview loc c v → con_lines c = ls ++ exit_command :: rest → Forall (not_a_program v) ls → (length ls < fuel)%nat →
  in_user buf 1024 → Forall (λ x, literal lit (kmem (con_kernel c)) x ∧ apart lit x buf 1024) shell_literals →
  ∃ c', @shell _ (console_sys loc) lit fuel buf c = Some (0, c') ∧ con_lines c' = rest ∧
    con_shown c' = printed (line "Starting 391 Shell" ++ concat (dialogue <$> ls) ++
      shell_prompt ++ exit_command ++ [10]) (con_shown c).
Proof using H H0 H1.
  intros Hv Hin Hl Hf Hu Hlit. rewrite (cview_input _ _ _ Hv) in Hin.
  destruct (run_shown loc _ c v _ _ _ Hv (shell_ok (spec := console_spec loc) (inp := console_input loc)
    lit buf fuel c v ls rest Hv Hin Hl (conj Hu Hlit) Hf)) as (c' & E & Hs & Hi & _).
  by exists c'.
Qed.

(** C18: [pingpong] runs on.  For every number of rounds it comes to their
    end.  A round is the flight of one character between the walls, from the
    left to the right and back, one column further in each of its 152 pictures;
    the rounds take the letters from A to Z in turn.  Its calls, logged by a
    machine that otherwise runs the same, are: the clock is opened and written
    to once, and then in turn one write to the terminal and one read of the
    clock, which waits for its interrupts, for every picture. *)
Theorem pingpong_flies lit n buf ret_val garbage (k : kernel D) v :
  let rtc := chars "rtc" in
  kview loc k v → v_files v !! rtc = Some Device → v_free v → in_user buf 81 → in_user ret_val 4 →
  literal lit (kmem k) rtc → apart lit rtc buf 81 → apart lit rtc ret_val 4 → buf + 81 ≤ ret_val ∨ ret_val + 4 ≤ buf →
  ∃ k' fd, @pingpong _ (kernel_sys loc) lit n buf ret_val garbage k = Some (Nat.iter n UserTalk.next_char 65, k') ∧
    shown k' = printed (flights n 65) (shown k) ∧
    @pingpong _ (@logged_sys _ (kernel_sys loc)) lit n buf ret_val garbage (k, []) =
      Some (Nat.iter n UserTalk.next_char 65,
            (k', [Opens (lit rtc) fd; Writes fd] ++ concat (replicate (152 * n) [Writes 1; Reads fd]))).
Proof using H H0 H1.
  intros rtc Hv Hf Hfree Hu Hr Hlit Ha1 Ha2 Hd.
  destruct (pingpong_ok (spec := kernel_spec loc) lit buf n k v ret_val garbage Hv Hf Hfree Hu Hr Hlit Ha1 Ha2 Hd)
    as (r & k' & E & -> & fd & _ & Hv').
  pose proof (pingpong_logs (sys := kernel_sys loc) lit buf n ret_val garbage k []) as Hlog. cbv beta in Hlog. rewrite E in Hlog.
  destruct Hlog as (t & El & fd' & ->). exists k', fd'. split; [exact E|]. split; [|exact El].
  by rewrite (kview_shown _ _ _ Hv), (kview_shown _ _ _ Hv').
Qed.

(** C10: fish on this kernel: [main] maps the screen, adds one blink for every
    place where a frame is not blank, lets them blink for 200 ticks of the clock
    and again after each of adding a blink of its own, synchronising it and
    removing the one of cell 200, then for 2000 ticks, and returns 0.  With
    the system calls, the clock's interrupts and the list in the program's
    memory all run, the screen is afterwards as if each character of that
    animation had been written to its cell in turn, colours and all other
    cells as before. *)
Theorem fish_animates lit rows fuel k v head arr vptr file0 file1 ret_val garbage blink_struct (c0 c1 : Z) bs tmp name0 name1 d0 d1 :
  kview loc k v → v_fds v = ∅ → @fish_data PROG_VIDMEM_ADDR head arr vptr → load32 (kmem k) head = 0 →
  @main_locals PROG_VIDMEM_ADDR head arr vptr lit (kmem k) file0 file1 ret_val blink_struct c0 c1 bs tmp name0 name1 →
  v_files v !! chars "rtc" = Some Device → v_files v !! name0 = Some (Regular d0) → v_files v !! name1 = Some (Regular d1) →
  frame_text rows fuel d0 → frame_text rows fuel d1 → (0 < fuel)%nat → Z.of_nat rows * 80 + Z.of_nat fuel + 40 < 65536 →
  ∃ k', @fish _ (video_sys loc) lit head arr vptr rows fuel file0 file1 ret_val garbage blink_struct c0 c1 bs tmp (map_page k)
      = Some (0, k') ∧
    shown (show_page k') = painted (animation d0 d1) (shown k).
Proof using H H0 H1.
  intros Hv He Hd Hh Hm Hr H0' H1' T0 T1 Hf Hb. destruct (descriptors_free v He) as (D1 & D2 & D3).
  assert (load32 (kmem (map_page k)) head = 0) as Hh'.
  { rewrite <- Hh. apply load32_ext. intros i Hi. apply map_page_user. destruct (fd_head _ _ _ Hd). split; lia. }
  pose proof (main_locals_mapped _ _ _ _ _ _ _ _ _ _ _ _ Hm) as Hm'. pose proof (map_page_vview loc k v Hv) as Hv0.
  refine (mapped_run_shown loc _ k v 0 (animation d0 d1) Hv _). unfold animation.
  refine (@fish_ok _ (video_sys loc) (vview loc) (video_spec loc) PROG_VIDMEM_ADDR (video_video loc) head arr vptr Hd lit rows fuel
    (map_page k) v file0 file1 ret_val garbage blink_struct c0 c1 bs tmp name0 name1 d0 d1 Hv0 Hh' _ Hm' Hr H0' H1' D1 D2 D3 T0 T1 Hf Hb).
  unfold PROG_VIDMEM_ADDR. lia.
Qed.
End properties.

(** ** Examples *)

(** The strings of a program, one after the other from [a] on. *)
Fixpoint place (ls : list (list Z)) (a : Z) (m : mem) : mem :=
  match ls with [] => m | l :: ls => place ls (a + Z.of_nat (length l) + 1) (store_bytes m a (l ++ [0])) end.
Fixpoint where_is (ls : list (list Z)) (a : Z) (l : list Z) : Z :=
  match ls with
  | [] => 0
  | l' :: ls => if decide (l = l') then a else where_is ls (a + Z.of_nat (length l') + 1) l
  end.
Definition span (ls : list (list Z)) : Z := foldr (λ l n, Z.of_nat (length l) + 1 + n) 0 ls.

Lemma span_nonneg ls : 0 ≤ span ls.
Proof. induction ls; simpl; lia. Qed.
Lemma mget_place ls a m b : ¬ a ≤ b < a + span ls → mget (place ls a m) b = mget m b.
Proof.
  revert a m. induction ls as [|l ls IH]; intros a m Hb; [done|]. cbn [place]. simpl in Hb.
  pose proof (span_nonneg ls). rewrite IH by lia. apply mget_store_bytes_out. rewrite length_app. simpl. lia.
Qed.
Lemma where_is_range ls a l : l ∈ ls → a ≤ where_is ls a l ∧ where_is ls a l + Z.of_nat (length l) + 1 ≤ a + span ls.
Proof.
  revert a. induction ls as [|l' ls IH]; intros a Hl; [by apply not_elem_of_nil in Hl|]. cbn [where_is span foldr].
  pose proof (span_nonneg ls). unfold span in *. destruct (decide (l = l')) as [->|Hne]; [lia|].
  apply elem_of_cons in Hl as [->|Hl]; [done|]. specialize (IH (a + Z.of_nat (length l') + 1) Hl). lia.
Qed.
Lemma place_literal ls a m l : l ∈ ls → Forall (Forall (λ c, 0 < c < 256)) ls → cstr (place ls a m) (where_is ls a l) l.
Proof.
  revert a m. induction ls as [|l' ls IH]; intros a m Hl Hls; [by apply not_elem_of_nil in Hl|].
  apply Forall_cons in Hls as [Hl' Hls]. cbn [where_is place]. destruct (decide (l = l')) as [->|Hne].
  - apply (cstr_ext (store_bytes m a (l' ++ [0]))).
    + intros i Hi. apply mget_place. lia.
    + apply cstr_store; eapply Forall_impl; [exact Hl'| |exact Hl'|]; simpl; lia.
  - apply elem_of_cons in Hl as [->|Hl]; [done|]. by apply IH.
Qed.

Definition strings_at : Z := 0x8000300.
Definition array_at : Z := 0x8100000.
Definition with_strings (ls : list (list Z)) : kernel pc :=
  set_kmem (place ls strings_at (kmem sample_program)) sample_program.
Definition lit_of (ls : list (list Z)) : list Z → Z := where_is ls strings_at.
(** The program's strings are printable and fit below the arrays. *)
Definition strings_ok (ls : list (list Z)) : Prop := Forall (Forall (λ c, 0 < c < 256)) ls ∧ span ls < 0x1000.

Lemma with_strings_kview ls lines : strings_ok ls → kview sample_locals (with_strings ls) (sample_view lines).
Proof.
  intros [_ Hl]. pose proof (sample_kview lines) as Hv. apply kview_mem; [exact Hv|].
  apply (system_memory_same sample_locals); [apply (kv_layout _ _ _ Hv)|]. intros b Hb. apply mget_place.
  unfold user_addr, PROG_VM_START, SPACE_4MB, strings_at in *. lia.
Qed.
Lemma with_strings_cview ls lines : strings_ok ls → cview sample_locals (Con (with_strings ls) lines) (sample_view lines).
Proof. intros Hl. split; [by apply with_strings_kview|reflexivity]. Qed.
Lemma with_strings_literals ls ls' a n : strings_ok ls → ls' ⊆ ls → array_at ≤ a →
  Forall (λ x, literal (lit_of ls) (kmem (with_strings ls)) x ∧ apart (lit_of ls) x a n) ls'.
Proof.
  intros [Hl Hs] Hin Ha. apply Forall_forall. intros x Hx. apply Hin in Hx.
  destruct (where_is_range ls strings_at x Hx) as [R1 R2]. change (where_is ls strings_at x) with (lit_of ls x) in *.
  unfold strings_at, array_at in *. split; [split; [by apply place_literal|]|left; lia].
  unfold in_user, PROG_VM_START, SPACE_4MB. lia.
Qed.

(** The user types "ab" and Return while a program reads up to 10 bytes. *)
Lemma typed_line_is_read_witness :
  ∃ c' pad, @ece391_read _ (console_sys sample_locals) 0 array_at 10 (Con (with_strings []) [[97; 98]]) = Some (3, c') ∧
    con_shown c' = printed [97; 98; 10] (con_shown (Con (with_strings []) [[97; 98]])) ∧ con_lines c' = [] ∧
    Z.of_nat (3 + length pad) ≤ 10 ∧
    user_same (store_bytes (kmem (with_strings [])) array_at ([97; 98] ++ [10] ++ pad)) (kmem (con_kernel c')).
Proof.
  apply (typed_line_is_read sample_locals (Con (with_strings []) [[97; 98]]) (sample_view [[97; 98]]) [97; 98] [] array_at 10).
  - apply with_strings_cview. split; [constructor|reflexivity].
  - reflexivity.
  - split; [simpl; lia|repeat constructor; lia].
  - simpl. lia.
  - split; vm_compute; congruence.
Defined.

(** The user types "0": all tests are run. *)
Lemma syserr_passes_witness :
  let lit := lit_of syserr_literals in
  ∃ c', @syserr _ (console_sys sample_locals) lit array_at 0x8200000 (Con (with_strings syserr_literals) [[48]]) = Some (0, c') ∧
    con_shown c' = printed (prompt ++ [48; 10] ++ concat (test_line <$> seqZ 1 8) ++ overall)
      (con_shown (Con (with_strings syserr_literals) [[48]])) ∧
    ∀ fd, 2 ≤ fd < FILE_ARRAY_LEN → flags (cur_fd fd (con_kernel c')) = 0.
Proof.
  assert (strings_ok syserr_literals) as Hok by (split; [vm_decide|reflexivity]).
  apply (syserr_passes sample_locals (lit_of syserr_literals) array_at 0x8200000
    (Con (with_strings syserr_literals) [[48]]) (sample_view [[48]]) [48] []).
  - by apply with_strings_cview.
  - reflexivity.
  - split; [simpl; lia|repeat constructor; lia].
  - split; [reflexivity|vm_compute; reflexivity|vm_decide].
  - by apply with_strings_literals.
  - split; vm_compute; congruence.
Defined.

Definition grep_strings : list (list Z) := [chars "."; chars ":"; [10]].
(** The file "a" has the line "ha". *)
Lemma grep_prints_matches_witness :
  ∃ k', @grep _ (kernel_sys sample_locals) (lit_of grep_strings) 4 4 array_at 0x8200000 0x8300000 (with_strings grep_strings)
      = Some (0, k') ∧
    shown k' = printed (chars "a:ha" ++ [10]) (shown (with_strings grep_strings)).
Proof.
  assert (strings_ok grep_strings) as Hok by (split; [vm_decide|reflexivity]).
  destruct (grep_prints_matches sample_locals (lit_of grep_strings) 4 4 array_at 0x8200000 0x8300000
    (with_strings grep_strings) (sample_view [])) as (k' & outs & E & Ho & Hs).
  - by apply with_strings_kview.
  - vm_compute. reflexivity.
  - exists 2. split; [unfold FILE_ARRAY_LEN; lia|reflexivity].
  - intros fd st. destruct (decide (fd = 2)) as [->|Hne].
    + exists 3. split; [unfold FILE_ARRAY_LEN; lia|reflexivity].
    + exists 2. split; [unfold FILE_ARRAY_LEN; lia|].
      cbn [v_fds v_set_fd sample_view]. by rewrite lookup_partial_alter_ne.
  - split.
    + split; vm_compute; congruence.
    + split; vm_compute; congruence.
    + split; vm_compute; congruence.
    + unfold off, array_at. lia.
    + pose proof (λ a n, with_strings_literals grep_strings grep_strings a n Hok (reflexivity _)) as Hl.
      pose proof (Hl array_at 1024 ltac:(vm_compute; congruence)) as H1.
      pose proof (Hl 0x8200000 33 ltac:(vm_compute; congruence)) as H2.
      pose proof (Hl 0x8300000 1025 ltac:(vm_compute; congruence)) as H3.
      rewrite Forall_forall in H1, H2, H3. apply Forall_forall. intros x Hx.
      destruct (H1 x Hx), (H2 x Hx), (H3 x Hx). by split_and!.
    + vm_compute. congruence.
  - vm_compute v_names. repeat apply Forall_cons_2; [..|apply Forall_nil_2];
      (split; [split; [simpl; lia|repeat constructor; lia]|]; split; [repeat constructor; discriminate|]).
    + by left.
    + right. exists (Regular [104; 97; 10]). split; [vm_compute; reflexivity|].
      simpl. lia.
    + right. exists Device. split; [vm_compute; reflexivity|simpl; lia].
  - simpl. lia.
  - change (v_names (sample_view [])) with [[46]; [97]; [114; 116; 99]] in Ho.
    apply Forall2_cons_inv_l in Ho as (o1 & ? & P1 & Ho & ->). apply Forall2_cons_inv_l in Ho as (o2 & ? & P2 & Ho & ->).
    apply Forall2_cons_inv_l in Ho as (o3 & ? & P3 & Ho & ->). apply Forall2_nil_inv_l in Ho as ->.
    unfold name_prints in P1, P2, P3. rewrite decide_True in P1 by reflexivity.
    rewrite decide_False in P2 by discriminate. rewrite decide_False in P3 by discriminate.
    destruct P2 as (f2 & F2 & P2), P3 as (f3 & F3 & P3).
    assert (f2 = Regular [104; 97; 10]) as -> by (vm_compute in F2; congruence).
    assert (f3 = Device) as -> by (vm_compute in F3; congruence).
    destruct P2 as [P2 _]. rewrite P1, P3, P2 in Hs; [exists k'; split; [exact E|exact Hs]|].
    split; [repeat constructor; lia|simpl; repeat constructor; simpl; lia].
Defined.

(** The user types "bob". *)
Lemma hello_greets_witness :
  let c := Con (with_strings hello_literals) [chars "bob"] in
  ∃ c', @hello _ (console_sys sample_locals) (lit_of hello_literals) array_at c = Some (0, c') ∧ con_lines c' = [] ∧
    con_shown c' = printed (greeting ++ chars "bob" ++ [10] ++ chars "Hello, " ++ chars "bob" ++ [10]) (con_shown c).
Proof.
  assert (strings_ok hello_literals) as Hok by (split; [vm_decide|reflexivity]).
  apply (hello_greets sample_locals (lit_of hello_literals) array_at _ (sample_view [chars "bob"]) (chars "bob") []).
  - by apply with_strings_cview.
  - reflexivity.
  - split; [vm_compute; repeat constructor|vm_decide].
  - split; vm_compute; congruence.
  - by apply with_strings_literals.
Defined.

Lemma sigtest_faults_witness :
  let c := Con (with_strings sig_literals) [chars "bob"] in
  ∃ c', @sigtest _ (console_sys sample_locals) (lit_of sig_literals) 0x8200000 0x8200010 0 0 array_at c = Some (Faults 0, c') ∧
    con_lines c' = [] ∧ con_shown c' = printed (greeting ++ chars "bob" ++ [10]) (con_shown c).
Proof.
  assert (strings_ok sig_literals) as Hok by (split; [vm_decide|reflexivity]).
  apply (sigtest_faults sample_locals (lit_of sig_literals) 0x8200000 0x8200010 0 0 array_at _ (sample_view [chars "bob"]) (chars "bob") []).
  - by apply with_strings_cview.
  - reflexivity.
  - split; [vm_compute; repeat constructor|vm_decide].
  - split; unfold in_user, user_addr, array_at, PROG_VM_START, SPACE_4MB; lia.
  - split; vm_compute; congruence.
  - by apply with_strings_literals.
  - repeat constructor; lia.
  - simpl. lia.
  - vm_compute. reflexivity.
Defined.

(** The user types "0". *)
Lemma counter_counts_witness :
  let c := Con (with_strings counter_literals) [[48]] in
  ∃ c', @counter _ (console_sys sample_locals) (lit_of counter_literals) array_at c = Some (0, c') ∧ con_lines c' = [] ∧
    con_shown c' = printed (menu ++ [48] ++ [10] ++ counting 0 100) (con_shown c).
Proof.
  assert (strings_ok counter_literals) as Hok by (split; [vm_decide|reflexivity]).
  apply (counter_counts sample_locals (lit_of counter_literals) array_at _ (sample_view [[48]]) [48] []).
  - by apply with_strings_cview.
  - reflexivity.
  - split; [simpl; lia|repeat constructor; lia].
  - split; vm_compute; congruence.
  - by apply with_strings_literals.
Defined.

(** The user types "nix -a", nothing, and "exit". *)
Lemma shell_answers_witness :
  let ls := [chars "nix -a"; []] in
  let c := Con (with_strings shell_literals) (ls ++ [exit_command]) in
  ∃ c', @shell _ (console_sys sample_locals) (lit_of shell_literals) 3 array_at c = Some (0, c') ∧ con_lines c' = [] ∧
    con_shown c' = printed (line "Starting 391 Shell" ++ concat (dialogue <$> ls) ++ shell_prompt ++ exit_command ++ [10])
      (con_shown c).
Proof.
  assert (strings_ok shell_literals) as Hok by (split; [vm_decide|reflexivity]).
  apply (shell_answers sample_locals (lit_of shell_literals) 3 array_at _
    (sample_view ([chars "nix -a"; []] ++ [exit_command])) [chars "nix -a"; []] []).
  - by apply with_strings_cview.
  - reflexivity.
  - repeat apply Forall_cons_2; [..|apply Forall_nil_2].
    + split; [split; [vm_compute; repeat constructor|vm_decide]|]. split; [vm_compute; congruence|].
      right. vm_decide.
    + split; [split; [simpl; lia|constructor]|]. split; [vm_compute; congruence|by left].
  - simpl. lia.
  - split; vm_compute; congruence.
  - by apply with_strings_literals.
Defined.

Lemma pingpong_flies_witness :
  ∃ k', @pingpong _ (kernel_sys sample_locals) (lit_of [chars "rtc"]) 3 array_at 0x8200000 0 (with_strings [chars "rtc"])
      = Some (68, k') ∧
    shown k' = printed (flights 3 65) (shown (with_strings [chars "rtc"])).
Proof.
  cut (∃ k' fd, @pingpong _ (kernel_sys sample_locals) (lit_of [chars "rtc"]) 3 array_at 0x8200000 0
      (with_strings [chars "rtc"]) = Some (68, k') ∧
    shown k' = printed (flights 3 65) (shown (with_strings [chars "rtc"])) ∧
    @pingpong _ (@logged_sys _ (kernel_sys sample_locals)) (lit_of [chars "rtc"]) 3 array_at 0x8200000 0
      (with_strings [chars "rtc"], []) =
      Some (68, (k', [Opens (lit_of [chars "rtc"] (chars "rtc")) fd; Writes fd] ++
                     concat (replicate (152 * 3) [Writes 1; Reads fd])))).
  { intros (k' & fd & E1 & E2 & _). exists k'. split; [exact E1|exact E2]. }
  assert (strings_ok [chars "rtc"]) as Hok by (split; [vm_decide|reflexivity]).
  pose proof (λ a n, with_strings_literals [chars "rtc"] [chars "rtc"] a n Hok (reflexivity _)) as Hl.
  pose proof (proj1 (Forall_singleton _ _) (Hl array_at 81 ltac:(vm_compute; congruence))) as [H1 H2].
  pose proof (proj1 (Forall_singleton _ _) (Hl 0x8200000 4 ltac:(vm_compute; congruence))) as [_ H3].
  apply (pingpong_flies sample_locals (lit_of [chars "rtc"]) 3 array_at 0x8200000 0 (with_strings [chars "rtc"])
    (sample_view [])).
  - by apply with_strings_kview.
  - vm_compute. reflexivity.
  - exists 2. split; [unfold FILE_ARRAY_LEN; lia|reflexivity].
  - split; vm_compute; congruence.
  - split; vm_compute; congruence.
  - exact H1.
  - exact H2.
  - exact H3.
  - unfold array_at. lia.
Defined.

Definition fish_strings : list (list Z) := [chars "rtc"; chars "a"].
(** Both frames are the file "a": "ha". *)
Lemma fish_animates_witness :
  let k := with_strings fish_strings in
  let lit := lit_of fish_strings in
  ∃ k', @fish _ (video_sys sample_locals) lit 0x8210000 0x8200000 0x8210100 3 4 (lit (chars "a")) (lit (chars "a"))
      0x8220000 0 0x8220100 0x8220200 0x8220300 0x8220400 0x8220500 (map_page k) = Some (0, k') ∧
    shown (show_page k') = painted (animation [104; 97; 10] [104; 97; 10]) (shown k).
Proof.
  assert (strings_ok fish_strings) as Hok by (split; [vm_decide|reflexivity]).
  pose proof (λ a n, with_strings_literals fish_strings fish_strings a n Hok (reflexivity _)) as Hl.
  assert (∀ a n, array_at ≤ a → (literal (lit_of fish_strings) (kmem (with_strings fish_strings)) (chars "rtc") ∧
      apart (lit_of fish_strings) (chars "rtc") a n) ∧
    (literal (lit_of fish_strings) (kmem (with_strings fish_strings)) (chars "a") ∧
      apart (lit_of fish_strings) (chars "a") a n)) as Hs.
  { intros a n Ha. specialize (Hl a n Ha). apply Forall_cons in Hl as [H1 Hl]. apply Forall_cons in Hl as [H2 _]. by split. }
  apply (fish_animates sample_locals (lit_of fish_strings) 3 4 (with_strings fish_strings) (sample_view [])
    0x8210000 0x8200000 0x8210100 (lit_of fish_strings (chars "a")) (lit_of fish_strings (chars "a"))
    0x8220000 0 0x8220100 0x8220200 0x8220300 0x8220400 0x8220500 (chars "a") (chars "a") [104; 97; 10] [104; 97; 10]).
  - by apply with_strings_kview.
  - reflexivity.
  - split; [|split; vm_compute; congruence..|right; vm_compute; congruence].
    split; unfold PROG_VIDMEM_ADDR; lia.
  - vm_compute. reflexivity.
  - split.
    + split; unfold in_user, off_list, PROG_VM_START, SPACE_4MB, PROG_VIDMEM_ADDR; lia.
    + unfold in_user, off_list, PROG_VM_START, SPACE_4MB, PROG_VIDMEM_ADDR. lia.
    + unfold in_user, off_list, PROG_VM_START, SPACE_4MB, PROG_VIDMEM_ADDR. lia.
    + destruct (Hs array_at 0 (reflexivity _)) as [[? _] [? _]]. by split_and!.
    + split; apply Hs; vm_compute; congruence.
    + repeat apply Forall_cons_2; [..|apply Forall_nil_2]; split; apply Hs; vm_compute; congruence.
  - vm_compute. reflexivity.
  - vm_compute. reflexivity.
  - vm_compute. reflexivity.
  - split; [repeat constructor; lia|simpl; lia|simpl; repeat constructor; simpl; lia].
  - split; [repeat constructor; lia|simpl; lia|simpl; repeat constructor; simpl; lia].
  - lia.
  - simpl. lia.
Defined.
